(* ===== verification/_CoqProject ===== *)
-Q . S2P
Prelude.v
Go.v
Release.v
Tracing.v
NetIP.v
Memory.v
DeepCopy.v
Api.v
Sdk.v
Platform.v
Scope.v
Ensure.v
NetworkCtl.v
RouterCtl.v
LoadBalancerCtl.v
FloatingIPCtl.v
ServerGroupCtl.v
ClusterCtl.v
MachineCtl.v
GroupMutex.v
Catalog.v
TestUtils.v
TemplateCtl.v
Webhook.v
Admission.v
MachineWebhook.v
Composition.v
Schema.v
Strconv.v
Startup.v
CommandLine.v
ReleaseTool.v
Watching.v
Polling.v
LookFirst.v
Settling.v
Turns.v
Providing.v
Termination.v
Convergence.v
MachineTurns.v
Hosting.v
Sim.v
SimCloud.v
SimMachines.v
Witness.v
MachineWitness.v
UnitTests.v
FloatingIPTests.v
MachineTests.v
ReconcileTests.v
WebhookTests.v
