(* ===== verification/Prelude.v ===== *)
(** * Cluster API provider for cloudscale.ch: a verified model

    The program is a Kubernetes operator. Three controllers reconcile custom
    resources (a CloudscaleCluster, its CloudscaleMachines, and machine templates)
    against the cloudscale.ch API, and four admission webhooks decide which objects
    they ever see. A reconcile starts from the stored object, calls the API of the
    cloud, and ends with one patch of the object; when it fails, or has to wait, it
    runs again later from what was stored. Its difficulty is that calls fail and
    lose answers half way, that the same resources are looked up, created, adopted
    and deleted over many such runs, and that everything the next run knows is in
    the object's status or in tags at the provider.

    ** How the code is modelled

    A function of the Go code becomes a function of the same name in the monad of
    Go.v: [GoM World Event O A] reads and writes one API object of type [O] (the
    [scope.CloudscaleCluster] or [scope.CloudscaleMachine] that the code passes
    around by pointer), calls the world, logs every call with its answer, and
    returns a value of type [A] or an [error]. [error] has the forms that the code
    distinguishes ([%w] wrapping, [errors.Join], the SDK's [ErrorResponse], time-outs,
    sentinels). [deferred] is a deferred function over named results, [bind_flow]
    ([let?]) a statement that may return early, [foreach] and [foldM] are loops,
    [try] inspects an error instead of passing it on, [deref] fails on nil. All
    loops of the program run over lists, so the model functions recurse over them
    and are total; the one exception is the loop of [parseIPv6] (NetIP.v), whose fuel
    is the number of groups an address can have. What takes many steps is the
    sequence of reconciles, which Turns.v and Composition.v iterate.

    Structs are records with the struct's name as prefix; pointers are options, and
    so are the slice and the map of a machine's specification, whose difference between
    nil and empty the code compares;
    identifiers and tags are strings and [gmap string string]; integers that the
    program only copies and compares are [Z], and where width matters it is written
    out (Release.v: [uint64] arithmetic of [strconv]; NetIP.v: 32- and 128-bit
    addresses). Texts of conditions, events and errors are
    modelled to the letter, except what [net] and [net/netip] say about a bad address.

    Code that is not in the repository is a parameter: [Client] (Sdk.v) is the
    record of SDK services that src/internal/cloudscale/client.go bundles, and
    [Platform] (Platform.v) is the class of everything else the controllers call
    (controller-runtime's client, the patch helper, conditions and finalizers with
    their documented laws). What a theorem needs of them beyond that is a class of
    its own, such as [TaggedService] (a listing by tags is what is live with these
    tags), [MemberService], [NetworkIDs] (identifiers are not empty), and [Environment]
    with its refinements [ClusterEnvironment], [Recovering], [Providing] and
    [MachineEnvironment], [Undeploying], [Hosting], which fail only as often as a budget
    allows. Sim.v, SimCloud.v and SimMachines.v implement all of these classes by one
    in-memory cloud that injects faults, so that no set of hypotheses is contradictory,
    and the files Witness and MachineWitness apply each theorem that has hypotheses to
    it. Process start has a class of its own, [Runtime] (Startup.v), and so have the
    copying methods of other packages' types, [KubernetesTypes] (DeepCopy.v); each comes
    with an instance at the end of its file.

    The reconcilers treat an object as a value: the patch helper keeps a copy of it, and
    what is read through the client's cache is copied before it is changed. That these
    copies share nothing with their originals is a theorem about the generated copying
    methods, on a memory with pointers, slices and maps (Memory.v, DeepCopy.v).

    ** The files

    - Prelude, Go: notation, tactics and list lemmas; the run time, the monad and
      its logic. [post] is a two-state postcondition; [respects R m] says that [m]
      moves the state along the relation [R], and the tactic [frame] proves it along
      the structure of the program for the relations in use: [keeps] (an observation
      of the object), [emits] (every call satisfies a predicate), [preserves] (an
      invariant), and those of the files below.
    - Api (src/api/v1beta2), NetIP (the parts of [net] and [net/netip] in use), Sdk,
      Platform, Scope (src/internal/scope, src/internal/credentials).
    - Ensure: [ensureResource] of src/internal/controller/cloudscale_services.go, with
      the relation [ensured] as its specification.
    - NetworkCtl, RouterCtl, LoadBalancerCtl, FloatingIPCtl, ServerGroupCtl: the parts
      cloudscalecluster_network.go, _router.go, _loadbalancer.go, _floatingip.go and
      _servergroup.go of src/internal/controller. ClusterCtl puts them together as
      cloudscalecluster_controller.go does. Its classes [Stage] and [Teardown] are the
      contracts of a provisioning and a deletion step.
    - MachineCtl: cloudscalemachine_controller.go, _server.go and _servergroup.go.
      GroupMutex: the section under [serverGroupMu] of the last as a step relation of
      interleaving workers, tied to the sequential function by a refinement lemma.
    - Catalog (src/internal/cloudscale/regions.go, flavors.go) and TemplateCtl
      (cloudscalemachinetemplate_controller.go).
    - Webhook, Admission: cloudscalecluster_webhook.go, and a declarative description
      of what it admits. MachineWebhook: the three other webhooks.
    - Composition: webhooks and controllers together. Watching: the events that a
      waiting reconcile relies on, with the mapping functions of the two controllers and
      the filters that the events pass. Schema, Polling, LookFirst: properties of whole
      reconciles, each with the rules it needs.
    - Settling: the logic of runs that do their job or are paid for from a budget of
      faults; Turns: many reconciles, each from what the one before has stored.
      Termination applies them to the deletion of clusters, Providing and Convergence to
      their provisioning, MachineTurns and Hosting to the deletion and the provisioning
      of machines.
    - Strconv: the parts of Go's [strconv] that the flags go through, with the exact
      values of [float64]. Startup: the process (src/cmd/main.go,
      src/internal/observability/tracing.go) from the scheme of [init] and the values of
      the flags to the exit code, with [NewClient] and [NewTransport] of client.go and
      the registration of the controllers and webhooks. CommandLine: the flags of
      src/cmd/main.go and how Go's [flag] reads them from the arguments.
    - Memory, DeepCopy: zz_generated.deepcopy.go on a memory of locations. The class
      [GoType] is what the copying method of one type promises to the types that
      contain it.
    - Release, ReleaseTool (src/hack/verify-release-metadata: the check, and the process
      with its flags), Tracing (trace_context.go and span.go of
      src/internal/observability).
    - Sim, SimCloud, SimMachines, Witness, MachineWitness: the concrete platform, and the
      theorems on it.
    - TestUtils (src/internal/testutils): the mocks, scopes and fixtures of the tests.
      UnitTests, FloatingIPTests, MachineTests and ReconcileTests run unit tests of
      src/internal/controller on the model, WebhookTests those of src/internal/webhook and
      src/internal/cloudscale; the [Example]s have the names of the tests.

    ** What is shown

    - Provisioning. A reconcile that has nothing more to wait for has recorded
      everything the specification asks for, and is Ready ([reconcileNormal_converged],
      [reconcileNormal_ready]), and reconciling a cluster of managed resources gets
      there ([provisioning_converges]), as does reconciling a machine
      ([machine_provisioning_converges]); what NetworkReady means, also when a creation
      timed out ([reconcileNetwork_condition]); Ready always agrees with the sub-conditions; pool
      members are exactly the reachable control plane machines
      ([reconcileLBMembers_converges], [desiredFrom_spec]); the server of a machine
      follows its specification on every branch ([reconcileServer_outcome],
      [machine_settles], [machine_ready]).
    - No duplicates and no theft. Creations come after a listing, by tags that the new
      resource carries, that showed nothing of what is wanted
      ([look_before_create]), also when answers are lost
      ([reconcileManagedNetwork_no_duplicates], [reconcileLoadBalancer_no_duplicates],
      [admitted_machine_one_server]) and when workers interleave
      ([mutex_prevents_duplicates]); adopted resources are never taken over nor
      deleted, and what is managed is recorded before it exists
      ([reconcileNetwork_ownership], [reconcileRouters_write_ahead],
      [reconcileRouters_no_foreign_claim], [deleteRouters_only_managed]).
    - Deletion. Only deletions are made, in dependency order; the finalizer goes only
      when the provider has confirmed that all is gone; nothing is forgotten on
      failure; and it terminates ([reconcileDelete_order], [reconcileDelete_finalizer],
      [deleteNetwork_forgets_nothing], [deleteRouters_forgets_nothing],
      [deletion_terminates], [machine_deletion_terminates], [machine_delete]).
    - The object. One patch, last, of the final object, which moves the observed
      generation exactly after success ([reconcileOwned_patch]); what
      happens in which stage of the life cycle ([reconcileOwned_lifecycle],
      [machine_lifecycle]); unique list keys ([reconcile_keeps_keys]); waiting times
      between 5 and 30 seconds ([reconcile_polls]), and where a machine waits without
      asking for another turn, the event it waits for leads back to it, if the filters
      let it pass
      ([waiting_machine_is_woken]).
    - Admission. The webhooks are equivalent to declarative descriptions
      ([ValidateCreate_iff], [ValidateUpdate_iff], [machine_admission_iff]), and the
      controllers never write an object they refuse ([reconcile_keeps_admitted]).
    - The process. It serves only what it checked and fetched ([process_serves]), so that
      admission follows the cloud's catalogues ([process_admits]), and it shuts its tracer
      down on every path ([process_traces]), all from its command line, whose flags mean
      what they say ([commandline_read], [commandline_roundtrip]).
    - Memory. Every generated copy is deep ([DeepCopy_is_deep]).
    - The tools: [main_accepts] of ReleaseTool.v, [tracing_one_span], [template_capacity].

    ** Not modelled

    What controller-runtime does with what is registered: its queues, and the exit that
    its signal handler makes on a second signal, which like any kill ends the process at
    once, without deferred functions, so that the theorems on the process are about
    runs that are not cut short so; the flags that zap and
    imported packages add (a parameter of CommandLine.v and ReleaseTool.v); src/internal/testenv and
    src/test, which start real API servers; of src/internal/testutils the updates that the
    controllers never make, and the generation. A panic is an error value or, in Memory.v, the absence of a result. Log lines and spans inside the
    controllers are left out, as they do not influence them. Go's
    nil and empty slices and maps are one value where the code treats them alike; where
    it tells them apart ([reflect.DeepEqual] in the webhooks, the generated copies) the
    model does, too. Time is not
    modelled except for the requested waiting times; last transition times of
    conditions are the library's business. *)

From stdpp Require Export base list gmap strings.
From Stdlib Require Export ZArith.

#[export] Set Default Goal Selector "!".
#[export] Set Warnings "-clear-no-such-hyp".

(** ** Notation: Go's comparisons on values with decidable equality *)

Declare Scope go_scope.
Delimit Scope go_scope with go.

Notation "x == y" := (bool_decide (x = y)) (at level 70, no associativity) : go_scope.
Notation "x != y" := (negb (bool_decide (x = y))) (at level 70, no associativity) : go_scope.

(** ** Hint databases

    [gom] collects the structural rules of the reconciler monad (file Go) and
    the frame lemmas of each component; [golist] rewrites the list helpers of
    this file. *)

Create HintDb gom discriminated.
Create Rewrite HintDb golist.

(** ** Tactics *)

(** Turn every boolean test in sight into the proposition it decides. *)
Ltac go_bools :=
  repeat match goal with
  | H : negb _ = true |- _ => apply negb_true_iff in H
  | H : negb _ = false |- _ => apply negb_false_iff in H
  | H : andb _ _ = true |- _ => apply andb_true_iff in H; destruct H
  | H : orb _ _ = false |- _ => apply orb_false_iff in H; destruct H
  | H : bool_decide _ = true |- _ => apply bool_decide_eq_true_1 in H
  | H : bool_decide _ = false |- _ => apply bool_decide_eq_false_1 in H
  end.

(** Case analysis on the innermost test or match of the goal, keeping the
    equation, with the boolean tests reflected and equations substituted. *)
Ltac go_case := case_match; go_bools; simplify_eq/=.
Ltac go_cases := repeat go_case.

(** A predicate on each element of an explicit list. *)
Ltac go_forall := rewrite ?Forall_app, ?Forall_cons, ?Forall_nil; split_and!; try done.

(** ** First-match search and update in a list of records keyed by a string

    The status lists of the API types are searched with a [for] loop that
    returns a pointer to the first entry of the given name, and updated through
    that pointer. *)

Section keyed.
Context {A : Type} (key : A → string).

Fixpoint find_by (k : string) (l : list A) : option A :=
  match l with
  | [] => None
  | x :: l => if bool_decide (key x = k) then Some x else find_by k l
  end.

(** Update through the pointer returned by the search: the first entry of
    that key changes, the others stay. *)
Fixpoint update_by (k : string) (f : A → A) (l : list A) : list A :=
  match l with
  | [] => []
  | x :: l => if bool_decide (key x = k) then f x :: l else x :: update_by k f l
  end.

(** Update the first entry of that key, or append a new one. *)
Definition upsert_by (k : string) (f : A → A) (new : A) (l : list A) : list A :=
  match find_by k l with
  | Some _ => update_by k f l
  | None => l ++ [new]
  end.

Lemma find_by_Some k l x : find_by k l = Some x → x ∈ l ∧ key x = k.
Proof.
  induction l as [|y l IH]; simpl; [done|].
  case_bool_decide; intros ?; simplify_eq; [by split; [left|]|].
  destruct (IH H0); split; [by right|done].
Qed.

Lemma find_by_None k l : find_by k l = None ↔ ∀ x, x ∈ l → key x ≠ k.
Proof.
  induction l as [|y l IH]; simpl.
  { split; [intros _ x Hx; by apply not_elem_of_nil in Hx | done]. }
  case_bool_decide as Hk.
  - split; [done|]. intros H. destruct (H y); [by left|done].
  - rewrite IH. split.
    + intros H x [->|?]%elem_of_cons; auto.
    + intros H x Hx. apply H. by right.
Qed.

Lemma find_by_is_Some k l : is_Some (find_by k l) ↔ k ∈ (key <$> l).
Proof.
  destruct (find_by k l) as [x|] eqn:E.
  - apply find_by_Some in E as [? <-]. split; [|by eauto].
    intros _. by apply list_elem_of_fmap_2.
  - rewrite find_by_None in E. split; [by intros []|].
    intros (x & -> & Hx)%list_elem_of_fmap. by destruct (E x).
Qed.

Lemma update_by_keys k f l :
  (∀ x, key (f x) = key x) → key <$> update_by k f l = key <$> l.
Proof.
  intros Hf. induction l as [|x l IH]; csimpl; [done|].
  case_bool_decide; csimpl; [by rewrite Hf|by rewrite IH].
Qed.

Lemma find_by_app k l1 l2 :
  find_by k (l1 ++ l2) =
    match find_by k l1 with Some x => Some x | None => find_by k l2 end.
Proof. induction l1; simpl; [done|]. by case_bool_decide. Qed.

Lemma find_update_eq k f l :
  (∀ x, key (f x) = key x) → find_by k (update_by k f l) = f <$> find_by k l.
Proof.
  intros Hf. induction l as [|x l IH]; simpl; [done|].
  case_bool_decide as Hk; simpl.
  - by rewrite Hf, bool_decide_eq_true_2.
  - by rewrite bool_decide_eq_false_2.
Qed.

Lemma find_update_ne k k' f l :
  k ≠ k' → (∀ x, key (f x) = key x) →
  find_by k' (update_by k f l) = find_by k' l.
Proof.
  intros Hne Hf. induction l as [|x l IH]; simpl; [done|].
  case_bool_decide as Hk; simpl.
  - rewrite Hf, Hk. by rewrite bool_decide_eq_false_2.
  - by case_bool_decide.
Qed.

(** What is written under a key is what is read under it. *)
Lemma find_upsert_eq k f new l :
  (∀ x, key (f x) = key x) → key new = k →
  find_by k (upsert_by k f new l) =
    Some (match find_by k l with Some x => f x | None => new end).
Proof.
  intros Hf Hn. unfold upsert_by. destruct (find_by k l) as [x|] eqn:E.
  - by rewrite find_update_eq, E.
  - rewrite find_by_app, E. simpl. by rewrite bool_decide_eq_true_2.
Qed.

Lemma find_upsert_ne k k' f new l :
  k ≠ k' → (∀ x, key (f x) = key x) → key new = k →
  find_by k' (upsert_by k f new l) = find_by k' l.
Proof.
  intros Hne Hf Hn. unfold upsert_by. destruct (find_by k l) as [x|] eqn:E.
  - by rewrite find_update_ne.
  - rewrite find_by_app. simpl. rewrite bool_decide_eq_false_2 by congruence.
    by destruct (find_by k' l).
Qed.

Lemma upsert_keys_NoDup k f new l :
  (∀ x, key (f x) = key x) → key new = k →
  NoDup (key <$> l) → NoDup (key <$> upsert_by k f new l).
Proof.
  intros Hf Hn Hl. unfold upsert_by. destruct (find_by k l) as [x|] eqn:E.
  - by rewrite update_by_keys.
  - rewrite fmap_app. apply NoDup_app. split_and!; [done| |apply NoDup_singleton].
    intros y Hy Hy'. apply list_elem_of_fmap in Hy' as (z & -> & Hz).
    apply list_elem_of_singleton in Hz as ->.
    apply find_by_is_Some in Hy as [? Hy]. congruence.
Qed.

Lemma upsert_keys k k' f new l :
  (∀ x, key (f x) = key x) → key new = k →
  k' ∈ (key <$> upsert_by k f new l) ↔ k' = k ∨ k' ∈ (key <$> l).
Proof.
  intros Hf Hn. rewrite <- !find_by_is_Some. destruct (decide (k = k')) as [<-|Hne].
  - rewrite find_upsert_eq by done. split; [by left|by eauto].
  - rewrite find_upsert_ne by done. split; [by right|by intros [->|?]].
Qed.

(** With unique keys, every entry is the one its key finds. *)
Lemma find_by_unique l x :
  NoDup (key <$> l) → x ∈ l → find_by (key x) l = Some x.
Proof.
  induction l as [|y l IH]; csimpl; intros Hnd Hx.
  { by apply not_elem_of_nil in Hx. }
  apply NoDup_cons in Hnd as [Hy Hnd].
  apply elem_of_cons in Hx as [->|Hx].
  - by rewrite bool_decide_eq_true_2.
  - rewrite bool_decide_eq_false_2; [by apply IH|].
    intros Heq. apply Hy. rewrite Heq. by apply list_elem_of_fmap_2.
Qed.

Lemma update_by_elem k f l x :
  x ∈ update_by k f l → x ∈ l ∨ ∃ y, find_by k l = Some y ∧ x = f y.
Proof.
  induction l as [|y l IH]; simpl; [by left|].
  case_bool_decide.
  - intros [->|Hx]%elem_of_cons; [right; eauto|left; by right].
  - intros [->|Hx]%elem_of_cons; [left; by left|].
    destruct (IH Hx) as [?|?]; [left; by right|by right].
Qed.

Lemma upsert_by_elem k f new l x :
  x ∈ upsert_by k f new l →
  x ∈ l ∨ x = match find_by k l with Some y => f y | None => new end.
Proof.
  unfold upsert_by. destruct (find_by k l) as [y|] eqn:E.
  - intros [?|(z & Hz & ->)]%update_by_elem; [by left|right; congruence].
  - intros [?|?%list_elem_of_singleton]%elem_of_app; auto.
Qed.
End keyed.

#[export] Hint Rewrite @find_by_app : golist.

(** ** A map filled by a loop over a slice: a later entry of the same key wins *)

Section index.
Context {A : Type} (key : A → string).

Definition index_by (l : list A) : gmap string A :=
  foldl (λ m x, <[key x := x]> m) ∅ l.

Lemma index_by_snoc l x : index_by (l ++ [x]) = <[key x := x]> (index_by l).
Proof. unfold index_by. by rewrite foldl_app. Qed.

Lemma index_by_Some l k x : index_by l !! k = Some x → x ∈ l ∧ key x = k.
Proof.
  induction l as [|y l IH] using rev_ind; [done|].
  rewrite index_by_snoc, elem_of_app. intros [[<- <-]|[? ?]]%lookup_insert_Some.
  - split; [right; by left|done].
  - split; [left|]; by apply IH.
Qed.

Lemma index_by_is_Some l k : is_Some (index_by l !! k) ↔ k ∈ (key <$> l).
Proof.
  induction l as [|y l IH] using rev_ind.
  { split; [by intros []|by intros ?%not_elem_of_nil]. }
  rewrite index_by_snoc, fmap_app, elem_of_app, lookup_insert_is_Some, IH. csimpl.
  rewrite list_elem_of_singleton.
  split; [intros [->|[_ ?]]; auto|].
  destruct (decide (key y = k)); [by left|]. intros [?| ->]; [right|done]. done.
Qed.

Lemma index_by_unique l x :
  NoDup (key <$> l) → x ∈ l → index_by l !! key x = Some x.
Proof.
  intros Hnd Hx.
  destruct (index_by_is_Some l (key x)) as [_ [y Hy]]; [by apply list_elem_of_fmap_2|].
  rewrite Hy. apply index_by_Some in Hy as [Hy Hk].
  pose proof (find_by_unique _ _ _ Hnd Hy) as H1.
  pose proof (find_by_unique _ _ _ Hnd Hx) as H2. rewrite Hk in H1. congruence.
Qed.
End index.
