(* ===== verification/Go.v ===== *)
(** * The Go run time the reconcilers rely on

    Error values and their wrapping ([errors], [fmt.Errorf] with [%w]), the
    string formatting that ends up in condition messages, [ctrl.Result], and the
    monad in which the reconcilers are written: a computation reads and writes
    one API object, calls out to the world, appends what it called to a log, and
    returns a value or an error. The second half is the program logic of that
    monad: two-state postconditions, and frame relations that every structural
    combinator preserves. *)

From stdpp Require Export pretty.
From S2P Require Export Prelude.

Open Scope go_scope.
Set Warnings "-register-all".

(** ** Strings *)

Definition dquote : string := String (Ascii.ascii_of_nat 34) EmptyString.
Definition backslash : string := String (Ascii.ascii_of_nat 92) EmptyString.

Definition hex_digit (n : nat) : string :=
  String (Ascii.ascii_of_nat (if n <? 10 then 48 + n else 87 + n)%nat) EmptyString.

(** One byte under Go's [%q] verb. Bytes above 126 other than DEL are kept as
    they are, which is what Go does for printable text in UTF-8. *)
Definition quote_byte (c : Ascii.ascii) : string :=
  let n := Ascii.nat_of_ascii c in
  if (n =? 34)%nat then backslash +:+ dquote
  else if (n =? 92)%nat then backslash +:+ backslash
  else if (n =? 7)%nat then backslash +:+ "a"
  else if (n =? 8)%nat then backslash +:+ "b"
  else if (n =? 9)%nat then backslash +:+ "t"
  else if (n =? 10)%nat then backslash +:+ "n"
  else if (n =? 11)%nat then backslash +:+ "v"
  else if (n =? 12)%nat then backslash +:+ "f"
  else if (n =? 13)%nat then backslash +:+ "r"
  else if ((n <? 32) || (n =? 127))%nat
       then backslash +:+ "x" +:+ hex_digit (n / 16) +:+ hex_digit (n mod 16)
  else String c EmptyString.

Fixpoint quote_body (s : string) : string :=
  match s with
  | EmptyString => EmptyString
  | String c s => quote_byte c +:+ quote_body s
  end.

(** The [%q] verb, [%d] verb and [strings.Contains]. *)
Definition quote (s : string) : string := dquote +:+ quote_body s +:+ dquote.
Definition itoa (n : Z) : string := pretty n.

Fixpoint Contains (s sub : string) : bool :=
  String.prefix sub s ||
  match s with EmptyString => false | String _ s => Contains s sub end.

Definition HasPrefix (s p : string) : bool := String.prefix p s.

(** [%v] of a slice of strings. *)
Definition show_slice (l : list string) : string := "[" +:+ String.concat " " l +:+ "]".

(** Appending texts. *)
Lemma app_cons_s c (s1 s2 : string) : String c s1 +:+ s2 = String c (s1 +:+ s2).
Proof. done. Qed.
Lemma app_empty_l (s : string) : "" +:+ s = s.
Proof. done. Qed.
Lemma app_empty_r (s : string) : s +:+ "" = s.
Proof. induction s as [|c s IH]; [done|]. by rewrite !app_cons_s, ?IH; simpl; rewrite ?IH. Qed.
Lemma app_assoc_s (s1 s2 s3 : string) : (s1 +:+ s2) +:+ s3 = s1 +:+ s2 +:+ s3.
Proof. induction s1 as [|c s IH]; [done|]. by rewrite !app_cons_s, ?IH; simpl; rewrite ?IH. Qed.

(** ** Errors *)

Inductive sentinelError :=
  | errNetworkNotReady
  | errServerGroupNotEmpty.

(** The error values that occur: texts, the package's sentinels, wrapping with
    [%w], [errors.Join], the SDK's [ErrorResponse], a [*url.Error] with its
    [Timeout()] and the error it unwraps to, [os.ErrDeadlineExceeded], errors of
    the Kubernetes API with [IsNotFound], and the run-time panic of a nil
    dereference, which the theorems show to be unreachable. *)
Inductive error :=
  | errorString (msg : string)
  | sentinel (e : sentinelError)
  | wrapError (prefix : string) (err : error)
  | joinError (errs : list error)
  | ErrorResponse (StatusCode : Z) (msg : string)
  | urlError (timeout : bool) (prefix : string) (err : error)
  | ErrDeadlineExceeded
  | apiStatusError (notFound : bool) (msg : string)
  | nilDereference.

Definition sentinel_text (e : sentinelError) : string :=
  match e with
  | errNetworkNotReady => "network has pending dependencies"
  | errServerGroupNotEmpty => "server group still contains owned servers"
  end.

Definition newline : string := String (Ascii.ascii_of_nat 10) EmptyString.

(** [err.Error()] *)
Fixpoint Error (e : error) : string :=
  match e with
  | errorString msg => msg
  | sentinel e => sentinel_text e
  | wrapError pre e => pre +:+ Error e
  | joinError es => String.concat newline (map Error es)
  | ErrorResponse _ msg => msg
  | urlError _ pre e => pre +:+ Error e
  | ErrDeadlineExceeded => "i/o timeout"
  | apiStatusError _ msg => msg
  | nilDereference => "runtime error: invalid memory address or nil pointer dereference"
  end.

Definition first_Some {A} : list (option A) → option A :=
  foldr (λ o acc, match o with Some a => Some a | None => acc end) None.

(** [errors.As] for the SDK's [*ErrorResponse] (its status code) and for
    [*url.Error] (its [Timeout()]), searching the tree depth first. *)
Fixpoint as_ErrorResponse (e : error) : option Z :=
  match e with
  | ErrorResponse code _ => Some code
  | wrapError _ e => as_ErrorResponse e
  | urlError _ _ e => as_ErrorResponse e
  | joinError es => first_Some (map as_ErrorResponse es)
  | _ => None
  end.

Fixpoint as_urlError (e : error) : option bool :=
  match e with
  | urlError t _ _ => Some t
  | wrapError _ e => as_urlError e
  | joinError es => first_Some (map as_urlError es)
  | _ => None
  end.

(** [errors.Is] against one of the package's sentinels, and against
    [os.ErrDeadlineExceeded]. *)
Fixpoint errors_Is (e : error) (target : sentinelError) : bool :=
  match e with
  | sentinel t =>
      match t, target with
      | errNetworkNotReady, errNetworkNotReady => true
      | errServerGroupNotEmpty, errServerGroupNotEmpty => true
      | _, _ => false
      end
  | wrapError _ e | urlError _ _ e => errors_Is e target
  | joinError es => existsb (λ e, errors_Is e target) es
  | _ => false
  end.

Fixpoint errors_Is_deadline (e : error) : bool :=
  match e with
  | ErrDeadlineExceeded => true
  | wrapError _ e | urlError _ _ e => errors_Is_deadline e
  | joinError es => existsb errors_Is_deadline es
  | _ => false
  end.

(** [apierrors.IsNotFound] of k8s.io/apimachinery *)
Fixpoint as_apiStatus (e : error) : option bool :=
  match e with
  | apiStatusError notFound _ => Some notFound
  | wrapError _ e | urlError _ _ e => as_apiStatus e
  | joinError es => first_Some (map as_apiStatus es)
  | _ => None
  end.
Definition apierrors_IsNotFound (e : error) : bool := default false (as_apiStatus e).

(** ** Results *)

Inductive Res (A : Type) :=
  | Ok (a : A)
  | Err (e : error).
Arguments Ok {A} a.
Arguments Err {A} e.

Definition void {A} (r : Res A) : Res unit :=
  match r with Ok _ => Ok () | Err e => Err e end.

Definition res_map {A B} (f : A → B) (r : Res A) : Res B :=
  match r with Ok a => Ok (f a) | Err e => Err e end.

Definition res_bind {A B} (r : Res A) (f : A → Res B) : Res B :=
  match r with Ok a => f a | Err e => Err e end.

Definition res_wrap {A} (prefix : string) (r : Res A) : Res A :=
  match r with Ok a => Ok a | Err e => Err (wrapError prefix e) end.

(** [errors.Join(errs...)]: nil when there are no errors. *)
Definition errors_Join (errs : list error) : Res unit :=
  match errs with [] => Ok () | _ => Err (joinError errs) end.

(** [ctrl.Result], by the one field this program sets, in nanoseconds, and its
    [IsZero]. *)
Record Result := mkResult { RequeueAfter : Z }.

Definition Second : Z := 1000000000.
Definition emptyResult : Result := mkResult 0.
Definition requeue (seconds : Z) : Result := mkResult (seconds * Second).
Definition IsZero (r : Result) : bool := (RequeueAfter r =? 0)%Z.

(** What a statement does: return from the function with a [ctrl.Result] and a
    nil error, or go on to the next one. *)
Inductive flow (A : Type) :=
  | Return (r : Result)
  | Next (a : A).
Arguments Return {A} r.
Arguments Next {A} a.

(** ** The reconciler monad *)

Record St (W Ev O : Type) := mkSt { obj : O; world : W; log : list Ev }.
Arguments mkSt {W Ev O} obj world log.
Arguments obj {W Ev O} s.
Arguments world {W Ev O} s.
Arguments log {W Ev O} s.

Section monad.
Context {W Ev O : Type}.
Implicit Types s : St W Ev O.

Definition GoM (A : Type) : Type := St W Ev O → Res A * St W Ev O.

Definition ret {A} (a : A) : GoM A := λ s, (Ok a, s).
Definition throw {A} (e : error) : GoM A := λ s, (Err e, s).

Definition bind {A B} (m : GoM A) (k : A → GoM B) : GoM B := λ s,
  match m s with
  | (Ok a, s') => k a s'
  | (Err e, s') => (Err e, s')
  end.

(** Inspect the error of a call instead of propagating it. *)
Definition try {A} (m : GoM A) : GoM (Res A) := λ s,
  let '(r, s') := m s in (Ok r, s').

(** [fmt.Errorf("prefix%w", err)] around a call. *)
Definition wrap {A} (prefix : string) (m : GoM A) : GoM A := λ s,
  match m s with
  | (Ok a, s') => (Ok a, s')
  | (Err e, s') => (Err (wrapError prefix e), s')
  end.

(** A deferred function that looks at the named results and updates the
    object. *)
Definition deferred {A} (f : Res A → O → O) (m : GoM A) : GoM A := λ s,
  let '(r, s') := m s in (r, mkSt (f r (obj s')) (world s') (log s')).

Definition get : GoM O := λ s, (Ok (obj s), s).
Definition modify (f : O → O) : GoM unit := λ s, (Ok (), mkSt (f (obj s)) (world s) (log s)).
Definition emit (e : Ev) : GoM unit := λ s, (Ok (), mkSt (obj s) (world s) (log s ++ [e])).

(** A call to the outside: the world answers and the call is logged. *)
Definition call {A} (f : W → Res A * W) (ev : Res A → Ev) : GoM A := λ s,
  let '(r, w) := f (world s) in (r, mkSt (obj s) w (log s ++ [ev r])).

Definition deref {A} (p : option A) : GoM A :=
  match p with Some a => ret a | None => throw nilDereference end.

Definition of_res {A} (r : Res A) : GoM A := λ s, (r, s).

Definition returning (m : GoM Result) : GoM (flow unit) :=
  bind m (λ r, ret (if IsZero r then Next () else Return r)).

Definition bind_flow {A} (m : GoM (flow A)) (k : A → GoM Result) : GoM Result :=
  bind m (λ x, match x with Return r => ret r | Next a => k a end).

(** A [for] loop whose body may return from the function. *)
Fixpoint foreach {A} (l : list A) (body : A → GoM (flow unit)) : GoM (flow unit) :=
  match l with
  | [] => ret (Next ())
  | x :: l =>
      bind (body x) (λ c, match c with
                          | Return r => ret (Return r)
                          | Next _ => foreach l body
                          end)
  end.

(** A [for] loop that threads local variables. *)
Fixpoint foldM {A B} (f : B → A → GoM B) (l : list A) (b : B) : GoM B :=
  match l with
  | [] => ret b
  | x :: l => bind (f b x) (foldM f l)
  end.

(** Run a computation on an object of its own: the rest of a function after the
    object was fetched. *)
Definition with_obj {O' A} (o : O') (m : St W Ev O' → Res A * St W Ev O') : GoM A := λ s,
  let '(r, s') := m (mkSt o (world s) (log s)) in (r, mkSt (obj s) (world s') (log s')).

Definition exec {A} (m : GoM A) s : St W Ev O := snd (m s).
Definition result {A} (m : GoM A) s : Res A := fst (m s).
End monad.

Arguments GoM : clear implicits.

Declare Scope gom_scope.
Delimit Scope gom_scope with gom.
Notation "'let!' x ':=' m 'in' k" := (bind m (λ x, k))
  (at level 10, x pattern, m at level 100, k at level 200) : gom_scope.
Notation "'let?' x ':=' m 'in' k" := (bind_flow m (λ x, k))
  (at level 10, x pattern, m at level 100, k at level 200) : gom_scope.
Notation "m ';;!' k" := (bind m (λ _, k))
  (at level 199, k at level 200, right associativity) : gom_scope.
Open Scope gom_scope.

(** ** Program logic: two-state postconditions and frame relations *)

Section logic.
Context {W Ev O : Type}.
Abbreviation state := (St W Ev O).
Abbreviation M := (GoM W Ev O).
Implicit Types (R : relation state) (s : state).

(** Every run of [m] relates its initial state to its result and final state. *)
Definition post {A} (m : M A) (Q : state → Res A → state → Prop) : Prop :=
  ∀ s, Q s (result m s) (exec m s).

Lemma post_weaken {A} (m : M A) (Q Q' : state → Res A → state → Prop) :
  post m Q → (∀ s r s', Q s r s' → Q' s r s') → post m Q'.
Proof. intros H HQ s. apply HQ, H. Qed.

(** The same facts for a run given by its equation. *)
Lemma post_run {A} (m : M A) Q s r s' : post m Q → m s = (r, s') → Q s r s'.
Proof. intros H E. specialize (H s). unfold result, exec in H. by rewrite E in H. Qed.

Lemma post_bind {A B} (m : M A) (k : A → M B) Q1 Q2 (Q : state → Res B → state → Prop) :
  post m Q1 → (∀ a, post (k a) (Q2 a)) →
  (∀ s e s', Q1 s (Err e) s' → Q s (Err e) s') →
  (∀ s a s1 r s', Q1 s (Ok a) s1 → Q2 a s1 r s' → Q s r s') →
  post (bind m k) Q.
Proof.
  intros Hm Hk He Hok s. specialize (Hm s).
  unfold result, exec, bind in *. destruct (m s) as [[a|e] s1]; simpl in *.
  - eapply Hok; [done|]. apply Hk.
  - by apply He.
Qed.

(** [m] moves the state only along [R], whatever it returns. *)
Definition respects {A} R (m : M A) : Prop := ∀ s, R s (exec m s).

Section rules.
Context R `{!PreOrder R}.

Lemma respects_ret {A} (a : A) : respects R (ret a).
Proof. intros s. reflexivity. Qed.
Lemma respects_throw {A} e : respects R (throw (A:=A) e).
Proof. intros s. reflexivity. Qed.
Lemma respects_of_res {A} (r : Res A) : respects R (of_res r).
Proof. intros s. reflexivity. Qed.
Lemma respects_get : respects R get.
Proof. intros s. reflexivity. Qed.

Lemma respects_bind {A B} (m : M A) (k : A → M B) :
  respects R m → (∀ a, respects R (k a)) → respects R (bind m k).
Proof.
  intros Hm Hk s. specialize (Hm s). unfold exec, bind in *.
  destruct (m s) as [[a|e] s1]; simpl in *; [|done].
  etrans; [done|apply Hk].
Qed.

Lemma respects_try {A} (m : M A) : respects R m → respects R (try m).
Proof. intros Hm s. specialize (Hm s). unfold exec, try in *. by destruct (m s). Qed.

Lemma respects_wrap {A} pre (m : M A) : respects R m → respects R (wrap pre m).
Proof. intros Hm s. specialize (Hm s). unfold exec, wrap in *. by destruct (m s) as [[]]. Qed.

Lemma respects_deref {A} (p : option A) : respects R (deref p).
Proof. destruct p; [apply respects_ret|apply respects_throw]. Qed.

Lemma respects_returning (m : M Result) : respects R m → respects R (returning m).
Proof. intros Hm. apply respects_bind; [done|]. intros. apply respects_ret. Qed.

Lemma respects_bind_flow {A} (m : M (flow A)) k :
  respects R m → (∀ a, respects R (k a)) → respects R (bind_flow m k).
Proof.
  intros Hm Hk. apply respects_bind; [done|].
  intros [r|a]; [apply respects_ret|apply Hk].
Qed.

Lemma respects_foreach {A} (l : list A) body :
  (∀ x, x ∈ l → respects R (body x)) → respects R (foreach l body).
Proof.
  induction l as [|x l IH]; intros Hb; simpl; [apply respects_ret|].
  apply respects_bind; [apply Hb; by left|]. intros [r|[]]; [apply respects_ret|].
  apply IH. intros y Hy. apply Hb. by right.
Qed.

Lemma respects_foldM {A B} (f : B → A → M B) l b :
  (∀ b x, x ∈ l → respects R (f b x)) → respects R (foldM f l b).
Proof.
  revert b. induction l as [|x l IH]; intros b Hf; simpl; [apply respects_ret|].
  apply respects_bind; [apply Hf; by left|]. intros b'.
  apply IH. intros b'' y Hy. apply Hf. by right.
Qed.

Lemma respects_deferred {A} f (m : M A) :
  respects R m →
  (∀ r s, R s (mkSt (f r (obj s)) (world s) (log s))) → respects R (deferred f m).
Proof.
  intros Hm Hf s. specialize (Hm s). unfold exec, deferred in *.
  destruct (m s) as [r s1]; simpl in *. etrans; [done|]. apply Hf.
Qed.
End rules.

Lemma respects_modify R f :
  (∀ s, R s (mkSt (f (obj s)) (world s) (log s))) → respects R (modify f).
Proof. intros H s. apply H. Qed.

Lemma respects_emit R e :
  (∀ s, R s (mkSt (obj s) (world s) (log s ++ [e]))) → respects R (emit e).
Proof. intros H s. apply H. Qed.

Lemma respects_call {A} R (f : W → Res A * W) ev :
  (∀ s r w, R s (mkSt (obj s) w (log s ++ [ev r]))) → respects R (call f ev).
Proof. intros H s. unfold exec, call. destruct (f (world s)). apply H. Qed.

Lemma respects_run {A} R (m : M A) s r s' : respects R m → m s = (r, s') → R s s'.
Proof. intros H E. specialize (H s). unfold exec in H. by rewrite E in H. Qed.

(** The first step of a sequence, when its run is known. *)
Lemma exec_wrap {A} pre (m : M A) s : exec (wrap pre m) s = exec m s.
Proof. unfold exec, wrap. by destruct (m s) as [[]]. Qed.
Lemma bind_ok {A B} (m : M A) (k : A → M B) s a s1 : m s = (Ok a, s1) → bind m k s = k a s1.
Proof. unfold bind. by intros ->. Qed.
Lemma bind_err {A B} (m : M A) (k : A → M B) s e s1 : m s = (Err e, s1) → bind m k s = (Err e, s1).
Proof. unfold bind. by intros ->. Qed.

(** A sequence that succeeded: both halves did. *)
Lemma bind_Ok_inv {A B} (m : M A) (k : A → M B) s b s' :
  bind m k s = (Ok b, s') → ∃ a s1, m s = (Ok a, s1) ∧ k a s1 = (Ok b, s').
Proof. unfold bind. destruct (m s) as [[a|e] s1]; [|done]. by exists a, s1. Qed.

Lemma foldM_cons {A B} (f : B → A → M B) x l b : foldM f (x :: l) b = bind (f b x) (foldM f l).
Proof. done. Qed.

(** Reading the object first. *)
Lemma modify_bind {A} f (k : unit → M A) s :
  bind (modify f) k s = k () (mkSt (f (obj s)) (world s) (log s)).
Proof. done. Qed.
Lemma bind_get {A} (k : O → M A) s : bind get k s = k (obj s) s.
Proof. done. Qed.
Lemma exec_get {A} (k : O → M A) s : exec (bind get k) s = exec (k (obj s)) s.
Proof. done. Qed.
Lemma result_get {A} (k : O → M A) s : result (bind get k) s = result (k (obj s)) s.
Proof. done. Qed.

(** *** Early returns: a statement that returns does so with a requeue *)

Definition requeues {A} (m : M (flow A)) : Prop :=
  ∀ s r, result m s = Ok (Return r) → IsZero r = false.

Lemma requeues_returning m : requeues (returning m).
Proof.
  intros s r. unfold result, returning, bind, ret. destruct (m s) as [[r'|e] s']; simpl; [|done].
  destruct (IsZero r') eqn:E; intros; by simplify_eq.
Qed.

Lemma requeues_next {A B} (m : M B) (f : B → A) : requeues (bind m (λ b, ret (Next (f b)))).
Proof. intros s r. unfold result, bind, ret. by destruct (m s) as [[]]. Qed.

Lemma requeues_foreach {A} (l : list A) body :
  (∀ x, x ∈ l → requeues (body x)) → requeues (foreach l body).
Proof.
  induction l as [|x l IH]; intros Hb s r; simpl; [done|].
  specialize (Hb x) as Hx. specialize (Hx ltac:(by left) s). unfold result, bind, ret in *.
  destruct (body x s) as [[[r'|[]]|e] s1]; simpl in *; [by apply Hx| |done].
  apply IH. intros y Hy. apply Hb. by right.
Qed.

(** A loop at the end of a function: the empty result means it ran through. *)
Lemma loop_completes {A} (l : list A) body s :
  (∀ x, x ∈ l → requeues (body x)) →
  result (bind_flow (foreach l body) (λ _, ret emptyResult)) s = Ok emptyResult →
  result (foreach l body) s = Ok (Next ()) ∧
  exec (bind_flow (foreach l body) (λ _, ret emptyResult)) s = exec (foreach l body) s.
Proof.
  intros Hb. pose proof (requeues_foreach l body Hb s) as Hr.
  unfold result, exec, bind_flow, bind, ret in *.
  destruct (foreach l body s) as [[[r|[]]|e] s']; simpl in *; [|done..].
  intros [= ->]. by specialize (Hr _ eq_refl).
Qed.

(** *** Loop rules: an invariant over the part of the list already processed *)

Lemma foreach_ind {A} (I : list A → state → Prop) (l : list A) body pre s :
  (∀ pre x s, x ∈ l → I pre s →
     result (body x) s = Ok (Next ()) → I (pre ++ [x]) (exec (body x) s)) →
  I pre s → result (foreach l body) s = Ok (Next ()) → I (pre ++ l) (exec (foreach l body) s).
Proof.
  revert pre s. induction l as [|x l IH]; intros pre s Hb HI; simpl.
  { by rewrite app_nil_r. }
  specialize (Hb pre x s) as Hx. unfold result, exec, bind in *.
  destruct (body x s) as [[[r|[]]|e] s1]; simpl in *; [done| |done].
  intros Hr. rewrite cons_middle, app_assoc. apply IH; [|apply Hx; [by left|done|done]|done].
  intros pre' y s' Hy. apply Hb. by right.
Qed.

(** The same, with the processed part a prefix of the list. *)
Lemma foreach_prefix {A} (I : list A → state → Prop) (l : list A) body s :
  (∀ pre x post s, l = pre ++ x :: post → I pre s →
     result (body x) s = Ok (Next ()) → I (pre ++ [x]) (exec (body x) s)) →
  I [] s → result (foreach l body) s = Ok (Next ()) → I l (exec (foreach l body) s).
Proof.
  intros Hb HI Hr.
  assert (∀ pre post s, l = pre ++ post → I pre s → result (foreach post body) s = Ok (Next ()) →
            I l (exec (foreach post body) s)) as H; [|by apply (H [] l)].
  clear s HI Hr. intros pre post. revert pre.
  induction post as [|x post IH]; intros pre s Hl HI; simpl.
  { rewrite app_nil_r in Hl. by subst. }
  specialize (Hb pre x post s Hl HI) as Hx. unfold foreach; fold (@foreach W Ev O A).
  unfold result, exec, bind in *.
  destruct (body x s) as [[[r|[]]|e] s1]; simpl in *; [done| |done].
  apply (IH (pre ++ [x])); [by rewrite <- app_assoc|by apply Hx].
Qed.

(** Where a loop ends early: the turns before that one went through, and the loop
    answers what that turn answered. *)
Lemma foreach_stops {A} (I : list A → state → Prop) (l : list A) body s :
  (∀ pre x s, I pre s → result (body x) s = Ok (Next ()) → I (pre ++ [x]) (exec (body x) s)) →
  I [] s → result (foreach l body) s ≠ Ok (Next ()) →
  ∃ pre x post s1, l = pre ++ x :: post ∧ I pre s1 ∧ foreach l body s = body x s1.
Proof.
  intros Hb HI Hr.
  assert (∀ post pre s, I pre s → result (foreach post body) s ≠ Ok (Next ()) →
            ∃ mid x post' s1, post = mid ++ x :: post' ∧ I (pre ++ mid) s1 ∧ foreach post body s = body x s1)
    as H; [|by apply (H l [])].
  clear s HI Hr. intros post. induction post as [|x post IH]; intros pre s HI Hr; [done|].
  specialize (Hb pre x s HI). unfold foreach in *; fold (@foreach W Ev O A) in *.
  unfold result, exec, bind in *. destruct (body x s) as [[[r|[]]|e] s1] eqn:E; simpl in *.
  1,3: exists [], x, post, s; rewrite app_nil_r; by repeat split.
  destruct (IH _ _ (Hb eq_refl) Hr) as (mid & y & post' & s2 & -> & HI' & Heq).
  exists (x :: mid), y, post', s2. rewrite <- app_assoc in HI'. by repeat split.
Qed.

Lemma foldM_ind {A B} (I : list A → B → state → Prop) f (l : list A) pre b b' s :
  (∀ pre x b b' s, x ∈ l → I pre b s →
     result (f b x) s = Ok b' → I (pre ++ [x]) b' (exec (f b x) s)) →
  I pre b s → result (foldM f l b) s = Ok b' → I (pre ++ l) b' (exec (foldM f l b) s).
Proof.
  revert pre b s. induction l as [|x l IH]; intros pre b s Hb HI; simpl.
  { rewrite app_nil_r. unfold result, exec, ret. simpl. by intros [= <-]. }
  specialize (Hb pre x b) as Hx. unfold result, exec, bind in *.
  specialize (Hx). destruct (f b x s) as [[b1|e] s1] eqn:E; simpl in *; [|done].
  intros Hr. rewrite cons_middle, app_assoc. apply IH; [| |done].
  - intros pre' y b2 b3 s' Hy. apply Hb. by right.
  - specialize (Hx b1 s). rewrite E in Hx. apply Hx; [by left|done|done].
Qed.

(** A loop whose turns cannot fail cannot fail. *)
Lemma foldM_total {A B} (f : B → A → M B) (l : list A) b s :
  (∀ b x s, ∃ b', result (f b x) s = Ok b') → ∃ b', result (foldM f l b) s = Ok b'.
Proof.
  intros Hf. revert b s. induction l as [|x l IH]; intros b s; [by exists b|].
  rewrite foldM_cons. destruct (Hf b x s) as [b1 H1]. unfold result, bind in *.
  destruct (f b x s) as [r s1]. simpl in H1. subst r. apply IH.
Qed.

(** *** The two frames in use: an observation of the object is unchanged, and
    every call made satisfies a predicate. *)

Definition keeps {B} (f : O → B) : relation state := λ s s', f (obj s') = f (obj s).

Definition emits (φ : Ev → Prop) : relation state := λ s s',
  ∃ evs, log s' = log s ++ evs ∧ Forall φ evs.

#[global] Instance keeps_preorder {B} (f : O → B) : PreOrder (keeps f).
Proof. split; [done|]. intros s1 s2 s3 H1 H2. unfold keeps in *. congruence. Qed.

#[global] Instance emits_preorder φ : PreOrder (emits φ).
Proof.
  split.
  - intros s. exists []. by rewrite app_nil_r.
  - intros s1 s2 s3 (e1 & H1 & F1) (e2 & H2 & F2).
    exists (e1 ++ e2). split; [by rewrite H2, H1, app_assoc|].
    by apply Forall_app.
Qed.

(** An invariant of the object, as a frame. *)
Definition preserves (I : O → Prop) : relation state := λ s s', I (obj s) → I (obj s').

#[global] Instance preserves_preorder I : PreOrder (preserves I).
Proof. split; [by intros s ?|]. intros s1 s2 s3 H1 H2 ?. by apply H2, H1. Qed.

Lemma preserves_modify (I : O → Prop) g : (∀ o, I o → I (g o)) → respects (preserves I) (modify g).
Proof. intros H s HI. by apply H. Qed.
Lemma preserves_emit I e : respects (preserves I) (emit e).
Proof. by intros s ?. Qed.
Lemma preserves_call {A} I (c : W → Res A * W) ev : respects (preserves I) (call c ev).
Proof. apply respects_call. by intros s r w ?. Qed.
Lemma preserves_deferred {A} (I : O → Prop) g (m : M A) :
  respects (preserves I) m → (∀ r o, I o → I (g r o)) → respects (preserves I) (deferred g m).
Proof. intros Hm H. apply respects_deferred; [apply _|done|]. intros r s HI. by apply H. Qed.
Lemma preserves_keeps {A B} (f : O → B) (I : B → Prop) (m : M A) :
  respects (keeps f) m → respects (preserves (λ o, I (f o))) m.
Proof. intros Hm s HI. specialize (Hm s). unfold keeps in Hm. by rewrite Hm. Qed.

Lemma keeps_modify {B} (f : O → B) g :
  (∀ o, f (g o) = f o) → respects (keeps f) (modify g).
Proof. intros H s. apply H. Qed.
Lemma keeps_emit {B} (f : O → B) e : respects (keeps f) (emit e).
Proof. done. Qed.
Lemma keeps_call {A B} (f : O → B) (c : W → Res A * W) ev : respects (keeps f) (call c ev).
Proof. by apply respects_call. Qed.
Lemma keeps_deferred {A B} (f : O → B) g (m : M A) :
  respects (keeps f) m → (∀ r o, f (g r o) = f o) → respects (keeps f) (deferred g m).
Proof. intros Hm H. apply respects_deferred; [apply _|done|]. intros r s. apply H. Qed.

(** An observation of the outside world is unchanged. *)
Definition wkeeps {B} (f : W → B) : relation state := λ s s', f (world s') = f (world s).

#[global] Instance wkeeps_preorder {B} (f : W → B) : PreOrder (wkeeps f).
Proof. split; [done|]. intros s1 s2 s3 H1 H2. unfold wkeeps in *. congruence. Qed.

Lemma wkeeps_modify {B} (f : W → B) g : respects (wkeeps f) (modify g).
Proof. done. Qed.
Lemma wkeeps_emit {B} (f : W → B) e : respects (wkeeps f) (emit e).
Proof. done. Qed.
Lemma wkeeps_call {A B} (f : W → B) (c : W → Res A * W) ev :
  (∀ w, f (snd (c w)) = f w) → respects (wkeeps f) (call c ev).
Proof.
  intros H s. unfold exec, call, wkeeps. specialize (H (world s)). by destruct (c (world s)).
Qed.
Lemma wkeeps_deferred {A B} (f : W → B) g (m : M A) :
  respects (wkeeps f) m → respects (wkeeps f) (deferred g m).
Proof. intros Hm. by apply respects_deferred; [apply _|done|]. Qed.

(** The world moves along a preorder. *)
Definition wmoves (R : relation W) : relation state := λ s s', R (world s) (world s').

#[global] Instance wmoves_preorder (R : relation W) `{!PreOrder R} : PreOrder (wmoves R).
Proof. split; [by intros s; unfold wmoves|]. intros s1 s2 s3 H1 H2. unfold wmoves in *. by etrans. Qed.

Lemma wmoves_modify (R : relation W) `{!PreOrder R} g : respects (wmoves R) (modify g).
Proof. intros s. unfold wmoves, exec, modify. simpl. done. Qed.
Lemma wmoves_emit (R : relation W) `{!PreOrder R} e : respects (wmoves R) (emit e).
Proof. intros s. unfold wmoves, exec, emit. simpl. done. Qed.
Lemma wmoves_call {A} (R : relation W) (c : W → Res A * W) ev :
  (∀ w, R w (snd (c w))) → respects (wmoves R) (call c ev).
Proof. intros H s. unfold wmoves, exec, call. specialize (H (world s)). by destruct (c (world s)). Qed.
Lemma wmoves_deferred {A} (R : relation W) `{!PreOrder R} g (m : M A) :
  respects (wmoves R) m → respects (wmoves R) (deferred g m).
Proof. intros Hm. apply respects_deferred; [apply _|done|]. intros r s. unfold wmoves. simpl. done. Qed.

Lemma emits_modify φ g : respects (emits φ) (modify g).
Proof. intros s. exists []. by rewrite app_nil_r. Qed.
Lemma emits_emit (φ : Ev → Prop) e : φ e → respects (emits φ) (emit e).
Proof. intros H s. exists [e]. split; [done|]. by constructor. Qed.
Lemma emits_call {A} (φ : Ev → Prop) (c : W → Res A * W) ev :
  (∀ r, φ (ev r)) → respects (emits φ) (call c ev).
Proof. intros H. apply respects_call. intros s r w. exists [ev r]. split; [done|]. by constructor. Qed.
Lemma emits_deferred {A} φ g (m : M A) :
  respects (emits φ) m → respects (emits φ) (deferred g m).
Proof.
  intros Hm. apply respects_deferred; [apply _|done|].
  intros r s. exists []. by rewrite app_nil_r.
Qed.

Lemma emits_weaken {A} (φ ψ : Ev → Prop) (m : M A) :
  (∀ e, φ e → ψ e) → respects (emits φ) m → respects (emits ψ) m.
Proof.
  intros H Hm s. destruct (Hm s) as (evs & He & HF).
  exists evs. split; [done|]. eapply Forall_impl; eauto.
Qed.

(** An observation is unchanged and every call satisfies a predicate of it. *)
Definition emits_at {B} (f : O → B) (φ : B → Ev → Prop) : relation state := λ s s',
  f (obj s') = f (obj s) ∧ emits (φ (f (obj s))) s s'.

#[global] Instance emits_at_preorder {B} (f : O → B) φ : PreOrder (emits_at f φ).
Proof.
  split; [by intros s; split|]. intros s1 s2 s3 [H1 E1] [H2 E2]. split; [congruence|].
  rewrite H1 in E2. by etrans.
Qed.

Lemma emits_at_intro {A B} (f : O → B) (φ : B → Ev → Prop) (m : M A) :
  respects (keeps f) m → (∀ b, respects (emits (φ b)) m) → respects (emits_at f φ) m.
Proof. intros Hk He s. split; [apply Hk|apply He]. Qed.

(** The calls a run made. *)
Definition calls_of {A} (m : M A) s : list Ev := drop (length (log s)) (log (exec m s)).

Lemma calls_of_run {A} (m : M A) s evs : log (exec m s) = log s ++ evs → calls_of m s = evs.
Proof. intros H. unfold calls_of. by rewrite H, drop_app_length. Qed.

Lemma run_eq {A} (m m' : M A) s s' : m s = m' s' → exec m s = exec m' s' ∧ result m s = result m' s'.
Proof. unfold exec, result. by intros ->. Qed.

Lemma emits_in_calls {A} φ (m : M A) s :
  emits φ s (exec m s) → Forall φ (calls_of m s).
Proof.
  intros (evs & He & HF). unfold calls_of. by rewrite He, drop_app_length.
Qed.

Lemma emits_calls_of {A} φ (m : M A) s :
  respects (emits φ) m → log (exec m s) = log s ++ calls_of m s ∧ Forall φ (calls_of m s).
Proof.
  intros Hm. destruct (Hm s) as (evs & He & HF). unfold calls_of.
  rewrite He, drop_app_length. done.
Qed.
End logic.

#[global] Arguments foreach : simpl never.
#[global] Arguments foldM : simpl never.

(** [frame] decomposes a [respects] goal along the structure of the program,
    closing the leaves with the [gom] database. *)
#[export] Hint Resolve keeps_emit keeps_call emits_modify requeues_returning requeues_next : gom.

Ltac frame_step :=
  lazymatch goal with
  | |- respects _ (ret _) => apply respects_ret; apply _
  | |- respects _ (throw _) => apply respects_throw; apply _
  | |- respects _ (of_res _) => apply respects_of_res; apply _
  | |- respects _ get => apply respects_get; apply _
  | |- respects _ (deref _) => apply respects_deref; apply _
  | |- respects _ (bind _ _) => apply respects_bind; [apply _| |intros ?]
  | |- respects _ (try _) => apply respects_try
  | |- respects _ (wrap _ _) => apply respects_wrap
  | |- respects _ (returning _) => apply respects_returning; [apply _|]
  | |- respects _ (bind_flow _ _) => apply respects_bind_flow; [apply _| |intros ?]
  | |- respects _ (foreach _ _) => apply respects_foreach; [apply _|intros ? ?]
  | |- respects _ (foldM _ _ _) => apply respects_foldM; [apply _|intros ? ? ?]
  | |- respects (keeps _) (deferred _ _) => apply keeps_deferred; [|intros ? ?]
  | |- respects (emits _) (deferred _ _) => apply emits_deferred
  | |- respects (wkeeps _) (deferred _ _) => apply wkeeps_deferred
  | |- respects (wkeeps _) (modify _) => apply wkeeps_modify
  | |- respects (wkeeps _) (emit _) => apply wkeeps_emit
  | |- respects (wkeeps _) (call _ _) => apply wkeeps_call; intros ?
  | |- respects (wmoves _) (deferred _ _) => apply wmoves_deferred; [apply _|]
  | |- respects (wmoves _) (modify _) => apply wmoves_modify; apply _
  | |- respects (wmoves _) (emit _) => apply wmoves_emit; apply _
  | |- respects (wmoves _) (call _ _) => apply wmoves_call; intros ?
  | |- respects (preserves _) (deferred _ _) => apply preserves_deferred; [|intros ? ? ?]
  | |- respects (preserves _) (modify _) => apply preserves_modify; intros ? ?
  | |- respects (preserves _) (call _ _) => apply preserves_call
  | |- respects (preserves _) (emit _) => apply preserves_emit
  | |- respects (keeps _) (modify _) => apply keeps_modify; intros ?
  | |- respects (emits _) (modify _) => apply emits_modify
  | |- respects (keeps _) (call _ _) => apply keeps_call
  | |- respects (emits _) (call _ _) => apply emits_call; intros ?
  | |- respects (keeps _) (emit _) => apply keeps_emit
  | |- respects (emits _) (emit _) => apply emits_emit
  | |- respects _ (let _ := _ in _) => progress cbv zeta
  | |- respects _ (match ?x with _ => _ end) => destruct x eqn:?
  | |- respects _ _ => solve [eauto with gom nocore]
  end.
Ltac frame := repeat (frame_step; simpl).

(** Symbolic execution of a run in the hypotheses and the goal: the structural
    combinators compute, and [destruct] on a service or sub-program exposes the
    next step. *)
Ltac go_run :=
  unfold result, exec, bind_flow, returning, deferred, wrap, try, deref, of_res,
    bind, get, modify, emit, call, ret, throw in *; simpl in *.
