(* ===== verification/Release.v ===== *)
(** * The release check (src/hack/verify-release-metadata/main.go)

    The tool that guards a release: the tag must be a semantic version, and the
    provider metadata must list its series. The regular expression is modelled as
    the expression it is, run by a backtracking matcher as Go's [regexp] runs it;
    [strconv.Atoi] with its 64-bit overflow checks. The YAML and JSON decoders are
    parameters. *)

From Stdlib Require Import Ascii.
From S2P Require Export Go.

Open Scope N_scope.

(** ** Regular expressions, as far as the pattern needs them *)

(** A character class, concatenation, alternation, [p*] of a class, [r?], and a
    capturing group. *)
Inductive regexp :=
  | Class (p : ascii → bool)
  | Seq (r1 r2 : regexp)
  | Alt (r1 r2 : regexp)
  | Many (p : ascii → bool)
  | Opt (r : regexp)
  | Group (r : regexp).

Definition lit (c : ascii) : regexp := Class (λ d, Ascii.eqb d c).
Definition plus (p : ascii → bool) : regexp := Seq (Class p) (Many p).

(** The part of [s] before its suffix [rest]. *)
Definition consumed (s rest : string) : string :=
  String.substring 0 (String.length s - String.length rest)%nat s.

(** Leftmost-first matching: the first way to match, in the order of the
    alternatives and longest repetition first, that the rest [k] accepts. *)
Fixpoint run_re {A} (r : regexp) (k : string → list string → option A)
    (s : string) (caps : list string) : option A :=
  match r with
  | Class p =>
      match s with
      | String c s' => if p c then k s' caps else None
      | EmptyString => None
      end
  | Seq r1 r2 => run_re r1 (run_re r2 k) s caps
  | Alt r1 r2 =>
      match run_re r1 k s caps with Some a => Some a | None => run_re r2 k s caps end
  | Many p =>
      (fix many s := match s with
                     | String c s' =>
                         if p c then match many s' with Some a => Some a | None => k s caps end
                         else k s caps
                     | EmptyString => k s caps
                     end) s
  | Opt r => match run_re r k s caps with Some a => Some a | None => k s caps end
  | Group r => run_re r (λ rest caps', k rest (caps' ++ [consumed s rest])) s caps
  end.

(** [FindStringSubmatch] of an expression between [^] and [$]: the whole match
    and the groups. *)
Definition FindStringSubmatch (r : regexp) (s : string) : option (list string) :=
  run_re r (λ rest caps, if rest == "" then Some (s :: caps) else None) s [].

(** ** strconv.Atoi *)

Definition is_digit (c : ascii) : bool := let n := Ascii.N_of_ascii c in (48 <=? n) && (n <=? 57).
Definition digit_of (c : ascii) : N := Ascii.N_of_ascii c - 48.

Definition syntaxError (fn s : string) : error :=
  errorString ("strconv." +:+ fn +:+ ": parsing " +:+ quote s +:+ ": invalid syntax").
Definition rangeError (fn s : string) : error :=
  errorString ("strconv." +:+ fn +:+ ": parsing " +:+ quote s +:+ ": value out of range").

Definition uint64 (n : N) : N := n mod 2 ^ 64.
Definition maxUint64 : N := 2 ^ 64 - 1.

(** The loop of [ParseUint] in base 10: [n] is an unsigned 64-bit integer. *)
Fixpoint parseUint (fn s0 s : string) (n : N) : Res N :=
  match s with
  | EmptyString => Ok n
  | String c s =>
      if negb (is_digit c) then Err (syntaxError fn s0)
      else if maxUint64 / 10 + 1 <=? n then Err (rangeError fn s0)
      else
        let n := uint64 (n * 10) in
        let n1 := uint64 (n + digit_of c) in
        if n1 <? n then Err (rangeError fn s0) else parseUint fn s0 s n1
  end.

(** [int] has 64 bits. *)
Definition Atoi (s0 : string) : Res Z :=
  let parse (s : string) : Res N :=
    if s == "" then Err (syntaxError "Atoi" s0) else parseUint "Atoi" s0 s 0 in
  match s0 with
  | EmptyString => Err (syntaxError "Atoi" s0)
  | String c s =>
      let neg := Ascii.eqb c "-"%char in
      res_bind (parse (if neg || Ascii.eqb c "+"%char then s else s0)) (λ un,
        if negb neg && (2 ^ 63 <=? un) then Err (rangeError "Atoi" s0)
        else if neg && (2 ^ 63 <? un) then Err (rangeError "Atoi" s0)
        else Ok (if neg then - Z.of_N un else Z.of_N un)%Z)
  end.

(** ** main.go *)

Definition is_nonzero_digit (c : ascii) : bool := let n := Ascii.N_of_ascii c in (49 <=? n) && (n <=? 57).
(** [[0-9A-Za-z.-]] *)
Definition is_identifier (c : ascii) : bool :=
  let n := Ascii.N_of_ascii c in
  is_digit c || ((65 <=? n) && (n <=? 90)) || ((97 <=? n) && (n <=? 122)) || Ascii.eqb c "."%char || Ascii.eqb c "-"%char.

(** A captured number without leading zeros. *)
Definition numberPattern : regexp := Group (Alt (lit "0"%char) (Seq (Class is_nonzero_digit) (Many is_digit))).

Definition releaseTagPattern : regexp :=
  Seq (lit "v"%char) (Seq numberPattern (Seq (lit "."%char) (Seq numberPattern (Seq (lit "."%char) (Seq numberPattern
    (Seq (Opt (Seq (lit "-"%char) (plus is_identifier))) (Opt (Seq (lit "+"%char) (plus is_identifier))))))))).

Record releaseSeries := mkReleaseSeries { releaseSeries_Major : Z; releaseSeries_Minor : Z }.
Record providerMetadata := mkProviderMetadata { providerMetadata_ReleaseSeries : list releaseSeries }.

Section verify.
(** k8s.io/apimachinery/pkg/util/yaml, and encoding/json into the metadata struct *)
Context (yaml_ToJSON : string → Res string) (json_Unmarshal : string → Res providerMetadata).

Definition verifyReleaseSeries (tag metadataYAML : string) : Res unit :=
  match FindStringSubmatch releaseTagPattern tag with
  | None => Err (errorString ("tag " +:+ quote tag +:+ " is not a valid semantic version prefixed with v"))
  | Some matches =>
      res_bind (res_wrap "parse tag major version: " (Atoi (nth 1 matches ""))) (λ major,
      res_bind (res_wrap "parse tag minor version: " (Atoi (nth 2 matches ""))) (λ minor,
      res_bind (res_wrap "parse metadata: " (yaml_ToJSON metadataYAML)) (λ metadataJSON,
      res_bind (res_wrap "parse metadata: " (json_Unmarshal metadataJSON)) (λ metadata,
      if (length (providerMetadata_ReleaseSeries metadata) =? 0)%nat
      then Err (errorString "metadata contains no release series")
      else if existsb (λ series, (releaseSeries_Major series =? major)%Z && (releaseSeries_Minor series =? minor)%Z)
                (providerMetadata_ReleaseSeries metadata)
      then Ok ()
      else Err (errorString ("metadata does not contain release series " +:+ itoa major +:+ "." +:+ itoa minor
                  +:+ " required by tag " +:+ tag))))))
  end.

(** What the process writes to its standard output and error, and its exit code. *)
Record Outcome := mkOutcome { Stdout : string; Stderr : string; ExitCode : Z }.

(** [main] once its flags are read ([ReleaseTool.main] is all of it); [ReadFile] is
    [os.ReadFile]. *)
Definition mainParsed (ReadFile : string → Res string) (tag metadataPath : string) : Outcome :=
  match ReadFile metadataPath with
  | Err err => mkOutcome "" ("Error reading metadata: " +:+ Error err +:+ newline) 1
  | Ok metadata =>
      match verifyReleaseSeries tag metadata with
      | Err err => mkOutcome "" ("Release metadata verification failed: " +:+ Error err +:+ newline) 1
      | Ok _ => mkOutcome ("Verified that " +:+ metadataPath +:+ " contains the release series for " +:+ tag
                           +:+ newline) "" 0
      end
  end.
End verify.

(** ** What an expression matches *)

(** [w] is in the language of the expression, and the groups hold [caps]. *)
Fixpoint denotes (r : regexp) (w : string) (caps : list string) : Prop :=
  match r with
  | Class p => ∃ c, w = String c "" ∧ p c = true ∧ caps = []
  | Seq r1 r2 => ∃ w1 w2 c1 c2, w = w1 +:+ w2 ∧ caps = c1 ++ c2 ∧ denotes r1 w1 c1 ∧ denotes r2 w2 c2
  | Alt r1 r2 => denotes r1 w caps ∨ denotes r2 w caps
  | Many p => Forall (λ c, p c = true) (String.list_ascii_of_string w) ∧ caps = []
  | Opt r => denotes r w caps ∨ w = "" ∧ caps = []
  | Group r => ∃ c, denotes r w c ∧ caps = c ++ [w]
  end.

Lemma length_app_s (s1 s2 : string) : String.length (s1 +:+ s2) = (String.length s1 + String.length s2)%nat.
Proof. induction s1 as [|c s IH]; [done|]. by rewrite !app_cons_s, ?IH; simpl; rewrite ?IH. Qed.

Lemma consumed_app w rest : consumed (w +:+ rest) rest = w.
Proof.
  unfold consumed. rewrite length_app_s, Nat.add_sub.
  induction w as [|c w IH]; [by destruct rest|]. rewrite app_cons_s. simpl. by rewrite IH.
Qed.

(** The matcher is right: what it finds is a match that the rest accepts, and it
    finds one when there is one. *)
Lemma run_re_sound {A} r (k : string → list string → option A) s caps a :
  run_re r k s caps = Some a →
  ∃ w rest c, s = w +:+ rest ∧ denotes r w c ∧ k rest (caps ++ c) = Some a.
Proof.
  revert k s caps. induction r as [p|r1 IH1 r2 IH2|r1 IH1 r2 IH2|p|r IH|r IH]; intros k s caps; simpl.
  - destruct s as [|c s]; [done|]. destruct (p c) eqn:E; [|done]. intros H.
    exists (String c ""), s, []. rewrite app_nil_r. by eauto 10.
  - intros (w1 & rest & c1 & -> & H1 & (w2 & rest' & c2 & -> & H2 & H)%IH2)%IH1.
    exists (w1 +:+ w2), rest', (c1 ++ c2). rewrite app_assoc_s, app_assoc. by eauto 10.
  - destruct (run_re r1 k s caps) eqn:E; [intros [= ->]; apply IH1 in E|clear E; intros E; apply IH2 in E];
      destruct E as (w & rest & c & ? & ? & ?); exists w, rest, c; by auto.
  - induction s as [|c s IH].
    { intros H. exists "", "", []. rewrite app_nil_r. by repeat constructor. }
    assert (k (String c s) caps = Some a → ∃ w rest c0, String c s = w +:+ rest ∧
      (Forall (λ c, p c = true) (String.list_ascii_of_string w) ∧ c0 = []) ∧ k rest (caps ++ c0) = Some a) as Hstop.
    { intros H. exists "", (String c s), []. rewrite app_nil_r. by repeat constructor. }
    destruct (p c) eqn:Hp; [|done]. match goal with |- context [match ?m with _ => _ end] => destruct m as [b|] end; [|done].
    intros [= ->]. destruct (IH eq_refl) as (w & rest & c0 & -> & [Hw ->] & H).
    exists (String c w), rest, []. split; [done|]. split; [|done]. split; [by constructor|done].
  - destruct (run_re r k s caps) eqn:E.
    + intros [= ->]. apply IH in E as (w & rest & c & ? & ? & ?). exists w, rest, c. by auto.
    + intros H. exists "", s, []. rewrite app_nil_r. by auto.
  - intros (w & rest & c & -> & H & Hk)%IH. rewrite consumed_app, <- app_assoc in Hk.
    exists w, rest, (c ++ [w]). by eauto.
Qed.

Lemma run_re_complete {A} r (k : string → list string → option A) w rest caps c :
  denotes r w c → is_Some (k rest (caps ++ c)) → is_Some (run_re r k (w +:+ rest) caps).
Proof.
  revert k w rest caps c. induction r as [p|r1 IH1 r2 IH2|r1 IH1 r2 IH2|p|r IH|r IH]; intros k w rest caps c; simpl.
  - intros (d & -> & Hp & ->). rewrite app_cons_s, app_nil_r, app_empty_l. by rewrite Hp.
  - intros (w1 & w2 & c1 & c2 & -> & -> & H1 & H2) Hk. rewrite app_assoc_s. eapply IH1; [exact H1|].
    eapply IH2; [exact H2|]. by rewrite <- app_assoc.
  - intros [H|H] Hk; [|destruct (run_re r1 k (w +:+ rest) caps); [by eauto|by eapply IH2]].
    destruct (IH1 _ _ _ _ _ H Hk) as [a ->]. by eauto.
  - intros [Hw ->]. rewrite app_nil_r. intros Hk. induction w as [|d w IH]; rewrite ?app_cons_s, ?app_empty_l; simpl.
    + destruct rest as [|d rest]; [done|]. simpl. destruct (p d); [|done]. by case_match; eauto.
    + apply Forall_cons in Hw as [Hd Hw]. rewrite Hd. destruct (IH Hw) as [a ->]. by eauto.
  - intros [H|[-> ->]] Hk.
    + destruct (IH _ _ _ _ _ H Hk) as [a ->]. by eauto.
    + rewrite app_nil_r in Hk. rewrite app_empty_l. destruct (run_re r k rest caps); by eauto.
  - intros (c' & H & ->) Hk. eapply IH; [exact H|]. rewrite consumed_app, <- app_assoc. done.
Qed.

Lemma FindStringSubmatch_Some r s ms :
  FindStringSubmatch r s = Some ms → ∃ caps, ms = s :: caps ∧ denotes r s caps.
Proof.
  intros (w & rest & c & -> & H & Hk)%run_re_sound. case_bool_decide as Hr; [|done].
  subst. injection Hk as <-. rewrite app_empty_r. by eauto.
Qed.

Lemma FindStringSubmatch_is_Some r s :
  (∃ caps, denotes r s caps) → is_Some (FindStringSubmatch r s).
Proof.
  intros (caps & H). unfold FindStringSubmatch. set (k := λ rest caps, _).
  pose proof (run_re_complete r k s "" [] caps H) as Hc. rewrite app_empty_r in Hc. apply Hc. by eexists.
Qed.

(** ** Numbers *)

Definition digits (s : string) : Prop := Forall (λ c, is_digit c = true) (String.list_ascii_of_string s).

(** The number a text of digits stands for, read after [n]. *)
Fixpoint value (s : string) (n : N) : N :=
  match s with EmptyString => n | String c s => value s (n * 10 + digit_of c) end.

Lemma digit_of_lt c : is_digit c = true → digit_of c < 10.
Proof. unfold is_digit, digit_of. intros [H1 H2]%andb_true_iff. apply N.leb_le in H1, H2. lia. Qed.

Lemma digit_char_of n : n < 10 → is_digit (pretty_N_char n) = true ∧ digit_of (pretty_N_char n) = n.
Proof.
  intros H. assert (n = 0 ∨ n = 1 ∨ n = 2 ∨ n = 3 ∨ n = 4 ∨ n = 5 ∨ n = 6 ∨ n = 7 ∨ n = 8 ∨ n = 9) as Hn by lia.
  by repeat destruct Hn as [->|Hn]; subst.
Qed.

Lemma char_of_digit c : is_digit c = true → pretty_N_char (digit_of c) = c.
Proof. destruct c as [[] [] [] [] [] [] [] []]; by vm_compute. Qed.

Lemma value_ge s n : n ≤ value s n.
Proof. revert n. induction s as [|c s IH]; intros n; simpl; [lia|]. specialize (IH (n * 10 + digit_of c)). lia. Qed.

(** Printing continues after the digits. *)
Lemma pretty_N_go_value s n acc :
  digits s → 0 < n → pretty_N_go (value s n) acc = pretty_N_go n (s +:+ acc).
Proof.
  revert n acc. induction s as [|c s IH]; intros n acc Hs Hn; [done|].
  apply Forall_cons in Hs as [Hc Hs]. pose proof (digit_of_lt c Hc). simpl.
  rewrite IH by (done || lia). rewrite pretty_N_go_step by lia.
  rewrite N.div_add_l, N.div_small, N.add_0_r by lia.
  replace ((n * 10 + digit_of c) `mod` 10) with (digit_of c)
    by (rewrite N.add_comm, N.Div0.mod_add, N.mod_small; lia).
  by rewrite char_of_digit.
Qed.

Lemma value_pretty_N_go n acc : value (pretty_N_go n acc) 0 = value acc n.
Proof.
  revert acc. induction (N.lt_wf_0 n) as [n _ IH]; intros acc.
  destruct (N.eq_dec n 0) as [->|Hn]; [done|]. rewrite pretty_N_go_step by lia.
  rewrite IH by (apply N.div_lt; lia). simpl. destruct (digit_char_of (n `mod` 10)) as [_ ->].
  { by apply N.mod_lt. }
  f_equal. rewrite (N.div_mod n 10) at 3 by lia. lia.
Qed.

(** A number without leading zeros. *)
Definition numeral (s : string) : Prop :=
  s = "0" ∨ ∃ c s', s = String c s' ∧ is_nonzero_digit c = true ∧ digits s'.

Lemma is_nonzero_digit_spec c : is_nonzero_digit c = true ↔ is_digit c = true ∧ digit_of c ≠ 0.
Proof.
  unfold is_nonzero_digit, is_digit, digit_of. rewrite !andb_true_iff, !N.leb_le. lia.
Qed.

Lemma numeral_digits s : numeral s → digits s ∧ s ≠ "".
Proof.
  intros [->|(c & s' & -> & [Hc _]%is_nonzero_digit_spec & Hs)]; (split; [|done]).
  - by repeat constructor.
  - by constructor.
Qed.

Lemma pretty_N_go_numeral n acc :
  0 < n → digits acc → ∃ c s, pretty_N_go n acc = String c s ∧ is_nonzero_digit c = true ∧ digits s.
Proof.
  revert acc. induction (N.lt_wf_0 n) as [n _ IH]; intros acc Hn Hacc.
  rewrite pretty_N_go_step by done.
  destruct (digit_char_of (n `mod` 10)) as [Hd Hv]; [by apply N.mod_lt|].
  destruct (N.eq_dec (n `div` 10) 0) as [Hz|Hz].
  - rewrite Hz, pretty_N_go_0. eexists _, _. split; [done|]. split; [|done].
    apply is_nonzero_digit_spec. split; [done|]. rewrite Hv. pose proof (N.div_mod n 10 ltac:(done)) as Hdm. rewrite Hz in Hdm. lia.
  - apply IH; [apply N.div_lt; lia|by apply N.neq_0_lt_0|]. by constructor.
Qed.

(** The numbers without leading zeros are what printing gives. *)
Lemma numeral_pretty s : numeral s ↔ ∃ n : N, s = pretty n.
Proof.
  split.
  - intros [->|(c & s' & -> & Hc & Hs)]; [by exists 0|]. exists (value s' (digit_of c)).
    apply is_nonzero_digit_spec in Hc as [Hc Hz]. pose proof (value_ge s' (digit_of c)).
    unfold pretty, pretty_N. rewrite decide_False by lia.
    rewrite pretty_N_go_value, app_empty_r by (done || lia).
    pose proof (digit_of_lt c Hc). rewrite pretty_N_go_step by lia.
    rewrite N.div_small, N.mod_small, pretty_N_go_0, char_of_digit; done.
  - intros [n ->]. unfold pretty, pretty_N. destruct (decide _) as [|Hn]; [by left|right].
    apply pretty_N_go_numeral; [lia|constructor].
Qed.

Lemma value_pretty (n : N) : value (pretty n) 0 = n.
Proof. unfold pretty, pretty_N. destruct (decide _) as [->|Hn]; [done|]. apply value_pretty_N_go. Qed.

(** ** Atoi reads what was printed, within 64 bits *)

Lemma parseUint_value fn s0 s n :
  digits s → n < 2 ^ 64 →
  parseUint fn s0 s n = if value s n <? 2 ^ 64 then Ok (value s n) else Err (rangeError fn s0).
Proof.
  revert n. induction s as [|c s IH]; intros n Hs Hn; simpl.
  { by apply N.ltb_lt in Hn as ->. }
  apply Forall_cons in Hs as [Hc Hs]. pose proof (digit_of_lt c Hc). rewrite Hc. simpl.
  pose proof (value_ge s (n * 10 + digit_of c)) as Hge.
  assert (2 ^ 64 = 18446744073709551616) as E by done.
  assert (maxUint64 / 10 + 1 = 1844674407370955162) as E' by done. rewrite E'. 
  destruct (N.leb_spec 1844674407370955162 n).
  { destruct (N.ltb_spec (value s (n * 10 + digit_of c)) (2 ^ 64)); [lia|done]. }
  unfold uint64. rewrite (N.mod_small (n * 10)) by lia.
  destruct (N.ltb_spec (n * 10 + digit_of c) (2 ^ 64)) as [Hlt|Hle].
  - rewrite N.mod_small by done. destruct (N.ltb_spec (n * 10 + digit_of c) (n * 10)); [lia|]. by apply IH.
  - assert ((n * 10 + digit_of c) mod 2 ^ 64 = n * 10 + digit_of c - 2 ^ 64) as ->.
    { symmetry. apply (N.mod_unique _ _ 1); lia. }
    destruct (N.ltb_spec (n * 10 + digit_of c - 2 ^ 64) (n * 10)); [|lia].
    destruct (N.ltb_spec (value s (n * 10 + digit_of c)) (2 ^ 64)); [lia|done].
Qed.

Lemma Atoi_pretty (n : N) :
  Atoi (pretty n) = if n <? 2 ^ 63 then Ok (Z.of_N n) else Err (rangeError "Atoi" (pretty n)).
Proof.
  destruct (numeral_digits (pretty n)) as [Hd Hne]; [apply numeral_pretty; by exists n|].
  unfold Atoi. destruct (pretty n) as [|c s] eqn:E; [done|].
  assert (Ascii.eqb c "-" = false ∧ Ascii.eqb c "+" = false) as [-> ->].
  { apply Forall_cons in Hd as [Hc _]. split; apply Ascii.eqb_neq; intros ->; by vm_compute in Hc. }
  cbn [orb]. rewrite bool_decide_eq_false_2 by done. rewrite parseUint_value by (done || lia).
  rewrite <- E, value_pretty. assert (2 ^ 64 = 2 * 2 ^ 63) as -> by done.
  destruct (N.ltb_spec n (2 * 2 ^ 63)); simpl; [|destruct (N.ltb_spec n (2 ^ 63)); [lia|done]].
  destruct (N.leb_spec (2 ^ 63) n), (N.ltb_spec n (2 ^ 63)); done || lia.
Qed.

(** ** The language of the pattern *)

(** [-] or [+] followed by identifiers, or nothing. *)
Definition suffix_part (c : ascii) (s : string) : Prop :=
  s = "" ∨ ∃ w, s = String c w ∧ w ≠ "" ∧ Forall (λ d, is_identifier d = true) (String.list_ascii_of_string w).
Definition version_suffix (s : string) : Prop :=
  ∃ pre build, s = pre +:+ build ∧ suffix_part "-" pre ∧ suffix_part "+" build.

Definition tag_text (major minor patch suffix : string) : string :=
  "v" +:+ major +:+ "." +:+ minor +:+ "." +:+ patch +:+ suffix.

Lemma denotes_lit c w caps : denotes (lit c) w caps ↔ w = String c "" ∧ caps = [].
Proof.
  simpl. split; [|intros [-> ->]; exists c; by rewrite Ascii.eqb_refl].
  by intros (d & -> & ->%Ascii.eqb_eq & ->).
Qed.

Lemma denotes_number w caps : denotes numberPattern w caps ↔ numeral w ∧ caps = [w].
Proof.
  unfold numberPattern, numeral. split.
  - intros (c & [[-> ->]%denotes_lit|(w1 & w2 & c1 & c2 & -> & -> & (d & -> & Hd & ->) & [H ->])] & ->);
      (split; [|done]); [by left|right]. by exists d, w2.
  - intros [[->|(c & s & -> & Hc & Hs)] ->]; exists []; (split; [|done]); [left; by apply denotes_lit|right].
    exists (String c ""), s, [], []. split_and!; try done. by exists c.
Qed.

Lemma denotes_suffix c w caps :
  denotes (Opt (Seq (lit c) (plus is_identifier))) w caps ↔ suffix_part c w ∧ caps = [].
Proof.
  unfold suffix_part. split.
  - intros [(w1 & w2 & c1 & c2 & -> & -> & [-> ->]%denotes_lit &
             (w3 & w4 & c3 & c4 & -> & -> & (d & -> & Hd & ->) & [H ->]))|[-> ->]]; [|by auto].
    split; [right|done]. exists (String d w4). split_and!; [done|done|by constructor].
  - intros [[->|(w' & -> & Hne & H)] ->]; [by right|left].
    destruct w' as [|d w']; [done|]. apply Forall_cons in H as [Hd H].
    exists (String c ""), (String d w'), [], []. split; [done|split; [done|split; [by apply denotes_lit|]]].
    exists (String d ""), w', [], []. split_and!; try done. by exists d.
Qed.

Lemma denotes_seq r1 r2 w1 w2 c1 c2 :
  denotes r1 w1 c1 → denotes r2 w2 c2 → denotes (Seq r1 r2) (w1 +:+ w2) (c1 ++ c2).
Proof. intros. by exists w1, w2, c1, c2. Qed.

Lemma denotes_releaseTag tag caps :
  denotes releaseTagPattern tag caps ↔
  ∃ major minor patch suffix, tag = tag_text major minor patch suffix ∧ caps = [major; minor; patch] ∧
    numeral major ∧ numeral minor ∧ numeral patch ∧ version_suffix suffix.
Proof.
  unfold releaseTagPattern, tag_text. split.
  - intros (? & ? & ? & ? & -> & -> & [-> ->]%denotes_lit &
           (major & ? & ? & ? & -> & -> & [Hma ->]%denotes_number &
           (? & ? & ? & ? & -> & -> & [-> ->]%denotes_lit &
           (minor & ? & ? & ? & -> & -> & [Hmi ->]%denotes_number &
           (? & ? & ? & ? & -> & -> & [-> ->]%denotes_lit &
           (patch & ? & ? & ? & -> & -> & [Hpa ->]%denotes_number &
           (pre & build & ? & ? & -> & -> & [Hpre ->]%denotes_suffix & [Hbu ->]%denotes_suffix))))))).
    exists major, minor, patch, (pre +:+ build). split_and!; try done. by exists pre, build.
  - intros (major & minor & patch & ? & -> & -> & Hma & Hmi & Hpa & (pre & build & -> & Hpre & Hbu)).
    change [major; minor; patch] with ([] ++ [major] ++ [] ++ [minor] ++ [] ++ [patch] ++ [] ++ []).
    repeat apply denotes_seq; try (by apply denotes_lit); try (by apply denotes_number); by apply denotes_suffix.
Qed.

(** The first number of a text is all the digits before the dot. *)
Lemma digits_split n n' s s' :
  digits n → digits n' → n +:+ "." +:+ s = n' +:+ "." +:+ s' → n = n' ∧ s = s'.
Proof.
  revert n'. induction n as [|c n IH]; intros [|c' n'] Hn Hn'; rewrite ?app_cons_s, ?app_empty_l.
  - by intros [= ->].
  - intros [= <- _]. apply Forall_cons in Hn' as [Hc _]. by vm_compute in Hc.
  - intros [= -> _]. apply Forall_cons in Hn as [Hc _]. by vm_compute in Hc.
  - apply Forall_cons in Hn as [_ Hn]. apply Forall_cons in Hn' as [_ Hn'].
    intros [= <- H]. by destruct (IH n' Hn Hn' H) as [-> ->].
Qed.

(** What the expression finds in a tag. *)
Lemma FindStringSubmatch_releaseTag major minor patch suffix :
  numeral major → numeral minor → numeral patch → version_suffix suffix →
  ∃ rest, FindStringSubmatch releaseTagPattern (tag_text major minor patch suffix) =
    Some (tag_text major minor patch suffix :: major :: minor :: rest).
Proof.
  intros Hma Hmi Hpa Hsu. set (tag := tag_text major minor patch suffix).
  destruct (FindStringSubmatch_is_Some releaseTagPattern tag) as [ms Hms].
  { exists [major; minor; patch]. apply denotes_releaseTag. by exists major, minor, patch, suffix. }
  pose proof Hms as (caps & -> & (major' & minor' & patch' & suffix' & E & -> & Hma' & Hmi' & _)%denotes_releaseTag)
    %FindStringSubmatch_Some.
  exists [patch']. unfold tag, tag_text in E. apply (inj (String.append "v")) in E.
  apply digits_split in E as [-> E]; [|by apply numeral_digits..].
  apply digits_split in E as [-> E]; [|by apply numeral_digits..]. done.
Qed.

(** ** The check *)

Section release_claim.
Context (yaml_ToJSON : string → Res string) (json_Unmarshal : string → Res providerMetadata).

(** The check accepts exactly the tags that are printed from three numbers and whose
    series is listed. *)
Lemma verifyReleaseSeries_ok tag metadataYAML :
  verifyReleaseSeries yaml_ToJSON json_Unmarshal tag metadataYAML = Ok () ↔
  ∃ (major minor patch : N) suffix metadataJSON metadata,
    tag = tag_text (pretty major) (pretty minor) (pretty patch) suffix ∧ version_suffix suffix ∧
    major < 2 ^ 63 ∧ minor < 2 ^ 63 ∧
    yaml_ToJSON metadataYAML = Ok metadataJSON ∧ json_Unmarshal metadataJSON = Ok metadata ∧
    mkReleaseSeries (Z.of_N major) (Z.of_N minor) ∈ providerMetadata_ReleaseSeries metadata.
Proof.
  unfold verifyReleaseSeries. split.
  - destruct (FindStringSubmatch _ _) as [ms|] eqn:Hms; [|done].
    apply FindStringSubmatch_Some in Hms as
      (caps & -> & (major & minor & patch & suffix & Htag & -> & Hma & Hmi & Hpa & Hsu)%denotes_releaseTag).
    apply numeral_pretty in Hma as [ma ->], Hmi as [mi ->], Hpa as [pa ->]. cbn [nth].
    rewrite !Atoi_pretty.
    destruct (N.ltb_spec ma (2 ^ 63)) as [Hma|]; [|done].
    destruct (N.ltb_spec mi (2 ^ 63)) as [Hmi|]; [|done]. cbn [res_bind res_wrap].
    destruct (yaml_ToJSON _) as [json|] eqn:Hy; [|done]. cbn [res_bind res_wrap].
    destruct (json_Unmarshal _) as [md|] eqn:Hj; [|done]. cbn [res_bind res_wrap].
    destruct (_ =? 0)%nat; [done|]. destruct (existsb _ _) eqn:Hex; [|done]. intros _.
    exists ma, mi, pa, suffix, json, md. split_and!; try done.
    apply existsb_exists in Hex as ([a b] & Hin & [Ha%Z.eqb_eq Hb%Z.eqb_eq]%andb_true_iff).
    simpl in Ha, Hb. subst. by apply list_elem_of_In.
  - intros (ma & mi & pa & suffix & json & md & -> & Hsu & Hma & Hmi & Hy & Hj & Hin).
    destruct (FindStringSubmatch_releaseTag (pretty ma) (pretty mi) (pretty pa) suffix) as [rest ->];
      [apply numeral_pretty; by eexists..|done|]. cbn [nth]. rewrite !Atoi_pretty.
    apply N.ltb_lt in Hma as ->, Hmi as ->. cbn [res_bind res_wrap]. rewrite Hy. cbn [res_bind res_wrap].
    rewrite Hj. cbn [res_bind res_wrap].
    destruct (providerMetadata_ReleaseSeries md) as [|x l] eqn:E; [by apply not_elem_of_nil in Hin|].
    rewrite <- E in *. assert ((length (providerMetadata_ReleaseSeries md) =? 0)%nat = false) as -> by (by rewrite E).
    assert (existsb (λ series, (releaseSeries_Major series =? Z.of_N ma)%Z && (releaseSeries_Minor series =? Z.of_N mi)%Z)
              (providerMetadata_ReleaseSeries md) = true) as ->; [|done].
    apply existsb_exists. eexists. split; [by apply list_elem_of_In|]. simpl. by rewrite !Z.eqb_refl.
Qed.

(** The check accepts what it should: it ends with code 0 exactly when the metadata
    file can be read, the tag is printed from three numbers, as [vMAJOR.MINOR.PATCH]
    without leading zeros, with an optional pre-release and build part, the major and the minor version fit a signed 64-bit integer, and the decoded
    metadata lists that series: reading back the printed numbers loses nothing. Any
    other outcome is exit code 1 with a message on the standard error and nothing on
    the standard output. *)
Lemma mainParsed_accepts ReadFile tag metadataPath :
  let outcome := mainParsed yaml_ToJSON json_Unmarshal ReadFile tag metadataPath in
  (ExitCode outcome = 0%Z ↔
   ∃ (major minor patch : N) suffix metadataYAML metadataJSON metadata,
     ReadFile metadataPath = Ok metadataYAML ∧
     tag = tag_text (pretty major) (pretty minor) (pretty patch) suffix ∧ version_suffix suffix ∧
     major < 2 ^ 63 ∧ minor < 2 ^ 63 ∧
     yaml_ToJSON metadataYAML = Ok metadataJSON ∧ json_Unmarshal metadataJSON = Ok metadata ∧
     mkReleaseSeries (Z.of_N major) (Z.of_N minor) ∈ providerMetadata_ReleaseSeries metadata) ∧
  (ExitCode outcome ≠ 0%Z → ExitCode outcome = 1%Z ∧ Stdout outcome = "" ∧ Stderr outcome ≠ "").
Proof.
  unfold mainParsed. destruct (ReadFile metadataPath) as [yaml|e] eqn:Hr; cbv zeta.
  2:{ split; [|done]. split; [done|]. by intros (? & ? & ? & ? & ? & ? & ? & [=] & _). }
  pose proof (verifyReleaseSeries_ok tag yaml) as Hv.
  destruct (verifyReleaseSeries _ _ tag yaml) as [[]|e]; (split; [split|done]).
  - intros _. destruct Hv as [(ma & mi & pa & sf & js & md & H) _]; [done|]. by exists ma, mi, pa, sf, yaml, js, md.
  - done.
  - done.
  - intros (ma & mi & pa & sf & yaml' & js & md & [= <-] & H). assert (Err e = Ok ()) as [=].
    apply Hv. by exists ma, mi, pa, sf, js, md.
Qed.
End release_claim.

(** ** Examples *)

Definition one_series (s : string) : Res providerMetadata := Ok (mkProviderMetadata [mkReleaseSeries 0 3]).

Example release_accepted : verifyReleaseSeries Ok one_series "v0.3.12-rc.1+build-7" "" = Ok ().
Proof. vm_compute. reflexivity. Qed.
Example release_unlisted :
  verifyReleaseSeries Ok one_series "v1.3.0" "" =
    Err (errorString "metadata does not contain release series 1.3 required by tag v1.3.0").
Proof. vm_compute. reflexivity. Qed.
Example release_leading_zero : is_Some (FindStringSubmatch releaseTagPattern "v00.3.0") → False.
Proof. vm_compute. by intros []. Qed.
Example release_out_of_range :
  Atoi "9223372036854775808" = Err (rangeError "Atoi" "9223372036854775808") ∧
  Atoi "-9223372036854775808" = Ok (-9223372036854775808)%Z.
Proof. by vm_compute. Qed.
