(* ===== verification/Tracing.v ===== *)
(** * Trace-aware logging (src/internal/observability)

    The log sink that adds the identifiers of the current span to every line and
    reports errors on the span, and the function that starts a span with its
    logger. The sinks underneath, and the spans, are parameters. *)

From S2P Require Export Go.

Section tracing.
(** A sink of another library, with what [WithValues] and [WithName] make of it;
    a span of OpenTelemetry, with its context. *)
Context {Base KV Span : Type}.
Context (base_WithValues : list KV → Base → Base) (base_WithName : string → Base → Base).
Context (base_Enabled : Z → Base → bool).
Context (span_valid : Span → bool) (trace_kvs : Span → list KV).

(** ** trace_context.go *)

(** [logr.LogSink] *)
Inductive LogSink :=
  | baseSink (b : Base)
  | traceContextSink (base : LogSink) (span : Span).

(** What a call on a sink does, in order. *)
Inductive Effect :=
  | InfoLine (b : Base) (level : Z) (msg : string) (kvs : list KV)
  | ErrorLine (b : Base) (err : error) (msg : string) (kvs : list KV)
  | RecordError (span : Span) (err : error)
  | SetStatusError (span : Span) (msg : string).

(** [trace_kvs] stands for the four values with the two identifiers. *)
Definition withTraceKVs (span : Span) (kvs : list KV) : list KV :=
  if negb (span_valid span) then kvs else trace_kvs span ++ kvs.

Fixpoint Enabled (level : Z) (s : LogSink) : bool :=
  match s with
  | baseSink b => base_Enabled level b
  | traceContextSink base span => Enabled level base
  end.

Fixpoint Info (s : LogSink) (level : Z) (msg : string) (kvs : list KV) : list Effect :=
  match s with
  | baseSink b => [InfoLine b level msg kvs]
  | traceContextSink base span => Info base level msg (withTraceKVs span kvs)
  end.

Fixpoint LogError (s : LogSink) (err : error) (msg : string) (kvs : list KV) : list Effect :=
  match s with
  | baseSink b => [ErrorLine b err msg kvs]
  | traceContextSink base span =>
      RecordError span err :: SetStatusError span msg :: LogError base err msg (withTraceKVs span kvs)
  end.

Fixpoint WithValues (kvs : list KV) (s : LogSink) : LogSink :=
  match s with
  | baseSink b => baseSink (base_WithValues kvs b)
  | traceContextSink base span => traceContextSink (WithValues kvs base) span
  end.

Fixpoint WithName (name : string) (s : LogSink) : LogSink :=
  match s with
  | baseSink b => baseSink (base_WithName name b)
  | traceContextSink base span => traceContextSink (WithName name base) span
  end.

(** ** span.go: the sink of the logger put into the new context, given the sink
    of the context's logger and the span that the tracer started *)

Definition StartSpanWithLogger (span : Span) (sink : LogSink) : LogSink :=
  let base := match sink with traceContextSink base _ => base | baseSink _ => sink end in
  if span_valid span then traceContextSink base span else base.

(** ** Any use of it *)

Inductive Derivation :=
  | DStart (span : Span)
  | DValues (kvs : list KV)
  | DName (name : string).

Definition derive (s : LogSink) (d : Derivation) : LogSink :=
  match d with
  | DStart span => StartSpanWithLogger span s
  | DValues kvs => WithValues kvs s
  | DName name => WithName name s
  end.

(** *** The specification: a base sink and at most one span *)

Definition base_derive (b : Base) (d : Derivation) : Base :=
  match d with
  | DStart _ => b
  | DValues kvs => base_WithValues kvs b
  | DName name => base_WithName name b
  end.

(** The span that the lines belong to: the last one started, if it is valid. *)
Definition span_derive (o : option Span) (d : Derivation) : option Span :=
  match d with
  | DStart span => if span_valid span then Some span else None
  | _ => o
  end.

Definition sink_of (b : Base) (o : option Span) : LogSink :=
  match o with Some span => traceContextSink (baseSink b) span | None => baseSink b end.

Lemma derive_sink_of d b o : derive (sink_of b o) d = sink_of (base_derive b d) (span_derive o d).
Proof. destruct d as [span| |], o; simpl; unfold StartSpanWithLogger; simpl; try destruct (span_valid span); done. Qed.

Lemma derives_sink_of ds b o :
  foldl derive (sink_of b o) ds = sink_of (foldl base_derive b ds) (foldl span_derive o ds).
Proof. revert b o. induction ds as [|d ds IH]; intros b o; [done|]. simpl. by rewrite derive_sink_of. Qed.

Lemma span_derives_valid ds o span :
  (∀ sp, o = Some sp → span_valid sp = true) → foldl span_derive o ds = Some span → span_valid span = true.
Proof.
  revert o. induction ds as [|d ds IH]; intros o Ho; [apply Ho|]. simpl. apply IH.
  intros sp. destruct d as [sp'| |]; simpl; [|apply Ho..]. destruct (span_valid sp') eqn:E; congruence.
Qed.

(** Nested spans do not pile up. Whatever spans are started and whatever values
    and names are added, in any order and nesting, from a logger without a span:
    a line carries the identifiers of the last span started, once, or none when
    that span is not valid, and an error is reported on that span and on none of
    its ancestors. *)
Theorem tracing_one_span (b : Base) (ds : list Derivation) (level : Z) (err : error) (msg : string) (kvs : list KV) :
  let sink := foldl derive (baseSink b) ds in
  let b' := foldl base_derive b ds in
  Enabled level sink = base_Enabled level b' ∧
  match foldl span_derive None ds with
  | Some span =>
      Info sink level msg kvs = [InfoLine b' level msg (trace_kvs span ++ kvs)] ∧
      LogError sink err msg kvs =
        [RecordError span err; SetStatusError span msg; ErrorLine b' err msg (trace_kvs span ++ kvs)]
  | None =>
      Info sink level msg kvs = [InfoLine b' level msg kvs] ∧
      LogError sink err msg kvs = [ErrorLine b' err msg kvs]
  end.
Proof.
  intros sink b'. subst sink b'. change (baseSink b) with (sink_of b None). rewrite derives_sink_of.
  destruct (foldl span_derive None ds) as [span|] eqn:E; [|done].
  apply span_derives_valid in E; [|done]. simpl. unfold withTraceKVs. by rewrite E.
Qed.
End tracing.
