(* ===== verification/NetIP.v ===== *)
(** * IP addresses (the parts of Go's [net] and [net/netip] the program uses)

    Parsing of addresses and prefixes, and containment, on 32- and 128-bit
    values. The texts of the parse errors are left out: a failed parse is
    [None]. *)

From S2P Require Export Go.

#[local] Open Scope Z_scope.

(** An address: IPv4, or IPv6 with its zone. *)
Inductive Addr :=
  | Addr4 (v : Z)
  | Addr6 (v : Z) (zone : string).

#[export] Instance Addr_eq_dec : EqDecision Addr.
Proof. solve_decision. Defined.

Definition BitLen (a : Addr) : Z := match a with Addr4 _ => 32 | Addr6 _ _ => 128 end.
Definition Zone (a : Addr) : string := match a with Addr4 _ => "" | Addr6 _ z => z end.

(** [As16]: IPv4 addresses in their IPv4-mapped form. *)
Definition As16 (a : Addr) : Z :=
  match a with Addr4 v => Z.lor (Z.shiftl 65535 32) v | Addr6 v _ => v end.

(** ** Parsing *)

Definition code (c : Ascii.ascii) : Z := Z.of_nat (Ascii.nat_of_ascii c).

Definition digit (c : Ascii.ascii) : option Z :=
  if (48 <=? code c) && (code c <=? 57) then Some (code c - 48) else None.

Definition hexdigit (c : Ascii.ascii) : option Z :=
  if (48 <=? code c) && (code c <=? 57) then Some (code c - 48)
  else if (97 <=? code c) && (code c <=? 102) then Some (code c - 97 + 10)
  else if (65 <=? code c) && (code c <=? 70) then Some (code c - 65 + 10)
  else None.

Definition bytes_value (bs : list Z) : Z := fold_left (λ acc b, acc * 256 + b) bs 0.

(** [parseIPv4Fields]: [fields] holds the octets read, in order; [digLen] is the
    number of digits of the current one. *)
Fixpoint parseIPv4Fields (s : string) (val digLen : Z) (fields : list Z) : option (list Z) :=
  match s with
  | EmptyString => if (length fields <? 3)%nat then None else Some (fields ++ [val])
  | String c s =>
      match digit c with
      | Some d =>
          if (digLen =? 1) && (val =? 0) then None
          else
            let val := val * 10 + d in
            if 255 <? val then None else parseIPv4Fields s val (digLen + 1) fields
      | None =>
          if (code c =? 46) then
            if (digLen =? 0) || bool_decide (s = "") then None
            else if (length fields =? 3)%nat then None
            else parseIPv4Fields s 0 0 (fields ++ [val])
          else None
      end
  end.

Definition parseIPv4 (s : string) : option Addr :=
  Addr4 ∘ bytes_value <$> parseIPv4Fields s 0 0 [].

(** The hexadecimal digits at the front: how many, their value, and the rest.
    More than four fail. *)
Fixpoint hexRun (s : string) (off : nat) (acc : Z) : option (nat * Z * string) :=
  match s with
  | EmptyString => Some (off, acc, s)
  | String c s' =>
      match hexdigit c with
      | None => Some (off, acc, s)
      | Some d =>
          let acc := Z.shiftl acc 4 + d in
          if (3 <? off)%nat then None
          else if 65535 <? acc then None
          else hexRun s' (S off) acc
      end
  end.

(** The loop of [parseIPv6]: [fuel] groups may still be read; [ip] holds the bytes
    read so far and [ellipsis] their number at the "::". *)
Fixpoint parseIPv6Loop (fuel : nat) (s : string) (ip : list Z) (ellipsis : option nat)
    : option (string * list Z * option nat) :=
  match fuel with
  | O => Some (s, ip, ellipsis)
  | S fuel =>
      match hexRun s 0 0 with
      | None => None
      | Some (off, acc, rest) =>
          if (off =? 0)%nat then None
          else
            match rest with
            | String c rest' =>
                if code c =? 46 then
                  if match ellipsis with None => negb (length ip =? 12)%nat | Some _ => false end
                  then None
                  else if (16 <? length ip + 4)%nat then None
                  else
                    match parseIPv4Fields s 0 0 [] with
                    | None => None
                    | Some fields => Some ("", ip ++ fields, ellipsis)
                    end
                else
                  let ip := ip ++ [Z.shiftr acc 8; Z.land acc 255] in
                  if negb (code c =? 58) then None
                  else
                    match rest' with
                    | EmptyString => None
                    | String c' rest'' =>
                        if code c' =? 58 then
                          match ellipsis with
                          | Some _ => None
                          | None =>
                              match rest'' with
                              | EmptyString => Some ("", ip, Some (length ip))
                              | _ => parseIPv6Loop fuel rest'' ip (Some (length ip))
                              end
                          end
                        else parseIPv6Loop fuel rest' ip ellipsis
                    end
            | EmptyString => Some ("", ip ++ [Z.shiftr acc 8; Z.land acc 255], ellipsis)
            end
      end
  end.

(** Split at the first occurrence of a byte. *)
Fixpoint cut (b : Z) (s : string) : option (string * string) :=
  match s with
  | EmptyString => None
  | String c s =>
      if code c =? b then Some (EmptyString, s)
      else match cut b s with Some (l, r) => Some (String c l, r) | None => None end
  end.

(** Split at the last occurrence of a byte. *)
Fixpoint cutLast (b : Z) (s : string) : option (string * string) :=
  match s with
  | EmptyString => None
  | String c s =>
      match cutLast b s with
      | Some (l, r) => Some (String c l, r)
      | None => if code c =? b then Some (EmptyString, s) else None
      end
  end.

(** After the loop: the whole string must be used, and "::" stands for at least
    one group of zeros. *)
Definition expandIPv6 (zone : string) (r : option (string * list Z * option nat)) : option Addr :=
  match r with
  | Some (EmptyString, ip, ellipsis) =>
      if (length ip <? 16)%nat then
        match ellipsis with
        | None => None
        | Some e =>
            Some (Addr6 (bytes_value (take e ip ++ replicate (16 - length ip) 0 ++ drop e ip)) zone)
        end
      else match ellipsis with None => Some (Addr6 (bytes_value ip) zone) | Some _ => None end
  | _ => None
  end.

Definition parseIPv6 (s : string) : option Addr :=
  let body (s zone : string) :=
    match s with
    | String c1 (String c2 rest) =>
        if (code c1 =? 58) && (code c2 =? 58) then
          match rest with
          | EmptyString => Some (Addr6 0 zone)
          | _ => expandIPv6 zone (parseIPv6Loop 8 rest [] (Some 0%nat))
          end
        else expandIPv6 zone (parseIPv6Loop 8 s [] None)
    | _ => expandIPv6 zone (parseIPv6Loop 8 s [] None)
    end in
  match cut 37 s with
  | Some (s, zone) => if bool_decide (zone = "") then None else body s zone
  | None => body s ""
  end.

(** [netip.ParseAddr]: the first '.', ':' or '%' decides. *)
Fixpoint parseAddrBy (rest s : string) : option Addr :=
  match rest with
  | EmptyString => None
  | String c rest =>
      if code c =? 46 then parseIPv4 s
      else if code c =? 58 then parseIPv6 s
      else if code c =? 37 then None
      else parseAddrBy rest s
  end.
Definition ParseAddr (s : string) : option Addr := parseAddrBy s s.

(** A run of decimal digits, all of the string ([strconv.Atoi] and [dtoi] on the
    strings that reach them; both reject values far above any prefix length). *)
Fixpoint decimal (s : string) (acc : Z) : option Z :=
  match s with
  | EmptyString => Some acc
  | String c s => match digit c with Some d => decimal s (acc * 10 + d) | None => None end
  end.

(** ** netip.Prefix *)

Record Prefix := mkPrefix { Prefix_ip : Addr; Prefix_bits : Z }.

(** A single sign is not a number, so the one-character case needs a digit. *)
Definition ParsePrefix (s : string) : option Prefix :=
  match cutLast 47 s with
  | None => None
  | Some (addr, bitsStr) =>
      match ParseAddr addr with
      | None => None
      | Some ip =>
          if negb (bool_decide (Zone ip = "")) then None
          else
            let firstBad := match bitsStr with
                            | String c (String _ _) => negb ((49 <=? code c) && (code c <=? 57))
                            | EmptyString => true
                            | _ => false
                            end in
            if firstBad then None
            else match decimal bitsStr 0 with
                 | None => None
                 | Some bits => if BitLen ip <? bits then None else Some (mkPrefix ip bits)
                 end
      end
  end.

(** The mask of the leading [n] bits of [w]. *)
Definition maskBits (n w : Z) : Z := Z.shiftl (Z.ones n) (w - n).

Definition Prefix_Contains (p : Prefix) (ip : Addr) : bool :=
  match Prefix_ip p, ip with
  | Addr4 a, Addr4 b => Z.shiftr (Z.lxor b a) (32 - Prefix_bits p) =? 0
  | Addr6 a _, Addr6 b zone =>
      bool_decide (zone = "") && (Z.land (Z.lxor b a) (maskBits (Prefix_bits p) 128) =? 0)
  | _, _ => false
  end.

(** ** net.IP and net.IPNet

    A [net.IP] here is the 16-byte form that [ParseIP] returns. *)

Definition ParseIP (s : string) : option Z :=
  match ParseAddr s with
  | Some a => if bool_decide (Zone a = "") then Some (As16 a) else None
  | None => None
  end.

Definition To4 (ip : Z) : option Z :=
  if Z.shiftr ip 32 =? 65535 then Some (Z.land ip (Z.ones 32)) else None.

(** The network number and mask, with their length in bits. *)
Record IPNet := mkIPNet { IPNet_len : Z; IPNet_IP : Z; IPNet_Mask : Z }.

Definition ParseCIDR (s : string) : option IPNet :=
  match cut 47 s with
  | None => None
  | Some (addr, mask) =>
      match ParseAddr addr with
      | None => None
      | Some a =>
          if negb (bool_decide (Zone a = "")) || bool_decide (mask = "") then None
          else match decimal mask 0 with
               | None => None
               | Some n =>
                   if BitLen a <? n then None
                   else
                     let m := maskBits n (BitLen a) in
                     match a with
                     | Addr4 v => Some (mkIPNet 32 (Z.land v m) m)
                     | Addr6 v _ => Some (mkIPNet 128 (Z.land v m) m)
                     end
               end
      end
  end.

Definition networkNumberAndMask (n : IPNet) : Z * Z * Z :=
  if IPNet_len n =? 32 then (32, IPNet_IP n, IPNet_Mask n)
  else match To4 (IPNet_IP n) with
       | Some v => (32, v, Z.land (IPNet_Mask n) (Z.ones 32))
       | None => (128, IPNet_IP n, IPNet_Mask n)
       end.

Definition IPNet_Contains (n : IPNet) (ip : Z) : bool :=
  let '(l, nn, m) := networkNumberAndMask n in
  let '(l', x) := match To4 ip with Some v => (32, v) | None => (128, ip) end in
  (l =? l') && (Z.land nn m =? Z.land x m).

(** ** Sanity of the parsers on concrete texts *)

Example parse_v4 : ParseAddr "172.18.0.5" = Some (Addr4 2886860805).
Proof. vm_compute. reflexivity. Qed.
Example parse_v4_leading_zero : ParseAddr "172.018.0.5" = None.
Proof. vm_compute. reflexivity. Qed.
Example parse_v4_range : ParseAddr "172.256.0.5" = None.
Proof. vm_compute. reflexivity. Qed.
Example parse_v4_short : ParseAddr "172.16.0" = None.
Proof. vm_compute. reflexivity. Qed.
Example parse_v6 : ParseAddr "2001:db8::1" = Some (Addr6 42540766411282592856903984951653826561 "").
Proof. vm_compute. reflexivity. Qed.
Example parse_v6_mapped : ParseAddr "::ffff:10.0.0.1" = Some (Addr6 (As16 (Addr4 167772161)) "").
Proof. vm_compute. reflexivity. Qed.
Example parse_v6_zone : ParseAddr "fe80::1%eth0" = Some (Addr6 338288524927261089654018896841347694593 "eth0").
Proof. vm_compute. reflexivity. Qed.
Example parse_prefix : ParsePrefix "172.18.0.0/24" = Some (mkPrefix (Addr4 2886860800) 24).
Proof. vm_compute. reflexivity. Qed.
Example parse_prefix_leading_zero : ParsePrefix "172.18.0.0/024" = None.
Proof. vm_compute. reflexivity. Qed.

(** ** What containment means *)

Lemma decimal_nonneg s acc n : 0 <= acc → decimal s acc = Some n → 0 <= n.
Proof.
  revert acc. induction s as [|c s IH]; simpl; intros acc Ha; [by intros [= <-]|].
  unfold digit. destruct (_ && _) eqn:E; [|done]. apply andb_true_iff in E as [E1%Z.leb_le _].
  apply IH. lia.
Qed.

(** The addresses under a prefix are those that share its leading bits. *)
Lemma shiftr_lxor_zero a b k : 0 <= k → Z.shiftr (Z.lxor b a) k = 0 ↔ a / 2 ^ k = b / 2 ^ k.
Proof.
  intros Hk. rewrite Z.shiftr_lxor, Z.lxor_eq_0_iff, !Z.shiftr_div_pow2 by done. split; auto.
Qed.

Lemma Prefix_Contains_v4 a b n :
  0 <= n <= 32 →
  Prefix_Contains (mkPrefix (Addr4 a) n) (Addr4 b) = true ↔ a / 2 ^ (32 - n) = b / 2 ^ (32 - n).
Proof. intros Hn. unfold Prefix_Contains. simpl. rewrite Z.eqb_eq. apply shiftr_lxor_zero. lia. Qed.
