(* ===== verification/Memory.v ===== *)
(** * The memory of Go, for code that copies

    Typed values in a heap of locations: pointers, slices and maps with their
    aliasing, the value that is reached by following them and the locations that
    are passed on the way. The class [GoType] is what the copying code of one type
    promises to the code of the types that contain it: a copy reads the same and
    shares no memory with what was there before. *)

From stdpp Require Import fin_maps fin_map_dom.
From S2P Require Export Prelude.

Set Warnings "-register-all".

(** ** Memory *)

Abbreviation loc := positive.

(** What a location holds is kept encoded, so that cells of all types live in one
    memory. *)
Abbreviation Mem := (gmap loc positive).

(** A computation on the memory; None where the location read does not hold a value
    of the type, which the run time excludes. *)
Definition MemM (A : Type) : Type := Mem → option (A * Mem).

Definition mem_ret {A} (a : A) : MemM A := λ m, Some (a, m).
Definition mem_bind {A B} (c : MemM A) (k : A → MemM B) : MemM B := λ m,
  match c m with Some (a, m') => k a m' | None => None end.

Declare Scope mem_scope.
Delimit Scope mem_scope with mem.
Notation "'let*' x ':=' c 'in' k" := (mem_bind c (λ x, k))
  (at level 10, x pattern, c at level 100, k at level 200) : mem_scope.
Open Scope mem_scope.

Definition read {A} `{Countable A} (l : loc) (m : Mem) : option A := m !! l ≫= decode.

Definition alloc {A} `{Countable A} (a : A) : MemM loc := λ m,
  let l := fresh (dom m) in Some (l, <[l := encode a]> m).
Definition load {A} `{Countable A} (l : loc) : MemM A := λ m, a ← read l m; Some (a, m).
Definition store {A} `{Countable A} (l : loc) (a : A) : MemM unit := λ m, Some ((), <[l := encode a]> m).

(** ** Pointers, slices, maps *)

(** A pointer, nil or to a cell. *)
Record ptr (A : Type) := Ptr { addr : option loc }.
Arguments Ptr {A} addr.
Arguments addr {A} p.

(** A slice, nil or a window of an array: location, first index, length. *)
Record slice (A : Type) := Slice { window : option (loc * nat * nat) }.
Arguments Slice {A} window.
Arguments window {A} s.

(** A map with string keys, nil or to a table. *)
Record gomap (A : Type) := GoMap { table : option loc }.
Arguments GoMap {A} table.
Arguments table {A} g.

(** The elements in a window of an array. *)
Definition elements {A} (from len : nat) (arr : list A) : list A := take len (drop from arr).

(** ** What is reached from a value *)

Inductive Scalar := SString (s : string) | SInt (n : Z) | SBool (b : bool).

Inductive Tree :=
  | Leaf (x : Scalar)
  | Nil
  | Pointer (t : Tree)
  | Items (ts : list Tree)
  | Entries (ts : gmap string Tree)
  | Both (a b : Tree).

(** A type whose values can be copied. [view] reads a value through the memory and
    [foot] is the set of locations this passes; [DeepCopyInto] is the copying
    method, by the value it leaves in its argument. *)
Class GoType (A : Type) := {
  go_eq_dec :: EqDecision A;
  go_countable :: Countable A;
  zero : A;
  view : A → Mem → option Tree;
  foot : A → Mem → gset loc;
  DeepCopyInto : A → MemM A;
  view_local x m m' : (∀ l, l ∈ foot x m → m' !! l = m !! l) →
    view x m' = view x m ∧ foot x m' = foot x m;
  foot_alloc x m t : view x m = Some t → foot x m ⊆ dom m;
  copy_law x m t : view x m = Some t →
    ∃ y m', DeepCopyInto x m = Some (y, m') ∧
      m ⊆ m' ∧ view y m' = Some t ∧ foot y m' ## dom m }.

(** A type whose values are copied by assignment. *)
Class Flat (A : Type) `{GoType A} := flat : ∀ (x : A) m, DeepCopyInto x m = Some (x, m).

(** ** The copying of pointers, slices and maps, given the copying [f] of elements *)

(** The assignment [out = in]. *)
Definition assign {A} (x : A) : MemM A := mem_ret x.

Section copying.
Context {A : Type} `{GoType A} (f : A → MemM A).

(** A new variable, into which the target is copied. *)
Definition copyPtr (p : ptr A) : MemM (ptr A) :=
  match addr p with
  | None => mem_ret p
  | Some l =>
      let* out := alloc zero in
      let* x := load l in
      let* y := f x in
      let* _ := store out y in
      mem_ret (Ptr (Some out))
  end.

(** The loop that fills a container: [for key, val := range in]. *)
Fixpoint fill {K C} `{Countable C} (put : K → A → C → C) (out : loc) (l : list (K * A)) : MemM unit :=
  match l with
  | [] => mem_ret ()
  | (k, x) :: l =>
      let* y := f x in
      let* c := load out in
      let* _ := store out (put k y c) in
      fill put out l
  end.

(** A new array of the slice's length, filled element by element. *)
Definition copySlice (s : slice A) : MemM (slice A) :=
  match window s with
  | None => mem_ret s
  | Some (l, from, len) =>
      let* out := alloc (replicate len zero) in
      let* arr := load l in
      let* _ := fill (λ i y (c : list A), <[i := y]> c) out (imap pair (elements from len arr)) in
      mem_ret (Slice (Some (out, 0, len)))
  end.

(** A new table, filled entry by entry; Go leaves the order of the entries open. *)
Definition copyMap (g : gomap A) : MemM (gomap A) :=
  match table g with
  | None => mem_ret g
  | Some l =>
      let* out := alloc (∅ : gmap string A) in
      let* entries := load l in
      let* _ := fill (λ k y (c : gmap string A), <[k := y]> c) out (map_to_list entries) in
      mem_ret (GoMap (Some out))
  end.

(** [DeepCopy]: a new variable for the copy of what the receiver points to. *)
Definition DeepCopy (p : ptr A) : MemM (ptr A) := copyPtr p.
End copying.

Arguments copyPtr {A _} f p _ : simpl never.
Arguments copySlice {A _} f s _ : simpl never.
Arguments copyMap {A _} f g _ : simpl never.

(** ** The memory grows *)

Section growth.
Context `{GoType A}.
Implicit Types (m : Mem) (x y : A).

Lemma view_weaken x m m' t :
  view x m = Some t → m ⊆ m' → view x m' = Some t ∧ foot x m' = foot x m.
Proof.
  intros Hv Hsub. rewrite <- Hv. apply view_local. intros l Hl.
  apply (foot_alloc x m t Hv), elem_of_dom in Hl as [c Hc]. rewrite Hc. by eapply lookup_weaken.
Qed.

(** A write elsewhere. *)
Lemma view_store x m t l c :
  view x m = Some t → l ∉ foot x m → view x (<[l := c]> m) = Some t ∧ foot x (<[l := c]> m) = foot x m.
Proof.
  intros Hv Hl. rewrite <- Hv. apply view_local. intros l' Hl'. apply lookup_insert_ne. by intros ->.
Qed.
End growth.

Lemma read_insert_eq `{Countable A} l (a : A) m : read l (<[l := encode a]> m) = Some a.
Proof. unfold read. rewrite lookup_insert_eq. apply decode_encode. Qed.

Lemma read_weaken `{Countable A} l (a : A) m m' : read l m = Some a → m ⊆ m' → read l m' = Some a.
Proof.
  unfold read. intros (c & Hc & Hd)%bind_Some Hsub. by rewrite (lookup_weaken _ _ _ _ Hc Hsub).
Qed.

Lemma read_dom `{Countable A} l (a : A) m : read l m = Some a → l ∈ dom m.
Proof. unfold read. intros (c & Hc & _)%bind_Some. by apply elem_of_dom. Qed.

Lemma read_eq `{Countable A} l m m' : m' !! l = m !! l → read (A:=A) l m' = read l m.
Proof. unfold read. by intros ->. Qed.

Lemma alloc_sub (m : Mem) c : m ⊆ <[fresh (dom m) := c]> m.
Proof. apply insert_subseteq, not_elem_of_dom, is_fresh. Qed.

(** ** The loop that fills a container *)

Section filling.
Context `{GoType A} {K C : Type} `{Countable C} (put : K → A → C → C) (out : loc).
Implicit Types (m : Mem) (l : list (K * A)).

(** The copies of the elements, in a memory where the container's cell may have
    changed since they were made: they read like the originals did and are neither in
    the old memory [m0] nor in the container. *)
Definition copies m0 l m (ys : list A) : Prop :=
  Forall2 (λ kx y, view y m = view (snd kx) m0 ∧ (out ∉ foot y m) ∧ (foot y m ## dom m0)) l ys.

Lemma fill_spec m0 l c m1 :
  m0 ⊆ m1 → out ∉ dom m0 → read out m1 = Some c → Forall (λ kx, is_Some (view (snd kx) m0)) l →
  ∃ ys m2, fill DeepCopyInto put out l m1 = Some ((), m2) ∧
    m0 ⊆ m2 ∧ (∀ i, i ∈ dom m1 → i ≠ out → m2 !! i = m1 !! i) ∧ out ∈ dom m2 ∧
    read out m2 = Some (foldl (λ c ky, put (fst ky) (snd ky) c) c (zip l.*1 ys)) ∧ copies m0 l m2 ys.
Proof.
  revert c m1. induction l as [|[k x] l IH]; intros c m1 Hsub Hout Hc HF.
  { exists [], m1. split_and!; [done..|by eapply read_dom|done|constructor]. }
  apply Forall_cons in HF as [[t Hx] HF]. simpl in Hx.
  destruct (view_weaken x m0 m1 t Hx Hsub) as [Hx1 _].
  destruct (copy_law x m1 t Hx1) as (y & m1' & Hcopy & Hs1 & Hvy & Hfy).
  pose proof (foot_alloc y m1' t Hvy) as Hay.
  assert (out ∉ foot y m1') as Hoy by (apply read_dom in Hc; set_solver).
  destruct (view_store y m1' t out (encode (put k y c)) Hvy Hoy) as [Hvy' Hfy'].
  set (m1'' := <[out := encode (put k y c)]> m1') in *.
  destruct (IH (put k y c) m1'') as (ys & m2 & Hfill & Hs2 & Hkeep & Hin & Hr & Hcs).
  - apply insert_subseteq_r; [by apply not_elem_of_dom|by etrans].
  - done.
  - apply read_insert_eq.
  - done.
  - exists (y :: ys), m2. cbn [fill]. unfold mem_bind at 1. rewrite Hcopy.
    unfold mem_bind at 1, load. rewrite (read_weaken _ _ _ _ Hc Hs1). cbn [mbind option_bind].
    unfold mem_bind, store. fold m1''. rewrite Hfill.
    assert (∀ i, i ∈ dom m1' → i ≠ out → m2 !! i = m1' !! i) as Hkeep1.
    { intros i Hi Hne. rewrite Hkeep by (unfold m1''; rewrite ?dom_insert; set_solver).
      unfold m1''. by rewrite lookup_insert_ne. }
    assert (∀ i, i ∈ foot y m1'' → m2 !! i = m1'' !! i) as Hloc.
    { intros i Hi. rewrite Hfy' in Hi. apply Hkeep; [|by intros ->].
      unfold m1''. rewrite dom_insert. set_solver. }
    destruct (view_local y m1'' m2 Hloc) as [Hv2 Hf2].
    split_and!; [done|done| |done|done|].
    + intros i Hi Hne. apply subseteq_dom in Hs1 as Hd1. rewrite Hkeep1 by set_solver.
      apply elem_of_dom in Hi as [a Ha]. by rewrite Ha, (lookup_weaken _ _ _ _ Ha Hs1).
    + constructor; [|done]. simpl. rewrite Hv2, Hvy', Hx, Hf2, Hfy'.
      split_and!; [done..|]. apply subseteq_dom in Hsub. set_solver.
Qed.
End filling.

(** ** The types of Go *)

(** *** Values without memory *)

Section scalar.
Context {A : Type} `{Countable A} (z : A) (leaf : A → Scalar).

Program Definition scalar_type : GoType A := {|
  zero := z;
  view x _ := Some (Leaf (leaf x));
  foot _ _ := ∅;
  DeepCopyInto := assign |}.
Next Obligation. done. Qed.
Next Obligation. set_solver. Qed.
Next Obligation. intros x m t Hx. exists x, m. split_and!; [done..|set_solver]. Qed.
End scalar.

#[export] Instance string_type : GoType string := scalar_type "" SString.
#[export] Instance int_type : GoType Z := scalar_type 0%Z SInt.
#[export] Instance bool_type : GoType bool := scalar_type false SBool.
#[export] Instance string_flat : Flat string.
Proof. done. Qed.
#[export] Instance int_flat : Flat Z.
Proof. done. Qed.
#[export] Instance bool_flat : Flat bool.
Proof. done. Qed.

(** *** Fields one after the other *)

Section pair.
Context `{GA : GoType A, GB : GoType B}.

#[export] Program Instance pair_type : GoType (A * B) := {|
  zero := (zero, zero);
  view x m := a ← view (fst x) m; b ← view (snd x) m; Some (Both a b);
  foot x m := foot (fst x) m ∪ foot (snd x) m;
  DeepCopyInto x :=
    let* a := DeepCopyInto (fst x) in
    let* b := DeepCopyInto (snd x) in
    mem_ret (a, b) |}.
Next Obligation.
  intros [a b] m m' Hl. simpl in *.
  destruct (view_local a m m') as [-> ->]; [set_solver|].
  destruct (view_local b m m') as [-> ->]; [set_solver|]. done.
Qed.
Next Obligation.
  intros [a b] m t (ta & Ha & (tb & Hb & _)%bind_Some)%bind_Some. simpl in *.
  apply foot_alloc in Ha, Hb. set_solver.
Qed.
Next Obligation.
  intros [a b] m t (ta & Ha & (tb & Hb & [= <-])%bind_Some)%bind_Some. simpl in *.
  destruct (copy_law a m ta Ha) as (a' & m1 & Hca & Hs1 & Hva & Hfa).
  destruct (view_weaken b m m1 tb Hb Hs1) as [Hb1 _].
  destruct (copy_law b m1 tb Hb1) as (b' & m2 & Hcb & Hs2 & Hvb & Hfb).
  destruct (view_weaken a' m1 m2 ta Hva Hs2) as [Hva2 Hfa2].
  exists (a', b'), m2. unfold mem_bind. rewrite Hca, Hcb. simpl. rewrite Hva2, Hvb, Hfa2.
  split_and!; [done|by etrans|done|]. apply subseteq_dom in Hs1. set_solver.
Qed.

#[export] Instance pair_flat `{!Flat A, !Flat B} : Flat (A * B).
Proof. intros [a b] m. simpl. unfold mem_bind. by rewrite (flat a), (flat b). Qed.
End pair.

(** *** Pointers *)

Lemma ptr_iso {A} (p : ptr A) : Ptr (addr p) = p.
Proof. by destruct p. Qed.
#[export] Instance ptr_eq_dec {A} : EqDecision (ptr A).
Proof. solve_decision. Defined.
#[export] Instance ptr_countable {A} : Countable (ptr A) := inj_countable' addr Ptr ptr_iso.

Section pointer.
Context `{G : GoType A}.

#[export] Program Instance ptr_type : GoType (ptr A) := {|
  zero := Ptr None;
  view p m := match addr p with
              | None => Some Nil
              | Some l => x ← read (A:=A) l m; Pointer <$> view x m
              end;
  foot p m := match addr p with
              | None => ∅
              | Some l => {[ l ]} ∪ match read (A:=A) l m with Some x => foot x m | None => ∅ end
              end;
  DeepCopyInto := copyPtr DeepCopyInto |}.
Next Obligation.
  intros [[l|]] m m' Hl; simpl in *; [|done].
  rewrite (read_eq (A:=A) l m m') by (apply Hl; set_solver).
  destruct (read l m) as [x|]; simpl; [|done].
  destruct (view_local x m m') as [-> ->]; [set_solver|done].
Qed.
Next Obligation.
  intros [[l|]] m t; simpl in *; [|set_solver].
  intros (x & Hx & (tx & Hv & _)%fmap_Some)%bind_Some. rewrite Hx.
  apply read_dom in Hx. apply foot_alloc in Hv. set_solver.
Qed.
Next Obligation.
  intros [[l|]] m t; simpl in *.
  2:{ intros [= <-]. exists (Ptr None), m. split_and!; [done..|set_solver]. }
  intros (x & Hx & (tx & Hv & ->)%fmap_Some)%bind_Some.
  unfold copyPtr. simpl. unfold mem_bind at 1, alloc.
  set (out := fresh (dom m)). set (m0 := <[out := _]> m).
  assert (out ∉ dom m) as Hout by apply is_fresh.
  assert (m ⊆ m0) as Hs0 by apply alloc_sub.
  destruct (view_weaken x m m0 tx Hv Hs0) as [Hv0 _].
  destruct (copy_law x m0 tx Hv0) as (y & m1 & Hc & Hs1 & Hvy & Hfy).
  assert (out ∉ foot y m1) as Hoy by (unfold m0 in Hfy; rewrite dom_insert in Hfy; set_solver).
  destruct (view_store y m1 tx out (encode y) Hvy Hoy) as [Hvy' Hfy'].
  unfold mem_bind at 1, load. rewrite (read_weaken _ _ _ _ Hx Hs0). simpl.
  unfold mem_bind. rewrite Hc. simpl.
  eexists _, _. split; [done|]. simpl. rewrite read_insert_eq. simpl. rewrite Hvy', Hfy'.
  split_and!; [|done|].
  - apply insert_subseteq_r; [by apply not_elem_of_dom|by etrans].
  - apply subseteq_dom in Hs0. set_solver.
Qed.
End pointer.

(** *** Slices *)

Lemma slice_iso {A} (s : slice A) : Slice (window s) = s.
Proof. by destruct s. Qed.
#[export] Instance slice_eq_dec {A} : EqDecision (slice A).
Proof. solve_decision. Defined.
#[export] Instance slice_countable {A} : Countable (slice A) := inj_countable' window Slice slice_iso.

(** Filling a new array index by index. *)
Lemma fill_indices {A} (z : A) pre ys :
  foldl (λ c (ky : nat * A), <[fst ky := snd ky]> c) (pre ++ replicate (length ys) z)
    (zip (seq (length pre) (length ys)) ys) = pre ++ ys.
Proof.
  revert pre. induction ys as [|y ys IH]; intros pre; simpl; [done|].
  rewrite insert_app_r_alt, Nat.sub_diag by lia. simpl.
  transitivity ((pre ++ [y]) ++ ys); [|by rewrite <- app_assoc].
  rewrite <- IH, length_app. simpl. by rewrite Nat.add_1_r, <- app_assoc.
Qed.

Section views.
Context `{G : GoType A}.

Definition view_all (xs : list A) (m : Mem) : option (list Tree) := mapM (λ x, view x m) xs.
Definition foot_all (xs : list A) (m : Mem) : gset loc := ⋃ ((λ x, foot x m) <$> xs).

Lemma elem_foot_all l xs m : l ∈ foot_all xs m ↔ ∃ x, x ∈ xs ∧ l ∈ foot x m.
Proof.
  unfold foot_all. rewrite elem_of_union_list. split.
  - intros (? & (x & -> & Hx)%list_elem_of_fmap & Hl). eauto.
  - intros (x & Hx & Hl). exists (foot x m). split; [|done]. by apply (list_elem_of_fmap_2 (λ x, foot x m)).
Qed.

Lemma view_all_local xs m m' :
  (∀ l, l ∈ foot_all xs m → m' !! l = m !! l) →
  view_all xs m' = view_all xs m ∧ foot_all xs m' = foot_all xs m.
Proof.
  intros Hl. assert (∀ x, x ∈ xs → view x m' = view x m ∧ foot x m' = foot x m) as H.
  { intros x Hx. apply view_local. intros l Hf. apply Hl, elem_foot_all. eauto. }
  unfold view_all, foot_all. split.
  - apply Forall_mapM_ext, Forall_forall. intros x Hx. by apply H.
  - f_equal. apply list_fmap_ext. intros i x Hx. by apply H, list_elem_of_lookup_2 with i.
Qed.

Lemma view_all_alloc xs m ts : view_all xs m = Some ts → foot_all xs m ⊆ dom m.
Proof.
  intros Hv l (x & Hx & Hl)%elem_foot_all. apply mapM_Some in Hv.
  apply list_elem_of_lookup in Hx as [i Hi]. destruct (Forall2_lookup_l _ _ _ _ _ Hv Hi) as (t & _ & Ht).
  by apply foot_alloc in Ht; apply Ht.
Qed.

Lemma view_all_Some xs m ts : view_all xs m = Some ts → Forall (λ x, is_Some (view x m)) xs.
Proof.
  intros Hv%mapM_Some. apply Forall_forall. intros x Hx. apply list_elem_of_lookup in Hx as [i Hi].
  destruct (Forall2_lookup_l _ _ _ _ _ Hv Hi) as (t & _ & Ht). by exists t.
Qed.

(** What the copies of a list of elements look like. *)
Lemma copies_views {K} m0 (l : list (K * A)) m ys out ts :
  copies out m0 l m ys → view_all l.*2 m0 = Some ts → view_all ys m = Some ts ∧ foot_all ys m ## dom m0.
Proof.
  unfold view_all. rewrite !mapM_Some. intros Hc. revert ts.
  induction Hc as [|[k x] y l ys (Hv & _ & Hd) _ IH]; intros ts Ht; inversion_clear Ht as [|? t ? ts' Hx Hxs].
  - unfold foot_all. simpl. split; [constructor|set_solver].
  - destruct (IH _ Hxs) as [IH1 IH2]. simpl in *. rewrite Hx in Hv. split; [by constructor|].
    unfold foot_all in *. csimpl. set_solver.
Qed.
End views.

Section slice_copy.
Context `{G : GoType A}.

Lemma imap_pair (xs : list A) : (imap pair xs).*1 = seq 0 (length xs) ∧ (imap pair xs).*2 = xs.
Proof.
  assert (∀ k, (imap (λ i x, (k + i, x)) xs).*1 = seq k (length xs) ∧ (imap (λ i x, (k + i, x)) xs).*2 = xs)
    as H; [|exact (H 0)].
  induction xs as [|x xs IH]; intros k; [done|]. csimpl. destruct (IH (S k)) as [H1 H2].
  rewrite Nat.add_0_r.
  rewrite (imap_ext (compose _ S) (λ i x, (S k + i, x))) by (intros; unfold compose; f_equal; lia).
  by rewrite H1, H2.
Qed.

Lemma elements_length from len (xs : list A) : from + len ≤ length xs → length (elements from len xs) = len.
Proof. intros. unfold elements. rewrite length_take, length_drop. lia. Qed.

#[export] Program Instance slice_type : GoType (slice A) := {|
  zero := Slice None;
  view s m := match window s with
              | None => Some Nil
              | Some (l, from, len) =>
                  arr ← read (A:=list A) l m;
                  if bool_decide (from + len ≤ length arr) then Items <$> view_all (elements from len arr) m
                  else None
              end;
  foot s m := match window s with
              | None => ∅
              | Some (l, from, len) =>
                  {[ l ]} ∪ match read (A:=list A) l m with
                            | Some arr => foot_all (elements from len arr) m
                            | None => ∅
                            end
              end;
  DeepCopyInto := copySlice DeepCopyInto |}.
Next Obligation.
  intros [[[[l from] len]|]] m m' Hl; simpl in *; [|done].
  rewrite (read_eq (A:=list A) l m m') by (apply Hl; set_solver).
  destruct (read l m) as [arr|]; simpl; [|done].
  destruct (view_all_local (elements from len arr) m m') as [-> ->]; [set_solver|done].
Qed.
Next Obligation.
  intros [[[[l from] len]|]] m t; simpl in *; [|set_solver].
  intros (arr & Hx & Hv)%bind_Some. rewrite Hx. case_bool_decide; [|done].
  apply fmap_Some in Hv as (ts & Hv & _). apply read_dom in Hx. apply view_all_alloc in Hv. set_solver.
Qed.
Next Obligation.
  intros [[[[l from] len]|]] m t; simpl in *.
  2:{ intros [= <-]. exists (Slice None), m. split_and!; [done..|set_solver]. }
  intros (arr & Hx & Hv)%bind_Some. case_bool_decide as Hlen; [|done].
  apply fmap_Some in Hv as (ts & Hv & ->).
  unfold copySlice. simpl. unfold mem_bind at 1, alloc.
  set (out := fresh (dom m)). set (m0 := <[out := _]> m).
  assert (m ⊆ m0) as Hs0 by apply alloc_sub.
  unfold mem_bind at 1, load. rewrite (read_weaken _ _ _ _ Hx Hs0). simpl.
  set (xs := elements from len arr) in *. destruct (imap_pair xs) as [Hk Hxs].
  assert (length xs = len) as Hn by by apply elements_length.
  destruct (fill_spec (λ i y (c : list A), <[i := y]> c) out m (imap pair xs) (replicate len zero) m0)
    as (ys & m2 & Hf & Hs2 & _ & _ & Hr & Hcs).
  { done. } { apply is_fresh. } { apply read_insert_eq. }
  { apply view_all_Some in Hv. rewrite <- Hxs in Hv. by rewrite Forall_fmap in Hv. }
  rewrite <- Hxs in Hv. destruct (copies_views _ _ _ _ _ _ Hcs Hv) as [Hvs Hfs].
  assert (length ys = len) as Hl.
  { apply Forall2_length in Hcs. by rewrite <- Hcs, length_imap. }
  pose proof (fill_indices zero [] ys) as Hi. cbn [app length] in Hi. cbn beta in Hr.
  rewrite Hk, Hn, <- Hl, Hi in Hr.
  unfold mem_bind. rewrite Hf. eexists _, _. split; [done|]. simpl. rewrite Hr. simpl.
  assert (elements 0 len ys = ys) as -> by (unfold elements; rewrite drop_0, take_ge; [done|lia]).
  rewrite bool_decide_eq_true_2 by lia. rewrite Hvs. split_and!; [done..|].
  pose proof (is_fresh (dom m)). set_solver.
Qed.
End slice_copy.

(** *** Maps *)

Lemma gomap_iso {A} (g : gomap A) : GoMap (table g) = g.
Proof. by destruct g. Qed.
#[export] Instance gomap_eq_dec {A} : EqDecision (gomap A).
Proof. solve_decision. Defined.
#[export] Instance gomap_countable {A} : Countable (gomap A) := inj_countable' table GoMap gomap_iso.

Section map_copy.
Context `{G : GoType A}.

Definition view_entries (g : gmap string A) (m : Mem) : option (gmap string Tree) :=
  if decide (map_Forall (λ _ x, is_Some (view x m)) g) then Some (omap (λ x, view x m) g) else None.

Definition values (g : gmap string A) : list A := (map_to_list g).*2.

Lemma elem_values x g : x ∈ values g ↔ ∃ k, g !! k = Some x.
Proof.
  unfold values. rewrite list_elem_of_fmap. split.
  - intros ([k y] & -> & Hk%elem_of_map_to_list). by exists k.
  - intros [k Hk]. exists (k, x). by rewrite elem_of_map_to_list.
Qed.

Lemma view_entries_local g m m' :
  (∀ l, l ∈ foot_all (values g) m → m' !! l = m !! l) → view_entries g m' = view_entries g m.
Proof.
  intros Hl. assert (∀ k x, g !! k = Some x → view x m' = view x m) as H.
  { intros k x Hx. apply view_local. intros l Hf. apply Hl, elem_foot_all. exists x. split; [|done].
    apply elem_values. eauto. }
  unfold view_entries. assert (omap (λ x, view x m') g = omap (λ x, view x m) g) as ->.
  { apply map_eq. intros k. rewrite !lookup_omap. destruct (g !! k) eqn:E; simpl; eauto. }
  apply decide_ext. split; intros HF k x Hx; [rewrite <- (H k x Hx)|rewrite (H k x Hx)]; by apply (HF k x).
Qed.

Lemma view_entries_all g m ts :
  view_entries g m = Some ts → Forall (λ kx, is_Some (view (snd kx) m)) (map_to_list g).
Proof.
  unfold view_entries. case_decide as H; [|done]. intros _. apply map_Forall_to_list in H.
  eapply Forall_impl; [exact H|]. by intros [k x].
Qed.

Lemma fill_entries (l : list (string * A)) k y :
  NoDup l.*1 → foldl (λ (c : gmap string A) ky, <[fst ky := snd ky]> c) ∅ l !! k = Some y ↔ (k, y) ∈ l.
Proof.
  induction l as [|[k0 y0] l IH] using rev_ind; intros Hnd; simpl.
  { split; [done|by intros ?%not_elem_of_nil]. }
  rewrite fmap_app in Hnd. apply NoDup_app in Hnd as (Hnd & Hdisj & _).
  rewrite foldl_app, elem_of_app, list_elem_of_singleton. simpl.
  rewrite lookup_insert_Some, IH by done. split; [naive_solver|].
  intros [Hin|[= -> ->]]; [right|by left]. split; [|done]. intros ->.
  apply (Hdisj k); [by apply (list_elem_of_fmap_2 fst l (k, y))|by left].
Qed.

Lemma copies_entries out m0 g m ys :
  copies out m0 (map_to_list g) m ys →
  let c := foldl (λ (c : gmap string A) ky, <[fst ky := snd ky]> c) ∅ (zip (map_to_list g).*1 ys) in
  (∀ k x, g !! k = Some x → ∃ y, c !! k = Some y ∧ view y m = view x m0) ∧
  (∀ k y, c !! k = Some y → foot y m ## dom m0 ∧ ∃ x, g !! k = Some x ∧ view y m = view x m0).
Proof.
  intros Hc c. assert (length (map_to_list g).*1 = length ys) as Hlen.
  { rewrite length_fmap. by eapply Forall2_length. }
  assert (∀ k y, c !! k = Some y ↔ (k, y) ∈ zip (map_to_list g).*1 ys) as Hck.
  { intros k y. apply fill_entries. rewrite fst_zip by lia. apply NoDup_fst_map_to_list. }
  split.
  - intros k x Hx%elem_of_map_to_list. apply list_elem_of_lookup in Hx as [i Hi].
    destruct (Forall2_lookup_l _ _ _ _ _ Hc Hi) as (y & Hy & Hv & _). exists y. split; [|done].
    apply Hck, list_elem_of_lookup. exists i. rewrite lookup_zip_with, list_lookup_fmap, Hi. simpl. by rewrite Hy.
  - intros k y Hy%Hck. apply list_elem_of_lookup in Hy as [i Hi].
    rewrite lookup_zip_with, list_lookup_fmap in Hi.
    destruct (map_to_list g !! i) as [[k' x]|] eqn:E; simpl in Hi; [|done].
    destruct (ys !! i) as [y'|] eqn:E'; simpl in Hi; [|done]. injection Hi as -> ->.
    destruct (Forall2_lookup_lr _ _ _ _ _ _ Hc E E') as (Hv & _ & Hd). split; [done|]. exists x.
    split; [|done]. apply elem_of_map_to_list. by apply list_elem_of_lookup_2 in E.
Qed.

#[export] Program Instance gomap_type : GoType (gomap A) := {|
  zero := GoMap None;
  view s m := match table s with
              | None => Some Nil
              | Some l => g ← read (A:=gmap string A) l m; Entries <$> view_entries g m
              end;
  foot s m := match table s with
              | None => ∅
              | Some l =>
                  {[ l ]} ∪ match read (A:=gmap string A) l m with
                            | Some g => foot_all (values g) m
                            | None => ∅
                            end
              end;
  DeepCopyInto := copyMap DeepCopyInto |}.
Next Obligation.
  intros [[l|]] m m' Hl; simpl in *; [|done].
  rewrite (read_eq (A:=gmap string A) l m m') by (apply Hl; set_solver).
  destruct (read l m) as [g|]; simpl; [|done].
  rewrite (view_entries_local g m m') by set_solver.
  destruct (view_all_local (values g) m m') as [_ ->]; [set_solver|done].
Qed.
Next Obligation.
  intros [[l|]] m t; simpl in *; [|set_solver].
  intros (g & Hx & (ts & Hv & _)%fmap_Some)%bind_Some. rewrite Hx. apply read_dom in Hx.
  intros i [->%elem_of_singleton|(x & Hin & Hi)%elem_foot_all]%elem_of_union; [done|].
  apply elem_values in Hin as [k Hk]. unfold view_entries in Hv. case_decide as HF; [|done].
  destruct (HF k x Hk) as [tx Htx]. by apply foot_alloc in Htx; apply Htx.
Qed.
Next Obligation.
  intros [[l|]] m t; simpl in *.
  2:{ intros [= <-]. exists (GoMap None), m. split_and!; [done..|set_solver]. }
  intros (g & Hx & (ts & Hv & ->)%fmap_Some)%bind_Some.
  unfold copyMap. simpl. unfold mem_bind at 1, alloc.
  set (out := fresh (dom m)). set (m0 := <[out := _]> m).
  assert (m ⊆ m0) as Hs0 by apply alloc_sub.
  unfold mem_bind at 1, load. rewrite (read_weaken _ _ _ _ Hx Hs0). simpl.
  destruct (fill_spec (λ k y (c : gmap string A), <[k := y]> c) out m (map_to_list g) ∅ m0)
    as (ys & m2 & Hf & Hs2 & _ & _ & Hr & Hcs).
  { done. } { apply is_fresh. } { apply read_insert_eq. } { by eapply view_entries_all. }
  cbn beta in Hr. destruct (copies_entries _ _ _ _ _ Hcs) as [Hto Hfrom].
  set (c := foldl _ _ _) in *. unfold mem_bind. rewrite Hf. eexists _, _. split; [done|]. simpl.
  rewrite Hr. simpl. split_and!; [done| |].
  - assert (view_entries c m2 = Some ts) as ->; [|done].
    unfold view_entries in *. case_decide as HF; [|done]. injection Hv as <-. rewrite decide_True.
    + f_equal. apply map_eq. intros k. rewrite !lookup_omap.
      destruct (g !! k) as [x|] eqn:E; simpl.
      * by destruct (Hto k x E) as (y & -> & ?).
      * destruct (c !! k) as [y|] eqn:E'; [|done]. destruct (Hfrom k y E') as (_ & x & ? & _). congruence.
    + intros k y Hy. destruct (Hfrom k y Hy) as (_ & x & Hk & ->). by apply (HF k x).
  - intros i [->%elem_of_singleton|(y & Hin & Hi)%elem_foot_all]%elem_of_union; [apply is_fresh|].
    apply elem_values in Hin as [k Hk]. destruct (Hfrom k y Hk) as [Hd _]. set_solver.
Qed.
End map_copy.

(** *** Structs: a struct is copied like the tuple of its fields *)

Section struct.
Context {S T : Type} `{GT : GoType T} (fields : S → T) (build : T → S).
Context (build_fields : ∀ s, build (fields s) = s) (fields_build : ∀ t, fields (build t) = t).
(** The copying method, and that it copies field by field. *)
Context (f : S → MemM S)
  (f_fields : ∀ s m, f s m = (let* t := DeepCopyInto (fields s) in mem_ret (build t)) m).

Definition struct_eq_dec : EqDecision S.
Proof.
  intros s s'. destruct (decide (fields s = fields s')) as [Heq|Hne]; [left|right; congruence].
  rewrite <- (build_fields s), <- (build_fields s'). by f_equal.
Defined.

Program Definition struct_type : GoType S := {|
  go_eq_dec := struct_eq_dec;
  go_countable := @inj_countable' _ _ _ S struct_eq_dec fields build build_fields;
  zero := build zero;
  view s m := view (fields s) m;
  foot s m := foot (fields s) m;
  DeepCopyInto := f |}.
Next Obligation. intros s m m'. apply view_local. Qed.
Next Obligation. intros s m t. apply foot_alloc. Qed.
Next Obligation.
  intros s m t Hv. destruct (copy_law (fields s) m t Hv) as (y & m' & Hc & Hs & Hv' & Hf').
  exists (build y), m'. rewrite f_fields. unfold mem_bind. rewrite Hc, fields_build. by split_and!.
Qed.
End struct.

(** Copying elements by assignment is copying them, where they are flat. *)
Section extensionality.
Context `{G : GoType A} (f g : A → MemM A).
Hypothesis Hfg : ∀ x m, f x m = g x m.

Lemma copyPtr_ext p m : copyPtr f p m = copyPtr g p m.
Proof.
  unfold copyPtr, mem_bind, alloc, load. destruct (addr p); [|done].
  destruct (read _ _); simpl; [|done]. by rewrite Hfg.
Qed.

Lemma fill_ext {K C} `{Countable C} (put : K → A → C → C) out l m : fill f put out l m = fill g put out l m.
Proof.
  revert m. induction l as [|[k x] l IH]; intros m; [done|]. cbn [fill]. unfold mem_bind. rewrite Hfg.
  destruct (g x m) as [[y m1]|]; [|done]. destruct (load out m1) as [[c m2]|]; [|done]. simpl. apply IH.
Qed.

Lemma copySlice_ext s m : copySlice f s m = copySlice g s m.
Proof.
  unfold copySlice, mem_bind, alloc, load. destruct (window s) as [[[l from] len]|]; [|done].
  destruct (read _ _); simpl; [|done]. by rewrite fill_ext.
Qed.

Lemma copyMap_ext x m : copyMap f x m = copyMap g x m.
Proof.
  unfold copyMap, mem_bind, alloc, load. destruct (table x); [|done].
  destruct (read _ _); simpl; [|done]. by rewrite fill_ext.
Qed.
End extensionality.

Section flat_elements.
Context `{Flat A}.
Lemma assign_flat (x : A) m : assign x m = DeepCopyInto x m.
Proof. by rewrite flat. Qed.
Lemma copyPtr_flat (p : ptr A) m : copyPtr assign p m = copyPtr DeepCopyInto p m.
Proof. apply copyPtr_ext, assign_flat. Qed.
Lemma copySlice_flat (s : slice A) m : copySlice assign s m = copySlice DeepCopyInto s m.
Proof. apply copySlice_ext, assign_flat. Qed.
Lemma copyMap_flat (g : gomap A) m : copyMap assign g m = copyMap DeepCopyInto g m.
Proof. apply copyMap_ext, assign_flat. Qed.
End flat_elements.

(** Rewrites a copying by assignment into the copying of the element type's method; for
    the basic types that is the same by computation. *)
Ltac by_method A lemma :=
  lazymatch A with string => fail | Z => fail | bool => fail | _ => rewrite lemma; simpl end.

(** Solves the obligations of [struct_type]: the tuple has the fields, and the method
    copies them one by one. *)
Ltac copies_fields :=
  intros; simpl;
  repeat match goal with
         | t : _ * _ |- _ => destruct t
         | |- _ = ?x => is_var x; destruct x
         | |- ?f ?s _ = _ => is_var s; unfold f; destruct s; simpl
         end;
  try reflexivity; unfold mem_bind, mem_ret;
  repeat match goal with
         | |- context [copyPtr (@assign ?A)] => by_method A (copyPtr_flat (A:=A))
         | |- context [copySlice (@assign ?A)] => by_method A (copySlice_flat (A:=A))
         | |- context [copyMap (@assign ?A)] => by_method A (copyMap_flat (A:=A))
         | _ => rewrite flat
         | _ => case_match; simplify_eq/=
         end;
  done.

(** ** What a deep copy promises *)

(** The copy reads like the original; the original is as it was; and they share no
    memory, so that whatever is then written to the memory of before, the copy stays,
    and whatever is written elsewhere, the original stays. *)
Definition deep_copies `{GoType A} (f : ptr A → MemM (ptr A)) : Prop :=
  ∀ p m t, view p m = Some t →
  ∃ q m', f p m = Some (q, m') ∧ view q m' = Some t ∧ view p m' = Some t ∧
    foot q m' ## foot p m' ∧
    (∀ m'', (∀ l, l ∉ dom m → m'' !! l = m' !! l) → view q m'' = Some t) ∧
    (∀ m'', (∀ l, l ∈ dom m → m'' !! l = m' !! l) → view p m'' = Some t).

Lemma DeepCopy_deep `{GoType A} : deep_copies (DeepCopy (A:=A) DeepCopyInto).
Proof.
  intros p m t Hv. destruct (copy_law p m t Hv) as (q & m' & Hc & Hs & Hq & Hd).
  destruct (view_weaken p m m' t Hv Hs) as [Hp Hfp]. pose proof (foot_alloc p m t Hv) as Ha.
  exists q, m'. split_and!; [exact Hc|done|done|rewrite Hfp; set_solver| |]; intros m'' Hl.
  - rewrite <- Hq. apply view_local. intros l Hin. apply Hl. set_solver.
  - rewrite <- Hp. apply view_local. intros l Hin. apply Hl. rewrite Hfp in Hin. set_solver.
Qed.
