(* ===== verification/DeepCopy.v ===== *)
(** * The generated deep copies (src/api/v1beta2/zz_generated.deepcopy.go)

    The API types as they are in memory, with their pointers, slices and maps, and for
    each of them the DeepCopyInto, DeepCopy and DeepCopyObject methods that
    controller-gen wrote. That these copies are deep is why the other files may treat
    an object, and the snapshot that a patch helper takes of it, as a value. *)

From S2P Require Export Memory.

Set Warnings "-register-all".

(** ** Types of other packages

    metav1 (TypeMeta, ObjectMeta, ListMeta, Condition), corev1 (Quantity, the value of a
    ResourceList) and cluster-api (ObjectMeta of a template, APIEndpoint,
    MachineAddress), with copying methods that keep the promises of [GoType]; those that
    are assigned hold no references. *)
Class KubernetesTypes := {
  TypeMeta : Type;
  ObjectMeta : Type;
  ListMeta : Type;
  Condition : Type;
  Quantity : Type;
  TemplateObjectMeta : Type;
  APIEndpoint : Type;
  MachineAddress : Type;
  TypeMeta_type :: GoType TypeMeta;
  ObjectMeta_type :: GoType ObjectMeta;
  ListMeta_type :: GoType ListMeta;
  Condition_type :: GoType Condition;
  Quantity_type :: GoType Quantity;
  TemplateObjectMeta_type :: GoType TemplateObjectMeta;
  APIEndpoint_type :: GoType APIEndpoint;
  MachineAddress_type :: GoType MachineAddress;
  TypeMeta_flat :: Flat TypeMeta;
  APIEndpoint_flat :: Flat APIEndpoint;
  MachineAddress_flat :: Flat MachineAddress }.

Section deepcopy.
Context `{K : KubernetesTypes}.

(** ** Clusters (cloudscalecluster_types.go) *)

Record CloudscaleCredentialsReference := mkCloudscaleCredentialsReference {
  CloudscaleCredentialsReference_Name : string; CloudscaleCredentialsReference_Namespace : string }.
Definition CloudscaleCredentialsReference_DeepCopyInto (i : CloudscaleCredentialsReference)
    : MemM CloudscaleCredentialsReference :=
  assign i.
#[export] Instance CloudscaleCredentialsReference_type : GoType CloudscaleCredentialsReference.
Proof.
  refine (struct_type
    (λ x, (CloudscaleCredentialsReference_Name x, CloudscaleCredentialsReference_Namespace x))
    (λ '(a, b), mkCloudscaleCredentialsReference a b)
    _ _ CloudscaleCredentialsReference_DeepCopyInto _); copies_fields.
Defined.
#[export] Instance CloudscaleCredentialsReference_flat : Flat CloudscaleCredentialsReference.
Proof. done. Qed.
Definition CloudscaleCredentialsReference_DeepCopy (p : ptr CloudscaleCredentialsReference)
    : MemM (ptr CloudscaleCredentialsReference) :=
  DeepCopy CloudscaleCredentialsReference_DeepCopyInto p.

Record NetworkSpec := mkNetworkSpec { NetworkSpec_Name : string; NetworkSpec_UUID : string;
  NetworkSpec_CIDR : string; NetworkSpec_MTU : Z; NetworkSpec_GatewayAddress : string }.
Definition NetworkSpec_DeepCopyInto (i : NetworkSpec)
    : MemM NetworkSpec :=
  assign i.
#[export] Instance NetworkSpec_type : GoType NetworkSpec.
Proof.
  refine (struct_type
    (λ x, (NetworkSpec_Name x, NetworkSpec_UUID x, NetworkSpec_CIDR x, NetworkSpec_MTU x,
      NetworkSpec_GatewayAddress x))
    (λ '(a, b, c, d, e), mkNetworkSpec a b c d e)
    _ _ NetworkSpec_DeepCopyInto _); copies_fields.
Defined.
#[export] Instance NetworkSpec_flat : Flat NetworkSpec.
Proof. done. Qed.
Definition NetworkSpec_DeepCopy (p : ptr NetworkSpec)
    : MemM (ptr NetworkSpec) :=
  DeepCopy NetworkSpec_DeepCopyInto p.

Record RouterInterfaceSpec := mkRouterInterfaceSpec { RouterInterfaceSpec_Network : string;
  RouterInterfaceSpec_UUID : string; RouterInterfaceSpec_Address : string }.
Definition RouterInterfaceSpec_DeepCopyInto (i : RouterInterfaceSpec)
    : MemM RouterInterfaceSpec :=
  assign i.
#[export] Instance RouterInterfaceSpec_type : GoType RouterInterfaceSpec.
Proof.
  refine (struct_type
    (λ x, (RouterInterfaceSpec_Network x, RouterInterfaceSpec_UUID x, RouterInterfaceSpec_Address x))
    (λ '(a, b, c), mkRouterInterfaceSpec a b c)
    _ _ RouterInterfaceSpec_DeepCopyInto _); copies_fields.
Defined.
#[export] Instance RouterInterfaceSpec_flat : Flat RouterInterfaceSpec.
Proof. done. Qed.
Definition RouterInterfaceSpec_DeepCopy (p : ptr RouterInterfaceSpec)
    : MemM (ptr RouterInterfaceSpec) :=
  DeepCopy RouterInterfaceSpec_DeepCopyInto p.

Record RouterSpec := mkRouterSpec { RouterSpec_Name : string; RouterSpec_UUID : string;
  RouterSpec_InternetGateway : bool; RouterSpec_Interfaces : slice RouterInterfaceSpec }.
Definition RouterSpec_DeepCopyInto (i : RouterSpec)
    : MemM RouterSpec :=
  let* interfaces := copySlice assign (RouterSpec_Interfaces i) in
  mem_ret (mkRouterSpec (RouterSpec_Name i) (RouterSpec_UUID i) (RouterSpec_InternetGateway i)
    interfaces).
#[export] Instance RouterSpec_type : GoType RouterSpec.
Proof.
  refine (struct_type
    (λ x, (RouterSpec_Name x, RouterSpec_UUID x, RouterSpec_InternetGateway x, RouterSpec_Interfaces x))
    (λ '(a, b, c, d), mkRouterSpec a b c d)
    _ _ RouterSpec_DeepCopyInto _); copies_fields.
Defined.
Definition RouterSpec_DeepCopy (p : ptr RouterSpec)
    : MemM (ptr RouterSpec) :=
  DeepCopy RouterSpec_DeepCopyInto p.

Record HealthMonitorSpec := mkHealthMonitorSpec { HealthMonitorSpec_DelayS : Z;
  HealthMonitorSpec_TimeoutS : Z; HealthMonitorSpec_UpThreshold : Z;
  HealthMonitorSpec_DownThreshold : Z }.
Definition HealthMonitorSpec_DeepCopyInto (i : HealthMonitorSpec)
    : MemM HealthMonitorSpec :=
  assign i.
#[export] Instance HealthMonitorSpec_type : GoType HealthMonitorSpec.
Proof.
  refine (struct_type
    (λ x, (HealthMonitorSpec_DelayS x, HealthMonitorSpec_TimeoutS x, HealthMonitorSpec_UpThreshold x,
      HealthMonitorSpec_DownThreshold x))
    (λ '(a, b, c, d), mkHealthMonitorSpec a b c d)
    _ _ HealthMonitorSpec_DeepCopyInto _); copies_fields.
Defined.
#[export] Instance HealthMonitorSpec_flat : Flat HealthMonitorSpec.
Proof. done. Qed.
Definition HealthMonitorSpec_DeepCopy (p : ptr HealthMonitorSpec)
    : MemM (ptr HealthMonitorSpec) :=
  DeepCopy HealthMonitorSpec_DeepCopyInto p.

Record LoadBalancerSpec := mkLoadBalancerSpec { LoadBalancerSpec_Enabled : ptr bool;
  LoadBalancerSpec_Algorithm : string; LoadBalancerSpec_Flavor : string;
  LoadBalancerSpec_APIServerPort : Z; LoadBalancerSpec_Network : string;
  LoadBalancerSpec_PoolMemberNetwork : string; LoadBalancerSpec_HealthMonitor : HealthMonitorSpec }.
Definition LoadBalancerSpec_DeepCopyInto (i : LoadBalancerSpec)
    : MemM LoadBalancerSpec :=
  let* enabled := copyPtr assign (LoadBalancerSpec_Enabled i) in
  mem_ret (mkLoadBalancerSpec enabled (LoadBalancerSpec_Algorithm i) (LoadBalancerSpec_Flavor i)
    (LoadBalancerSpec_APIServerPort i) (LoadBalancerSpec_Network i)
    (LoadBalancerSpec_PoolMemberNetwork i) (LoadBalancerSpec_HealthMonitor i)).
#[export] Instance LoadBalancerSpec_type : GoType LoadBalancerSpec.
Proof.
  refine (struct_type
    (λ x, (LoadBalancerSpec_Enabled x, LoadBalancerSpec_Algorithm x, LoadBalancerSpec_Flavor x,
      LoadBalancerSpec_APIServerPort x, LoadBalancerSpec_Network x,
      LoadBalancerSpec_PoolMemberNetwork x, LoadBalancerSpec_HealthMonitor x))
    (λ '(a, b, c, d, e, f, g), mkLoadBalancerSpec a b c d e f g)
    _ _ LoadBalancerSpec_DeepCopyInto _); copies_fields.
Defined.
Definition LoadBalancerSpec_DeepCopy (p : ptr LoadBalancerSpec)
    : MemM (ptr LoadBalancerSpec) :=
  DeepCopy LoadBalancerSpec_DeepCopyInto p.

Record FloatingIPSpec := mkFloatingIPSpec { FloatingIPSpec_IPFamily : ptr string;
  FloatingIPSpec_Address : string }.
Definition FloatingIPSpec_DeepCopyInto (i : FloatingIPSpec)
    : MemM FloatingIPSpec :=
  let* ipFamily := copyPtr assign (FloatingIPSpec_IPFamily i) in
  mem_ret (mkFloatingIPSpec ipFamily (FloatingIPSpec_Address i)).
#[export] Instance FloatingIPSpec_type : GoType FloatingIPSpec.
Proof.
  refine (struct_type
    (λ x, (FloatingIPSpec_IPFamily x, FloatingIPSpec_Address x))
    (λ '(a, b), mkFloatingIPSpec a b)
    _ _ FloatingIPSpec_DeepCopyInto _); copies_fields.
Defined.
Definition FloatingIPSpec_DeepCopy (p : ptr FloatingIPSpec)
    : MemM (ptr FloatingIPSpec) :=
  DeepCopy FloatingIPSpec_DeepCopyInto p.

Record CloudscaleClusterSpec := mkCloudscaleClusterSpec { CloudscaleClusterSpec_Region : string;
  CloudscaleClusterSpec_Zone : string;
  CloudscaleClusterSpec_CredentialsRef : CloudscaleCredentialsReference;
  CloudscaleClusterSpec_ControlPlaneEndpoint : APIEndpoint;
  CloudscaleClusterSpec_Networks : slice NetworkSpec; CloudscaleClusterSpec_Routers : slice RouterSpec;
  CloudscaleClusterSpec_ControlPlaneLoadBalancer : LoadBalancerSpec;
  CloudscaleClusterSpec_FloatingIP : ptr FloatingIPSpec }.
Definition CloudscaleClusterSpec_DeepCopyInto (i : CloudscaleClusterSpec)
    : MemM CloudscaleClusterSpec :=
  let* networks := copySlice assign (CloudscaleClusterSpec_Networks i) in
  let* routers := copySlice RouterSpec_DeepCopyInto (CloudscaleClusterSpec_Routers i) in
  let* controlPlaneLoadBalancer :=
    LoadBalancerSpec_DeepCopyInto (CloudscaleClusterSpec_ControlPlaneLoadBalancer i) in
  let* floatingIP := copyPtr FloatingIPSpec_DeepCopyInto (CloudscaleClusterSpec_FloatingIP i) in
  mem_ret (mkCloudscaleClusterSpec (CloudscaleClusterSpec_Region i) (CloudscaleClusterSpec_Zone i)
    (CloudscaleClusterSpec_CredentialsRef i) (CloudscaleClusterSpec_ControlPlaneEndpoint i) networks
    routers controlPlaneLoadBalancer floatingIP).
#[export] Instance CloudscaleClusterSpec_type : GoType CloudscaleClusterSpec.
Proof.
  refine (struct_type
    (λ x, (CloudscaleClusterSpec_Region x, CloudscaleClusterSpec_Zone x,
      CloudscaleClusterSpec_CredentialsRef x, CloudscaleClusterSpec_ControlPlaneEndpoint x,
      CloudscaleClusterSpec_Networks x, CloudscaleClusterSpec_Routers x,
      CloudscaleClusterSpec_ControlPlaneLoadBalancer x, CloudscaleClusterSpec_FloatingIP x))
    (λ '(a, b, c, d, e, f, g, h), mkCloudscaleClusterSpec a b c d e f g h)
    _ _ CloudscaleClusterSpec_DeepCopyInto _); copies_fields.
Defined.
Definition CloudscaleClusterSpec_DeepCopy (p : ptr CloudscaleClusterSpec)
    : MemM (ptr CloudscaleClusterSpec) :=
  DeepCopy CloudscaleClusterSpec_DeepCopyInto p.

Record ClusterInitializationStatus := mkClusterInitializationStatus {
  ClusterInitializationStatus_Provisioned : ptr bool }.
Definition ClusterInitializationStatus_DeepCopyInto (i : ClusterInitializationStatus)
    : MemM ClusterInitializationStatus :=
  let* provisioned := copyPtr assign (ClusterInitializationStatus_Provisioned i) in
  mem_ret (mkClusterInitializationStatus provisioned).
#[export] Instance ClusterInitializationStatus_type : GoType ClusterInitializationStatus.
Proof.
  refine (struct_type
    (λ x, ClusterInitializationStatus_Provisioned x)
    (mkClusterInitializationStatus)
    _ _ ClusterInitializationStatus_DeepCopyInto _); copies_fields.
Defined.
Definition ClusterInitializationStatus_DeepCopy (p : ptr ClusterInitializationStatus)
    : MemM (ptr ClusterInitializationStatus) :=
  DeepCopy ClusterInitializationStatus_DeepCopyInto p.

Record NetworkStatus := mkNetworkStatus { NetworkStatus_Name : string; NetworkStatus_NetworkID : string;
  NetworkStatus_SubnetID : string; NetworkStatus_CIDR : string; NetworkStatus_MTU : Z;
  NetworkStatus_Managed : bool; NetworkStatus_GatewayAddress : string }.
Definition NetworkStatus_DeepCopyInto (i : NetworkStatus)
    : MemM NetworkStatus :=
  assign i.
#[export] Instance NetworkStatus_type : GoType NetworkStatus.
Proof.
  refine (struct_type
    (λ x, (NetworkStatus_Name x, NetworkStatus_NetworkID x, NetworkStatus_SubnetID x,
      NetworkStatus_CIDR x, NetworkStatus_MTU x, NetworkStatus_Managed x,
      NetworkStatus_GatewayAddress x))
    (λ '(a, b, c, d, e, f, g), mkNetworkStatus a b c d e f g)
    _ _ NetworkStatus_DeepCopyInto _); copies_fields.
Defined.
#[export] Instance NetworkStatus_flat : Flat NetworkStatus.
Proof. done. Qed.
Definition NetworkStatus_DeepCopy (p : ptr NetworkStatus)
    : MemM (ptr NetworkStatus) :=
  DeepCopy NetworkStatus_DeepCopyInto p.

Record RouterInterfaceStatus := mkRouterInterfaceStatus { RouterInterfaceStatus_Network : string;
  RouterInterfaceStatus_InterfaceID : string; RouterInterfaceStatus_Managed : bool }.
Definition RouterInterfaceStatus_DeepCopyInto (i : RouterInterfaceStatus)
    : MemM RouterInterfaceStatus :=
  assign i.
#[export] Instance RouterInterfaceStatus_type : GoType RouterInterfaceStatus.
Proof.
  refine (struct_type
    (λ x, (RouterInterfaceStatus_Network x, RouterInterfaceStatus_InterfaceID x,
      RouterInterfaceStatus_Managed x))
    (λ '(a, b, c), mkRouterInterfaceStatus a b c)
    _ _ RouterInterfaceStatus_DeepCopyInto _); copies_fields.
Defined.
#[export] Instance RouterInterfaceStatus_flat : Flat RouterInterfaceStatus.
Proof. done. Qed.
Definition RouterInterfaceStatus_DeepCopy (p : ptr RouterInterfaceStatus)
    : MemM (ptr RouterInterfaceStatus) :=
  DeepCopy RouterInterfaceStatus_DeepCopyInto p.

Record RouterStatus := mkRouterStatus { RouterStatus_Name : string; RouterStatus_RouterID : string;
  RouterStatus_Interfaces : slice RouterInterfaceStatus; RouterStatus_Managed : bool }.
Definition RouterStatus_DeepCopyInto (i : RouterStatus)
    : MemM RouterStatus :=
  let* interfaces := copySlice assign (RouterStatus_Interfaces i) in
  mem_ret (mkRouterStatus (RouterStatus_Name i) (RouterStatus_RouterID i) interfaces
    (RouterStatus_Managed i)).
#[export] Instance RouterStatus_type : GoType RouterStatus.
Proof.
  refine (struct_type
    (λ x, (RouterStatus_Name x, RouterStatus_RouterID x, RouterStatus_Interfaces x,
      RouterStatus_Managed x))
    (λ '(a, b, c, d), mkRouterStatus a b c d)
    _ _ RouterStatus_DeepCopyInto _); copies_fields.
Defined.
Definition RouterStatus_DeepCopy (p : ptr RouterStatus)
    : MemM (ptr RouterStatus) :=
  DeepCopy RouterStatus_DeepCopyInto p.

Record CloudscaleClusterStatus := mkCloudscaleClusterStatus {
  CloudscaleClusterStatus_ObservedGeneration : Z;
  CloudscaleClusterStatus_Initialization : ptr ClusterInitializationStatus;
  CloudscaleClusterStatus_Networks : slice NetworkStatus;
  CloudscaleClusterStatus_Routers : slice RouterStatus; CloudscaleClusterStatus_FloatingIP : string;
  CloudscaleClusterStatus_LoadBalancerID : string; CloudscaleClusterStatus_LoadBalancerPoolID : string;
  CloudscaleClusterStatus_LoadBalancerListenerID : string;
  CloudscaleClusterStatus_LoadBalancerHealthMonitorID : string;
  CloudscaleClusterStatus_LoadBalancerMemberIDs : slice string;
  CloudscaleClusterStatus_Conditions : slice Condition }.
Definition CloudscaleClusterStatus_DeepCopyInto (i : CloudscaleClusterStatus)
    : MemM CloudscaleClusterStatus :=
  let* initialization :=
    copyPtr ClusterInitializationStatus_DeepCopyInto (CloudscaleClusterStatus_Initialization i) in
  let* networks := copySlice assign (CloudscaleClusterStatus_Networks i) in
  let* routers := copySlice RouterStatus_DeepCopyInto (CloudscaleClusterStatus_Routers i) in
  let* loadBalancerMemberIDs := copySlice assign (CloudscaleClusterStatus_LoadBalancerMemberIDs i) in
  let* conditions := copySlice DeepCopyInto (CloudscaleClusterStatus_Conditions i) in
  mem_ret (mkCloudscaleClusterStatus (CloudscaleClusterStatus_ObservedGeneration i) initialization
    networks routers (CloudscaleClusterStatus_FloatingIP i) (CloudscaleClusterStatus_LoadBalancerID i)
    (CloudscaleClusterStatus_LoadBalancerPoolID i) (CloudscaleClusterStatus_LoadBalancerListenerID i)
    (CloudscaleClusterStatus_LoadBalancerHealthMonitorID i) loadBalancerMemberIDs conditions).
#[export] Instance CloudscaleClusterStatus_type : GoType CloudscaleClusterStatus.
Proof.
  refine (struct_type
    (λ x, (CloudscaleClusterStatus_ObservedGeneration x, CloudscaleClusterStatus_Initialization x,
      CloudscaleClusterStatus_Networks x, CloudscaleClusterStatus_Routers x,
      CloudscaleClusterStatus_FloatingIP x, CloudscaleClusterStatus_LoadBalancerID x,
      CloudscaleClusterStatus_LoadBalancerPoolID x, CloudscaleClusterStatus_LoadBalancerListenerID x,
      CloudscaleClusterStatus_LoadBalancerHealthMonitorID x,
      CloudscaleClusterStatus_LoadBalancerMemberIDs x, CloudscaleClusterStatus_Conditions x))
    (λ '(a, b, c, d, e, f, g, h, i, j, k), mkCloudscaleClusterStatus a b c d e f g h i j k)
    _ _ CloudscaleClusterStatus_DeepCopyInto _); copies_fields.
Defined.
Definition CloudscaleClusterStatus_DeepCopy (p : ptr CloudscaleClusterStatus)
    : MemM (ptr CloudscaleClusterStatus) :=
  DeepCopy CloudscaleClusterStatus_DeepCopyInto p.

Record CloudscaleCluster := mkCloudscaleCluster { CloudscaleCluster_TypeMeta : TypeMeta;
  CloudscaleCluster_ObjectMeta : ObjectMeta; CloudscaleCluster_Spec : CloudscaleClusterSpec;
  CloudscaleCluster_Status : CloudscaleClusterStatus }.
Definition CloudscaleCluster_DeepCopyInto (i : CloudscaleCluster)
    : MemM CloudscaleCluster :=
  let* objectMeta := DeepCopyInto (CloudscaleCluster_ObjectMeta i) in
  let* spec := CloudscaleClusterSpec_DeepCopyInto (CloudscaleCluster_Spec i) in
  let* status := CloudscaleClusterStatus_DeepCopyInto (CloudscaleCluster_Status i) in
  mem_ret (mkCloudscaleCluster (CloudscaleCluster_TypeMeta i) objectMeta spec status).
#[export] Instance CloudscaleCluster_type : GoType CloudscaleCluster.
Proof.
  refine (struct_type
    (λ x, (CloudscaleCluster_TypeMeta x, CloudscaleCluster_ObjectMeta x, CloudscaleCluster_Spec x,
      CloudscaleCluster_Status x))
    (λ '(a, b, c, d), mkCloudscaleCluster a b c d)
    _ _ CloudscaleCluster_DeepCopyInto _); copies_fields.
Defined.
Definition CloudscaleCluster_DeepCopy (p : ptr CloudscaleCluster)
    : MemM (ptr CloudscaleCluster) :=
  DeepCopy CloudscaleCluster_DeepCopyInto p.

Record CloudscaleClusterList := mkCloudscaleClusterList { CloudscaleClusterList_TypeMeta : TypeMeta;
  CloudscaleClusterList_ListMeta : ListMeta; CloudscaleClusterList_Items : slice CloudscaleCluster }.
Definition CloudscaleClusterList_DeepCopyInto (i : CloudscaleClusterList)
    : MemM CloudscaleClusterList :=
  let* listMeta := DeepCopyInto (CloudscaleClusterList_ListMeta i) in
  let* items := copySlice CloudscaleCluster_DeepCopyInto (CloudscaleClusterList_Items i) in
  mem_ret (mkCloudscaleClusterList (CloudscaleClusterList_TypeMeta i) listMeta items).
#[export] Instance CloudscaleClusterList_type : GoType CloudscaleClusterList.
Proof.
  refine (struct_type
    (λ x, (CloudscaleClusterList_TypeMeta x, CloudscaleClusterList_ListMeta x,
      CloudscaleClusterList_Items x))
    (λ '(a, b, c), mkCloudscaleClusterList a b c)
    _ _ CloudscaleClusterList_DeepCopyInto _); copies_fields.
Defined.
Definition CloudscaleClusterList_DeepCopy (p : ptr CloudscaleClusterList)
    : MemM (ptr CloudscaleClusterList) :=
  DeepCopy CloudscaleClusterList_DeepCopyInto p.

(** ** Cluster templates (cloudscaleclustertemplate_types.go) *)

Record CloudscaleClusterTemplateResource := mkCloudscaleClusterTemplateResource {
  CloudscaleClusterTemplateResource_ObjectMeta : TemplateObjectMeta;
  CloudscaleClusterTemplateResource_Spec : CloudscaleClusterSpec }.
Definition CloudscaleClusterTemplateResource_DeepCopyInto (i : CloudscaleClusterTemplateResource)
    : MemM CloudscaleClusterTemplateResource :=
  let* objectMeta := DeepCopyInto (CloudscaleClusterTemplateResource_ObjectMeta i) in
  let* spec := CloudscaleClusterSpec_DeepCopyInto (CloudscaleClusterTemplateResource_Spec i) in
  mem_ret (mkCloudscaleClusterTemplateResource objectMeta spec).
#[export] Instance CloudscaleClusterTemplateResource_type : GoType CloudscaleClusterTemplateResource.
Proof.
  refine (struct_type
    (λ x, (CloudscaleClusterTemplateResource_ObjectMeta x, CloudscaleClusterTemplateResource_Spec x))
    (λ '(a, b), mkCloudscaleClusterTemplateResource a b)
    _ _ CloudscaleClusterTemplateResource_DeepCopyInto _); copies_fields.
Defined.
Definition CloudscaleClusterTemplateResource_DeepCopy (p : ptr CloudscaleClusterTemplateResource)
    : MemM (ptr CloudscaleClusterTemplateResource) :=
  DeepCopy CloudscaleClusterTemplateResource_DeepCopyInto p.

Record CloudscaleClusterTemplateSpec := mkCloudscaleClusterTemplateSpec {
  CloudscaleClusterTemplateSpec_Template : CloudscaleClusterTemplateResource }.
Definition CloudscaleClusterTemplateSpec_DeepCopyInto (i : CloudscaleClusterTemplateSpec)
    : MemM CloudscaleClusterTemplateSpec :=
  let* template :=
    CloudscaleClusterTemplateResource_DeepCopyInto (CloudscaleClusterTemplateSpec_Template i) in
  mem_ret (mkCloudscaleClusterTemplateSpec template).
#[export] Instance CloudscaleClusterTemplateSpec_type : GoType CloudscaleClusterTemplateSpec.
Proof.
  refine (struct_type
    (λ x, CloudscaleClusterTemplateSpec_Template x)
    (mkCloudscaleClusterTemplateSpec)
    _ _ CloudscaleClusterTemplateSpec_DeepCopyInto _); copies_fields.
Defined.
Definition CloudscaleClusterTemplateSpec_DeepCopy (p : ptr CloudscaleClusterTemplateSpec)
    : MemM (ptr CloudscaleClusterTemplateSpec) :=
  DeepCopy CloudscaleClusterTemplateSpec_DeepCopyInto p.

Record CloudscaleClusterTemplate := mkCloudscaleClusterTemplate {
  CloudscaleClusterTemplate_TypeMeta : TypeMeta; CloudscaleClusterTemplate_ObjectMeta : ObjectMeta;
  CloudscaleClusterTemplate_Spec : CloudscaleClusterTemplateSpec }.
Definition CloudscaleClusterTemplate_DeepCopyInto (i : CloudscaleClusterTemplate)
    : MemM CloudscaleClusterTemplate :=
  let* objectMeta := DeepCopyInto (CloudscaleClusterTemplate_ObjectMeta i) in
  let* spec := CloudscaleClusterTemplateSpec_DeepCopyInto (CloudscaleClusterTemplate_Spec i) in
  mem_ret (mkCloudscaleClusterTemplate (CloudscaleClusterTemplate_TypeMeta i) objectMeta spec).
#[export] Instance CloudscaleClusterTemplate_type : GoType CloudscaleClusterTemplate.
Proof.
  refine (struct_type
    (λ x, (CloudscaleClusterTemplate_TypeMeta x, CloudscaleClusterTemplate_ObjectMeta x,
      CloudscaleClusterTemplate_Spec x))
    (λ '(a, b, c), mkCloudscaleClusterTemplate a b c)
    _ _ CloudscaleClusterTemplate_DeepCopyInto _); copies_fields.
Defined.
Definition CloudscaleClusterTemplate_DeepCopy (p : ptr CloudscaleClusterTemplate)
    : MemM (ptr CloudscaleClusterTemplate) :=
  DeepCopy CloudscaleClusterTemplate_DeepCopyInto p.

Record CloudscaleClusterTemplateList := mkCloudscaleClusterTemplateList {
  CloudscaleClusterTemplateList_TypeMeta : TypeMeta; CloudscaleClusterTemplateList_ListMeta : ListMeta;
  CloudscaleClusterTemplateList_Items : slice CloudscaleClusterTemplate }.
Definition CloudscaleClusterTemplateList_DeepCopyInto (i : CloudscaleClusterTemplateList)
    : MemM CloudscaleClusterTemplateList :=
  let* listMeta := DeepCopyInto (CloudscaleClusterTemplateList_ListMeta i) in
  let* items :=
    copySlice CloudscaleClusterTemplate_DeepCopyInto (CloudscaleClusterTemplateList_Items i) in
  mem_ret (mkCloudscaleClusterTemplateList (CloudscaleClusterTemplateList_TypeMeta i) listMeta items).
#[export] Instance CloudscaleClusterTemplateList_type : GoType CloudscaleClusterTemplateList.
Proof.
  refine (struct_type
    (λ x, (CloudscaleClusterTemplateList_TypeMeta x, CloudscaleClusterTemplateList_ListMeta x,
      CloudscaleClusterTemplateList_Items x))
    (λ '(a, b, c), mkCloudscaleClusterTemplateList a b c)
    _ _ CloudscaleClusterTemplateList_DeepCopyInto _); copies_fields.
Defined.
Definition CloudscaleClusterTemplateList_DeepCopy (p : ptr CloudscaleClusterTemplateList)
    : MemM (ptr CloudscaleClusterTemplateList) :=
  DeepCopy CloudscaleClusterTemplateList_DeepCopyInto p.

(** ** Machines (cloudscalemachine_types.go) *)

Record ServerGroupSpec := mkServerGroupSpec { ServerGroupSpec_Name : string }.
Definition ServerGroupSpec_DeepCopyInto (i : ServerGroupSpec)
    : MemM ServerGroupSpec :=
  assign i.
#[export] Instance ServerGroupSpec_type : GoType ServerGroupSpec.
Proof.
  refine (struct_type
    (λ x, ServerGroupSpec_Name x)
    (mkServerGroupSpec)
    _ _ ServerGroupSpec_DeepCopyInto _); copies_fields.
Defined.
#[export] Instance ServerGroupSpec_flat : Flat ServerGroupSpec.
Proof. done. Qed.
Definition ServerGroupSpec_DeepCopy (p : ptr ServerGroupSpec)
    : MemM (ptr ServerGroupSpec) :=
  DeepCopy ServerGroupSpec_DeepCopyInto p.

Record InterfaceSpec := mkInterfaceSpec { InterfaceSpec_Type : string; InterfaceSpec_Network : string;
  InterfaceSpec_IPFamily : ptr string }.
Definition InterfaceSpec_DeepCopyInto (i : InterfaceSpec)
    : MemM InterfaceSpec :=
  let* ipFamily := copyPtr assign (InterfaceSpec_IPFamily i) in
  mem_ret (mkInterfaceSpec (InterfaceSpec_Type i) (InterfaceSpec_Network i) ipFamily).
#[export] Instance InterfaceSpec_type : GoType InterfaceSpec.
Proof.
  refine (struct_type
    (λ x, (InterfaceSpec_Type x, InterfaceSpec_Network x, InterfaceSpec_IPFamily x))
    (λ '(a, b, c), mkInterfaceSpec a b c)
    _ _ InterfaceSpec_DeepCopyInto _); copies_fields.
Defined.
Definition InterfaceSpec_DeepCopy (p : ptr InterfaceSpec)
    : MemM (ptr InterfaceSpec) :=
  DeepCopy InterfaceSpec_DeepCopyInto p.

Record CloudscaleMachineSpec := mkCloudscaleMachineSpec { CloudscaleMachineSpec_ProviderID : ptr string;
  CloudscaleMachineSpec_Flavor : string; CloudscaleMachineSpec_Image : string;
  CloudscaleMachineSpec_RootVolumeSize : Z; CloudscaleMachineSpec_Tags : gomap string;
  CloudscaleMachineSpec_ServerGroup : ptr ServerGroupSpec;
  CloudscaleMachineSpec_Interfaces : slice InterfaceSpec }.
Definition CloudscaleMachineSpec_DeepCopyInto (i : CloudscaleMachineSpec)
    : MemM CloudscaleMachineSpec :=
  let* providerID := copyPtr assign (CloudscaleMachineSpec_ProviderID i) in
  let* tags := copyMap assign (CloudscaleMachineSpec_Tags i) in
  let* serverGroup := copyPtr assign (CloudscaleMachineSpec_ServerGroup i) in
  let* interfaces := copySlice InterfaceSpec_DeepCopyInto (CloudscaleMachineSpec_Interfaces i) in
  mem_ret (mkCloudscaleMachineSpec providerID (CloudscaleMachineSpec_Flavor i)
    (CloudscaleMachineSpec_Image i) (CloudscaleMachineSpec_RootVolumeSize i) tags serverGroup
    interfaces).
#[export] Instance CloudscaleMachineSpec_type : GoType CloudscaleMachineSpec.
Proof.
  refine (struct_type
    (λ x, (CloudscaleMachineSpec_ProviderID x, CloudscaleMachineSpec_Flavor x,
      CloudscaleMachineSpec_Image x, CloudscaleMachineSpec_RootVolumeSize x,
      CloudscaleMachineSpec_Tags x, CloudscaleMachineSpec_ServerGroup x,
      CloudscaleMachineSpec_Interfaces x))
    (λ '(a, b, c, d, e, f, g), mkCloudscaleMachineSpec a b c d e f g)
    _ _ CloudscaleMachineSpec_DeepCopyInto _); copies_fields.
Defined.
Definition CloudscaleMachineSpec_DeepCopy (p : ptr CloudscaleMachineSpec)
    : MemM (ptr CloudscaleMachineSpec) :=
  DeepCopy CloudscaleMachineSpec_DeepCopyInto p.

Record MachineInitializationStatus := mkMachineInitializationStatus {
  MachineInitializationStatus_Provisioned : ptr bool }.
Definition MachineInitializationStatus_DeepCopyInto (i : MachineInitializationStatus)
    : MemM MachineInitializationStatus :=
  let* provisioned := copyPtr assign (MachineInitializationStatus_Provisioned i) in
  mem_ret (mkMachineInitializationStatus provisioned).
#[export] Instance MachineInitializationStatus_type : GoType MachineInitializationStatus.
Proof.
  refine (struct_type
    (λ x, MachineInitializationStatus_Provisioned x)
    (mkMachineInitializationStatus)
    _ _ MachineInitializationStatus_DeepCopyInto _); copies_fields.
Defined.
Definition MachineInitializationStatus_DeepCopy (p : ptr MachineInitializationStatus)
    : MemM (ptr MachineInitializationStatus) :=
  DeepCopy MachineInitializationStatus_DeepCopyInto p.

Record CloudscaleMachineStatus := mkCloudscaleMachineStatus {
  CloudscaleMachineStatus_ObservedGeneration : Z;
  CloudscaleMachineStatus_Initialization : ptr MachineInitializationStatus;
  CloudscaleMachineStatus_ServerID : string; CloudscaleMachineStatus_Addresses : slice MachineAddress;
  CloudscaleMachineStatus_ServerGroupID : string;
  CloudscaleMachineStatus_Conditions : slice Condition }.
Definition CloudscaleMachineStatus_DeepCopyInto (i : CloudscaleMachineStatus)
    : MemM CloudscaleMachineStatus :=
  let* initialization :=
    copyPtr MachineInitializationStatus_DeepCopyInto (CloudscaleMachineStatus_Initialization i) in
  let* addresses := copySlice assign (CloudscaleMachineStatus_Addresses i) in
  let* conditions := copySlice DeepCopyInto (CloudscaleMachineStatus_Conditions i) in
  mem_ret (mkCloudscaleMachineStatus (CloudscaleMachineStatus_ObservedGeneration i) initialization
    (CloudscaleMachineStatus_ServerID i) addresses (CloudscaleMachineStatus_ServerGroupID i)
    conditions).
#[export] Instance CloudscaleMachineStatus_type : GoType CloudscaleMachineStatus.
Proof.
  refine (struct_type
    (λ x, (CloudscaleMachineStatus_ObservedGeneration x, CloudscaleMachineStatus_Initialization x,
      CloudscaleMachineStatus_ServerID x, CloudscaleMachineStatus_Addresses x,
      CloudscaleMachineStatus_ServerGroupID x, CloudscaleMachineStatus_Conditions x))
    (λ '(a, b, c, d, e, f), mkCloudscaleMachineStatus a b c d e f)
    _ _ CloudscaleMachineStatus_DeepCopyInto _); copies_fields.
Defined.
Definition CloudscaleMachineStatus_DeepCopy (p : ptr CloudscaleMachineStatus)
    : MemM (ptr CloudscaleMachineStatus) :=
  DeepCopy CloudscaleMachineStatus_DeepCopyInto p.

Record CloudscaleMachine := mkCloudscaleMachine { CloudscaleMachine_TypeMeta : TypeMeta;
  CloudscaleMachine_ObjectMeta : ObjectMeta; CloudscaleMachine_Spec : CloudscaleMachineSpec;
  CloudscaleMachine_Status : CloudscaleMachineStatus }.
Definition CloudscaleMachine_DeepCopyInto (i : CloudscaleMachine)
    : MemM CloudscaleMachine :=
  let* objectMeta := DeepCopyInto (CloudscaleMachine_ObjectMeta i) in
  let* spec := CloudscaleMachineSpec_DeepCopyInto (CloudscaleMachine_Spec i) in
  let* status := CloudscaleMachineStatus_DeepCopyInto (CloudscaleMachine_Status i) in
  mem_ret (mkCloudscaleMachine (CloudscaleMachine_TypeMeta i) objectMeta spec status).
#[export] Instance CloudscaleMachine_type : GoType CloudscaleMachine.
Proof.
  refine (struct_type
    (λ x, (CloudscaleMachine_TypeMeta x, CloudscaleMachine_ObjectMeta x, CloudscaleMachine_Spec x,
      CloudscaleMachine_Status x))
    (λ '(a, b, c, d), mkCloudscaleMachine a b c d)
    _ _ CloudscaleMachine_DeepCopyInto _); copies_fields.
Defined.
Definition CloudscaleMachine_DeepCopy (p : ptr CloudscaleMachine)
    : MemM (ptr CloudscaleMachine) :=
  DeepCopy CloudscaleMachine_DeepCopyInto p.

Record CloudscaleMachineList := mkCloudscaleMachineList { CloudscaleMachineList_TypeMeta : TypeMeta;
  CloudscaleMachineList_ListMeta : ListMeta; CloudscaleMachineList_Items : slice CloudscaleMachine }.
Definition CloudscaleMachineList_DeepCopyInto (i : CloudscaleMachineList)
    : MemM CloudscaleMachineList :=
  let* listMeta := DeepCopyInto (CloudscaleMachineList_ListMeta i) in
  let* items := copySlice CloudscaleMachine_DeepCopyInto (CloudscaleMachineList_Items i) in
  mem_ret (mkCloudscaleMachineList (CloudscaleMachineList_TypeMeta i) listMeta items).
#[export] Instance CloudscaleMachineList_type : GoType CloudscaleMachineList.
Proof.
  refine (struct_type
    (λ x, (CloudscaleMachineList_TypeMeta x, CloudscaleMachineList_ListMeta x,
      CloudscaleMachineList_Items x))
    (λ '(a, b, c), mkCloudscaleMachineList a b c)
    _ _ CloudscaleMachineList_DeepCopyInto _); copies_fields.
Defined.
Definition CloudscaleMachineList_DeepCopy (p : ptr CloudscaleMachineList)
    : MemM (ptr CloudscaleMachineList) :=
  DeepCopy CloudscaleMachineList_DeepCopyInto p.

(** ** Machine templates (cloudscalemachinetemplate_types.go) *)

Record CloudscaleMachineTemplateResource := mkCloudscaleMachineTemplateResource {
  CloudscaleMachineTemplateResource_Spec : CloudscaleMachineSpec }.
Definition CloudscaleMachineTemplateResource_DeepCopyInto (i : CloudscaleMachineTemplateResource)
    : MemM CloudscaleMachineTemplateResource :=
  let* spec := CloudscaleMachineSpec_DeepCopyInto (CloudscaleMachineTemplateResource_Spec i) in
  mem_ret (mkCloudscaleMachineTemplateResource spec).
#[export] Instance CloudscaleMachineTemplateResource_type : GoType CloudscaleMachineTemplateResource.
Proof.
  refine (struct_type
    (λ x, CloudscaleMachineTemplateResource_Spec x)
    (mkCloudscaleMachineTemplateResource)
    _ _ CloudscaleMachineTemplateResource_DeepCopyInto _); copies_fields.
Defined.
Definition CloudscaleMachineTemplateResource_DeepCopy (p : ptr CloudscaleMachineTemplateResource)
    : MemM (ptr CloudscaleMachineTemplateResource) :=
  DeepCopy CloudscaleMachineTemplateResource_DeepCopyInto p.

Record CloudscaleMachineTemplateSpec := mkCloudscaleMachineTemplateSpec {
  CloudscaleMachineTemplateSpec_Template : CloudscaleMachineTemplateResource }.
Definition CloudscaleMachineTemplateSpec_DeepCopyInto (i : CloudscaleMachineTemplateSpec)
    : MemM CloudscaleMachineTemplateSpec :=
  let* template :=
    CloudscaleMachineTemplateResource_DeepCopyInto (CloudscaleMachineTemplateSpec_Template i) in
  mem_ret (mkCloudscaleMachineTemplateSpec template).
#[export] Instance CloudscaleMachineTemplateSpec_type : GoType CloudscaleMachineTemplateSpec.
Proof.
  refine (struct_type
    (λ x, CloudscaleMachineTemplateSpec_Template x)
    (mkCloudscaleMachineTemplateSpec)
    _ _ CloudscaleMachineTemplateSpec_DeepCopyInto _); copies_fields.
Defined.
Definition CloudscaleMachineTemplateSpec_DeepCopy (p : ptr CloudscaleMachineTemplateSpec)
    : MemM (ptr CloudscaleMachineTemplateSpec) :=
  DeepCopy CloudscaleMachineTemplateSpec_DeepCopyInto p.

Record NodeInfo := mkNodeInfo { NodeInfo_Architecture : string; NodeInfo_OperatingSystem : string }.
Definition NodeInfo_DeepCopyInto (i : NodeInfo)
    : MemM NodeInfo :=
  assign i.
#[export] Instance NodeInfo_type : GoType NodeInfo.
Proof.
  refine (struct_type
    (λ x, (NodeInfo_Architecture x, NodeInfo_OperatingSystem x))
    (λ '(a, b), mkNodeInfo a b)
    _ _ NodeInfo_DeepCopyInto _); copies_fields.
Defined.
#[export] Instance NodeInfo_flat : Flat NodeInfo.
Proof. done. Qed.
Definition NodeInfo_DeepCopy (p : ptr NodeInfo)
    : MemM (ptr NodeInfo) :=
  DeepCopy NodeInfo_DeepCopyInto p.

Record CloudscaleMachineTemplateStatus := mkCloudscaleMachineTemplateStatus {
  CloudscaleMachineTemplateStatus_ObservedGeneration : Z;
  CloudscaleMachineTemplateStatus_Capacity : gomap Quantity;
  CloudscaleMachineTemplateStatus_Conditions : slice Condition }.
Definition CloudscaleMachineTemplateStatus_DeepCopyInto (i : CloudscaleMachineTemplateStatus)
    : MemM CloudscaleMachineTemplateStatus :=
  let* capacity := copyMap DeepCopyInto (CloudscaleMachineTemplateStatus_Capacity i) in
  let* conditions := copySlice DeepCopyInto (CloudscaleMachineTemplateStatus_Conditions i) in
  mem_ret (mkCloudscaleMachineTemplateStatus (CloudscaleMachineTemplateStatus_ObservedGeneration i)
    capacity conditions).
#[export] Instance CloudscaleMachineTemplateStatus_type : GoType CloudscaleMachineTemplateStatus.
Proof.
  refine (struct_type
    (λ x, (CloudscaleMachineTemplateStatus_ObservedGeneration x,
      CloudscaleMachineTemplateStatus_Capacity x, CloudscaleMachineTemplateStatus_Conditions x))
    (λ '(a, b, c), mkCloudscaleMachineTemplateStatus a b c)
    _ _ CloudscaleMachineTemplateStatus_DeepCopyInto _); copies_fields.
Defined.
Definition CloudscaleMachineTemplateStatus_DeepCopy (p : ptr CloudscaleMachineTemplateStatus)
    : MemM (ptr CloudscaleMachineTemplateStatus) :=
  DeepCopy CloudscaleMachineTemplateStatus_DeepCopyInto p.

Record CloudscaleMachineTemplate := mkCloudscaleMachineTemplate {
  CloudscaleMachineTemplate_TypeMeta : TypeMeta; CloudscaleMachineTemplate_ObjectMeta : ObjectMeta;
  CloudscaleMachineTemplate_Spec : CloudscaleMachineTemplateSpec;
  CloudscaleMachineTemplate_Status : CloudscaleMachineTemplateStatus }.
Definition CloudscaleMachineTemplate_DeepCopyInto (i : CloudscaleMachineTemplate)
    : MemM CloudscaleMachineTemplate :=
  let* objectMeta := DeepCopyInto (CloudscaleMachineTemplate_ObjectMeta i) in
  let* spec := CloudscaleMachineTemplateSpec_DeepCopyInto (CloudscaleMachineTemplate_Spec i) in
  let* status := CloudscaleMachineTemplateStatus_DeepCopyInto (CloudscaleMachineTemplate_Status i) in
  mem_ret (mkCloudscaleMachineTemplate (CloudscaleMachineTemplate_TypeMeta i) objectMeta spec status).
#[export] Instance CloudscaleMachineTemplate_type : GoType CloudscaleMachineTemplate.
Proof.
  refine (struct_type
    (λ x, (CloudscaleMachineTemplate_TypeMeta x, CloudscaleMachineTemplate_ObjectMeta x,
      CloudscaleMachineTemplate_Spec x, CloudscaleMachineTemplate_Status x))
    (λ '(a, b, c, d), mkCloudscaleMachineTemplate a b c d)
    _ _ CloudscaleMachineTemplate_DeepCopyInto _); copies_fields.
Defined.
Definition CloudscaleMachineTemplate_DeepCopy (p : ptr CloudscaleMachineTemplate)
    : MemM (ptr CloudscaleMachineTemplate) :=
  DeepCopy CloudscaleMachineTemplate_DeepCopyInto p.

Record CloudscaleMachineTemplateList := mkCloudscaleMachineTemplateList {
  CloudscaleMachineTemplateList_TypeMeta : TypeMeta; CloudscaleMachineTemplateList_ListMeta : ListMeta;
  CloudscaleMachineTemplateList_Items : slice CloudscaleMachineTemplate }.
Definition CloudscaleMachineTemplateList_DeepCopyInto (i : CloudscaleMachineTemplateList)
    : MemM CloudscaleMachineTemplateList :=
  let* listMeta := DeepCopyInto (CloudscaleMachineTemplateList_ListMeta i) in
  let* items :=
    copySlice CloudscaleMachineTemplate_DeepCopyInto (CloudscaleMachineTemplateList_Items i) in
  mem_ret (mkCloudscaleMachineTemplateList (CloudscaleMachineTemplateList_TypeMeta i) listMeta items).
#[export] Instance CloudscaleMachineTemplateList_type : GoType CloudscaleMachineTemplateList.
Proof.
  refine (struct_type
    (λ x, (CloudscaleMachineTemplateList_TypeMeta x, CloudscaleMachineTemplateList_ListMeta x,
      CloudscaleMachineTemplateList_Items x))
    (λ '(a, b, c), mkCloudscaleMachineTemplateList a b c)
    _ _ CloudscaleMachineTemplateList_DeepCopyInto _); copies_fields.
Defined.
Definition CloudscaleMachineTemplateList_DeepCopy (p : ptr CloudscaleMachineTemplateList)
    : MemM (ptr CloudscaleMachineTemplateList) :=
  DeepCopy CloudscaleMachineTemplateList_DeepCopyInto p.

(** ** Objects: the values of the interface runtime.Object, nil where there is none *)

Inductive Object :=
  | CloudscaleCluster_object (p : ptr CloudscaleCluster)
  | CloudscaleClusterList_object (p : ptr CloudscaleClusterList)
  | CloudscaleClusterTemplate_object (p : ptr CloudscaleClusterTemplate)
  | CloudscaleClusterTemplateList_object (p : ptr CloudscaleClusterTemplateList)
  | CloudscaleMachine_object (p : ptr CloudscaleMachine)
  | CloudscaleMachineList_object (p : ptr CloudscaleMachineList)
  | CloudscaleMachineTemplate_object (p : ptr CloudscaleMachineTemplate)
  | CloudscaleMachineTemplateList_object (p : ptr CloudscaleMachineTemplateList).

Definition copyObject {A} (deepCopy : ptr A → MemM (ptr A)) (object : ptr A → Object) (p : ptr A)
    : MemM (option Object) :=
  let* c := deepCopy p in
  mem_ret (match addr c with Some _ => Some (object c) | None => None end).

Definition CloudscaleCluster_DeepCopyObject
    : ptr CloudscaleCluster → MemM (option Object) :=
  copyObject CloudscaleCluster_DeepCopy CloudscaleCluster_object.
Definition CloudscaleClusterList_DeepCopyObject
    : ptr CloudscaleClusterList → MemM (option Object) :=
  copyObject CloudscaleClusterList_DeepCopy CloudscaleClusterList_object.
Definition CloudscaleClusterTemplate_DeepCopyObject
    : ptr CloudscaleClusterTemplate → MemM (option Object) :=
  copyObject CloudscaleClusterTemplate_DeepCopy CloudscaleClusterTemplate_object.
Definition CloudscaleClusterTemplateList_DeepCopyObject
    : ptr CloudscaleClusterTemplateList → MemM (option Object) :=
  copyObject CloudscaleClusterTemplateList_DeepCopy CloudscaleClusterTemplateList_object.
Definition CloudscaleMachine_DeepCopyObject
    : ptr CloudscaleMachine → MemM (option Object) :=
  copyObject CloudscaleMachine_DeepCopy CloudscaleMachine_object.
Definition CloudscaleMachineList_DeepCopyObject
    : ptr CloudscaleMachineList → MemM (option Object) :=
  copyObject CloudscaleMachineList_DeepCopy CloudscaleMachineList_object.
Definition CloudscaleMachineTemplate_DeepCopyObject
    : ptr CloudscaleMachineTemplate → MemM (option Object) :=
  copyObject CloudscaleMachineTemplate_DeepCopy CloudscaleMachineTemplate_object.
Definition CloudscaleMachineTemplateList_DeepCopyObject
    : ptr CloudscaleMachineTemplateList → MemM (option Object) :=
  copyObject CloudscaleMachineTemplateList_DeepCopy CloudscaleMachineTemplateList_object.
End deepcopy.

(** ** Every copy is deep *)

Section deepcopy_claims.
Context `{K : KubernetesTypes}.

(** An object's copy is the interface value of a deep copy, and nil exactly for a nil
    receiver: never an interface that holds a nil pointer. *)
Definition copies_object `{GoType A} (f : ptr A → MemM (option Object)) (object : ptr A → Object)
    : Prop :=
  ∀ p m t, view p m = Some t →
  ∃ q m', DeepCopy DeepCopyInto p m = Some (q, m') ∧
    f p m = Some (if bool_decide (p = Ptr None) then None else Some (object q), m') ∧
    (addr q = None ↔ p = Ptr None).

Lemma copyObject_copies `{GoType A} (object : ptr A → Object) :
  copies_object (copyObject (DeepCopy DeepCopyInto) object) object.
Proof.
  intros [[l|]] m t Hv.
  - destruct (copy_law (Ptr (Some l)) m t Hv) as (q & m' & Hc & _). exists q, m'. simpl in Hc.
    assert (is_Some (addr q)) as [l' Hq].
    { unfold copyPtr, mem_bind, alloc, load, store, mem_ret in Hc. simpl in Hc.
      destruct (read l _); simpl in Hc; [|done]. case_match; simplify_eq/=. case_match; by simplify_eq/=. }
    unfold copyObject, mem_bind, DeepCopy, mem_ret. by rewrite Hc, Hq.
  - exists (Ptr None), m. done.
Qed.

(** C30. Every DeepCopy of the API types is deep, for whatever the memory holds that the
    receiver reaches: the copy reads like the original, the original is untouched, the
    two share no location, and no later write through one of them is seen through the
    other. *)
Theorem DeepCopy_is_deep :
  deep_copies CloudscaleCredentialsReference_DeepCopy ∧
  deep_copies NetworkSpec_DeepCopy ∧
  deep_copies RouterInterfaceSpec_DeepCopy ∧
  deep_copies RouterSpec_DeepCopy ∧
  deep_copies HealthMonitorSpec_DeepCopy ∧
  deep_copies LoadBalancerSpec_DeepCopy ∧
  deep_copies FloatingIPSpec_DeepCopy ∧
  deep_copies CloudscaleClusterSpec_DeepCopy ∧
  deep_copies ClusterInitializationStatus_DeepCopy ∧
  deep_copies NetworkStatus_DeepCopy ∧
  deep_copies RouterInterfaceStatus_DeepCopy ∧
  deep_copies RouterStatus_DeepCopy ∧
  deep_copies CloudscaleClusterStatus_DeepCopy ∧
  deep_copies CloudscaleCluster_DeepCopy ∧
  deep_copies CloudscaleClusterList_DeepCopy ∧
  deep_copies CloudscaleClusterTemplateResource_DeepCopy ∧
  deep_copies CloudscaleClusterTemplateSpec_DeepCopy ∧
  deep_copies CloudscaleClusterTemplate_DeepCopy ∧
  deep_copies CloudscaleClusterTemplateList_DeepCopy ∧
  deep_copies ServerGroupSpec_DeepCopy ∧
  deep_copies InterfaceSpec_DeepCopy ∧
  deep_copies CloudscaleMachineSpec_DeepCopy ∧
  deep_copies MachineInitializationStatus_DeepCopy ∧
  deep_copies CloudscaleMachineStatus_DeepCopy ∧
  deep_copies CloudscaleMachine_DeepCopy ∧
  deep_copies CloudscaleMachineList_DeepCopy ∧
  deep_copies CloudscaleMachineTemplateResource_DeepCopy ∧
  deep_copies CloudscaleMachineTemplateSpec_DeepCopy ∧
  deep_copies NodeInfo_DeepCopy ∧
  deep_copies CloudscaleMachineTemplateStatus_DeepCopy ∧
  deep_copies CloudscaleMachineTemplate_DeepCopy ∧
  deep_copies CloudscaleMachineTemplateList_DeepCopy.
Proof. repeat match goal with |- _ ∧ _ => split end; exact DeepCopy_deep. Qed.

(** The same for the objects. *)
Theorem DeepCopyObject_is_deep :
  copies_object CloudscaleCluster_DeepCopyObject CloudscaleCluster_object ∧
  copies_object CloudscaleClusterList_DeepCopyObject CloudscaleClusterList_object ∧
  copies_object CloudscaleClusterTemplate_DeepCopyObject CloudscaleClusterTemplate_object ∧
  copies_object CloudscaleClusterTemplateList_DeepCopyObject CloudscaleClusterTemplateList_object ∧
  copies_object CloudscaleMachine_DeepCopyObject CloudscaleMachine_object ∧
  copies_object CloudscaleMachineList_DeepCopyObject CloudscaleMachineList_object ∧
  copies_object CloudscaleMachineTemplate_DeepCopyObject CloudscaleMachineTemplate_object ∧
  copies_object CloudscaleMachineTemplateList_DeepCopyObject CloudscaleMachineTemplateList_object.
Proof. repeat match goal with |- _ ∧ _ => split end; exact (copyObject_copies _). Qed.
End deepcopy_claims.

(** ** An instance, and a router in memory *)

(** The types of the other packages, as strings. *)
Definition plain_types : KubernetesTypes := {|
  TypeMeta := string; ObjectMeta := string; ListMeta := string; Condition := string;
  Quantity := string; TemplateObjectMeta := string; APIEndpoint := string; MachineAddress := string |}.

(** A router at location 2; its interfaces are the second element of the array at
    location 1. *)
Definition router_memory : Mem :=
  <[2%positive := encode (mkRouterSpec "edge" "" true (Slice (Some (1%positive, 1, 1))))]>
    {[ 1%positive := encode [mkRouterInterfaceSpec "a" "" "10.0.0.1"; mkRouterInterfaceSpec "b" "" "10.0.0.2"] ]}.

Lemma DeepCopy_is_deep_witness :
  ∃ t q m', view (Ptr (A:=RouterSpec) (Some 2%positive)) router_memory = Some t ∧
    RouterSpec_DeepCopy (Ptr (Some 2%positive)) router_memory = Some (q, m') ∧ view q m' = Some t.
Proof.
  destruct (view (Ptr (A:=RouterSpec) (Some 2%positive)) router_memory) as [t|] eqn:E;
    [|vm_compute in E; discriminate E].
  destruct (DeepCopy_is_deep (K:=plain_types)) as (_ & _ & _ & H & _).
  destruct (H _ _ _ E) as (q & m' & Hc & Hv & _). exists t, q, m'. split; [reflexivity|by split].
Defined.
