(* ===== verification/Api.v ===== *)
(** * The API types (src/api/v1beta2)

    One record per Go struct, with the struct's name as the prefix of its
    fields, the setters the controllers use, the lookup methods, and the names of
    condition types, reasons, finalizers and tags. Go's [int], [int32] and
    [int64] fields are [Z]: the program only copies and compares them. A pointer
    to a value is an [option]. *)

From S2P Require Export Go.

(** ** Names (tags.go, condition_types.go and the constants of the types) *)

Definition ResourceLifecycleOwned : string := "owned".
Definition NameCloudscaleProviderPrefix : string := "capcs-".
Definition NameCloudscaleProviderOwned : string := NameCloudscaleProviderPrefix +:+ "cluster-".

Definition ClusterFinalizer : string := "cloudscalecluster.infrastructure.cluster.x-k8s.io".
Definition MachineFinalizer : string := "cloudscalemachine.infrastructure.cluster.x-k8s.io".

Definition IPFamilyIPv4 : string := "IPv4".
Definition IPFamilyIPv6 : string := "IPv6".
Definition IPFamilyDualStack : string := "DualStack".

Definition ReadyCondition : string := "Ready".
Definition NetworkReadyCondition : string := "NetworkReady".
Definition LoadBalancerReadyCondition : string := "LoadBalancerReady".
Definition ServerGroupReadyCondition : string := "ServerGroupReady".
Definition ServerReadyCondition : string := "ServerReady".
Definition PausedCondition : string := "Paused".
Definition RouterReadyCondition : string := "RouterReady".
Definition FloatingIPReadyCondition : string := "FloatingIPReady".
Definition DeletingCondition : string := "Deleting".

Definition NetworkProvisionedReason : string := "NetworkProvisioned".
Definition NetworkErrorReason : string := "NetworkError".
Definition NetworkDeletingReason : string := "NetworkDeleting".
Definition LoadBalancerRunningReason : string := "LoadBalancerRunning".
Definition LoadBalancerNotReadyReason : string := "LoadBalancerNotReady".
Definition LoadBalancerDisabledReason : string := "LoadBalancerDisabled".
Definition LoadBalancerErrorReason : string := "LoadBalancerError".
Definition LoadBalancerDeletingReason : string := "LoadBalancerDeleting".
Definition RouterProvisionedReason : string := "RouterProvisioned".
Definition RouterNotReadyReason : string := "RouterNotReady".
Definition RouterErrorReason : string := "RouterError".
Definition RouterDisabledReason : string := "RouterDisabled".
Definition RouterDeletingReason : string := "RouterDeleting".
Definition FloatingIPProvisionedReason : string := "FloatingIPProvisioned".
Definition FloatingIPDisabledReason : string := "FloatingIPDisabled".
Definition FloatingIPErrorReason : string := "FloatingIPError".
Definition FloatingIPDeletingReason : string := "FloatingIPDeleting".

Definition ServerRunningReason : string := "ServerRunning".
Definition ServerStartingReason : string := "ServerStarting".
Definition ServerChangingReason : string := "ServerChanging".
Definition ServerStoppedReason : string := "ServerStopped".
Definition ServerInRescueModeReason : string := "ServerInRescueMode".
Definition ServerInternalErrorReason : string := "ServerInternalError".
Definition ServerErrorReason : string := "ServerError".
Definition ServerDeletingReason : string := "ServerDeleting".
Definition ServerDeletedExternallyReason : string := "ServerDeletedExternally".
Definition ServerGroupReadyReason : string := "ServerGroupReady".
Definition ServerGroupErrorReason : string := "ServerGroupError".
Definition WaitingForClusterInfrastructureReason : string := "WaitingForClusterInfrastructure".
Definition WaitingForBootstrapDataReason : string := "WaitingForBootstrapData".

Definition DeletingReason : string := "Deleting".
Definition PausedReason : string := "Paused".
Definition ReadyReason : string := "Ready".
Definition NotReadyReason : string := "NotReady".

(** ** Conditions (metav1.Condition, without the transition time) *)

Inductive ConditionStatus := ConditionTrue | ConditionFalse | ConditionUnknown.

Record Condition := mkCondition {
  Condition_Type : string;
  Condition_Status : ConditionStatus;
  Condition_Reason : string;
  Condition_Message : string }.

#[export] Instance ConditionStatus_eq_dec : EqDecision ConditionStatus.
Proof. solve_decision. Defined.
#[export] Instance Condition_eq_dec : EqDecision Condition.
Proof. solve_decision. Defined.

(** metav1.ObjectMeta, by the fields the program reads or writes. *)
Record ObjectMeta := mkObjectMeta {
  ObjectMeta_Name : string;
  ObjectMeta_Namespace : string;
  ObjectMeta_Labels : gmap string string;
  ObjectMeta_Finalizers : list string;
  ObjectMeta_DeletionTimestamp : option Z }.

(** ** CloudscaleCluster: the specification *)

Record CloudscaleCredentialsReference := mkCloudscaleCredentialsReference {
  CloudscaleCredentialsReference_Name : string;
  CloudscaleCredentialsReference_Namespace : string }.

(** clusterv1.APIEndpoint *)
Record APIEndpoint := mkAPIEndpoint {
  APIEndpoint_Host : string;
  APIEndpoint_Port : Z }.

Record NetworkSpec := mkNetworkSpec {
  NetworkSpec_Name : string;
  NetworkSpec_UUID : string;
  NetworkSpec_CIDR : string;
  NetworkSpec_MTU : Z;
  NetworkSpec_GatewayAddress : string }.

Record RouterInterfaceSpec := mkRouterInterfaceSpec {
  RouterInterfaceSpec_Network : string;
  RouterInterfaceSpec_UUID : string;
  RouterInterfaceSpec_Address : string }.

Record RouterSpec := mkRouterSpec {
  RouterSpec_Name : string;
  RouterSpec_UUID : string;
  RouterSpec_InternetGateway : bool;
  RouterSpec_Interfaces : list RouterInterfaceSpec }.

Record HealthMonitorSpec := mkHealthMonitorSpec {
  HealthMonitorSpec_DelayS : Z;
  HealthMonitorSpec_TimeoutS : Z;
  HealthMonitorSpec_UpThreshold : Z;
  HealthMonitorSpec_DownThreshold : Z }.

Record LoadBalancerSpec := mkLoadBalancerSpec {
  LoadBalancerSpec_Enabled : option bool;
  LoadBalancerSpec_Algorithm : string;
  LoadBalancerSpec_Flavor : string;
  LoadBalancerSpec_APIServerPort : Z;
  LoadBalancerSpec_Network : string;
  LoadBalancerSpec_PoolMemberNetwork : string;
  LoadBalancerSpec_HealthMonitor : HealthMonitorSpec }.

Record FloatingIPSpec := mkFloatingIPSpec {
  FloatingIPSpec_IPFamily : option string;
  FloatingIPSpec_Address : string }.

Record CloudscaleClusterSpec := mkCloudscaleClusterSpec {
  CloudscaleClusterSpec_Region : string;
  CloudscaleClusterSpec_Zone : string;
  CloudscaleClusterSpec_CredentialsRef : CloudscaleCredentialsReference;
  CloudscaleClusterSpec_ControlPlaneEndpoint : APIEndpoint;
  CloudscaleClusterSpec_Networks : list NetworkSpec;
  CloudscaleClusterSpec_Routers : list RouterSpec;
  CloudscaleClusterSpec_ControlPlaneLoadBalancer : LoadBalancerSpec;
  CloudscaleClusterSpec_FloatingIP : option FloatingIPSpec }.

(** ** CloudscaleCluster: the status *)

Record NetworkStatus := mkNetworkStatus {
  NetworkStatus_Name : string;
  NetworkStatus_NetworkID : string;
  NetworkStatus_SubnetID : string;
  NetworkStatus_CIDR : string;
  NetworkStatus_MTU : Z;
  NetworkStatus_Managed : bool;
  NetworkStatus_GatewayAddress : string }.

Record RouterInterfaceStatus := mkRouterInterfaceStatus {
  RouterInterfaceStatus_Network : string;
  RouterInterfaceStatus_InterfaceID : string;
  RouterInterfaceStatus_Managed : bool }.

Record RouterStatus := mkRouterStatus {
  RouterStatus_Name : string;
  RouterStatus_RouterID : string;
  RouterStatus_Interfaces : list RouterInterfaceStatus;
  RouterStatus_Managed : bool }.

Record ClusterInitializationStatus := mkClusterInitializationStatus {
  ClusterInitializationStatus_Provisioned : option bool }.

Record CloudscaleClusterStatus := mkCloudscaleClusterStatus {
  CloudscaleClusterStatus_Initialization : option ClusterInitializationStatus;
  CloudscaleClusterStatus_Networks : list NetworkStatus;
  CloudscaleClusterStatus_Routers : list RouterStatus;
  CloudscaleClusterStatus_FloatingIP : string;
  CloudscaleClusterStatus_LoadBalancerID : string;
  CloudscaleClusterStatus_LoadBalancerPoolID : string;
  CloudscaleClusterStatus_LoadBalancerListenerID : string;
  CloudscaleClusterStatus_LoadBalancerHealthMonitorID : string;
  CloudscaleClusterStatus_LoadBalancerMemberIDs : list string;
  CloudscaleClusterStatus_Conditions : list Condition }.

Record CloudscaleCluster := mkCloudscaleCluster {
  CloudscaleCluster_Meta : ObjectMeta;
  CloudscaleCluster_Spec : CloudscaleClusterSpec;
  CloudscaleCluster_Status : CloudscaleClusterStatus }.

(** ** CloudscaleMachine *)

(** clusterv1.MachineAddress *)
Inductive MachineAddressType :=
  | MachineHostName | MachineExternalIP | MachineInternalIP | MachineExternalDNS | MachineInternalDNS.

Record MachineAddress := mkMachineAddress {
  MachineAddress_Type : MachineAddressType;
  MachineAddress_Address : string }.

Record InterfaceSpec := mkInterfaceSpec {
  InterfaceSpec_Type : string;
  InterfaceSpec_Network : string;
  InterfaceSpec_IPFamily : option string }.

Record ServerGroupSpec := mkServerGroupSpec {
  ServerGroupSpec_Name : string }.

Record CloudscaleMachineSpec := mkCloudscaleMachineSpec {
  CloudscaleMachineSpec_ProviderID : option string;
  CloudscaleMachineSpec_Flavor : string;
  CloudscaleMachineSpec_Image : string;
  CloudscaleMachineSpec_RootVolumeSize : Z;
  CloudscaleMachineSpec_TagsOrNil : option (gmap string string);
  CloudscaleMachineSpec_ServerGroup : option ServerGroupSpec;
  CloudscaleMachineSpec_InterfacesOrNil : option (list InterfaceSpec) }.

(** The map and the slice may be nil (None here), which reads as empty; only
    [reflect.DeepEqual] tells the two apart. *)
Definition CloudscaleMachineSpec_Tags (x : CloudscaleMachineSpec) : gmap string string :=
  default ∅ (CloudscaleMachineSpec_TagsOrNil x).
Definition CloudscaleMachineSpec_Interfaces (x : CloudscaleMachineSpec) : list InterfaceSpec :=
  default [] (CloudscaleMachineSpec_InterfacesOrNil x).

Record MachineInitializationStatus := mkMachineInitializationStatus {
  MachineInitializationStatus_Provisioned : option bool }.

Record CloudscaleMachineStatus := mkCloudscaleMachineStatus {
  CloudscaleMachineStatus_Initialization : option MachineInitializationStatus;
  CloudscaleMachineStatus_ServerID : string;
  CloudscaleMachineStatus_Addresses : list MachineAddress;
  CloudscaleMachineStatus_ServerGroupID : string;
  CloudscaleMachineStatus_Conditions : list Condition }.

Record CloudscaleMachine := mkCloudscaleMachine {
  CloudscaleMachine_Meta : ObjectMeta;
  CloudscaleMachine_Spec : CloudscaleMachineSpec;
  CloudscaleMachine_Status : CloudscaleMachineStatus }.

#[export] Instance MachineAddressType_eq_dec : EqDecision MachineAddressType.
Proof. solve_decision. Defined.
#[export] Instance NetworkSpec_eq_dec : EqDecision NetworkSpec.
Proof. solve_decision. Defined.
#[export] Instance RouterInterfaceSpec_eq_dec : EqDecision RouterInterfaceSpec.
Proof. solve_decision. Defined.
#[export] Instance NetworkStatus_eq_dec : EqDecision NetworkStatus.
Proof. solve_decision. Defined.
#[export] Instance RouterInterfaceStatus_eq_dec : EqDecision RouterInterfaceStatus.
Proof. solve_decision. Defined.
#[export] Instance RouterStatus_eq_dec : EqDecision RouterStatus.
Proof. solve_decision. Defined.

(** ** Lookup methods *)

Definition GetInterfaceStatus (rs : RouterStatus) (network : string) : option RouterInterfaceStatus :=
  find_by RouterInterfaceStatus_Network network (RouterStatus_Interfaces rs).

Definition GetNetworkStatus (st : CloudscaleClusterStatus) (name : string) : option NetworkStatus :=
  find_by NetworkStatus_Name name (CloudscaleClusterStatus_Networks st).

Definition GetRouterStatus (st : CloudscaleClusterStatus) (name : string) : option RouterStatus :=
  find_by RouterStatus_Name name (CloudscaleClusterStatus_Routers st).

Definition ClusterTagKey (c : CloudscaleCluster) : string :=
  NameCloudscaleProviderOwned +:+ ObjectMeta_Name (CloudscaleCluster_Meta c).

(** corev1.ObjectReference, by name and namespace *)
Definition CredentialsSecretRef (c : CloudscaleCluster) : string * string :=
  let ref := CloudscaleClusterSpec_CredentialsRef (CloudscaleCluster_Spec c) in
  let ns := CloudscaleCredentialsReference_Namespace ref in
  (CloudscaleCredentialsReference_Name ref,
   if ns == "" then ObjectMeta_Namespace (CloudscaleCluster_Meta c) else ns).

(** ** Setters: assignment to one field of a struct *)

Definition set_CloudscaleClusterStatus_Initialization (v : option ClusterInitializationStatus) (x : CloudscaleClusterStatus) : CloudscaleClusterStatus :=
  {| CloudscaleClusterStatus_Initialization := v;
     CloudscaleClusterStatus_Networks := CloudscaleClusterStatus_Networks x;
     CloudscaleClusterStatus_Routers := CloudscaleClusterStatus_Routers x;
     CloudscaleClusterStatus_FloatingIP := CloudscaleClusterStatus_FloatingIP x;
     CloudscaleClusterStatus_LoadBalancerID := CloudscaleClusterStatus_LoadBalancerID x;
     CloudscaleClusterStatus_LoadBalancerPoolID := CloudscaleClusterStatus_LoadBalancerPoolID x;
     CloudscaleClusterStatus_LoadBalancerListenerID := CloudscaleClusterStatus_LoadBalancerListenerID x;
     CloudscaleClusterStatus_LoadBalancerHealthMonitorID := CloudscaleClusterStatus_LoadBalancerHealthMonitorID x;
     CloudscaleClusterStatus_LoadBalancerMemberIDs := CloudscaleClusterStatus_LoadBalancerMemberIDs x;
     CloudscaleClusterStatus_Conditions := CloudscaleClusterStatus_Conditions x |}.

Definition set_CloudscaleClusterStatus_Networks (v : list NetworkStatus) (x : CloudscaleClusterStatus) : CloudscaleClusterStatus :=
  {| CloudscaleClusterStatus_Initialization := CloudscaleClusterStatus_Initialization x;
     CloudscaleClusterStatus_Networks := v;
     CloudscaleClusterStatus_Routers := CloudscaleClusterStatus_Routers x;
     CloudscaleClusterStatus_FloatingIP := CloudscaleClusterStatus_FloatingIP x;
     CloudscaleClusterStatus_LoadBalancerID := CloudscaleClusterStatus_LoadBalancerID x;
     CloudscaleClusterStatus_LoadBalancerPoolID := CloudscaleClusterStatus_LoadBalancerPoolID x;
     CloudscaleClusterStatus_LoadBalancerListenerID := CloudscaleClusterStatus_LoadBalancerListenerID x;
     CloudscaleClusterStatus_LoadBalancerHealthMonitorID := CloudscaleClusterStatus_LoadBalancerHealthMonitorID x;
     CloudscaleClusterStatus_LoadBalancerMemberIDs := CloudscaleClusterStatus_LoadBalancerMemberIDs x;
     CloudscaleClusterStatus_Conditions := CloudscaleClusterStatus_Conditions x |}.

Definition set_CloudscaleClusterStatus_Routers (v : list RouterStatus) (x : CloudscaleClusterStatus) : CloudscaleClusterStatus :=
  {| CloudscaleClusterStatus_Initialization := CloudscaleClusterStatus_Initialization x;
     CloudscaleClusterStatus_Networks := CloudscaleClusterStatus_Networks x;
     CloudscaleClusterStatus_Routers := v;
     CloudscaleClusterStatus_FloatingIP := CloudscaleClusterStatus_FloatingIP x;
     CloudscaleClusterStatus_LoadBalancerID := CloudscaleClusterStatus_LoadBalancerID x;
     CloudscaleClusterStatus_LoadBalancerPoolID := CloudscaleClusterStatus_LoadBalancerPoolID x;
     CloudscaleClusterStatus_LoadBalancerListenerID := CloudscaleClusterStatus_LoadBalancerListenerID x;
     CloudscaleClusterStatus_LoadBalancerHealthMonitorID := CloudscaleClusterStatus_LoadBalancerHealthMonitorID x;
     CloudscaleClusterStatus_LoadBalancerMemberIDs := CloudscaleClusterStatus_LoadBalancerMemberIDs x;
     CloudscaleClusterStatus_Conditions := CloudscaleClusterStatus_Conditions x |}.

Definition set_CloudscaleClusterStatus_FloatingIP (v : string) (x : CloudscaleClusterStatus) : CloudscaleClusterStatus :=
  {| CloudscaleClusterStatus_Initialization := CloudscaleClusterStatus_Initialization x;
     CloudscaleClusterStatus_Networks := CloudscaleClusterStatus_Networks x;
     CloudscaleClusterStatus_Routers := CloudscaleClusterStatus_Routers x;
     CloudscaleClusterStatus_FloatingIP := v;
     CloudscaleClusterStatus_LoadBalancerID := CloudscaleClusterStatus_LoadBalancerID x;
     CloudscaleClusterStatus_LoadBalancerPoolID := CloudscaleClusterStatus_LoadBalancerPoolID x;
     CloudscaleClusterStatus_LoadBalancerListenerID := CloudscaleClusterStatus_LoadBalancerListenerID x;
     CloudscaleClusterStatus_LoadBalancerHealthMonitorID := CloudscaleClusterStatus_LoadBalancerHealthMonitorID x;
     CloudscaleClusterStatus_LoadBalancerMemberIDs := CloudscaleClusterStatus_LoadBalancerMemberIDs x;
     CloudscaleClusterStatus_Conditions := CloudscaleClusterStatus_Conditions x |}.

Definition set_CloudscaleClusterStatus_LoadBalancerID (v : string) (x : CloudscaleClusterStatus) : CloudscaleClusterStatus :=
  {| CloudscaleClusterStatus_Initialization := CloudscaleClusterStatus_Initialization x;
     CloudscaleClusterStatus_Networks := CloudscaleClusterStatus_Networks x;
     CloudscaleClusterStatus_Routers := CloudscaleClusterStatus_Routers x;
     CloudscaleClusterStatus_FloatingIP := CloudscaleClusterStatus_FloatingIP x;
     CloudscaleClusterStatus_LoadBalancerID := v;
     CloudscaleClusterStatus_LoadBalancerPoolID := CloudscaleClusterStatus_LoadBalancerPoolID x;
     CloudscaleClusterStatus_LoadBalancerListenerID := CloudscaleClusterStatus_LoadBalancerListenerID x;
     CloudscaleClusterStatus_LoadBalancerHealthMonitorID := CloudscaleClusterStatus_LoadBalancerHealthMonitorID x;
     CloudscaleClusterStatus_LoadBalancerMemberIDs := CloudscaleClusterStatus_LoadBalancerMemberIDs x;
     CloudscaleClusterStatus_Conditions := CloudscaleClusterStatus_Conditions x |}.

Definition set_CloudscaleClusterStatus_LoadBalancerPoolID (v : string) (x : CloudscaleClusterStatus) : CloudscaleClusterStatus :=
  {| CloudscaleClusterStatus_Initialization := CloudscaleClusterStatus_Initialization x;
     CloudscaleClusterStatus_Networks := CloudscaleClusterStatus_Networks x;
     CloudscaleClusterStatus_Routers := CloudscaleClusterStatus_Routers x;
     CloudscaleClusterStatus_FloatingIP := CloudscaleClusterStatus_FloatingIP x;
     CloudscaleClusterStatus_LoadBalancerID := CloudscaleClusterStatus_LoadBalancerID x;
     CloudscaleClusterStatus_LoadBalancerPoolID := v;
     CloudscaleClusterStatus_LoadBalancerListenerID := CloudscaleClusterStatus_LoadBalancerListenerID x;
     CloudscaleClusterStatus_LoadBalancerHealthMonitorID := CloudscaleClusterStatus_LoadBalancerHealthMonitorID x;
     CloudscaleClusterStatus_LoadBalancerMemberIDs := CloudscaleClusterStatus_LoadBalancerMemberIDs x;
     CloudscaleClusterStatus_Conditions := CloudscaleClusterStatus_Conditions x |}.

Definition set_CloudscaleClusterStatus_LoadBalancerListenerID (v : string) (x : CloudscaleClusterStatus) : CloudscaleClusterStatus :=
  {| CloudscaleClusterStatus_Initialization := CloudscaleClusterStatus_Initialization x;
     CloudscaleClusterStatus_Networks := CloudscaleClusterStatus_Networks x;
     CloudscaleClusterStatus_Routers := CloudscaleClusterStatus_Routers x;
     CloudscaleClusterStatus_FloatingIP := CloudscaleClusterStatus_FloatingIP x;
     CloudscaleClusterStatus_LoadBalancerID := CloudscaleClusterStatus_LoadBalancerID x;
     CloudscaleClusterStatus_LoadBalancerPoolID := CloudscaleClusterStatus_LoadBalancerPoolID x;
     CloudscaleClusterStatus_LoadBalancerListenerID := v;
     CloudscaleClusterStatus_LoadBalancerHealthMonitorID := CloudscaleClusterStatus_LoadBalancerHealthMonitorID x;
     CloudscaleClusterStatus_LoadBalancerMemberIDs := CloudscaleClusterStatus_LoadBalancerMemberIDs x;
     CloudscaleClusterStatus_Conditions := CloudscaleClusterStatus_Conditions x |}.

Definition set_CloudscaleClusterStatus_LoadBalancerHealthMonitorID (v : string) (x : CloudscaleClusterStatus) : CloudscaleClusterStatus :=
  {| CloudscaleClusterStatus_Initialization := CloudscaleClusterStatus_Initialization x;
     CloudscaleClusterStatus_Networks := CloudscaleClusterStatus_Networks x;
     CloudscaleClusterStatus_Routers := CloudscaleClusterStatus_Routers x;
     CloudscaleClusterStatus_FloatingIP := CloudscaleClusterStatus_FloatingIP x;
     CloudscaleClusterStatus_LoadBalancerID := CloudscaleClusterStatus_LoadBalancerID x;
     CloudscaleClusterStatus_LoadBalancerPoolID := CloudscaleClusterStatus_LoadBalancerPoolID x;
     CloudscaleClusterStatus_LoadBalancerListenerID := CloudscaleClusterStatus_LoadBalancerListenerID x;
     CloudscaleClusterStatus_LoadBalancerHealthMonitorID := v;
     CloudscaleClusterStatus_LoadBalancerMemberIDs := CloudscaleClusterStatus_LoadBalancerMemberIDs x;
     CloudscaleClusterStatus_Conditions := CloudscaleClusterStatus_Conditions x |}.

Definition set_CloudscaleClusterStatus_LoadBalancerMemberIDs (v : list string) (x : CloudscaleClusterStatus) : CloudscaleClusterStatus :=
  {| CloudscaleClusterStatus_Initialization := CloudscaleClusterStatus_Initialization x;
     CloudscaleClusterStatus_Networks := CloudscaleClusterStatus_Networks x;
     CloudscaleClusterStatus_Routers := CloudscaleClusterStatus_Routers x;
     CloudscaleClusterStatus_FloatingIP := CloudscaleClusterStatus_FloatingIP x;
     CloudscaleClusterStatus_LoadBalancerID := CloudscaleClusterStatus_LoadBalancerID x;
     CloudscaleClusterStatus_LoadBalancerPoolID := CloudscaleClusterStatus_LoadBalancerPoolID x;
     CloudscaleClusterStatus_LoadBalancerListenerID := CloudscaleClusterStatus_LoadBalancerListenerID x;
     CloudscaleClusterStatus_LoadBalancerHealthMonitorID := CloudscaleClusterStatus_LoadBalancerHealthMonitorID x;
     CloudscaleClusterStatus_LoadBalancerMemberIDs := v;
     CloudscaleClusterStatus_Conditions := CloudscaleClusterStatus_Conditions x |}.

Definition set_CloudscaleClusterStatus_Conditions (v : list Condition) (x : CloudscaleClusterStatus) : CloudscaleClusterStatus :=
  {| CloudscaleClusterStatus_Initialization := CloudscaleClusterStatus_Initialization x;
     CloudscaleClusterStatus_Networks := CloudscaleClusterStatus_Networks x;
     CloudscaleClusterStatus_Routers := CloudscaleClusterStatus_Routers x;
     CloudscaleClusterStatus_FloatingIP := CloudscaleClusterStatus_FloatingIP x;
     CloudscaleClusterStatus_LoadBalancerID := CloudscaleClusterStatus_LoadBalancerID x;
     CloudscaleClusterStatus_LoadBalancerPoolID := CloudscaleClusterStatus_LoadBalancerPoolID x;
     CloudscaleClusterStatus_LoadBalancerListenerID := CloudscaleClusterStatus_LoadBalancerListenerID x;
     CloudscaleClusterStatus_LoadBalancerHealthMonitorID := CloudscaleClusterStatus_LoadBalancerHealthMonitorID x;
     CloudscaleClusterStatus_LoadBalancerMemberIDs := CloudscaleClusterStatus_LoadBalancerMemberIDs x;
     CloudscaleClusterStatus_Conditions := v |}.

Definition set_CloudscaleClusterSpec_Zone (v : string) (x : CloudscaleClusterSpec) : CloudscaleClusterSpec :=
  {| CloudscaleClusterSpec_Region := CloudscaleClusterSpec_Region x;
     CloudscaleClusterSpec_Zone := v;
     CloudscaleClusterSpec_CredentialsRef := CloudscaleClusterSpec_CredentialsRef x;
     CloudscaleClusterSpec_ControlPlaneEndpoint := CloudscaleClusterSpec_ControlPlaneEndpoint x;
     CloudscaleClusterSpec_Networks := CloudscaleClusterSpec_Networks x;
     CloudscaleClusterSpec_Routers := CloudscaleClusterSpec_Routers x;
     CloudscaleClusterSpec_ControlPlaneLoadBalancer := CloudscaleClusterSpec_ControlPlaneLoadBalancer x;
     CloudscaleClusterSpec_FloatingIP := CloudscaleClusterSpec_FloatingIP x |}.

Definition set_CloudscaleClusterSpec_ControlPlaneEndpoint (v : APIEndpoint) (x : CloudscaleClusterSpec) : CloudscaleClusterSpec :=
  {| CloudscaleClusterSpec_Region := CloudscaleClusterSpec_Region x;
     CloudscaleClusterSpec_Zone := CloudscaleClusterSpec_Zone x;
     CloudscaleClusterSpec_CredentialsRef := CloudscaleClusterSpec_CredentialsRef x;
     CloudscaleClusterSpec_ControlPlaneEndpoint := v;
     CloudscaleClusterSpec_Networks := CloudscaleClusterSpec_Networks x;
     CloudscaleClusterSpec_Routers := CloudscaleClusterSpec_Routers x;
     CloudscaleClusterSpec_ControlPlaneLoadBalancer := CloudscaleClusterSpec_ControlPlaneLoadBalancer x;
     CloudscaleClusterSpec_FloatingIP := CloudscaleClusterSpec_FloatingIP x |}.

Definition set_CloudscaleClusterSpec_Networks (v : list NetworkSpec) (x : CloudscaleClusterSpec) : CloudscaleClusterSpec :=
  {| CloudscaleClusterSpec_Region := CloudscaleClusterSpec_Region x;
     CloudscaleClusterSpec_Zone := CloudscaleClusterSpec_Zone x;
     CloudscaleClusterSpec_CredentialsRef := CloudscaleClusterSpec_CredentialsRef x;
     CloudscaleClusterSpec_ControlPlaneEndpoint := CloudscaleClusterSpec_ControlPlaneEndpoint x;
     CloudscaleClusterSpec_Networks := v;
     CloudscaleClusterSpec_Routers := CloudscaleClusterSpec_Routers x;
     CloudscaleClusterSpec_ControlPlaneLoadBalancer := CloudscaleClusterSpec_ControlPlaneLoadBalancer x;
     CloudscaleClusterSpec_FloatingIP := CloudscaleClusterSpec_FloatingIP x |}.

Definition set_CloudscaleClusterSpec_ControlPlaneLoadBalancer (v : LoadBalancerSpec) (x : CloudscaleClusterSpec) : CloudscaleClusterSpec :=
  {| CloudscaleClusterSpec_Region := CloudscaleClusterSpec_Region x;
     CloudscaleClusterSpec_Zone := CloudscaleClusterSpec_Zone x;
     CloudscaleClusterSpec_CredentialsRef := CloudscaleClusterSpec_CredentialsRef x;
     CloudscaleClusterSpec_ControlPlaneEndpoint := CloudscaleClusterSpec_ControlPlaneEndpoint x;
     CloudscaleClusterSpec_Networks := CloudscaleClusterSpec_Networks x;
     CloudscaleClusterSpec_Routers := CloudscaleClusterSpec_Routers x;
     CloudscaleClusterSpec_ControlPlaneLoadBalancer := v;
     CloudscaleClusterSpec_FloatingIP := CloudscaleClusterSpec_FloatingIP x |}.

Definition set_CloudscaleClusterSpec_FloatingIP (v : option FloatingIPSpec) (x : CloudscaleClusterSpec) : CloudscaleClusterSpec :=
  {| CloudscaleClusterSpec_Region := CloudscaleClusterSpec_Region x;
     CloudscaleClusterSpec_Zone := CloudscaleClusterSpec_Zone x;
     CloudscaleClusterSpec_CredentialsRef := CloudscaleClusterSpec_CredentialsRef x;
     CloudscaleClusterSpec_ControlPlaneEndpoint := CloudscaleClusterSpec_ControlPlaneEndpoint x;
     CloudscaleClusterSpec_Networks := CloudscaleClusterSpec_Networks x;
     CloudscaleClusterSpec_Routers := CloudscaleClusterSpec_Routers x;
     CloudscaleClusterSpec_ControlPlaneLoadBalancer := CloudscaleClusterSpec_ControlPlaneLoadBalancer x;
     CloudscaleClusterSpec_FloatingIP := v |}.

Definition set_CloudscaleCluster_Meta (v : ObjectMeta) (x : CloudscaleCluster) : CloudscaleCluster :=
  {| CloudscaleCluster_Meta := v;
     CloudscaleCluster_Spec := CloudscaleCluster_Spec x;
     CloudscaleCluster_Status := CloudscaleCluster_Status x |}.

Definition set_CloudscaleCluster_Spec (v : CloudscaleClusterSpec) (x : CloudscaleCluster) : CloudscaleCluster :=
  {| CloudscaleCluster_Meta := CloudscaleCluster_Meta x;
     CloudscaleCluster_Spec := v;
     CloudscaleCluster_Status := CloudscaleCluster_Status x |}.

Definition set_CloudscaleCluster_Status (v : CloudscaleClusterStatus) (x : CloudscaleCluster) : CloudscaleCluster :=
  {| CloudscaleCluster_Meta := CloudscaleCluster_Meta x;
     CloudscaleCluster_Spec := CloudscaleCluster_Spec x;
     CloudscaleCluster_Status := v |}.

Definition set_ObjectMeta_Finalizers (v : list string) (x : ObjectMeta) : ObjectMeta :=
  {| ObjectMeta_Name := ObjectMeta_Name x;
     ObjectMeta_Namespace := ObjectMeta_Namespace x;
     ObjectMeta_Labels := ObjectMeta_Labels x;
     ObjectMeta_Finalizers := v;
     ObjectMeta_DeletionTimestamp := ObjectMeta_DeletionTimestamp x |}.

Definition set_RouterStatus_Interfaces (v : list RouterInterfaceStatus) (x : RouterStatus) : RouterStatus :=
  {| RouterStatus_Name := RouterStatus_Name x;
     RouterStatus_RouterID := RouterStatus_RouterID x;
     RouterStatus_Interfaces := v;
     RouterStatus_Managed := RouterStatus_Managed x |}.

Definition set_CloudscaleMachineStatus_Initialization (v : option MachineInitializationStatus) (x : CloudscaleMachineStatus) : CloudscaleMachineStatus :=
  {| CloudscaleMachineStatus_Initialization := v;
     CloudscaleMachineStatus_ServerID := CloudscaleMachineStatus_ServerID x;
     CloudscaleMachineStatus_Addresses := CloudscaleMachineStatus_Addresses x;
     CloudscaleMachineStatus_ServerGroupID := CloudscaleMachineStatus_ServerGroupID x;
     CloudscaleMachineStatus_Conditions := CloudscaleMachineStatus_Conditions x |}.

Definition set_CloudscaleMachineStatus_ServerID (v : string) (x : CloudscaleMachineStatus) : CloudscaleMachineStatus :=
  {| CloudscaleMachineStatus_Initialization := CloudscaleMachineStatus_Initialization x;
     CloudscaleMachineStatus_ServerID := v;
     CloudscaleMachineStatus_Addresses := CloudscaleMachineStatus_Addresses x;
     CloudscaleMachineStatus_ServerGroupID := CloudscaleMachineStatus_ServerGroupID x;
     CloudscaleMachineStatus_Conditions := CloudscaleMachineStatus_Conditions x |}.

Definition set_CloudscaleMachineStatus_Addresses (v : list MachineAddress) (x : CloudscaleMachineStatus) : CloudscaleMachineStatus :=
  {| CloudscaleMachineStatus_Initialization := CloudscaleMachineStatus_Initialization x;
     CloudscaleMachineStatus_ServerID := CloudscaleMachineStatus_ServerID x;
     CloudscaleMachineStatus_Addresses := v;
     CloudscaleMachineStatus_ServerGroupID := CloudscaleMachineStatus_ServerGroupID x;
     CloudscaleMachineStatus_Conditions := CloudscaleMachineStatus_Conditions x |}.

Definition set_CloudscaleMachineStatus_ServerGroupID (v : string) (x : CloudscaleMachineStatus) : CloudscaleMachineStatus :=
  {| CloudscaleMachineStatus_Initialization := CloudscaleMachineStatus_Initialization x;
     CloudscaleMachineStatus_ServerID := CloudscaleMachineStatus_ServerID x;
     CloudscaleMachineStatus_Addresses := CloudscaleMachineStatus_Addresses x;
     CloudscaleMachineStatus_ServerGroupID := v;
     CloudscaleMachineStatus_Conditions := CloudscaleMachineStatus_Conditions x |}.

Definition set_CloudscaleMachineStatus_Conditions (v : list Condition) (x : CloudscaleMachineStatus) : CloudscaleMachineStatus :=
  {| CloudscaleMachineStatus_Initialization := CloudscaleMachineStatus_Initialization x;
     CloudscaleMachineStatus_ServerID := CloudscaleMachineStatus_ServerID x;
     CloudscaleMachineStatus_Addresses := CloudscaleMachineStatus_Addresses x;
     CloudscaleMachineStatus_ServerGroupID := CloudscaleMachineStatus_ServerGroupID x;
     CloudscaleMachineStatus_Conditions := v |}.

Definition set_CloudscaleMachineSpec_ProviderID (v : option string) (x : CloudscaleMachineSpec) : CloudscaleMachineSpec :=
  {| CloudscaleMachineSpec_ProviderID := v;
     CloudscaleMachineSpec_Flavor := CloudscaleMachineSpec_Flavor x;
     CloudscaleMachineSpec_Image := CloudscaleMachineSpec_Image x;
     CloudscaleMachineSpec_RootVolumeSize := CloudscaleMachineSpec_RootVolumeSize x;
     CloudscaleMachineSpec_TagsOrNil := CloudscaleMachineSpec_TagsOrNil x;
     CloudscaleMachineSpec_ServerGroup := CloudscaleMachineSpec_ServerGroup x;
     CloudscaleMachineSpec_InterfacesOrNil := CloudscaleMachineSpec_InterfacesOrNil x |}.

Definition set_CloudscaleMachineSpec_Interfaces (v : option (list InterfaceSpec)) (x : CloudscaleMachineSpec) : CloudscaleMachineSpec :=
  {| CloudscaleMachineSpec_ProviderID := CloudscaleMachineSpec_ProviderID x;
     CloudscaleMachineSpec_Flavor := CloudscaleMachineSpec_Flavor x;
     CloudscaleMachineSpec_Image := CloudscaleMachineSpec_Image x;
     CloudscaleMachineSpec_RootVolumeSize := CloudscaleMachineSpec_RootVolumeSize x;
     CloudscaleMachineSpec_TagsOrNil := CloudscaleMachineSpec_TagsOrNil x;
     CloudscaleMachineSpec_ServerGroup := CloudscaleMachineSpec_ServerGroup x;
     CloudscaleMachineSpec_InterfacesOrNil := v |}.

Definition set_CloudscaleMachine_Meta (v : ObjectMeta) (x : CloudscaleMachine) : CloudscaleMachine :=
  {| CloudscaleMachine_Meta := v;
     CloudscaleMachine_Spec := CloudscaleMachine_Spec x;
     CloudscaleMachine_Status := CloudscaleMachine_Status x |}.

Definition set_CloudscaleMachine_Spec (v : CloudscaleMachineSpec) (x : CloudscaleMachine) : CloudscaleMachine :=
  {| CloudscaleMachine_Meta := CloudscaleMachine_Meta x;
     CloudscaleMachine_Spec := v;
     CloudscaleMachine_Status := CloudscaleMachine_Status x |}.

Definition set_CloudscaleMachine_Status (v : CloudscaleMachineStatus) (x : CloudscaleMachine) : CloudscaleMachine :=
  {| CloudscaleMachine_Meta := CloudscaleMachine_Meta x;
     CloudscaleMachine_Spec := CloudscaleMachine_Spec x;
     CloudscaleMachine_Status := v |}.

(** The mutable parts of a cluster object, as the controllers reach them. *)

Definition status (c : CloudscaleCluster) : CloudscaleClusterStatus := CloudscaleCluster_Status c.
Definition spec (c : CloudscaleCluster) : CloudscaleClusterSpec := CloudscaleCluster_Spec c.

Definition upd_status (f : CloudscaleClusterStatus → CloudscaleClusterStatus)
    (c : CloudscaleCluster) : CloudscaleCluster :=
  set_CloudscaleCluster_Status (f (status c)) c.

Definition upd_spec (f : CloudscaleClusterSpec → CloudscaleClusterSpec)
    (c : CloudscaleCluster) : CloudscaleCluster :=
  set_CloudscaleCluster_Spec (f (spec c)) c.

Definition GetConditions (c : CloudscaleCluster) : list Condition :=
  CloudscaleClusterStatus_Conditions (status c).
Definition SetConditions (cs : list Condition) (c : CloudscaleCluster) : CloudscaleCluster :=
  upd_status (set_CloudscaleClusterStatus_Conditions cs) c.

(** [ptr.Deref(spec.ControlPlaneLoadBalancer.Enabled, true)] *)
Definition lbEnabled (sp : CloudscaleClusterSpec) : bool :=
  default true (LoadBalancerSpec_Enabled (CloudscaleClusterSpec_ControlPlaneLoadBalancer sp)).

(** The mutable parts of a machine object. *)

Definition upd_mstatus (f : CloudscaleMachineStatus → CloudscaleMachineStatus)
    (m : CloudscaleMachine) : CloudscaleMachine :=
  set_CloudscaleMachine_Status (f (CloudscaleMachine_Status m)) m.

Definition upd_mspec (f : CloudscaleMachineSpec → CloudscaleMachineSpec)
    (m : CloudscaleMachine) : CloudscaleMachine :=
  set_CloudscaleMachine_Spec (f (CloudscaleMachine_Spec m)) m.

Definition MachineTagKey (clusterName : string) : string :=
  NameCloudscaleProviderOwned +:+ clusterName.
