(* ===== verification/Sdk.v ===== *)
(** * The program's environment: the cloudscale.ch SDK, the Kubernetes client
    and the Cluster API utilities

    None of this code is under src/. The services are records of functions over
    an abstract world, with the interfaces of src/internal/cloudscale/services.go
    and the struct of src/internal/cloudscale/client.go; the rest of what the
    controllers call is the class [Platform], a record of operations with the
    documented laws of the condition and finalizer helpers. Every call goes
    through a wrapper that logs it, so that theorems can speak about which calls
    a reconcile makes and in which order. *)

From S2P Require Export Api.

(** ** Resources as the SDK returns them, by the fields the program reads *)

Abbreviation TagMap := (gmap string string).

Record SubnetStub := mkSubnetStub { SubnetStub_UUID : string; SubnetStub_CIDR : string }.

Record Network := mkNetwork {
  Network_UUID : string; Network_Zone : string; Network_MTU : Z; Network_Subnets : list SubnetStub }.

Record Subnet := mkSubnet { Subnet_UUID : string }.

Record InterfaceAddress := mkInterfaceAddress {
  InterfaceAddress_Subnet : string; InterfaceAddress_Address : string }.

Record RouterInterface := mkRouterInterface {
  RouterInterface_UUID : string; RouterInterface_Network : string;
  RouterInterface_Addresses : list InterfaceAddress }.

Record Router := mkRouter {
  Router_UUID : string; Router_Status : string; Router_Zone : string;
  Router_Interfaces : list RouterInterface }.

Record LoadBalancer := mkLoadBalancer {
  LoadBalancer_UUID : string; LoadBalancer_Status : string; LoadBalancer_VIPAddresses : list string }.

Record LoadBalancerPool := mkLoadBalancerPool { LoadBalancerPool_UUID : string }.
Record LoadBalancerListener := mkLoadBalancerListener { LoadBalancerListener_UUID : string }.
Record LoadBalancerHealthMonitor := mkLoadBalancerHealthMonitor { LoadBalancerHealthMonitor_UUID : string }.

Record LoadBalancerPoolMember := mkLoadBalancerPoolMember {
  LoadBalancerPoolMember_UUID : string; LoadBalancerPoolMember_Name : string;
  LoadBalancerPoolMember_Address : string; LoadBalancerPoolMember_ProtocolPort : Z;
  LoadBalancerPoolMember_MonitorStatus : string }.

(** [FloatingIP_IP] stands for the SDK's [IP()] method. *)
Record FloatingIP := mkFloatingIP {
  FloatingIP_IP : string; FloatingIP_Region : option string;
  FloatingIP_LoadBalancer : option string; FloatingIP_Server : option string }.

Record ServerGroup := mkServerGroup {
  ServerGroup_UUID : string; ServerGroup_Name : string; ServerGroup_Zone : string;
  ServerGroup_Servers : list string }.

Record ServerInterface := mkServerInterface {
  ServerInterface_Type : string; ServerInterface_Addresses : list string }.

Record Server := mkServer {
  Server_UUID : string; Server_Status : string; Server_Interfaces : list ServerInterface }.

(** ** Requests *)

Record NetworkCreateRequest := mkNetworkCreateRequest {
  NetworkCreateRequest_Name : string; NetworkCreateRequest_AutoCreateIPV4Subnet : bool;
  NetworkCreateRequest_Zone : string; NetworkCreateRequest_Tags : TagMap;
  NetworkCreateRequest_MTU : Z }.

Record SubnetCreateRequest := mkSubnetCreateRequest {
  SubnetCreateRequest_Network : string; SubnetCreateRequest_CIDR : string;
  SubnetCreateRequest_GatewayAddress : string; SubnetCreateRequest_Tags : TagMap }.

Record RouterCreateRequest := mkRouterCreateRequest {
  RouterCreateRequest_Name : string; RouterCreateRequest_InternetGateway : bool;
  RouterCreateRequest_Zone : string; RouterCreateRequest_Tags : TagMap }.

Record CreateInterfaceRequest := mkCreateInterfaceRequest {
  CreateInterfaceRequest_Network : string;
  CreateInterfaceRequest_Addresses : list InterfaceAddress }.

Record LoadBalancerRequest := mkLoadBalancerRequest {
  LoadBalancerRequest_Name : string; LoadBalancerRequest_Flavor : string;
  LoadBalancerRequest_Zone : string; LoadBalancerRequest_Tags : TagMap;
  LoadBalancerRequest_VIPAddresses : option (list string) }.

Record LoadBalancerPoolRequest := mkLoadBalancerPoolRequest {
  LoadBalancerPoolRequest_Name : string; LoadBalancerPoolRequest_LoadBalancer : string;
  LoadBalancerPoolRequest_Algorithm : string; LoadBalancerPoolRequest_Protocol : string;
  LoadBalancerPoolRequest_Tags : TagMap }.

Record LoadBalancerListenerRequest := mkLoadBalancerListenerRequest {
  LoadBalancerListenerRequest_Name : string; LoadBalancerListenerRequest_Pool : string;
  LoadBalancerListenerRequest_Protocol : string; LoadBalancerListenerRequest_ProtocolPort : Z;
  LoadBalancerListenerRequest_Tags : TagMap }.

Record LoadBalancerHealthMonitorRequest := mkLoadBalancerHealthMonitorRequest {
  LoadBalancerHealthMonitorRequest_Pool : string; LoadBalancerHealthMonitorRequest_Type : string;
  LoadBalancerHealthMonitorRequest_DelayS : Z; LoadBalancerHealthMonitorRequest_TimeoutS : Z;
  LoadBalancerHealthMonitorRequest_UpThreshold : Z;
  LoadBalancerHealthMonitorRequest_DownThreshold : Z;
  LoadBalancerHealthMonitorRequest_Tags : TagMap }.

Record LoadBalancerPoolMemberRequest := mkLoadBalancerPoolMemberRequest {
  LoadBalancerPoolMemberRequest_Name : string; LoadBalancerPoolMemberRequest_Subnet : string;
  LoadBalancerPoolMemberRequest_ProtocolPort : Z; LoadBalancerPoolMemberRequest_Address : string;
  LoadBalancerPoolMemberRequest_Tags : option TagMap }.

Record FloatingIPCreateRequest := mkFloatingIPCreateRequest {
  FloatingIPCreateRequest_IPVersion : Z; FloatingIPCreateRequest_Region : string;
  FloatingIPCreateRequest_Tags : TagMap; FloatingIPCreateRequest_LoadBalancer : string;
  FloatingIPCreateRequest_Server : string }.

Record FloatingIPUpdateRequest := mkFloatingIPUpdateRequest {
  FloatingIPUpdateRequest_LoadBalancer : string; FloatingIPUpdateRequest_Server : string }.

Record ServerGroupRequest := mkServerGroupRequest {
  ServerGroupRequest_Name : string; ServerGroupRequest_Type : string;
  ServerGroupRequest_Zone : string; ServerGroupRequest_Tags : TagMap }.

Record ServerRequest := mkServerRequest {
  ServerRequest_Name : string; ServerRequest_Flavor : string; ServerRequest_Image : string;
  ServerRequest_Zone : string; ServerRequest_Tags : TagMap; ServerRequest_UserData : string;
  ServerRequest_Interfaces : list string; ServerRequest_UseIPV6 : option bool;
  ServerRequest_SSHKeys : list string; ServerRequest_VolumeSizeGB : Z;
  ServerRequest_ServerGroups : list string }.

(** ** Services (services.go) and the client (client.go) *)

Section services.
Context (W : Type).

(** The operations every service shares; [List] takes the tag filter, the one
    modifier the program passes. *)
Record Service (Req T : Type) := mkService {
  svc_Create : Req → W → Res T * W;
  svc_Get : string → W → Res T * W;
  svc_List : TagMap → W → Res (list T) * W;
  svc_Delete : string → W → Res unit * W }.

Definition NetworkService := Service NetworkCreateRequest Network.
Definition SubnetService := Service SubnetCreateRequest Subnet.

Record RouterService := mkRouterService {
  router_service : Service RouterCreateRequest Router;
  router_CreateInterface : string → CreateInterfaceRequest → W → Res RouterInterface * W;
  router_DeleteInterface : string → string → W → Res unit * W }.

Definition ServerService := Service ServerRequest Server.
Definition ServerGroupService := Service ServerGroupRequest ServerGroup.
Definition LoadBalancerService := Service LoadBalancerRequest LoadBalancer.
Definition LoadBalancerPoolService := Service LoadBalancerPoolRequest LoadBalancerPool.
Definition LoadBalancerListenerService := Service LoadBalancerListenerRequest LoadBalancerListener.
Definition LoadBalancerHealthMonitorService :=
  Service LoadBalancerHealthMonitorRequest LoadBalancerHealthMonitor.

Record LoadBalancerPoolMemberService := mkLoadBalancerPoolMemberService {
  member_Create : string → LoadBalancerPoolMemberRequest → W → Res LoadBalancerPoolMember * W;
  member_List : string → W → Res (list LoadBalancerPoolMember) * W;
  member_Delete : string → string → W → Res unit * W;
  member_Update : string → string → LoadBalancerPoolMemberRequest → W → Res unit * W }.

Record FloatingIPService := mkFloatingIPService {
  fip_service : Service FloatingIPCreateRequest FloatingIP;
  fip_Update : string → FloatingIPUpdateRequest → W → Res unit * W }.

Record Client := mkClient {
  Networks : NetworkService;
  Subnets : SubnetService;
  Routers : RouterService;
  Servers : ServerService;
  ServerGroups : ServerGroupService;
  LoadBalancers : LoadBalancerService;
  LoadBalancerPools : LoadBalancerPoolService;
  LoadBalancerPoolMembers : LoadBalancerPoolMemberService;
  LoadBalancerListeners : LoadBalancerListenerService;
  LoadBalancerHealthMonitors : LoadBalancerHealthMonitorService;
  FloatingIPs : FloatingIPService }.
End services.

Arguments svc_Create {W Req T} _.
Arguments svc_Get {W Req T} _.
Arguments svc_List {W Req T} _.
Arguments svc_Delete {W Req T} _.
Arguments mkService {W Req T}.
Arguments router_service {W} _.
Arguments router_CreateInterface {W} _.
Arguments router_DeleteInterface {W} _.
Arguments member_Create {W} _.
Arguments member_List {W} _.
Arguments member_Delete {W} _.
Arguments member_Update {W} _.
Arguments fip_service {W} _.
Arguments fip_Update {W} _.
Arguments Networks {W} _.
Arguments Subnets {W} _.
Arguments Routers {W} _.
Arguments Servers {W} _.
Arguments ServerGroups {W} _.
Arguments LoadBalancers {W} _.
Arguments LoadBalancerPools {W} _.
Arguments LoadBalancerPoolMembers {W} _.
Arguments LoadBalancerListeners {W} _.
Arguments LoadBalancerHealthMonitors {W} _.
Arguments FloatingIPs {W} _.

(** ** Classification of API errors (client.go) *)

Definition StatusNotFound : Z := 404.

Definition IsNotFound (e : error) : bool :=
  match as_ErrorResponse e with
  | None => false
  | Some code => (code =? StatusNotFound)%Z
  end.

Definition IsFloatingIPNoPublicInterface (e : error) : bool :=
  Contains (Error e) "does not have a public interface with an IPv4 address".

Definition IsTimeoutError (e : error) : bool :=
  match as_urlError e with
  | Some timeout => timeout
  | None => errors_Is_deadline e
  end.
