(* ===== verification/Platform.v ===== *)
(** * The platform interface, the call log and the scope of a reconcile

    [Platform] is the interface between the controllers and everything they run
    on. The controllers are written and verified against it; the file Sim gives
    an instance with a concrete in-memory world. *)

From S2P Require Export Sdk.

(** ** Cluster API objects, by the fields the program reads *)

(** clusterv1.Cluster *)
Record Cluster := mkCluster {
  Cluster_Name : string;
  Cluster_Namespace : string;
  Cluster_InfrastructureRef_Name : string;
  Cluster_ControlPlaneInitialized : option bool }.

(** clusterv1.Machine *)
Record Machine := mkMachine {
  Machine_Name : string;
  Machine_Namespace : string;
  Machine_Labels : gmap string string;
  Machine_DataSecretName : option string;
  Machine_InfrastructureRef_Kind : string;
  Machine_InfrastructureRef_Name : string }.

Definition ClusterNameLabel : string := "cluster.x-k8s.io/cluster-name".
Definition MachineControlPlaneLabel : string := "cluster.x-k8s.io/control-plane".

(** ** Condition and finalizer helpers of the libraries, with their laws *)

(** sigs.k8s.io/cluster-api/util/conditions: setting a condition replaces the
    one of its type and leaves the others, deleting removes one. *)
Class Conditions := {
  conditions_set : Condition → list Condition → list Condition;
  conditions_get : list Condition → string → option Condition;
  conditions_delete : string → list Condition → list Condition;
  conditions_get_set_eq c cs : conditions_get (conditions_set c cs) (Condition_Type c) = Some c;
  conditions_get_set_ne c cs t :
    t ≠ Condition_Type c → conditions_get (conditions_set c cs) t = conditions_get cs t;
  conditions_get_delete_eq t cs : conditions_get (conditions_delete t cs) t = None;
  conditions_get_delete_ne t t' cs :
    t' ≠ t → conditions_get (conditions_delete t cs) t' = conditions_get cs t' }.

(** controller-runtime/pkg/controller/controllerutil *)
Class Finalizers := {
  ContainsFinalizer : list string → string → bool;
  AddFinalizer : string → list string → list string;
  RemoveFinalizer : string → list string → list string;
  ContainsFinalizer_spec fs f : ContainsFinalizer fs f = true ↔ f ∈ fs;
  AddFinalizer_spec f fs g : g ∈ AddFinalizer f fs ↔ g = f ∨ g ∈ fs;
  RemoveFinalizer_spec f fs g : g ∈ RemoveFinalizer f fs ↔ g ≠ f ∧ g ∈ fs }.

(** ** The call log *)

Inductive Kind :=
  | KNetwork | KSubnet | KRouter | KServer | KServerGroup
  | KLoadBalancer | KPool | KListener | KHealthMonitor | KFloatingIP.

#[export] Instance Kind_eq_dec : EqDecision Kind.
Proof. solve_decision. Defined.

Inductive CreateRequest :=
  | CNetwork (r : NetworkCreateRequest)
  | CSubnet (r : SubnetCreateRequest)
  | CRouter (r : RouterCreateRequest)
  | CServer (r : ServerRequest)
  | CServerGroup (r : ServerGroupRequest)
  | CLoadBalancer (r : LoadBalancerRequest)
  | CPool (r : LoadBalancerPoolRequest)
  | CListener (r : LoadBalancerListenerRequest)
  | CHealthMonitor (r : LoadBalancerHealthMonitorRequest)
  | CFloatingIP (r : FloatingIPCreateRequest).

Definition kind_of (r : CreateRequest) : Kind :=
  match r with
  | CNetwork _ => KNetwork | CSubnet _ => KSubnet | CRouter _ => KRouter
  | CServer _ => KServer | CServerGroup _ => KServerGroup
  | CLoadBalancer _ => KLoadBalancer | CPool _ => KPool | CListener _ => KListener
  | CHealthMonitor _ => KHealthMonitor | CFloatingIP _ => KFloatingIP
  end.

(** One event per call, with its arguments and its answer (the identifiers of
    the resources it returned; the listing of server groups and of pool members
    with all that it returned, as the code picks from it by name). *)
Inductive Event :=
  | EGet (k : Kind) (id : string) (r : Res unit)
  | EList (k : Kind) (tags : TagMap) (r : Res (list string))
  | EGroupList (tags : TagMap) (r : Res (list ServerGroup))
  | ECreate (req : CreateRequest) (r : Res string)
  | EDelete (k : Kind) (id : string) (r : Res unit)
  | EInterfaceCreate (router : string) (req : CreateInterfaceRequest) (r : Res string)
  | EInterfaceDelete (router iface : string) (r : Res unit)
  | EMemberList (pool : string) (r : Res (list LoadBalancerPoolMember))
  | EMemberCreate (pool : string) (req : LoadBalancerPoolMemberRequest) (r : Res string)
  | EMemberUpdate (pool member : string) (req : LoadBalancerPoolMemberRequest) (r : Res unit)
  | EMemberDelete (pool member : string) (r : Res unit)
  | EFloatingIPUpdate (ip : string) (req : FloatingIPUpdateRequest) (r : Res unit)
  | EKubeGet (key : string * string) (r : Res unit)
  | EKubeListMachines (namespace : string) (labels : gmap string string) (r : Res (list string))
  | EPatchCluster (snapshot patched : CloudscaleCluster) (observedGeneration : bool) (r : Res unit)
  | EPatchMachine (snapshot patched : CloudscaleMachine) (observedGeneration : bool) (r : Res unit)
  | ERecorder (etype reason action note : string).

(** A call that can change something at the cloud provider. *)
Definition is_write (e : Event) : bool :=
  match e with
  | ECreate _ _ | EDelete _ _ _ | EInterfaceCreate _ _ _ | EInterfaceDelete _ _ _
  | EMemberCreate _ _ _ | EMemberUpdate _ _ _ _ | EMemberDelete _ _ _
  | EFloatingIPUpdate _ _ _ => true
  | _ => false
  end.

(** A call that destroys something at the cloud provider. *)
Definition is_delete (e : Event) : bool :=
  match e with
  | EDelete _ _ _ | EInterfaceDelete _ _ _ | EMemberDelete _ _ _ => true
  | _ => false
  end.

(** Everything else. *)
Definition is_read (e : Event) : Prop := is_write e = false.

(** Persisting the reconciled object is the business of the outermost function. *)
Definition is_patch (e : Event) : bool :=
  match e with EPatchCluster _ _ _ _ | EPatchMachine _ _ _ _ => true | _ => false end.
Definition quiet (e : Event) : Prop := is_patch e = false.
Definition silent (e : Event) : Prop := is_read e ∧ quiet e.

Lemma silent_quiet evs : Forall silent evs → Forall quiet evs.
Proof. intros H. eapply Forall_impl; [exact H|]. by intros e []. Qed.

Lemma silent_not_write evs e : Forall silent evs → e ∈ evs → is_write e = true → False.
Proof. rewrite Forall_forall. intros H He Hw. destruct (H e He) as [Hr _]. unfold is_read in Hr. congruence. Qed.

(** The writes between two states, in order. *)
Definition wrote {W O} (s s' : St W Event O) (ws : list Event) : Prop :=
  ∃ evs, log s' = log s ++ evs ∧ filter (λ e, is_write e = true) evs = ws.

Lemma wrote_same {W O} (s s' : St W Event O) : log s' = log s → wrote s s' [].
Proof. intros. exists []. by rewrite app_nil_r. Qed.

Lemma wrote_trans {W O} (s s1 s2 : St W Event O) ws1 ws2 :
  wrote s s1 ws1 → wrote s1 s2 ws2 → wrote s s2 (ws1 ++ ws2).
Proof.
  intros (e1 & H1 & <-) (e2 & H2 & <-). exists (e1 ++ e2).
  rewrite filter_app. split; [by rewrite H2, H1, app_assoc|done].
Qed.

Lemma wrote_log {W O} (s s' : St W Event O) evs ws :
  log s' = log s ++ evs → filter (λ e, is_write e = true) evs = ws → wrote s s' ws.
Proof. by exists evs. Qed.

(** A run that only reads wrote nothing. *)
Lemma wrote_reads {W O A} (m : GoM W Event O A) s :
  respects (emits is_read) m → wrote s (exec m s) [].
Proof.
  intros H. destruct (H s) as (evs & He & HF). exists evs. split; [done|].
  clear He. induction HF as [|e evs Hr HF IH]; [done|]. unfold is_read in Hr.
  rewrite filter_cons_False; [done|by rewrite Hr].
Qed.

(** Solves a [wrote] goal whose log is a concrete extension. *)
Ltac solve_wrote :=
  first [ by apply wrote_same
        | eapply wrote_log; [simpl; rewrite <- ?app_assoc; reflexivity|reflexivity] ].

(** ** The platform *)

Class Platform := {
  platform_conditions :: Conditions;
  platform_finalizers :: Finalizers;
  World : Type;
  (** [cloudscalesdk.RouterActive] *)
  RouterActive : string;
  (** the SDK client of a token ([NewClient] wires the SDK's services to it) *)
  NewClient : string → Client World;
  (** controller-runtime's client *)
  kube_GetCloudscaleCluster : string * string → World → Res CloudscaleCluster * World;
  kube_GetCloudscaleMachine : string * string → World → Res CloudscaleMachine * World;
  kube_GetSecret : string * string → World → Res (gmap string string) * World;
  kube_ListCloudscaleMachines :
    string → gmap string string → World → Res (list CloudscaleMachine) * World;
  (** cluster-api/util and util/annotations *)
  util_GetOwnerCluster : ObjectMeta → World → Res (option Cluster) * World;
  util_GetOwnerMachine : ObjectMeta → World → Res (option Machine) * World;
  util_GetClusterFromMetadata : Machine → World → Res Cluster * World;
  annotations_IsPaused : Cluster → ObjectMeta → bool;
  (** patch.NewHelper, which may refuse an object, and Helper.Patch: the snapshot,
      the object, WithStatusObservedGeneration *)
  patch_NewClusterHelper : CloudscaleCluster → Res unit;
  patch_NewMachineHelper : CloudscaleMachine → Res unit;
  patch_Cluster : CloudscaleCluster → CloudscaleCluster → bool → World → Res unit * World;
  patch_Machine : CloudscaleMachine → CloudscaleMachine → bool → World → Res unit * World }.

(** What a controller's theorems speak about: [M A] for the cluster controller
    and [MM A] for the machine controller. *)
Abbreviation CM := (GoM World Event CloudscaleCluster).
Abbreviation MM := (GoM World Event CloudscaleMachine).
Abbreviation CState := (St World Event CloudscaleCluster).
Abbreviation MState := (St World Event CloudscaleMachine).

(** ** Logged calls *)

Section calls.
Context `{P : Platform} {O : Type}.
Abbreviation M := (GoM World Event O).

Section generic.
Context {Req T : Type} (k : Kind) (svc : Service World Req T).

Definition sdk_Get (id : string) : M T :=
  call (svc_Get svc id) (λ r, EGet k id (void r)).
Definition sdk_List (uuid : T → string) (tags : TagMap) : M (list T) :=
  call (svc_List svc tags) (λ r, EList k tags (res_map (map uuid) r)).
Definition sdk_Create (mk : Req → CreateRequest) (uuid : T → string) (req : Req) : M T :=
  call (svc_Create svc req) (λ r, ECreate (mk req) (res_map uuid r)).
Definition sdk_Delete (id : string) : M unit :=
  call (svc_Delete svc id) (λ r, EDelete k id r).
End generic.

(** The listing of server groups. *)
Definition sdk_ListGroups {Req} (svc : Service World Req ServerGroup) (tags : TagMap) : M (list ServerGroup) :=
  call (svc_List svc tags) (λ r, EGroupList tags r).

(** [client.List] of CloudscaleMachines in a namespace with matching labels *)
Definition listMachines (ns : string) (labels : gmap string string) : M (list CloudscaleMachine) :=
  call (kube_ListCloudscaleMachines ns labels)
    (λ r, EKubeListMachines ns labels
            (res_map (map (λ m, ObjectMeta_Name (CloudscaleMachine_Meta m))) r)).

(** [recorder.Eventf] *)
Definition Eventf (etype reason action note : string) : M unit :=
  emit (ERecorder etype reason action note).
End calls.

(** The provider confirmed that a resource is gone: a deletion succeeded or
    found nothing. *)
Definition confirmed_deleted (k : Kind) (id : string) (evs : list Event) : Prop :=
  ∃ r, EDelete k id r ∈ evs ∧ match r with Ok _ => True | Err e => IsNotFound e = true end.

(** ** The scope of a cluster reconcile (scope/cluster.go)

    The mutable [CloudscaleCluster] is the state of the monad; the scope holds
    the rest. *)

Record ClusterScope `{P : Platform} := mkClusterScope {
  scope_Cluster : Cluster;
  scope_Client : Client World }.

Definition ClusterScope_Name `{P : Platform} (s : ClusterScope) : string :=
  Cluster_Name (scope_Cluster s).
Definition ClusterScope_Namespace `{P : Platform} (s : ClusterScope) : string :=
  Cluster_Namespace (scope_Cluster s).

(** ** Conditions on the cluster object (cloudscalecluster_controller.go) *)

Section conditions.
Context `{P : Platform}.

Definition conditionOf (c : CloudscaleCluster) (t : string) : option Condition :=
  conditions_get (GetConditions c) t.

(** [conditions.IsTrue] *)
Definition IsTrue (c : CloudscaleCluster) (t : string) : bool :=
  match conditionOf c t with
  | Some cond => bool_decide (Condition_Status cond = ConditionTrue)
  | None => false
  end.

Definition setCondition (condType : string) (st : ConditionStatus) (reason message : string)
    (c : CloudscaleCluster) : CloudscaleCluster :=
  SetConditions (conditions_set (mkCondition condType st reason message) (GetConditions c)) c.

Lemma conditionOf_set_eq t st rs msg c :
  conditionOf (setCondition t st rs msg c) t = Some (mkCondition t st rs msg).
Proof. apply (conditions_get_set_eq (mkCondition t st rs msg)). Qed.

Lemma conditionOf_set_ne t t' st rs msg c :
  t' ≠ t → conditionOf (setCondition t st rs msg c) t' = conditionOf c t'.
Proof. intros. by apply (conditions_get_set_ne (mkCondition t st rs msg)). Qed.

Lemma IsTrue_spec c t :
  IsTrue c t = true ↔ ∃ cond, conditionOf c t = Some cond ∧ Condition_Status cond = ConditionTrue.
Proof.
  unfold IsTrue. destruct (conditionOf c t) as [cond|].
  - rewrite bool_decide_eq_true. split; [by eauto|]. by intros (? & [= <-] & ?).
  - split; [done|]. by intros (? & ? & _).
Qed.
End conditions.

(** ** Ownership tags (cloudscale_tags.go) *)

Definition clusterOwnershipTags (c : CloudscaleCluster) : TagMap :=
  {[ ClusterTagKey c := ResourceLifecycleOwned ]}.
