(* ===== verification/Scope.v ===== *)
(** * Credentials and scopes (src/internal/credentials, src/internal/scope)

    How a reconcile gets its token and its scope, and the patch that closes it. *)

From S2P Require Export Platform.

Section scope.
Context `{P : Platform} {O : Type}.
Abbreviation M := (GoM World Event O).

(** ** credentials.go *)

Definition TokenKey : string := "token".

(** The secret's name and namespace, and the namespace used when that is empty. *)
Definition GetToken (secretRef : string * string) (clusterNamespace : string) : M string :=
  let namespace := if snd secretRef == "" then clusterNamespace else snd secretRef in
  let name := fst secretRef in
  let at_secret := namespace +:+ "/" +:+ name in
  let! data := wrap ("failed to get credentials secret " +:+ at_secret +:+ ": ")
                 (call (kube_GetSecret (name, namespace)) (λ r, EKubeGet (name, namespace) (void r))) in
  match data !! TokenKey with
  | None => throw (errorString ("secret " +:+ at_secret +:+ " does not contain key " +:+ quote TokenKey))
  | Some token =>
      if token == "" then throw (errorString ("secret " +:+ at_secret +:+ " has empty token"))
      else ret token
  end.

(** ** scope/cluster.go: the helper is created from the object, which is the
    snapshot of the later patch. The nil checks of the parameters cannot fail
    here: the parameters are values. *)

Definition NewClusterScope (cluster : Cluster) (client : Client World) (c : CloudscaleCluster)
    : M ClusterScope :=
  match patch_NewClusterHelper c with
  | Err e => throw (wrapError "failed to init patch helper: " e)
  | Ok _ => ret (mkClusterScope _ cluster client)
  end.

Definition ClusterScope_Close (snapshot c : CloudscaleCluster) (observedGeneration : bool) : M unit :=
  call (patch_Cluster snapshot c observedGeneration)
    (λ r, EPatchCluster snapshot c observedGeneration r).

(** ** scope/machine.go *)

Record MachineScope := mkMachineScope {
  mscope_Cluster : Cluster;
  mscope_Machine : Machine;
  mscope_CloudscaleCluster : CloudscaleCluster;
  mscope_Client : Client World }.

Definition NewMachineScope (cluster : Cluster) (machine : Machine) (cc : CloudscaleCluster)
    (client : Client World) (m : CloudscaleMachine) : M MachineScope :=
  match patch_NewMachineHelper m with
  | Err e => throw (wrapError "failed to init patch helper: " e)
  | Ok _ => ret (mkMachineScope cluster machine cc client)
  end.

Definition MachineScope_Close (snapshot m : CloudscaleMachine) (observedGeneration : bool) : M unit :=
  call (patch_Machine snapshot m observedGeneration)
    (λ r, EPatchMachine snapshot m observedGeneration r).

Definition IsControlPlane (ms : MachineScope) : bool :=
  match Machine_Labels (mscope_Machine ms) !! MachineControlPlaneLabel with
  | Some _ => true
  | None => false
  end.

Definition GetBootstrapData (ms : MachineScope) : M string :=
  match Machine_DataSecretName (mscope_Machine ms) with
  | None => throw (errorString "bootstrap data secret name is nil")
  | Some name =>
      let key := (name, Machine_Namespace (mscope_Machine ms)) in
      let! data := wrap "getting bootstrap data secret: "
                     (call (kube_GetSecret key) (λ r, EKubeGet key (void r))) in
      match data !! "value" with
      | None => throw (errorString "bootstrap data secret missing 'value' key")
      | Some value => ret value
      end
  end.

Lemma GetToken_reads ref ns : respects (emits is_read) (GetToken ref ns).
Proof. unfold GetToken. by frame. Qed.
Lemma GetToken_silent ref ns : respects (emits silent) (GetToken ref ns).
Proof. unfold GetToken. by frame. Qed.
Lemma GetToken_keeps {B} (f : O → B) ref ns : respects (keeps f) (GetToken ref ns).
Proof. unfold GetToken. by frame. Qed.

Lemma GetToken_nonempty ref ns s tok : result (GetToken ref ns) s = Ok tok → tok ≠ "".
Proof.
  unfold GetToken. go_run. destruct (kube_GetSecret _ _) as [[data|e] w]; simpl; [|done].
  destruct (data !! TokenKey) as [t|]; simpl; [|done].
  case_bool_decide; simpl; [done|]. by intros [= <-].
Qed.
End scope.

#[export] Hint Resolve GetToken_reads GetToken_keeps : gom.
