(* ===== verification/Ensure.v ===== *)
(** * Finding or adopting a resource (src/internal/controller/cloudscale_services.go)

    [ensureResource] is how every managed resource is looked up: by the
    identifier in status, then by ownership tag. The abstract specification
    [ensured] says what each answer means in terms of the calls made; the second
    half derives the property the controllers depend on, that a resource is
    created only when the provider has none with its tags. *)

From S2P Require Export Platform.

Section ensure.
Context `{P : Platform} {O : Type}.
Context {Req T : Type} (k : Kind) (svc : Service World Req T) (extractUUID : T → string).
Abbreviation M := (GoM World Event O).

Definition listByTag (resourceName : string) (tags : TagMap) : M (option T * string) :=
  let! items := wrap ("listing " +:+ resourceName +:+ "s: ") (sdk_List k svc extractUUID tags) in
  match items with
  | [] => ret (None, "")
  | [item] => ret (Some item, extractUUID item)
  | _ =>
      throw (errorString ("found " +:+ itoa (Z.of_nat (length items)) +:+ " " +:+ resourceName
                          +:+ "s matching tag filter, expected at most 1"))
  end.

Definition ensureResource (currentID resourceName : string) (tags : TagMap)
    : M (option T * string) :=
  if currentID != "" then
    let! r := try (sdk_Get k svc currentID) in
    match r with
    | Ok resource => ret (Some resource, currentID)
    | Err e =>
        if negb (IsNotFound e) then throw (wrapError ("getting " +:+ resourceName +:+ ": ") e)
        else listByTag resourceName tags
    end
  else listByTag resourceName tags.

(** ** Abstract specification *)

(** The calls made before the lookup by tag: none when no identifier is
    recorded, otherwise a read that said "not found". *)
Definition not_found_by_id (currentID : string) (pre : list Event) : Prop :=
  (currentID = "" ∧ pre = []) ∨
  (currentID ≠ "" ∧ ∃ e, IsNotFound e = true ∧ pre = [EGet k currentID (Err e)]).

Inductive ensured (currentID : string) (tags : TagMap)
    : list Event → Res (option T * string) → Prop :=
  | ensured_by_id x :
      currentID ≠ "" →
      ensured currentID tags [EGet k currentID (Ok ())] (Ok (Some x, currentID))
  | ensured_by_tag pre x :
      not_found_by_id currentID pre →
      ensured currentID tags (pre ++ [EList k tags (Ok [extractUUID x])])
        (Ok (Some x, extractUUID x))
  | ensured_absent pre :
      not_found_by_id currentID pre →
      ensured currentID tags (pre ++ [EList k tags (Ok [])]) (Ok (None, ""))
  | ensured_read_error e msg :
      currentID ≠ "" → IsNotFound e = false →
      ensured currentID tags [EGet k currentID (Err e)] (Err (wrapError msg e))
  | ensured_list_error pre e msg :
      not_found_by_id currentID pre →
      ensured currentID tags (pre ++ [EList k tags (Err e)]) (Err (wrapError msg e))
  | ensured_ambiguous pre ids msg :
      not_found_by_id currentID pre → 1 < length ids →
      ensured currentID tags (pre ++ [EList k tags (Ok ids)]) (Err (errorString msg)).

Lemma listByTag_ensured currentID pre name tags (s0 s : St World Event O) :
  obj s = obj s0 → log s = log s0 ++ pre → not_found_by_id currentID pre →
  obj (exec (listByTag name tags) s) = obj s0 ∧
  ∃ evs, log (exec (listByTag name tags) s) = log s0 ++ evs ∧
         ensured currentID tags evs (result (listByTag name tags) s).
Proof.
  intros Ho Hl Hpre.
  unfold listByTag, exec, result, sdk_List, bind, wrap, call.
  destruct (svc_List svc tags (world s)) as [[items|e] w]; simpl.
  - destruct items as [|x [|y items]]; simpl; (split; [done|]);
      eexists; (split; [by rewrite Hl, <- app_assoc|]); eauto using ensured.
    apply ensured_ambiguous; [done|]. simpl. lia.
  - split; [done|]. eexists; split; [by rewrite Hl, <- app_assoc|]. by constructor.
Qed.

Lemma ensureResource_ensured currentID name tags :
  post (ensureResource currentID name tags) (λ s r s',
    obj s' = obj s ∧
    ∃ evs, log s' = log s ++ evs ∧ ensured currentID tags evs r).
Proof.
  intros s. unfold ensureResource. case_bool_decide as Hid; simpl.
  - apply (listByTag_ensured currentID []); [done|by rewrite app_nil_r|by left].
  - unfold exec, result, sdk_Get, bind, try, call.
    destruct (svc_Get svc currentID (world s)) as [[x|e] w]; simpl.
    { split; [done|]. eexists; split; [done|]. by constructor. }
    destruct (IsNotFound e) eqn:E; simpl.
    + apply (listByTag_ensured currentID [EGet k currentID (Err e)]); [done..|].
      right. eauto.
    + split; [done|]. eexists; split; [done|]. by constructor.
Qed.

(** A nil resource comes only with an empty identifier. *)
Lemma ensured_nonempty currentID tags evs o id :
  ensured currentID tags evs (Ok (o, id)) → id ≠ "" → is_Some o.
Proof. inversion 1; subst; eauto; done. Qed.

(** What holds of every resource the service returns holds of the result. *)
Lemma ensureResource_returns (φ : T → Prop) currentID name tags s x id s' :
  (∀ id w x w', svc_Get svc id w = (Ok x, w') → φ x) →
  (∀ tags w l w', svc_List svc tags w = (Ok l, w') → ∀ x, x ∈ l → φ x) →
  ensureResource currentID name tags s = (Ok (Some x, id), s') → φ x.
Proof.
  intros Hg Hl. assert (∀ s, listByTag name tags s = (Ok (Some x, id), s') → φ x) as Hlist.
  { intros s1. unfold listByTag, sdk_List, bind, wrap, call, ret, throw.
    destruct (svc_List svc tags (world s1)) as [[[|y [|z items]]|e] w] eqn:E; simpl;
      intros; simplify_eq/=. eapply Hl; [done|by left]. }
  unfold ensureResource. case_bool_decide; simpl; [by apply Hlist|].
  unfold sdk_Get, bind, try, call, ret, throw.
  destruct (svc_Get svc currentID (world s)) as [[y|e] w] eqn:E; simpl.
  - intros; simplify_eq. by eapply Hg.
  - destruct (IsNotFound e); simpl; [by apply Hlist|done].
Qed.

Lemma ensureResource_reads (φ : Event → Prop) currentID name tags :
  (∀ r, φ (EGet k currentID r)) → (∀ r, φ (EList k tags r)) →
  respects (emits φ) (ensureResource currentID name tags).
Proof.
  intros Hg Hl. unfold ensureResource, listByTag, sdk_Get, sdk_List. frame; auto.
Qed.

Lemma ensureResource_keeps {B} (f : O → B) currentID name tags :
  respects (keeps f) (ensureResource currentID name tags).
Proof. unfold ensureResource, listByTag, sdk_Get, sdk_List. frame. Qed.

Lemma ensureResource_reads_only currentID name tags :
  respects (emits is_read) (ensureResource currentID name tags).
Proof. by apply ensureResource_reads. Qed.

(** ** What a service promises about tags

    [live w] are the resources of this kind that exist in world [w], with
    their tags. Reads do not change them; a listing that succeeds returns
    exactly the ones that carry the filter's tags; a creation adds at most one
    resource, with the tags of its request, even when the answer is lost. *)
Class TaggedService (reqTags : Req → TagMap) := {
  live : World → list (T * TagMap);
  live_get id w : live (snd (svc_Get svc id w)) = live w;
  live_list tags w : live (snd (svc_List svc tags w)) = live w;
  live_list_ok tags w items :
    fst (svc_List svc tags w) = Ok items →
    items ≡ₚ (filter (λ xt, tags ⊆ snd xt) (live w)).*1;
  live_create req w :
    live (snd (svc_Create svc req w)) ≡ₚ live w ∨
    ∃ x, live (snd (svc_Create svc req w)) ≡ₚ (x, reqTags req) :: live w;
  live_uuid w x t : (x, t) ∈ live w → extractUUID x ≠ "" }.

Section tagged.
Context {reqTags : Req → TagMap} {HS : TaggedService reqTags}.

(** The number of existing resources that carry the tags. *)
Definition owned (tags : TagMap) (w : World) : nat :=
  length (filter (λ xt, tags ⊆ snd xt) (live w)).

Lemma owned_create tags req w :
  owned tags (snd (svc_Create svc req w)) ≤ S (owned tags w).
Proof.
  unfold owned. destruct (live_create req w) as [->|[x ->]]; [lia|].
  rewrite filter_cons. case_decide; simpl; lia.
Qed.

Lemma owned_listByTag name tags s :
  let w := world s in
  world (exec (listByTag name tags) s) = snd (svc_List svc tags w) ∧
  (∀ o, result (listByTag name tags) s = Ok (o, "") → owned tags w = 0).
Proof.
  unfold listByTag, exec, result, sdk_List, bind, wrap, call.
  pose proof (live_list_ok tags (world s)) as Hok.
  pose proof (live_uuid (world s)) as Huuid.
  destruct (svc_List svc tags (world s)) as [[items|e] w']; simpl in *; [|done].
  specialize (Hok _ eq_refl).
  destruct items as [|x [|y items]]; simpl; split; try done.
  - intros o _. apply Permutation_nil_l in Hok.
    unfold owned. by destruct (filter _ _).
  - intros o Ho. simplify_eq.
    assert (x ∈ (filter (λ xt, tags ⊆ snd xt) (live (world s))).*1) as Hx.
    { rewrite <- Hok. by left. }
    apply list_elem_of_fmap in Hx as ([x' t] & -> & [_ Hx]%list_elem_of_filter).
    by destruct (Huuid _ _ Hx).
Qed.

(** When the caller is told to create, the provider has no such resource. *)
Lemma ensureResource_absent_owned currentID name tags s o :
  result (ensureResource currentID name tags) s = Ok (o, "") →
  owned tags (world (exec (ensureResource currentID name tags) s)) = 0.
Proof.
  unfold ensureResource. case_bool_decide as Hid; simpl.
  - intros Hr. destruct (owned_listByTag name tags s) as [Hw H0].
    rewrite Hw. unfold owned. rewrite live_list. eapply H0, Hr.
  - unfold exec, result, sdk_Get, bind, try, call.
    pose proof (live_get currentID (world s)) as Hg.
    destruct (svc_Get svc currentID (world s)) as [[x|e] w]; simpl in *; [intros; simplify_eq|].
    destruct (IsNotFound e); simpl; [|done].
    intros Hr. edestruct (owned_listByTag name tags) as [Hw H0].
    unfold exec in Hw. rewrite Hw. unfold owned. rewrite live_list.
    eapply H0, Hr.
Qed.

Lemma ensureResource_live currentID name tags s :
  live (world (exec (ensureResource currentID name tags) s)) = live (world s).
Proof.
  unfold ensureResource. case_bool_decide as Hid; simpl.
  - destruct (owned_listByTag name tags s) as [Hw _]. rewrite Hw. apply live_list.
  - unfold exec, sdk_Get, bind, try, call.
    pose proof (live_get currentID (world s)) as Hg.
    destruct (svc_Get svc currentID (world s)) as [[x|e] w]; simpl in *; [done|].
    destruct (IsNotFound e); simpl; [|done].
    edestruct (owned_listByTag name tags) as [Hw _].
    unfold exec in Hw. rewrite Hw, live_list. done.
Qed.

(** *** Another service that leaves the tags of these resources alone

    The resources themselves may change: a network shows its subnets. *)

Definition live_tags (w : World) : list TagMap := (live w).*2.

Lemma owned_live_tags tags w : owned tags w = length (filter (λ t, tags ⊆ t) (live_tags w)).
Proof.
  unfold owned, live_tags. induction (live w) as [|[x t] l IH]; [done|]. csimpl.
  rewrite !filter_cons. simpl. case_decide; simpl; [by f_equal|done].
Qed.

Class Untouched {Req' T'} (svc' : Service World Req' T') := {
  untouched_create req w : live_tags (snd (svc_Create svc' req w)) = live_tags w;
  untouched_get id w : live_tags (snd (svc_Get svc' id w)) = live_tags w;
  untouched_list tags w : live_tags (snd (svc_List svc' tags w)) = live_tags w }.

Section untouched.
Context {Req' T'} (svc' : Service World Req' T') {HU : Untouched svc'}.

Lemma wkeeps_sdk_Create mk uuid req : respects (wkeeps live_tags) (sdk_Create (O:=O) svc' mk uuid req).
Proof. apply wkeeps_call, untouched_create. Qed.
Lemma wkeeps_sdk_Get kd id : respects (wkeeps live_tags) (sdk_Get (O:=O) kd svc' id).
Proof. apply wkeeps_call, untouched_get. Qed.
Lemma wkeeps_sdk_List kd uuid tags : respects (wkeeps live_tags) (sdk_List (O:=O) kd svc' uuid tags).
Proof. apply wkeeps_call, untouched_list. Qed.
End untouched.

(** *** Counting creations: [m] adds at most [n] resources with these tags *)

Definition adds {A} (tags : TagMap) (n : nat) (m : M A) : Prop :=
  ∀ s, owned tags (world (exec m s)) ≤ n + owned tags (world s).

Lemma adds_none {A} tags (m : M A) : respects (wkeeps live_tags) m → adds tags 0 m.
Proof. intros Hm s. specialize (Hm s). unfold wkeeps in Hm. by rewrite !owned_live_tags, Hm. Qed.

Lemma adds_create tags mk uuid req : adds tags 1 (sdk_Create svc mk uuid req).
Proof.
  intros s. unfold exec, sdk_Create, call. pose proof (owned_create tags req (world s)).
  by destruct (svc_Create svc req (world s)).
Qed.

Lemma adds_bind {A B} tags n1 n2 n (m : M A) (c : A → M B) :
  adds tags n1 m → (∀ a, adds tags n2 (c a)) → n1 + n2 ≤ n → adds tags n (bind m c).
Proof.
  intros Hm Hc Hn s. specialize (Hm s). unfold exec, bind in *.
  destruct (m s) as [[a|e] s1]; simpl in *; [|lia].
  specialize (Hc a s1). unfold exec in Hc. lia.
Qed.

Lemma adds_try {A} tags n (m : M A) : adds tags n m → adds tags n (try m).
Proof. intros Hm s. specialize (Hm s). unfold exec, try in *. by destruct (m s). Qed.

(** Look up, and create only when told to: never a second resource. *)
Lemma ensure_create_owned {B} currentID name tags (c : option T * string → M B) s :
  (∀ o id, id ≠ "" → adds tags 0 (c (o, id))) → (∀ o, adds tags 1 (c (o, ""))) →
  owned tags (world s) ≤ 1 →
  owned tags (world (exec (bind (ensureResource currentID name tags) c) s)) ≤ 1.
Proof.
  intros Hid Hnew Hs.
  pose proof (ensureResource_absent_owned currentID name tags s) as H0.
  pose proof (ensureResource_live currentID name tags s) as Hl.
  unfold exec, result, bind in *.
  destruct (ensureResource currentID name tags s) as [[[o id]|e] s1]; simpl in *.
  - destruct (decide (id = "")) as [->|Hne].
    + specialize (H0 _ eq_refl). specialize (Hnew o s1). unfold exec in Hnew. lia.
    + specialize (Hid o id Hne s1). unfold exec in Hid.
      unfold owned in *. rewrite Hl in Hid. lia.
  - unfold owned in *. by rewrite Hl.
Qed.
End tagged.
End ensure.

(** Looking up a resource of another service. *)
Lemma ensureResource_untouched `{P : Platform} {O Req T Req' T'} (svc : Service World Req T)
    (uuid : T → string) (reqTags : Req → TagMap) `{HS : !TaggedService svc uuid reqTags}
    (svc' : Service World Req' T') `{HU : !Untouched svc uuid svc'}
    k uuid' currentID name tags :
  respects (wkeeps (live_tags svc uuid)) (ensureResource (O:=O) k svc' uuid' currentID name tags).
Proof.
  unfold ensureResource, listByTag.
  frame; eauto using wkeeps_sdk_Get, wkeeps_sdk_List.
Qed.

#[export] Hint Resolve ensureResource_keeps ensureResource_reads_only : gom.
