(* ===== verification/NetworkCtl.v ===== *)
(** * Networks (src/internal/controller/cloudscalecluster_network.go)

    Provisioning and deletion of the cluster's private networks and subnets. *)

From S2P Require Export Ensure.

Section network.
Context `{P : Platform}.
Implicit Types (sc : ClusterScope) (c : CloudscaleCluster).

Definition createNetworkTimeoutRequeueAfter : Result := requeue 5.

Definition networkTags sc (networkName : string) : TagMap :=
  {[ NameCloudscaleProviderOwned +:+ Cluster_Name (scope_Cluster sc) := networkName ]}.

(** Update the entry of that name, or append one. An update leaves the gateway
    address of the entry as it is. *)
Definition setNetworkStatus (name networkID subnetID cidr : string) (managed : bool) (mtu : Z) c
    : CloudscaleCluster :=
  upd_status (λ st,
    set_CloudscaleClusterStatus_Networks
      (upsert_by NetworkStatus_Name name
         (λ ns, mkNetworkStatus (NetworkStatus_Name ns) networkID subnetID cidr mtu managed
                  (NetworkStatus_GatewayAddress ns))
         (mkNetworkStatus name networkID subnetID cidr mtu managed "")
         (CloudscaleClusterStatus_Networks st)) st) c.

(** Discovered once: later reconciles stop at the recorded identifiers. *)
Definition networkDiscovered (ns : option NetworkStatus) : bool :=
  match ns with
  | Some ns =>
      (NetworkStatus_NetworkID ns != "") && (NetworkStatus_SubnetID ns != "") &&
      (NetworkStatus_CIDR ns != "")
  | None => false
  end.

Definition reconcilePreExistingNetwork sc (netSpec : NetworkSpec) : CM unit :=
  let! c := get in
  let uuid := NetworkSpec_UUID netSpec in
  if networkDiscovered (GetNetworkStatus (status c) (NetworkSpec_Name netSpec)) then ret ()
  else
    let! network := wrap ("getting pre-existing network " +:+ uuid +:+ ": ")
                      (sdk_Get KNetwork (Networks (scope_Client sc)) uuid) in
    if Network_Zone network != CloudscaleClusterSpec_Zone (spec c) then
      throw (errorString ("pre-existing network " +:+ uuid +:+ " is in zone "
               +:+ quote (Network_Zone network) +:+ ", expected zone "
               +:+ quote (CloudscaleClusterSpec_Zone (spec c))))
    else
      match Network_Subnets network with
      | [] => throw (errorString ("pre-existing network " +:+ uuid +:+ " has no subnets"))
      | subnet :: _ =>
          modify (setNetworkStatus (NetworkSpec_Name netSpec) (Network_UUID network)
                    (SubnetStub_UUID subnet) (SubnetStub_CIDR subnet) false (Network_MTU network))
      end.

(** The creation branch of [reconcileManagedNetwork] for the network: on a
    timeout the function returns with a requeue. *)
Definition createNetwork sc (netSpec : NetworkSpec) (tags : TagMap)
    : CM (flow (option Network * string)) :=
  let! c := get in
  let zone := CloudscaleClusterSpec_Zone (spec c) in
  let req := mkNetworkCreateRequest (NetworkSpec_Name netSpec) false zone tags
               (if (NetworkSpec_MTU netSpec >? 0)%Z then NetworkSpec_MTU netSpec else 0) in
  let! r := try (sdk_Create (Networks (scope_Client sc)) CNetwork Network_UUID req) in
  match r with
  | Err e =>
      if IsTimeoutError e then ret (Return createNetworkTimeoutRequeueAfter)
      else throw (wrapError "creating network: " e)
  | Ok network =>
      Eventf "Normal" "NetworkCreated" "CreateNetwork"
        ("Created network " +:+ NetworkSpec_Name netSpec +:+ " (" +:+ Network_UUID network
         +:+ ") in zone " +:+ zone) ;;!
      ret (Next (Some network, Network_UUID network))
  end.

(** The creation branch for the subnet. *)
Definition createSubnet sc (netSpec : NetworkSpec) (networkID : string) (tags : TagMap)
    : CM (flow string) :=
  let req := mkSubnetCreateRequest networkID (NetworkSpec_CIDR netSpec)
               (NetworkSpec_GatewayAddress netSpec) tags in
  let! r := try (sdk_Create (Subnets (scope_Client sc)) CSubnet Subnet_UUID req) in
  match r with
  | Err e =>
      if IsTimeoutError e then ret (Return createNetworkTimeoutRequeueAfter)
      else throw (wrapError "creating subnet: " e)
  | Ok subnet =>
      Eventf "Normal" "SubnetCreated" "CreateSubnet"
        ("Created subnet " +:+ NetworkSpec_Name netSpec +:+ " (" +:+ Subnet_UUID subnet
         +:+ ") with CIDR " +:+ NetworkSpec_CIDR netSpec) ;;!
      ret (Next (Subnet_UUID subnet))
  end.

Definition reconcileManagedNetwork sc (netSpec : NetworkSpec) : CM Result :=
  let! c := get in
  let name := NetworkSpec_Name netSpec in
  let ns := GetNetworkStatus (status c) name in
  let networkID := match ns with Some ns => NetworkStatus_NetworkID ns | None => "" end in
  let tags := networkTags sc name in
  let! (network, resolvedNetworkID) :=
    ensureResource KNetwork (Networks (scope_Client sc)) Network_UUID
      networkID ("network/" +:+ name) tags in
  let? (network, resolvedNetworkID) :=
    (if resolvedNetworkID == "" then createNetwork sc netSpec tags
     else ret (Next (network, resolvedNetworkID))) in
  let subnetID := match ns with Some ns => NetworkStatus_SubnetID ns | None => "" end in
  let! (_, resolvedSubnetID) :=
    ensureResource KSubnet (Subnets (scope_Client sc)) Subnet_UUID
      subnetID ("subnet/" +:+ name) tags in
  let? resolvedSubnetID :=
    (if resolvedSubnetID == "" then createSubnet sc netSpec resolvedNetworkID tags
     else ret (Next resolvedSubnetID)) in
  let! network := deref network in
  modify (setNetworkStatus name resolvedNetworkID resolvedSubnetID
            (NetworkSpec_CIDR netSpec) true (Network_MTU network)) ;;!
  ret emptyResult.

(** One turn of the provisioning loop. *)
Definition reconcileOneNetwork sc (netSpec : NetworkSpec) : CM (flow unit) :=
  if NetworkSpec_UUID netSpec != "" then
    wrap ("reconciling pre-existing network " +:+ quote (NetworkSpec_Name netSpec) +:+ ": ")
      (reconcilePreExistingNetwork sc netSpec) ;;!
    ret (Next ())
  else
    returning
      (wrap ("reconciling managed network " +:+ quote (NetworkSpec_Name netSpec) +:+ ": ")
         (reconcileManagedNetwork sc netSpec)).

(** The body of [reconcileNetwork], without its deferred condition. *)
Definition reconcileNetworks sc : CM Result :=
  let! c := get in
  match CloudscaleClusterSpec_Networks (spec c) with
  | [] => throw (errorString "no networks defined in spec")
  | networks =>
      let? _ := foreach networks (reconcileOneNetwork sc) in
      ret emptyResult
  end.

Definition reconcileNetwork sc : CM Result :=
  deferred (λ r, match r with
                 | Err e => setCondition NetworkReadyCondition ConditionFalse NetworkErrorReason (Error e)
                 | Ok _ => setCondition NetworkReadyCondition ConditionTrue NetworkProvisionedReason ""
                 end)
    (reconcileNetworks sc).

Definition isLBPoolMembersError (e : error) : bool :=
  Contains (Error e) "load balancer pool members".

(** One turn of the deletion loop: the networks to keep in status and the
    errors so far. *)
Definition deleteNetworkStep sc (acc : list NetworkStatus * list error) (ns : NetworkStatus)
    : CM (list NetworkStatus * list error) :=
  let (remaining, errs) := acc in
  let deleted :=
    Eventf "Normal" "NetworkDeleted" "DeleteNetwork"
      ("Deleted network " +:+ NetworkStatus_Name ns +:+ " (" +:+ NetworkStatus_NetworkID ns +:+ ")") ;;!
    ret (remaining, errs) in
  if negb (NetworkStatus_Managed ns) then ret (remaining ++ [ns], errs)
  else if NetworkStatus_NetworkID ns == "" then ret (remaining, errs)
  else
    let! r := try (sdk_Delete KNetwork (Networks (scope_Client sc)) (NetworkStatus_NetworkID ns)) in
    match r with
    | Ok _ => deleted
    | Err e =>
        if isLBPoolMembersError e then throw (sentinel errNetworkNotReady)
        else if negb (IsNotFound e) then
          ret (remaining ++ [ns],
               errs ++ [wrapError ("deleting network " +:+ NetworkStatus_Name ns +:+ ": ") e])
        else deleted
    end.

Definition deleteNetworks sc : CM unit :=
  let! c := get in
  let! (remaining, errs) :=
    foldM (deleteNetworkStep sc) (CloudscaleClusterStatus_Networks (status c)) ([], []) in
  modify (upd_status (set_CloudscaleClusterStatus_Networks remaining)) ;;!
  of_res (errors_Join errs).

Definition deleteNetwork sc : CM unit :=
  deferred (λ r, match r with
                 | Err e => setCondition NetworkReadyCondition ConditionFalse NetworkErrorReason
                              ("Failed to delete network: " +:+ Error e)
                 | Ok _ => setCondition NetworkReadyCondition ConditionFalse NetworkDeletingReason
                             "Networks have been deleted"
                 end)
    (deleteNetworks sc).
End network.

(** ** Provisioning *)

Section network_provisioning.
Context `{P : Platform}.
Implicit Types (sc : ClusterScope) (s : CState).

(** The SDK's identifiers are never empty. *)
Class NetworkIDs (cl : Client World) := {
  network_get_id id w x w' :
    svc_Get (Networks cl) id w = (Ok x, w') →
    Network_UUID x ≠ "" ∧ ∀ sn, sn ∈ Network_Subnets x → SubnetStub_UUID sn ≠ "";
  network_create_id req w x w' : svc_Create (Networks cl) req w = (Ok x, w') → Network_UUID x ≠ "";
  subnet_create_id req w x w' : svc_Create (Subnets cl) req w = (Ok x, w') → Subnet_UUID x ≠ "" }.

(** A network is provisioned when its status entry has both identifiers. *)
Definition provisioned_network (c : CloudscaleCluster) (name : string) : Prop :=
  ∃ ns, GetNetworkStatus (status c) name = Some ns ∧
        NetworkStatus_NetworkID ns ≠ "" ∧ NetworkStatus_SubnetID ns ≠ "".

Lemma GetNetworkStatus_set_eq name nid sid cidr m mtu c :
  ∃ gw, GetNetworkStatus (status (setNetworkStatus name nid sid cidr m mtu c)) name =
          Some (mkNetworkStatus name nid sid cidr mtu m gw).
Proof.
  unfold GetNetworkStatus, setNetworkStatus. simpl.
  rewrite find_upsert_eq by done. destruct (find_by _ name _) as [ns|] eqn:E; [|by eauto].
  apply find_by_Some in E as [_ <-]. by eauto.
Qed.

Lemma GetNetworkStatus_set_ne name name' nid sid cidr m mtu c :
  name ≠ name' →
  GetNetworkStatus (status (setNetworkStatus name nid sid cidr m mtu c)) name' =
  GetNetworkStatus (status c) name'.
Proof. intros. unfold GetNetworkStatus, setNetworkStatus. simpl. by apply find_upsert_ne. Qed.

Lemma provisioned_set name name' nid sid cidr m mtu c :
  nid ≠ "" → sid ≠ "" → name' = name ∨ provisioned_network c name' →
  provisioned_network (setNetworkStatus name nid sid cidr m mtu c) name'.
Proof.
  intros Hn Hs [->|(ns & Hg & ? & ?)].
  - destruct (GetNetworkStatus_set_eq name nid sid cidr m mtu c) as [gw ?].
    eexists. split; [done|]. done.
  - destruct (decide (name = name')) as [->|Hne].
    + destruct (GetNetworkStatus_set_eq name' nid sid cidr m mtu c) as [gw ?].
      eexists. split; [done|]. done.
    + exists ns. by rewrite GetNetworkStatus_set_ne.
Qed.

(** What one managed network's reconcile does to the object: nothing, unless
    both resources were resolved, and then exactly one status entry. *)
Definition managed_outcome (netSpec : NetworkSpec) (c c' : CloudscaleCluster)
    (r : Res Result) : Prop :=
  match r with
  | Ok res =>
      (res = emptyResult ∧
       ∃ nid sid mtu, nid ≠ "" ∧ sid ≠ "" ∧
         c' = setNetworkStatus (NetworkSpec_Name netSpec) nid sid (NetworkSpec_CIDR netSpec)
                true mtu c) ∨
      (res = requeue 5 ∧ c' = c)
  | Err e => c' = c ∧ e ≠ nilDereference
  end.

Lemma createNetwork_post sc netSpec tags `{!NetworkIDs (scope_Client sc)} :
  post (createNetwork sc netSpec tags) (λ s r s',
    obj s' = obj s ∧
    match r with
    | Ok (Next (n, id)) => is_Some n ∧ id ≠ ""
    | Ok (Return r) => r = requeue 5
    | Err e => e ≠ nilDereference
    end).
Proof.
  intros s. unfold createNetwork, sdk_Create, Eventf. go_run.
  destruct (svc_Create _ _ _) as [[n|e] w] eqn:E; simpl.
  - split; [done|]. split; [by eauto|]. by eapply network_create_id.
  - by destruct (IsTimeoutError e).
Qed.

Lemma createSubnet_post sc netSpec nid tags `{!NetworkIDs (scope_Client sc)} :
  post (createSubnet sc netSpec nid tags) (λ s r s',
    obj s' = obj s ∧
    match r with
    | Ok (Next id) => id ≠ ""
    | Ok (Return r) => r = requeue 5
    | Err e => e ≠ nilDereference
    end).
Proof.
  intros s. unfold createSubnet, sdk_Create, Eventf. go_run.
  destruct (svc_Create _ _ _) as [[n|e] w] eqn:E; simpl.
  - split; [done|]. by eapply subnet_create_id.
  - by destruct (IsTimeoutError e).
Qed.

Lemma ensured_not_panic {T} (k : Kind) (uuid : T → string) id tags evs e :
  ensured k uuid id tags evs (Err e) → e ≠ nilDereference.
Proof. by inversion 1. Qed.

Lemma reconcileManagedNetwork_post sc netSpec `{!NetworkIDs (scope_Client sc)} :
  post (reconcileManagedNetwork sc netSpec) (λ s r s',
    managed_outcome netSpec (obj s) (obj s') r).
Proof.
  intros s. unfold reconcileManagedNetwork, managed_outcome.
  remember (createNetwork sc netSpec) as cn eqn:Ecn.
  remember (createSubnet sc netSpec) as cs eqn:Ecs.
  go_run.
  destruct (ensureResource KNetwork _ _ _ _ _ s) as [[[n nid]|e] s1] eqn:E1; simpl;
    apply (post_run _ _ _ _ _ (ensureResource_ensured _ _ _ _ _ _)) in E1 as [Ho1 (ev1 & _ & H1)];
    [|by split; [|eapply ensured_not_panic]].
  assert (∃ r2 s2, (if nid == "" then cn (networkTags sc (NetworkSpec_Name netSpec))
            else λ s, (Ok (Next (n, nid)), s)) s1 = (r2, s2) ∧ obj s2 = obj s ∧
            match r2 with
            | Ok (Next (n, id)) => is_Some n ∧ id ≠ ""
            | Ok (Return r) => r = requeue 5
            | Err e => e ≠ nilDereference
            end) as (r2 & s2 & -> & Ho2 & H2).
  { case_bool_decide as Hn.
    - destruct (cn _ s1) as [r2 s2] eqn:E2. exists r2, s2. split; [done|]. subst cn.
      apply (post_run _ _ _ _ _ (createNetwork_post _ _ _)) in E2 as [-> ?]. done.
    - eexists _, _. split; [done|]. split; [done|]. split; [|done].
      by eapply ensured_nonempty. }
  destruct r2 as [[r|[n2 nid2]]|e]; simpl; [by right; subst|destruct H2 as [[n2' ->] Hn2]|by split].
  destruct (ensureResource KSubnet _ _ _ _ _ s2) as [[[sn sid]|e] s3] eqn:E3; simpl;
    apply (post_run _ _ _ _ _ (ensureResource_ensured _ _ _ _ _ _)) in E3 as [Ho3 (ev3 & _ & H3)];
    [|by split; [congruence|eapply ensured_not_panic]].
  assert (∃ r4 s4, (if sid == "" then cs nid2 (networkTags sc (NetworkSpec_Name netSpec))
            else λ s, (Ok (Next sid), s)) s3 = (r4, s4) ∧ obj s4 = obj s ∧
            match r4 with
            | Ok (Next id) => id ≠ ""
            | Ok (Return r) => r = requeue 5
            | Err e => e ≠ nilDereference
            end) as (r4 & s4 & -> & Ho4 & H4).
  { case_bool_decide as Hn.
    - destruct (cs _ _ s3) as [r4 s4] eqn:E4. exists r4, s4. split; [done|]. subst cs.
      apply (post_run _ _ _ _ _ (createSubnet_post _ _ _ _)) in E4 as [? ?]. split; [congruence|done].
    - eexists _, _. split; [done|]. split; [congruence|done]. }
  destruct r4 as [[r|sid4]|e]; simpl; [by right|left|by split].
  split; [done|]. exists nid2, sid4, (Network_MTU n2'). by rewrite Ho4.
Qed.

(** What a pre-existing network's reconcile does: nothing when it was
    discovered before, otherwise one entry that CAPCS does not manage. *)
Definition preexisting_outcome (netSpec : NetworkSpec) (c c' : CloudscaleCluster)
    (r : Res unit) : Prop :=
  match r with
  | Ok _ =>
      (networkDiscovered (GetNetworkStatus (status c) (NetworkSpec_Name netSpec)) = true ∧ c' = c) ∨
      ∃ nid sid cidr mtu, nid ≠ "" ∧ sid ≠ "" ∧
        c' = setNetworkStatus (NetworkSpec_Name netSpec) nid sid cidr false mtu c
  | Err _ => c' = c
  end.

Lemma reconcilePreExistingNetwork_post sc netSpec `{!NetworkIDs (scope_Client sc)} :
  post (reconcilePreExistingNetwork sc netSpec) (λ s r s',
    preexisting_outcome netSpec (obj s) (obj s') r).
Proof.
  intros s. unfold reconcilePreExistingNetwork, sdk_Get, preexisting_outcome. go_run.
  destruct (networkDiscovered _) eqn:Hd; simpl; [by left|].
  destruct (svc_Get _ _ _) as [[n|e] w] eqn:E; simpl; [|done].
  apply network_get_id in E as [Hn Hsn].
  case_bool_decide; simpl; [|done].
  destruct (Network_Subnets n) as [|sn sns] eqn:Es; simpl; [done|].
  right. eexists _, _, _, _. split; [done|]. split; [|done].
  apply Hsn. by left.
Qed.

(** Every entry a reconcile writes for a network of the spec says whether
    CAPCS manages it: exactly when the spec gives no UUID. *)
Definition ownership_recorded (networks : list NetworkSpec) (c : CloudscaleCluster) : Prop :=
  ∀ n ns, n ∈ networks → GetNetworkStatus (status c) (NetworkSpec_Name n) = Some ns →
    NetworkStatus_Managed ns = bool_decide (NetworkSpec_UUID n = "").

Lemma ownership_recorded_set networks n nid sid cidr mtu c :
  NoDup (NetworkSpec_Name <$> networks) → n ∈ networks →
  ownership_recorded networks c →
  ownership_recorded networks
    (setNetworkStatus (NetworkSpec_Name n) nid sid cidr (bool_decide (NetworkSpec_UUID n = "")) mtu c).
Proof.
  intros Hnd Hn Ho m ns Hm Hg.
  destruct (decide (NetworkSpec_Name n = NetworkSpec_Name m)) as [Heq|Hne].
  - assert (n = m) as <-.
    { pose proof (find_by_unique _ _ _ Hnd Hn) as H1.
      pose proof (find_by_unique _ _ _ Hnd Hm) as H2. rewrite Heq in H1. congruence. }
    destruct (GetNetworkStatus_set_eq (NetworkSpec_Name n) nid sid cidr
                (bool_decide (NetworkSpec_UUID n = "")) mtu c) as [gw Hg'].
    rewrite Hg' in Hg. by simplify_eq.
  - rewrite GetNetworkStatus_set_ne in Hg by done. by eapply Ho.
Qed.

Lemma reconcileOneNetwork_post sc n `{!NetworkIDs (scope_Client sc)} :
  post (reconcileOneNetwork sc n) (λ s r s',
    obj s' = obj s ∧ (r = Ok (Next ()) →
      networkDiscovered (GetNetworkStatus (status (obj s)) (NetworkSpec_Name n)) = true) ∨
    ∃ nid sid cidr mtu, nid ≠ "" ∧ sid ≠ "" ∧
      obj s' = setNetworkStatus (NetworkSpec_Name n) nid sid cidr
                 (bool_decide (NetworkSpec_UUID n = "")) mtu (obj s)).
Proof.
  intros s. unfold reconcileOneNetwork. case_bool_decide as Hu; simpl.
  - pose proof (reconcileManagedNetwork_post sc n s) as Hm. unfold managed_outcome in Hm.
    go_run. destruct (reconcileManagedNetwork sc n s) as [[r|e] s1]; simpl in *.
    + destruct Hm as [(-> & nid & sid & mtu & ? & ? & ->)|[-> ->]]; simpl.
      * right. by eexists nid, sid, _, mtu.
      * by left.
    + left. by split; [apply Hm|].
  - pose proof (reconcilePreExistingNetwork_post sc n s) as Hm. unfold preexisting_outcome in Hm.
    go_run. destruct (reconcilePreExistingNetwork sc n s) as [[[]|e] s1]; simpl in *; [|by left].
    destruct Hm as [[? ->]|(nid & sid & cidr & mtu & ? & ? & ->)]; [by left|].
    right. by eexists nid, sid, _, mtu.
Qed.

Lemma networkDiscovered_provisioned c name :
  networkDiscovered (GetNetworkStatus (status c) name) = true → provisioned_network c name.
Proof.
  unfold networkDiscovered, provisioned_network. destruct (GetNetworkStatus _ _) as [ns|]; [|done].
  intros. go_bools. by eauto.
Qed.

Lemma reconcileOneNetwork_requeues sc n : requeues (reconcileOneNetwork sc n).
Proof.
  unfold reconcileOneNetwork. case_match; [apply (requeues_next _ (λ _, ()))|apply requeues_returning].
Qed.

Lemma foreach_networks_provisioned sc networks s `{!NetworkIDs (scope_Client sc)} :
  result (foreach networks (reconcileOneNetwork sc)) s = Ok (Next ()) →
  ∀ n, n ∈ networks →
    provisioned_network (obj (exec (foreach networks (reconcileOneNetwork sc)) s)) (NetworkSpec_Name n).
Proof.
  apply (foreach_ind (λ done s, ∀ n, n ∈ done → provisioned_network (obj s) (NetworkSpec_Name n))
           networks _ []); [|by intros n ?%not_elem_of_nil].
  intros pre x s1 _ IH Hr n Hn. apply elem_of_app in Hn.
  pose proof (reconcileOneNetwork_post sc x s1) as [[-> Hd]|(nid & sid & cidr & mtu & ? & ? & ->)].
  - destruct Hn as [Hn|Hn%list_elem_of_singleton]; [by apply IH|subst].
    by apply networkDiscovered_provisioned, Hd.
  - apply provisioned_set; [done..|].
    destruct Hn as [Hn|Hn%list_elem_of_singleton]; [right; by apply IH|left; by subst].
Qed.

Lemma reconcileNetworks_provisions sc s `{!NetworkIDs (scope_Client sc)} :
  result (reconcileNetworks sc) s = Ok emptyResult →
  CloudscaleClusterSpec_Networks (spec (obj s)) ≠ [] ∧
  ∀ n, n ∈ CloudscaleClusterSpec_Networks (spec (obj s)) →
    provisioned_network (obj (exec (reconcileNetworks sc) s)) (NetworkSpec_Name n).
Proof.
  unfold reconcileNetworks, result, exec, bind, get; simpl.
  destruct (CloudscaleClusterSpec_Networks (spec (obj s))) as [|n0 ns0] eqn:En; [done|].
  intros Hr. apply loop_completes in Hr as [Hr He]; [|intros; apply reconcileOneNetwork_requeues].
  unfold exec in He. rewrite He. split; [done|]. by apply foreach_networks_provisioned.
Qed.

(** When [reconcileNetwork] finishes without an error and without asking
    for a requeue, the spec names at least one network and every network of
    the spec has a status entry with a network and a subnet identifier. The
    identifiers the SDK returns are assumed non-empty. *)
Lemma reconcileNetwork_provisions sc s `{!NetworkIDs (scope_Client sc)} :
  result (reconcileNetwork sc) s = Ok emptyResult →
  CloudscaleClusterSpec_Networks (spec (obj s)) ≠ [] ∧
  ∀ n, n ∈ CloudscaleClusterSpec_Networks (spec (obj s)) →
    provisioned_network (obj (exec (reconcileNetwork sc) s)) (NetworkSpec_Name n).
Proof.
  unfold reconcileNetwork, result, exec, deferred.
  pose proof (reconcileNetworks_provisions sc s) as H. unfold result, exec in H.
  destruct (reconcileNetworks sc s) as [r s']; simpl in *. by destruct r.
Qed.
End network_provisioning.

(** ** Frames, ownership and conditions *)

Section network_frames.
Context `{P : Platform}.
Implicit Types (sc : ClusterScope) (s : CState).

(** Whatever its outcome, [reconcileNetwork] keeps the record of which
    networks CAPCS manages right: if the status entries of the spec's networks
    say "managed" exactly for the ones without a UUID before the reconcile,
    they do after it, for a spec with unique network names. *)
Theorem reconcileNetwork_ownership sc s `{!NetworkIDs (scope_Client sc)} :
  let networks := CloudscaleClusterSpec_Networks (spec (obj s)) in
  NoDup (NetworkSpec_Name <$> networks) →
  ownership_recorded networks (obj s) →
  ownership_recorded networks (obj (exec (reconcileNetwork sc) s)).
Proof.
  intros networks Hnd Ho. revert Ho.
  unfold reconcileNetwork, reconcileNetworks, exec, deferred, bind, get; simpl. fold networks.
  destruct networks as [|n0 ns0] eqn:En; [done|].
  assert (respects (preserves (ownership_recorded (n0 :: ns0)))
            (let? _ := foreach (n0 :: ns0) (reconcileOneNetwork sc) in ret emptyResult)) as H.
  { frame. intros s1 Ho1.
    destruct (reconcileOneNetwork_post sc x s1) as [[-> _]|(nid & sid & cidr & mtu & ? & ? & ->)];
      [done|]. by apply ownership_recorded_set. }
  intros Ho. specialize (H s Ho). unfold exec in H.
  destruct ((let? _ := _ in _) s) as [r s']; simpl in *. by destruct r.
Qed.

(** What has been done when the loop over the networks stands after [networks]:
    these have their identifiers recorded, and the entries of all others are as
    they were. *)
Definition recorded_so_far (c c' : CloudscaleCluster) (networks : list NetworkSpec) : Prop :=
  (∀ n, n ∈ networks → provisioned_network c' (NetworkSpec_Name n)) ∧
  ∀ name, name ∉ NetworkSpec_Name <$> networks →
    GetNetworkStatus (status c') name = GetNetworkStatus (status c) name.

Lemma recorded_one_more sc c pre n s `{!NetworkIDs (scope_Client sc)} :
  recorded_so_far c (obj s) pre → result (reconcileOneNetwork sc n) s = Ok (Next ()) →
  recorded_so_far c (obj (exec (reconcileOneNetwork sc n) s)) (pre ++ [n]).
Proof.
  intros [Hp Hs] Hr.
  pose proof (reconcileOneNetwork_post sc n s) as [[-> Hd]|(nid & sid & cidr & mtu & ? & ? & ->)]; split.
  - intros m [Hm|Hm%list_elem_of_singleton]%elem_of_app; [by apply Hp|subst].
    by apply networkDiscovered_provisioned, Hd.
  - intros name Hn. apply Hs. rewrite fmap_app in Hn. set_solver.
  - intros m [Hm|Hm%list_elem_of_singleton]%elem_of_app; apply provisioned_set; try done;
      [right; by apply Hp|left; by subst].
  - intros name Hn. rewrite fmap_app in Hn. rewrite GetNetworkStatus_set_ne by set_solver. apply Hs. set_solver.
Qed.

(** The creation whose answer the reconcile of a network stopped at. *)
Definition timed_out_creation sc (n : NetworkSpec) (e : Event) : Prop :=
  ∃ req err, e = ECreate req (Err err) ∧ IsTimeoutError err = true ∧
    match req with
    | CNetwork r => NetworkCreateRequest_Name r = NetworkSpec_Name n ∧
                    NetworkCreateRequest_Tags r = networkTags sc (NetworkSpec_Name n)
    | CSubnet r => SubnetCreateRequest_Tags r = networkTags sc (NetworkSpec_Name n)
    | _ => False
    end.

Lemma createNetwork_return sc n tags s r s' :
  createNetwork sc n tags s = (Ok (Return r), s') →
  r = requeue 5 ∧ obj s' = obj s ∧ ∃ req err, log s' = log s ++ [ECreate (CNetwork req) (Err err)] ∧
    IsTimeoutError err = true ∧ NetworkCreateRequest_Name req = NetworkSpec_Name n ∧
    NetworkCreateRequest_Tags req = tags.
Proof.
  unfold createNetwork, sdk_Create, Eventf. go_run.
  destruct (svc_Create _ _ _) as [[x|e] w]; simpl; [done|].
  destruct (IsTimeoutError e) eqn:Ht; simpl; [|done]. intros [= <- <-]. simpl. by eauto 10.
Qed.

Lemma createSubnet_return sc n nid tags s r s' :
  createSubnet sc n nid tags s = (Ok (Return r), s') →
  r = requeue 5 ∧ obj s' = obj s ∧ ∃ req err, log s' = log s ++ [ECreate (CSubnet req) (Err err)] ∧
    IsTimeoutError err = true ∧ SubnetCreateRequest_Tags req = tags.
Proof.
  unfold createSubnet, sdk_Create, Eventf. go_run.
  destruct (svc_Create _ _ _) as [[x|e] w]; simpl; [done|].
  destruct (IsTimeoutError e) eqn:Ht; simpl; [|done]. intros [= <- <-]. simpl. by eauto 10.
Qed.

Lemma emits_any_network sc n : respects (emits (λ _, True)) (reconcileOneNetwork sc n).
Proof.
  unfold reconcileOneNetwork, reconcilePreExistingNetwork, reconcileManagedNetwork, createNetwork,
    createSubnet, ensureResource, listByTag, sdk_Get, sdk_List, sdk_Create, Eventf. by frame.
Qed.

(** A managed network asks for another turn only where a creation timed out. *)
Lemma reconcileManagedNetwork_requeue sc n s r s' :
  reconcileManagedNetwork sc n s = (Ok r, s') → r ≠ emptyResult →
  r = requeue 5 ∧ obj s' = obj s ∧ ∃ evs e, log s' = log s ++ evs ++ [e] ∧ timed_out_creation sc n e.
Proof.
  intros E Hr. unfold reconcileManagedNetwork in E. rewrite bind_get in E.
  apply bind_Ok_inv in E as ([o nid] & s1 & E1 & E).
  apply (post_run _ _ _ _ _ (ensureResource_ensured _ _ _ _ _ _)) in E1 as [Ho1 (ev1 & Hl1 & _)].
  apply bind_Ok_inv in E as (x & s2 & E2 & E).
  assert ((∃ r2, x = Return r2 ∧ createNetwork sc n (networkTags sc (NetworkSpec_Name n)) s1 = (Ok (Return r2), s2)) ∨
          (∃ o2 nid2, x = Next (o2, nid2)) ∧ obj s2 = obj s1 ∧ ∃ evs, log s2 = log s1 ++ evs)
    as [(r2 & -> & E3)|((o2 & nid2 & ->) & Ho2 & ev2 & Hl2)].
  { case_bool_decide; [|injection E2 as <- <-; right; split_and!; [by eauto|done|exists []; by rewrite app_nil_r]].
    destruct x as [r2|[o2 nid2]]; [by eauto|right]. revert E2. unfold createNetwork, sdk_Create, Eventf. go_run.
    destruct (svc_Create _ _ _) as [[y|e] w]; simpl; [|by destruct (IsTimeoutError e)].
    intros [= <- <- <-]. split_and!; [by eauto|done|]. eexists. simpl. by rewrite <- app_assoc. }
  { apply createNetwork_return in E3 as (-> & Ho2 & req & err & Hl2 & Ht & Hn & Htags). injection E as <- <-.
    split; [done|]. split; [congruence|]. exists ev1, (ECreate (CNetwork req) (Err err)).
    rewrite Hl2, Hl1, <- app_assoc. split; [done|]. by exists (CNetwork req), err. }
  apply bind_Ok_inv in E as ([o3 sid] & s3 & E3 & E).
  apply (post_run _ _ _ _ _ (ensureResource_ensured _ _ _ _ _ _)) in E3 as [Ho3 (ev3 & Hl3 & _)].
  apply bind_Ok_inv in E as (y & s4 & E4 & E). destruct y as [r4|sid4].
  - clear E2. case_bool_decide; [|done]. injection E as <- <-.
    apply createSubnet_return in E4 as (-> & Ho4 & req & err & Hl4 & Ht & Htags).
    split; [done|]. split; [congruence|]. exists (ev1 ++ ev2 ++ ev3), (ECreate (CSubnet req) (Err err)).
    rewrite Hl4, Hl3, Hl2, Hl1, <- !app_assoc. split; [done|]. by exists (CSubnet req), err.
  - apply bind_Ok_inv in E as (z & s5 & _ & E). apply bind_Ok_inv in E as ([] & s6 & _ & E).
    injection E as <- _. done.
Qed.

(** How a turn of the loop ends the loop. *)
Definition networkLabel (n : NetworkSpec) : string :=
  "reconciling " +:+ (if NetworkSpec_UUID n == "" then "managed" else "pre-existing") +:+ " network "
    +:+ quote (NetworkSpec_Name n) +:+ ": ".

Lemma reconcileOneNetwork_stops sc n s r s' `{!NetworkIDs (scope_Client sc)} :
  reconcileOneNetwork sc n s = (r, s') → r ≠ Ok (Next ()) →
  obj s' = obj s ∧
  match r with
  | Ok (Next _) => False
  | Ok (Return res) => NetworkSpec_UUID n = "" ∧ res = requeue 5 ∧
      ∃ evs e, log s' = log s ++ evs ++ [e] ∧ timed_out_creation sc n e
  | Err e => ∃ e', e = wrapError (networkLabel n) e'
  end.
Proof.
  unfold reconcileOneNetwork, networkLabel. case_bool_decide as Hu; simpl.
  - pose proof (reconcileManagedNetwork_requeue sc n s) as Hq.
    pose proof (reconcileManagedNetwork_post sc n s) as Hm. unfold managed_outcome in Hm.
    go_run. destruct (reconcileManagedNetwork sc n s) as [[res|e] s1]; simpl in *.
    + destruct Hm as [[-> _]|[-> _]]; simpl; [intros [= <- <-] Hne; by destruct Hne|].
      destruct (Hq _ _ eq_refl ltac:(done)) as (_ & Ho & ?). simpl. intros [= <- <-] _. by repeat split.
    + intros [= <- <-] _. destruct Hm as [Ho _]. split; [done|]. by eexists.
  - pose proof (reconcilePreExistingNetwork_post sc n s) as Hm. unfold preexisting_outcome in Hm.
    go_run. destruct (reconcilePreExistingNetwork sc n s) as [[[]|e] s1]; simpl in *;
      [intros [= <- <-] Hne; by destruct Hne|].
    intros [= <- <-] _. split; [done|]. by eexists.
Qed.

(** Where the loop over the networks ends. *)
Lemma reconcileNetworks_outcome sc s r s' `{!NetworkIDs (scope_Client sc)} :
  let networks := CloudscaleClusterSpec_Networks (spec (obj s)) in
  networks ≠ [] → reconcileNetworks sc s = (r, s') →
  r = Ok emptyResult ∧ recorded_so_far (obj s) (obj s') networks ∨
  ∃ pre n post, networks = pre ++ n :: post ∧ recorded_so_far (obj s) (obj s') pre ∧
    match r with
    | Ok res => NetworkSpec_UUID n = "" ∧ res = requeue 5 ∧
        ∃ evs e, log s' = log s ++ evs ++ [e] ∧ timed_out_creation sc n e
    | Err e => ∃ e', e = wrapError (networkLabel n) e'
    end.
Proof.
  intros networks Hne. unfold reconcileNetworks. rewrite bind_get. fold networks.
  destruct networks as [|n0 ns0] eqn:En; [done|]. rewrite <- En. clear Hne. unfold bind_flow, bind.
  pose (I := λ (pre : list NetworkSpec) s1, recorded_so_far (obj s) (obj s1) pre ∧ ∃ evs, log s1 = log s ++ evs).
  assert (I [] s) as H0.
  { split; [|exists []; by rewrite app_nil_r]. split; [by intros n ?%not_elem_of_nil|done]. }
  assert (∀ pre x s1, I pre s1 → result (reconcileOneNetwork sc x) s1 = Ok (Next ()) →
            I (pre ++ [x]) (exec (reconcileOneNetwork sc x) s1)) as Hstep.
  { intros pre x s1 [Hrec [evs Hl]] Hx. split; [by apply recorded_one_more|].
    destruct (emits_any_network sc x s1) as (evs1 & Hl1 & _). exists (evs ++ evs1). by rewrite Hl1, Hl, app_assoc. }
  assert (result (foreach networks (reconcileOneNetwork sc)) s = Ok (Next ()) ∨
          result (foreach networks (reconcileOneNetwork sc)) s ≠ Ok (Next ())) as [Hr|Hr]
    by (destruct (result _ s) as [[?|[]]|?]; first [by left|by right]).
  - pose proof (foreach_ind I networks (reconcileOneNetwork sc) [] s (λ pre x s1 _, Hstep pre x s1) H0 Hr) as [HI _].
    unfold result, exec in *. destruct (foreach _ _ s) as [[[res|[]]|e] s1]; try done.
    intros [= <- <-]. by left.
  - destruct (foreach_stops I _ _ _ Hstep H0 Hr) as (pre & n & post & s1 & Hsplit & [Hrec [evs Hl]] & E).
    unfold result in Hr. rewrite E in *. destruct (reconcileOneNetwork sc n s1) as [r1 s2] eqn:E1.
    destruct (reconcileOneNetwork_stops _ _ _ _ _ E1 Hr) as [Ho Hstop].
    assert (recorded_so_far (obj s) (obj s2) pre) as Hrec' by by rewrite Ho.
    intros Heq. right. exists pre, n, post. split; [done|].
    destruct r1 as [[res|[]]|e]; [|done|]; injection Heq as <- <-; (split; [done|]); [|done].
    destruct Hstop as (Hu & Hres & evs' & e & Hl' & He). split_and!; [done..|].
    exists (evs ++ evs'), e. by rewrite Hl', Hl, <- !app_assoc.
Qed.

(** C33. What NetworkReady means after a reconcile of the networks. It is False
    with the error's text exactly when the reconcile fails: there is no network in
    the spec, and nothing was called, or one network failed; the error names it,
    the networks before it are recorded with both identifiers, and the entries of
    the others are as they were. It is True with reason NetworkProvisioned after
    every return without an error. When the reconcile asks for no further turn,
    all networks of the spec, at least one, are recorded with both identifiers.
    Otherwise it asks for a turn in 5 seconds, its last call is the creation of a
    managed network or its subnet, which timed out, and the condition says
    provisioned although the entry of that network and of those after it, if they
    have one, is as it was. *)
Theorem reconcileNetwork_condition sc s `{!NetworkIDs (scope_Client sc)} :
  let networks := CloudscaleClusterSpec_Networks (spec (obj s)) in
  let evs := calls_of (reconcileNetwork sc) s in
  let c' := obj (exec (reconcileNetwork sc) s) in
  match result (reconcileNetwork sc) s with
  | Ok res =>
      conditionOf c' NetworkReadyCondition =
        Some (mkCondition NetworkReadyCondition ConditionTrue NetworkProvisionedReason "") ∧
      networks ≠ [] ∧
      (res = emptyResult ∧ recorded_so_far (obj s) c' networks ∨
       res = requeue 5 ∧ ∃ pre n post calls e,
         networks = pre ++ n :: post ∧ NetworkSpec_UUID n = "" ∧ recorded_so_far (obj s) c' pre ∧
         evs = calls ++ [e] ∧ timed_out_creation sc n e)
  | Err e =>
      conditionOf c' NetworkReadyCondition =
        Some (mkCondition NetworkReadyCondition ConditionFalse NetworkErrorReason (Error e)) ∧
      (networks = [] ∧ evs = [] ∨
       ∃ pre n post e', networks = pre ++ n :: post ∧ recorded_so_far (obj s) c' pre ∧
         e = wrapError (networkLabel n) e')
  end.
Proof.
  intros networks evs c'. subst evs c'. unfold calls_of, reconcileNetwork, deferred, exec, result.
  destruct (reconcileNetworks sc s) as [r s1] eqn:E. simpl.
  assert (networks = [] ∨ networks ≠ []) as [Hn|Hn] by (destruct networks; first [by left|by right]).
  { unfold reconcileNetworks in E. rewrite bind_get in E. fold networks in E. rewrite Hn in E. injection E as <- <-. simpl.
    split; [apply conditionOf_set_eq|]. left. by rewrite drop_all. }
  destruct (reconcileNetworks_outcome sc s r s1 Hn E) as [[-> Hrec]|(pre & n & post & Hsplit & Hrec & Hr)]; simpl.
  { split_and!; [apply conditionOf_set_eq|done|by left]. }
  destruct r as [res|e]; simpl.
  - destruct Hr as (Hu & Hres & evs & e & Hl & He). split_and!; [apply conditionOf_set_eq|done|]. right.
    split; [done|]. exists pre, n, post, evs, e. rewrite Hl, drop_app_length. by split_and!.
  - destruct Hr as (e' & ->). split; [apply conditionOf_set_eq|]. right. by exists pre, n, post, e'.
Qed.
End network_frames.

(** ** No duplicates, and a quiet steady state *)

Section network_steady.
Context `{P : Platform}.
Implicit Types (sc : ClusterScope) (s : CState).

(** [reconcileManagedNetwork] never leaves two networks with the
    cluster's tags for this name: if there is at most one before, there is at
    most one after, whatever the calls answer, creations whose answer is lost
    in a timeout included. The network service is assumed to list what exists,
    and the subnet service not to touch networks. *)
Theorem reconcileManagedNetwork_no_duplicates sc netSpec s
    `{HN : !TaggedService (Networks (scope_Client sc)) Network_UUID NetworkCreateRequest_Tags}
    `{HU : !Untouched (Networks (scope_Client sc)) Network_UUID (Subnets (scope_Client sc))} :
  let networks := owned (Networks (scope_Client sc)) Network_UUID
                    (networkTags sc (NetworkSpec_Name netSpec)) in
  networks (world s) ≤ 1 →
  networks (world (exec (reconcileManagedNetwork sc netSpec) s)) ≤ 1.
Proof.
  intros networks. unfold reconcileManagedNetwork. rewrite exec_get.
  apply ensure_create_owned.
  - intros o id Hid. rewrite bool_decide_eq_false_2 by done.
    apply adds_none. unfold createSubnet, Eventf.
    frame; eauto using ensureResource_untouched, wkeeps_sdk_Create.
  - intros o. simpl. unfold bind_flow.
    apply (adds_bind _ _ _ 1 0); [|intros [r|[n nid]]|done].
    + unfold createNetwork. apply (adds_bind _ _ _ 0 1); [apply adds_none; frame| |done]. intros c.
      apply (adds_bind _ _ _ 1 0); [apply adds_try, adds_create| |done]. intros r.
      apply adds_none. unfold Eventf. frame.
    + apply adds_none. frame.
    + apply adds_none. unfold createSubnet, Eventf.
      frame; eauto using ensureResource_untouched, wkeeps_sdk_Create.
Qed.
End network_steady.

(** ** Deletion *)

Section network_deletion.
Context `{P : Platform}.
Implicit Types (sc : ClusterScope) (s : CState).

Definition networks_of (c : CloudscaleCluster) : list NetworkStatus :=
  CloudscaleClusterStatus_Networks (status c).

Definition network_deletable (networks : list NetworkStatus) (e : Event) : Prop :=
  is_write e = true →
  ∃ ns r, ns ∈ networks ∧ NetworkStatus_Managed ns = true ∧ NetworkStatus_NetworkID ns ≠ "" ∧
          e = EDelete KNetwork (NetworkStatus_NetworkID ns) r.

Lemma deleteNetworkStep_calls sc networks acc ns :
  ns ∈ networks → respects (emits (network_deletable networks)) (deleteNetworkStep sc acc ns).
Proof.
  intros Hns. unfold deleteNetworkStep, sdk_Delete, Eventf.
  destruct acc as [remaining errs]. frame; go_bools; try done.
  intros _. eauto 6.
Qed.

(** The only writes of [deleteNetwork] are deletions of networks that
    status records as managed, with a non-empty identifier: a pre-existing
    network is never deleted. *)
Theorem deleteNetwork_only_managed sc s :
  ∀ e, e ∈ calls_of (deleteNetwork sc) s → is_write e = true →
  ∃ ns r, ns ∈ networks_of (obj s) ∧ NetworkStatus_Managed ns = true ∧
          NetworkStatus_NetworkID ns ≠ "" ∧
          e = EDelete KNetwork (NetworkStatus_NetworkID ns) r.
Proof.
  assert (emits (network_deletable (networks_of (obj s))) s (exec (deleteNetwork sc) s)) as H.
  { unfold deleteNetwork, deleteNetworks, exec, deferred, bind at 1, get; simpl.
    pose proof (respects_foldM (emits (network_deletable (networks_of (obj s))))
                  (deleteNetworkStep sc) (networks_of (obj s)) ([], [])) as Hf.
    specialize (Hf (λ acc ns, deleteNetworkStep_calls sc _ acc ns) s).
    unfold exec in Hf. unfold bind. fold (networks_of (obj s)).
    destruct (foldM _ _ _ s) as [[[rem errs]|e] s1]; simpl in *; exact Hf. }
  apply emits_in_calls in H. rewrite Forall_forall in H. exact H.
Qed.

(** What the deletion loop knows after the entries [pre]. *)
Definition deletion_invariant (s0 : CState) (pre : list NetworkStatus)
    (acc : list NetworkStatus * list error) (s : CState) : Prop :=
  obj s = obj s0 ∧ ∃ evs, log s = log s0 ++ evs ∧
  (∀ ns, ns ∈ pre → ns ∈ acc.1 ∨
     (NetworkStatus_Managed ns = true ∧
      (NetworkStatus_NetworkID ns = "" ∨ confirmed_deleted KNetwork (NetworkStatus_NetworkID ns) evs))) ∧
  (∀ ns, ns ∈ acc.1 → ns ∈ pre) ∧
  (acc.2 = [] → acc.1 = filter (λ ns, NetworkStatus_Managed ns = false) pre).

Lemma deleteNetworkStep_invariant sc s0 pre ns acc acc' s :
  deletion_invariant s0 pre acc s →
  result (deleteNetworkStep sc acc ns) s = Ok acc' →
  deletion_invariant s0 (pre ++ [ns]) acc' (exec (deleteNetworkStep sc acc ns) s).
Proof.
  destruct acc as [rem errs]. intros (Ho & evs & Hl & Hin & Hsub & Hok).
  unfold deleteNetworkStep, sdk_Delete, Eventf. go_run.
  assert (∀ (evs' : list Event) rem' errs',
    (ns ∈ rem' ∨ (NetworkStatus_Managed ns = true ∧ (NetworkStatus_NetworkID ns = "" ∨
       confirmed_deleted KNetwork (NetworkStatus_NetworkID ns) (evs ++ evs')))) →
    (rem' = rem ++ [ns] ∨ rem' = rem) →
    (errs' = [] → errs = [] ∧ (rem' = rem ++ if NetworkStatus_Managed ns then [] else [ns])) →
    ∀ s', obj s' = obj s → log s' = log s ++ evs' →
    deletion_invariant s0 (pre ++ [ns]) (rem', errs') s') as Hstep.
  { intros evs' rem' errs' Hns Hrem Herr s' Ho' Hl'. split; [congruence|].
    exists (evs ++ evs'). split; [by rewrite Hl', Hl, app_assoc|]. simpl. split_and!.
    - intros x [Hx| ->%list_elem_of_singleton]%elem_of_app; [|done].
      destruct (Hin x Hx) as [Hr|[? [Hr|(r & ? & ?)]]].
      + left. destruct Hrem as [->| ->]; [apply elem_of_app; by left|done].
      + right. split; [done|]. by left.
      + right. split; [done|]. right. exists r. split; [apply elem_of_app; by left|done].
    - intros x Hx. apply elem_of_app. destruct Hrem as [->| ->]; [|left; by apply Hsub].
      apply elem_of_app in Hx as [Hx|Hx]; [left; by apply Hsub|by right].
    - intros He. destruct (Herr He) as [He' ->]. rewrite filter_app. f_equal; [by apply Hok|].
      rewrite filter_cons, filter_nil. by destruct (NetworkStatus_Managed ns). }
  destruct (NetworkStatus_Managed ns) eqn:Em; simpl.
  2:{ intros [= <-]. apply (Hstep []); [left; apply elem_of_app; right; by left|by left|done|done|].
      by rewrite app_nil_r. }
  case_bool_decide as Hid; simpl.
  { intros [= <-]. apply (Hstep []); [by right; split; [|left]|by right| |done|by rewrite app_nil_r].
    by rewrite app_nil_r. }
  destruct (svc_Delete _ _ _) as [[[]|e] w]; simpl.
  - intros [= <-]. eapply Hstep; [right; split; [done|right]|by right|by rewrite app_nil_r|done|].
    2:{ simpl. by rewrite <- app_assoc. }
    exists (Ok ()). split; [|done]. apply elem_of_app. right. by left.
  - destruct (isLBPoolMembersError e); simpl; [done|].
    destruct (IsNotFound e) eqn:En; simpl; intros [= <-].
    + eapply Hstep; [right; split; [done|right]|by right|by rewrite app_nil_r|done|].
      2:{ simpl. by rewrite <- app_assoc. }
      exists (Err e). split; [|done]. apply elem_of_app. right. by left.
    + eapply Hstep; [left; apply elem_of_app; right; by left|by left| |done|done].
      intros Ha. by apply app_eq_nil in Ha as [_ ?].
Qed.

(** The outcome of [deleteNetwork]. *)
Lemma deleteNetwork_spec sc s :
  let c := obj s in
  let c' := obj (exec (deleteNetwork sc) s) in
  let evs := calls_of (deleteNetwork sc) s in
  (∀ ns, ns ∈ networks_of c → ns ∈ networks_of c' ∨
     (NetworkStatus_Managed ns = true ∧
      (NetworkStatus_NetworkID ns = "" ∨ confirmed_deleted KNetwork (NetworkStatus_NetworkID ns) evs))) ∧
  (∀ ns, ns ∈ networks_of c' → ns ∈ networks_of c) ∧
  (result (deleteNetwork sc) s = Ok () →
     networks_of c' = filter (λ ns, NetworkStatus_Managed ns = false) (networks_of c)).
Proof.
  pose proof (foldM_ind (deletion_invariant s) (deleteNetworkStep sc) (networks_of (obj s)) [] ([], []))
    as Hf.
  pose proof (respects_foldM (keeps id) (deleteNetworkStep sc) (networks_of (obj s)) ([], [])) as Hk.
  intros c c' evs. subst c c' evs.
  unfold calls_of, deleteNetwork, deleteNetworks. go_run. fold (networks_of (obj s)).
  destruct (foldM _ _ _ s) as [[[rem errs]|e] s1] eqn:E; simpl.
  - specialize (Hf (rem, errs) s). rewrite E in Hf.
    destruct Hf as (Ho & evs & Hl & Hin & Hsub & Hok); [| |done|].
    { intros pre x b b' s' _. apply deleteNetworkStep_invariant. }
    { split; [done|]. exists []. rewrite app_nil_r. split; [done|]. split_and!; [|done|done].
      by intros ? ?%not_elem_of_nil. }
    simpl in *. rewrite Hl, drop_app_length.
    destruct errs as [|e errs]; simpl; split_and!; auto; done.
  - assert (obj s1 = obj s) as ->.
    { apply (respects_run (keeps id) _ _ _ _) in E; [done|]. apply Hk. intros [rem errs] ns _.
      unfold deleteNetworkStep, sdk_Delete, Eventf. frame. }
    split_and!; [by left|done|done].
Qed.

(** C34. [deleteNetwork] forgets nothing: after any outcome, every network of
    the status is still recorded or was managed and is gone, either never
    provisioned or confirmed deleted by the provider; nothing is invented; and
    on success exactly the pre-existing networks remain. *)
Theorem deleteNetwork_forgets_nothing sc s :
  let c := obj s in
  let c' := obj (exec (deleteNetwork sc) s) in
  let evs := calls_of (deleteNetwork sc) s in
  (∀ ns, ns ∈ networks_of c → ns ∈ networks_of c' ∨
     (NetworkStatus_Managed ns = true ∧
      (NetworkStatus_NetworkID ns = "" ∨ confirmed_deleted KNetwork (NetworkStatus_NetworkID ns) evs))) ∧
  (∀ ns, ns ∈ networks_of c' → ns ∈ networks_of c) ∧
  (result (deleteNetwork sc) s = Ok () →
     networks_of c' = filter (λ ns, NetworkStatus_Managed ns = false) (networks_of c)).
Proof. apply deleteNetwork_spec. Qed.
End network_deletion.
