(* ===== verification/RouterCtl.v ===== *)
(** * Routers (src/internal/controller/cloudscalecluster_router.go)

    Provisioning and deletion of routers and of their interfaces. A router is
    managed (created and deleted here) or adopted by UUID; independently, an
    interface of an adopted router is managed or adopted. *)

From S2P Require Export NetworkCtl.

Section router.
Context `{P : Platform}.
Implicit Types (sc : ClusterScope) (c : CloudscaleCluster) (routerSpec : RouterSpec)
  (ifaceSpec : RouterInterfaceSpec).

Definition routerRequeueAfter : Result := requeue 5.

Definition RoutersOf sc := router_service (Routers (scope_Client sc)).

Definition routerTags sc (routerName : string) : TagMap :=
  {[ NameCloudscaleProviderOwned +:+ Cluster_Name (scope_Cluster sc) := routerName ]}.

(** ** Status entries *)

Definition upd_routers (f : list RouterStatus → list RouterStatus) c : CloudscaleCluster :=
  upd_status (λ st, set_CloudscaleClusterStatus_Routers (f (CloudscaleClusterStatus_Routers st)) st) c.

(** Update the entry of that name, leaving its interfaces, or append one. *)
Definition setRouterStatus routerSpec (routerID : string) c : CloudscaleCluster :=
  let managed := RouterSpec_UUID routerSpec == "" in
  upd_routers (upsert_by RouterStatus_Name (RouterSpec_Name routerSpec)
    (λ rs, mkRouterStatus (RouterStatus_Name rs) routerID (RouterStatus_Interfaces rs) managed)
    (mkRouterStatus (RouterSpec_Name routerSpec) routerID [] managed)) c.

(** Write an interface entry through the pointer to the router's entry. *)
Definition upsertInterface (networkName interfaceID : string) (managed : bool) (rs : RouterStatus)
    : RouterStatus :=
  set_RouterStatus_Interfaces
    (upsert_by RouterInterfaceStatus_Network networkName
       (λ iface, mkRouterInterfaceStatus (RouterInterfaceStatus_Network iface) interfaceID managed)
       (mkRouterInterfaceStatus networkName interfaceID managed)
       (RouterStatus_Interfaces rs)) rs.

(** The new object, and whether anything changed. *)
Definition setRouterInterfaceStatus (routerName networkName interfaceID : string) (managed : bool) c
    : bool * CloudscaleCluster :=
  match GetRouterStatus (status c) routerName with
  | None => (false, c)
  | Some rs =>
      let c' := upd_routers (update_by RouterStatus_Name routerName
                  (upsertInterface networkName interfaceID managed)) c in
      match GetInterfaceStatus rs networkName with
      | Some iface =>
          if (RouterInterfaceStatus_InterfaceID iface == interfaceID) &&
             (RouterInterfaceStatus_Managed iface == managed)
          then (false, c) else (true, c')
      | None => (true, c')
      end
  end.

Definition recordInterface (routerName networkName interfaceID : string) (managed : bool) : CM bool :=
  let! c := get in
  let (changed, c') := setRouterInterfaceStatus routerName networkName interfaceID managed c in
  modify (λ _, c') ;;!
  ret changed.

(** ** Resolving a router *)

Definition requeueOnTimeout (e : error) : option Result :=
  if negb (IsTimeoutError e) then None else Some routerRequeueAfter.

Definition adoptRouter sc routerSpec : CM Router :=
  let uuid := RouterSpec_UUID routerSpec in
  let! router := wrap ("getting pre-existing router " +:+ uuid +:+ ": ")
                   (sdk_Get KRouter (RoutersOf sc) uuid) in
  let! c := get in
  if Router_Zone router != CloudscaleClusterSpec_Zone (spec c) then
    throw (errorString ("pre-existing router " +:+ uuid +:+ " is in zone "
             +:+ quote (Router_Zone router) +:+ ", expected zone "
             +:+ quote (CloudscaleClusterSpec_Zone (spec c))))
  else ret router.

Definition ensureManagedRouter sc routerSpec : CM (option Router * Result) :=
  let! c := get in
  let name := RouterSpec_Name routerSpec in
  let routerID := match GetRouterStatus (status c) name with
                  | Some rs => RouterStatus_RouterID rs
                  | None => ""
                  end in
  let tags := routerTags sc name in
  let! (router, resolvedRouterID) :=
    wrap "ensuring router: "
      (ensureResource KRouter (RoutersOf sc) Router_UUID routerID ("router/" +:+ name) tags) in
  if resolvedRouterID != "" then ret (router, emptyResult)
  else
    let req := mkRouterCreateRequest name (RouterSpec_InternetGateway routerSpec)
                 (CloudscaleClusterSpec_Zone (spec c)) tags in
    let! r := try (sdk_Create (RoutersOf sc) CRouter Router_UUID req) in
    match r with
    | Err e =>
        match requeueOnTimeout e with
        | Some result => ret (None, result)
        | None => throw (wrapError "creating router: " e)
        end
    | Ok router =>
        Eventf "Normal" "RouterCreated" "CreateRouter"
          ("Created router " +:+ name +:+ " (" +:+ Router_UUID router +:+ ") in zone "
           +:+ Router_Zone router) ;;!
        ret (Some router, emptyResult)
    end.

(** ** Interfaces *)

Fixpoint interfaceAddress_loop (addrs : list InterfaceAddress) (subnetID : string) : string :=
  match addrs with
  | [] => ""
  | addr :: addrs =>
      if InterfaceAddress_Subnet addr == subnetID then InterfaceAddress_Address addr
      else interfaceAddress_loop addrs subnetID
  end.
Definition interfaceAddress (iface : RouterInterface) (subnetID : string) : string :=
  interfaceAddress_loop (RouterInterface_Addresses iface) subnetID.

Definition adoptRouterInterface routerSpec ifaceSpec (ns : NetworkStatus)
    (liveByUUID : gmap string RouterInterface) : CM string :=
  let name := RouterSpec_Name routerSpec in
  match liveByUUID !! RouterInterfaceSpec_UUID ifaceSpec with
  | None =>
      throw (errorString ("router " +:+ quote name +:+ " has no interface "
               +:+ RouterInterfaceSpec_UUID ifaceSpec
               +:+ " to adopt, it may have been detached outside of CAPCS"))
  | Some live =>
      if RouterInterface_Network live != NetworkStatus_NetworkID ns then
        throw (errorString ("router " +:+ quote name +:+ " interface "
                 +:+ RouterInterfaceSpec_UUID ifaceSpec +:+ " is attached to network "
                 +:+ RouterInterface_Network live +:+ ", not to network "
                 +:+ quote (RouterInterfaceSpec_Network ifaceSpec)
                 +:+ " (" +:+ NetworkStatus_NetworkID ns +:+ ")"))
      else
        recordInterface name (NetworkStatus_Name ns) (RouterInterface_UUID live) false ;;!
        ret (interfaceAddress live (NetworkStatus_SubnetID ns))
  end.

(** The [rs] of the source points into the object's status, so the entry read
    here is the current one. *)
Definition claimRouterInterface routerSpec ifaceSpec (ns : NetworkStatus) (live : RouterInterface)
    : CM string :=
  let name := RouterSpec_Name routerSpec in
  let! c := get in
  let! rs := deref (GetRouterStatus (status c) name) in
  if (match GetInterfaceStatus rs (NetworkStatus_Name ns) with None => true | Some _ => false end)
     && negb (RouterStatus_Managed rs)
  then
    throw (errorString ("pre-existing router " +:+ quote name +:+ " is already attached to network "
             +:+ quote (RouterInterfaceSpec_Network ifaceSpec) +:+ " by interface "
             +:+ RouterInterface_UUID live
             +:+ ": set spec.routers[].interfaces[].uuid to adopt that interface, or detach it"))
  else
    let address := interfaceAddress live (NetworkStatus_SubnetID ns) in
    let! changed := recordInterface name (NetworkStatus_Name ns) (RouterInterface_UUID live) true in
    (if changed && (address != RouterInterfaceSpec_Address ifaceSpec) then
       Eventf "Warning" "RouterInterfaceAddressMismatch" "ReconcileRouterInterface"
         ("Router " +:+ name +:+ " is attached to network " +:+ RouterInterfaceSpec_Network ifaceSpec
          +:+ " at " +:+ quote address +:+ ", not at the requested "
          +:+ quote (RouterInterfaceSpec_Address ifaceSpec) +:+ ", which therefore has no effect")
     else ret ()) ;;!
    ret address.

Definition createRouterInterface sc routerSpec (router : Router) ifaceSpec (ns : NetworkStatus)
    : CM Result :=
  let name := RouterSpec_Name routerSpec in
  recordInterface name (NetworkStatus_Name ns) "" true ;;!
  let req := mkCreateInterfaceRequest (NetworkStatus_NetworkID ns)
               [mkInterfaceAddress (NetworkStatus_SubnetID ns) (RouterInterfaceSpec_Address ifaceSpec)] in
  let! r := try (call (router_CreateInterface (Routers (scope_Client sc)) (Router_UUID router) req)
                   (λ r, EInterfaceCreate (Router_UUID router) req
                           (res_map RouterInterface_UUID r))) in
  match r with
  | Err e =>
      match requeueOnTimeout e with
      | Some result => ret result
      | None =>
          throw (wrapError ("creating interface for router " +:+ quote name +:+ " network "
                   +:+ quote (RouterInterfaceSpec_Network ifaceSpec) +:+ ": ") e)
      end
  | Ok createdIface =>
      recordInterface name (NetworkStatus_Name ns) (RouterInterface_UUID createdIface) true ;;!
      Eventf "Normal" "RouterInterfaceCreated" "CreateRouterInterface"
        ("Attached router " +:+ name +:+ " to network " +:+ RouterInterfaceSpec_Network ifaceSpec
         +:+ " with address " +:+ RouterInterfaceSpec_Address ifaceSpec) ;;!
      ret emptyResult
  end.

(** One turn of the interface loop. *)
Definition reconcileRouterInterface sc routerSpec (router : Router) ifaceSpec : CM (flow unit) :=
  let liveByUUID := index_by RouterInterface_UUID (Router_Interfaces router) in
  let liveByNetwork := index_by RouterInterface_Network (Router_Interfaces router) in
  let! c := get in
  match GetNetworkStatus (status c) (RouterInterfaceSpec_Network ifaceSpec) with
  | None =>
      throw (errorString ("network " +:+ quote (RouterInterfaceSpec_Network ifaceSpec)
               +:+ " not found in status for router " +:+ quote (RouterSpec_Name routerSpec)
               +:+ " interface"))
  | Some ns =>
      if RouterInterfaceSpec_UUID ifaceSpec != "" then
        adoptRouterInterface routerSpec ifaceSpec ns liveByUUID ;;! ret (Next ())
      else
        match liveByNetwork !! NetworkStatus_NetworkID ns with
        | Some live => claimRouterInterface routerSpec ifaceSpec ns live ;;! ret (Next ())
        | None => returning (createRouterInterface sc routerSpec router ifaceSpec ns)
        end
  end.

Definition reconcileRouterInterfaces sc routerSpec (router : Router) : CM Result :=
  let! c := get in
  match GetRouterStatus (status c) (RouterSpec_Name routerSpec) with
  | None =>
      throw (errorString ("router " +:+ quote (RouterSpec_Name routerSpec) +:+ " not found in status"))
  | Some _ =>
      let? _ := foreach (RouterSpec_Interfaces routerSpec)
                  (reconcileRouterInterface sc routerSpec router) in
      ret emptyResult
  end.

(** ** One router, all routers *)

Definition reconcileRouter sc routerSpec : CM Result :=
  let! (router, result) :=
    (if RouterSpec_UUID routerSpec != "" then
       let! router := adoptRouter sc routerSpec in ret (Some router, emptyResult)
     else ensureManagedRouter sc routerSpec) in
  if negb (IsZero result) then ret result
  else
    let! router := deref router in
    modify (setRouterStatus routerSpec (Router_UUID router)) ;;!
    if Router_Status router != RouterActive then ret routerRequeueAfter
    else reconcileRouterInterfaces sc routerSpec router.

(** The running result of the loop: the least non-zero requeue so far. *)
Definition lowerResult (result res : Result) : Result :=
  if negb (IsZero res) && (IsZero result || (RequeueAfter res <? RequeueAfter result)%Z)
  then res else result.

Definition reconcileRoutersLoop sc : CM Result :=
  let! c := get in
  foldM (λ result routerSpec,
           let! res := wrap ("reconciling router " +:+ quote (RouterSpec_Name routerSpec) +:+ ": ")
                         (reconcileRouter sc routerSpec) in
           ret (lowerResult result res))
    (CloudscaleClusterSpec_Routers (spec c)) emptyResult.

Definition reconcileRouters sc : CM Result :=
  deferred (λ r c,
      match r with
      | Err e => setCondition RouterReadyCondition ConditionFalse RouterErrorReason (Error e) c
      | Ok result =>
          if negb (IsZero result) then
            setCondition RouterReadyCondition ConditionFalse RouterNotReadyReason
              "Waiting for routers to become available" c
          else match CloudscaleClusterSpec_Routers (spec c) with
               | [] => setCondition RouterReadyCondition ConditionTrue RouterDisabledReason "" c
               | _ => setCondition RouterReadyCondition ConditionTrue RouterProvisionedReason "" c
               end
      end)
    (reconcileRoutersLoop sc).

(** ** Deletion *)

Definition hasManagedInterface (rs : RouterStatus) : bool :=
  existsb RouterInterfaceStatus_Managed (RouterStatus_Interfaces rs).

(** One turn of the detach loop: the entries to keep and the errors so far. *)
Definition deleteInterfaceStep sc (rs : RouterStatus) (router : Router)
    (acc : list RouterInterfaceStatus * list error) (iface : RouterInterfaceStatus)
    : CM (list RouterInterfaceStatus * list error) :=
  let (remaining, errs) := acc in
  let liveUUIDs := index_by RouterInterface_UUID (Router_Interfaces router) in
  let liveByNetwork := index_by RouterInterface_Network (Router_Interfaces router) in
  let! c := get in
  if negb (RouterInterfaceStatus_Managed iface) then ret (remaining ++ [iface], errs)
  else
    let interfaceID :=
      if RouterInterfaceStatus_InterfaceID iface == "" then
        match GetNetworkStatus (status c) (RouterInterfaceStatus_Network iface) with
        | Some ns =>
            match liveByNetwork !! NetworkStatus_NetworkID ns with
            | Some live => RouterInterface_UUID live
            | None => ""
            end
        | None => RouterInterfaceStatus_InterfaceID iface
        end
      else RouterInterfaceStatus_InterfaceID iface in
    match liveUUIDs !! interfaceID with
    | None => ret (remaining, errs)
    | Some _ =>
        let! r := try (call (router_DeleteInterface (Routers (scope_Client sc))
                               (RouterStatus_RouterID rs) interfaceID)
                         (λ r, EInterfaceDelete (RouterStatus_RouterID rs) interfaceID r)) in
        match r with
        | Err e =>
            if negb (IsNotFound e) then
              ret (remaining ++ [mkRouterInterfaceStatus (RouterInterfaceStatus_Network iface)
                                   interfaceID (RouterInterfaceStatus_Managed iface)],
                   errs ++ [wrapError ("deleting router interface for " +:+ RouterStatus_Name rs
                              +:+ "/" +:+ RouterInterfaceStatus_Network iface +:+ ": ") e])
            else ret (remaining, errs)
        | Ok _ => ret (remaining, errs)
        end
    end.

(** The router's entry after the writes through its pointer, and the errors. *)
Definition deleteRouterInterfaces sc (rs : RouterStatus) : CM (RouterStatus * list error) :=
  if negb (hasManagedInterface rs) then ret (rs, [])
  else
    let! r := try (sdk_Get KRouter (RoutersOf sc) (RouterStatus_RouterID rs)) in
    match r with
    | Err e =>
        if IsNotFound e then ret (set_RouterStatus_Interfaces [] rs, [])
        else ret (rs, [wrapError ("getting router " +:+ quote (RouterStatus_Name rs)
                         +:+ " to detach its interfaces: ") e])
    | Ok router =>
        let! (remaining, errs) :=
          foldM (deleteInterfaceStep sc rs router) (RouterStatus_Interfaces rs) ([], []) in
        ret (set_RouterStatus_Interfaces remaining rs, errs)
    end.

(** One turn of the deletion loop. *)
Definition deleteRouterStep sc (acc : list RouterStatus * list error) (router : RouterStatus)
    : CM (list RouterStatus * list error) :=
  let (remaining, errs) := acc in
  let deleted router :=
    Eventf "Normal" "RouterDeleted" "DeleteRouter"
      ("Deleted router " +:+ RouterStatus_Name router +:+ " (" +:+ RouterStatus_RouterID router +:+ ")") ;;!
    ret (remaining, errs) in
  if RouterStatus_RouterID router == "" then ret (remaining, errs)
  else
    let! (router, ifaceErrs) := deleteRouterInterfaces sc router in
    match ifaceErrs with
    | _ :: _ => ret (remaining ++ [router], errs ++ ifaceErrs)
    | [] =>
        if negb (RouterStatus_Managed router) then ret (remaining ++ [router], errs)
        else
          let! r := try (sdk_Delete KRouter (RoutersOf sc) (RouterStatus_RouterID router)) in
          match r with
          | Err e =>
              if negb (IsNotFound e) then
                ret (remaining ++ [router],
                     errs ++ [wrapError ("deleting router " +:+ quote (RouterStatus_Name router)
                                +:+ ": ") e])
              else deleted router
          | Ok _ => deleted router
          end
    end.

(** Status is assigned at the end of the loop, which has no early return. *)
Definition deleteRoutersLoop sc : CM unit :=
  let! c := get in
  let! (remaining, errs) :=
    foldM (deleteRouterStep sc) (CloudscaleClusterStatus_Routers (status c)) ([], []) in
  modify (upd_status (set_CloudscaleClusterStatus_Routers remaining)) ;;!
  of_res (errors_Join errs).

Definition deleteRouters sc : CM unit :=
  deferred (λ r, match r with
                 | Err e => setCondition RouterReadyCondition ConditionFalse RouterErrorReason
                              ("Failed to delete routers: " +:+ Error e)
                 | Ok _ => setCondition RouterReadyCondition ConditionFalse RouterDeletingReason
                             "Routers have been deleted"
                 end)
    (deleteRoutersLoop sc).
End router.

(** ** The status seen through two lookups

    [router_view]: the identifier and owner recorded for a router;
    [iface_entry]: the entry recorded for one of its networks. *)

Section router_status.
Implicit Types (c : CloudscaleCluster).

Definition router_view c (name : string) : option (string * bool) :=
  (λ rs, (RouterStatus_RouterID rs, RouterStatus_Managed rs)) <$> GetRouterStatus (status c) name.

Definition iface_entry c (name net : string) : option RouterInterfaceStatus :=
  GetRouterStatus (status c) name ≫= λ rs, GetInterfaceStatus rs net.

Lemma router_view_set_eq rspec rid c :
  router_view (setRouterStatus rspec rid c) (RouterSpec_Name rspec) =
    Some (rid, bool_decide (RouterSpec_UUID rspec = "")).
Proof.
  unfold router_view, GetRouterStatus, setRouterStatus, upd_routers. simpl.
  rewrite find_upsert_eq by done. by destruct (find_by _ _ _).
Qed.

Lemma router_view_set_ne rspec rid c name :
  name ≠ RouterSpec_Name rspec →
  router_view (setRouterStatus rspec rid c) name = router_view c name.
Proof.
  intros. unfold router_view, GetRouterStatus, setRouterStatus, upd_routers. simpl.
  by rewrite find_upsert_ne.
Qed.

Lemma iface_entry_set rspec rid c name net :
  iface_entry (setRouterStatus rspec rid c) name net = iface_entry c name net.
Proof.
  unfold iface_entry, GetRouterStatus, setRouterStatus, upd_routers. simpl.
  destruct (decide (name = RouterSpec_Name rspec)) as [->|Hne].
  - rewrite find_upsert_eq by done. by destruct (find_by _ _ _).
  - by rewrite find_upsert_ne.
Qed.

(** [c'] is [c] with the entry of one network of one router written. *)
Definition iface_set (name net id : string) (m : bool) c c' : Prop :=
  spec c' = spec c ∧
  CloudscaleClusterStatus_Networks (status c') = CloudscaleClusterStatus_Networks (status c) ∧
  (∀ n, router_view c' n = router_view c n) ∧
  iface_entry c' name net = Some (mkRouterInterfaceStatus net id m) ∧
  (∀ n t, (n, t) ≠ (name, net) → iface_entry c' n t = iface_entry c n t).

Lemma iface_set_trans name net id m id' m' c c1 c2 :
  iface_set name net id m c c1 → iface_set name net id' m' c1 c2 → iface_set name net id' m' c c2.
Proof.
  intros (? & ? & Hv1 & _ & Ho1) (? & ? & Hv2 & He2 & Ho2). split_and!; [congruence..| |done|].
  - intros n. by rewrite Hv2.
  - intros n t Hne. by rewrite Ho2, Ho1.
Qed.

Lemma setRouterInterfaceStatus_set name net id m c :
  is_Some (router_view c name) →
  iface_set name net id m c (setRouterInterfaceStatus name net id m c).2.
Proof.
  unfold setRouterInterfaceStatus. intros Hv.
  assert (∃ rs, GetRouterStatus (status c) name = Some rs) as [rs Hrs].
  { unfold router_view in Hv. destruct (GetRouterStatus _ _); [by eauto|by destruct Hv]. }
  rewrite Hrs.
  assert (iface_set name net id m c
    (upd_routers (update_by RouterStatus_Name name (upsertInterface net id m)) c)) as Hset.
  { unfold iface_set, router_view, iface_entry, GetRouterStatus, upd_routers in *. simpl.
    split_and!; [done|done|..].
    - intros n. destruct (decide (n = name)) as [->|Hne].
      + rewrite find_update_eq, Hrs by done. done.
      + by rewrite find_update_ne.
    - rewrite find_update_eq, Hrs by done. simpl. unfold GetInterfaceStatus, upsertInterface. simpl.
      rewrite find_upsert_eq by done. destruct (find_by _ net _) as [i|] eqn:E; [|done].
      apply find_by_Some in E as [_ <-]. done.
    - intros n t Hne. destruct (decide (n = name)) as [->|Hn].
      + rewrite find_update_eq, Hrs by done. simpl. unfold GetInterfaceStatus, upsertInterface. simpl.
        rewrite find_upsert_ne; [done| |done|done]. congruence.
      + by rewrite find_update_ne. }
  destruct (GetInterfaceStatus rs net) as [i|] eqn:Hi; [|done].
  destruct (_ && _) eqn:Hb; [|done]. go_bools. simpl.
  split_and!; [done..| |done]. unfold iface_entry. rewrite Hrs. simpl. rewrite Hi.
  apply find_by_Some in Hi as [_ <-]. destruct i; simpl in *. by subst.
Qed.

Lemma recordInterface_run `{P : Platform} name net id m (s : CState) :
  recordInterface name net id m s =
    let p := setRouterInterfaceStatus name net id m (obj s) in
    (Ok p.1, mkSt p.2 (world s) (log s)).
Proof.
  unfold recordInterface, bind, get, modify, ret.
  by destruct (setRouterInterfaceStatus name net id m (obj s)).
Qed.
End router_status.

(** ** One interface: abstract specification *)

Section iface_spec.
Context `{P : Platform}.
Implicit Types (sc : ClusterScope) (s : CState) (routerSpec : RouterSpec)
  (ifaceSpec : RouterInterfaceSpec).

(** The SDK's identifiers are never empty. *)
Definition wf_router (r : Router) : Prop :=
  Router_UUID r ≠ "" ∧ ∀ i, i ∈ Router_Interfaces r → RouterInterface_UUID i ≠ "".

Class RouterIDs (cl : Client World) := {
  router_get_wf id w x w' : svc_Get (router_service (Routers cl)) id w = (Ok x, w') → wf_router x;
  router_list_wf tags w l w' :
    svc_List (router_service (Routers cl)) tags w = (Ok l, w') → ∀ x, x ∈ l → wf_router x;
  router_create_wf req w x w' :
    svc_Create (router_service (Routers cl)) req w = (Ok x, w') → wf_router x;
  router_iface_id rid req w x w' :
    router_CreateInterface (Routers cl) rid req w = (Ok x, w') → RouterInterface_UUID x ≠ "" }.

(** The request that attaches a router to a network. *)
Definition attach_request ifaceSpec (ns : NetworkStatus) : CreateInterfaceRequest :=
  mkCreateInterfaceRequest (NetworkStatus_NetworkID ns)
    [mkInterfaceAddress (NetworkStatus_SubnetID ns) (RouterInterfaceSpec_Address ifaceSpec)].

(** What a turn of the interface loop may do, with the writes it makes: fail
    without a trace; adopt the interface the spec names; claim a live one that
    is already recorded or sits on a managed router; attach, which leaves the
    entry marked managed whether or not the answer arrived. *)
Inductive iface_step routerSpec ifaceSpec (rid : string) (c c' : CloudscaleCluster)
    : list Event → Res (flow unit) → Prop :=
  | iface_fails e :
      c' = c → iface_step routerSpec ifaceSpec rid c c' [] (Err e)
  | iface_adopted id :
      RouterInterfaceSpec_UUID ifaceSpec ≠ "" → id ≠ "" →
      iface_set (RouterSpec_Name routerSpec) (RouterInterfaceSpec_Network ifaceSpec) id false c c' →
      iface_step routerSpec ifaceSpec rid c c' [] (Ok (Next ()))
  | iface_claimed id :
      RouterInterfaceSpec_UUID ifaceSpec = "" → id ≠ "" →
      is_Some (iface_entry c (RouterSpec_Name routerSpec) (RouterInterfaceSpec_Network ifaceSpec)) ∨
      snd <$> router_view c (RouterSpec_Name routerSpec) = Some true →
      iface_set (RouterSpec_Name routerSpec) (RouterInterfaceSpec_Network ifaceSpec) id true c c' →
      iface_step routerSpec ifaceSpec rid c c' [] (Ok (Next ()))
  | iface_attached ns id :
      RouterInterfaceSpec_UUID ifaceSpec = "" → id ≠ "" →
      GetNetworkStatus (status c) (RouterInterfaceSpec_Network ifaceSpec) = Some ns →
      iface_set (RouterSpec_Name routerSpec) (RouterInterfaceSpec_Network ifaceSpec) id true c c' →
      iface_step routerSpec ifaceSpec rid c c'
        [EInterfaceCreate rid (attach_request ifaceSpec ns) (Ok id)] (Ok (Next ()))
  | iface_pending ns e r :
      RouterInterfaceSpec_UUID ifaceSpec = "" →
      GetNetworkStatus (status c) (RouterInterfaceSpec_Network ifaceSpec) = Some ns →
      iface_set (RouterSpec_Name routerSpec) (RouterInterfaceSpec_Network ifaceSpec) "" true c c' →
      r = Ok (Return (requeue 5)) ∨ (∃ e', r = Err e') →
      iface_step routerSpec ifaceSpec rid c c'
        [EInterfaceCreate rid (attach_request ifaceSpec ns) (Err e)] r.

Lemma view_entry c name :
  is_Some (router_view c name) → ∃ rs, GetRouterStatus (status c) name = Some rs.
Proof. unfold router_view. destruct (GetRouterStatus _ _); [by eauto|by intros []]. Qed.

(** A turn of the loop as a run: it refines the specification. *)
Definition steps routerSpec ifaceSpec (rid : string) (m : CM (flow unit)) s : Prop :=
  ∃ ws, wrote s (exec m s) ws ∧
        iface_step routerSpec ifaceSpec rid (obj s) (obj (exec m s)) ws (result m s).

Lemma claimRouterInterface_step routerSpec ifaceSpec rid ns live s :
  is_Some (router_view (obj s) (RouterSpec_Name routerSpec)) →
  RouterInterfaceSpec_UUID ifaceSpec = "" → RouterInterface_UUID live ≠ "" →
  NetworkStatus_Name ns = RouterInterfaceSpec_Network ifaceSpec →
  steps routerSpec ifaceSpec rid (claimRouterInterface routerSpec ifaceSpec ns live ;;! ret (Next ())) s.
Proof.
  intros Hv Hu Hid Hn. unfold steps, claimRouterInterface. rewrite Hn.
  destruct (view_entry _ _ Hv) as [rs Hrs].
  unfold bind, get, deref, ret, result, exec, Eventf, emit. simpl. rewrite Hrs. simpl.
  destruct (_ && negb (RouterStatus_Managed rs)) eqn:Hb; simpl.
  { eexists. split; [solve_wrote|]. by constructor. }
  rewrite recordInterface_run. simpl.
  pose proof (setRouterInterfaceStatus_set (RouterSpec_Name routerSpec)
    (RouterInterfaceSpec_Network ifaceSpec) (RouterInterface_UUID live) true (obj s) Hv) as Hset.
  assert (is_Some (iface_entry (obj s) (RouterSpec_Name routerSpec) (RouterInterfaceSpec_Network ifaceSpec)) ∨
    snd <$> router_view (obj s) (RouterSpec_Name routerSpec) = Some true).
  { unfold iface_entry, router_view. rewrite Hrs. simpl.
    destruct (GetInterfaceStatus rs _); [by left; eauto|]. right.
    by destruct (RouterStatus_Managed rs). }
  destruct (_.1 && _); simpl; (eexists; split; [solve_wrote|]); by eapply iface_claimed.
Qed.

Lemma adoptRouterInterface_step routerSpec ifaceSpec rid ns router s :
  wf_router router → is_Some (router_view (obj s) (RouterSpec_Name routerSpec)) →
  RouterInterfaceSpec_UUID ifaceSpec ≠ "" →
  NetworkStatus_Name ns = RouterInterfaceSpec_Network ifaceSpec →
  steps routerSpec ifaceSpec rid
    (adoptRouterInterface routerSpec ifaceSpec ns
       (index_by RouterInterface_UUID (Router_Interfaces router)) ;;! ret (Next ())) s.
Proof.
  intros [_ Hids] Hv Hu Hn. unfold steps, adoptRouterInterface. rewrite Hn.
  destruct (index_by _ _ !! _) as [live|] eqn:El.
  2:{ eexists. split; [solve_wrote|]. by constructor. }
  apply index_by_Some in El as [Hl _].
  case_bool_decide; simpl.
  2:{ eexists. split; [solve_wrote|]. by constructor. }
  unfold bind, exec, result. rewrite recordInterface_run. simpl.
  eexists. split; [solve_wrote|]. eapply iface_adopted; [done|by apply Hids|].
  by apply setRouterInterfaceStatus_set.
Qed.

Lemma createRouterInterface_step sc routerSpec ifaceSpec router ns s
    `{!RouterIDs (scope_Client sc)} :
  is_Some (router_view (obj s) (RouterSpec_Name routerSpec)) →
  RouterInterfaceSpec_UUID ifaceSpec = "" →
  GetNetworkStatus (status (obj s)) (RouterInterfaceSpec_Network ifaceSpec) = Some ns →
  steps routerSpec ifaceSpec (Router_UUID router)
    (returning (createRouterInterface sc routerSpec router ifaceSpec ns)) s.
Proof.
  intros Hv Hu Hns. unfold steps, createRouterInterface, Eventf.
  assert (NetworkStatus_Name ns = RouterInterfaceSpec_Network ifaceSpec) as Hn
    by by apply find_by_Some in Hns as [].
  rewrite Hn. go_run. rewrite recordInterface_run. simpl.
  pose proof (setRouterInterfaceStatus_set (RouterSpec_Name routerSpec)
    (RouterInterfaceSpec_Network ifaceSpec) "" true (obj s) Hv) as Hset.
  destruct (router_CreateInterface _ _ _ _) as [[i|e] w] eqn:E; simpl.
  - rewrite recordInterface_run. simpl. eexists. split; [solve_wrote|].
    eapply iface_attached; [done|by eapply router_iface_id|done|].
    eapply iface_set_trans; [exact Hset|]. apply setRouterInterfaceStatus_set.
    destruct Hset as (_ & _ & Hview & _). by rewrite Hview.
  - unfold requeueOnTimeout. destruct (IsTimeoutError e); simpl;
      (eexists; split; [solve_wrote|]); eapply iface_pending; eauto.
Qed.

(** A turn of the interface loop refines its specification. *)
Lemma reconcileRouterInterface_step sc routerSpec router ifaceSpec s
    `{!RouterIDs (scope_Client sc)} :
  wf_router router → is_Some (router_view (obj s) (RouterSpec_Name routerSpec)) →
  steps routerSpec ifaceSpec (Router_UUID router)
    (reconcileRouterInterface sc routerSpec router ifaceSpec) s.
Proof.
  intros Hwf Hv. unfold reconcileRouterInterface, steps. rewrite exec_get, result_get.
  destruct (GetNetworkStatus _ _) as [ns|] eqn:Hns.
  2:{ eexists. split; [solve_wrote|]. by constructor. }
  assert (NetworkStatus_Name ns = RouterInterfaceSpec_Network ifaceSpec) as Hn
    by by apply find_by_Some in Hns as [].
  case_bool_decide as Hu; simpl; [|by apply adoptRouterInterface_step].
  destruct (index_by _ _ !! _) as [live|] eqn:El.
  - apply claimRouterInterface_step; [done..| |done].
    apply index_by_Some in El as [Hl _]. by apply Hwf.
  - by apply createRouterInterface_step.
Qed.
End iface_spec.

(** ** The interface loop *)

Section iface_loop.
Context `{P : Platform}.
Implicit Types (sc : ClusterScope) (s : CState) (x : RouterSpec) (i : RouterInterfaceSpec)
  (c : CloudscaleCluster) (ws : list Event).

Abbreviation net := RouterInterfaceSpec_Network.

(** How an entry comes to be marked managed: it was recorded, the router is
    managed, or this run attached it. *)
Definition provenance x i (rid : string) c ws : Prop :=
  is_Some (iface_entry c (RouterSpec_Name x) (net i)) ∨ RouterSpec_UUID x = "" ∨
  ∃ ns r, GetNetworkStatus (status c) (net i) = Some ns ∧
          EInterfaceCreate rid (attach_request i ns) r ∈ ws.

(** What a run says about one interface of the spec; [done] when the run ended
    with nothing left to wait for. *)
Definition iface_outcome x i (rid : string) (done : Prop) c c' ws : Prop :=
  (iface_entry c' (RouterSpec_Name x) (net i) = iface_entry c (RouterSpec_Name x) (net i) ∧ ¬ done) ∨
  ∃ id, iface_entry c' (RouterSpec_Name x) (net i) =
          Some (mkRouterInterfaceStatus (net i) id (bool_decide (RouterInterfaceSpec_UUID i = ""))) ∧
        (done → id ≠ "") ∧
        (RouterInterfaceSpec_UUID i = "" → provenance x i rid c ws).

(** An attachment a run requested is recorded as managed when it ends, with
    the identifier if the answer arrived. *)
Definition attach_recorded x i (rid : string) c c' (e : Event) : Prop :=
  ∃ ns r id, RouterInterfaceSpec_UUID i = "" ∧
    GetNetworkStatus (status c) (net i) = Some ns ∧
    e = EInterfaceCreate rid (attach_request i ns) r ∧
    iface_entry c' (RouterSpec_Name x) (net i) = Some (mkRouterInterfaceStatus (net i) id true) ∧
    (∀ id', r = Ok id' → id = id').

(** The parts of the object an interface loop leaves alone. *)
Definition loop_frame x (ifs : list RouterInterfaceSpec) c c' : Prop :=
  spec c' = spec c ∧
  CloudscaleClusterStatus_Networks (status c') = CloudscaleClusterStatus_Networks (status c) ∧
  (∀ n, router_view c' n = router_view c n) ∧
  (∀ n t, n ≠ RouterSpec_Name x ∨ t ∉ (net <$> ifs) → iface_entry c' n t = iface_entry c n t).

Lemma iface_step_frame x i rid c c' ws r :
  iface_step x i rid c c' ws r → loop_frame x [i] c c'.
Proof.
  assert (∀ id m, iface_set (RouterSpec_Name x) (net i) id m c c' → loop_frame x [i] c c') as Hset.
  { intros id m (? & ? & ? & _ & Ho). split_and!; [done..|]. intros n t Hne. apply Ho.
    intros [= -> ->]. destruct Hne as [?|Hne]; [done|]. apply Hne. csimpl. by left. }
  destruct 1; eauto. by subst.
Qed.

Lemma loop_frame_cons x i ifs c c1 c2 :
  loop_frame x [i] c c1 → loop_frame x ifs c1 c2 → loop_frame x (i :: ifs) c c2.
Proof.
  intros (? & ? & Hv1 & H1) (? & ? & Hv2 & H2). split_and!; [congruence..| |].
  - intros n. by rewrite Hv2.
  - intros n t Hne. rewrite H2, H1; [done|..]; (destruct Hne as [?|Hne]; [by left|right]);
      intros Hin; apply Hne; csimpl in *; apply elem_of_cons;
      [left; by apply list_elem_of_singleton|by right].
Qed.

Lemma iface_step_outcome x i rid c c' ws r :
  snd <$> router_view c (RouterSpec_Name x) = Some (bool_decide (RouterSpec_UUID x = "")) →
  iface_step x i rid c c' ws r → iface_outcome x i rid (r = Ok (Next ())) c c' ws.
Proof.
  unfold iface_outcome. intros Hv Hs. destruct Hs as
    [e -> | id Hu Hid (_&_&_&He&_) | id Hu Hid Hp (_&_&_&He&_) | ns id Hu Hid Hn (_&_&_&He&_)
    | ns e r Hu Hn (_&_&_&He&_) Hr]; [by left|right; exists id..|right; exists ""].
  - rewrite bool_decide_eq_false_2 by done. done.
  - rewrite bool_decide_eq_true_2 by done. split_and!; [done..|]. intros _.
    destruct Hp as [?|Hp]; [by left|right; left]. rewrite Hv in Hp. injection Hp. intros; go_bools. done.
  - rewrite bool_decide_eq_true_2 by done. split_and!; [done..|]. intros _.
    right; right. eexists _, _. split; [done|]. by left.
  - rewrite bool_decide_eq_true_2 by done. split_and!; [done|by destruct Hr as [->|[? ->]]|].
    intros _. right; right. eexists _, _. split; [done|]. by left.
Qed.

Lemma iface_step_attach x i rid c c' ws r :
  iface_step x i rid c c' ws r → ∀ e, e ∈ ws → attach_recorded x i rid c c' e.
Proof.
  intros Hs e He. destruct Hs as
    [| | | ns id Hu Hid Hn (_&_&_&Hen&_) | ns e' r Hu Hn (_&_&_&Hen&_) Hr];
    try by apply not_elem_of_nil in He.
  - apply list_elem_of_singleton in He as ->. eexists ns, _, id. split_and!; try done.
    by intros ? [= ->].
  - apply list_elem_of_singleton in He as ->. by eexists ns, _, "".
Qed.

(** Both facts survive whatever does not touch this entry. *)
Lemma iface_outcome_frame x i rid (dn dn' : Prop) c0 c c' c'' ws ws' :
  iface_entry c (RouterSpec_Name x) (net i) = iface_entry c0 (RouterSpec_Name x) (net i) →
  CloudscaleClusterStatus_Networks (status c) = CloudscaleClusterStatus_Networks (status c0) →
  iface_entry c'' (RouterSpec_Name x) (net i) = iface_entry c' (RouterSpec_Name x) (net i) →
  ws ⊆ ws' → (dn' → dn) →
  iface_outcome x i rid dn c c' ws → iface_outcome x i rid dn' c0 c'' ws'.
Proof.
  intros H1 H2 H3 Hws Hdn. unfold iface_outcome, provenance, GetNetworkStatus. rewrite H1, H2, H3.
  intros [[? Hn]|(id & ? & ? & Hp)]; [left; auto|right]. exists id. split_and!; [done|auto|].
  intros Hu. destruct (Hp Hu) as [?|[?|(ns & r & ? & ?)]]; [by left|by right; left|].
  right; right. exists ns, r. split; [done|]. by apply Hws.
Qed.

Lemma attach_recorded_frame x i rid c0 c c' c'' e :
  CloudscaleClusterStatus_Networks (status c) = CloudscaleClusterStatus_Networks (status c0) →
  iface_entry c'' (RouterSpec_Name x) (net i) = iface_entry c' (RouterSpec_Name x) (net i) →
  attach_recorded x i rid c c' e → attach_recorded x i rid c0 c'' e.
Proof.
  intros H2 H3 (ns & r & id & Hu & Hn & ? & He & ?).
  unfold GetNetworkStatus in Hn. rewrite H2 in Hn.
  exists ns, r, id. split_and!; try done. by rewrite H3.
Qed.

Definition loop_outcome x ifs (rid : string) c c' ws (r : Res (flow unit)) : Prop :=
  loop_frame x ifs c c' ∧
  (∀ i, i ∈ ifs → iface_outcome x i rid (r = Ok (Next ())) c c' ws) ∧
  (∀ e, e ∈ ws → ∃ i, i ∈ ifs ∧ attach_recorded x i rid c c' e) ∧
  (∀ r', r = Ok (Return r') → r' = requeue 5).

Lemma loop_outcome_stop x i ifs rid c c' ws r :
  loop_frame x [i] c c' → r ≠ Ok (Next ()) → net i ∉ (net <$> ifs) →
  iface_outcome x i rid (r = Ok (Next ())) c c' ws →
  (∀ e, e ∈ ws → attach_recorded x i rid c c' e) →
  (∀ r', r = Ok (Return r') → r' = requeue 5) →
  loop_outcome x (i :: ifs) rid c c' ws r.
Proof.
  intros Hf Hr Hnd Hi Ha Hq. split_and!; [| | |done].
  - eapply loop_frame_cons; [done|]. split_and!; done.
  - intros j [->|Hj]%elem_of_cons; [done|]. left. split; [|done].
    destruct Hf as (_ & _ & _ & Hf). apply Hf. right. intros Hin. apply Hnd.
    apply list_elem_of_singleton in Hin. rewrite <- Hin. by apply list_elem_of_fmap_2.
  - intros e He. exists i. split; [by left|by apply Ha].
Qed.

Lemma iface_loop_outcome sc x router ifs s `{!RouterIDs (scope_Client sc)} :
  wf_router router → NoDup (net <$> ifs) →
  snd <$> router_view (obj s) (RouterSpec_Name x) = Some (bool_decide (RouterSpec_UUID x = "")) →
  let m := foreach ifs (reconcileRouterInterface sc x router) in
  ∃ ws, wrote s (exec m s) ws ∧
        loop_outcome x ifs (Router_UUID router) (obj s) (obj (exec m s)) ws (result m s).
Proof.
  intros Hwf. revert s. induction ifs as [|i ifs IH]; intros s Hnd Hv; simpl.
  { exists []. split; [by apply wrote_same|]. split_and!; try done; by intros ? ?%not_elem_of_nil. }
  csimpl in Hnd. apply NoDup_cons in Hnd as [Hni Hnd].
  destruct (reconcileRouterInterface_step sc x router i s) as (ws1 & Hw1 & Hs1);
    [done|destruct (router_view (obj s) _); [by eauto|done]|].
  pose proof (iface_step_frame _ _ _ _ _ _ _ Hs1) as Hf1.
  pose proof (iface_step_outcome _ _ _ _ _ _ _ Hv Hs1) as Ho1.
  pose proof (iface_step_attach _ _ _ _ _ _ _ Hs1) as Ha1.
  assert (∀ r', result (reconcileRouterInterface sc x router i) s = Ok (Return r') → r' = requeue 5) as Hq.
  { intros r' Hr'. rewrite Hr' in Hs1. inversion Hs1; subst; try done.
    match goal with H : _ ∨ _ |- _ => destruct H as [[= ->]|[? [=]]] end. done. }
  unfold foreach; fold (@foreach World Event CloudscaleCluster RouterInterfaceSpec).
  unfold exec, result, bind in *.
  destruct (reconcileRouterInterface sc x router i s) as [[[r|[]]|e] s1] eqn:E; simpl in *.
  - exists ws1. split; [done|]. by apply loop_outcome_stop.
  - specialize (IH s1 Hnd) as (ws2 & Hw2 & Hf2 & Ho2 & Ha2 & Hq2).
    { destruct Hf1 as (_ & _ & Hv1 & _). by rewrite Hv1. }
    exists (ws1 ++ ws2). split; [by eapply wrote_trans|].
    assert (iface_entry (obj (foreach ifs (reconcileRouterInterface sc x router) s1).2)
              (RouterSpec_Name x) (net i) = iface_entry (obj s1) (RouterSpec_Name x) (net i)) as Hi2.
    { apply Hf2. by right. }
    assert (∀ j, j ∈ ifs → iface_entry (obj s1) (RouterSpec_Name x) (net j) =
              iface_entry (obj s) (RouterSpec_Name x) (net j)) as Hj1.
    { intros j Hj. apply Hf1. right. intros Hin%list_elem_of_singleton. apply Hni.
      rewrite <- Hin. by apply list_elem_of_fmap_2. }
    pose proof (proj1 (proj2 Hf1)) as Hn1.
    split_and!; [by eapply loop_frame_cons| | |done].
    + intros j [->|Hj]%elem_of_cons.
      * eapply iface_outcome_frame; [..|exact Ho1]; try done. by apply list_subseteq_app_l.
      * eapply iface_outcome_frame; [..|exact (Ho2 j Hj)]; try done; [by apply Hj1|].
        by apply list_subseteq_app_r.
    + intros e [He|He]%elem_of_app.
      * exists i. split; [by left|]. eapply attach_recorded_frame; [..|by apply Ha1]; done.
      * destruct (Ha2 e He) as (j & Hj & Hr). exists j. split; [by right|].
        by eapply attach_recorded_frame.
  - exists ws1. split; [done|]. by apply loop_outcome_stop.
Qed.
End iface_loop.

(** ** One router, and the loop over all routers *)

Section router_loop.
Context `{P : Platform}.
Implicit Types (sc : ClusterScope) (s : CState) (x : RouterSpec)
  (c : CloudscaleCluster) (ws : list Event).

(** Finding or creating the router itself. *)
Definition resolveRouter sc x : CM (option Router * Result) :=
  if RouterSpec_UUID x != "" then
    let! router := adoptRouter sc x in ret (Some router, emptyResult)
  else ensureManagedRouter sc x.

Definition router_create (e : Event) : Prop := ∃ req r, e = ECreate (CRouter req) r.

Lemma resolveRouter_post sc x `{!RouterIDs (scope_Client sc)} :
  post (resolveRouter sc x) (λ s r s',
    obj s' = obj s ∧
    (∃ ws, wrote s s' ws ∧ Forall router_create ws ∧ (RouterSpec_UUID x ≠ "" → ws = [])) ∧
    match r with
    | Ok (router, res) =>
        (res = emptyResult ∧ ∃ rt, router = Some rt ∧ wf_router rt) ∨ res = requeue 5
    | Err e => e ≠ nilDereference
    end).
Proof.
  intros s. unfold resolveRouter. case_bool_decide as Hu; simpl.
  - unfold ensureManagedRouter. rewrite exec_get, result_get. unfold sdk_Create, Eventf. go_run.
    match goal with |- context [ensureResource ?k ?svc ?u ?id ?n ?t s] =>
      pose proof (wrote_reads (ensureResource k svc u id n t) s (ensureResource_reads_only _ _ _ _ _ _)) as Hw;
      pose proof (ensureResource_ensured k svc u id n t s) as [Ho (evs & _ & He)];
      pose proof (λ y id', ensureResource_returns k svc u wf_router id n t s y id') as Hwf;
      unfold exec, result in Hw, Ho, He;
      destruct (ensureResource k svc u id n t s) as [[[rt rid]|e] s1] eqn:E end; simpl in *.
    2:{ split; [done|]. split; [by exists []|done]. }
    case_bool_decide as Hid; simpl.
    + destruct (svc_Create _ _ _) as [[rt'|e] w] eqn:Ec; simpl.
      * split; [done|]. split.
        -- eexists. split; [eapply wrote_trans; [done|solve_wrote]|].
           split; [repeat constructor; by eexists _, _|done].
        -- left. split; [done|]. eexists. split; [done|]. by eapply router_create_wf.
      * unfold requeueOnTimeout. destruct (IsTimeoutError e); simpl;
          (split; [done|]); (split; [|auto]);
          (eexists; split; [eapply wrote_trans; [done|solve_wrote]|]);
          (split; [repeat constructor; by eexists _, _|done]).
    + split; [done|]. split; [by exists []|]. left. split; [done|].
      destruct (ensured_nonempty _ _ _ _ _ _ _ He Hid) as [y ->]. exists y. split; [done|].
      eapply Hwf; [apply router_get_wf|apply router_list_wf|done].
  - unfold adoptRouter, sdk_Get. go_run.
    destruct (svc_Get _ _ _) as [[rt|e] w] eqn:E; simpl.
    2:{ split; [done|]. split; [|done]. exists []. split; [solve_wrote|done]. }
    case_bool_decide; simpl; (split; [done|]); (split; [exists []; split; [solve_wrote|done]|]); [|done].
    left. split; [done|]. eexists. split; [done|]. by eapply router_get_wf.
Qed.

(** Two objects say the same about router [n]. *)
Definition agree (n : string) c c' : Prop :=
  spec c' = spec c ∧
  CloudscaleClusterStatus_Networks (status c') = CloudscaleClusterStatus_Networks (status c) ∧
  router_view c' n = router_view c n ∧
  (∀ t, iface_entry c' n t = iface_entry c n t).

#[global] Instance agree_equivalence n : Equivalence (agree n).
Proof.
  split.
  - by intros c.
  - intros c c' (? & ? & ? & ?). by split_and!.
  - intros c1 c2 c3 (? & ? & ? & Ha) (? & ? & ? & Hb).
    split_and!; [congruence..|]. intros t. by rewrite Hb.
Qed.

(** What a run says about one router of the spec. *)
Definition router_turn x c c' ws (dn : Prop) : Prop :=
  (agree (RouterSpec_Name x) c c' ∧ ¬ dn) ∨
  ∃ rid, rid ≠ "" ∧
    router_view c' (RouterSpec_Name x) = Some (rid, bool_decide (RouterSpec_UUID x = "")) ∧
    (∀ i, i ∈ RouterSpec_Interfaces x → iface_outcome x i rid dn c c' ws) ∧
    (∀ t, t ∉ (RouterInterfaceSpec_Network <$> RouterSpec_Interfaces x) →
          iface_entry c' (RouterSpec_Name x) t = iface_entry c (RouterSpec_Name x) t).

(** What a write of a run is: the creation of a router the spec does not
    adopt, or an attachment that the final status records as managed. *)
Definition router_write x c c' (e : Event) : Prop :=
  (RouterSpec_UUID x = "" ∧ router_create e) ∨
  ∃ rid i, i ∈ RouterSpec_Interfaces x ∧
    fst <$> router_view c' (RouterSpec_Name x) = Some rid ∧ attach_recorded x i rid c c' e.

Lemma router_turn_proper x c0 c c' c'' ws ws' (dn dn' : Prop) :
  agree (RouterSpec_Name x) c0 c → agree (RouterSpec_Name x) c' c'' → ws ⊆ ws' → (dn' → dn) →
  router_turn x c c' ws dn → router_turn x c0 c'' ws' dn'.
Proof.
  intros H0 H1 Hws Hdn [[Ha Hn]|(rid & Hrid & Hv & Hi & Ht)].
  - left. split; [|auto]. by etrans; [|etrans].
  - right. destruct H0 as (_ & Hn0 & _ & He0), H1 as (_ & _ & Hv1 & He1).
    exists rid. split_and!; [done|congruence| |].
    + intros i Hin. eapply iface_outcome_frame; [..|exact (Hi i Hin)]; auto.
    + intros t Hnt. by rewrite He1, Ht.
Qed.

Lemma router_write_proper x c0 c c' c'' e :
  agree (RouterSpec_Name x) c0 c → agree (RouterSpec_Name x) c' c'' →
  router_write x c c' e → router_write x c0 c'' e.
Proof.
  intros (_ & Hn0 & _ & _) (_ & _ & Hv1 & He1) [?|(rid & i & Hi & Hv & Ha)]; [by left|right].
  exists rid, i. split_and!; [done|by rewrite Hv1|]. eapply attach_recorded_frame; [..|exact Ha]; auto.
Qed.

Lemma agree_setRouterStatus x rid c n :
  n ≠ RouterSpec_Name x → agree n c (setRouterStatus x rid c).
Proof.
  intros Hn. split_and!; [done|done|by apply router_view_set_ne|]. intros t. apply iface_entry_set.
Qed.

Lemma reconcileRouterInterfaces_outcome sc x rt s `{!RouterIDs (scope_Client sc)} :
  wf_router rt → NoDup (RouterInterfaceSpec_Network <$> RouterSpec_Interfaces x) →
  router_view (obj s) (RouterSpec_Name x) =
    Some (Router_UUID rt, bool_decide (RouterSpec_UUID x = "")) →
  let m := reconcileRouterInterfaces sc x rt in
  ∃ ws, wrote s (exec m s) ws ∧
    loop_frame x (RouterSpec_Interfaces x) (obj s) (obj (exec m s)) ∧
    (∀ i, i ∈ RouterSpec_Interfaces x →
       iface_outcome x i (Router_UUID rt) (result m s = Ok emptyResult) (obj s) (obj (exec m s)) ws) ∧
    (∀ e, e ∈ ws → ∃ i, i ∈ RouterSpec_Interfaces x ∧
       attach_recorded x i (Router_UUID rt) (obj s) (obj (exec m s)) e).
Proof.
  intros Hwf Hnd Hv. unfold reconcileRouterInterfaces. cbv zeta. rewrite exec_get, result_get.
  destruct (view_entry (obj s) (RouterSpec_Name x)) as [rs ->]; [by rewrite Hv|].
  destruct (iface_loop_outcome sc x rt (RouterSpec_Interfaces x) s) as (ws & Hw & Hf & Hi & Ha & Hq);
    [done|done|by rewrite Hv|].
  exists ws. unfold exec, result, bind_flow, bind, ret in *.
  destruct (foreach _ _ s) as [[[r|[]]|e] s1]; simpl in *; (split_and!; [done|done| |done]);
    intros i Hin; specialize (Hi i Hin); eapply iface_outcome_frame; try exact Hi; try done.
  by specialize (Hq _ eq_refl) as ->.
Qed.

Lemma reconcileRouter_turn sc x s `{!RouterIDs (scope_Client sc)} :
  NoDup (RouterInterfaceSpec_Network <$> RouterSpec_Interfaces x) →
  let m := reconcileRouter sc x in let c' := obj (exec m s) in
  (∀ n, n ≠ RouterSpec_Name x → agree n (obj s) c') ∧
  (∃ ws, wrote s (exec m s) ws ∧
     router_turn x (obj s) c' ws (result m s = Ok emptyResult) ∧
     (∀ e, e ∈ ws → router_write x (obj s) c' e)).
Proof.
  intros Hnd. unfold reconcileRouter. fold (resolveRouter sc x).
  pose proof (resolveRouter_post sc x s) as (Ho1 & (ws1 & Hw1 & Hc1 & Hu1) & Hr1).
  assert (∀ c' e, e ∈ ws1 → router_write x (obj s) c' e) as Hcreate.
  { intros c' e He. left. split.
    - destruct (decide (RouterSpec_UUID x = "")) as [?|Hu]; [done|].
      rewrite (Hu1 Hu) in He. by apply not_elem_of_nil in He.
    - rewrite Forall_forall in Hc1. by apply Hc1. }
  unfold exec, result in *. cbv zeta.
  destruct (resolveRouter sc x s) as [[[router res]|e] s1] eqn:E1; simpl in *.
  2:{ rewrite !(bind_err _ _ _ _ _ E1). simpl. rewrite Ho1.
      split; [done|]. exists ws1. split_and!; [done|by left|auto]. }
  rewrite !(bind_ok _ _ _ _ _ E1). unfold bind, deref, modify, ret.
  destruct Hr1 as [[-> (rt & -> & Hwf)]| ->]; simpl.
  2:{ rewrite Ho1. split; [done|]. exists ws1. split_and!; [done|by left|auto]. }
  set (s2 := mkSt (setRouterStatus x (Router_UUID rt) (obj s1)) (world s1) (log s1)).
  assert (wrote s s2 ws1) as Hw12 by (by destruct Hw1 as (evs & ? & ?); exists evs).
  assert (∀ t, iface_entry (obj s2) (RouterSpec_Name x) t = iface_entry (obj s) (RouterSpec_Name x) t)
    as He2 by (intros t; unfold s2; simpl; by rewrite iface_entry_set, Ho1).
  assert (∀ n, n ≠ RouterSpec_Name x → agree n (obj s) (obj s2)) as Hag2.
  { rewrite <- Ho1. intros. by apply agree_setRouterStatus. }
  assert (router_view (obj s2) (RouterSpec_Name x) =
            Some (Router_UUID rt, bool_decide (RouterSpec_UUID x = ""))) as Hv2
    by apply router_view_set_eq.
  assert (CloudscaleClusterStatus_Networks (status (obj s2)) =
          CloudscaleClusterStatus_Networks (status (obj s))) as Hn2 by (by rewrite <- Ho1).
  destruct (bool_decide (Router_Status rt = RouterActive)) eqn:Hact; simpl.
  2:{ split; [done|]. exists ws1. split_and!; [done| |auto]. right.
      exists (Router_UUID rt). split_and!; [by apply Hwf|done| |done].
      intros i _. left. by rewrite He2. }
  destruct (reconcileRouterInterfaces_outcome sc x rt s2) as (ws2 & Hw2 & (? & ? & Hv & Hent) & Hi2 & Ha2);
    [done..|]. unfold exec, result in *.
  destruct (reconcileRouterInterfaces sc x rt s2) as [r s3]; simpl in *.
  split; [|exists (ws1 ++ ws2); split_and!].
  - intros n Hn. etrans; [by apply Hag2|]. split_and!; [done..|]. intros t. apply Hent. by left.
  - by eapply wrote_trans.
  - right. exists (Router_UUID rt). split_and!; [by apply Hwf|by rewrite Hv| |].
    + intros i Hi. eapply iface_outcome_frame; [..|exact (Hi2 i Hi)]; try done.
      by apply list_subseteq_app_r.
    + intros t Ht. rewrite Hent by (by right). done.
  - intros e [He|He]%elem_of_app; [by apply Hcreate|].
    destruct (Ha2 e He) as (i & Hi & Ha). right. exists (Router_UUID rt), i.
    split_and!; [done|by rewrite Hv, Hv2|]. by eapply attach_recorded_frame.
Qed.

(** *** The loop over all routers *)

Definition routerStep sc (result : Result) x : CM Result :=
  let! res := wrap ("reconciling router " +:+ quote (RouterSpec_Name x) +:+ ": ")
                (reconcileRouter sc x) in
  ret (lowerResult result res).

Lemma routerStep_run sc acc x s :
  routerStep sc acc x s =
    match reconcileRouter sc x s with
    | (Ok res, s') => (Ok (lowerResult acc res), s')
    | (Err e, s') =>
        (Err (wrapError ("reconciling router " +:+ quote (RouterSpec_Name x) +:+ ": ") e), s')
    end.
Proof. unfold routerStep, bind, wrap, ret. by destruct (reconcileRouter sc x s) as [[]]. Qed.

Lemma IsZero_empty r : IsZero r = true → r = emptyResult.
Proof. destruct r as [z]. unfold IsZero. simpl. by intros ->%Z.eqb_eq. Qed.

Lemma lowerResult_zero r r' : lowerResult r r' = emptyResult → r = emptyResult ∧ r' = emptyResult.
Proof.
  unfold lowerResult. destruct (IsZero r') eqn:E'; simpl.
  - intros ->. split; [done|]. by apply IsZero_empty.
  - destruct (IsZero r) eqn:E; simpl; [intros ->; done|].
    destruct (_ <? _)%Z; intros ->; done.
Qed.

Lemma routers_loop sc xs acc s `{!RouterIDs (scope_Client sc)} :
  NoDup (RouterSpec_Name <$> xs) →
  (∀ x, x ∈ xs → NoDup (RouterInterfaceSpec_Network <$> RouterSpec_Interfaces x)) →
  let m := foldM (routerStep sc) xs acc in let c' := obj (exec m s) in
  (∀ n, n ∉ (RouterSpec_Name <$> xs) → agree n (obj s) c') ∧
  ∃ ws, wrote s (exec m s) ws ∧
    (∀ x, x ∈ xs → router_turn x (obj s) c' ws (result m s = Ok emptyResult)) ∧
    (∀ e, e ∈ ws → ∃ x, x ∈ xs ∧ router_write x (obj s) c' e) ∧
    (result m s = Ok emptyResult → acc = emptyResult).
Proof.
  revert acc s. induction xs as [|x xs IH]; intros acc s Hnd Hifs; simpl.
  { split; [done|]. exists []. split; [by apply wrote_same|].
    split_and!; [by intros ? ?%not_elem_of_nil..|]. by intros [= ->]. }
  csimpl in Hnd. apply NoDup_cons in Hnd as [Hnx Hnd].
  destruct (reconcileRouter_turn sc x s) as (Hag1 & ws1 & Hw1 & Ht1 & He1); [apply Hifs; by left|].
  cbv zeta. rewrite foldM_cons.
  assert (∀ y, y ∈ xs → RouterSpec_Name y ≠ RouterSpec_Name x) as Hne.
  { intros y Hy Heq. apply Hnx. rewrite <- Heq. by apply list_elem_of_fmap_2. }
  pose proof (routerStep_run sc acc x s) as Hrun. unfold exec, result in *.
  destruct (reconcileRouter sc x s) as [[res|e] s1] eqn:E; simpl in *;
    [rewrite !(bind_ok _ _ _ _ _ Hrun)|rewrite !(bind_err _ _ _ _ _ Hrun)].
  - destruct (IH (lowerResult acc res) s1 Hnd) as (Hag2 & ws2 & Hw2 & Ht2 & He2 & Hz2).
    { intros y Hy. apply Hifs. by right. }
    destruct (foldM (routerStep sc) xs (lowerResult acc res) s1) as [r s2]; simpl in *.
    split; [|exists (ws1 ++ ws2); split_and!].
    + intros n Hn. etrans; [apply Hag1; intros ->|apply Hag2; intros Hin]; apply Hn, elem_of_cons; auto.
    + by eapply wrote_trans.
    + intros y [->|Hy]%elem_of_cons.
      * eapply router_turn_proper; [..|exact Ht1]; [done|by apply Hag2|by apply list_subseteq_app_l|].
        intros Hr. specialize (Hz2 Hr). apply lowerResult_zero in Hz2 as [_ ->]. done.
      * eapply router_turn_proper; [..|exact (Ht2 y Hy)]; [by apply Hag1, Hne|done| |done].
        by apply list_subseteq_app_r.
    + intros e [He|He]%elem_of_app.
      * exists x. split; [by left|]. eapply router_write_proper; [..|exact (He1 e He)]; [done|by apply Hag2].
      * destruct (He2 e He) as (y & Hy & Hwr). exists y. split; [by right|].
        eapply router_write_proper; [..|exact Hwr]; [by apply Hag1, Hne|done].
    + intros Hr. specialize (Hz2 Hr). by apply lowerResult_zero in Hz2 as [-> _].
  - split; [|exists ws1; split_and!; [done|..|done]].
    + intros n Hn. apply Hag1. intros ->. apply Hn. csimpl. by left.
    + intros y [->|Hy]%elem_of_cons; [by eapply router_turn_proper; [..|exact Ht1]|]. left. split; [|done]. apply Hag1. by apply Hne.
    + intros e' He'. exists x. split; [by left|by apply He1].
Qed.
End router_loop.

(** ** Provisioning: the theorems *)

Section router_theorems.
Context `{P : Platform}.
Implicit Types (sc : ClusterScope) (s : CState) (x : RouterSpec) (c : CloudscaleCluster).

(** Router names, and the networks of a router's interfaces, are unique: both
    lists are list-maps of the API schema with these keys. *)
Definition unique_routers (xs : list RouterSpec) : Prop :=
  NoDup (RouterSpec_Name <$> xs) ∧
  Forall (λ x, NoDup (RouterInterfaceSpec_Network <$> RouterSpec_Interfaces x)) xs.

#[global] Instance unique_routers_dec xs : Decision (unique_routers xs).
Proof. apply _. Defined.

Lemma agree_setCondition n t st rs msg c : agree n c (setCondition t st rs msg c).
Proof. done. Qed.

(** The deferred condition changes neither the writes nor the routers. *)
Lemma reconcileRouters_loop sc s `{!RouterIDs (scope_Client sc)} :
  let xs := CloudscaleClusterSpec_Routers (spec (obj s)) in
  let m := reconcileRouters sc in let c' := obj (exec m s) in
  unique_routers xs →
  (∀ n, n ∉ (RouterSpec_Name <$> xs) → agree n (obj s) c') ∧
  ∃ ws, wrote s (exec m s) ws ∧
    (∀ x, x ∈ xs → router_turn x (obj s) c' ws (result m s = Ok emptyResult)) ∧
    (∀ e, e ∈ ws → ∃ x, x ∈ xs ∧ router_write x (obj s) c' e).
Proof.
  intros xs m c' [Hnd Hifs]. rewrite Forall_forall in Hifs. subst m c'.
  destruct (routers_loop sc xs emptyResult s Hnd Hifs) as (Hag & ws & Hw & Ht & He & _).
  unfold reconcileRouters, reconcileRoutersLoop, exec, result, deferred in *.
  rewrite !bind_get. fold (routerStep sc). fold xs.
  change (λ (result : Result) (routerSpec : RouterSpec), _) with (routerStep sc).
  destruct (foldM (routerStep sc) xs emptyResult s) as [r s1]; simpl in *.
  assert (∀ n, agree n (obj s1) (match r with
    | Ok result => if negb (IsZero result) then
        setCondition RouterReadyCondition ConditionFalse RouterNotReadyReason
              "Waiting for routers to become available" (obj s1)
          else match CloudscaleClusterSpec_Routers (spec (obj s1)) with
               | [] => setCondition RouterReadyCondition ConditionTrue RouterDisabledReason "" (obj s1)
               | _ => setCondition RouterReadyCondition ConditionTrue RouterProvisionedReason "" (obj s1)
               end
    | Err e => setCondition RouterReadyCondition ConditionFalse RouterErrorReason (Error e) (obj s1)
    end)) as Hset.
  { intros n. by repeat case_match. }
  split; [intros n Hn; by etrans; [apply Hag|apply Hset]|].
  exists ws. split_and!; [done|..].
  - intros x Hx. eapply router_turn_proper; [..|exact (Ht x Hx)]; [done|apply Hset|done|done].
  - intros e Hin. destruct (He e Hin) as (x & Hx & Hwr). exists x. split; [done|].
    eapply router_write_proper; [..|exact Hwr]; [done|apply Hset].
Qed.

(** When [reconcileRouters] finishes without an error and without asking
    for a requeue, every router of the spec is recorded with a non-empty
    identifier and its owner, and every interface of every router is recorded
    with a non-empty identifier. *)
Lemma reconcileRouters_provisions sc s `{!RouterIDs (scope_Client sc)} :
  unique_routers (CloudscaleClusterSpec_Routers (spec (obj s))) →
  result (reconcileRouters sc) s = Ok emptyResult →
  ∀ x, x ∈ CloudscaleClusterSpec_Routers (spec (obj s)) →
  let c' := obj (exec (reconcileRouters sc) s) in
  (∃ rid, rid ≠ "" ∧
     router_view c' (RouterSpec_Name x) = Some (rid, bool_decide (RouterSpec_UUID x = ""))) ∧
  ∀ i, i ∈ RouterSpec_Interfaces x → ∃ id, id ≠ "" ∧
    iface_entry c' (RouterSpec_Name x) (RouterInterfaceSpec_Network i) =
      Some (mkRouterInterfaceStatus (RouterInterfaceSpec_Network i) id
              (bool_decide (RouterInterfaceSpec_UUID i = ""))).
Proof.
  intros Hu Hr x Hx c'. destruct (reconcileRouters_loop sc s Hu) as (_ & ws & _ & Ht & _).
  destruct (Ht x Hx) as [[_ []]|(rid & Hrid & Hv & Hi & _)]; [done|].
  split; [by eauto|]. intros i Hin. destruct (Hi i Hin) as [[_ []]|(id & He & Hid & _)]; [done|].
  exists id. split; [by apply Hid|done].
Qed.

(** C31. Write-ahead: every write of [reconcileRouters] creates a router the
    spec does not adopt, or attaches an interface the spec does not adopt, and
    such an attachment is recorded as managed under its router and network
    when the reconcile ends, whatever the outcome: a created interface whose
    answer was lost is not forgotten. *)
Theorem reconcileRouters_write_ahead sc s `{!RouterIDs (scope_Client sc)} :
  unique_routers (CloudscaleClusterSpec_Routers (spec (obj s))) →
  ∀ e, e ∈ calls_of (reconcileRouters sc) s → is_write e = true →
  ∃ x, x ∈ CloudscaleClusterSpec_Routers (spec (obj s)) ∧
       router_write x (obj s) (obj (exec (reconcileRouters sc) s)) e.
Proof.
  intros Hu e He Hwr. destruct (reconcileRouters_loop sc s Hu) as (_ & ws & (evs & Hl & <-) & _ & Ha).
  apply Ha. apply list_elem_of_filter. split; [done|].
  unfold calls_of in He. by rewrite Hl, drop_app_length in He.
Qed.

(** An adopted router's own interfaces are never taken over: an entry that
    a reconcile leaves marked as managed under a router adopted by UUID was
    recorded before the reconcile, or the reconcile attached it itself. *)
Theorem reconcileRouters_no_foreign_claim sc s `{!RouterIDs (scope_Client sc)} :
  let c := obj s in let c' := obj (exec (reconcileRouters sc) s) in
  unique_routers (CloudscaleClusterSpec_Routers (spec c)) →
  ∀ x t e, x ∈ CloudscaleClusterSpec_Routers (spec c) → RouterSpec_UUID x ≠ "" →
  iface_entry c' (RouterSpec_Name x) t = Some e → RouterInterfaceStatus_Managed e = true →
  is_Some (iface_entry c (RouterSpec_Name x) t) ∨
  ∃ rid i ns r, fst <$> router_view c' (RouterSpec_Name x) = Some rid ∧
    i ∈ RouterSpec_Interfaces x ∧ RouterInterfaceSpec_Network i = t ∧
    EInterfaceCreate rid (attach_request i ns) r ∈ calls_of (reconcileRouters sc) s.
Proof.
  intros c c' Hu x t e Hx Hux He Hm.
  destruct (reconcileRouters_loop sc s Hu) as (_ & ws & (evs & Hl & <-) & Ht & _).
  destruct (Ht x Hx) as [[(_ & _ & _ & Ha) _]|(rid & Hrid & Hv & Hi & Hot)].
  { left. unfold c' in He. rewrite Ha in He. by eauto. }
  destruct (decide (t ∈ (RouterInterfaceSpec_Network <$> RouterSpec_Interfaces x))) as [Hin|Hin].
  2:{ left. unfold c' in He. rewrite Hot in He by done. by eauto. }
  apply list_elem_of_fmap in Hin as (i & -> & Hin).
  destruct (Hi i Hin) as [[Heq _]|(id & Heq & _ & Hp)]; unfold c' in He; rewrite Heq in He.
  { left. by eauto. }
  simplify_eq/=. go_bools. destruct (Hp Hm) as [?|[?|(ns & r & _ & Hev)]]; [by left|done|right].
  exists rid, i, ns, r. split_and!; [by unfold c'; rewrite Hv|done|done|].
  apply list_elem_of_filter in Hev as [_ Hev]. unfold calls_of. by rewrite Hl, drop_app_length.
Qed.

(** The status says "managed" exactly for the routers and the interfaces of the
    spec that have no UUID. *)
Definition routers_ownership (xs : list RouterSpec) c : Prop :=
  ∀ x, x ∈ xs →
    (∀ v, router_view c (RouterSpec_Name x) = Some v → v.2 = bool_decide (RouterSpec_UUID x = "")) ∧
    (∀ i e, i ∈ RouterSpec_Interfaces x →
       iface_entry c (RouterSpec_Name x) (RouterInterfaceSpec_Network i) = Some e →
       RouterInterfaceStatus_Managed e = bool_decide (RouterInterfaceSpec_UUID i = "")).

(** Whatever its outcome, [reconcileRouters] keeps the record of who owns
    what right. *)
Theorem reconcileRouters_ownership sc s `{!RouterIDs (scope_Client sc)} :
  let xs := CloudscaleClusterSpec_Routers (spec (obj s)) in
  unique_routers xs → routers_ownership xs (obj s) →
  routers_ownership xs (obj (exec (reconcileRouters sc) s)).
Proof.
  intros xs Hu Ho x Hx. destruct (Ho x Hx) as [Hov Hoi].
  destruct (reconcileRouters_loop sc s Hu) as (_ & ws & _ & Ht & _).
  destruct (Ht x Hx) as [[(_ & _ & Hv & Ha) _]|(rid & Hrid & Hv & Hi & Hot)]; rewrite Hv.
  { split; [done|]. intros i e Hin. rewrite Ha. by apply Hoi. }
  split; [by intros v [= <-]|]. intros i e Hin He.
  destruct (Hi i Hin) as [[Heq _]|(id & Heq & _ & _)]; rewrite Heq in He; [by apply Hoi|].
  by simplify_eq.
Qed.

Lemma recordInterface_keeps_spec name net id m :
  respects (keeps spec) (recordInterface name net id m).
Proof.
  intros s. unfold exec, keeps. rewrite recordInterface_run. simpl.
  unfold setRouterInterfaceStatus. by repeat case_match.
Qed.

Lemma routerStep_keeps_spec sc acc x : respects (keeps spec) (routerStep sc acc x).
Proof.
  unfold routerStep, reconcileRouter, adoptRouter, ensureManagedRouter, reconcileRouterInterfaces,
    reconcileRouterInterface, adoptRouterInterface, claimRouterInterface, createRouterInterface,
    sdk_Get, sdk_Create, Eventf.
  frame; try apply ensureResource_keeps; try apply recordInterface_keeps_spec; done.
Qed.

(** The condition that [reconcileRouters] leaves. *)
Lemma reconcileRouters_reports sc s :
  conditionOf (obj (exec (reconcileRouters sc) s)) RouterReadyCondition =
    Some (match result (reconcileRouters sc) s with
          | Err e => mkCondition RouterReadyCondition ConditionFalse RouterErrorReason (Error e)
          | Ok r =>
              if IsZero r then
                mkCondition RouterReadyCondition ConditionTrue
                  (match CloudscaleClusterSpec_Routers (spec (obj s)) with
                   | [] => RouterDisabledReason | _ => RouterProvisionedReason end) ""
              else mkCondition RouterReadyCondition ConditionFalse RouterNotReadyReason
                     "Waiting for routers to become available"
          end).
Proof.
  pose proof (respects_foldM (keeps spec) (routerStep sc)
    (CloudscaleClusterSpec_Routers (spec (obj s))) emptyResult) as Hk.
  specialize (Hk ltac:(intros; apply routerStep_keeps_spec) s).
  unfold reconcileRouters, reconcileRoutersLoop, exec, result, deferred, keeps in *.
  rewrite bind_get. change (λ (result : Result) (routerSpec : RouterSpec), _) with (routerStep sc).
  destruct (foldM (routerStep sc) _ emptyResult s) as [[r|e] s1]; simpl in *;
    [|apply conditionOf_set_eq]. rewrite Hk.
  destruct (IsZero r); simpl; [|apply conditionOf_set_eq].
  destruct (CloudscaleClusterSpec_Routers _); apply conditionOf_set_eq.
Qed.
(** RouterReady is True exactly when [reconcileRouters] returned without
    an error and with nothing to wait for; it says "disabled" when the spec has
    no routers, and a pending creation is reported as not ready. *)
Theorem reconcileRouters_condition sc s :
  conditionOf (obj (exec (reconcileRouters sc) s)) RouterReadyCondition =
    Some (match result (reconcileRouters sc) s with
          | Err e => mkCondition RouterReadyCondition ConditionFalse RouterErrorReason (Error e)
          | Ok r =>
              if IsZero r then
                mkCondition RouterReadyCondition ConditionTrue
                  (match CloudscaleClusterSpec_Routers (spec (obj s)) with
                   | [] => RouterDisabledReason | _ => RouterProvisionedReason end) ""
              else mkCondition RouterReadyCondition ConditionFalse RouterNotReadyReason
                     "Waiting for routers to become available"
          end).
Proof. apply reconcileRouters_reports. Qed.
End router_theorems.

(** ** Deletion *)

Section router_deletion.
Context `{P : Platform}.
Implicit Types (sc : ClusterScope) (s : CState) (rs : RouterStatus) (c : CloudscaleCluster).

Definition routers_of c : list RouterStatus := CloudscaleClusterStatus_Routers (status c).

(** A write the deletion of router [rs] may make: detach an interface recorded
    as managed, by its identifier or, when the identifier was never learnt, by
    what is found on its network; delete the router if it is managed. *)
Definition router_deletable rs (e : Event) : Prop :=
  is_write e = true →
  (∃ iface id r, iface ∈ RouterStatus_Interfaces rs ∧ RouterInterfaceStatus_Managed iface = true ∧
     (RouterInterfaceStatus_InterfaceID iface = id ∨ RouterInterfaceStatus_InterfaceID iface = "") ∧
     e = EInterfaceDelete (RouterStatus_RouterID rs) id r) ∨
  (RouterStatus_Managed rs = true ∧ ∃ r, e = EDelete KRouter (RouterStatus_RouterID rs) r).

Lemma deleteInterfaceStep_calls sc rs router acc iface :
  iface ∈ RouterStatus_Interfaces rs →
  respects (emits (router_deletable rs)) (deleteInterfaceStep sc rs router acc iface).
Proof.
  intros Hin. unfold deleteInterfaceStep. destruct acc as [remaining errs].
  frame; go_bools. intros _. left. eexists iface, _, _. split_and!; try done.
  case_bool_decide; [by right|by left].
Qed.

(** What [deleteRouterInterfaces] returns: the entry with its name, identifier
    and owner, and a sublist of its interfaces' networks; with no errors, only
    interfaces that are not managed. *)
Definition pruned rs rs' (errs : list error) : Prop :=
  RouterStatus_Name rs' = RouterStatus_Name rs ∧
  RouterStatus_RouterID rs' = RouterStatus_RouterID rs ∧
  RouterStatus_Managed rs' = RouterStatus_Managed rs ∧
  (∀ i, i ∈ RouterStatus_Interfaces rs' → ∃ j, j ∈ RouterStatus_Interfaces rs ∧
     RouterInterfaceStatus_Network i = RouterInterfaceStatus_Network j ∧
     RouterInterfaceStatus_Managed i = RouterInterfaceStatus_Managed j) ∧
  (errs = [] → ∀ i, i ∈ RouterStatus_Interfaces rs' → RouterInterfaceStatus_Managed i = false).

(** The invariant of the detach loop. *)
Definition detach_invariant (pre : list RouterInterfaceStatus)
    (acc : list RouterInterfaceStatus * list error) s : Prop :=
  (∀ i, i ∈ acc.1 → ∃ j, j ∈ pre ∧
     RouterInterfaceStatus_Network i = RouterInterfaceStatus_Network j ∧
     RouterInterfaceStatus_Managed i = RouterInterfaceStatus_Managed j) ∧
  (acc.2 = [] → ∀ i, i ∈ acc.1 → RouterInterfaceStatus_Managed i = false).

Lemma deleteInterfaceStep_invariant sc rs router pre iface acc acc' s :
  detach_invariant pre acc s →
  result (deleteInterfaceStep sc rs router acc iface) s = Ok acc' →
  detach_invariant (pre ++ [iface]) acc' (exec (deleteInterfaceStep sc rs router acc iface) s).
Proof.
  destruct acc as [rem errs]. intros [Hin Hok]. simpl in *.
  assert (∀ s', detach_invariant (pre ++ [iface]) (rem, errs) s') as Hdrop.
  { intros s'. split; [|done]. intros i Hi. destruct (Hin i Hi) as (j & ? & ?).
    exists j. split; [apply elem_of_app; by left|done]. }
  assert (∀ i' errs' s', RouterInterfaceStatus_Network i' = RouterInterfaceStatus_Network iface →
    RouterInterfaceStatus_Managed i' = RouterInterfaceStatus_Managed iface →
    (errs' = [] → errs = [] ∧ RouterInterfaceStatus_Managed iface = false) →
    detach_invariant (pre ++ [iface]) (rem ++ [i'], errs') s') as Hkeep.
  { intros i' errs' s' Hn Hm He. split; simpl.
    - intros i [Hi| ->%list_elem_of_singleton]%elem_of_app.
      + destruct (Hin i Hi) as (j & ? & ?). exists j. split; [apply elem_of_app; by left|done].
      + exists iface. split; [apply elem_of_app; right; by left|done].
    - intros Hnil. destruct (He Hnil) as [-> Hf]. intros i [Hi| ->%list_elem_of_singleton]%elem_of_app;
        [by apply Hok|congruence]. }
  unfold deleteInterfaceStep. go_run.
  destruct (RouterInterfaceStatus_Managed iface) eqn:Em; simpl; [|intros [= <-]; by apply Hkeep].
  destruct (index_by _ _ !! _); simpl; [|by intros [= <-]].
  destruct (router_DeleteInterface _ _ _ _) as [[[]|e] w]; simpl; [by intros [= <-]|].
  destruct (IsNotFound e); simpl; intros [= <-]; [done|]. apply Hkeep; [done|done|].
  by intros [_ ?]%app_eq_nil.
Qed.

Lemma deleteRouterInterfaces_post sc rs :
  post (deleteRouterInterfaces sc rs) (λ s r s',
    obj s' = obj s ∧ emits (router_deletable rs) s s' ∧
    ∃ rs' errs, r = Ok (rs', errs) ∧ pruned rs rs' errs).
Proof.
  intros s. split; [|split].
  - assert (respects (keeps id) (deleteRouterInterfaces sc rs)) as H; [|apply H].
    unfold deleteRouterInterfaces, deleteInterfaceStep, sdk_Get. frame.
  - assert (respects (emits (router_deletable rs)) (deleteRouterInterfaces sc rs)) as H; [|apply H].
    unfold deleteRouterInterfaces, sdk_Get. frame; [done|by apply deleteInterfaceStep_calls].
  - unfold deleteRouterInterfaces.
    destruct (hasManagedInterface rs) eqn:Hm; simpl.
    2:{ exists rs, []. split; [done|]. split_and!; try done; [by eauto|].
        intros _ i Hi. destruct (RouterInterfaceStatus_Managed i) eqn:Ei; [|done].
        assert (hasManagedInterface rs = true) as Ht; [|congruence].
        apply existsb_exists. exists i. split; [by apply list_elem_of_In|done]. }
    unfold sdk_Get. go_run.
    destruct (svc_Get _ _ _) as [[router|e] w]; simpl.
    2:{ destruct (IsNotFound e); simpl; eexists _, _; (split; [done|]); split_and!; simpl; try done;
          first [by intros ? ?%not_elem_of_nil|by intros ? ? ?%not_elem_of_nil|by eauto]. }
    pose proof (foldM_ind detach_invariant (deleteInterfaceStep sc rs router)
      (RouterStatus_Interfaces rs) [] ([], [])) as Hf.
    assert (∀ l acc s, ∃ acc', result (foldM (deleteInterfaceStep sc rs router) l acc) s = Ok acc') as Htot.
    { intros l. induction l as [|i l IH]; intros acc s1; [by eexists|].
      rewrite foldM_cons. unfold result, bind.
      assert (∃ acc1 s2, deleteInterfaceStep sc rs router acc i s1 = (Ok acc1, s2)) as (acc1 & s2 & ->);
        [|apply IH].
      destruct acc. unfold deleteInterfaceStep. go_run. repeat case_match; by eauto. }
    destruct (Htot (RouterStatus_Interfaces rs) ([], [])
      (mkSt (obj s) w (log s ++ [EGet KRouter (RouterStatus_RouterID rs) (Ok ())]))) as [[rem errs] Hr].
    eapply Hf in Hr as Hinv.
    + unfold result in Hr. destruct (foldM _ _ _ _) as [r s2]; simpl in *. subst r.
      eexists _, _. split; [done|]. destruct Hinv as [Hin Hok]. unfold pruned. simpl. by split_and!.
    + intros pre i b b' s' _. apply deleteInterfaceStep_invariant.
    + split; [by intros ? ?%not_elem_of_nil|by intros _ ? ?%not_elem_of_nil].
Qed.

(** The invariant of the deletion loop over the entries [pre]. *)
Definition routers_invariant (s0 : CState) (pre : list RouterStatus)
    (acc : list RouterStatus * list error) s : Prop :=
  obj s = obj s0 ∧ ∃ evs, log s = log s0 ++ evs ∧
  Forall (λ e, ∃ rs, rs ∈ pre ∧ RouterStatus_RouterID rs ≠ "" ∧ router_deletable rs e) evs ∧
  (∀ rs, rs ∈ pre → (∃ rs' errs, rs' ∈ acc.1 ∧ pruned rs rs' errs) ∨ RouterStatus_RouterID rs = "" ∨
     (RouterStatus_Managed rs = true ∧ confirmed_deleted KRouter (RouterStatus_RouterID rs) evs)) ∧
  (acc.2 = [] → ∀ rs', rs' ∈ acc.1 → RouterStatus_Managed rs' = false ∧
     ∀ i, i ∈ RouterStatus_Interfaces rs' → RouterInterfaceStatus_Managed i = false).

(** One turn: it never fails, and what it does to the list and the errors. *)
Lemma deleteRouterStep_post sc rem errs rs :
  post (deleteRouterStep sc (rem, errs) rs) (λ s r s',
    obj s' = obj s ∧ ∃ evs, log s' = log s ++ evs ∧
    Forall (λ e, RouterStatus_RouterID rs ≠ "" ∧ router_deletable rs e) evs ∧
    ∃ acc', r = Ok acc' ∧
    ((acc' = (rem, errs) ∧ (RouterStatus_RouterID rs = "" ∨
        RouterStatus_Managed rs = true ∧ confirmed_deleted KRouter (RouterStatus_RouterID rs) evs)) ∨
     ∃ rs' errs', pruned rs rs' errs' ∧
       ((errs' = [] ∧ RouterStatus_Managed rs = false ∧ acc' = (rem ++ [rs'], errs)) ∨
        ∃ e es, acc' = (rem ++ [rs'], errs ++ e :: es)))).
Proof.
  intros s. unfold deleteRouterStep.
  case_bool_decide as Hid; simpl.
  { split; [done|]. exists []. rewrite app_nil_r. split_and!; [done|done|].
    eexists. split; [done|]. left. by auto. }
  pose proof (deleteRouterInterfaces_post sc rs s) as (Ho & (evs & Hl & HF) & rs' & errs' & Hr & Hp).
  unfold exec, result in *.
  destruct (deleteRouterInterfaces sc rs s) as [r s1] eqn:E; simpl in *. subst r.
  rewrite !(bind_ok _ _ _ _ _ E). simpl.
  assert (Forall (λ e, RouterStatus_RouterID rs ≠ "" ∧ router_deletable rs e) evs) as HF'.
  { eapply Forall_impl; [exact HF|]. auto. }
  destruct errs' as [|e es]; simpl.
  2:{ split; [done|]. exists evs. split_and!; [done|done|]. eexists. split; [done|]. right.
      exists rs', (e :: es). split; [done|]. right. by eauto. }
  destruct Hp as (Hn & Hrid & Hm & Hsub & Hno) eqn:Ep. clear Ep.
  assert (pruned rs rs' []) as Hp' by done.
  rewrite Hm. destruct (RouterStatus_Managed rs) eqn:Em; simpl.
  2:{ split; [done|]. exists evs. split_and!; [done|done|]. eexists. split; [done|]. right.
      exists rs', []. split; [done|]. left. done. }
  unfold sdk_Delete, Eventf. go_run. rewrite !Hrid.
  assert (∀ r, router_deletable rs (EDelete KRouter (RouterStatus_RouterID rs) r)) as Hdel.
  { intros r _. right. split; [done|]. by eauto. }
  destruct (svc_Delete _ _ _) as [[[]|e] w]; simpl.
  - split; [done|]. eexists. split_and!; [rewrite Hl, <- !app_assoc; done| |].
    { rewrite !Forall_app, ?Forall_cons, ?Forall_nil. split_and!; try done; apply Hdel. }
    eexists. split; [done|]. left. split; [done|]. right. split; [done|].
    exists (Ok ()). split; [|done]. apply elem_of_app. right. by left.
  - destruct (IsNotFound e) eqn:En; simpl.
    + split; [done|]. eexists. split_and!; [rewrite Hl, <- !app_assoc; done| |].
      { rewrite !Forall_app, ?Forall_cons, ?Forall_nil. split_and!; try done; apply Hdel. }
      eexists. split; [done|]. left. split; [done|]. right. split; [done|].
      exists (Err e). split; [|done]. apply elem_of_app. right. by left.
    + split; [done|]. eexists. split_and!; [rewrite Hl, <- !app_assoc; done| |].
      { rewrite !Forall_app, ?Forall_cons, ?Forall_nil. split_and!; try done; apply Hdel. }
      eexists. split; [done|]. right. exists rs', []. split; [done|]. right. by eauto.
Qed.

Lemma pruned_clean rs rs' : pruned rs rs' [] →
  ∀ i, i ∈ RouterStatus_Interfaces rs' → RouterInterfaceStatus_Managed i = false.
Proof. intros (_ & _ & _ & _ & H). by apply H. Qed.

Lemma deleteRouterStep_invariant sc s0 pre rs acc acc' s :
  routers_invariant s0 pre acc s →
  result (deleteRouterStep sc acc rs) s = Ok acc' →
  routers_invariant s0 (pre ++ [rs]) acc' (exec (deleteRouterStep sc acc rs) s).
Proof.
  destruct acc as [rem errs]. intros (Ho & evs & Hl & HF & Hin & Hok) Hr.
  pose proof (deleteRouterStep_post sc rem errs rs s)
    as (Ho1 & evs1 & Hl1 & HF1 & acc1 & Hr1 & Hcase).
  rewrite Hr in Hr1. injection Hr1 as <-.
  split; [congruence|]. exists (evs ++ evs1). split_and!.
  - by rewrite Hl1, Hl, app_assoc.
  - apply Forall_app. split; (eapply Forall_impl; [done|]); simpl.
    + intros e (x & Hx & ?). exists x. split; [apply elem_of_app; by left|done].
    + intros e ?. exists rs. split; [apply elem_of_app; right; by left|done].
  - assert (∀ x, x ∈ rem → x ∈ acc'.1) as Hmono.
    { intros x Hx. destruct Hcase as [[-> _]|(rs' & errs' & _ & [(_ & _ & ->)|(e & es & ->)])]; [done|..];
        apply elem_of_app; by left. }
    intros x [Hx| ->%list_elem_of_singleton]%elem_of_app.
    + destruct (Hin x Hx) as [(x' & es & ? & ?)|[?|[? (r & ? & ?)]]]; [left; by eauto|by auto|].
      right; right. split; [done|]. exists r. split; [apply elem_of_app; by left|done].
    + destruct Hcase as [[_ [?|[? (r & ? & ?)]]]|(rs' & errs' & Hp & Hacc)]; [by auto|..].
      * right; right. split; [done|]. exists r. split; [apply elem_of_app; by right|done].
      * left. exists rs', errs'. split; [|done].
        destruct Hacc as [(_ & _ & ->)|(e & es & ->)]; apply elem_of_app; right; by left.
  - intros Hnil x Hx.
    destruct Hcase as [[-> _]|(rs' & errs' & Hp & [(-> & Hm & ->)|(e & es & ->)])]; simpl in *.
    + by apply Hok.
    + apply elem_of_app in Hx as [Hx| ->%list_elem_of_singleton]; [by apply Hok|].
      split; [|by eapply pruned_clean]. destruct Hp as (_ & _ & -> & _). done.
    + by apply app_eq_nil in Hnil as [_ ?].
Qed.

Lemma deleteRouterStep_total sc acc rs s : ∃ acc', result (deleteRouterStep sc acc rs) s = Ok acc'.
Proof.
  destruct acc as [rem errs].
  destruct (deleteRouterStep_post sc rem errs rs s) as (_ & _ & _ & _ & acc' & ? & _). by eauto.
Qed.

(** The loop of [deleteRouters] ends normally, with its invariant. *)
Lemma deleteRouters_loop sc s :
  ∃ rem errs s1, foldM (deleteRouterStep sc) (routers_of (obj s)) ([], []) s = (Ok (rem, errs), s1) ∧
    routers_invariant s (routers_of (obj s)) (rem, errs) s1.
Proof.
  destruct (foldM_total (deleteRouterStep sc) (routers_of (obj s)) ([], []) s) as [[rem errs] Hr].
  { intros. apply deleteRouterStep_total. }
  pose proof (foldM_ind (routers_invariant s) (deleteRouterStep sc) (routers_of (obj s)) [] ([], [])
    (rem, errs) s) as Hf.
  unfold result, exec in *. destruct (foldM _ _ _ s) as [r s1]. simpl in *. subst r.
  exists rem, errs, s1. split; [done|]. apply Hf; [|split; [done|]|done].
  - intros pre x b b' s' _. apply deleteRouterStep_invariant.
  - exists []. rewrite app_nil_r. split_and!; [done|done| |]; simpl.
    + by intros ? ?%not_elem_of_nil.
    + by intros _ ? ?%not_elem_of_nil.
Qed.

(** The only writes of [deleteRouters] detach interfaces that status
    records as managed and delete routers that status records as managed, of
    routers with a recorded identifier: an adopted router, and an adopted
    interface, is never removed. *)
Theorem deleteRouters_only_managed sc s :
  ∀ e, e ∈ calls_of (deleteRouters sc) s → is_write e = true →
  ∃ rs, rs ∈ routers_of (obj s) ∧ RouterStatus_RouterID rs ≠ "" ∧
    ((∃ iface id r, iface ∈ RouterStatus_Interfaces rs ∧ RouterInterfaceStatus_Managed iface = true ∧
        (RouterInterfaceStatus_InterfaceID iface = id ∨ RouterInterfaceStatus_InterfaceID iface = "") ∧
        e = EInterfaceDelete (RouterStatus_RouterID rs) id r) ∨
     (RouterStatus_Managed rs = true ∧ ∃ r, e = EDelete KRouter (RouterStatus_RouterID rs) r)).
Proof.
  intros e He Hw. destruct (deleteRouters_loop sc s) as (rem & errs & s1 & E & _ & evs & Hl & HF & _).
  unfold calls_of, deleteRouters, deleteRoutersLoop, exec, deferred in He.
  rewrite bind_get in He. rewrite (bind_ok _ _ _ _ _ E) in He.
  assert (e ∈ evs) as Hin.
  { unfold bind, modify, of_res in He. destruct (errors_Join errs); simpl in He;
      by rewrite Hl, drop_app_length in He. }
  rewrite Forall_forall in HF. destruct (HF e Hin) as (rs & ? & ? & Hd).
  exists rs. split_and!; [done|done|by apply Hd].
Qed.

(** The outcome of [deleteRouters]. *)
Lemma deleteRouters_spec sc s :
  let c' := obj (exec (deleteRouters sc) s) in
  (∀ rs, rs ∈ routers_of (obj s) →
     (∃ rs' errs, rs' ∈ routers_of c' ∧ pruned rs rs' errs) ∨ RouterStatus_RouterID rs = "" ∨
     (RouterStatus_Managed rs = true ∧
      confirmed_deleted KRouter (RouterStatus_RouterID rs) (calls_of (deleteRouters sc) s))) ∧
  (result (deleteRouters sc) s = Ok () → ∀ rs', rs' ∈ routers_of c' →
     RouterStatus_Managed rs' = false ∧
     ∀ i, i ∈ RouterStatus_Interfaces rs' → RouterInterfaceStatus_Managed i = false).
Proof.
  destruct (deleteRouters_loop sc s) as (rem & errs & s1 & E & _ & evs & Hl & _ & Hin & Hok).
  intros c'. unfold c', calls_of, deleteRouters, deleteRoutersLoop, exec, result, deferred.
  rewrite !bind_get, !(bind_ok _ _ _ _ _ E). unfold bind, modify, of_res. simpl in *.
  destruct errs as [|e errs]; simpl; rewrite Hl, drop_app_length; split; auto. done.
Qed.

(** C32. [deleteRouters] forgets nothing: whatever the outcome, a router of the
    status is still recorded with its name, identifier and owner, or was never
    provisioned, or was managed and its deletion is confirmed by the provider;
    on success nothing that is managed remains, router or interface. *)
Theorem deleteRouters_forgets_nothing sc s :
  let c' := obj (exec (deleteRouters sc) s) in
  (∀ rs, rs ∈ routers_of (obj s) →
     (∃ rs' errs, rs' ∈ routers_of c' ∧ pruned rs rs' errs) ∨ RouterStatus_RouterID rs = "" ∨
     (RouterStatus_Managed rs = true ∧
      confirmed_deleted KRouter (RouterStatus_RouterID rs) (calls_of (deleteRouters sc) s))) ∧
  (result (deleteRouters sc) s = Ok () → ∀ rs', rs' ∈ routers_of c' →
     RouterStatus_Managed rs' = false ∧
     ∀ i, i ∈ RouterStatus_Interfaces rs' → RouterInterfaceStatus_Managed i = false).
Proof. apply deleteRouters_spec. Qed.
End router_deletion.
