(* ===== verification/LoadBalancerCtl.v ===== *)
(** * The control plane load balancer
    (src/internal/controller/cloudscalecluster_loadbalancer.go)

    The load balancer with its pool, listener, health monitor and members. The
    first four are found by tag or created; the members of the pool are driven
    to the control plane machines of the cluster. *)

From S2P Require Export Ensure NetworkCtl.
From S2P Require Import NetIP.

Section lb.
Context `{P : Platform}.
Implicit Types (sc : ClusterScope) (c : CloudscaleCluster).

Definition LoadBalancerRunningStatus : string := "running".
Definition LoadBalancerChangingStatus : string := "changing".

(** The observed state of the load balancer in this reconcile. *)
Record lbStatus := mkLbStatus { lb_ipAddress : string; lb_ready : bool }.
Definition lbStatus_zero : lbStatus := mkLbStatus "" false.

Definition lbSpec c : LoadBalancerSpec := CloudscaleClusterSpec_ControlPlaneLoadBalancer (spec c).

Definition clusterName c : string := ObjectMeta_Name (CloudscaleCluster_Meta c).

(** ** Subnets for the VIP and the pool members *)

Definition safeUseSubnet c (networkName : string) : Res string :=
  match GetNetworkStatus (status c) networkName with
  | Some ns =>
      if NetworkStatus_SubnetID ns == ""
      then Err (errorString ("network " +:+ quote networkName +:+ " not yet provisioned"))
      else Ok (NetworkStatus_SubnetID ns)
  | None => Err (errorString ("network " +:+ quote networkName +:+ " not yet provisioned"))
  end.

Definition getPoolMemberSubnetID c : Res string :=
  if LoadBalancerSpec_PoolMemberNetwork (lbSpec c) != "" then
    safeUseSubnet c (LoadBalancerSpec_PoolMemberNetwork (lbSpec c))
  else if LoadBalancerSpec_Network (lbSpec c) != "" then
    safeUseSubnet c (LoadBalancerSpec_Network (lbSpec c))
  else
    match CloudscaleClusterStatus_Networks (status c) with
    | [] => Err (errorString "no networks in cluster status")
    | n :: _ =>
        if NetworkStatus_SubnetID n == ""
        then Err (errorString ("first network " +:+ quote (NetworkStatus_Name n) +:+ " has no subnet ID"))
        else Ok (NetworkStatus_SubnetID n)
    end.

Fixpoint memberSubnetCIDR_loop (networks : list NetworkStatus) (subnetID : string) : Res string :=
  match networks with
  | [] => Err (errorString ("subnet " +:+ subnetID
                 +:+ " has no cached CIDR in status; ensure networks are reconciled first"))
  | ns :: networks =>
      if (NetworkStatus_SubnetID ns == subnetID) && (NetworkStatus_CIDR ns != "")
      then Ok (NetworkStatus_CIDR ns) else memberSubnetCIDR_loop networks subnetID
  end.
Definition getMemberSubnetCIDR c (subnetID : string) : Res string :=
  memberSubnetCIDR_loop (CloudscaleClusterStatus_Networks (status c)) subnetID.

(** ** Find by identifier or tag, else create

    The shape the four functions below share: record the identifier found, and
    create the resource when there is none; a creation that times out asks for
    a requeue. *)
Definition ensureOrCreate {Req T : Type} (k : Kind) (svc : Service World Req T) (uuid : T → string)
    (mk : Req → CreateRequest) (name currentID : string)
    (setID : string → CloudscaleClusterStatus → CloudscaleClusterStatus)
    (request : CM Req) (created : T → CM unit) : CM Result :=
  let! c := get in
  let! (_, id) := ensureResource k svc uuid currentID name (clusterOwnershipTags c) in
  modify (upd_status (setID id)) ;;!
  if id != "" then ret emptyResult
  else
    let! req := request in
    let! r := try (sdk_Create svc mk uuid req) in
    match r with
    | Err e =>
        if IsTimeoutError e then ret (requeue 5)
        else throw (wrapError ("creating " +:+ name +:+ ": ") e)
    | Ok x =>
        modify (upd_status (setID (uuid x))) ;;!
        created x ;;!
        ret emptyResult
    end.

(** The requests and the events of the four creations. *)

Definition lbRequest : CM LoadBalancerRequest :=
  let! c := get in
  let! vip :=
    (if LoadBalancerSpec_Network (lbSpec c) != "" then
       let! subnetID := of_res (safeUseSubnet c (LoadBalancerSpec_Network (lbSpec c))) in
       ret (Some [subnetID])
     else ret None) in
  ret (mkLoadBalancerRequest (clusterName c +:+ "-cp-lb") (LoadBalancerSpec_Flavor (lbSpec c))
         (CloudscaleClusterSpec_Zone (spec c)) (clusterOwnershipTags c) vip).

Definition lbCreated c (lb : LoadBalancer) : CM unit :=
  Eventf "Normal" "LoadBalancerCreated" "CreateLoadBalancer"
    ("Created load balancer " +:+ LoadBalancer_UUID lb +:+ " in zone "
     +:+ CloudscaleClusterSpec_Zone (spec c)).

Definition poolRequest : CM LoadBalancerPoolRequest :=
  let! c := get in
  ret (mkLoadBalancerPoolRequest (clusterName c +:+ "-cp-pool")
         (CloudscaleClusterStatus_LoadBalancerID (status c)) (LoadBalancerSpec_Algorithm (lbSpec c))
         "tcp" (clusterOwnershipTags c)).

Definition poolCreated (pool : LoadBalancerPool) : CM unit :=
  Eventf "Normal" "PoolCreated" "CreateLoadBalancerPool"
    ("Created load balancer pool " +:+ LoadBalancerPool_UUID pool).

Definition listenerRequest : CM LoadBalancerListenerRequest :=
  let! c := get in
  ret (mkLoadBalancerListenerRequest (clusterName c +:+ "-cp-listener")
         (CloudscaleClusterStatus_LoadBalancerPoolID (status c)) "tcp"
         (LoadBalancerSpec_APIServerPort (lbSpec c)) (clusterOwnershipTags c)).

Definition listenerCreated c (listener : LoadBalancerListener) : CM unit :=
  Eventf "Normal" "ListenerCreated" "CreateLoadBalancerListener"
    ("Created load balancer listener " +:+ LoadBalancerListener_UUID listener
     +:+ " on port " +:+ itoa (LoadBalancerSpec_APIServerPort (lbSpec c))).

Definition monitorRequest : CM LoadBalancerHealthMonitorRequest :=
  let! c := get in
  let hm := LoadBalancerSpec_HealthMonitor (lbSpec c) in
  ret (mkLoadBalancerHealthMonitorRequest (CloudscaleClusterStatus_LoadBalancerPoolID (status c))
         "tcp" (HealthMonitorSpec_DelayS hm) (HealthMonitorSpec_TimeoutS hm)
         (HealthMonitorSpec_UpThreshold hm) (HealthMonitorSpec_DownThreshold hm)
         (clusterOwnershipTags c)).

Definition monitorCreated (monitor : LoadBalancerHealthMonitor) : CM unit :=
  Eventf "Normal" "HealthMonitorCreated" "CreateLoadBalancerHealthMonitor"
    ("Created load balancer health monitor " +:+ LoadBalancerHealthMonitor_UUID monitor).

Definition reconcileLB sc : CM Result :=
  let! c := get in
  ensureOrCreate KLoadBalancer (LoadBalancers (scope_Client sc)) LoadBalancer_UUID CLoadBalancer
    "load balancer" (CloudscaleClusterStatus_LoadBalancerID (status c))
    set_CloudscaleClusterStatus_LoadBalancerID lbRequest (lbCreated c).

Definition reconcileLBPool sc : CM Result :=
  let! c := get in
  ensureOrCreate KPool (LoadBalancerPools (scope_Client sc)) LoadBalancerPool_UUID CPool
    "load balancer pool" (CloudscaleClusterStatus_LoadBalancerPoolID (status c))
    set_CloudscaleClusterStatus_LoadBalancerPoolID poolRequest poolCreated.

Definition reconcileLBListener sc : CM Result :=
  let! c := get in
  ensureOrCreate KListener (LoadBalancerListeners (scope_Client sc)) LoadBalancerListener_UUID CListener
    "load balancer listener" (CloudscaleClusterStatus_LoadBalancerListenerID (status c))
    set_CloudscaleClusterStatus_LoadBalancerListenerID listenerRequest (listenerCreated c).

Definition reconcileLBHealthMonitor sc : CM Result :=
  let! c := get in
  ensureOrCreate KHealthMonitor (LoadBalancerHealthMonitors (scope_Client sc))
    LoadBalancerHealthMonitor_UUID CHealthMonitor
    "load balancer health monitor" (CloudscaleClusterStatus_LoadBalancerHealthMonitorID (status c))
    set_CloudscaleClusterStatus_LoadBalancerHealthMonitorID monitorRequest monitorCreated.

(** ** Members *)

(** The first internal address on the member subnet. *)
Fixpoint memberAddress (memberIPNet : IPNet) (addrs : list MachineAddress) : option string :=
  match addrs with
  | [] => None
  | addr :: addrs =>
      if (MachineAddress_Type addr == MachineInternalIP) && (MachineAddress_Address addr != "") &&
         match ParseIP (MachineAddress_Address addr) with
         | Some ip => IPNet_Contains memberIPNet ip
         | None => false
         end
      then Some (MachineAddress_Address addr)
      else memberAddress memberIPNet addrs
  end.

Definition desiredMember c (memberSubnetID : string) (memberIPNet : IPNet) (machine : CloudscaleMachine)
    : list LoadBalancerPoolMemberRequest :=
  match memberAddress memberIPNet
          (CloudscaleMachineStatus_Addresses (CloudscaleMachine_Status machine)) with
  | Some address =>
      [mkLoadBalancerPoolMemberRequest (ObjectMeta_Name (CloudscaleMachine_Meta machine)) memberSubnetID
         (LoadBalancerSpec_APIServerPort (lbSpec c)) address (Some (clusterOwnershipTags c))]
  | None => []
  end.

Definition controlPlaneLabels sc : gmap string string :=
  {[ ClusterNameLabel := Cluster_Name (scope_Cluster sc); MachineControlPlaneLabel := "" ]}.

(** The wanted members, from the machines listed. *)
Definition desiredFrom c (machines : list CloudscaleMachine)
    : Res (list LoadBalancerPoolMemberRequest) :=
  res_bind (getPoolMemberSubnetID c) (λ memberSubnetID,
  res_bind (res_wrap "resolving pool member subnet CIDR: " (getMemberSubnetCIDR c memberSubnetID))
    (λ memberSubnetCIDR,
  match ParseCIDR memberSubnetCIDR with
  | None => Err (wrapError ("parsing pool member subnet CIDR " +:+ quote memberSubnetCIDR +:+ ": ")
                   (errorString ("invalid CIDR address: " +:+ memberSubnetCIDR)))
  | Some memberIPNet => Ok (mjoin (desiredMember c memberSubnetID memberIPNet <$> machines))
  end)).

Definition getDesiredLoadBalancerMembers sc : CM (list LoadBalancerPoolMemberRequest) :=
  let! c := get in
  let! machines := wrap "listing CloudscaleMachines: "
                     (listMachines (ObjectMeta_Namespace (CloudscaleCluster_Meta c))
                        (controlPlaneLabels sc)) in
  of_res (desiredFrom c machines).

Definition poolID c : string := CloudscaleClusterStatus_LoadBalancerPoolID (status c).

Definition listMembers sc (pool : string) : CM (list LoadBalancerPoolMember) :=
  call (member_List (LoadBalancerPoolMembers (scope_Client sc)) pool) (λ r, EMemberList pool r).

Definition createLoadBalancerMember sc (member : LoadBalancerPoolMemberRequest) : CM Result :=
  let! c := get in
  let! r := try (call (member_Create (LoadBalancerPoolMembers (scope_Client sc)) (poolID c) member)
                   (λ r, EMemberCreate (poolID c) member (res_map LoadBalancerPoolMember_UUID r))) in
  match r with
  | Err e =>
      if IsTimeoutError e then ret (requeue 5)
      else throw (wrapError "creating load balancer member: " e)
  | Ok cm =>
      modify (upd_status (λ st, set_CloudscaleClusterStatus_LoadBalancerMemberIDs
        (CloudscaleClusterStatus_LoadBalancerMemberIDs st ++ [LoadBalancerPoolMember_UUID cm]) st)) ;;!
      ret emptyResult
  end.

Definition updateLoadBalancerMember sc (memberUUID newAddress : string) : CM unit :=
  let! c := get in
  let req := mkLoadBalancerPoolMemberRequest "" "" 0 newAddress None in
  wrap "updating load balancer member: "
    (call (member_Update (LoadBalancerPoolMembers (scope_Client sc)) (poolID c) memberUUID req)
       (λ r, EMemberUpdate (poolID c) memberUUID req r)).

Definition deleteLoadBalancerMember sc (member : LoadBalancerPoolMember) : CM unit :=
  let! c := get in
  let id := LoadBalancerPoolMember_UUID member in
  wrap "deleting load balancer member: "
    (call (member_Delete (LoadBalancerPoolMembers (scope_Client sc)) (poolID c) id)
       (λ r, EMemberDelete (poolID c) id r)) ;;!
  modify (upd_status (λ st, set_CloudscaleClusterStatus_LoadBalancerMemberIDs
    (filter (λ i, i ≠ id) (CloudscaleClusterStatus_LoadBalancerMemberIDs st)) st)).

(** One turn of the loop that adds and updates members. *)
Definition ensureMember sc (currentByName : gmap string LoadBalancerPoolMember)
    (desired : LoadBalancerPoolMemberRequest) : CM (flow unit) :=
  match currentByName !! LoadBalancerPoolMemberRequest_Name desired with
  | None =>
      returning (wrap "failed to create load balancer member: " (createLoadBalancerMember sc desired))
  | Some current =>
      (if LoadBalancerPoolMember_Address current != LoadBalancerPoolMemberRequest_Address desired then
         wrap "failed to update load balancer member: "
           (updateLoadBalancerMember sc (LoadBalancerPoolMember_UUID current)
              (LoadBalancerPoolMemberRequest_Address desired))
       else ret ()) ;;!
      ret (Next ())
  end.

(** One turn of the loop that removes members. *)
Definition pruneMember sc (desiredByName : gmap string LoadBalancerPoolMemberRequest)
    (member : LoadBalancerPoolMember) : CM (flow unit) :=
  match desiredByName !! LoadBalancerPoolMember_Name member with
  | None =>
      wrap "failed to delete load balancer member: " (deleteLoadBalancerMember sc member) ;;!
      ret (Next ())
  | Some _ => ret (Next ())
  end.

Definition reconcileLBMembers sc : CM Result :=
  let! c := get in
  let! currentMembers := wrap "failed to get current load balancer members: "
                           (listMembers sc (poolID c)) in
  let! desiredMembers := wrap "failed to get desired load balancer members: "
                           (getDesiredLoadBalancerMembers sc) in
  let currentByName := index_by LoadBalancerPoolMember_Name currentMembers in
  let desiredByName := index_by LoadBalancerPoolMemberRequest_Name desiredMembers in
  let? _ := foreach desiredMembers (ensureMember sc currentByName) in
  let? _ := foreach currentMembers (pruneMember sc desiredByName) in
  ret emptyResult.

(** ** The whole load balancer *)

(** What the function returns, with the message of its pending condition when
    the load balancer is not running. *)
Definition LBOutcome : Type := lbStatus * Result * option string.

(** [if result, err := m; err != nil {...} else if !result.IsZero() {...}] *)
Definition stage (pending : option string) (msg : string) (m : CM Result) (k : CM LBOutcome)
    : CM LBOutcome :=
  let! r := wrap msg m in
  if IsZero r then k else ret (lbStatus_zero, r, pending).

Definition downMembers (members : list LoadBalancerPoolMember) : list string :=
  map (λ m, LoadBalancerPoolMember_Name m +:+ "@" +:+ LoadBalancerPoolMember_Address m +:+ ":"
            +:+ itoa (LoadBalancerPoolMember_ProtocolPort m))
    (filter (λ m, LoadBalancerPoolMember_MonitorStatus m = "down") members).

(** The diagnostics of a load balancer that is neither running nor changing. *)
Definition pendingMessage sc (lb : LoadBalancer) : CM string :=
  let msg := "Load balancer is in " +:+ LoadBalancer_Status lb in
  let! c := get in
  if poolID c != "" then
    let! r := try (listMembers sc (poolID c)) in
    match r with
    | Err _ => ret msg
    | Ok members =>
        match downMembers members with
        | [] => ret msg
        | down => ret (msg +:+ "; pool members failing health check: " +:+ show_slice down)
        end
    end
  else ret msg.

Definition reconcileLBChildren sc (lb : LoadBalancer) (pending : option string) : CM LBOutcome :=
  stage pending "reconciling load balancer pool: " (reconcileLBPool sc) (
  stage pending "reconciling load balancer listener: " (reconcileLBListener sc) (
  stage pending "reconciling load balancer health monitor: " (reconcileLBHealthMonitor sc) (
  stage pending "reconciling load balancer members: " (reconcileLBMembers sc) (
  let ipAddress := match LoadBalancer_VIPAddresses lb with [] => "" | a :: _ => a end in
  ret (mkLbStatus ipAddress (bool_decide (pending = None)), emptyResult, pending))))).

Definition reconcileLBEnabled sc : CM LBOutcome :=
  stage None "reconciling load balancer: " (reconcileLB sc) (
  let! c := get in
  if CloudscaleClusterStatus_LoadBalancerID (status c) == "" then
    ret (lbStatus_zero, requeue 5, Some "Load balancer is not yet running")
  else
    let! lb := wrap "getting load balancer status: "
                 (sdk_Get KLoadBalancer (LoadBalancers (scope_Client sc))
                    (CloudscaleClusterStatus_LoadBalancerID (status c))) in
    if LoadBalancer_Status lb == LoadBalancerRunningStatus then reconcileLBChildren sc lb None
    else if LoadBalancer_Status lb == LoadBalancerChangingStatus then
      ret (lbStatus_zero, requeue 10, Some "Load balancer is not yet running")
    else
      let! msg := pendingMessage sc lb in
      reconcileLBChildren sc lb (Some msg)).

Definition reconcileLoadBalancer sc : CM (lbStatus * Result) :=
  let! c := get in
  if negb (lbEnabled (spec c)) then
    modify (setCondition LoadBalancerReadyCondition ConditionTrue LoadBalancerDisabledReason "") ;;!
    ret (mkLbStatus "" true, emptyResult)
  else
    let! (st, result, _) :=
      deferred (λ r,
          match r with
          | Err e => setCondition LoadBalancerReadyCondition ConditionFalse LoadBalancerErrorReason (Error e)
          | Ok (_, _, Some msg) =>
              setCondition LoadBalancerReadyCondition ConditionFalse LoadBalancerNotReadyReason msg
          | Ok (_, _, None) =>
              setCondition LoadBalancerReadyCondition ConditionTrue LoadBalancerRunningReason ""
          end)
        (reconcileLBEnabled sc) in
    ret (st, result).

(** ** Deletion: the API deletes the children with the load balancer *)

Definition clearLoadBalancer : CloudscaleClusterStatus → CloudscaleClusterStatus :=
  set_CloudscaleClusterStatus_LoadBalancerMemberIDs [] ∘
  set_CloudscaleClusterStatus_LoadBalancerHealthMonitorID "" ∘
  set_CloudscaleClusterStatus_LoadBalancerListenerID "" ∘
  set_CloudscaleClusterStatus_LoadBalancerPoolID "" ∘
  set_CloudscaleClusterStatus_LoadBalancerID "".

Definition deleteLBBody sc : CM unit :=
  let! c := get in
  let lbID := CloudscaleClusterStatus_LoadBalancerID (status c) in
  (if lbID != "" then
     let! r := try (sdk_Delete KLoadBalancer (LoadBalancers (scope_Client sc)) lbID) in
     (match r with
      | Err e => if negb (IsNotFound e) then throw (wrapError "deleting load balancer: " e) else ret ()
      | Ok _ => ret ()
      end) ;;!
     Eventf "Normal" "LoadBalancerDeleted" "DeleteLoadBalancer" ("Deleted load balancer " +:+ lbID)
   else ret ()) ;;!
  modify (upd_status clearLoadBalancer).

Definition deleteLoadBalancer sc : CM unit :=
  let! c := get in
  if negb (lbEnabled (spec c)) then ret ()
  else
    deferred (λ r, match r with
                   | Err e => setCondition LoadBalancerReadyCondition ConditionFalse LoadBalancerErrorReason
                                ("Failed to delete load balancer: " +:+ Error e)
                   | Ok _ => setCondition LoadBalancerReadyCondition ConditionFalse LoadBalancerDeletingReason
                               "Load balancer has been deleted"
                   end)
      (deleteLBBody sc).
End lb.

(** ** Find or create: what each outcome means *)

Section ensure_or_create.
Context `{P : Platform}.
Context {Req T : Type} (k : Kind) (svc : Service World Req T) (uuid : T → string)
  (mk : Req → CreateRequest) (name : string)
  (setID : string → CloudscaleClusterStatus → CloudscaleClusterStatus)
  (getID : CloudscaleClusterStatus → string)
  (request : CM Req) (created : T → CM unit).
Context (ψ : CloudscaleCluster → Req → Prop).
Implicit Types (s : CState).

(** The request is computed from the object alone, and the event is only
    recorded. *)
Class RequestOf := {
  request_pure s : exec request s = s;
  request_ok s req : result request s = Ok req → ψ (obj s) req;
  created_event x : ∃ ty rs ac nt, created x = Eventf ty rs ac nt;
  getID_setID v st : getID (setID v st) = v;
  setID_setID v v' st : setID v' (setID v st) = setID v' st;
  uuid_create req w x w' : svc_Create svc req w = (Ok x, w') → uuid x ≠ "" }.

Context {HR : RequestOf}.

(** Either the identifier found or created is recorded, or it is empty and the
    caller is told so; nothing else of the object changes, and the only write is
    a creation with a request made from the object. *)
Lemma ensureOrCreate_post currentID :
  post (ensureOrCreate k svc uuid mk name currentID setID request created) (λ s r s',
    ((∃ v, obj s' = upd_status (setID v) (obj s) ∧ (r = Ok emptyResult → v ≠ "")) ∨
     (obj s' = obj s ∧ ∃ e, r = Err e)) ∧
    (∀ r', r = Ok r' → r' = emptyResult ∨ r' = requeue 5) ∧
    emits (λ e, is_write e = true →
             ∃ req r', e = ECreate (mk req) r' ∧ ψ (upd_status (setID "") (obj s)) req) s s').
Proof.
  intros s. unfold ensureOrCreate. rewrite exec_get, result_get.
  pose proof (ensureResource_ensured k svc uuid currentID name (clusterOwnershipTags (obj s)) s) as [Ho _].
  pose proof (ensureResource_reads_only k svc uuid currentID name (clusterOwnershipTags (obj s)) s) as Hre.
  unfold exec, result in *.
  destruct (ensureResource k svc uuid currentID name _ s) as [[[o id]|e] s1] eqn:E; simpl in *.
  2:{ rewrite !(bind_err _ _ _ _ _ E). simpl. split_and!; [right; by eauto|done|].
      destruct Hre as (evs & ? & HF). exists evs. split; [done|]. eapply Forall_impl; [done|].
      unfold is_read. intros e' -> [=]. }
  rewrite !(bind_ok _ _ _ _ _ E). clear E. rewrite !modify_bind.
  destruct Hre as (evs & Hl & HF).
  assert (Forall (λ e, is_write e = true → ∃ req r', e = ECreate (mk req) r' ∧
            ψ (upd_status (setID "") (obj s)) req) evs) as HF'.
  { eapply Forall_impl; [done|]. unfold is_read. intros e' -> [=]. }
  case_bool_decide as Hid; simpl.
  2:{ split_and!; [left; exists id; by rewrite <- Ho|by intros r' [= <-]; left|by exists evs]. }
  subst id. set (s2 := mkSt (upd_status (setID "") (obj s1)) (world s1) (log s1)).
  pose proof (request_pure s2) as Hp. pose proof (request_ok s2) as Hok. unfold exec, result in Hp, Hok.
  destruct (request s2) as [[req|e] s3] eqn:Er; simpl in *; subst s3.
  2:{ rewrite !(bind_err _ _ _ _ _ Er). unfold s2. simpl.
      split_and!; [left; exists ""; by rewrite Ho|done|by exists evs]. }
  rewrite !(bind_ok _ _ _ _ _ Er). specialize (Hok _ eq_refl). unfold s2 in Hok. simpl in Hok.
  rewrite Ho in Hok.
  unfold sdk_Create, bind, try, call, modify, throw, ret.
  destruct (svc_Create svc req _) as [[x|e] w] eqn:Ec; simpl.
  - destruct (created_event x) as (ty & rs & ac & nt & ->). unfold Eventf, emit. simpl.
    split_and!.
    + left. exists (uuid x). split; [|intros _; by eapply uuid_create].
      rewrite Ho. unfold upd_status, set_CloudscaleCluster_Status, status. simpl. by rewrite setID_setID.
    + intros r' [= <-]. by left.
    + eexists. split; [rewrite Hl, <- !app_assoc; done|].
      rewrite !Forall_app, !Forall_cons, !Forall_nil. split_and!; try done. intros _. by eauto.
  - destruct (IsTimeoutError e); simpl; (split_and!; [left; exists ""; by rewrite Ho| |]).
    all: try (eexists; split; [rewrite Hl, <- !app_assoc; done|];
      rewrite !Forall_app, !Forall_cons, !Forall_nil; split_and!; try done; intros _; by eauto).
    + intros r' [= <-]. by right.
    + done.
Qed.

(** At most one resource with the cluster's tags, before and after. *)
Lemma ensureOrCreate_owned {reqTags : Req → TagMap} {HS : TaggedService svc uuid reqTags} currentID s :
  let n := owned svc uuid (clusterOwnershipTags (obj s)) in
  n (world s) ≤ 1 →
  n (world (exec (ensureOrCreate k svc uuid mk name currentID setID request created) s)) ≤ 1.
Proof.
  intros n. unfold ensureOrCreate. rewrite exec_get. apply ensure_create_owned.
  - intros o id Hid. rewrite bool_decide_eq_false_2 by done. apply adds_none. simpl. frame.
  - intros o. apply (adds_bind _ _ _ 0 1); [apply adds_none; frame|intros []|done]. simpl.
    apply (adds_bind _ _ _ 0 1); [apply adds_none|intros req|done].
    { intros s1. unfold wkeeps. by rewrite request_pure. }
    apply (adds_bind _ _ _ 1 0); [apply adds_try, adds_create|intros r|done].
    apply adds_none. destruct r as [x|e]; [|frame].
    destruct (created_event x) as (ty & rs & ac & nt & ->). unfold Eventf. frame.
Qed.
End ensure_or_create.

(** ** The four resources *)

Section lb_resources.
Context `{P : Platform}.
Implicit Types (sc : ClusterScope) (s : CState) (c : CloudscaleCluster).

(** The SDK's identifiers are never empty. *)
Class LBIDs (cl : Client World) := {
  lb_create_id req w x w' : svc_Create (LoadBalancers cl) req w = (Ok x, w') → LoadBalancer_UUID x ≠ "";
  pool_create_id req w x w' :
    svc_Create (LoadBalancerPools cl) req w = (Ok x, w') → LoadBalancerPool_UUID x ≠ "";
  listener_create_id req w x w' :
    svc_Create (LoadBalancerListeners cl) req w = (Ok x, w') → LoadBalancerListener_UUID x ≠ "";
  monitor_create_id req w x w' :
    svc_Create (LoadBalancerHealthMonitors cl) req w = (Ok x, w') →
    LoadBalancerHealthMonitor_UUID x ≠ "" }.

Definition lbID c : string := CloudscaleClusterStatus_LoadBalancerID (status c).
Definition listenerID c : string := CloudscaleClusterStatus_LoadBalancerListenerID (status c).
Definition monitorID c : string := CloudscaleClusterStatus_LoadBalancerHealthMonitorID (status c).

(** What one of the four functions does: the identifiers of the others stay,
    its own is set when it returns without asking for a requeue, and its writes
    satisfy [φ]. *)
Definition ensures (own : CloudscaleCluster → string)
    (others : CloudscaleCluster → list string) (φ : CloudscaleCluster → Event → Prop)
    (m : CM Result) : Prop :=
  post m (λ s r s',
    spec (obj s') = spec (obj s) ∧ others (obj s') = others (obj s) ∧
    (r = Ok emptyResult → own (obj s') ≠ "") ∧
    (∀ r', r = Ok r' → r' = emptyResult ∨ r' = requeue 5) ∧
    emits (λ e, is_write e = true → φ (obj s) e) s s').

Lemma ensures_get own others φ (f : CloudscaleCluster → CM Result) :
  (∀ c, ensures own others φ (f c)) → ensures own others φ (let! c := get in f c).
Proof. intros H s. exact (H (obj s) s). Qed.

Lemma ensureOrCreate_ensures {Req T : Type} k (svc : Service World Req T) uuid mk name setID getID
    request created ψ currentID others φ :
  RequestOf svc uuid setID getID request created ψ →
  (∀ v c, others (upd_status (setID v) c) = others c) →
  (∀ c req r, ψ (upd_status (setID "") c) req → φ c (ECreate (mk req) r)) →
  ensures (λ c, getID (status c)) others φ
    (ensureOrCreate k svc uuid mk name currentID setID request created).
Proof.
  intros HR Hoth Hφ s.
  pose proof (ensureOrCreate_post k svc uuid mk name setID getID request created ψ currentID s)
    as (Hobj & Hr & He).
  split_and!; [..|done|].
  - by destruct Hobj as [(v & -> & _)|[-> _]].
  - destruct Hobj as [(v & -> & _)|[-> _]]; [apply Hoth|done].
  - intros Hok. destruct Hobj as [(v & -> & Hv)|[_ [e Hre]]]; [|congruence].
    unfold status at 1. simpl. rewrite (getID_setID _ _ _ _ _ _ _). by apply Hv.
  - destruct He as (evs & ? & HF). exists evs. split; [done|]. eapply Forall_impl; [done|].
    intros e Hw He'. destruct (Hw He') as (req & r' & -> & ?). by apply Hφ.
Qed.

(** The requests of the four functions. *)
Ltac solve_request :=
  split; try done;
    [ try (intros ? ?; unfold result, bind, get, ret; simpl; by intros [= <-])
    | by intros; eexists _, _, _, _
    | eauto using lb_create_id, pool_create_id, listener_create_id, monitor_create_id ].

(** Each request carries the identifier it depends on and the ownership tags. *)
Lemma lb_request sc c0 `{!LBIDs (scope_Client sc)} :
  RequestOf (LoadBalancers (scope_Client sc)) LoadBalancer_UUID
    set_CloudscaleClusterStatus_LoadBalancerID CloudscaleClusterStatus_LoadBalancerID
    (lbRequest (P:=P)) (lbCreated c0) (λ _ _, True).
Proof.
  split; try done; [|by intros; eexists _, _, _, _|intros req w x w'; apply lb_create_id].
  intros s. unfold exec, lbRequest, bind, get, of_res, ret. case_bool_decide; simpl; [done|].
  by destruct (safeUseSubnet _ _).
Qed.

Lemma pool_request sc `{!LBIDs (scope_Client sc)} :
  RequestOf (LoadBalancerPools (scope_Client sc)) LoadBalancerPool_UUID
    set_CloudscaleClusterStatus_LoadBalancerPoolID CloudscaleClusterStatus_LoadBalancerPoolID
    poolRequest poolCreated (λ c req, LoadBalancerPoolRequest_LoadBalancer req = lbID c).
Proof. solve_request. Qed.

Lemma listener_request sc c0 `{!LBIDs (scope_Client sc)} :
  RequestOf (LoadBalancerListeners (scope_Client sc)) LoadBalancerListener_UUID
    set_CloudscaleClusterStatus_LoadBalancerListenerID CloudscaleClusterStatus_LoadBalancerListenerID
    listenerRequest (listenerCreated c0) (λ c req, LoadBalancerListenerRequest_Pool req = poolID c).
Proof. solve_request. Qed.

Lemma monitor_request sc `{!LBIDs (scope_Client sc)} :
  RequestOf (LoadBalancerHealthMonitors (scope_Client sc)) LoadBalancerHealthMonitor_UUID
    set_CloudscaleClusterStatus_LoadBalancerHealthMonitorID
    CloudscaleClusterStatus_LoadBalancerHealthMonitorID
    monitorRequest monitorCreated (λ c req, LoadBalancerHealthMonitorRequest_Pool req = poolID c).
Proof. solve_request. Qed.

Lemma reconcileLB_ensures sc `{!LBIDs (scope_Client sc)} :
  ensures lbID (λ c, [poolID c; listenerID c; monitorID c])
    (λ c e, ∃ req r, e = ECreate (CLoadBalancer req) r) (reconcileLB sc).
Proof.
  apply ensures_get. intros c0.
  eapply ensureOrCreate_ensures; [by apply lb_request|done|by eauto].
Qed.

Lemma reconcileLBPool_ensures sc `{!LBIDs (scope_Client sc)} :
  ensures poolID (λ c, [lbID c; listenerID c; monitorID c])
    (λ c e, ∃ req r, e = ECreate (CPool req) r ∧ LoadBalancerPoolRequest_LoadBalancer req = lbID c)
    (reconcileLBPool sc).
Proof.
  apply ensures_get. intros c0.
  eapply ensureOrCreate_ensures; [by apply pool_request|done|by eauto].
Qed.

Lemma reconcileLBListener_ensures sc `{!LBIDs (scope_Client sc)} :
  ensures listenerID (λ c, [lbID c; poolID c; monitorID c])
    (λ c e, ∃ req r, e = ECreate (CListener req) r ∧ LoadBalancerListenerRequest_Pool req = poolID c)
    (reconcileLBListener sc).
Proof.
  apply ensures_get. intros c0.
  eapply ensureOrCreate_ensures; [by apply listener_request|done|by eauto].
Qed.

Lemma reconcileLBHealthMonitor_ensures sc `{!LBIDs (scope_Client sc)} :
  ensures monitorID (λ c, [lbID c; poolID c; listenerID c])
    (λ c e, ∃ req r, e = ECreate (CHealthMonitor req) r ∧
              LoadBalancerHealthMonitorRequest_Pool req = poolID c)
    (reconcileLBHealthMonitor sc).
Proof.
  apply ensures_get. intros c0.
  eapply ensureOrCreate_ensures; [by apply monitor_request|done|by eauto].
Qed.

(** The members reconcile leaves the spec and the four identifiers alone, and
    writes only to the members of the recorded pool. *)
Definition lb_ids c := (spec c, lbID c, poolID c, listenerID c, monitorID c).

Definition member_write (ids : CloudscaleClusterSpec * string * string * string * string)
    (e : Event) : Prop :=
  is_write e = true →
  match e with
  | EMemberCreate p _ _ | EMemberUpdate p _ _ _ | EMemberDelete p _ _ => p = ids.1.1.2
  | _ => False
  end.

Lemma emits_at_reads {A B} (f : CloudscaleCluster → B) φ (m : CM A) :
  respects (keeps f) m → respects (emits is_read) m →
  (∀ b e, is_read e → φ b e) → respects (emits_at f φ) m.
Proof.
  intros Hk Hr Hφ. apply emits_at_intro; [done|]. intros b.
  eapply emits_weaken; [apply Hφ|exact Hr].
Qed.

Lemma read_member_write ids e : is_read e → member_write ids e.
Proof. unfold is_read, member_write. by intros -> [=]. Qed.

Lemma member_ops_frame sc :
  (∀ d, respects (emits_at lb_ids member_write) (createLoadBalancerMember sc d)) ∧
  (∀ u a, respects (emits_at lb_ids member_write) (updateLoadBalancerMember sc u a)) ∧
  (∀ m, respects (emits_at lb_ids member_write) (deleteLoadBalancerMember sc m)).
Proof.
  split_and!; intros; intros s;
    unfold createLoadBalancerMember, updateLoadBalancerMember, deleteLoadBalancerMember; go_run.
  - destruct (member_Create _ _ _ _) as [[x|e] w]; simpl; [|destruct (IsTimeoutError e)]; simpl;
      (split; [done|]); (eexists; split; [reflexivity|]); by repeat constructor.
  - destruct (member_Update _ _ _ _ _) as [[[]|e] w]; simpl;
      (split; [done|]); (eexists; split; [reflexivity|]); by repeat constructor.
  - destruct (member_Delete _ _ _ _) as [[[]|e] w]; simpl;
      (split; [done|]); (eexists; split; [reflexivity|]); by repeat constructor.
Qed.

Lemma getDesired_frame {B} sc (f : CloudscaleCluster → B) :
  respects (keeps f) (getDesiredLoadBalancerMembers sc) ∧
  respects (emits is_read) (getDesiredLoadBalancerMembers sc).
Proof. split; unfold getDesiredLoadBalancerMembers, listMachines; by frame. Qed.

Lemma reconcileLBMembers_frame sc :
  respects (emits_at lb_ids member_write) (reconcileLBMembers sc).
Proof.
  destruct (member_ops_frame sc) as (Hc & Hu & Hd). destruct (getDesired_frame sc lb_ids) as [Hk Hr].
  unfold reconcileLBMembers, ensureMember, pruneMember. frame; auto.
  - unfold listMembers. apply emits_at_reads; [frame|by frame|by apply read_member_write].
  - apply emits_at_reads; [done|done|by apply read_member_write].
Qed.
End lb_resources.

(** ** The stages in order *)

Section lb_stages.
Context `{P : Platform}.
Implicit Types (sc : ClusterScope) (s : CState) (c : CloudscaleCluster).

(** A write names the resources it hangs off by their recorded identifiers. *)
Definition refs_ok (lb pool : string) (e : Event) : Prop :=
  is_write e = true →
  match e with
  | ECreate (CLoadBalancer _) _ => True
  | ECreate (CPool req) _ => LoadBalancerPoolRequest_LoadBalancer req = lb ∧ lb ≠ ""
  | ECreate (CListener req) _ => LoadBalancerListenerRequest_Pool req = pool ∧ pool ≠ ""
  | ECreate (CHealthMonitor req) _ => LoadBalancerHealthMonitorRequest_Pool req = pool ∧ pool ≠ ""
  | EMemberCreate p _ _ | EMemberUpdate p _ _ _ | EMemberDelete p _ _ => p = pool ∧ pool ≠ ""
  | _ => False
  end.

Lemma emits_mono (φ ψ : Event → Prop) s s' :
  (∀ e, φ e → ψ e) → emits φ s s' → emits ψ s s'.
Proof. intros H (evs & ? & HF). exists evs. split; [done|]. by eapply Forall_impl. Qed.

Lemma stage_cases pending msg m k s (Q : Res LBOutcome → CState → Prop) :
  (∀ e, result m s = Err e → Q (Err (wrapError msg e)) (exec m s)) →
  (∀ r, result m s = Ok r → IsZero r = false → Q (Ok (lbStatus_zero, r, pending)) (exec m s)) →
  (result m s = Ok emptyResult → Q (result k (exec m s)) (exec k (exec m s))) →
  Q (result (stage pending msg m k) s) (exec (stage pending msg m k) s).
Proof.
  intros He Hw Hk. unfold stage, result, exec, bind, wrap, ret in *.
  destruct (m s) as [[r|e] s1]; simpl in *; [|by apply He].
  destruct (IsZero r) eqn:E; [|by apply Hw]. apply Hk. f_equal.
  destruct r. unfold IsZero in E. simpl in E. by apply Z.eqb_eq in E as ->.
Qed.

(** What the stages up to a state have established. *)
Definition reached s0 s : Prop :=
  spec (obj s) = spec (obj s0) ∧ lbID (obj s) = lbID (obj s0) ∧
  emits (refs_ok (lbID (obj s0)) (poolID (obj s))) s0 s.

Definition children_set c : Prop := poolID c ≠ "" ∧ listenerID c ≠ "" ∧ monitorID c ≠ "".

(** At the end: the same, and a run that ended with the empty result has set all
    the children. *)
Definition stages_done (pending : option string) s0 (r : Res LBOutcome) s : Prop :=
  reached s0 s ∧
  ∀ st res p, r = Ok (st, res, p) → p = pending ∧
    (res = emptyResult → lb_ready st = bool_decide (pending = None) ∧ children_set (obj s)).

Lemma stage_done pending msg m k s0 s :
  reached s0 (exec m s) →
  (result m s = Ok emptyResult →
   stages_done pending s0 (result k (exec m s)) (exec k (exec m s))) →
  stages_done pending s0 (result (stage pending msg m k) s) (exec (stage pending msg m k) s).
Proof.
  intros Hre Hk. apply (stage_cases _ _ _ _ _ (stages_done pending s0)); [by split|..|done].
  intros r _ Hr. split; [done|]. intros st res p [= _ <- <-]. split; [done|]. by intros ->.
Qed.

(** A stage that keeps the pool, and writes only below it. *)
Lemma reached_step s0 s s' (φ : Event → Prop) :
  reached s0 s → spec (obj s') = spec (obj s) → lbID (obj s') = lbID (obj s) →
  poolID (obj s') = poolID (obj s) →
  (∀ e, φ e → refs_ok (lbID (obj s0)) (poolID (obj s)) e) → emits φ s s' → reached s0 s'.
Proof.
  intros (? & ? & He) Hs Hl Hp Hφ He'. split_and!; [congruence..|]. rewrite Hp.
  etrans; [exact He|]. by eapply emits_mono.
Qed.

Lemma reconcileLBChildren_done sc lb pending s `{!LBIDs (scope_Client sc)} :
  lbID (obj s) ≠ "" →
  stages_done pending s (result (reconcileLBChildren sc lb pending) s)
    (exec (reconcileLBChildren sc lb pending) s).
Proof.
  intros Hlb. unfold reconcileLBChildren.
  pose proof (reconcileLBPool_ensures sc s) as (Hs1 & Hi1 & Hok1 & _ & He1).
  injection Hi1 as Hl1 _ _.
  assert (reached s (exec (reconcileLBPool sc) s)) as Hr1.
  { split_and!; [done..|]. eapply emits_mono; [|exact He1].
    intros e H Hw. destruct (H Hw) as (req & r & -> & Hreq). simpl. by rewrite Hreq. }
  apply stage_done; [done|]. intros Hok. specialize (Hok1 Hok). clear Hok.
  set (s1 := exec (reconcileLBPool sc) s) in *. clearbody s1.
  pose proof (reconcileLBListener_ensures sc s1) as (Hs2 & Hi2 & Hok2 & _ & He2).
  injection Hi2 as Hl2 Hp2 _.
  assert (reached s (exec (reconcileLBListener sc) s1)) as Hr2.
  { eapply reached_step; [exact Hr1|done..| |exact He2].
    intros e H Hw. destruct (H Hw) as (req & r & -> & Hreq). simpl. by rewrite Hreq. }
  apply stage_done; [done|]. intros Hok. specialize (Hok2 Hok). clear Hok.
  set (s2 := exec (reconcileLBListener sc) s1) in *. clearbody s2.
  rewrite <- Hp2 in Hok1.
  pose proof (reconcileLBHealthMonitor_ensures sc s2) as (Hs3 & Hi3 & Hok3 & _ & He3).
  injection Hi3 as Hl3 Hp3 Hli3.
  assert (reached s (exec (reconcileLBHealthMonitor sc) s2)) as Hr3.
  { eapply reached_step; [exact Hr2|done..| |exact He3].
    intros e H Hw. destruct (H Hw) as (req & r & -> & Hreq). simpl. by rewrite Hreq. }
  apply stage_done; [done|]. intros Hok. specialize (Hok3 Hok). clear Hok.
  set (s3 := exec (reconcileLBHealthMonitor sc) s2) in *. clearbody s3.
  rewrite <- Hp3 in Hok1. rewrite <- Hli3 in Hok2.
  pose proof (reconcileLBMembers_frame sc s3) as [Hids He4]. injection Hids as Hs4 Hl4 Hp4 Hli4 Hm4.
  assert (reached s (exec (reconcileLBMembers sc) s3)) as Hr4.
  { eapply reached_step; [exact Hr3|done..| |exact He4].
    intros e H Hw. specialize (H Hw). by destruct e. }
  apply stage_done; [done|]. intros _.
  rewrite <- Hp4 in Hok1. rewrite <- Hli4 in Hok2. rewrite <- Hm4 in Hok3.
  split; [done|]. by intros st res p [= <- <- <-].
Qed.
End lb_stages.

(** ** The load balancer: the theorems *)

Section lb_theorems.
Context `{P : Platform}.
Implicit Types (sc : ClusterScope) (s : CState) (c : CloudscaleCluster).

Definition lb_outcome s (r : Res LBOutcome) s' : Prop :=
  spec (obj s') = spec (obj s) ∧
  emits (refs_ok (lbID (obj s')) (poolID (obj s'))) s s' ∧
  ∀ st res p, r = Ok (st, res, p) → res = emptyResult →
    lbID (obj s') ≠ "" ∧ children_set (obj s') ∧ lb_ready st = bool_decide (p = None).

Lemma emits_logged (φ : Event → Prop) s c w evs :
  Forall φ evs → emits φ s (mkSt c w (log s ++ evs)).
Proof. by exists evs. Qed.

Lemma pendingMessage_reads sc lb :
  respects (keeps (@id CloudscaleCluster)) (pendingMessage sc lb) ∧
  respects (emits is_read) (pendingMessage sc lb).
Proof. split; unfold pendingMessage, listMembers; by frame. Qed.

Lemma reconcileLBEnabled_outcome sc s `{!LBIDs (scope_Client sc)} :
  lb_outcome s (result (reconcileLBEnabled sc) s) (exec (reconcileLBEnabled sc) s).
Proof.
  unfold reconcileLBEnabled.
  pose proof (reconcileLB_ensures sc s) as (Hs1 & _ & Hok1 & Hz1 & He1).
  assert (∀ s', lbID (obj s') = lbID (obj (exec (reconcileLB sc) s)) → ∀ pool,
    emits (refs_ok (lbID (obj s')) pool) s (exec (reconcileLB sc) s)) as Hr1.
  { intros s' _ pool. eapply emits_mono; [|exact He1].
    intros e H Hw. by destruct (H Hw) as (req & r & ->). }
  apply (stage_cases _ _ _ _ _ (lb_outcome s)).
  { intros e _. split_and!; [done|by apply Hr1|done]. }
  { intros r _ Hr. split_and!; [done|by apply Hr1|]. intros st res p [= _ <- _] ->. done. }
  intros Hok. specialize (Hok1 Hok). clear Hok He1 Hz1.
  set (s1 := exec (reconcileLB sc) s) in *. clearbody s1. rewrite result_get, exec_get.
  rewrite bool_decide_eq_false_2 by exact Hok1.
  assert (∀ r s2 s3 pending, obj s2 = obj s1 → emits is_read s1 s2 →
    stages_done pending s2 r s3 → lb_outcome s r s3) as Hchildren.
  { intros r s2 s3 pending Ho2 He2 [(Hs3 & Hl3 & He3) Hd]. split_and!; [congruence|..].
    - rewrite Hl3, Ho2. etrans; [apply (Hr1 s1); done|].
      etrans; [|rewrite <- Ho2; exact He3]. eapply emits_mono; [|exact He2].
      unfold is_read, refs_ok. by intros e -> [=].
    - intros st res p -> Hres. destruct (Hd _ _ _ eq_refl) as [-> Hset]. destruct (Hset Hres).
      split_and!; [by rewrite Hl3, Ho2|done|done]. }
  unfold sdk_Get. unfold bind at 1 3, wrap, call, result, exec.
  destruct (svc_Get _ _ _) as [[lb|e] w]; simpl.
  2:{ split_and!; [done| |done]. etrans; [by apply (Hr1 s1)|]. apply emits_logged. by constructor. }
  set (s2 := mkSt (obj s1) w (log s1 ++ [_])).
  assert (emits is_read s1 s2) as He2 by (apply emits_logged; by repeat constructor).
  case_bool_decide; [|case_bool_decide].
  - by eapply Hchildren; [..|apply reconcileLBChildren_done].
  - split_and!; [done| |by intros ? ? ? [= _ <- _]]. etrans; [by apply (Hr1 s1)|].
    apply emits_logged. by repeat constructor.
  - destruct (pendingMessage_reads sc lb) as [Hk Hr]. specialize (Hk s2). specialize (Hr s2).
    unfold exec, keeps in Hk, Hr. simpl in Hk.
    destruct (pendingMessage sc lb s2) as [[msg|e] s3] eqn:Em; simpl in *.
    + rewrite !(bind_ok _ _ _ _ _ Em).
      eapply Hchildren; [exact Hk|by etrans|apply reconcileLBChildren_done].
      all: by rewrite ?Hk.
    + rewrite !(bind_err _ _ _ _ _ Em). simpl. unfold lb_outcome. rewrite Hk. split_and!; [done| |done].
      etrans; [by apply (Hr1 s1)|]. eapply emits_mono; [|by etrans].
      unfold is_read, refs_ok. by intros e' -> [=].
Qed.

Lemma reconcileLoadBalancer_run sc s :
  lbEnabled (spec (obj s)) = true →
  ∃ c', exec (reconcileLoadBalancer sc) s =
          mkSt c' (world (exec (reconcileLBEnabled sc) s)) (log (exec (reconcileLBEnabled sc) s)) ∧
    (∃ cond, c' = SetConditions cond (obj (exec (reconcileLBEnabled sc) s))) ∧
    match result (reconcileLBEnabled sc) s with
    | Err e => result (reconcileLoadBalancer sc) s = Err e ∧
        conditionOf c' LoadBalancerReadyCondition =
          Some (mkCondition LoadBalancerReadyCondition ConditionFalse LoadBalancerErrorReason (Error e))
    | Ok (st, res, pending) => result (reconcileLoadBalancer sc) s = Ok (st, res) ∧
        conditionOf c' LoadBalancerReadyCondition =
          Some (match pending with
                | Some msg => mkCondition LoadBalancerReadyCondition ConditionFalse
                                LoadBalancerNotReadyReason msg
                | None => mkCondition LoadBalancerReadyCondition ConditionTrue
                            LoadBalancerRunningReason ""
                end)
    end.
Proof.
  intros Hen. unfold reconcileLoadBalancer. rewrite exec_get, result_get, Hen. simpl.
  unfold deferred, exec, result, bind, ret.
  destruct (reconcileLBEnabled sc s) as [[[[st res] [msg|]]|e] s1]; simpl;
    (eexists; split_and!; [reflexivity|by eexists|done|apply conditionOf_set_eq]).
Qed.

(** When [reconcileLoadBalancer] finishes without an error and without
    asking for a requeue on a cluster that has a load balancer, the load
    balancer, the pool, the listener and the health monitor are all recorded;
    and LoadBalancerReady is True exactly when the load balancer was found
    running, as the caller is told. *)
Lemma reconcileLoadBalancer_provisions sc s st `{!LBIDs (scope_Client sc)} :
  let c' := obj (exec (reconcileLoadBalancer sc) s) in
  lbEnabled (spec (obj s)) = true →
  result (reconcileLoadBalancer sc) s = Ok (st, emptyResult) →
  lbID c' ≠ "" ∧ poolID c' ≠ "" ∧ listenerID c' ≠ "" ∧ monitorID c' ≠ "" ∧
  lb_ready st = IsTrue c' LoadBalancerReadyCondition.
Proof.
  intros c' Hen Hr. subst c'.
  destruct (reconcileLoadBalancer_run sc s Hen) as (c' & -> & [conds Hc'] & Hres).
  pose proof (reconcileLBEnabled_outcome sc s) as (_ & _ & Hout).
  destruct (result (reconcileLBEnabled sc) s) as [[[st' res] pending]|e].
  2:{ destruct Hres as [Hres _]. congruence. }
  destruct Hres as [Hres Hcond]. rewrite Hres in Hr. injection Hr as -> ->.
  destruct (Hout _ _ _ eq_refl eq_refl) as (Hlb & (Hp & Hli & Hm) & Hrd).
  simpl. unfold IsTrue. rewrite Hcond, Hrd, Hc'.
  split_and!; [done..|]. by destruct pending.
Qed.

(** Every write of [reconcileLoadBalancer] hangs off a recorded parent: a
    pool is created for the recorded load balancer, a listener and a health
    monitor for the recorded pool, and members are created, updated and deleted
    in the recorded pool; no other write happens, on any outcome. *)
Theorem reconcileLoadBalancer_references sc s `{!LBIDs (scope_Client sc)} :
  let c' := obj (exec (reconcileLoadBalancer sc) s) in
  ∀ e, e ∈ calls_of (reconcileLoadBalancer sc) s → refs_ok (lbID c') (poolID c') e.
Proof.
  intros c'. apply Forall_forall, emits_in_calls. subst c'.
  destruct (lbEnabled (spec (obj s))) eqn:Hen.
  - destruct (reconcileLoadBalancer_run sc s Hen) as (c' & -> & [conds ->] & _).
    by destruct (reconcileLBEnabled_outcome sc s) as (_ & He & _).
  - unfold reconcileLoadBalancer. rewrite exec_get, Hen. simpl. exists []. by rewrite app_nil_r.
Qed.

(** None of the four functions leaves two resources with the cluster's
    tags where there was at most one, whatever the calls answer. *)
Theorem reconcileLoadBalancer_no_duplicates sc s `{!LBIDs (scope_Client sc)}
    `{H1 : !TaggedService (LoadBalancers (scope_Client sc)) LoadBalancer_UUID LoadBalancerRequest_Tags}
    `{H2 : !TaggedService (LoadBalancerPools (scope_Client sc)) LoadBalancerPool_UUID
             LoadBalancerPoolRequest_Tags}
    `{H3 : !TaggedService (LoadBalancerListeners (scope_Client sc)) LoadBalancerListener_UUID
             LoadBalancerListenerRequest_Tags}
    `{H4 : !TaggedService (LoadBalancerHealthMonitors (scope_Client sc)) LoadBalancerHealthMonitor_UUID
             LoadBalancerHealthMonitorRequest_Tags} :
  let tags := clusterOwnershipTags (obj s) in
  let lbs := owned (LoadBalancers (scope_Client sc)) LoadBalancer_UUID tags in
  let pools := owned (LoadBalancerPools (scope_Client sc)) LoadBalancerPool_UUID tags in
  let listeners := owned (LoadBalancerListeners (scope_Client sc)) LoadBalancerListener_UUID tags in
  let monitors := owned (LoadBalancerHealthMonitors (scope_Client sc)) LoadBalancerHealthMonitor_UUID tags in
  (lbs (world s) ≤ 1 → lbs (world (exec (reconcileLB sc) s)) ≤ 1) ∧
  (pools (world s) ≤ 1 → pools (world (exec (reconcileLBPool sc) s)) ≤ 1) ∧
  (listeners (world s) ≤ 1 → listeners (world (exec (reconcileLBListener sc) s)) ≤ 1) ∧
  (monitors (world s) ≤ 1 → monitors (world (exec (reconcileLBHealthMonitor sc) s)) ≤ 1).
Proof.
  intros tags lbs pools listeners monitors.
  split_and!; (eapply ensureOrCreate_owned; eauto using lb_request, pool_request, listener_request,
                 monitor_request).
Qed.
End lb_theorems.

(** ** Members: the pool converges to the control plane machines *)

Section lb_members.
Context `{P : Platform}.
Implicit Types (sc : ClusterScope) (s : CState) (c : CloudscaleCluster)
  (d : LoadBalancerPoolMemberRequest) (m : LoadBalancerPoolMember).

Abbreviation mname := LoadBalancerPoolMember_Name.
Abbreviation muuid := LoadBalancerPoolMember_UUID.
Abbreviation maddr := LoadBalancerPoolMember_Address.
Abbreviation dname := LoadBalancerPoolMemberRequest_Name.
Abbreviation daddr := LoadBalancerPoolMemberRequest_Address.

Definition set_address (a : string) m : LoadBalancerPoolMember :=
  mkLoadBalancerPoolMember (muuid m) (mname m) a (LoadBalancerPoolMember_ProtocolPort m)
    (LoadBalancerPoolMember_MonitorStatus m).

(** What the member service promises about pool [p]: a listing returns the
    members, and a call that succeeds has done what it says. Identifiers are
    unique, and reads of the Kubernetes API leave the pool alone. *)
Class MemberService (cl : Client World) (p : string) := {
  members : World → list LoadBalancerPoolMember;
  members_uuid w : NoDup (muuid <$> members w);
  members_list w l w' :
    member_List (LoadBalancerPoolMembers cl) p w = (Ok l, w') →
    l ≡ₚ members w ∧ members w' ≡ₚ members w;
  members_create d w m w' :
    member_Create (LoadBalancerPoolMembers cl) p d w = (Ok m, w') →
    members w' ≡ₚ m :: members w ∧ mname m = dname d ∧ maddr m = daddr d;
  members_update u d w w' :
    member_Update (LoadBalancerPoolMembers cl) p u d w = (Ok (), w') →
    members w' ≡ₚ (λ m, if bool_decide (muuid m = u) then set_address (daddr d) m else m) <$> members w;
  members_delete u w w' :
    member_Delete (LoadBalancerPoolMembers cl) p u w = (Ok (), w') →
    members w' ≡ₚ filter (λ m, muuid m ≠ u) (members w);
  members_machines ns ls w :
    members (snd (kube_ListCloudscaleMachines ns ls w)) ≡ₚ members w }.

Definition serves m d : Prop := mname m = dname d ∧ maddr m = daddr d.

(** While adding and updating: the wanted members so far are there; any other
    member is one of the listed ones, unchanged and not wanted so far; the listed
    ones are still there under their names. *)
Definition adding (L : list LoadBalancerPoolMember) (cur : list LoadBalancerPoolMember)
    (pre : list LoadBalancerPoolMemberRequest) : Prop :=
  NoDup (muuid <$> L) ∧ NoDup (mname <$> L) ∧
  (∀ d, d ∈ pre → ∃ m, m ∈ L ∧ serves m d) ∧
  (∀ m, m ∈ L → (∃ d, d ∈ pre ∧ serves m d) ∨ (m ∈ cur ∧ mname m ∉ (dname <$> pre))) ∧
  (∀ m, m ∈ cur → ∃ m', m' ∈ L ∧ muuid m' = muuid m ∧ mname m' = mname m).

Lemma adding_perm L L' cur pre : L ≡ₚ L' → adding L cur pre → adding L' cur pre.
Proof. intros HL. unfold adding. by setoid_rewrite HL. Qed.

Lemma NoDup_key {A} (key : A → string) (l : list A) x y :
  NoDup (key <$> l) → x ∈ l → y ∈ l → key x = key y → x = y.
Proof.
  intros Hnd Hx Hy Hk. pose proof (find_by_unique _ _ _ Hnd Hx) as H1.
  pose proof (find_by_unique _ _ _ Hnd Hy) as H2. rewrite Hk in H1. congruence.
Qed.

(** A wanted member that does not exist is created. *)
Lemma adding_create L cur pre d m :
  adding L cur pre → dname d ∉ (mname <$> cur) → dname d ∉ (dname <$> pre) →
  NoDup (muuid <$> m :: L) → serves m d →
  adding (m :: L) cur (pre ++ [d]).
Proof.
  intros (Hu & Hn & Hd & Hm & Hc) Hcur Hpre Huu [Hmn Hma]. split_and!.
  - done.
  - csimpl. apply NoDup_cons. split; [|done]. intros (m' & Heq & Hin)%list_elem_of_fmap.
    destruct (Hm m' Hin) as [(d' & Hd' & [Hs _])|[Hin' _]].
    + apply Hpre. rewrite <- Hmn, Heq, Hs. by apply list_elem_of_fmap_2.
    + apply Hcur. rewrite <- Hmn, Heq. by apply list_elem_of_fmap_2.
  - intros d' [Hd'| ->%list_elem_of_singleton]%elem_of_app.
    + destruct (Hd d' Hd') as (m' & ? & ?). exists m'. split; [by right|done].
    + exists m. split; [by left|done].
  - intros m' [->|Hin]%elem_of_cons.
    + left. exists d. split; [apply elem_of_app; right; by left|done].
    + destruct (Hm m' Hin) as [(d' & ? & ?)|[Hin' Hnp]].
      * left. exists d'. split; [apply elem_of_app; by left|done].
      * right. split; [done|]. rewrite fmap_app, elem_of_app. intros [?|Heq%list_elem_of_singleton]; [done|].
        apply Hcur. rewrite <- Heq. by apply list_elem_of_fmap_2.
  - intros m' Hm'. destruct (Hc m' Hm') as (m'' & ? & ?). exists m''. split; [by right|done].
Qed.

(** A wanted member that exists keeps its identifier and gets the address. *)
Lemma adding_update L cur pre d m0 :
  adding L cur pre → m0 ∈ cur → mname m0 = dname d → dname d ∉ (dname <$> pre) →
  adding ((λ m, if bool_decide (muuid m = muuid m0) then set_address (daddr d) m else m) <$> L)
    cur (pre ++ [d]).
Proof.
  set (f := λ m, if bool_decide (muuid m = muuid m0) then set_address (daddr d) m else m).
  intros (Hu & Hn & Hd & Hm & Hc) H0 Hname Hpre.
  assert (∀ m, muuid (f m) = muuid m ∧ mname (f m) = mname m) as Hf.
  { intros m. unfold f. by case_bool_decide. }
  assert (∀ g : LoadBalancerPoolMember → string, (∀ m, g (f m) = g m) →
            g <$> (f <$> L) = g <$> L) as Hg.
  { intros g Hgf. rewrite <- list_fmap_compose. apply list_fmap_ext. intros _ m _. apply Hgf. }
  destruct (Hc m0 H0) as (m1 & Hm1 & Hu1 & Hn1).
  assert (∀ m, m ∈ L → muuid m = muuid m0 → m = m1) as Huniq.
  { intros m Hin Heq. eapply (NoDup_key muuid L); [done..|]. congruence. }
  split_and!.
  - rewrite Hg; [done|]. intros m. apply Hf.
  - rewrite Hg; [done|]. intros m. apply Hf.
  - intros d' [Hd'| ->%list_elem_of_singleton]%elem_of_app.
    + destruct (Hd d' Hd') as (m & Hin & Hs). exists (f m). split; [by apply list_elem_of_fmap_2|].
      unfold f. case_bool_decide as Heq; [|done]. exfalso. apply Hpre.
      rewrite (Huniq m Hin Heq) in Hs. destruct Hs as [Hs _].
      rewrite <- Hname, <- Hn1, Hs. by apply list_elem_of_fmap_2.
    + exists (f m1). split; [by apply list_elem_of_fmap_2|].
      unfold f. rewrite bool_decide_eq_true_2 by done. split; [simpl; congruence|done].
  - intros m' (m & -> & Hin)%list_elem_of_fmap. unfold f. case_bool_decide as Heq.
    + left. exists d. split; [apply elem_of_app; right; by left|].
      rewrite (Huniq m Hin Heq). split; [simpl; congruence|done].
    + destruct (Hm m Hin) as [(d' & ? & ?)|[Hin' Hnp]].
      * left. exists d'. split; [apply elem_of_app; by left|done].
      * right. split; [done|]. rewrite fmap_app, elem_of_app. intros [?|Hd'%list_elem_of_singleton]; [done|].
        apply Heq. assert (m = m1) as ->; [|done].
        eapply (NoDup_key mname L); [done..|]. congruence.
  - intros m Hin. destruct (Hc m Hin) as (m' & Hin' & ? & ?). exists (f m').
    split; [by apply list_elem_of_fmap_2|]. destruct (Hf m'). split; congruence.
Qed.

(** While pruning: the wanted members are there, any other member is a listed
    one that is not wanted and not reached yet. *)
Definition pruning (L : list LoadBalancerPoolMember) (cur pre : list LoadBalancerPoolMember)
    (wanted : list LoadBalancerPoolMemberRequest) : Prop :=
  NoDup (muuid <$> L) ∧ NoDup (mname <$> L) ∧
  (∀ d, d ∈ wanted → ∃ m, m ∈ L ∧ serves m d) ∧
  (∀ m, m ∈ L → (∃ d, d ∈ wanted ∧ serves m d) ∨
     ((m ∈ cur) ∧ (mname m ∉ (dname <$> wanted)) ∧ (muuid m ∉ (muuid <$> pre)))) ∧
  (∀ m m', m ∈ cur → m' ∈ L → muuid m' = muuid m → mname m' = mname m).

Lemma pruning_perm L L' cur pre wanted : L ≡ₚ L' → pruning L cur pre wanted → pruning L' cur pre wanted.
Proof. intros HL. unfold pruning. by setoid_rewrite HL. Qed.

Lemma pruning_start L cur wanted : adding L cur wanted → pruning L cur [] wanted.
Proof.
  intros (Hu & Hn & Hd & Hm & Hc). split_and!; [done..| |].
  - intros m Hin. destruct (Hm m Hin) as [?|[? ?]]; [by left|right].
    split_and!; [done..|apply not_elem_of_nil].
  - intros m m' Hin Hin' Heq. destruct (Hc m Hin) as (m'' & ? & ? & <-).
    assert (m' = m'') as ->; [|done]. eapply (NoDup_key muuid L); [done..|]. congruence.
Qed.

Lemma pruning_keep L cur pre wanted m :
  pruning L cur pre wanted → m ∈ cur → mname m ∈ (dname <$> wanted) →
  pruning L cur (pre ++ [m]) wanted.
Proof.
  intros (Hu & Hn & Hd & Hm & Hc) Hin Hw. split_and!; try done. intros m' Hin'.
  destruct (Hm m' Hin') as [?|(? & Hnw & ?)]; [by left|right]. split_and!; [done..|].
  rewrite fmap_app, elem_of_app. intros [?|Heq%list_elem_of_singleton]; [done|].
  apply Hnw. by rewrite (Hc m m' Hin Hin' Heq).
Qed.

Lemma pruning_delete L cur pre wanted m :
  pruning L cur pre wanted → m ∈ cur → mname m ∉ (dname <$> wanted) →
  pruning (filter (λ m', muuid m' ≠ muuid m) L) cur (pre ++ [m]) wanted.
Proof.
  intros (Hu & Hn & Hd & Hm & Hc) Hin Hw.
  assert (∀ g : LoadBalancerPoolMember → string, NoDup (g <$> L) →
    NoDup (g <$> filter (λ m', muuid m' ≠ muuid m) L)) as Hfil.
  { intros g Hg. eapply sublist_NoDup; [exact Hg|]. apply fmap_sublist, sublist_filter. }
  split_and!; [by apply Hfil|by apply Hfil|..].
  - intros d Hin'. destruct (Hd d Hin') as (m' & Hm' & Hs). exists m'. split; [|done].
    apply list_elem_of_filter. split; [|done]. intros Heq. apply Hw.
    rewrite <- (Hc m m' Hin Hm' Heq). destruct Hs as [-> _]. by apply list_elem_of_fmap_2.
  - intros m' [Hne Hin']%list_elem_of_filter. destruct (Hm m' Hin') as [?|(? & ? & ?)]; [by left|right].
    split_and!; [done..|]. rewrite fmap_app, elem_of_app. by intros [?|?%list_elem_of_singleton].
  - intros m1 m2 Hin1 [_ Hin2]%list_elem_of_filter. by apply Hc.
Qed.
End lb_members.

Section lb_convergence.
Context `{P : Platform}.
Implicit Types (sc : ClusterScope) (s : CState) (c : CloudscaleCluster).

Abbreviation mname := LoadBalancerPoolMember_Name.
Abbreviation maddr := LoadBalancerPoolMember_Address.
Abbreviation dname := LoadBalancerPoolMemberRequest_Name.
Abbreviation daddr := LoadBalancerPoolMemberRequest_Address.

(** ** Which members are wanted *)

Definition machineName (m : CloudscaleMachine) : string := ObjectMeta_Name (CloudscaleMachine_Meta m).
Definition machineAddresses (m : CloudscaleMachine) : list MachineAddress :=
  CloudscaleMachineStatus_Addresses (CloudscaleMachine_Status m).

(** An address by which a machine can serve on the member subnet. *)
Definition reachable (net : IPNet) (a : MachineAddress) : Prop :=
  MachineAddress_Type a = MachineInternalIP ∧ MachineAddress_Address a ≠ "" ∧
  ∃ ip, ParseIP (MachineAddress_Address a) = Some ip ∧ IPNet_Contains net ip = true.

Lemma memberAddress_spec net addrs :
  match memberAddress net addrs with
  | Some s => ∃ a, a ∈ addrs ∧ MachineAddress_Address a = s ∧ reachable net a
  | None => ∀ a, a ∈ addrs → ¬ reachable net a
  end.
Proof.
  induction addrs as [|a addrs IH]; simpl; [by intros a ?%not_elem_of_nil|].
  destruct (_ && _ && _) eqn:E.
  - go_bools. exists a. unfold reachable. split_and!; [by left|done..|].
    destruct (ParseIP _) as [ip|]; [by eauto|done].
  - destruct (memberAddress net addrs) as [s|].
    + destruct IH as (b & ? & ?). exists b. split; [by right|done].
    + intros b [->|Hb]%elem_of_cons; [|by apply IH]. intros (Ht & Hn & ip & Hp & Hc).
      rewrite Hp, Hc, bool_decide_eq_true_2, bool_decide_eq_false_2 in E by done. done.
Qed.

(** C35. The wanted members are exactly the control plane machines that have an
    internal address inside the member subnet, under the machine's name, with
    such an address, on the subnet the spec selects and on the API server port;
    a machine without one is left out. *)
Theorem desiredFrom_spec c machines wanted :
  desiredFrom c machines = Ok wanted →
  ∃ subnet cidr net,
    getPoolMemberSubnetID c = Ok subnet ∧ getMemberSubnetCIDR c subnet = Ok cidr ∧
    ParseCIDR cidr = Some net ∧
    (∀ d, d ∈ wanted → ∃ m a, m ∈ machines ∧ a ∈ machineAddresses m ∧ reachable net a ∧
       d = mkLoadBalancerPoolMemberRequest (machineName m) subnet
             (LoadBalancerSpec_APIServerPort (lbSpec c)) (MachineAddress_Address a)
             (Some (clusterOwnershipTags c))) ∧
    (∀ m, m ∈ machines → (∃ a, a ∈ machineAddresses m ∧ reachable net a) →
       machineName m ∈ (dname <$> wanted)).
Proof.
  unfold desiredFrom, res_bind, res_wrap.
  destruct (getPoolMemberSubnetID c) as [subnet|] eqn:E1; [|done].
  destruct (getMemberSubnetCIDR c subnet) as [cidr|] eqn:E2; [|done].
  destruct (ParseCIDR cidr) as [net|] eqn:E3; [|done]. intros [= <-].
  exists subnet, cidr, net. split_and!; [done..| |].
  - intros d (l & Hd & Hl)%list_elem_of_join. apply list_elem_of_fmap in Hl as (m & -> & Hm).
    unfold desiredMember in Hd. pose proof (memberAddress_spec net (machineAddresses m)) as Ha.
    unfold machineAddresses in Ha. destruct (memberAddress _ _) as [s|]; [|by apply not_elem_of_nil in Hd].
    apply list_elem_of_singleton in Hd as ->. destruct Ha as (a & ? & <- & ?). by exists m, a.
  - intros m Hm (a & Hain & Hr). pose proof (memberAddress_spec net (machineAddresses m)) as Ha.
    destruct (memberAddress net (machineAddresses m)) as [s|] eqn:Es; [|by destruct (Ha a Hain)].
    apply list_elem_of_fmap.
    exists (mkLoadBalancerPoolMemberRequest (machineName m) subnet
              (LoadBalancerSpec_APIServerPort (lbSpec c)) s (Some (clusterOwnershipTags c))).
    split; [done|]. apply list_elem_of_join. eexists. split; [|by apply list_elem_of_fmap_2].
    unfold desiredMember. unfold machineAddresses in Es. rewrite Es. by left.
Qed.

Lemma desiredFrom_names c machines wanted :
  desiredFrom c machines = Ok wanted → NoDup (machineName <$> machines) → NoDup (dname <$> wanted).
Proof.
  unfold desiredFrom, res_bind, res_wrap.
  destruct (getPoolMemberSubnetID c) as [subnet|]; [|done].
  destruct (getMemberSubnetCIDR c subnet) as [cidr|]; [|done].
  destruct (ParseCIDR cidr) as [net|]; [|done]. intros [= <-].
  intros Hnd. eapply sublist_NoDup; [exact Hnd|]. clear Hnd.
  induction machines as [|m ms IH]; csimpl; [done|]. unfold desiredMember at 1.
  destruct (memberAddress _ _); csimpl; [by apply sublist_skip|by apply sublist_cons].
Qed.

(** A wanted member that already has the right address is left alone. *)
Lemma adding_keep L cur pre d m0 :
  adding L cur pre → NoDup (mname <$> cur) → m0 ∈ cur → mname m0 = dname d → maddr m0 = daddr d →
  dname d ∉ (dname <$> pre) → adding L cur (pre ++ [d]).
Proof.
  intros (Hu & Hn & Hd & Hm & Hc) Hcur H0 Hname Haddr Hpre.
  assert (m0 ∈ L) as HL0.
  { destruct (Hc m0 H0) as (m1 & Hm1 & _ & Hn1). destruct (Hm m1 Hm1) as [(d' & Hd' & [Hs _])|[Hin _]].
    - destruct Hpre. rewrite <- Hname, <- Hn1, Hs. by apply list_elem_of_fmap_2.
    - by rewrite <- (NoDup_key mname cur m1 m0 Hcur Hin H0 Hn1). }
  split_and!; [done..| | |done].
  - intros d' [Hd'| ->%list_elem_of_singleton]%elem_of_app; [by apply Hd|]. by exists m0.
  - intros m Hin. destruct (Hm m Hin) as [(d' & ? & ?)|[Hin' Hnp]].
    + left. exists d'. split; [apply elem_of_app; by left|done].
    + destruct (decide (mname m = dname d)) as [Heq|Hne].
      * left. exists d. split; [apply elem_of_app; right; by left|].
        rewrite (NoDup_key mname L m m0 Hn Hin HL0) by congruence. done.
      * right. split; [done|]. rewrite fmap_app, elem_of_app. by intros [?|?%list_elem_of_singleton].
Qed.

(** ** The two loops *)

Section loops.
Context sc (p : string) {MS : MemberService (scope_Client sc) p}.

Definition pool_adding cur pre s : Prop := poolID (obj s) = p ∧ adding (members (world s)) cur pre.
Definition pool_pruning cur wanted pre s : Prop :=
  poolID (obj s) = p ∧ pruning (members (world s)) cur pre wanted.

Lemma ensureMember_adding cur wanted pre d post s :
  NoDup (mname <$> cur) → NoDup (dname <$> wanted) → wanted = pre ++ d :: post →
  pool_adding cur pre s →
  result (ensureMember sc (index_by mname cur) d) s = Ok (Next ()) →
  pool_adding cur (pre ++ [d]) (exec (ensureMember sc (index_by mname cur) d) s).
Proof.
  intros Hcur Hnd -> [Hp Ha]. rewrite fmap_app in Hnd.
  assert (dname d ∉ (dname <$> pre)) as Hpre.
  { apply NoDup_app in Hnd as (_ & Hdis & _). intros Hin. apply (Hdis _ Hin). csimpl. by left. }
  unfold ensureMember. destruct (index_by mname cur !! dname d) as [m0|] eqn:Em.
  - apply index_by_Some in Em as [H0 Hn0].
    unfold updateLoadBalancerMember. go_run.
    case_bool_decide as Haddr; simpl.
    + intros _. split; [done|]. by eapply adding_keep.
    + rewrite Hp. destruct (member_Update _ _ _ _ _) as [[[]|e] w'] eqn:E; simpl; [|done].
      intros _. split; [done|]. simpl. apply members_update in E. simpl in E.
      eapply adding_perm; [symmetry; exact E|]. by apply adding_update.
  - assert (dname d ∉ (mname <$> cur)) as Hnew.
    { rewrite <- index_by_is_Some, Em. by intros []. }
    unfold createLoadBalancerMember. go_run. rewrite Hp.
    destruct (member_Create _ _ _ _) as [[m|e] w'] eqn:E; simpl;
      [|by destruct (IsTimeoutError e)].
    intros _. split; [done|]. simpl. pose proof (members_uuid w') as Hu.
    apply members_create in E as (Hperm & Hmn & Hma).
    eapply adding_perm; [symmetry; exact Hperm|]. apply adding_create; try done.
    by rewrite <- Hperm.
Qed.

Lemma pruneMember_pruning cur wanted pre m s :
  m ∈ cur → pool_pruning cur wanted pre s →
  result (pruneMember sc (index_by dname wanted) m) s = Ok (Next ()) →
  pool_pruning cur wanted (pre ++ [m]) (exec (pruneMember sc (index_by dname wanted) m) s).
Proof.
  intros Hin [Hp Ha]. unfold pruneMember.
  destruct (index_by dname wanted !! mname m) as [d|] eqn:Ed.
  - intros _. split; [done|]. apply pruning_keep; [done..|].
    rewrite <- index_by_is_Some, Ed. by eauto.
  - unfold deleteLoadBalancerMember. go_run. rewrite Hp.
    destruct (member_Delete _ _ _ _) as [[[]|e] w'] eqn:E; simpl; [|done].
    intros _. split; [done|]. simpl. apply members_delete in E.
    eapply pruning_perm; [symmetry; exact E|]. apply pruning_delete; [done..|].
    rewrite <- index_by_is_Some, Ed. by intros [].
Qed.

(** Both loops, run to their ends. *)
Lemma member_loops_converge cur wanted s :
  poolID (obj s) = p → cur ≡ₚ members (world s) →
  NoDup (mname <$> cur) → NoDup (dname <$> wanted) →
  let m1 := foreach wanted (ensureMember sc (index_by mname cur)) in
  let m2 := foreach cur (pruneMember sc (index_by dname wanted)) in
  result m1 s = Ok (Next ()) → result m2 (exec m1 s) = Ok (Next ()) →
  pool_pruning cur wanted cur (exec m2 (exec m1 s)).
Proof.
  intros Hp Hcur Hn Hw m1 m2 H1 H2.
  assert (pool_adding cur wanted (exec m1 s)) as [Hp1 Ha1].
  { apply (foreach_prefix (pool_adding cur)); [|split; [done|]|done].
    - intros pre d post s' Heq. by eapply ensureMember_adding.
    - split_and!; [apply members_uuid|by rewrite <- Hcur|by intros ? ?%not_elem_of_nil|..].
      + intros m Hm. right. rewrite <- Hcur in Hm. split; [done|apply not_elem_of_nil].
      + intros m Hm. exists m. rewrite <- Hcur. done. }
  apply (foreach_ind (pool_pruning cur wanted) cur _ []); [|split; [done|]|done].
  - intros pre m s' Hin. by apply pruneMember_pruning.
  - by apply pruning_start.
Qed.
End loops.

Lemma ensureMember_requeues sc cur d : requeues (ensureMember sc cur d).
Proof.
  unfold ensureMember. case_match; [apply (requeues_next _ (λ _, ()))|apply requeues_returning].
Qed.

Lemma pruneMember_requeues sc wanted m : requeues (pruneMember sc wanted m).
Proof. unfold pruneMember. case_match; [done|]. apply (requeues_next _ (λ _, ())). Qed.

(** A finished members reconcile has listed the pool, computed the wanted
    members and run both loops to their ends. *)
Lemma reconcileLBMembers_run sc s :
  result (reconcileLBMembers sc) s = Ok emptyResult →
  ∃ cur s1 wanted s2,
    listMembers sc (poolID (obj s)) s = (Ok cur, s1) ∧
    getDesiredLoadBalancerMembers sc s1 = (Ok wanted, s2) ∧
    let m1 := foreach wanted (ensureMember sc (index_by mname cur)) in
    let m2 := foreach cur (pruneMember sc (index_by dname wanted)) in
    result m1 s2 = Ok (Next ()) ∧ result m2 (exec m1 s2) = Ok (Next ()) ∧
    exec (reconcileLBMembers sc) s = exec m2 (exec m1 s2).
Proof.
  unfold reconcileLBMembers. rewrite result_get, exec_get.
  unfold result, exec, bind at 1 2 3 4, wrap.
  destruct (listMembers sc _ s) as [[cur|e] s1]; [|done].
  destruct (getDesiredLoadBalancerMembers sc s1) as [[wanted|e] s2] eqn:E2; [|done].
  intros Hr. exists cur, s1, wanted, s2. split_and!; [done|done|..].
  all: unfold bind_flow, bind, ret in *.
  all: pose proof (requeues_foreach wanted (ensureMember sc (index_by mname cur))
         (λ _ _, ensureMember_requeues sc _ _) s2) as Hq1; unfold result in Hq1.
  all: destruct (foreach wanted (ensureMember sc (index_by mname cur)) s2) as [[[r|[]]|e] s3] eqn:E3;
    simpl in *; [by injection Hr as ->; specialize (Hq1 _ eq_refl)| |done].
  all: pose proof (requeues_foreach cur (pruneMember sc (index_by dname wanted))
         (λ _ _, pruneMember_requeues sc _ _) s3) as Hq2; unfold result in Hq2.
  all: destruct (foreach cur (pruneMember sc (index_by dname wanted)) s3) as [[[r|[]]|e] s4] eqn:E4;
    simpl in *; [by injection Hr as ->; specialize (Hq2 _ eq_refl)|done|done].
Qed.

(** C11. Convergence: when [reconcileLBMembers] finishes, the pool holds exactly
    the members wanted for the control plane machines listed by label, by name
    and address, once each: missing ones were created, ones at another address updated, all others removed. The pool's
    member names and the names of the listed machines are assumed unique. *)
Theorem reconcileLBMembers_converges sc s
    `{MS : !MemberService (scope_Client sc) (poolID (obj s))} :
  NoDup (mname <$> members (world s)) →
  let listed := kube_ListCloudscaleMachines
      (ObjectMeta_Namespace (CloudscaleCluster_Meta (obj s))) (controlPlaneLabels sc)
      (snd (member_List (LoadBalancerPoolMembers (scope_Client sc)) (poolID (obj s)) (world s))) in
  (∀ machines w', listed = (Ok machines, w') → NoDup (machineName <$> machines)) →
  result (reconcileLBMembers sc) s = Ok emptyResult →
  ∃ machines w' wanted, listed = (Ok machines, w') ∧ desiredFrom (obj s) machines = Ok wanted ∧
    (λ m, (mname m, maddr m)) <$> members (world (exec (reconcileLBMembers sc) s))
      ≡ₚ (λ d, (dname d, daddr d)) <$> wanted.
Proof.
  intros Hn listed Hmach Hr. subst listed.
  destruct (reconcileLBMembers_run sc s Hr) as (cur & s1 & wanted & s2 & Hl & Hd & H1 & H2 & ->).
  unfold listMembers, call in Hl. destruct (member_List _ _ _) as [r w1] eqn:El.
  injection Hl as -> <-. simpl in *. apply members_list in El as [Hcur Hw1].
  unfold getDesiredLoadBalancerMembers, listMachines in Hd. rewrite bind_get in Hd. simpl in Hd.
  unfold bind, wrap, call, of_res in Hd. simpl in Hd.
  pose proof (members_machines (ObjectMeta_Namespace (CloudscaleCluster_Meta (obj s)))
                (controlPlaneLabels sc) w1) as Hw2.
  destruct (kube_ListCloudscaleMachines _ _ w1) as [[machines|e] w2] eqn:Ek; [|done].
  injection Hd as Hwant <-. simpl in Hw2.
  exists machines, w2, wanted. do 2 (split; [done|]).
  pose proof (desiredFrom_names _ _ _ Hwant (Hmach _ _ eq_refl)) as Hdn.
  edestruct (member_loops_converge sc (poolID (obj s)) cur wanted) as [_ (Hu & Hnf & Hds & Hms & _)];
    [..|exact H1|exact H2|].
  { done. }
  { simpl. by rewrite Hw2, Hw1. }
  { by rewrite Hcur. }
  { done. }
  apply NoDup_Permutation.
  - eapply (NoDup_fmap_1 fst). rewrite <- list_fmap_compose. exact Hnf.
  - eapply (NoDup_fmap_1 fst). rewrite <- list_fmap_compose. exact Hdn.
  - intros [n a]. rewrite !list_elem_of_fmap. split.
    + intros (m & [= -> ->] & Hm). destruct (Hms m Hm) as [(d & Hd & [-> ->])|(Hin & _ & Hno)].
      * by exists d.
      * destruct Hno. by apply list_elem_of_fmap_2.
    + intros (d & [= -> ->] & Hd). destruct (Hds d Hd) as (m & Hm & [<- <-]). by exists m.
Qed.
End lb_convergence.

(** ** Deletion *)

Section lb_deletion.
Context `{P : Platform}.
Implicit Types (sc : ClusterScope) (s : CState).

(** The outcome of [deleteLoadBalancer]. *)
Lemma deleteLoadBalancer_spec sc s :
  let c := obj s in let c' := obj (exec (deleteLoadBalancer sc) s) in
  let evs := calls_of (deleteLoadBalancer sc) s in
  Forall (λ e, is_write e = true → ∃ r, e = EDelete KLoadBalancer (lbID c) r ∧ lbID c ≠ "") evs ∧
  (lbEnabled (spec c) = false → evs = [] ∧ c' = c) ∧
  (lbEnabled (spec c) = true →
   match result (deleteLoadBalancer sc) s with
   | Ok _ =>
       (lbID c', poolID c', listenerID c', monitorID c',
        CloudscaleClusterStatus_LoadBalancerMemberIDs (status c')) = ("", "", "", "", []) ∧
       (lbID c = "" ∨ confirmed_deleted KLoadBalancer (lbID c) evs)
   | Err _ =>
       (lbID c', poolID c', listenerID c', monitorID c',
        CloudscaleClusterStatus_LoadBalancerMemberIDs (status c')) =
       (lbID c, poolID c, listenerID c, monitorID c,
        CloudscaleClusterStatus_LoadBalancerMemberIDs (status c))
   end).
Proof.
  unfold calls_of, deleteLoadBalancer. rewrite exec_get, result_get. fold (lbID (obj s)).
  destruct (lbEnabled (spec (obj s))); simpl.
  2:{ unfold exec, ret. simpl. rewrite drop_all. done. }
  unfold deleteLBBody, sdk_Delete, Eventf, lbID. go_run.
  case_bool_decide as Hid; simpl.
  { rewrite drop_all. split_and!; [done..|]. intros _. split; [done|by left]. }
  destruct (svc_Delete _ _ _) as [[[]|e] w]; simpl.
  - rewrite <- app_assoc, drop_app_length. simpl. split_and!; [|done|].
    + repeat constructor; try done. by eauto.
    + intros _. split; [done|]. right. exists (Ok ()). split; [by left|done].
  - destruct (IsNotFound e) eqn:En; simpl.
    + rewrite <- app_assoc, drop_app_length. simpl. split_and!; [|done|].
      * repeat constructor; try done. by eauto.
      * intros _. split; [done|]. right. exists (Err e). split; [by left|done].
    + rewrite drop_app_length. split_and!; [|done|done].
      repeat constructor; try done. by eauto.
Qed.

(** [deleteLoadBalancer] deletes nothing but the recorded load balancer,
    and nothing at all when the cluster has none of its own; on success every
    recorded identifier is cleared and the deletion is confirmed by the
    provider; on failure the identifiers stay, for the next attempt. *)
Theorem deleteLoadBalancer_outcome sc s :
  let c := obj s in let c' := obj (exec (deleteLoadBalancer sc) s) in
  let evs := calls_of (deleteLoadBalancer sc) s in
  Forall (λ e, is_write e = true → ∃ r, e = EDelete KLoadBalancer (lbID c) r ∧ lbID c ≠ "") evs ∧
  (lbEnabled (spec c) = false → evs = [] ∧ c' = c) ∧
  (lbEnabled (spec c) = true →
   match result (deleteLoadBalancer sc) s with
   | Ok _ =>
       (lbID c', poolID c', listenerID c', monitorID c',
        CloudscaleClusterStatus_LoadBalancerMemberIDs (status c')) = ("", "", "", "", []) ∧
       (lbID c = "" ∨ confirmed_deleted KLoadBalancer (lbID c) evs)
   | Err _ =>
       (lbID c', poolID c', listenerID c', monitorID c',
        CloudscaleClusterStatus_LoadBalancerMemberIDs (status c')) =
       (lbID c, poolID c, listenerID c, monitorID c,
        CloudscaleClusterStatus_LoadBalancerMemberIDs (status c))
   end).
Proof. apply deleteLoadBalancer_spec. Qed.
End lb_deletion.
