(* ===== verification/FloatingIPCtl.v ===== *)
(** * The floating IP (src/internal/controller/cloudscalecluster_floatingip.go)

    A managed floating IP is created and deleted here, a pre-existing one is only
    looked up; both are kept assigned to the load balancer or, without one, to the
    first control plane server. *)

From S2P Require Export LoadBalancerCtl.

Section fip.
Context `{P : Platform}.
Implicit Types (sc : ClusterScope) (c : CloudscaleCluster).

Definition FloatingIPsOf sc := fip_service (FloatingIPs (scope_Client sc)).

Definition set_fip (ip : string) : CloudscaleCluster → CloudscaleCluster :=
  upd_status (set_CloudscaleClusterStatus_FloatingIP ip).

Record floatingIPTarget := mkFloatingIPTarget { target_lbUUID : string; target_serverUUID : string }.

Definition floatingIPTarget_String (t : floatingIPTarget) : string :=
  if target_lbUUID t != "" then "lb:" +:+ target_lbUUID t else "server:" +:+ target_serverUUID t.

Definition serverID (m : CloudscaleMachine) : string :=
  CloudscaleMachineStatus_ServerID (CloudscaleMachine_Status m).

(** The first machine with a server. *)
Fixpoint firstServer (machines : list CloudscaleMachine) : option string :=
  match machines with
  | [] => None
  | m :: machines => if serverID m != "" then Some (serverID m) else firstServer machines
  end.

Definition getFloatingIPTarget sc : CM floatingIPTarget :=
  let! c := get in
  if lbEnabled (spec c) then
    let lbID := CloudscaleClusterStatus_LoadBalancerID (status c) in
    if lbID == "" then throw (errorString "waiting for load balancer to be provisioned")
    else ret (mkFloatingIPTarget lbID "")
  else
    let! machines := wrap "listing CP machines: "
                       (listMachines (ObjectMeta_Namespace (CloudscaleCluster_Meta c))
                          (controlPlaneLabels sc)) in
    match firstServer machines with
    | Some id => ret (mkFloatingIPTarget "" id)
    | None => throw (errorString "waiting for a control plane server to be provisioned")
    end.

(** The update that moves the address to its target, if it is not there. *)
Definition assignmentUpdate (fip : FloatingIP) (t : floatingIPTarget) : option FloatingIPUpdateRequest :=
  if (target_lbUUID t != "") && (FloatingIP_LoadBalancer fip != Some (target_lbUUID t)) then
    Some (mkFloatingIPUpdateRequest (target_lbUUID t) "")
  else if (target_serverUUID t != "") && (FloatingIP_Server fip != Some (target_serverUUID t)) then
    Some (mkFloatingIPUpdateRequest "" (target_serverUUID t))
  else None.

Definition ensureFloatingIPAssignment sc (fip : FloatingIP) : CM unit :=
  let! r := try (getFloatingIPTarget sc) in
  match r with
  | Err _ => ret ()
  | Ok target =>
      match assignmentUpdate fip target with
      | None => ret ()
      | Some updateReq =>
          let! c := get in
          let floatingIP := CloudscaleClusterStatus_FloatingIP (status c) in
          let! r := try (call (fip_Update (FloatingIPs (scope_Client sc)) floatingIP updateReq)
                           (λ r, EFloatingIPUpdate floatingIP updateReq r)) in
          match r with
          | Err e =>
              if IsFloatingIPNoPublicInterface e then
                throw (errorString ("floating IP cannot be assigned to control plane server: server must have a public interface when the load balancer is disabled; add {type: public} to the control-plane machine template interfaces"))
              else throw (wrapError "updating floating IP assignment: " e)
          | Ok _ =>
              Eventf "Normal" "FloatingIPReassigned" "UpdateFloatingIP"
                ("Reassigned floating IP " +:+ floatingIP +:+ " to " +:+ floatingIPTarget_String target)
          end
      end
  end.

Definition reconcilePreExistingFloatingIP sc (ip : string) : CM unit :=
  let! fip := wrap ("getting pre-existing floating IP " +:+ ip +:+ ": ")
                (sdk_Get KFloatingIP (FloatingIPsOf sc) ip) in
  let! c := get in
  let region := CloudscaleClusterSpec_Region (spec c) in
  match FloatingIP_Region fip with
  | Some slug =>
      if slug != region then
        throw (errorString ("pre-existing floating IP " +:+ ip +:+ " is in region " +:+ quote slug
                 +:+ ", expected region " +:+ quote region))
      else modify (set_fip (FloatingIP_IP fip)) ;;! ensureFloatingIPAssignment sc fip
  | None => modify (set_fip (FloatingIP_IP fip)) ;;! ensureFloatingIPAssignment sc fip
  end.

Definition reconcileManagedFloatingIP sc (fipSpec : FloatingIPSpec) : CM Result :=
  let! c := get in
  let tags := clusterOwnershipTags c in
  let! (fip, id) := ensureResource KFloatingIP (FloatingIPsOf sc) FloatingIP_IP
                      (CloudscaleClusterStatus_FloatingIP (status c)) "floating IP" tags in
  modify (set_fip id) ;;!
  if id != "" then
    let! fip := deref fip in
    ensureFloatingIPAssignment sc fip ;;!
    ret emptyResult
  else
    let ipVersion := if bool_decide (FloatingIPSpec_IPFamily fipSpec = Some IPFamilyIPv6) then 6%Z else 4%Z in
    let! r := try (getFloatingIPTarget sc) in
    let target := match r with Ok t => t | Err _ => mkFloatingIPTarget "" "" end in
    let req := mkFloatingIPCreateRequest ipVersion (CloudscaleClusterSpec_Region (spec c)) tags
                 (target_lbUUID target)
                 (if target_lbUUID target != "" then "" else target_serverUUID target) in
    let! r := try (sdk_Create (FloatingIPsOf sc) CFloatingIP FloatingIP_IP req) in
    match r with
    | Err e =>
        if IsTimeoutError e then ret (requeue 5) else throw (wrapError "creating floating IP: " e)
    | Ok fip =>
        modify (set_fip (FloatingIP_IP fip)) ;;!
        Eventf "Normal" "FloatingIPCreated" "CreateFloatingIP"
          ("Created floating IP " +:+ FloatingIP_IP fip) ;;!
        ret emptyResult
    end.

Definition reconcileFloatingIP sc : CM Result :=
  let! c := get in
  match CloudscaleClusterSpec_FloatingIP (spec c) with
  | None =>
      modify (setCondition FloatingIPReadyCondition ConditionTrue FloatingIPDisabledReason "") ;;!
      ret emptyResult
  | Some fipSpec =>
      deferred (λ r, match r with
                     | Err e => setCondition FloatingIPReadyCondition ConditionFalse FloatingIPErrorReason
                                  (Error e)
                     | Ok _ => setCondition FloatingIPReadyCondition ConditionTrue
                                 FloatingIPProvisionedReason ""
                     end)
        (if FloatingIPSpec_Address fipSpec != "" then
           reconcilePreExistingFloatingIP sc (FloatingIPSpec_Address fipSpec) ;;! ret emptyResult
         else reconcileManagedFloatingIP sc fipSpec)
  end.

Definition deleteFIPBody sc : CM unit :=
  let! c := get in
  let floatingIP := CloudscaleClusterStatus_FloatingIP (status c) in
  if floatingIP == "" then ret ()
  else
    let! r := try (sdk_Delete KFloatingIP (FloatingIPsOf sc) floatingIP) in
    (match r with
     | Err e => if negb (IsNotFound e) then throw (wrapError "deleting floating IP: " e) else ret ()
     | Ok _ => ret ()
     end) ;;!
    Eventf "Normal" "FloatingIPDeleted" "DeleteFloatingIP" ("Deleted floating IP " +:+ floatingIP) ;;!
    modify (set_fip "").

Definition deleteFloatingIP sc : CM unit :=
  let! c := get in
  match CloudscaleClusterSpec_FloatingIP (spec c) with
  | None => ret ()
  | Some fipSpec =>
      if FloatingIPSpec_Address fipSpec != "" then ret ()
      else
        deferred (λ r, match r with
                       | Err e => setCondition FloatingIPReadyCondition ConditionFalse FloatingIPErrorReason
                                    ("Failed to delete floating IP: " +:+ Error e)
                       | Ok _ => setCondition FloatingIPReadyCondition ConditionFalse
                                   FloatingIPDeletingReason "Floating IP has been deleted"
                       end)
          (deleteFIPBody sc)
  end.
End fip.

(** ** Theorems *)

Section fip_theorems.
Context `{P : Platform}.
Implicit Types (sc : ClusterScope) (s : CState) (c : CloudscaleCluster).

Definition fipOf c : string := CloudscaleClusterStatus_FloatingIP (status c).

(** The SDK's addresses are never empty. *)
Class FloatingIPIDs (cl : Client World) := {
  fip_get_ip id w x w' : svc_Get (fip_service (FloatingIPs cl)) id w = (Ok x, w') → FloatingIP_IP x ≠ "";
  fip_create_ip req w x w' :
    svc_Create (fip_service (FloatingIPs cl)) req w = (Ok x, w') → FloatingIP_IP x ≠ "" }.

(** A write of the floating IP reconcile points at the recorded load balancer
    exactly when the cluster has one, and never at both. *)
Definition fip_write (spec : CloudscaleClusterSpec) (lb : string) (e : Event) : Prop :=
  is_write e = true →
  match e with
  | ECreate (CFloatingIP req) _ =>
      FloatingIPCreateRequest_Tags req ≠ ∅ ∧
      (if lbEnabled spec then FloatingIPCreateRequest_LoadBalancer req = lb ∧ FloatingIPCreateRequest_Server req = ""
       else FloatingIPCreateRequest_LoadBalancer req = "")
  | EFloatingIPUpdate _ req _ =>
      if lbEnabled spec then req = mkFloatingIPUpdateRequest lb "" ∧ lb ≠ ""
      else FloatingIPUpdateRequest_LoadBalancer req = "" ∧ FloatingIPUpdateRequest_Server req ≠ ""
  | _ => False
  end.

Definition fip_view c := (spec c, lbID c).

Lemma getFloatingIPTarget_post sc :
  post (getFloatingIPTarget sc) (λ s r s',
    obj s' = obj s ∧ emits is_read s s' ∧
    match r with
    | Ok t => if lbEnabled (spec (obj s)) then t = mkFloatingIPTarget (lbID (obj s)) "" ∧ lbID (obj s) ≠ ""
              else target_lbUUID t = "" ∧ target_serverUUID t ≠ ""
    | Err _ => lbEnabled (spec (obj s)) = true → lbID (obj s) = ""
    end).
Proof.
  intros s. unfold getFloatingIPTarget. rewrite exec_get, result_get.
  destruct (lbEnabled (spec (obj s))); simpl.
  { case_bool_decide as Hid; simpl; split_and!; try done; exists []; by rewrite app_nil_r. }
  unfold listMachines. go_run.
  destruct (kube_ListCloudscaleMachines _ _ _) as [[ms|e] w]; simpl.
  2:{ split_and!; [done| |done]. eexists; split; [done|]. by repeat constructor. }
  assert (∀ id, firstServer ms = Some id → id ≠ "") as Hne.
  { intros id. induction ms as [|m ms IH]; simpl; [done|]. case_bool_decide; simpl; [done|by intros [= <-]]. }
  destruct (firstServer ms) as [id|]; simpl; (split; [done|]); (split; [|by auto]);
    (eexists; split; [done|]; by repeat constructor).
Qed.

Lemma fip_reads c e : is_read e → fip_write (spec c) (lbID c) e.
Proof. unfold is_read, fip_write. by intros -> [=]. Qed.

Lemma ensureFloatingIPAssignment_frame sc fip :
  respects (emits_at fip_view (λ v, fip_write v.1 v.2)) (ensureFloatingIPAssignment sc fip) ∧
  respects (keeps fipOf) (ensureFloatingIPAssignment sc fip).
Proof.
  assert (post (ensureFloatingIPAssignment sc fip) (λ s r s', obj s' = obj s ∧
            emits (fip_write (spec (obj s)) (lbID (obj s))) s s')) as H.
  2:{ split; intros s; destruct (H s) as [Ho He]; unfold emits_at, keeps, fip_view; by rewrite Ho. }
  intros s. unfold ensureFloatingIPAssignment.
  pose proof (getFloatingIPTarget_post sc s) as (Ho & He & Ht). go_run.
  destruct (getFloatingIPTarget sc s) as [[t|e] s1]; simpl in *.
  2:{ split; [done|]. eapply emits_mono; [|exact He]. apply fip_reads. }
  assert (emits (fip_write (spec (obj s)) (lbID (obj s))) s s1) as He1.
  { eapply emits_mono; [|exact He]. apply fip_reads. }
  destruct (assignmentUpdate fip t) as [req|] eqn:Eu; simpl; [|done].
  assert (∀ ip r, fip_write (spec (obj s)) (lbID (obj s)) (EFloatingIPUpdate ip req r)) as Hreq.
  { intros ip r _. unfold assignmentUpdate in Eu. destruct (lbEnabled _).
    - destruct Ht as [-> Hlb]. simpl in Eu. rewrite bool_decide_eq_false_2 in Eu by done. simpl in Eu.
      case_bool_decide; simpl in Eu; by simplify_eq.
    - destruct Ht as [Hl Hsv]. rewrite Hl in Eu. simpl in Eu.
      destruct (_ && _); by simplify_eq. }
  destruct (fip_Update _ _ _ _) as [[[]|e] w]; simpl.
  - split; [done|]. etrans; [exact He1|]. simpl. rewrite <- app_assoc.
    eexists. split; [done|]. by repeat constructor.
  - destruct (IsFloatingIPNoPublicInterface e); simpl; (split; [done|]); (etrans; [exact He1|]);
      (eexists; split; [done|]; by repeat constructor).
Qed.

(** The body of [reconcileFloatingIP]: its writes, and the recorded address when
    it finishes. *)
Definition fip_outcome s (r : Res Result) s' : Prop :=
  emits_at fip_view (λ v, fip_write v.1 v.2) s s' ∧
  (r = Ok emptyResult → fipOf (obj s') ≠ "").

Lemma emits_at_trans_read s s1 s2 :
  obj s1 = obj s → emits is_read s s1 →
  emits_at fip_view (λ v, fip_write v.1 v.2) s1 s2 →
  emits_at fip_view (λ v, fip_write v.1 v.2) s s2.
Proof.
  intros Ho He H. etrans; [|exact H]. split; [by unfold fip_view; rewrite Ho|].
  eapply emits_mono; [|exact He]. apply fip_reads.
Qed.

Lemma reconcilePreExistingFloatingIP_outcome sc ip s `{!FloatingIPIDs (scope_Client sc)} :
  fip_outcome s (res_map (λ _, emptyResult) (result (reconcilePreExistingFloatingIP sc ip) s))
    (exec (reconcilePreExistingFloatingIP sc ip) s).
Proof.
  pose proof (ensureFloatingIPAssignment_frame sc) as Hf.
  unfold reconcilePreExistingFloatingIP, sdk_Get. go_run.
  destruct (svc_Get _ _ _) as [[fip|e] w] eqn:Eg; simpl.
  2:{ split; [|done]. split; [done|]. eexists. split; [done|]. by repeat constructor. }
  apply fip_get_ip in Eg. destruct (Hf fip) as [H1 H2]. clear Hf.
  set (s1 := mkSt (obj s) w (log s ++ [EGet KFloatingIP ip (Ok ())])).
  set (s2 := mkSt (set_fip (FloatingIP_IP fip) (obj s)) w (log s ++ [EGet KFloatingIP ip (Ok ())])).
  assert (emits is_read s s1) as He1 by (eexists; split; [done|by repeat constructor]).
  assert (fip_outcome s (res_map (λ _, emptyResult) (ensureFloatingIPAssignment sc fip s2).1)
            (ensureFloatingIPAssignment sc fip s2).2) as Hgo.
  { specialize (H1 s2). specialize (H2 s2). unfold keeps, exec in H1, H2. split.
    - by eapply (emits_at_trans_read _ s1).
    - intros _. by rewrite H2. }
  destruct (FloatingIP_Region fip) as [slug|]; [|by apply Hgo].
  case_bool_decide; simpl; [by apply Hgo|].
  split; [|done]. by apply (emits_at_trans_read _ s1).
Qed.

Lemma reconcileManagedFloatingIP_outcome sc fipSpec s `{!FloatingIPIDs (scope_Client sc)} :
  fip_outcome s (result (reconcileManagedFloatingIP sc fipSpec) s)
    (exec (reconcileManagedFloatingIP sc fipSpec) s).
Proof.
  pose proof (ensureFloatingIPAssignment_frame sc) as Hf.
  unfold reconcileManagedFloatingIP. rewrite exec_get, result_get.
  match goal with |- context [ensureResource ?k ?svc ?u ?id ?n ?t] =>
    pose proof (ensureResource_ensured k svc u id n t s) as [Ho (evs & _ & He)];
    pose proof (ensureResource_reads_only k svc u id n t s) as Hre;
    unfold exec, result in *; destruct (ensureResource k svc u id n t s) as [[[o ip]|e] s1] eqn:E1 end;
    simpl in *.
  2:{ rewrite !(bind_err _ _ _ _ _ E1). split; [|done]. by apply (emits_at_trans_read _ s1). }
  rewrite !(bind_ok _ _ _ _ _ E1), !modify_bind. clear E1. set (s2 := mkSt _ _ _).
  assert (emits_at fip_view (λ v, fip_write v.1 v.2) s s2) as He2.
  { apply (emits_at_trans_read _ s1); [done|done|]. split; [done|]. exists []. by rewrite app_nil_r. }
  case_bool_decide as Hip; simpl.
  2:{ destruct (ensured_nonempty _ _ _ _ _ _ _ He Hip) as [fip ->]. destruct (Hf fip) as [H1 H2].
      specialize (H1 s2). specialize (H2 s2). unfold keeps in H2. go_run.
      destruct (ensureFloatingIPAssignment sc fip s2) as [[[]|e] s3]; simpl in *;
        (split; [by etrans|]); [by rewrite H2|done]. }
  pose proof (getFloatingIPTarget_post sc s2) as (Ho3 & He3 & Ht). unfold sdk_Create, Eventf. go_run.
  destruct (getFloatingIPTarget sc s2) as [rt s3]; simpl in *.
  set (req := mkFloatingIPCreateRequest _ _ _ _ _).
  assert (∀ r, fip_write (spec (obj s)) (lbID (obj s)) (ECreate (CFloatingIP req) r)) as Hreq.
  { intros r _. rewrite Ho in Ht. simpl. split; [apply map_non_empty_singleton|].
    destruct rt as [t|e]; unfold lbID in *; simpl in *; destruct (lbEnabled _).
    - destruct Ht as [-> Hlb]. simpl. by rewrite bool_decide_eq_false_2.
    - by destruct Ht.
    - by rewrite (Ht eq_refl).
    - done. }
  assert (emits_at fip_view (λ v, fip_write v.1 v.2) s s3) as He4.
  { etrans; [exact He2|]. by apply (emits_at_trans_read _ s3). }
  assert (∀ c evs' w, fip_view c = fip_view (obj s) →
    Forall (fip_write (spec (obj s)) (lbID (obj s))) evs' →
    emits_at fip_view (λ v, fip_write v.1 v.2) s (mkSt c w (log s3 ++ evs'))) as Hlog.
  { intros c evs' w Hc HF. destruct He4 as [_ (evs4 & Hl4 & HF4)]. split; [done|].
    exists (evs4 ++ evs'). simpl. rewrite Hl4, app_assoc. split; [done|]. by apply Forall_app. }
  assert (fip_view (obj s3) = fip_view (obj s)) as Hv3 by apply He4.
  destruct (svc_Create _ _ _) as [[fip|e] w] eqn:Ec; simpl.
  - split; [|intros _; by eapply fip_create_ip]. rewrite <- app_assoc.
    apply Hlog; [exact Hv3|go_forall].
  - destruct (IsTimeoutError e); simpl;
      (split; [apply Hlog; [done|go_forall]|done]).
Qed.

(** The deferred condition does not change what the outcome speaks of. *)
Lemma reconcileFloatingIP_outcome sc s `{!FloatingIPIDs (scope_Client sc)} :
  emits_at fip_view (λ v, fip_write v.1 v.2) s (exec (reconcileFloatingIP sc) s) ∧
  (CloudscaleClusterSpec_FloatingIP (spec (obj s)) ≠ None →
   result (reconcileFloatingIP sc) s = Ok emptyResult →
   fipOf (obj (exec (reconcileFloatingIP sc) s)) ≠ "").
Proof.
  unfold reconcileFloatingIP. rewrite exec_get, result_get.
  destruct (CloudscaleClusterSpec_FloatingIP (spec (obj s))) as [fs|].
  2:{ split; [|done]. split; [done|]. exists []. by rewrite app_nil_r. }
  assert (∀ m : CM Result, fip_outcome s (result m s) (exec m s) → ∀ f : Res Result → CloudscaleCluster → CloudscaleCluster,
    (∀ r c, fip_view (f r c) = fip_view c ∧ fipOf (f r c) = fipOf c) →
    fip_outcome s (result (deferred f m) s) (exec (deferred f m) s)) as Hdef.
  { intros m [[Hv Hm1] Hm2] f Hfc. unfold result, exec, deferred in *. destruct (m s) as [r s1]; simpl in *.
    destruct (Hfc r (obj s1)) as [Hf1 Hf2]. split; [split|]; simpl.
    - by rewrite Hf1.
    - exact Hm1.
    - rewrite Hf2. exact Hm2. }
  eassert (fip_outcome s _ _) as [H1 H2]; [|split; [exact H1|intros _; exact H2]].
  apply Hdef; [|by intros [] c].
  case_bool_decide; simpl; [apply reconcileManagedFloatingIP_outcome; done|].
  pose proof (reconcilePreExistingFloatingIP_outcome sc (FloatingIPSpec_Address fs) s) as Hp.
  unfold result, exec, bind, ret in *.
  destruct (reconcilePreExistingFloatingIP _ _ s) as [[[]|e] s1]; exact Hp.
Qed.

(** Every write of [reconcileFloatingIP] is a creation or an assignment that
    targets the recorded load balancer when the cluster has one, and otherwise a
    server and no load balancer; an assignment always has a target. *)
Theorem reconcileFloatingIP_targets sc s `{!FloatingIPIDs (scope_Client sc)} :
  ∀ e, e ∈ calls_of (reconcileFloatingIP sc) s → fip_write (spec (obj s)) (lbID (obj s)) e.
Proof.
  apply Forall_forall, emits_in_calls. apply (reconcileFloatingIP_outcome sc s).
Qed.

(** When [reconcileFloatingIP] finishes without an error and without asking
    for a requeue on a cluster with a floating IP, its address is recorded. *)
Lemma reconcileFloatingIP_provisions sc s `{!FloatingIPIDs (scope_Client sc)} :
  CloudscaleClusterSpec_FloatingIP (spec (obj s)) ≠ None →
  result (reconcileFloatingIP sc) s = Ok emptyResult →
  fipOf (obj (exec (reconcileFloatingIP sc) s)) ≠ "".
Proof. apply (reconcileFloatingIP_outcome sc s). Qed.

(** The outcome of [deleteFloatingIP]. *)
Lemma deleteFloatingIP_spec sc s :
  let c := obj s in let c' := obj (exec (deleteFloatingIP sc) s) in
  let evs := calls_of (deleteFloatingIP sc) s in
  match CloudscaleClusterSpec_FloatingIP (spec c) with
  | None => evs = [] ∧ c' = c
  | Some fs =>
      if FloatingIPSpec_Address fs != "" then evs = [] ∧ c' = c
      else
        Forall (λ e, is_write e = true → ∃ r, e = EDelete KFloatingIP (fipOf c) r ∧ fipOf c ≠ "") evs ∧
        match result (deleteFloatingIP sc) s with
        | Ok _ => fipOf c' = "" ∧ (fipOf c = "" ∨ confirmed_deleted KFloatingIP (fipOf c) evs)
        | Err _ => fipOf c' = fipOf c
        end
  end.
Proof.
  unfold calls_of, deleteFloatingIP. rewrite exec_get, result_get.
  destruct (CloudscaleClusterSpec_FloatingIP _) as [fs|];
    [|unfold exec, ret; simpl; by rewrite drop_all].
  destruct (bool_decide (FloatingIPSpec_Address fs = "")); simpl;
    [|unfold exec, ret; simpl; by rewrite drop_all].
  unfold deleteFIPBody, sdk_Delete, Eventf, fipOf. go_run.
  case_bool_decide as Hid; simpl.
  { rewrite drop_all. split; [done|]. split; [done|by left]. }
  destruct (svc_Delete _ _ _) as [[[]|e] w]; simpl; [|destruct (IsNotFound e) eqn:En; simpl].
  - rewrite <- app_assoc, drop_app_length. simpl. split; [repeat constructor; try done; by eauto|].
    split; [done|]. right. exists (Ok ()). split; [by left|done].
  - rewrite <- app_assoc, drop_app_length. simpl. split; [repeat constructor; try done; by eauto|].
    split; [done|]. right. exists (Err e). split; [by left|done].
  - rewrite drop_app_length. split; [repeat constructor; try done; by eauto|done].
Qed.

(** [deleteFloatingIP] never touches a pre-existing floating IP; it deletes
    only the recorded address of a managed one, clears it when the provider
    confirms, and keeps it for a retry otherwise. *)
Theorem deleteFloatingIP_outcome sc s :
  let c := obj s in let c' := obj (exec (deleteFloatingIP sc) s) in
  let evs := calls_of (deleteFloatingIP sc) s in
  match CloudscaleClusterSpec_FloatingIP (spec c) with
  | None => evs = [] ∧ c' = c
  | Some fs =>
      if FloatingIPSpec_Address fs != "" then evs = [] ∧ c' = c
      else
        Forall (λ e, is_write e = true → ∃ r, e = EDelete KFloatingIP (fipOf c) r ∧ fipOf c ≠ "") evs ∧
        match result (deleteFloatingIP sc) s with
        | Ok _ => fipOf c' = "" ∧ (fipOf c = "" ∨ confirmed_deleted KFloatingIP (fipOf c) evs)
        | Err _ => fipOf c' = fipOf c
        end
  end.
Proof. apply deleteFloatingIP_spec. Qed.
End fip_theorems.
