(* ===== verification/ServerGroupCtl.v ===== *)
(** * Server groups at cluster deletion
    (src/internal/controller/cloudscalecluster_servergroup.go)

    Machines create server groups; the cluster deletes those that are empty, and
    waits for those that still hold servers of its machines. *)

From S2P Require Export FloatingIPCtl.

Section servergroup.
Context `{P : Platform}.
Implicit Types (sc : ClusterScope).

Definition getOwnedServerIDs sc : CM (gset string) :=
  let! c := get in
  let! machines := wrap "listing CloudscaleMachines: "
                     (listMachines (ObjectMeta_Namespace (CloudscaleCluster_Meta c))
                        {[ ClusterNameLabel := Cluster_Name (scope_Cluster sc) ]}) in
  ret (list_to_set (filter (λ id, id ≠ "") (serverID <$> machines))).

(** One turn of the deletion loop. *)
Definition deleteServerGroup sc (ownedServerIDs : gset string) (g : ServerGroup) : CM (flow unit) :=
  let hasOwnedServers := existsb (λ id, bool_decide (id ∈ ownedServerIDs)) (ServerGroup_Servers g) in
  let hasForeignServers := existsb (λ id, bool_decide (id ∉ ownedServerIDs)) (ServerGroup_Servers g) in
  if hasOwnedServers then throw (sentinel errServerGroupNotEmpty)
  else if hasForeignServers then ret (Next ())
  else
    let! r := try (sdk_Delete KServerGroup (ServerGroups (scope_Client sc)) (ServerGroup_UUID g)) in
    match r with
    | Err e =>
        if negb (IsNotFound e)
        then throw (wrapError ("deleting server group " +:+ ServerGroup_UUID g +:+ ": ") e)
        else ret (Next ())
    | Ok _ => ret (Next ())
    end.

Definition deleteServerGroups sc : CM unit :=
  let! ownedServerIDs := wrap "listing owned servers: " (getOwnedServerIDs sc) in
  let! c := get in
  let! groups := wrap "listing server groups: "
                   (sdk_ListGroups (ServerGroups (scope_Client sc)) (clusterOwnershipTags c)) in
  foreach groups (deleteServerGroup sc ownedServerIDs) ;;!
  ret ().
End servergroup.

Section servergroup_theorems.
Context `{P : Platform}.
Implicit Types (sc : ClusterScope) (s : CState) (g : ServerGroup).

(** What a turn did, by the servers of the group. *)
Lemma deleteServerGroup_post sc ids g :
  post (deleteServerGroup sc ids g) (λ s r s',
    obj s' = obj s ∧
    ∃ evs, log s' = log s ++ evs ∧
      Forall (λ e, ServerGroup_Servers g = [] ∧ ∃ r', e = EDelete KServerGroup (ServerGroup_UUID g) r') evs ∧
      (r = Ok (Next ()) →
         (∀ id, id ∈ ServerGroup_Servers g → id ∉ ids) ∧
         (ServerGroup_Servers g = [] → confirmed_deleted KServerGroup (ServerGroup_UUID g) evs)) ∧
      (r ≠ Ok (Next ()) → ∃ e, r = Err e)).
Proof.
  intros s. unfold deleteServerGroup.
  destruct (existsb _ _) eqn:Eo.
  { split; [done|]. exists []. rewrite app_nil_r. split_and!; [done..|by intros [=]|]. by eauto. }
  assert (∀ id, id ∈ ServerGroup_Servers g → id ∉ ids) as Hno.
  { intros id Hin Hid. assert (existsb (λ id, bool_decide (id ∈ ids)) (ServerGroup_Servers g) = true);
      [|congruence]. apply existsb_exists. exists id. split; [by apply list_elem_of_In|].
    by apply bool_decide_eq_true_2. }
  destruct (existsb (λ id, bool_decide (id ∉ ids)) _) eqn:Ef.
  { split; [done|]. exists []. rewrite app_nil_r. split_and!; [done..| |done].
    intros _. split; [done|]. intros Hnil. rewrite Hnil in Ef. done. }
  assert (ServerGroup_Servers g = []) as Hnil.
  { destruct (ServerGroup_Servers g) as [|id l]; [done|]. simpl in Ef.
    rewrite bool_decide_eq_true_2 in Ef by (apply Hno; by left). done. }
  unfold sdk_Delete. go_run.
  destruct (svc_Delete _ _ _) as [[[]|e] w]; simpl; [|destruct (IsNotFound e) eqn:En; simpl];
    (split; [done|]); (eexists; split_and!; [done|go_forall; by eauto|..]); try by eauto.
  - intros _. split; [done|]. intros _. exists (Ok ()). split; [by left|done].
  - intros _. split; [done|]. intros _. exists (Err e). split; [by left|done].
Qed.

Lemma confirmed_mono k id evs evs' :
  evs ⊆ evs' → confirmed_deleted k id evs → confirmed_deleted k id evs'.
Proof. intros H (r & Hr & ?). exists r. split; [by apply H|done]. Qed.

Lemma deleteServerGroups_loop sc ids groups s :
  let m := foreach groups (deleteServerGroup sc ids) in
  obj (exec m s) = obj s ∧
  ∃ evs, log (exec m s) = log s ++ evs ∧
    Forall (λ e, ∃ g r, g ∈ groups ∧ ServerGroup_Servers g = [] ∧
              e = EDelete KServerGroup (ServerGroup_UUID g) r) evs ∧
    ((∃ e, result m s = Err e) ∨
     result m s = Ok (Next ()) ∧
     ∀ g, g ∈ groups → (∀ id, id ∈ ServerGroup_Servers g → id ∉ ids) ∧
       (ServerGroup_Servers g = [] → confirmed_deleted KServerGroup (ServerGroup_UUID g) evs)).
Proof.
  revert s. induction groups as [|g groups IH]; intros s; simpl.
  { split; [done|]. exists []. rewrite app_nil_r. split_and!; [done|done|]. right.
    split; [done|]. by intros ? ?%not_elem_of_nil. }
  destruct (deleteServerGroup_post sc ids g s) as (Ho & evs & Hl & HF & Hok & Herr).
  unfold foreach; fold (@foreach World Event CloudscaleCluster ServerGroup).
  unfold exec, result, bind in *.
  destruct (deleteServerGroup sc ids g s) as [r s1]; simpl in *.
  assert (Forall (λ e, ∃ g' r, g' ∈ g :: groups ∧ ServerGroup_Servers g' = [] ∧
            e = EDelete KServerGroup (ServerGroup_UUID g') r) evs) as HF'.
  { eapply Forall_impl; [exact HF|]. intros e [? [r' ->]]. exists g, r'. split; [by left|done]. }
  destruct r as [[r|[]]|e]; simpl.
  - destruct Herr as [e [=]]; done.
  - destruct (IH s1) as (Ho2 & evs2 & Hl2 & HF2 & Hr2). split; [congruence|].
    exists (evs ++ evs2). split_and!.
    + by rewrite Hl2, Hl, app_assoc.
    + apply Forall_app. split; [done|]. eapply Forall_impl; [exact HF2|].
      intros e (g' & r' & ? & ?). exists g', r'. split; [by right|done].
    + destruct Hr2 as [?|[-> Hg]]; [by left|right]. split; [done|].
      intros g' [->|Hin]%elem_of_cons.
      * destruct (Hok eq_refl) as [? Hc]. split; [done|]. intros Hn. eapply confirmed_mono; [|by apply Hc].
        by apply list_subseteq_app_l.
      * destruct (Hg g' Hin) as [? Hc]. split; [done|]. intros Hn. eapply confirmed_mono; [|by apply Hc].
        by apply list_subseteq_app_r.
  - split; [done|]. exists evs. split_and!; [done|done|]. left. by eauto.
Qed.

(** C36. [deleteServerGroups] deletes only groups that carry the cluster's tag
    and hold no server at all; it finishes only when every such empty group is
    confirmed deleted and no listed group holds a server of the cluster's
    machines; groups with foreign servers are left in place. *)
Theorem deleteServerGroups_outcome sc s :
  let m := deleteServerGroups sc in
  let svc := ServerGroups (scope_Client sc) in
  let tags := clusterOwnershipTags (obj s) in
  (∀ e, e ∈ calls_of m s → is_write e = true →
     ∃ ids s1 groups w' g r, getOwnedServerIDs sc s = (Ok ids, s1) ∧
       svc_List svc tags (world s1) = (Ok groups, w') ∧ g ∈ groups ∧
       ServerGroup_Servers g = [] ∧ e = EDelete KServerGroup (ServerGroup_UUID g) r) ∧
  (result m s = Ok () →
     ∃ ids s1 groups w', getOwnedServerIDs sc s = (Ok ids, s1) ∧
       svc_List svc tags (world s1) = (Ok groups, w') ∧
       ∀ g, g ∈ groups → (∀ id, id ∈ ServerGroup_Servers g → id ∉ ids) ∧
         (ServerGroup_Servers g = [] → confirmed_deleted KServerGroup (ServerGroup_UUID g) (calls_of m s))).
Proof.
  intros m svc tags.
  assert (respects (keeps id) (getOwnedServerIDs sc) ∧ respects (emits is_read) (getOwnedServerIDs sc))
    as [Hk Hr] by (split; unfold getOwnedServerIDs, listMachines; by frame).
  specialize (Hk s). specialize (Hr s). unfold keeps, id in Hk.
  unfold calls_of, m, deleteServerGroups, sdk_ListGroups. unfold exec, result, wrap, bind, get, call, ret in *.
  assert (∀ evs e, Forall is_read evs → e ∈ evs → is_write e = true → False) as Hread.
  { intros evs e HF He Hw. rewrite Forall_forall in HF. specialize (HF e He). unfold is_read in HF. congruence. }
  destruct (getOwnedServerIDs sc s) as [[ids|e] s1] eqn:E1; simpl in *.
  2:{ destruct Hr as (evs & -> & HF). rewrite drop_app_length. split; [|done]. intros e' He Hw.
      by destruct (Hread evs e'). }
  destruct Hr as (evs1 & Hl1 & HF1). rewrite Hk. fold svc tags.
  destruct (svc_List svc tags (world s1)) as [[groups|e] w'] eqn:E2; simpl.
  2:{ rewrite Hl1, <- app_assoc, drop_app_length. split; [|done].
      intros e' [He|He%list_elem_of_singleton]%elem_of_app Hw; [by destruct (Hread evs1 e')|by subst]. }
  set (s2 := mkSt _ _ _). destruct (deleteServerGroups_loop sc ids groups s2) as (_ & evs2 & Hl2 & HF2 & Hres).
  assert (drop (length (log s)) (log (foreach groups (deleteServerGroup sc ids) s2).2) =
            (evs1 ++ [EGroupList tags (Ok groups)]) ++ evs2) as Hd.
  { unfold exec in Hl2. rewrite Hl2. simpl. rewrite Hl1, <- !app_assoc, drop_app_length. done. }
  split.
  - intros e. destruct (foreach groups _ s2) as [r s3]; simpl in *.
    assert (e ∈ drop (length (log s)) (log s3) → is_write e = true →
      ∃ g r0, g ∈ groups ∧
         ServerGroup_Servers g = [] ∧ e = EDelete KServerGroup (ServerGroup_UUID g) r0) as H.
    2:{ intros He Hw. destruct H as (g & r0 & H); [by destruct r as [[]|]|done|].
        by exists ids, s1, groups, w', g, r0. }
    rewrite Hd. intros [[He|He%list_elem_of_singleton]%elem_of_app|He]%elem_of_app Hw;
      [by destruct (Hread evs1 e)|by subst|].
    rewrite Forall_forall in HF2. destruct (HF2 e He) as (g & r' & ? & ? & ->).
    by exists g, r'.
  - unfold result, exec in Hres. destruct (foreach groups _ s2) as [r s3]; simpl in *.
    destruct Hres as [[e ->]|[-> Hg]]; [done|]. intros _.
    exists ids, s1, groups, w'. split_and!; [done|done|]. intros g Hin.
    destruct (Hg g Hin) as [? Hc]. split; [done|]. intros Hn.
    eapply confirmed_mono; [|by apply Hc]. simpl. rewrite Hd. by apply list_subseteq_app_r.
Qed.
End servergroup_theorems.
