(* ===== verification/ClusterCtl.v ===== *)
(** * The cluster controller (src/internal/controller/cloudscalecluster_controller.go)

    The whole reconcile of a CloudscaleCluster: fetching it and its owner, the
    scope with its deferred patch, the normal path through networks, routers, load
    balancer and floating IP, the deletion path, the control plane endpoint, and
    the summary conditions. *)

From stdpp Require Import sorting.
From S2P Require Export Scope NetworkCtl RouterCtl LoadBalancerCtl FloatingIPCtl ServerGroupCtl.

Section cluster.
Context `{P : Platform}.
Implicit Types (sc : ClusterScope) (c : CloudscaleCluster).

(** ** Control plane endpoint *)

Definition reconcileControlPlaneEndpoint (lbIPAddress : string) : CM unit :=
  let! c := get in
  if APIEndpoint_Host (CloudscaleClusterSpec_ControlPlaneEndpoint (spec c)) != "" then ret ()
  else
    let setEndpoint (host source : string) :=
      if host == "" then ret ()
      else
        let port := LoadBalancerSpec_APIServerPort (lbSpec c) in
        modify (upd_spec (set_CloudscaleClusterSpec_ControlPlaneEndpoint (mkAPIEndpoint host port))) ;;!
        Eventf "Normal" "ControlPlaneSet" "SetControlPlaneEndpoint"
          ("Control plane endpoint set to " +:+ host +:+ ":" +:+ itoa port +:+ " (" +:+ source +:+ ")") in
    match CloudscaleClusterSpec_FloatingIP (spec c) with
    | Some _ => setEndpoint (CloudscaleClusterStatus_FloatingIP (status c)) "floating IP"
    | None =>
        if lbEnabled (spec c) then setEndpoint lbIPAddress "load balancer" else ret ()
    end.

(** ** Is everything there? *)

Definition interfaceProvisioned (rs : RouterStatus) (ifaceSpec : RouterInterfaceSpec) : bool :=
  match GetInterfaceStatus rs (RouterInterfaceSpec_Network ifaceSpec) with
  | None => false
  | Some iface => RouterInterfaceStatus_InterfaceID iface != ""
  end.

Definition routerProvisioned c (routerSpec : RouterSpec) : bool :=
  match GetRouterStatus (status c) (RouterSpec_Name routerSpec) with
  | None => false
  | Some rs =>
      if RouterStatus_RouterID rs == "" then false
      else forallb (interfaceProvisioned rs) (RouterSpec_Interfaces routerSpec)
  end.

Definition isInfrastructureProvisioned c : bool :=
  let st := status c in
  match CloudscaleClusterStatus_Networks st with
  | [] => false
  | networks =>
      if negb (forallb (λ ns, (NetworkStatus_NetworkID ns != "") && (NetworkStatus_SubnetID ns != ""))
                 networks) then false
      else if negb (forallb (routerProvisioned c) (CloudscaleClusterSpec_Routers (spec c))) then false
      else if lbEnabled (spec c) &&
              ((CloudscaleClusterStatus_LoadBalancerID st == "") ||
               (CloudscaleClusterStatus_LoadBalancerPoolID st == "") ||
               (CloudscaleClusterStatus_LoadBalancerListenerID st == "")) then false
      else if match CloudscaleClusterSpec_FloatingIP (spec c) with
              | Some _ => CloudscaleClusterStatus_FloatingIP st == ""
              | None => false
              end then false
      else APIEndpoint_Host (CloudscaleClusterSpec_ControlPlaneEndpoint (spec c)) != ""
  end.

(** ** Ready *)

Fixpoint readyFrom (subConditions : list string) c : CloudscaleCluster :=
  match subConditions with
  | [] => setCondition ReadyCondition ConditionTrue ReadyReason "" c
  | condType :: rest =>
      if negb (IsTrue c condType) then
        match conditionOf c condType with
        | None => setCondition ReadyCondition ConditionFalse NotReadyReason ("Waiting for " +:+ condType) c
        | Some cond =>
            setCondition ReadyCondition ConditionFalse (Condition_Reason cond) (Condition_Message cond) c
        end
      else readyFrom rest c
  end.

Definition subConditions : list string :=
  [NetworkReadyCondition; RouterReadyCondition; LoadBalancerReadyCondition; FloatingIPReadyCondition].

Definition setReadyCondition c : CloudscaleCluster := readyFrom subConditions c.

(** ** The normal path *)

Definition setProvisioned c : CloudscaleCluster :=
  upd_status (set_CloudscaleClusterStatus_Initialization
    (Some (mkClusterInitializationStatus (Some (isInfrastructureProvisioned c))))) c.

Definition reconcileNormalBody sc : CM Result :=
  let? _ := returning (wrap "reconciling network: " (reconcileNetwork sc)) in
  let? _ := returning (wrap "reconciling routers: " (reconcileRouters sc)) in
  let! (lb, result) := wrap "reconciling load balancer: " (reconcileLoadBalancer sc) in
  if negb (IsZero result) then ret result
  else
    let? _ := returning (wrap "reconciling floating IP: " (reconcileFloatingIP sc)) in
    reconcileControlPlaneEndpoint (lb_ipAddress lb) ;;!
    modify setProvisioned ;;!
    if negb (lb_ready lb) || negb (default false (Cluster_ControlPlaneInitialized (scope_Cluster sc)))
    then ret (requeue 10) else ret emptyResult.

Definition reconcileNormal sc : CM Result := deferred (λ _, setReadyCondition) (reconcileNormalBody sc).

(** ** The deletion path *)

Definition removeFinalizer c : CloudscaleCluster :=
  let meta := CloudscaleCluster_Meta c in
  set_CloudscaleCluster_Meta
    (set_ObjectMeta_Finalizers (RemoveFinalizer ClusterFinalizer (ObjectMeta_Finalizers meta)) meta) c.

Definition addFinalizer c : CloudscaleCluster :=
  let meta := CloudscaleCluster_Meta c in
  set_CloudscaleCluster_Meta
    (set_ObjectMeta_Finalizers (AddFinalizer ClusterFinalizer (ObjectMeta_Finalizers meta)) meta) c.

(** [if err := m; err != nil { if errors.Is(err, s) { requeue } ... }] *)
Definition retryOn (s : sentinelError) (msg : string) (m : CM unit) : CM (flow unit) :=
  let! r := try m in
  match r with
  | Ok _ => ret (Next ())
  | Err e => if errors_Is e s then ret (Return (requeue 10)) else throw (wrapError msg e)
  end.

Definition reconcileDelete sc : CM Result :=
  modify (setCondition DeletingCondition ConditionTrue DeletingReason
            "Deleting infrastructure resources") ;;!
  wrap "deleting floating IP: " (deleteFloatingIP sc) ;;!
  wrap "deleting load balancer: " (deleteLoadBalancer sc) ;;!
  let? _ := retryOn errServerGroupNotEmpty "deleting server groups: " (deleteServerGroups sc) in
  wrap "deleting routers: " (deleteRouters sc) ;;!
  let? _ := retryOn errNetworkNotReady "deleting network: " (deleteNetwork sc) in
  modify (setCondition ReadyCondition ConditionFalse DeletingReason
            "Infrastructure has been deleted") ;;!
  modify removeFinalizer ;;!
  ret emptyResult.

(** ** Reconcile *)

(** The deferred patch: with the observed generation only after success; its own
    error is reported when there is no other. *)
Definition closing (snapshot : CloudscaleCluster) (m : CM Result) : CM Result := λ s,
  let '(r, s1) := m s in
  let ok := match r with Ok _ => true | Err _ => false end in
  let '(p, s2) := ClusterScope_Close snapshot (obj s1) ok s1 in
  (match r, p with Ok _, Err e => Err e | _, _ => r end, s2).

(** After the object was read and its owner found. *)
Definition reconcileOwned (cluster : Cluster) : CM Result :=
  let! c := get in
  if annotations_IsPaused cluster (CloudscaleCluster_Meta c) then
    modify (setCondition PausedCondition ConditionTrue PausedReason "") ;;!
    ret emptyResult
  else
    modify (λ c, SetConditions (conditions_delete PausedCondition (GetConditions c)) c) ;;!
    let! token := wrap "failed to get cloudscale.ch credentials: "
                    (GetToken (CredentialsSecretRef c) (ObjectMeta_Namespace (CloudscaleCluster_Meta c))) in
    let! snapshot := get in
    let! sc := wrap "failed to create cluster scope: "
                 (NewClusterScope cluster (NewClient token) snapshot) in
    closing snapshot
      (match ObjectMeta_DeletionTimestamp (CloudscaleCluster_Meta snapshot) with
       | Some _ => reconcileDelete sc
       | None =>
           (if negb (ContainsFinalizer (ObjectMeta_Finalizers (CloudscaleCluster_Meta snapshot))
                       ClusterFinalizer)
            then modify addFinalizer else ret ()) ;;!
           reconcileNormal sc
       end).

Definition Reconcile (req : string * string) : GoM World Event unit Result :=
  let! r := try (call (kube_GetCloudscaleCluster req) (λ r, EKubeGet req (void r))) in
  match r with
  | Err e => if apierrors_IsNotFound e then ret emptyResult else throw e
  | Ok c =>
      let! owner := call (util_GetOwnerCluster (CloudscaleCluster_Meta c))
                      (λ r, EKubeGet req (void r)) in
      match owner with
      | None => ret emptyResult
      | Some cluster => with_obj c (reconcileOwned cluster)
      end
  end.

(** ** Mapping of machine events to clusters

    The object may be of another type ([None]); the listing is passed in, as its
    error only ends the mapping. *)
Definition cloudscaleMachineToCluster (o : option CloudscaleMachine)
    (list_clusters : string → gmap string string → Res (list CloudscaleCluster))
    : list (string * string) :=
  match o with
  | None => []
  | Some machine =>
      let meta := CloudscaleMachine_Meta machine in
      match ObjectMeta_Labels meta !! MachineControlPlaneLabel, ObjectMeta_Labels meta !! ClusterNameLabel with
      | Some _, Some clusterName =>
          match list_clusters (ObjectMeta_Namespace meta) {[ ClusterNameLabel := clusterName ]} with
          | Err _ => []
          | Ok clusters =>
              (λ c, (ObjectMeta_Name (CloudscaleCluster_Meta c),
                     ObjectMeta_Namespace (CloudscaleCluster_Meta c))) <$> clusters
          end
      | _, _ => []
      end
  end.
End cluster.

(** ** What each stage leaves alone

    An observation of the cluster object is untouched by a stage when it ignores
    the part of status and the condition the stage writes. *)

Section stage_frames.
Context `{P : Platform} {B : Type} (f : CloudscaleCluster → B).
Implicit Types (sc : ClusterScope) (c : CloudscaleCluster).

Definition ignores_condition (t : string) : Prop :=
  ∀ st rs msg c, f (setCondition t st rs msg c) = f c.
Definition ignores_routers : Prop :=
  ∀ rs c, f (upd_status (set_CloudscaleClusterStatus_Routers rs) c) = f c.
Definition ignores_networks : Prop :=
  ∀ ns c, f (upd_status (set_CloudscaleClusterStatus_Networks ns) c) = f c.
Definition ignores_fip : Prop := ∀ ip c, f (set_fip ip c) = f c.
Definition ignores_lb : Prop :=
  (∀ v c, f (upd_status (set_CloudscaleClusterStatus_LoadBalancerID v) c) = f c) ∧
  (∀ v c, f (upd_status (set_CloudscaleClusterStatus_LoadBalancerPoolID v) c) = f c) ∧
  (∀ v c, f (upd_status (set_CloudscaleClusterStatus_LoadBalancerListenerID v) c) = f c) ∧
  (∀ v c, f (upd_status (set_CloudscaleClusterStatus_LoadBalancerHealthMonitorID v) c) = f c) ∧
  (∀ v c, f (upd_status (set_CloudscaleClusterStatus_LoadBalancerMemberIDs v) c) = f c).

Lemma recordInterface_frame name net id m :
  ignores_routers → respects (keeps f) (recordInterface name net id m).
Proof.
  intros H s. unfold exec, keeps. rewrite recordInterface_run. simpl.
  unfold setRouterInterfaceStatus. repeat case_match; simpl; try done; apply H.
Qed.

Lemma reconcileRouters_frame sc :
  ignores_routers → ignores_condition RouterReadyCondition → respects (keeps f) (reconcileRouters sc).
Proof.
  intros H Hc. unfold reconcileRouters, reconcileRoutersLoop, reconcileRouter, adoptRouter,
    ensureManagedRouter, reconcileRouterInterfaces, reconcileRouterInterface, adoptRouterInterface,
    claimRouterInterface, createRouterInterface, sdk_Get, sdk_Create, Eventf.
  frame; try apply ensureResource_keeps; try (by apply recordInterface_frame); try apply Hc.
  - exact (H _ _).
  - destruct r as [r|e]; [destruct (negb (IsZero r)); [|destruct (CloudscaleClusterSpec_Routers _)]|];
      exact (Hc _ _ _ _).
Qed.

Lemma ensureOrCreate_frame {Req T} k (svc : Service World Req T) uuid mk name id setID request created :
  (∀ v c, f (upd_status (setID v) c) = f c) → respects (keeps f) request →
  (∀ x, respects (keeps f) (created x)) →
  respects (keeps f) (ensureOrCreate k svc uuid mk name id setID request created).
Proof.
  intros Hs Hr Hc. unfold ensureOrCreate, sdk_Create. frame; auto using ensureResource_keeps.
Qed.

Lemma reconcileLBMembers_keeps sc :
  (∀ v c, f (upd_status (set_CloudscaleClusterStatus_LoadBalancerMemberIDs v) c) = f c) →
  respects (keeps f) (reconcileLBMembers sc).
Proof.
  intros H. unfold reconcileLBMembers, ensureMember, pruneMember, createLoadBalancerMember,
    updateLoadBalancerMember, deleteLoadBalancerMember, listMembers, getDesiredLoadBalancerMembers,
    listMachines.
  frame; exact (H _ _).
Qed.

Lemma stage_keeps pending msg m k :
  respects (keeps f) m → respects (keeps f) k → respects (keeps f) (stage pending msg m k).
Proof. intros. unfold stage. by frame. Qed.

Lemma reconcileLBChildren_keeps sc lb pending :
  ignores_lb → respects (keeps f) (reconcileLBChildren sc lb pending).
Proof.
  intros (H1 & H2 & H3 & H4 & H5). unfold reconcileLBChildren.
  apply stage_keeps; [|apply stage_keeps; [|apply stage_keeps; [|apply stage_keeps]]];
    [| | |by apply reconcileLBMembers_keeps|apply respects_ret; apply _];
    (apply respects_bind; [apply _|apply respects_get; apply _|intros ?; apply ensureOrCreate_frame]);
    try done; unfold poolRequest, listenerRequest, monitorRequest, poolCreated, listenerCreated,
      monitorCreated, Eventf; intros; by frame.
Qed.

Lemma reconcileLoadBalancer_frame sc :
  ignores_lb → ignores_condition LoadBalancerReadyCondition →
  respects (keeps f) (reconcileLoadBalancer sc).
Proof.
  intros H Hc.
  assert (respects (keeps f) (reconcileLB sc)) as HL.
  { unfold reconcileLB. apply respects_bind; [apply _|apply respects_get; apply _|]. intros c.
    destruct H as [H _]. apply ensureOrCreate_frame; [exact H|..];
      unfold lbRequest, lbCreated, Eventf; intros; by frame. }
  assert (respects (keeps f) (reconcileLBEnabled sc)) as HE.
  { unfold reconcileLBEnabled, pendingMessage, listMembers, sdk_Get. apply stage_keeps; [done|].
    frame; by apply reconcileLBChildren_keeps. }
  unfold reconcileLoadBalancer. apply respects_bind; [apply _|apply respects_get; apply _|intros c].
  destruct (negb _); [by frame; exact (Hc _ _ _ _)|].
  apply respects_bind; [apply _| |by intros [[? ?] ?]; frame].
  apply keeps_deferred; [done|]. intros [[[? ?] [?|]]|?] ?; exact (Hc _ _ _ _).
Qed.

Lemma reconcileFloatingIP_frame sc :
  ignores_fip → ignores_condition FloatingIPReadyCondition → respects (keeps f) (reconcileFloatingIP sc).
Proof.
  intros H Hc. unfold reconcileFloatingIP, reconcileManagedFloatingIP, reconcilePreExistingFloatingIP,
    ensureFloatingIPAssignment, getFloatingIPTarget, listMachines, sdk_Get, sdk_Create, Eventf.
  frame; try apply ensureResource_keeps; try apply Hc; try apply H.
  destruct r; apply Hc.
Qed.
End stage_frames.

(** ** The contract of a stage

    What [reconcileNormal] relies on: a stage that finishes with nothing to wait
    for has reached its goal, and a stage touches only its own part of the object.
    The goal speaks about a view of the object that later stages leave alone. *)

Section stages.
Context `{P : Platform}.
Implicit Types (sc : ClusterScope) (s : CState) (c : CloudscaleCluster).

Class Stage {A} (m : CM A) (idle : A → Prop) (pre : CloudscaleCluster → Prop)
    (goal : A → CloudscaleCluster → Prop) (ignored : ∀ B, (CloudscaleCluster → B) → Prop) : Prop := {
  stage_goal s a : pre (obj s) → result m s = Ok a → idle a → goal a (obj (exec m s));
  stage_frame {B} (f : CloudscaleCluster → B) : ignored B f → respects (keeps f) m }.

Lemma stage_run {A} (m : CM A) idle pre goal ignored `{!Stage m idle pre goal ignored} s a s1 :
  m s = (Ok a, s1) → pre (obj s) → idle a → goal a (obj s1).
Proof.
  intros E Hp Hi. pose proof (stage_goal s a Hp) as H. unfold result, exec in H. rewrite E in H.
  by apply H.
Qed.

Lemma stage_kept {A B} (m : CM A) idle pre goal ignored `{!Stage m idle pre goal ignored}
    (f : CloudscaleCluster → B) s r s1 :
  m s = (r, s1) → ignored B f → f (obj s1) = f (obj s).
Proof.
  intros E Hf. pose proof (stage_frame (m:=m) f Hf s) as H. unfold keeps, exec in H. by rewrite E in H.
Qed.

(** *** Goals *)

Definition networks_done c : Prop :=
  CloudscaleClusterSpec_Networks (spec c) ≠ [] ∧
  ∀ n, n ∈ CloudscaleClusterSpec_Networks (spec c) → provisioned_network c (NetworkSpec_Name n).

Definition routers_done c : Prop :=
  ∀ x, x ∈ CloudscaleClusterSpec_Routers (spec c) →
  (∃ rid, rid ≠ "" ∧
     router_view c (RouterSpec_Name x) = Some (rid, bool_decide (RouterSpec_UUID x = ""))) ∧
  ∀ i, i ∈ RouterSpec_Interfaces x → ∃ id, id ≠ "" ∧
    iface_entry c (RouterSpec_Name x) (RouterInterfaceSpec_Network i) =
      Some (mkRouterInterfaceStatus (RouterInterfaceSpec_Network i) id
              (bool_decide (RouterInterfaceSpec_UUID i = ""))).

Definition lb_done c : Prop :=
  lbEnabled (spec c) = true →
  lbID c ≠ "" ∧ poolID c ≠ "" ∧ listenerID c ≠ "" ∧ monitorID c ≠ "".

Definition fip_done c : Prop :=
  CloudscaleClusterSpec_FloatingIP (spec c) ≠ None → fipOf c ≠ "".

(** *** The four stages *)

Lemma reconcileNetwork_frame {B} sc (f : CloudscaleCluster → B) :
  ignores_networks f → ignores_condition f NetworkReadyCondition →
  respects (keeps f) (reconcileNetwork sc).
Proof.
  intros H Hc. unfold reconcileNetwork, reconcileNetworks, reconcileOneNetwork,
    reconcilePreExistingNetwork, reconcileManagedNetwork, createNetwork, createSubnet,
    sdk_Get, sdk_Create, Eventf.
  frame; try apply ensureResource_keeps; try exact (H _ _).
  destruct r; exact (Hc _ _ _ _).
Qed.

#[export] Instance network_stage sc `{!NetworkIDs (scope_Client sc)} :
  Stage (reconcileNetwork sc) (λ r, r = emptyResult) (λ _, True)
    (λ _ c, networks_done c ∧ IsTrue c NetworkReadyCondition = true)
    (λ B f, ignores_networks f ∧ ignores_condition f NetworkReadyCondition).
Proof.
  split; [|intros B f []; by apply reconcileNetwork_frame].
  intros s r _ Hr ->. destruct (reconcileNetwork_provisions sc s Hr) as [Hne Hp].
  pose proof (reconcileNetwork_frame sc spec ltac:(done) ltac:(done) s) as Hs. unfold keeps in Hs.
  split; [by split; rewrite Hs|]. apply IsTrue_spec.
  unfold reconcileNetwork, result, exec, deferred in *.
  destruct (reconcileNetworks sc s) as [[r|e] s1]; simpl in *; [|done].
  eexists. split; [apply conditionOf_set_eq|done].
Qed.

#[export] Instance router_stage sc `{!RouterIDs (scope_Client sc)} :
  Stage (reconcileRouters sc) (λ r, r = emptyResult)
    (λ c, unique_routers (CloudscaleClusterSpec_Routers (spec c)))
    (λ _ c, routers_done c ∧ IsTrue c RouterReadyCondition = true)
    (λ B f, ignores_routers f ∧ ignores_condition f RouterReadyCondition).
Proof.
  split; [|intros B f []; by apply reconcileRouters_frame].
  intros s r Hu Hr ->. pose proof (reconcileRouters_provisions sc s Hu Hr) as Hp.
  pose proof (reconcileRouters_frame spec sc ltac:(done) ltac:(done) s) as Hs. unfold keeps in Hs.
  split; [by unfold routers_done; rewrite Hs|]. apply IsTrue_spec.
  eexists. split; [apply reconcileRouters_reports|]. by rewrite Hr.
Qed.

#[export] Instance lb_stage sc `{!LBIDs (scope_Client sc)} :
  Stage (reconcileLoadBalancer sc) (λ a, a.2 = emptyResult) (λ _, True)
    (λ a c, lb_done c ∧ IsTrue c LoadBalancerReadyCondition = lb_ready a.1)
    (λ B f, ignores_lb f ∧ ignores_condition f LoadBalancerReadyCondition).
Proof.
  split; [|intros B f []; by apply reconcileLoadBalancer_frame].
  intros s [st r] _ Hr Hz. simpl in *. subst r.
  pose proof (reconcileLoadBalancer_frame spec sc ltac:(done) ltac:(done) s) as Hs.
  unfold keeps in Hs. unfold lb_done. rewrite Hs.
  destruct (lbEnabled (spec (obj s))) eqn:Hen.
  - destruct (reconcileLoadBalancer_provisions sc s st Hen Hr) as (? & ? & ? & ? & ->). done.
  - split; [done|]. unfold reconcileLoadBalancer in *. rewrite exec_get, Hen. rewrite result_get, Hen in Hr.
    injection Hr as <-. unfold IsTrue.
    change (obj _) with (setCondition LoadBalancerReadyCondition ConditionTrue
                           LoadBalancerDisabledReason "" (obj s)).
    by rewrite conditionOf_set_eq.
Qed.

#[export] Instance fip_stage sc `{!FloatingIPIDs (scope_Client sc)} :
  Stage (reconcileFloatingIP sc) (λ r, r = emptyResult) (λ _, True)
    (λ _ c, fip_done c ∧ IsTrue c FloatingIPReadyCondition = true)
    (λ B f, ignores_fip f ∧ ignores_condition f FloatingIPReadyCondition).
Proof.
  split; [|intros B f []; by apply reconcileFloatingIP_frame].
  intros s r _ Hr ->. pose proof (reconcileFloatingIP_provisions sc s) as Hp.
  pose proof (reconcileFloatingIP_frame spec sc ltac:(done) ltac:(done) s) as Hs. unfold keeps in Hs.
  unfold fip_done. rewrite Hs. split; [by intros; apply Hp|]. apply IsTrue_spec.
  clear Hp Hs. unfold reconcileFloatingIP in *. rewrite exec_get. rewrite result_get in Hr.
  destruct (CloudscaleClusterSpec_FloatingIP _) as [fs|];
    [|eexists; split; [apply conditionOf_set_eq|done]].
  match goal with |- context [deferred _ ?m] => set (body := m) in * end. clearbody body.
  unfold result, exec, deferred in *. destruct (body s) as [[r|e] s1]; simpl in *; [|done].
  eexists. split; [apply conditionOf_set_eq|done].
Qed.
End stages.

(** ** The normal path: theorems *)

Section normal.
Context `{P : Platform}.
Implicit Types (sc : ClusterScope) (s : CState) (c : CloudscaleCluster).

Definition endpointHost c : string :=
  APIEndpoint_Host (CloudscaleClusterSpec_ControlPlaneEndpoint (spec c)).

(** The host the endpoint may get: the floating IP when the spec has one, else
    the load balancer's address, else none. *)
Definition endpointSource (lbIPAddress : string) c : string :=
  match CloudscaleClusterSpec_FloatingIP (spec c) with
  | Some _ => fipOf c
  | None => if lbEnabled (spec c) then lbIPAddress else ""
  end.

Definition withEndpoint (lbIPAddress : string) c : CloudscaleCluster :=
  if bool_decide (endpointHost c = "" ∧ endpointSource lbIPAddress c ≠ "") then
    upd_spec (set_CloudscaleClusterSpec_ControlPlaneEndpoint
      (mkAPIEndpoint (endpointSource lbIPAddress c) (LoadBalancerSpec_APIServerPort (lbSpec c)))) c
  else c.

Lemma reconcileControlPlaneEndpoint_run ip s :
  ∃ evs, reconcileControlPlaneEndpoint ip s = (Ok (), mkSt (withEndpoint ip (obj s)) (world s) (log s ++ evs)) ∧
         Forall is_read evs.
Proof.
  unfold reconcileControlPlaneEndpoint, withEndpoint, endpointSource, endpointHost, Eventf. go_run.
  destruct (APIEndpoint_Host _ == "") eqn:E0; go_bools; simpl.
  2:{ exists []. rewrite app_nil_r, bool_decide_eq_false_2 by tauto. by destruct s. }
  assert (∃ evs, (Ok (), s) = (Ok (), mkSt (obj s) (world s) (log s ++ evs)) ∧
            Forall is_read evs) as Hnone.
  { exists []. rewrite app_nil_r. by destruct s. }
  destruct (CloudscaleClusterSpec_FloatingIP _) as [fs|]; [|destruct (lbEnabled _)].
  - unfold fipOf. destruct (CloudscaleClusterStatus_FloatingIP _ == "") eqn:E; go_bools.
    + rewrite bool_decide_eq_false_2 by tauto. by apply Hnone.
    + rewrite bool_decide_eq_true_2 by done. eexists [_]. split; [done|]. by go_forall.
  - destruct (ip == "") eqn:E; go_bools.
    + rewrite bool_decide_eq_false_2 by tauto. by apply Hnone.
    + rewrite bool_decide_eq_true_2 by done. eexists [_]. split; [done|]. by go_forall.
  - rewrite bool_decide_eq_false_2 by tauto. by apply Hnone.
Qed.

(** A run that ends with nothing to wait for went through all stages. *)
Lemma reconcileNormal_run sc s :
  result (reconcileNormal sc) s = Ok emptyResult →
  ∃ s1 s2 st s3 s4,
    reconcileNetwork sc s = (Ok emptyResult, s1) ∧ reconcileRouters sc s1 = (Ok emptyResult, s2) ∧
    reconcileLoadBalancer sc s2 = (Ok (st, emptyResult), s3) ∧
    reconcileFloatingIP sc s3 = (Ok emptyResult, s4) ∧
    lb_ready st = true ∧ Cluster_ControlPlaneInitialized (scope_Cluster sc) = Some true ∧
    obj (exec (reconcileNormal sc) s) =
      setReadyCondition (setProvisioned (withEndpoint (lb_ipAddress st) (obj s4))).
Proof.
  unfold reconcileNormal, reconcileNormalBody, result, exec, deferred, bind_flow, returning, wrap, bind.
  destruct (reconcileNetwork sc s) as [[r1|] s1] eqn:E1; [|done]. simpl.
  destruct (IsZero r1) eqn:Z1; [apply IsZero_empty in Z1 as ->|by intros [= ->]]; simpl.
  destruct (reconcileRouters sc s1) as [[r2|] s2] eqn:E2; [|done]. simpl.
  destruct (IsZero r2) eqn:Z2; [apply IsZero_empty in Z2 as ->|by intros [= ->]]; simpl.
  destruct (reconcileLoadBalancer sc s2) as [[[st r3]|] s3] eqn:E3; [|done]. simpl.
  destruct (IsZero r3) eqn:Z3; [apply IsZero_empty in Z3 as ->|by intros [= ->]]; simpl.
  destruct (reconcileFloatingIP sc s3) as [[r4|] s4] eqn:E4; [|done]. simpl.
  destruct (IsZero r4) eqn:Z4; [apply IsZero_empty in Z4 as ->|by intros [= ->]]; simpl.
  destruct (reconcileControlPlaneEndpoint_run (lb_ipAddress st) s4) as (evs & -> & _). simpl.
  intros H. exists s1, s2, st, s3, s4.
  destruct (lb_ready st) eqn:El; simpl in *; [|done].
  destruct (Cluster_ControlPlaneInitialized _) as [[]|] eqn:Ec; simpl in *; [|done..].
  by split_and!.
Qed.

(** *** Ready *)

Lemma readyFrom_other subs t c : t ≠ ReadyCondition → conditionOf (readyFrom subs c) t = conditionOf c t.
Proof.
  intros Ht. induction subs as [|u subs IH]; simpl; [by apply conditionOf_set_ne|].
  destruct (IsTrue c u); simpl; [done|]. destruct (conditionOf c u); by apply conditionOf_set_ne.
Qed.

Lemma IsTrue_readyFrom_ne subs c t : t ≠ ReadyCondition → IsTrue (readyFrom subs c) t = IsTrue c t.
Proof. intros. unfold IsTrue. by rewrite readyFrom_other. Qed.

Lemma readyFrom_spec subs c :
  IsTrue (readyFrom subs c) ReadyCondition = forallb (IsTrue c) subs.
Proof.
  induction subs as [|u subs IH]; simpl; [by unfold IsTrue; rewrite conditionOf_set_eq|].
  destruct (IsTrue c u); simpl; [done|]. unfold IsTrue.
  destruct (conditionOf c u); by rewrite conditionOf_set_eq.
Qed.

(** Ready is a faithful summary: after [reconcileNormal], whatever its
    outcome, Ready is True exactly when NetworkReady, RouterReady,
    LoadBalancerReady and FloatingIPReady are. *)
Theorem reconcileNormal_ready sc s :
  let c' := obj (exec (reconcileNormal sc) s) in
  IsTrue c' ReadyCondition = forallb (IsTrue c') subConditions.
Proof.
  unfold reconcileNormal, exec, deferred.
  destruct (reconcileNormalBody sc s) as [r s1]. simpl.
  unfold setReadyCondition at 1. rewrite readyFrom_spec. unfold subConditions, IsTrue at 1. simpl.
  unfold setReadyCondition, IsTrue. by rewrite !readyFrom_other by done.
Qed.

(** *** The endpoint *)

Lemma frame_run {A B} (f : CloudscaleCluster → B) (m : CM A) s r s1 :
  respects (keeps f) m → m s = (r, s1) → f (obj s1) = f (obj s).
Proof. intros H E. specialize (H s). unfold keeps, exec in H. by rewrite E in H. Qed.

(** Before its last steps [reconcileNormal] leaves the specification alone. *)
Lemma reconcileNormal_shape sc s :
  ∃ c4, spec c4 = spec (obj s) ∧
    (obj (exec (reconcileNormal sc) s) = setReadyCondition c4 ∨
     ∃ ip, obj (exec (reconcileNormal sc) s) = setReadyCondition (setProvisioned (withEndpoint ip c4))).
Proof.
  unfold reconcileNormal, reconcileNormalBody, result, exec, deferred, bind_flow, returning, wrap, bind.
  destruct (reconcileNetwork sc s) as [r1 s1] eqn:E1.
  apply (frame_run spec) in E1; [|by apply reconcileNetwork_frame].
  destruct r1 as [r1|]; simpl; [|by eauto]. destruct (IsZero r1); simpl; [|by eauto].
  destruct (reconcileRouters sc s1) as [r2 s2] eqn:E2.
  apply (frame_run spec) in E2; [|by apply reconcileRouters_frame]. rewrite E1 in E2.
  destruct r2 as [r2|]; simpl; [|by eauto]. destruct (IsZero r2); simpl; [|by eauto].
  destruct (reconcileLoadBalancer sc s2) as [r3 s3] eqn:E3.
  apply (frame_run spec) in E3; [|by apply reconcileLoadBalancer_frame]. rewrite E2 in E3.
  destruct r3 as [[st r3]|]; simpl; [|by eauto]. destruct (IsZero r3); simpl; [|by eauto].
  destruct (reconcileFloatingIP sc s3) as [r4 s4] eqn:E4.
  apply (frame_run spec) in E4; [|by apply reconcileFloatingIP_frame]. rewrite E3 in E4.
  destruct r4 as [r4|]; simpl; [|by eauto]. destruct (IsZero r4); simpl; [|by eauto].
  destruct (reconcileControlPlaneEndpoint_run (lb_ipAddress st) s4) as (evs & -> & _). simpl.
  exists (obj s4). split; [done|]. right. exists (lb_ipAddress st). by destruct (_ || _).
Qed.

Lemma readyFrom_spec_status {B} (f : CloudscaleCluster → B) subs c :
  ignores_condition f ReadyCondition → f (readyFrom subs c) = f c.
Proof.
  intros H. induction subs as [|u subs IH]; simpl; [apply H|].
  destruct (IsTrue c u); simpl; [done|]. destruct (conditionOf c u); apply H.
Qed.

Lemma reconcileNormal_spec sc s :
  let c := obj s in let c' := obj (exec (reconcileNormal sc) s) in
  let endpoint c := CloudscaleClusterSpec_ControlPlaneEndpoint (spec c) in
  spec c' = set_CloudscaleClusterSpec_ControlPlaneEndpoint (endpoint c') (spec c) ∧
  (endpointHost c ≠ "" → endpoint c' = endpoint c) ∧
  (endpoint c' ≠ endpoint c →
     APIEndpoint_Port (endpoint c') = LoadBalancerSpec_APIServerPort (lbSpec c) ∧
     endpointHost c' ≠ "" ∧
     match CloudscaleClusterSpec_FloatingIP (spec c) with
     | Some _ => endpointHost c' = fipOf c'
     | None => lbEnabled (spec c) = true
     end).
Proof.
  destruct (reconcileNormal_shape sc s) as (c4 & Hs & Hc). simpl. unfold endpointHost.
  assert (∀ sp, sp = set_CloudscaleClusterSpec_ControlPlaneEndpoint
                       (CloudscaleClusterSpec_ControlPlaneEndpoint sp) sp) as Hset by by intros [].
  destruct Hc as [->|[ip ->]]; unfold setReadyCondition;
    rewrite !(readyFrom_spec_status spec), !(readyFrom_spec_status fipOf) by done.
  { rewrite Hs. by split_and!. }
  change (spec (setProvisioned (withEndpoint ip c4))) with (spec (withEndpoint ip c4)).
  change (fipOf (setProvisioned (withEndpoint ip c4))) with (fipOf (withEndpoint ip c4)).
  unfold withEndpoint. case_bool_decide as Hd; [|rewrite Hs; by split_and!].
  unfold endpointHost in Hd. rewrite Hs in Hd. destruct Hd as [H0 H1]. simpl. rewrite Hs.
  split_and!; [done|done|]. intros _. unfold lbSpec. rewrite Hs. split_and!; [done|done|].
  unfold endpointSource in *. rewrite Hs in *.
  destruct (CloudscaleClusterSpec_FloatingIP _); [done|]. by destruct (lbEnabled _).
Qed.

(** The control plane endpoint is set once: [reconcileNormal] leaves a set
    endpoint alone and changes nothing else of the specification. One it sets
    has the API server port and, when the cluster has a floating IP, that
    address; without one the cluster has a load balancer. *)
Theorem reconcileNormal_endpoint sc s :
  let c := obj s in let c' := obj (exec (reconcileNormal sc) s) in
  let endpoint c := CloudscaleClusterSpec_ControlPlaneEndpoint (spec c) in
  spec c' = set_CloudscaleClusterSpec_ControlPlaneEndpoint (endpoint c') (spec c) ∧
  (endpointHost c ≠ "" → endpoint c' = endpoint c) ∧
  (endpoint c' ≠ endpoint c →
     APIEndpoint_Port (endpoint c') = LoadBalancerSpec_APIServerPort (lbSpec c) ∧
     endpointHost c' ≠ "" ∧
     match CloudscaleClusterSpec_FloatingIP (spec c) with
     | Some _ => endpointHost c' = fipOf c'
     | None => lbEnabled (spec c) = true
     end).
Proof. apply reconcileNormal_spec. Qed.

(** *** Everything is there *)

Definition network_ids (ns : NetworkStatus) : Prop :=
  NetworkStatus_NetworkID ns ≠ "" ∧ NetworkStatus_SubnetID ns ≠ "".

Lemma routerProvisioned_done c x :
  (∃ rid, rid ≠ "" ∧ fst <$> router_view c (RouterSpec_Name x) = Some rid) →
  (∀ i, i ∈ RouterSpec_Interfaces x → ∃ e, RouterInterfaceStatus_InterfaceID e ≠ "" ∧
     iface_entry c (RouterSpec_Name x) (RouterInterfaceSpec_Network i) = Some e) →
  routerProvisioned c x = true.
Proof.
  unfold routerProvisioned, router_view, iface_entry. intros (rid & Hne & Hv) Hi.
  destruct (GetRouterStatus _ _) as [rs|]; simplify_eq/=.
  rewrite bool_decide_eq_false_2 by done. apply forallb_forall. intros i Hin%list_elem_of_In.
  destruct (Hi i Hin) as (e & He & Hg). unfold interfaceProvisioned. simpl in Hg. rewrite Hg.
  by rewrite bool_decide_eq_false_2.
Qed.

Lemma forallb_network_ids l :
  forallb (λ ns, (NetworkStatus_NetworkID ns != "") && (NetworkStatus_SubnetID ns != "")) l =
    bool_decide (Forall network_ids l).
Proof.
  apply eq_true_iff_eq. rewrite bool_decide_eq_true, Forall_forall, forallb_forall.
  setoid_rewrite <- list_elem_of_In. unfold network_ids.
  split; intros H y Hy; specialize (H y Hy).
  - by go_bools.
  - destruct H. by rewrite !bool_decide_eq_false_2.
Qed.

Lemma isInfrastructureProvisioned_spec c :
  networks_done c → routers_done c → lb_done c → fip_done c →
  isInfrastructureProvisioned c =
    bool_decide (Forall network_ids (networks_of c) ∧ endpointHost c ≠ "").
Proof.
  intros [Hne Hn] Hr Hl Hf. unfold isInfrastructureProvisioned, networks_of, endpointHost.
  destruct (CloudscaleClusterSpec_Networks (spec c)) as [|n ns]; [done|].
  destruct (Hn n ltac:(left)) as (st & Hst & _).
  destruct (CloudscaleClusterStatus_Networks (status c)) as [|st0 sts] eqn:Enets.
  { unfold GetNetworkStatus in Hst. by rewrite Enets in Hst. }
  rewrite <- Enets in *. clear Enets.
  rewrite forallb_network_ids.
  case_bool_decide as HF; simpl.
  2:{ rewrite bool_decide_eq_false_2; tauto. }
  assert (forallb (routerProvisioned c) (CloudscaleClusterSpec_Routers (spec c)) = true) as ->.
  { apply forallb_forall. intros x Hx%list_elem_of_In. destruct (Hr x Hx) as [(rid & ? & Hv) Hi].
    apply routerProvisioned_done; [exists rid; by rewrite Hv|]. intros i Hin.
    destruct (Hi i Hin) as (id & ? & ->). eexists. split; [|done]. done. }
  simpl. unfold lb_done, lbID, poolID, listenerID in Hl.
  destruct (lbEnabled (spec c)); simpl.
  - destruct Hl as (? & ? & ? & _); [done|]. rewrite !bool_decide_eq_false_2 by done. simpl.
    unfold fip_done, fipOf in Hf. destruct (CloudscaleClusterSpec_FloatingIP _).
    + rewrite bool_decide_eq_false_2 by (by apply Hf). by case_bool_decide; case_bool_decide; tauto.
    + by case_bool_decide; case_bool_decide; tauto.
  - unfold fip_done, fipOf in Hf. destruct (CloudscaleClusterSpec_FloatingIP _).
    + rewrite bool_decide_eq_false_2 by (by apply Hf). by case_bool_decide; case_bool_decide; tauto.
    + by case_bool_decide; case_bool_decide; tauto.
Qed.

(** What each goal speaks about, which later stages, the endpoint and the
    summary leave alone. *)

Definition network_view c :=
  (CloudscaleClusterSpec_Networks (spec c), networks_of c, IsTrue c NetworkReadyCondition).
Definition routers_view c :=
  (CloudscaleClusterSpec_Routers (spec c), routers_of c, IsTrue c RouterReadyCondition).
Definition lb_view c :=
  (lbEnabled (spec c), (lbID c, poolID c, listenerID c, monitorID c), IsTrue c LoadBalancerReadyCondition).
Definition floating_view c :=
  (CloudscaleClusterSpec_FloatingIP (spec c), fipOf c, IsTrue c FloatingIPReadyCondition).

Lemma network_view_done c c' : network_view c' = network_view c → networks_done c → networks_done c'.
Proof.
  unfold network_view, networks_done, provisioned_network, GetNetworkStatus, networks_of.
  by intros [= -> -> _].
Qed.
Lemma routers_view_done c c' : routers_view c' = routers_view c → routers_done c → routers_done c'.
Proof.
  unfold routers_view, routers_done, router_view, iface_entry, GetRouterStatus, routers_of.
  by intros [= -> -> _].
Qed.
Lemma lb_view_done c c' : lb_view c' = lb_view c → lb_done c → lb_done c'.
Proof. unfold lb_view, lb_done. by intros [= -> -> -> -> -> _]. Qed.
Lemma floating_view_done c c' : floating_view c' = floating_view c → fip_done c → fip_done c'.
Proof. unfold floating_view, fip_done. by intros [= -> -> _]. Qed.

Lemma IsTrue_setCondition_ne t t' st rs msg c :
  t ≠ t' → IsTrue (setCondition t' st rs msg c) t = IsTrue c t.
Proof. intros Ht. unfold IsTrue. by rewrite conditionOf_set_ne. Qed.

Ltac ignores :=
  repeat split; intros ?; intros;
  unfold network_view, routers_view, lb_view, floating_view;
  rewrite ?IsTrue_setCondition_ne by done; reflexivity.

(** Nothing after the four stages changes the views. *)
Lemma finish_view {B} (f : CloudscaleCluster → B) ip c :
  ignores_condition f ReadyCondition →
  (∀ ep c, f (upd_spec (set_CloudscaleClusterSpec_ControlPlaneEndpoint ep) c) = f c) →
  (∀ v c, f (upd_status (set_CloudscaleClusterStatus_Initialization v) c) = f c) →
  f (setReadyCondition (setProvisioned (withEndpoint ip c))) = f c.
Proof.
  intros Hr He Hi. unfold setReadyCondition. rewrite readyFrom_spec_status by done.
  unfold setProvisioned. rewrite Hi. unfold withEndpoint. by case_bool_decide.
Qed.

Lemma routers_keep_networks sc : respects (keeps network_view) (reconcileRouters sc).
Proof. apply reconcileRouters_frame; ignores. Qed.
Lemma lb_keeps sc :
  respects (keeps network_view) (reconcileLoadBalancer sc) ∧
  respects (keeps routers_view) (reconcileLoadBalancer sc).
Proof. split; apply reconcileLoadBalancer_frame; ignores. Qed.
Lemma fip_keeps sc :
  respects (keeps network_view) (reconcileFloatingIP sc) ∧
  respects (keeps routers_view) (reconcileFloatingIP sc) ∧
  respects (keeps lb_view) (reconcileFloatingIP sc).
Proof. split_and!; apply reconcileFloatingIP_frame; ignores. Qed.
Lemma finish_views ip c :
  let c' := setReadyCondition (setProvisioned (withEndpoint ip c)) in
  network_view c' = network_view c ∧ routers_view c' = routers_view c ∧
  lb_view c' = lb_view c ∧ floating_view c' = floating_view c.
Proof. split_and!; apply finish_view; ignores. Qed.

(** The four stages, run to their ends, deliver. *)
Lemma stages_deliver sc s s1 s2 st s3 s4 `{!NetworkIDs (scope_Client sc)}
    `{!RouterIDs (scope_Client sc)} `{!LBIDs (scope_Client sc)} `{!FloatingIPIDs (scope_Client sc)} :
  unique_routers (CloudscaleClusterSpec_Routers (spec (obj s))) →
  reconcileNetwork sc s = (Ok emptyResult, s1) → reconcileRouters sc s1 = (Ok emptyResult, s2) →
  reconcileLoadBalancer sc s2 = (Ok (st, emptyResult), s3) → reconcileFloatingIP sc s3 = (Ok emptyResult, s4) →
  let c' := setReadyCondition (setProvisioned (withEndpoint (lb_ipAddress st) (obj s4))) in
  networks_done c' ∧ routers_done c' ∧ lb_done c' ∧ fip_done c' ∧
  IsTrue c' ReadyCondition = lb_ready st ∧
  CloudscaleClusterStatus_Initialization (status c') =
    Some (mkClusterInitializationStatus
            (Some (bool_decide (Forall network_ids (networks_of c') ∧ endpointHost c' ≠ "")))).
Proof.
  intros Hu E1 E2 E3 E4.
  assert (spec (obj s1) = spec (obj s)) as K1
    by (eapply (frame_run spec); [by apply reconcileNetwork_frame|exact E1]).
  destruct (stage_run _ _ _ _ _ _ _ _ E1 I eq_refl) as [G1 T1].
  rewrite <- K1 in Hu. destruct (stage_run _ _ _ _ _ _ _ _ E2 Hu eq_refl) as [G2 T2].
  destruct (stage_run _ _ _ _ _ _ _ _ E3 I eq_refl) as [G3 T3].
  destruct (stage_run _ _ _ _ _ _ _ _ E4 I eq_refl) as [G4 T4].
  pose proof (frame_run _ _ _ _ _ (routers_keep_networks sc) E2) as V12.
  pose proof (frame_run _ _ _ _ _ (proj1 (lb_keeps sc)) E3) as V13.
  pose proof (frame_run _ _ _ _ _ (proj2 (lb_keeps sc)) E3) as V23.
  pose proof (frame_run _ _ _ _ _ (proj1 (fip_keeps sc)) E4) as V14.
  pose proof (frame_run _ _ _ _ _ (proj1 (proj2 (fip_keeps sc))) E4) as V24.
  pose proof (frame_run _ _ _ _ _ (proj2 (proj2 (fip_keeps sc))) E4) as V34.
  destruct (finish_views (lb_ipAddress st) (obj s4)) as (W1 & W2 & W3 & W4).
  rewrite V14, V13, V12 in W1. rewrite V24, V23 in W2. rewrite V34 in W3.
  set (c' := setReadyCondition _) in *.
  pose proof (network_view_done _ _ W1 G1). pose proof (routers_view_done _ _ W2 G2).
  pose proof (lb_view_done _ _ W3 G3). pose proof (floating_view_done _ _ W4 G4).
  pose proof (f_equal snd W1) as R1. pose proof (f_equal snd W2) as R2.
  pose proof (f_equal snd W3) as R3. pose proof (f_equal snd W4) as R4. simpl in R1, R2, R3, R4.
  split_and!; [done..| |].
  - subst c'. unfold setReadyCondition in *. rewrite readyFrom_spec.
    rewrite IsTrue_readyFrom_ne in R1, R2, R3, R4 by done. unfold subConditions. simpl.
    simpl in T3. rewrite R1, R2, R3, R4, T1, T2, T3, T4. by destruct (lb_ready st).
  - rewrite <- isInfrastructureProvisioned_spec by done. subst c'. unfold setReadyCondition.
    rewrite (readyFrom_spec_status isInfrastructureProvisioned) by done.
    by rewrite (readyFrom_spec_status (λ c, CloudscaleClusterStatus_Initialization (status c))).
Qed.

(** C1. The cluster reconcile delivers what it reports. When [reconcileNormal]
    finishes with nothing to wait for, the control plane is initialised, every
    network, router and router interface of the spec is recorded with its
    identifiers, so are the load balancer with its pool, listener and health
    monitor and the floating IP where the spec asks for them, the Ready
    condition is True, and Initialization.Provisioned says whether the status
    holds complete networks only and the endpoint is set. *)
Theorem reconcileNormal_converged sc s `{!NetworkIDs (scope_Client sc)}
    `{!RouterIDs (scope_Client sc)} `{!LBIDs (scope_Client sc)} `{!FloatingIPIDs (scope_Client sc)} :
  let c' := obj (exec (reconcileNormal sc) s) in
  unique_routers (CloudscaleClusterSpec_Routers (spec (obj s))) →
  result (reconcileNormal sc) s = Ok emptyResult →
  Cluster_ControlPlaneInitialized (scope_Cluster sc) = Some true ∧
  networks_done c' ∧ routers_done c' ∧ lb_done c' ∧ fip_done c' ∧
  IsTrue c' ReadyCondition = true ∧
  CloudscaleClusterStatus_Initialization (status c') =
    Some (mkClusterInitializationStatus
            (Some (bool_decide (Forall network_ids (networks_of c') ∧ endpointHost c' ≠ "")))).
Proof.
  intros c' Hu Hr. subst c'.
  destruct (reconcileNormal_run sc s Hr) as (s1 & s2 & st & s3 & s4 & E1 & E2 & E3 & E4 & Hrd & Hcp & ->).
  destruct (stages_deliver sc s s1 s2 st s3 s4 Hu E1 E2 E3 E4) as (? & ? & ? & ? & Ht & ?).
  rewrite Hrd in Ht. by split_and!.
Qed.
End normal.

(** ** The deletion path: theorems *)

Section teardown.
Context `{P : Platform}.
Implicit Types (sc : ClusterScope) (s : CState) (c : CloudscaleCluster).

(** The position of a deletion in the teardown; an event that is no deletion of
    cluster infrastructure has none. *)
Definition teardown_rank (e : Event) : nat :=
  match e with
  | EDelete KFloatingIP _ _ => 1
  | EDelete KLoadBalancer _ _ => 2
  | EDelete KServerGroup _ _ => 3
  | EInterfaceDelete _ _ _ | EDelete KRouter _ _ => 4
  | EDelete KNetwork _ _ => 5
  | _ => 0
  end.

Definition writes_at (k : nat) (e : Event) : Prop := is_write e = true → teardown_rank e = k.

(** What each step guarantees to be gone when it succeeds, given the object it
    started from and the calls made. *)

Definition fip_gone c (evs : list Event) : Prop :=
  ∀ fs, CloudscaleClusterSpec_FloatingIP (spec c) = Some fs → FloatingIPSpec_Address fs = "" →
  fipOf c ≠ "" → confirmed_deleted KFloatingIP (fipOf c) evs.
Definition lb_gone c (evs : list Event) : Prop :=
  lbEnabled (spec c) = true → lbID c ≠ "" → confirmed_deleted KLoadBalancer (lbID c) evs.
Definition routers_gone c (evs : list Event) : Prop :=
  ∀ rs, rs ∈ routers_of c → RouterStatus_Managed rs = true → RouterStatus_RouterID rs ≠ "" →
  confirmed_deleted KRouter (RouterStatus_RouterID rs) evs.
Definition networks_gone c (evs : list Event) : Prop :=
  ∀ ns, ns ∈ networks_of c → NetworkStatus_Managed ns = true → NetworkStatus_NetworkID ns ≠ "" →
  confirmed_deleted KNetwork (NetworkStatus_NetworkID ns) evs.

(** The contract of a teardown step. *)
Class Teardown (m : CM unit) (rank : nat) (gone : CloudscaleCluster → list Event → Prop)
    (ignored : ∀ B, (CloudscaleCluster → B) → Prop) : Prop := {
  teardown_gone s : result m s = Ok () → gone (obj s) (calls_of m s);
  teardown_writes : respects (emits (writes_at rank)) m;
  teardown_frame {B} (f : CloudscaleCluster → B) : ignored B f → respects (keeps f) m }.

#[export] Instance fip_teardown sc :
  Teardown (deleteFloatingIP sc) 1 fip_gone
    (λ B f, ignores_fip f ∧ ignores_condition f FloatingIPReadyCondition).
Proof.
  split.
  - intros s Hr fs Hfs Ha Hne. pose proof (deleteFloatingIP_spec sc s) as H. cbv zeta in H.
    rewrite Hfs, Ha, Hr in H. simpl in H. by destruct H as [_ [_ [?|?]]].
  - unfold deleteFloatingIP, deleteFIPBody, sdk_Delete, Eventf. by frame.
  - intros B f [H Hc]. unfold deleteFloatingIP, deleteFIPBody, sdk_Delete, Eventf.
    frame; try exact (H _ _). destruct r; exact (Hc _ _ _ _).
Qed.

#[export] Instance lb_teardown sc :
  Teardown (deleteLoadBalancer sc) 2 lb_gone
    (λ B f, ignores_lb f ∧ ignores_condition f LoadBalancerReadyCondition).
Proof.
  split.
  - intros s Hr Hen Hne. pose proof (deleteLoadBalancer_spec sc s) as (_ & _ & H).
    specialize (H Hen). rewrite Hr in H. by destruct H as [_ [?|?]].
  - unfold deleteLoadBalancer, deleteLBBody, sdk_Delete, Eventf. by frame.
  - intros B f [(H1 & H2 & H3 & H4 & H5) Hc].
    unfold deleteLoadBalancer, deleteLBBody, sdk_Delete, Eventf.
    frame; [|destruct r; exact (Hc _ _ _ _)].
    unfold clearLoadBalancer, upd_status in *. simpl.
    etrans; [|apply (H1 "")]. etrans; [|apply (H2 "")]. etrans; [|apply (H3 "")].
    etrans; [|apply (H4 "")]. etrans; [|apply (H5 [])]. done.
Qed.

#[export] Instance servergroup_teardown sc :
  Teardown (deleteServerGroups sc) 3 (λ _ _, True) (λ B f, True).
Proof.
  split; [done|..]; unfold deleteServerGroups, getOwnedServerIDs, listMachines, sdk_ListGroups,
    deleteServerGroup, sdk_Delete; [by frame|intros B f _; by frame].
Qed.

#[export] Instance router_teardown sc :
  Teardown (deleteRouters sc) 4 routers_gone
    (λ B f, ignores_routers f ∧ ignores_condition f RouterReadyCondition).
Proof.
  split.
  - intros s Hr rs Hrs Hm Hne. pose proof (deleteRouters_spec sc s) as [Hin Hok].
    destruct (Hin rs Hrs) as [(rs' & errs & Hrs' & _ & _ & Hm' & _)|[?|[_ ?]]]; [|done|done].
    destruct (Hok Hr rs' Hrs'). congruence.
  - unfold deleteRouters, deleteRoutersLoop, deleteRouterStep, deleteRouterInterfaces,
      deleteInterfaceStep, sdk_Delete, sdk_Get, Eventf. by frame.
  - intros B f [H Hc].
    unfold deleteRouters, deleteRoutersLoop, deleteRouterStep, deleteRouterInterfaces,
      deleteInterfaceStep, sdk_Delete, sdk_Get, Eventf.
    frame; try exact (H _ _). destruct r; exact (Hc _ _ _ _).
Qed.

#[export] Instance network_teardown sc :
  Teardown (deleteNetwork sc) 5 networks_gone
    (λ B f, ignores_networks f ∧ ignores_condition f NetworkReadyCondition).
Proof.
  split.
  - intros s Hr ns Hns Hm Hne. pose proof (deleteNetwork_spec sc s) as (Hin & _ & Hok).
    destruct (Hin ns Hns) as [Hkept|[_ [?|?]]]; [|done|done].
    rewrite (Hok Hr) in Hkept. apply list_elem_of_filter in Hkept as [? _]. congruence.
  - unfold deleteNetwork, deleteNetworks, deleteNetworkStep, sdk_Delete, Eventf. by frame.
  - intros B f [H Hc]. unfold deleteNetwork, deleteNetworks, deleteNetworkStep, sdk_Delete, Eventf.
    frame; try exact (H _ _). destruct r; exact (Hc _ _ _ _).
Qed.
End teardown.

Section deletion.
Context `{P : Platform}.
Implicit Types (sc : ClusterScope) (s : CState) (c : CloudscaleCluster).

Definition finalizers c : list string := ObjectMeta_Finalizers (CloudscaleCluster_Meta c).

(** The writes so far are deletions in the order of the teardown, up to step [k]. *)
Definition torn_down (k : nat) (evs : list Event) : Prop :=
  StronglySorted le (teardown_rank <$> filter (λ e, is_write e = true) evs) ∧
  Forall (λ e, is_write e = true → 1 ≤ teardown_rank e ≤ k) evs.

Lemma StronglySorted_constant (n : nat) l : (∀ x, x ∈ l → x = n) → StronglySorted le l.
Proof.
  induction l as [|y l IH]; intros H; constructor.
  - apply IH. intros x Hx. apply H. by right.
  - apply Forall_forall. intros x Hx. rewrite (H y), (H x); [done|by right|by left].
Qed.

Lemma torn_down_step k evs evs' :
  torn_down k evs → Forall (writes_at (S k)) evs' → torn_down (S k) (evs ++ evs').
Proof.
  intros [Hs Hk] Hw. split.
  - rewrite filter_app, fmap_app. apply StronglySorted_app. split_and!.
    + intros x y (e & -> & [He Hin]%list_elem_of_filter)%list_elem_of_fmap
        (e' & -> & [He' Hin']%list_elem_of_filter)%list_elem_of_fmap.
      rewrite Forall_forall in Hk, Hw. specialize (Hk e Hin He). specialize (Hw e' Hin' He'). lia.
    + done.
    + apply (StronglySorted_constant (S k)). intros x (e & -> & [? ?]%list_elem_of_filter)%list_elem_of_fmap.
      rewrite Forall_forall in Hw. by apply Hw.
  - apply Forall_app. split; (eapply Forall_impl; [eassumption|]); simpl.
    + intros e He Hw'. specialize (He Hw'). lia.
    + intros e He Hw'. rewrite (He Hw'). lia.
Qed.

Lemma torn_down_weaken k k' evs : k ≤ k' → torn_down k evs → torn_down k' evs.
Proof.
  intros Hk [Hs HF]. split; [done|]. eapply Forall_impl; [exact HF|].
  intros e He Hw. specialize (He Hw). simpl in *. lia.
Qed.

(** One step of the teardown. *)
Lemma teardown_run {m rank gone ignored} `{HT : !Teardown m rank gone ignored} s r s1 :
  m s = (r, s1) →
  ∃ evs, log s1 = log s ++ evs ∧ Forall (writes_at rank) evs ∧ (r = Ok () → gone (obj s) evs) ∧
    ∀ B (f : CloudscaleCluster → B), ignored B f → f (obj s1) = f (obj s).
Proof.
  intros E. pose proof (emits_calls_of _ m s teardown_writes) as [Hl HF].
  pose proof (teardown_gone (Teardown:=HT) s) as Hg. unfold exec, result in *. rewrite E in *. simpl in *.
  exists (calls_of m s). split_and!; [done|done|exact Hg|].
  intros B f Hf. pose proof (teardown_frame (Teardown:=HT) f Hf s) as Hk.
  unfold keeps, exec in Hk. by rewrite E in Hk.
Qed.

(** What is not status: the metadata and the specification. *)
Definition declared c : ObjectMeta * CloudscaleClusterSpec := (CloudscaleCluster_Meta c, spec c).

(** The state of a deletion that started from [s] and has done [k] steps. *)
Definition tearing s (k : nat) s' : Prop :=
  declared (obj s') = declared (obj s) ∧
  ∃ evs, log s' = log s ++ evs ∧ torn_down k evs.

Lemma tearing_start s s0 :
  declared (obj s0) = declared (obj s) → log s0 = log s → tearing s 0 s0.
Proof.
  intros Hf Hl. split; [done|]. exists []. rewrite app_nil_r. split; [done|]. split; constructor.
Qed.

Lemma tearing_step {m k gone ignored} `{HT : !Teardown m (S k) gone ignored} s s0 r s1 :
  ignored _ declared → tearing s k s0 → m s0 = (r, s1) → tearing s (S k) s1.
Proof.
  intros Hi [Hf (evs & Hl & Ht)] E. destruct (teardown_run _ _ _ E) as (ev1 & L1 & W1 & _ & F1).
  split; [by rewrite (F1 _ _ Hi)|]. exists (evs ++ ev1). rewrite L1, Hl, app_assoc.
  split; [done|]. by apply torn_down_step.
Qed.

Lemma tearing_end s k s' : k ≤ 5 → tearing s k s' → tearing s 5 s'.
Proof.
  intros Hk [Hf (evs & Hl & Ht)]. split; [done|]. exists evs. split; [done|]. by eapply torn_down_weaken.
Qed.

(** Either the teardown stopped early, or all five steps succeeded. *)
Lemma reconcileDelete_run sc s :
  let r := result (reconcileDelete sc) s in let s' := exec (reconcileDelete sc) s in
  let s0 := mkSt (setCondition DeletingCondition ConditionTrue DeletingReason
                    "Deleting infrastructure resources" (obj s)) (world s) (log s) in
  r ≠ Ok emptyResult ∧ tearing s 5 s' ∨
  r = Ok emptyResult ∧ ∃ s1 s2 s3 s4 s5,
    deleteFloatingIP sc s0 = (Ok (), s1) ∧ deleteLoadBalancer sc s1 = (Ok (), s2) ∧
    deleteServerGroups sc s2 = (Ok (), s3) ∧ deleteRouters sc s3 = (Ok (), s4) ∧
    deleteNetwork sc s4 = (Ok (), s5) ∧ tearing s 5 s5 ∧
    s' = mkSt (removeFinalizer (setCondition ReadyCondition ConditionFalse DeletingReason
                 "Infrastructure has been deleted" (obj s5))) (world s5) (log s5).
Proof.
  unfold reconcileDelete, retryOn, result, exec, bind_flow, wrap, try, bind, modify, throw, ret; simpl.
  set (s0 := mkSt _ _ _). assert (tearing s 0 s0) as T0 by by apply tearing_start.
  destruct (deleteFloatingIP sc s0) as [[[]|e] s1] eqn:E1; assert (tearing s 1 s1) as T1 by (refine (tearing_step _ _ _ _ _ T0 E1); done);
    simpl; [|left; split; [done|by eapply tearing_end; [|exact T1]; lia]].
  destruct (deleteLoadBalancer sc s1) as [[[]|e] s2] eqn:E2; assert (tearing s 2 s2) as T2 by (refine (tearing_step _ _ _ _ _ T1 E2); done);
    simpl; [|left; split; [done|by eapply tearing_end; [|exact T2]; lia]].
  destruct (deleteServerGroups sc s2) as [[[]|e] s3] eqn:E3; assert (tearing s 3 s3) as T3 by (refine (tearing_step _ _ _ _ _ T2 E3); done);
    simpl; [|left; destruct (errors_Is e _); (split; [done|by eapply tearing_end; [|exact T3]; lia])].
  destruct (deleteRouters sc s3) as [[[]|e] s4] eqn:E4; assert (tearing s 4 s4) as T4 by (refine (tearing_step _ _ _ _ _ T3 E4); done);
    simpl; [|left; split; [done|by eapply tearing_end; [|exact T4]; lia]].
  destruct (deleteNetwork sc s4) as [[[]|e] s5] eqn:E5; assert (tearing s 5 s5) as T5 by (refine (tearing_step _ _ _ _ _ T4 E5); done);
    simpl; [|left; destruct (errors_Is e _); (split; [done|exact T5])].
  right. split; [done|]. by exists s1, s2, s3, s4, s5.
Qed.

Lemma reconcileDelete_calls sc s :
  ∃ evs, log (exec (reconcileDelete sc) s) = log s ++ evs ∧ torn_down 5 evs.
Proof.
  destruct (reconcileDelete_run sc s)
    as [[_ [_ ?]]|(_ & s1 & s2 & s3 & s4 & s5 & _ & _ & _ & _ & _ & [_ ?] & ->)]; done.
Qed.

Lemma confirmed_app_l k id evs evs' : confirmed_deleted k id evs → confirmed_deleted k id (evs ++ evs').
Proof. apply confirmed_mono, list_subseteq_app_l. done. Qed.
Lemma confirmed_app_r k id evs evs' : confirmed_deleted k id evs' → confirmed_deleted k id (evs ++ evs').
Proof. apply confirmed_mono, list_subseteq_app_r. done. Qed.

(** C19. Every write of [reconcileDelete], whatever its outcome, is a deletion,
    and the deletions come in the order in which the resources depend on each
    other: floating IP, load balancer, server groups, router interfaces and
    routers, networks. *)
Theorem reconcileDelete_order sc s :
  let writes := filter (λ e, is_write e = true) (calls_of (reconcileDelete sc) s) in
  StronglySorted le (teardown_rank <$> writes) ∧ Forall (λ e, 1 ≤ teardown_rank e ≤ 5) writes.
Proof.
  destruct (reconcileDelete_calls sc s) as (evs & Hl & Hs & HF).
  unfold calls_of. rewrite Hl, drop_app_length. split; [done|].
  apply Forall_forall. intros e [He Hin]%list_elem_of_filter. rewrite Forall_forall in HF. by apply HF.
Qed.

(** C2. The finalizer is removed only when the infrastructure is gone. When
    [reconcileDelete] finishes with nothing to wait for, the cluster finalizer
    and no other is removed, and the provider has confirmed the deletion of the
    managed floating IP, of the load balancer, and of every managed router and
    network that status recorded with an identifier. On any other outcome the
    finalizers stay. *)
Theorem reconcileDelete_finalizer sc s :
  let c := obj s in let c' := obj (exec (reconcileDelete sc) s) in
  let evs := calls_of (reconcileDelete sc) s in
  (result (reconcileDelete sc) s ≠ Ok emptyResult → finalizers c' = finalizers c) ∧
  (result (reconcileDelete sc) s = Ok emptyResult →
     (∀ f, f ∈ finalizers c' ↔ f ≠ ClusterFinalizer ∧ f ∈ finalizers c) ∧
     fip_gone c evs ∧ lb_gone c evs ∧ routers_gone c evs ∧ networks_gone c evs).
Proof.
  destruct (reconcileDelete_run sc s) as [[Hne [Hf _]]|(Hr & s1 & s2 & s3 & s4 & s5 & H)];
    [by injection Hf as Hf _; unfold finalizers; rewrite Hf|].
  split; [done|]. intros _. set (s0 := mkSt _ _ _) in H.
  destruct H as (E1 & E2 & E3 & E4 & E5 & [Hmeta _] & Hs').
  assert (finalizers (obj s5) = finalizers (obj s)) as Hf by (injection Hmeta as Hmeta _; unfold finalizers; by rewrite Hmeta).
  destruct (teardown_run _ _ _ E1) as (v1 & L1 & _ & G1 & F1).
  destruct (teardown_run _ _ _ E2) as (v2 & L2 & _ & G2 & F2).
  destruct (teardown_run _ _ _ E3) as (v3 & L3 & _ & _ & F3).
  destruct (teardown_run _ _ _ E4) as (v4 & L4 & _ & G4 & F4).
  destruct (teardown_run _ _ _ E5) as (v5 & L5 & _ & G5 & _).
  assert (calls_of (reconcileDelete sc) s = v1 ++ v2 ++ v3 ++ v4 ++ v5) as ->.
  { unfold calls_of. rewrite Hs'. simpl. rewrite L5, L4, L3, L2, L1, <- !app_assoc. simpl.
    by rewrite drop_app_length. }
  specialize (G1 eq_refl). specialize (G2 eq_refl). specialize (G4 eq_refl). specialize (G5 eq_refl).
  assert (spec (obj s1) = spec (obj s) ∧ lbID (obj s1) = lbID (obj s)) as [K1 K1'].
  { split; [apply (F1 _ spec)|apply (F1 _ lbID)]; done. }
  assert (routers_of (obj s3) = routers_of (obj s)) as K3.
  { rewrite (F3 _ routers_of I), (F2 _ routers_of), (F1 _ routers_of); done. }
  assert (networks_of (obj s4) = networks_of (obj s)) as K4.
  { rewrite (F4 _ networks_of), (F3 _ networks_of I), (F2 _ networks_of), (F1 _ networks_of); done. }
  rewrite Hs'. simpl. split_and!.
  - intros f. unfold finalizers at 1. simpl. rewrite RemoveFinalizer_spec. by rewrite <- Hf.
  - intros fs Hfs Ha Hne. apply confirmed_app_l. by eapply G1.
  - intros Hen Hne. apply confirmed_app_r, confirmed_app_l. unfold lb_gone in G2.
    rewrite K1, K1' in G2. by apply G2.
  - intros rs Hrs Hm Hne. do 3 apply confirmed_app_r. apply confirmed_app_l.
    unfold routers_gone in G4. rewrite K3 in G4. by apply G4.
  - intros ns Hns Hm Hne. do 4 apply confirmed_app_r.
    unfold networks_gone in G5. rewrite K4 in G5. by apply G5.
Qed.
End deletion.

(** ** Reconcile: theorems *)

Section reconcile.
Context `{P : Platform}.
Implicit Types (sc : ClusterScope) (s : CState) (c : CloudscaleCluster).

(** The stages never patch the object themselves. *)

Lemma ensureResource_quiet {Req T} k (svc : Service World Req T) uuid id name tags :
  respects (emits (O:=CloudscaleCluster) quiet) (ensureResource k svc uuid id name tags).
Proof. by apply ensureResource_reads. Qed.

Lemma reconcileNetwork_quiet sc : respects (emits quiet) (reconcileNetwork sc).
Proof.
  unfold reconcileNetwork, reconcileNetworks, reconcileOneNetwork,
    reconcilePreExistingNetwork, reconcileManagedNetwork, createNetwork, createSubnet,
    sdk_Get, sdk_Create, Eventf.
  frame; try apply ensureResource_quiet; done.
Qed.

Lemma reconcileRouters_quiet sc : respects (emits quiet) (reconcileRouters sc).
Proof.
  unfold reconcileRouters, reconcileRoutersLoop, reconcileRouter, adoptRouter,
    ensureManagedRouter, reconcileRouterInterfaces, reconcileRouterInterface, adoptRouterInterface,
    claimRouterInterface, createRouterInterface, recordInterface, sdk_Get, sdk_Create, Eventf.
  frame; try apply ensureResource_quiet; done.
Qed.

Lemma ensureOrCreate_quiet {Req T} k (svc : Service World Req T) uuid mk name id setID request created :
  respects (emits quiet) request → (∀ x, respects (emits quiet) (created x)) →
  respects (emits quiet) (ensureOrCreate k svc uuid mk name id setID request created).
Proof.
  intros Hr Hc. unfold ensureOrCreate, sdk_Create. frame; auto using ensureResource_quiet.
  all: try apply ensureResource_quiet. all: done.
Qed.

Lemma lb_parts_quiet sc :
  respects (emits quiet) (reconcileLB sc) ∧ respects (emits quiet) (reconcileLBPool sc) ∧
  respects (emits quiet) (reconcileLBListener sc) ∧ respects (emits quiet) (reconcileLBHealthMonitor sc) ∧
  respects (emits quiet) (reconcileLBMembers sc).
Proof.
  unfold reconcileLB, reconcileLBPool, reconcileLBListener, reconcileLBHealthMonitor. split_and!.
  5: unfold reconcileLBMembers, ensureMember, pruneMember, createLoadBalancerMember,
    updateLoadBalancerMember, deleteLoadBalancerMember, listMembers, getDesiredLoadBalancerMembers,
    listMachines; by frame.
  all: (apply respects_bind; [apply _|apply respects_get; apply _|intros ?; apply ensureOrCreate_quiet]);
    unfold lbRequest, poolRequest, listenerRequest, monitorRequest, lbCreated, poolCreated,
      listenerCreated, monitorCreated, Eventf; intros; by frame.
Qed.

Lemma stage_quiet pending msg m k :
  respects (emits quiet) m → respects (emits quiet) k → respects (emits quiet) (stage pending msg m k).
Proof. intros. unfold stage. by frame. Qed.

Lemma reconcileLoadBalancer_quiet sc : respects (emits quiet) (reconcileLoadBalancer sc).
Proof.
  destruct (lb_parts_quiet sc) as (H1 & H2 & H3 & H4 & H5).
  assert (∀ lb pending, respects (emits quiet) (reconcileLBChildren sc lb pending)) as HC.
  { intros. unfold reconcileLBChildren.
    do 4 (apply stage_quiet; [done|]). apply respects_ret; apply _. }
  assert (respects (emits quiet) (reconcileLBEnabled sc)) as HE.
  { unfold reconcileLBEnabled, pendingMessage, listMembers, sdk_Get. apply stage_quiet; [done|].
    frame; try done; apply HC. }
  unfold reconcileLoadBalancer. apply respects_bind; [apply _|apply respects_get; apply _|intros c].
  destruct (negb _); [by frame|].
  apply respects_bind; [apply _|by apply emits_deferred|by intros [[? ?] ?]; frame].
Qed.

Lemma reconcileFloatingIP_quiet sc : respects (emits quiet) (reconcileFloatingIP sc).
Proof.
  unfold reconcileFloatingIP, reconcileManagedFloatingIP, reconcilePreExistingFloatingIP,
    ensureFloatingIPAssignment, getFloatingIPTarget, listMachines, sdk_Get, sdk_Create, Eventf.
  frame; try apply ensureResource_quiet; done.
Qed.

Lemma reconcileNormal_quiet sc : respects (emits quiet) (reconcileNormal sc).
Proof.
  unfold reconcileNormal, reconcileNormalBody, reconcileControlPlaneEndpoint, Eventf.
  frame; try done; auto using reconcileNetwork_quiet, reconcileRouters_quiet,
    reconcileLoadBalancer_quiet, reconcileFloatingIP_quiet.
Qed.

Lemma reconcileDelete_quiet sc : respects (emits quiet) (reconcileDelete sc).
Proof.
  unfold reconcileDelete, retryOn, deleteFloatingIP, deleteFIPBody, deleteLoadBalancer, deleteLBBody,
    deleteServerGroups, getOwnedServerIDs, deleteServerGroup, deleteRouters, deleteRoutersLoop,
    deleteRouterStep, deleteRouterInterfaces, deleteInterfaceStep, deleteNetwork, deleteNetworks,
    deleteNetworkStep, listMachines, sdk_ListGroups, sdk_Delete, sdk_Get, Eventf.
  by frame.
Qed.

(** *** The finalizer is there while resources are created *)

Lemma reconcileNormal_meta sc : respects (keeps CloudscaleCluster_Meta) (reconcileNormal sc).
Proof.
  unfold reconcileNormal, reconcileNormalBody, reconcileControlPlaneEndpoint, Eventf.
  frame; try done.
  - by apply reconcileNetwork_frame.
  - by apply reconcileRouters_frame.
  - by apply reconcileLoadBalancer_frame.
  - by apply reconcileFloatingIP_frame.
  - unfold setReadyCondition. by rewrite (readyFrom_spec_status CloudscaleCluster_Meta).
Qed.
Lemma reconcileNormal_finalizers sc : respects (keeps finalizers) (reconcileNormal sc).
Proof. intros s. unfold keeps, finalizers. by rewrite (reconcileNormal_meta sc s). Qed.

(** *** Runs of [reconcileOwned] *)

Lemma closing_run snapshot (m : CM Result) s :
  respects (emits quiet) m →
  ∃ pre r, log (exec (closing snapshot m) s) =
    log s ++ pre ++ [EPatchCluster snapshot (obj (exec m s))
                       (match result m s with Ok _ => true | Err _ => false end) r] ∧
    log (exec m s) = log s ++ pre ∧ Forall quiet pre ∧
    obj (exec (closing snapshot m) s) = obj (exec m s) ∧
    result (closing snapshot m) s =
      match result m s, r with Ok _, Err e => Err e | _, _ => result m s end.
Proof.
  intros Hq. destruct (Hq s) as (pre & Hl & HF). exists pre.
  unfold closing, ClusterScope_Close, call, exec, result in *.
  destruct (m s) as [r s1]; simpl in *. destruct (patch_Cluster _ _ _ _) as [p w]; simpl.
  exists p. rewrite Hl, <- app_assoc. by split_and!.
Qed.

(** What runs between the creation of the scope and the patch. *)
Definition reconcileBody sc : CM Result :=
  let! c := get in
  match ObjectMeta_DeletionTimestamp (CloudscaleCluster_Meta c) with
  | Some _ => reconcileDelete sc
  | None =>
      (if negb (ContainsFinalizer (ObjectMeta_Finalizers (CloudscaleCluster_Meta c)) ClusterFinalizer)
       then modify addFinalizer else ret ()) ;;!
      reconcileNormal sc
  end.

Definition unpaused c : CloudscaleCluster :=
  SetConditions (conditions_delete PausedCondition (GetConditions c)) c.

(** Before the scope exists nothing is written; from then on the body runs and
    is followed by the patch. *)
Lemma reconcileOwned_cases cluster s :
  annotations_IsPaused cluster (CloudscaleCluster_Meta (obj s)) = false →
  (∃ e s' pre, reconcileOwned cluster s = (Err e, s') ∧ obj s' = unpaused (obj s) ∧
     log s' = log s ++ pre ∧ Forall silent pre) ∨
  (∃ sc s1 pre, scope_Cluster sc = cluster ∧ reconcileOwned cluster s = closing (obj s1) (reconcileBody sc) s1 ∧
     obj s1 = unpaused (obj s) ∧ log s1 = log s ++ pre ∧ Forall silent pre).
Proof.
  intros Hp. unfold reconcileOwned. rewrite bind_get, Hp. 
  set (s0 := mkSt (unpaused (obj s)) (world s) (log s)).
  pose proof (GetToken_silent (CredentialsSecretRef (obj s)) (ObjectMeta_Namespace (CloudscaleCluster_Meta (obj s))) s0)
    as (pre & Hl & HF).
  pose proof (GetToken_keeps id (CredentialsSecretRef (obj s)) (ObjectMeta_Namespace (CloudscaleCluster_Meta (obj s))) s0)
    as Hk.
  unfold exec, keeps, id in *. unfold wrap, bind, get, modify. fold (unpaused (obj s)). fold s0.
  destruct (GetToken _ _ s0) as [[token|e] s1]; simpl in *; [|left; by eexists _, _, _].
  unfold NewClusterScope.
  destruct (patch_NewClusterHelper _) as [[]|e] eqn:Eh; simpl; [|left; by eexists _, _, _].
  right. exists (mkClusterScope _ cluster (NewClient token)), s1, pre. split_and!; [done|reflexivity|exact Hk|exact Hl|exact HF].
Qed.

Lemma reconcileBody_quiet sc : respects (emits quiet) (reconcileBody sc).
Proof. unfold reconcileBody. frame; auto using reconcileNormal_quiet, reconcileDelete_quiet. Qed.

(** C13. Nothing done is left unrecorded. If a reconcile made any write, its last
    call is a patch from the object as it was read (less its Paused condition)
    to the object as it stands at the end, conditions and identifiers included,
    and no earlier call is a patch. The patch moves the observed generation
    exactly when the work before it succeeded: with the flag, the reconcile
    answers what that work answered unless the patch failed, whose error it is
    then; without the flag it fails, also when the patch goes through. So an
    error of the work never moves the observed generation, and a success means
    that the patch went through with it. *)
Theorem reconcileOwned_patch cluster s :
  let evs := calls_of (reconcileOwned cluster) s in
  let c' := obj (exec (reconcileOwned cluster) s) in
  (∃ e, e ∈ evs ∧ is_write e = true) →
  ∃ pre ok r, evs = pre ++ [EPatchCluster (unpaused (obj s)) c' ok r] ∧ Forall quiet pre ∧
    (ok = true → ∃ res, result (reconcileOwned cluster) s = match r with Ok _ => Ok res | Err e => Err e end) ∧
    (ok = false → ∃ e, result (reconcileOwned cluster) s = Err e) ∧
    (∀ e, result (reconcileOwned cluster) s = Err e → r = Ok () → ok = false) ∧
    (∀ res, result (reconcileOwned cluster) s = Ok res → ok = true ∧ r = Ok ()).
Proof.
  intros evs c' (e & He & Hw). subst evs c'.
  destruct (annotations_IsPaused cluster (CloudscaleCluster_Meta (obj s))) eqn:Hp.
  { unfold calls_of, reconcileOwned in He. rewrite exec_get, Hp in He.
    unfold exec, bind, modify, ret in He. simpl in He. rewrite drop_all in He. by apply not_elem_of_nil in He. }
  destruct (reconcileOwned_cases cluster s Hp) as [(e' & s' & pre & E & _ & Hl & HF)|(sc & s1 & pre & _ & E & Ho & Hl & HF)].
  { rewrite (calls_of_run _ _ pre) in He by (unfold exec; by rewrite E).
    rewrite Forall_forall in HF. destruct (HF e He) as [Hr _]. unfold is_read in Hr. congruence. }
  destruct (closing_run (obj s1) (reconcileBody sc) s1 (reconcileBody_quiet sc))
    as (pre2 & r & Hlog & _ & Hq & Hobj & Hres).
  destruct (run_eq _ _ _ _ E) as [Ex Er].
  rewrite <- Ex, Hl, <- app_assoc in Hlog. rewrite <- Ex in Hobj. rewrite <- Er in Hres.
  rewrite (calls_of_run _ _ _ Hlog), Hobj, Hres, <- Ho. eexists (pre ++ pre2), _, r. split_and!; [by rewrite <- app_assoc|..].
  - apply Forall_app. split; [by apply silent_quiet|done].
  - destruct (result (reconcileBody sc) s1) as [res|]; [|done]. exists res. by destruct r.
  - destruct (result (reconcileBody sc) s1); [done|eauto].
  - intros e1 H ->. destruct (result (reconcileBody sc) s1); naive_solver.
  - destruct (result (reconcileBody sc) s1), r as [[]|]; naive_solver.
Qed.

(** C14. A reconcile does what the life cycle of the object allows. On a paused
    cluster it makes no call at all, so that the Paused condition it sets on its
    copy of the object is not persisted. On a cluster being deleted every write
    is a deletion. Otherwise, once anything was written, the object carries the
    cluster finalizer. *)
Theorem reconcileOwned_lifecycle cluster s :
  let evs := calls_of (reconcileOwned cluster) s in
  let c' := obj (exec (reconcileOwned cluster) s) in
  if annotations_IsPaused cluster (CloudscaleCluster_Meta (obj s)) then
    evs = [] ∧ result (reconcileOwned cluster) s = Ok emptyResult ∧ IsTrue c' PausedCondition = true
  else
    ∀ e, e ∈ evs → is_write e = true →
    match ObjectMeta_DeletionTimestamp (CloudscaleCluster_Meta (obj s)) with
    | Some _ => is_delete e = true
    | None => ClusterFinalizer ∈ finalizers c'
    end.
Proof.
  intros evs c'. subst evs c'.
  destruct (annotations_IsPaused cluster (CloudscaleCluster_Meta (obj s))) eqn:Hp.
  { unfold calls_of, reconcileOwned. rewrite exec_get, result_get, Hp. unfold exec, bind, modify, ret. simpl.
    rewrite drop_all. split_and!; [done|done|]. unfold IsTrue. by rewrite conditionOf_set_eq. }
  intros e He Hw.
  destruct (reconcileOwned_cases cluster s Hp) as [(e' & s' & pre & E & _ & Hl & HF)|(sc & s1 & pre & _ & E & Ho & Hl & HF)].
  { rewrite (calls_of_run _ _ pre) in He by (unfold exec; by rewrite E).
    rewrite Forall_forall in HF. destruct (HF e He) as [Hr _]. unfold is_read in Hr. congruence. }
  destruct (closing_run (obj s1) (reconcileBody sc) s1 (reconcileBody_quiet sc))
    as (pre2 & r & Hlog & Hbl & _ & Hobj & _).
  destruct (run_eq _ _ _ _ E) as [Ex _]. rewrite <- Ex, Hl, <- app_assoc in Hlog. rewrite <- Ex in Hobj.
  assert (e ∈ pre2) as Hin.
  { rewrite (calls_of_run _ _ _ Hlog) in He.
    apply elem_of_app in He as [He|[He|He%list_elem_of_singleton]%elem_of_app]; [|done|by subst].
    rewrite Forall_forall in HF. destruct (HF e He) as [Hr _]. unfold is_read in Hr. congruence. }
  rewrite Hobj.
  assert (CloudscaleCluster_Meta (obj s1) = CloudscaleCluster_Meta (obj s)) as Hm by by rewrite Ho.
  clear E Ex Hlog Hobj. unfold reconcileBody in *. rewrite exec_get, Hm in *.
  destruct (ObjectMeta_DeletionTimestamp _) as [d|].
  - destruct (reconcileDelete_calls sc s1) as (evs & Hd & _ & HFd).
    rewrite Hbl in Hd. apply app_inv_head in Hd as ->. rewrite Forall_forall in HFd.
    specialize (HFd e Hin Hw). destruct e; simpl in *; try lia; done.
  - set (m0 := if negb _ then _ else _) in *.
    assert (∃ s2, m0 s1 = (Ok (), s2) ∧ ClusterFinalizer ∈ finalizers (obj s2)) as (s2 & E2 & Hf).
    { subst m0. unfold finalizers.
      destruct (ContainsFinalizer _ _) eqn:Ec; simpl; eexists; (split; [reflexivity|]).
      - rewrite Hm. by apply ContainsFinalizer_spec.
      - simpl. apply AddFinalizer_spec. by left. }
    unfold exec. rewrite (bind_ok _ _ _ _ _ E2).
    pose proof (reconcileNormal_finalizers sc s2) as Hk. unfold keeps, exec in Hk. by rewrite Hk.
Qed.
End reconcile.
