(* ===== verification/MachineCtl.v ===== *)
(** * The machine controller
    (src/internal/controller/cloudscalemachine_controller.go,
    cloudscalemachine_server.go and cloudscalemachine_servergroup.go)

    The reconcile of a CloudscaleMachine: its server group, its server with the
    addresses and the condition derived from the server's state, its deletion, and
    the surrounding scope and patch. *)

From S2P Require Export Scope Ensure.

Section machine.
Context `{P : Platform}.
Implicit Types (ms : MachineScope) (m : CloudscaleMachine).

Definition mspec m : CloudscaleMachineSpec := CloudscaleMachine_Spec m.
Definition mstatus m : CloudscaleMachineStatus := CloudscaleMachine_Status m.

(** ** Conditions *)

Definition mconditions m : list Condition := CloudscaleMachineStatus_Conditions (mstatus m).
Definition set_mconditions (cs : list Condition) : CloudscaleMachine → CloudscaleMachine :=
  upd_mstatus (set_CloudscaleMachineStatus_Conditions cs).

Definition mconditionOf m (t : string) : option Condition := conditions_get (mconditions m) t.

Definition mIsTrue m (t : string) : bool :=
  match mconditionOf m t with
  | Some cond => bool_decide (Condition_Status cond = ConditionTrue)
  | None => false
  end.

Definition setCondition (condType : string) (st : ConditionStatus) (reason message : string) m
    : CloudscaleMachine :=
  set_mconditions (conditions_set (mkCondition condType st reason message) (mconditions m)) m.

(** The loop over the one sub-condition. *)
Fixpoint readyFrom (subConditions : list string) m : CloudscaleMachine :=
  match subConditions with
  | [] => setCondition ReadyCondition ConditionTrue ReadyReason "" m
  | condType :: rest =>
      if negb (mIsTrue m condType) then
        match mconditionOf m condType with
        | None => setCondition ReadyCondition ConditionFalse NotReadyReason ("Waiting for " +:+ condType) m
        | Some cond =>
            setCondition ReadyCondition ConditionFalse (Condition_Reason cond) (Condition_Message cond) m
        end
      else readyFrom rest m
  end.
Definition setReadyCondition m : CloudscaleMachine := readyFrom [ServerReadyCondition] m.

(** ** The server group *)

Definition set_group (id : string) : CloudscaleMachine → CloudscaleMachine :=
  upd_mstatus (set_CloudscaleMachineStatus_ServerGroupID id).
Definition groupID m : string := CloudscaleMachineStatus_ServerGroupID (mstatus m).

(** The first listed group of that name and zone. *)
Fixpoint findGroup (groupName zone : string) (groups : list ServerGroup) : option ServerGroup :=
  match groups with
  | [] => None
  | g :: groups =>
      if (ServerGroup_Name g == groupName) && (ServerGroup_Zone g == zone) then Some g
      else findGroup groupName zone groups
  end.

(** The section under [serverGroupMu]. *)
Definition listOrCreateGroup ms (groupName : string) : MM Result :=
  let zone := CloudscaleClusterSpec_Zone (spec (mscope_CloudscaleCluster ms)) in
  let tags := clusterOwnershipTags (mscope_CloudscaleCluster ms) in
  let svc := ServerGroups (mscope_Client ms) in
  let! groups := wrap "listing server groups: " (sdk_ListGroups svc tags) in
  match findGroup groupName zone groups with
  | Some g => modify (set_group (ServerGroup_UUID g)) ;;! ret emptyResult
  | None =>
      let! r := try (sdk_Create svc CServerGroup ServerGroup_UUID
                       (mkServerGroupRequest groupName "anti-affinity" zone tags)) in
      match r with
      | Err e =>
          if IsTimeoutError e then ret (requeue 5) else throw (wrapError "creating server group: " e)
      | Ok group => modify (set_group (ServerGroup_UUID group)) ;;! ret emptyResult
      end
  end.

Definition reconcileServerGroupBody ms : MM Result :=
  let! m := get in
  match CloudscaleMachineSpec_ServerGroup (mspec m) with
  | None => ret emptyResult
  | Some group =>
      if groupID m != "" then
        let! r := try (sdk_Get KServerGroup (ServerGroups (mscope_Client ms)) (groupID m)) in
        match r with
        | Ok _ => ret emptyResult
        | Err e =>
            if negb (IsNotFound e) then throw (wrapError "getting server group: " e)
            else
              modify (set_group "") ;;!
              listOrCreateGroup ms (ServerGroupSpec_Name group)
        end
      else listOrCreateGroup ms (ServerGroupSpec_Name group)
  end.

Definition reconcileServerGroup ms : MM Result :=
  deferred (λ r, match r with
                 | Err e => setCondition ServerGroupReadyCondition ConditionFalse ServerGroupErrorReason (Error e)
                 | Ok _ => setCondition ServerGroupReadyCondition ConditionTrue ServerGroupReadyReason ""
                 end)
    (reconcileServerGroupBody ms).

Definition deleteServerGroup m : CloudscaleMachine :=
  match CloudscaleMachineSpec_ServerGroup (mspec m) with
  | None => m
  | Some _ => set_group "" m
  end.

(** ** The server *)

Definition InterfaceTypePublic : string := "public".

Definition ServerStatusChanging : string := "changing".
Definition ServerStatusRunning : string := "running".
Definition ServerStatusStopped : string := "stopped".
Definition ServerStatusPaused : string := "paused".
Definition ServerStatusRescueRunning : string := "rescue_running".
Definition ServerStatusRescueStopped : string := "rescue_stopped".
Definition ServerStatusError : string := "error".
Definition ServerStatusUnknown : string := "unknown".

Definition ServerStatusPollInterval : Result := requeue 5.

Definition machineName m : string := ObjectMeta_Name (CloudscaleMachine_Meta m).
Definition serverID m : string := CloudscaleMachineStatus_ServerID (mstatus m).
Definition set_server (id : string) : CloudscaleMachine → CloudscaleMachine :=
  upd_mstatus (set_CloudscaleMachineStatus_ServerID id).
Definition provisioned m : bool :=
  match CloudscaleMachineStatus_Initialization (mstatus m) with
  | Some i => default false (MachineInitializationStatus_Provisioned i)
  | None => false
  end.

Definition setServerStatusCondition (server : Server) m : CloudscaleMachine :=
  let status := Server_Status server in
  if status == ServerStatusRunning then
    setCondition ServerReadyCondition ConditionTrue ServerRunningReason "" m
  else if status == ServerStatusChanging then
    if provisioned m
    then setCondition ServerReadyCondition ConditionFalse ServerChangingReason "Server is transitioning" m
    else setCondition ServerReadyCondition ConditionFalse ServerStartingReason "Server is being created" m
  else if status == ServerStatusStopped then
    setCondition ServerReadyCondition ConditionFalse ServerStoppedReason "Server is stopped" m
  else if (status == ServerStatusRescueRunning) || (status == ServerStatusRescueStopped) then
    setCondition ServerReadyCondition ConditionFalse ServerInRescueModeReason
      ("Server is in rescue mode (status: " +:+ status +:+ ")") m
  else if (status == ServerStatusPaused) || (status == ServerStatusError) || (status == ServerStatusUnknown) then
    setCondition ServerReadyCondition ConditionFalse ServerInternalErrorReason
      ("Server has internal issue (status: " +:+ status +:+ "), contact cloudscale.ch support") m
  else
    setCondition ServerReadyCondition ConditionFalse ServerErrorReason
      ("Unknown server status: " +:+ status) m.

Definition GetProviderID m : string := default "" (CloudscaleMachineSpec_ProviderID (mspec m)).
Definition SetProviderID (serverID : string) : CloudscaleMachine → CloudscaleMachine :=
  upd_mspec (set_CloudscaleMachineSpec_ProviderID (Some ("cloudscale://" +:+ serverID))).

Definition interfaceAddresses (iface : ServerInterface) : list MachineAddress :=
  let addressType := if ServerInterface_Type iface == InterfaceTypePublic
                     then MachineExternalIP else MachineInternalIP in
  map (mkMachineAddress addressType) (ServerInterface_Addresses iface).

Definition updateMachineFromServer (server : Server) m : CloudscaleMachine :=
  upd_mstatus (set_CloudscaleMachineStatus_Addresses
                 (mjoin (interfaceAddresses <$> Server_Interfaces server)))
    (SetProviderID (Server_UUID server) m).

Definition machineLookupTag ms m : TagMap :=
  let cluster := mscope_Cluster ms in
  {[ MachineTagKey (Cluster_Name cluster) :=
       Cluster_Namespace cluster +:+ "/" +:+ Cluster_Name cluster +:+ "/" +:+ machineName m ]}.

(** [maps.Copy(tags, spec.Tags)]: the user's tags win. *)
Definition machineCreateTags ms m : TagMap :=
  CloudscaleMachineSpec_Tags (mspec m) ∪ machineLookupTag ms m.

(** The loop over the interfaces of the spec: the requests so far and the IP
    family of the last public interface. *)
Fixpoint interfaceRequests (c : CloudscaleCluster) (ifaces : list InterfaceSpec)
    (acc : list string * option string) : Res (list string * option string) :=
  match ifaces with
  | [] => Ok acc
  | iface :: ifaces =>
      let '(reqs, ipFamily) := acc in
      if InterfaceSpec_Type iface == InterfaceTypePublic then
        interfaceRequests c ifaces (reqs ++ [InterfaceTypePublic], InterfaceSpec_IPFamily iface)
      else if InterfaceSpec_Network iface != "" then
        match GetNetworkStatus (status c) (InterfaceSpec_Network iface) with
        | None => Err (errorString ("network " +:+ quote (InterfaceSpec_Network iface)
                                    +:+ " not found in cluster status"))
        | Some ns =>
            if NetworkStatus_NetworkID ns == "" then
              Err (errorString ("network " +:+ quote (InterfaceSpec_Network iface)
                                +:+ " not yet provisioned"))
            else interfaceRequests c ifaces (reqs ++ [NetworkStatus_NetworkID ns], ipFamily)
        end
      else Err (errorString "interface must have either type or network set")
  end.

Definition buildInterfaceRequests ms m : Res (list string * option string) :=
  match CloudscaleMachineSpec_Interfaces (mspec m) with
  | [] =>
      match CloudscaleClusterStatus_Networks (status (mscope_CloudscaleCluster ms)) with
      | [] => Err (errorString "cluster has no networks provisioned yet")
      | firstNetwork :: _ => Ok ([InterfaceTypePublic; NetworkStatus_NetworkID firstNetwork], None)
      end
  | ifaceSpecs => interfaceRequests (mscope_CloudscaleCluster ms) ifaceSpecs ([], None)
  end.

Definition ipFamilyToUseIPV6 (ipFamily : option string) : option bool :=
  match ipFamily with
  | None => None
  | Some f =>
      if (f == IPFamilyDualStack) || (f == IPFamilyIPv6) then Some true
      else if f == IPFamilyIPv4 then Some false
      else None
  end.

(** What the three successful exits share: the machine follows the server, and a
    server that is changing is polled. *)
Definition adoptServer (server : Server) : MM (Result * option Server) :=
  modify (updateMachineFromServer server) ;;!
  ret (if Server_Status server == ServerStatusChanging then ServerStatusPollInterval else emptyResult,
       Some server).

Definition serverRequest ms m (bootstrapData : string) (interfaces : list string)
    (ipFamily : option string) : ServerRequest :=
  {| ServerRequest_Name := machineName m;
     ServerRequest_Flavor := CloudscaleMachineSpec_Flavor (mspec m);
     ServerRequest_Image := CloudscaleMachineSpec_Image (mspec m);
     ServerRequest_Zone := CloudscaleClusterSpec_Zone (spec (mscope_CloudscaleCluster ms));
     ServerRequest_Tags := machineCreateTags ms m;
     ServerRequest_UserData := bootstrapData;
     ServerRequest_Interfaces := interfaces;
     ServerRequest_UseIPV6 := ipFamilyToUseIPV6 ipFamily;
     ServerRequest_SSHKeys := [];
     ServerRequest_VolumeSizeGB :=
       if (CloudscaleMachineSpec_RootVolumeSize (mspec m) >? 0)%Z
       then CloudscaleMachineSpec_RootVolumeSize (mspec m) else 0;
     ServerRequest_ServerGroups := if groupID m != "" then [groupID m] else [] |}.

Definition createServer ms : MM (Result * option Server) :=
  let! bootstrapData := wrap "getting bootstrap data: " (GetBootstrapData ms) in
  let! m := get in
  let! (interfaces, ipFamily) :=
    wrap "building interface requests: " (of_res (buildInterfaceRequests ms m)) in
  let req := serverRequest ms m bootstrapData interfaces ipFamily in
  let! r := try (sdk_Create (Servers (mscope_Client ms)) CServer Server_UUID req) in
  match r with
  | Err e =>
      if IsTimeoutError e then ret (requeue 30, None) else throw (wrapError "creating server: " e)
  | Ok server =>
      modify (set_server (Server_UUID server)) ;;!
      Eventf "Normal" "ServerCreated" "CreateServer"
        ("Created server " +:+ Server_UUID server +:+ " in zone " +:+ ServerRequest_Zone req) ;;!
      adoptServer server
  end.

(** The result, and the server the deferred function sees. *)
Definition reconcileServerBody ms : MM (Result * option Server) :=
  let! m := get in
  if serverID m != "" then
    let! r := try (sdk_Get KServer (Servers (mscope_Client ms)) (serverID m)) in
    match r with
    | Ok server => adoptServer server
    | Err e =>
        if IsNotFound e then
          modify (setCondition ServerReadyCondition ConditionFalse ServerDeletedExternallyReason
                    ("Server " +:+ serverID m +:+ " was deleted outside of CAPI")) ;;!
          ret (emptyResult, None)
        else throw (wrapError "getting server: " e)
    end
  else
    let! servers := wrap "listing servers: "
                      (sdk_List KServer (Servers (mscope_Client ms)) Server_UUID (machineLookupTag ms m)) in
    match servers with
    | [] => createServer ms
    | [server] => modify (set_server (Server_UUID server)) ;;! adoptServer server
    | _ =>
        throw (errorString ("found " +:+ itoa (Z.of_nat (length servers))
                            +:+ " servers matching tag filter, expected at most 1"))
    end.

Definition reconcileServer ms : MM Result :=
  let! (result, _) :=
    deferred (λ r, match r with
                   | Err e => setCondition ServerReadyCondition ConditionFalse ServerErrorReason (Error e)
                   | Ok (_, Some server) => setServerStatusCondition server
                   | Ok (_, None) => id
                   end)
      (reconcileServerBody ms) in
  ret result.

Definition deleteServerBody ms : MM unit :=
  let! m := get in
  if serverID m == "" then ret ()
  else
    let! r := try (sdk_Delete KServer (Servers (mscope_Client ms)) (serverID m)) in
    (match r with
     | Err e => if negb (IsNotFound e) then throw (wrapError "deleting server: " e) else ret ()
     | Ok _ => ret ()
     end) ;;!
    Eventf "Normal" "ServerDeleted" "DeleteServer" ("Deleted server " +:+ serverID m) ;;!
    modify (set_server "").

Definition deleteServer ms : MM unit :=
  deferred (λ r, match r with
                 | Err e => setCondition ServerReadyCondition ConditionFalse ServerErrorReason (Error e)
                 | Ok _ => setCondition ServerReadyCondition ConditionFalse ServerDeletingReason
                             "Server has been deleted"
                 end)
    (deleteServerBody ms).

(** ** The reconcile *)

Definition setProvisioned m : CloudscaleMachine :=
  if mIsTrue m ServerReadyCondition then
    upd_mstatus (set_CloudscaleMachineStatus_Initialization
                   (Some (mkMachineInitializationStatus (Some true)))) m
  else m.

Definition reconcileNormalBody ms : MM Result :=
  match Machine_DataSecretName (mscope_Machine ms) with
  | None =>
      modify (setCondition ServerReadyCondition ConditionFalse WaitingForBootstrapDataReason
                "Waiting for bootstrap data to be available") ;;!
      ret emptyResult
  | Some _ =>
      let! m := get in
      let? _ := (match CloudscaleMachineSpec_ServerGroup (mspec m) with
                 | Some _ => returning (reconcileServerGroup ms)
                 | None => ret (Next ())
                 end) in
      let! result := wrap "reconciling server: " (reconcileServer ms) in
      modify setProvisioned ;;!
      ret result
  end.

Definition reconcileNormal ms : MM Result := deferred (λ _, setReadyCondition) (reconcileNormalBody ms).

Definition upd_mfinalizers (f : list string → list string) m : CloudscaleMachine :=
  let meta := CloudscaleMachine_Meta m in
  set_CloudscaleMachine_Meta (set_ObjectMeta_Finalizers (f (ObjectMeta_Finalizers meta)) meta) m.

Definition reconcileDelete ms : MM Result :=
  modify (setCondition DeletingCondition ConditionTrue DeletingReason "Deleting server") ;;!
  wrap "deleting server: " (deleteServer ms) ;;!
  modify deleteServerGroup ;;!
  modify (setCondition ReadyCondition ConditionFalse DeletingReason
            "Machine infrastructure has been deleted") ;;!
  modify (upd_mfinalizers (RemoveFinalizer MachineFinalizer)) ;;!
  ret emptyResult.

(** The deferred patch. *)
Definition closing (snapshot : CloudscaleMachine) (body : MM Result) : MM Result := λ s,
  let '(r, s1) := body s in
  let ok := match r with Ok _ => true | Err _ => false end in
  let '(p, s2) := MachineScope_Close snapshot (obj s1) ok s1 in
  (match r, p with Ok _, Err e => Err e | _, _ => r end, s2).

Definition clusterProvisioned (c : CloudscaleCluster) : bool :=
  match CloudscaleClusterStatus_Initialization (status c) with
  | Some i => default false (ClusterInitializationStatus_Provisioned i)
  | None => false
  end.

(** With the machine's owner and cluster found. *)
Definition reconcileOwned (machine : Machine) (cluster : Cluster) : MM Result :=
  let! m := get in
  let meta := CloudscaleMachine_Meta m in
  if annotations_IsPaused cluster meta then
    modify (setCondition PausedCondition ConditionTrue PausedReason "") ;;!
    ret emptyResult
  else
    modify (λ m, set_mconditions (conditions_delete PausedCondition (mconditions m)) m) ;;!
    let key := (Cluster_InfrastructureRef_Name cluster, ObjectMeta_Namespace meta) in
    let! r := try (call (kube_GetCloudscaleCluster key) (λ r, EKubeGet key (void r))) in
    match r with
    | Err _ => ret emptyResult
    | Ok cc =>
        if negb (clusterProvisioned cc) then
          modify (setCondition ServerReadyCondition ConditionFalse WaitingForClusterInfrastructureReason
                    "Waiting for cluster infrastructure to be provisioned") ;;!
          modify setReadyCondition ;;!
          ret emptyResult
        else
          let! token := wrap "failed to get cloudscale.ch credentials: "
                          (GetToken (CredentialsSecretRef cc) (ObjectMeta_Namespace (CloudscaleCluster_Meta cc))) in
          let! snapshot := get in
          let! ms := wrap "failed to create machine scope: "
                       (NewMachineScope cluster machine cc (NewClient token) snapshot) in
          closing snapshot
            (match ObjectMeta_DeletionTimestamp (CloudscaleMachine_Meta snapshot) with
             | Some _ => reconcileDelete ms
             | None =>
                 (if negb (ContainsFinalizer (ObjectMeta_Finalizers (CloudscaleMachine_Meta snapshot))
                             MachineFinalizer)
                  then modify (upd_mfinalizers (AddFinalizer MachineFinalizer)) else ret ()) ;;!
                 reconcileNormal ms
             end)
    end.

Definition Reconcile (req : string * string) : GoM World Event unit Result :=
  let! r := try (call (kube_GetCloudscaleMachine req) (λ r, EKubeGet req (void r))) in
  match r with
  | Err e => if apierrors_IsNotFound e then ret emptyResult else throw e
  | Ok m =>
      let! owner := call (util_GetOwnerMachine (CloudscaleMachine_Meta m)) (λ r, EKubeGet req (void r)) in
      match owner with
      | None => ret emptyResult
      | Some machine =>
          let! r := try (call (util_GetClusterFromMetadata machine) (λ r, EKubeGet req (void r))) in
          match r with
          | Err _ => ret emptyResult
          | Ok cluster => with_obj m (reconcileOwned machine cluster)
          end
      end
  end.

(** ** Mapping of cluster events to machines *)

Definition cloudscaleClusterToCloudscaleMachines (o : option CloudscaleCluster)
    (owner : ObjectMeta → Res (option Cluster))
    (list_machines : string → gmap string string → Res (list Machine)) : list (string * string) :=
  match o with
  | None => []
  | Some c =>
      match ObjectMeta_DeletionTimestamp (CloudscaleCluster_Meta c) with
      | Some _ => []
      | None =>
          match owner (CloudscaleCluster_Meta c) with
          | Ok (Some cluster) =>
              match list_machines (Cluster_Namespace cluster) {[ ClusterNameLabel := Cluster_Name cluster ]} with
              | Err _ => []
              | Ok machines =>
                  (λ x : Machine, (Machine_InfrastructureRef_Name x, Machine_Namespace x)) <$>
                    filter (λ x : Machine, Machine_InfrastructureRef_Kind x = "CloudscaleMachine") machines
              end
          | _ => []
          end
      end
  end.
End machine.

(** ** Theorems *)

Section machine_theorems.
Context `{P : Platform}.
Implicit Types (ms : MachineScope) (m : CloudscaleMachine) (s : MState).

(** *** Conditions *)

Lemma mconditionOf_set_eq t st rs msg m :
  mconditionOf (setCondition t st rs msg m) t = Some (mkCondition t st rs msg).
Proof. apply (conditions_get_set_eq (mkCondition t st rs msg)). Qed.

Lemma mconditionOf_set_ne t t' st rs msg m :
  t' ≠ t → mconditionOf (setCondition t st rs msg m) t' = mconditionOf m t'.
Proof. intros. by apply (conditions_get_set_ne (mkCondition t st rs msg)). Qed.

Lemma mIsTrue_set_eq t st rs msg m :
  mIsTrue (setCondition t st rs msg m) t = bool_decide (st = ConditionTrue).
Proof. unfold mIsTrue. by rewrite mconditionOf_set_eq. Qed.

Lemma mIsTrue_set_ne t t' st rs msg m :
  t' ≠ t → mIsTrue (setCondition t st rs msg m) t' = mIsTrue m t'.
Proof. intros. unfold mIsTrue. by rewrite mconditionOf_set_ne. Qed.

(** Deriving the Ready condition sets that condition and no other. *)
Lemma setReadyCondition_is m : ∃ st rs msg,
  setReadyCondition m = setCondition ReadyCondition st rs msg m ∧
  bool_decide (st = ConditionTrue) = mIsTrue m ServerReadyCondition.
Proof.
  unfold setReadyCondition, readyFrom. destruct (mIsTrue m ServerReadyCondition); simpl.
  - by eexists _, _, _.
  - destruct (mconditionOf m ServerReadyCondition); by eexists _, _, _.
Qed.

Lemma setServerStatusCondition_is server m : ∃ st rs msg,
  setServerStatusCondition server m = setCondition ServerReadyCondition st rs msg m ∧
  bool_decide (st = ConditionTrue) = (Server_Status server == ServerStatusRunning).
Proof.
  unfold setServerStatusCondition. destruct (decide (Server_Status server = ServerStatusRunning)) as [->|Hne].
  - by eexists _, _, _.
  - rewrite (bool_decide_eq_false_2 (Server_Status server = ServerStatusRunning)) by done.
    repeat case_match; by eexists _, _, _.
Qed.

(** An observation that conditions do not affect. *)
Definition condition_free {B} (f : CloudscaleMachine → B) : Prop :=
  ∀ cs m, f (set_mconditions cs m) = f m.

Lemma setServerStatusCondition_free {B} (f : CloudscaleMachine → B) server m :
  condition_free f → f (setServerStatusCondition server m) = f m.
Proof. intros Hf. destruct (setServerStatusCondition_is server m) as (? & ? & ? & -> & _). apply Hf. Qed.

Lemma setReadyCondition_free {B} (f : CloudscaleMachine → B) m :
  condition_free f → f (setReadyCondition m) = f m.
Proof. intros Hf. destruct (setReadyCondition_is m) as (? & ? & ? & -> & _). apply Hf. Qed.

(** *** The server of a machine *)

(** The identifier the machine records for a server. *)
Definition recordedID m (server : Server) : string :=
  if serverID m == "" then Server_UUID server else serverID m.

(** The machine shows the server: identifier, provider ID, addresses, readiness. *)
Definition follows (server : Server) m m' : Prop :=
  serverID m' = recordedID m server ∧
  GetProviderID m' = "cloudscale://" +:+ Server_UUID server ∧
  CloudscaleMachineStatus_Addresses (mstatus m') = mjoin (interfaceAddresses <$> Server_Interfaces server) ∧
  mIsTrue m' ServerReadyCondition = (Server_Status server == ServerStatusRunning).

Definition create_request ms m (req : ServerRequest) : Prop :=
  ∃ data ifaces ipFamily, buildInterfaceRequests ms m = Ok (ifaces, ipFamily) ∧
    req = serverRequest ms m data ifaces ipFamily.

(** How the reconcile came by a server: the recorded one was read, the only one
    with the machine's tag was found, or there was none and one was created. *)
Inductive sighting ms m : list Event → Server → Prop :=
  | seen_recorded server w w' :
      serverID m ≠ "" → svc_Get (Servers (mscope_Client ms)) (serverID m) w = (Ok server, w') →
      sighting ms m [EGet KServer (serverID m) (Ok ())] server
  | seen_tagged server w w' :
      serverID m = "" → svc_List (Servers (mscope_Client ms)) (machineLookupTag ms m) w = (Ok [server], w') →
      sighting ms m [EList KServer (machineLookupTag ms m) (Ok [Server_UUID server])] server
  | seen_created server req key note w w' :
      serverID m = "" → create_request ms m req →
      svc_Create (Servers (mscope_Client ms)) req w = (Ok server, w') →
      sighting ms m
        [EList KServer (machineLookupTag ms m) (Ok []); EKubeGet key (Ok ());
         ECreate (CServer req) (Ok (Server_UUID server));
         ERecorder "Normal" "ServerCreated" "CreateServer" note] server.

(** A call that left no server behind that the provider has confirmed. *)
Definition no_server_created ms m (e : Event) : Prop :=
  is_read e ∨ ∃ req e', e = ECreate (CServer req) (Err e') ∧ create_request ms m req.

(** What a run of [reconcileServer] may do, by its outcome. *)
Inductive server_outcome ms m : list Event → Res Result → CloudscaleMachine → Prop :=
  | server_followed evs server m' :
      sighting ms m evs server → follows server m m' →
      server_outcome ms m evs
        (Ok (if Server_Status server == ServerStatusChanging then ServerStatusPollInterval else emptyResult)) m'
  | server_gone e m' :
      serverID m ≠ "" → IsNotFound e = true →
      serverID m' = serverID m → GetProviderID m' = GetProviderID m →
      mconditionOf m' ServerReadyCondition =
        Some (mkCondition ServerReadyCondition ConditionFalse ServerDeletedExternallyReason
                ("Server " +:+ serverID m +:+ " was deleted outside of CAPI")) →
      server_outcome ms m [EGet KServer (serverID m) (Err e)] (Ok emptyResult) m'
  | server_pending key req e :
      serverID m = "" → create_request ms m req → IsTimeoutError e = true →
      server_outcome ms m
        [EList KServer (machineLookupTag ms m) (Ok []); EKubeGet key (Ok ()); ECreate (CServer req) (Err e)]
        (Ok (requeue 30)) m
  | server_failed evs e m' :
      Forall (no_server_created ms m) evs →
      serverID m' = serverID m → GetProviderID m' = GetProviderID m →
      mconditionOf m' ServerReadyCondition =
        Some (mkCondition ServerReadyCondition ConditionFalse ServerErrorReason (Error e)) →
      server_outcome ms m evs (Err e) m'.

Lemma follows_adopted server m0 m :
  serverID m = recordedID m0 server →
  follows server m0 (setServerStatusCondition server (updateMachineFromServer server m)).
Proof.
  intros Hid. destruct (setServerStatusCondition_is server (updateMachineFromServer server m))
    as (st & rs & msg & -> & Hst).
  split_and!; [exact Hid|done|done|]. by rewrite mIsTrue_set_eq.
Qed.
End machine_theorems.

Section server_theorems.
Context `{P : Platform}.
Implicit Types (ms : MachineScope) (m : CloudscaleMachine) (s : MState).

Lemma server_failed_now ms m evs e :
  Forall (no_server_created ms m) evs →
  server_outcome ms m evs (Err e)
    (setCondition ServerReadyCondition ConditionFalse ServerErrorReason (Error e) m).
Proof. intros HF. by apply server_failed; [| | |apply mconditionOf_set_eq]. Qed.

Lemma GetBootstrapData_run ms s :
  ∃ r w evs, GetBootstrapData ms s = (r, mkSt (obj s) w (log s ++ evs)) ∧
    Forall is_read evs ∧ (∀ d, r = Ok d → ∃ key, evs = [EKubeGet key (Ok ())]).
Proof.
  unfold GetBootstrapData. destruct (Machine_DataSecretName _) as [name|].
  2:{ eexists _, (world s), []. rewrite app_nil_r. by destruct s. }
  go_run. destruct (kube_GetSecret _ _) as [[data|e] w]; simpl; [destruct (data !! "value")|];
    (eexists _, _, _; split; [reflexivity|]; split; [go_forall|naive_solver]).
Qed.

(** The deferred function of [reconcileServer]. *)
Definition afterServer (r : Res (Result * option Server)) : CloudscaleMachine → CloudscaleMachine :=
  match r with
  | Err e => setCondition ServerReadyCondition ConditionFalse ServerErrorReason (Error e)
  | Ok (_, Some server) => setServerStatusCondition server
  | Ok (_, None) => id
  end.

(** Creating the server, after the listing came back empty. *)
Lemma createServer_outcome ms s :
  serverID (obj s) = "" →
  ∃ r s1 evs, createServer ms s = (r, s1) ∧ log s1 = log s ++ evs ∧
    server_outcome ms (obj s) (EList KServer (machineLookupTag ms (obj s)) (Ok []) :: evs)
      (res_map fst r) (afterServer r (obj s1)).
Proof.
  intros Hid. destruct (GetBootstrapData_run ms s) as (r & w & evs & E & HF & Hr).
  assert (Forall (no_server_created ms (obj s))
            (EList KServer (machineLookupTag ms (obj s)) (Ok []) :: evs)) as HF'.
  { constructor; [by left|]. eapply Forall_impl; [exact HF|]. by left. }
  unfold createServer, wrap, bind. rewrite E. simpl.
  destruct r as [data|e]; [|by eexists _, _, evs; split; [reflexivity|]; split; [done|]; apply server_failed_now].
  destruct (Hr _ eq_refl) as [key ->]. clear Hr E. unfold get, of_res. simpl.
  destruct (buildInterfaceRequests ms (obj s)) as [[ifaces ipFamily]|e] eqn:Eb; simpl;
    [|by eexists _, _, _; split; [reflexivity|]; split; [done|]; apply server_failed_now].
  set (req := serverRequest _ _ _ _ _).
  assert (create_request ms (obj s) req) as Hreq by by exists data, ifaces, ipFamily.
  unfold sdk_Create, try, call. simpl.
  destruct (svc_Create _ _ _) as [[server|e] w'] eqn:Ec; simpl.
  - eexists _, _, _. split; [reflexivity|]. simpl. split; [by rewrite <- !app_assoc|].
    apply server_followed; [by eapply seen_created|].
    apply follows_adopted. unfold recordedID. by rewrite bool_decide_eq_true_2.
  - destruct (IsTimeoutError e) eqn:Et; simpl; (eexists _, _, _; split; [reflexivity|]);
      simpl; (split; [by rewrite <- !app_assoc|]).
    + by apply server_pending.
    + apply server_failed_now. inversion_clear HF'. constructor; [done|].
      constructor; [by left|]. constructor; [|done]. right. by exists req, e.
Qed.

Lemma reconcileServer_run ms s :
  reconcileServer ms s =
    let '(r, s1) := reconcileServerBody ms s in
    (res_map fst r, mkSt (afterServer r (obj s1)) (world s1) (log s1)).
Proof.
  unfold reconcileServer, deferred, bind, afterServer.
  destruct (reconcileServerBody ms s) as [[[res [server|]]|e] s1]; done.
Qed.

Lemma reconcileServerBody_outcome ms s :
  ∃ r s1 evs, reconcileServerBody ms s = (r, s1) ∧ log s1 = log s ++ evs ∧
    server_outcome ms (obj s) evs (res_map fst r) (afterServer r (obj s1)).
Proof.
  unfold reconcileServerBody. rewrite bind_get.
  destruct (serverID (obj s) == "") eqn:Hid; go_bools; simpl.
  - unfold wrap, sdk_List, call, bind.
    destruct (svc_List _ _ _) as [[servers|e] w] eqn:El; simpl.
    2:{ eexists _, _, _. split; [reflexivity|]. split; [done|]. apply server_failed_now. go_forall; by left. }
    destruct servers as [|server [|server' servers]]; simpl.
    + edestruct (createServer_outcome ms (mkSt (obj s) w
        (log s ++ [EList KServer (machineLookupTag ms (obj s)) (Ok [])])) Hid)
        as (r & s1 & evs & E & Hl & Ho). rewrite E. simpl in Hl.
      eexists _, _, _. split; [reflexivity|]. split; [|exact Ho]. by rewrite Hl, <- app_assoc.
    + eexists _, _, _. split; [reflexivity|]. split; [done|].
      apply server_followed; [by eapply seen_tagged|].
      apply follows_adopted. unfold recordedID. by rewrite bool_decide_eq_true_2.
    + eexists _, _, _. split; [reflexivity|]. split; [done|]. apply server_failed_now. go_forall; by left.
  - unfold sdk_Get, try, call, bind. simpl.
    destruct (svc_Get _ _ _) as [[server|e] w] eqn:Eg; simpl.
    + eexists _, _, _. split; [reflexivity|]. split; [done|].
      apply server_followed; [by eapply seen_recorded|].
      apply follows_adopted. unfold recordedID. by rewrite bool_decide_eq_false_2.
    + destruct (IsNotFound e) eqn:En; simpl; (eexists _, _, _; split; [reflexivity|]; split; [done|]).
      * apply server_gone; [done..|]. apply mconditionOf_set_eq.
      * apply server_failed_now. go_forall; by left.
Qed.

Lemma reconcileServer_spec ms :
  post (reconcileServer ms) (λ s r s',
    ∃ evs, log s' = log s ++ evs ∧ server_outcome ms (obj s) evs r (obj s')).
Proof.
  intros s. unfold result, exec. rewrite reconcileServer_run.
  destruct (reconcileServerBody_outcome ms s) as (r & s1 & evs & -> & Hl & Ho). by exists evs.
Qed.
End server_theorems.

(** ** At most one server *)

Section one_server.
Context `{P : Platform}.
Context (ms : MachineScope).
Abbreviation svc := (Servers (mscope_Client ms)).
Context {HS : TaggedService svc Server_UUID ServerRequest_Tags}.
Implicit Types (m : CloudscaleMachine) (s : MState) (w : World).

Definition live_servers w : list (Server * TagMap) := live svc Server_UUID w.

(** Reading a Kubernetes secret creates no server. *)
Context (secret_live : ∀ key w, live_servers (snd (kube_GetSecret key w)) = live_servers w).

(** The servers a step added: none, or one with these tags while there was none
    that carries the filter. *)
Definition grows (filter_tags tags : TagMap) w w' : Prop :=
  live_servers w' ≡ₚ live_servers w ∨
  owned svc Server_UUID filter_tags w = 0 ∧
  ∃ x, live_servers w' ≡ₚ (x, tags) :: live_servers w.

Lemma GetBootstrapData_live s :
  live_servers (world (exec (GetBootstrapData ms) s)) = live_servers (world s).
Proof.
  unfold GetBootstrapData, exec. destruct (Machine_DataSecretName _) as [name|]; [|done].
  go_run. set (k := (name, _)). specialize (secret_live k (world s)).
  destruct (kube_GetSecret k (world s)) as [[data|e] w]; simpl in *; [|done].
  by destruct (data !! "value").
Qed.

Lemma createServer_grows s :
  owned svc Server_UUID (machineLookupTag ms (obj s)) (world s) = 0 →
  grows (machineLookupTag ms (obj s)) (machineCreateTags ms (obj s)) (world s)
    (world (exec (createServer ms) s)).
Proof.
  intros H0. pose proof (GetBootstrapData_live s) as Hl.
  destruct (GetBootstrapData_run ms s) as (r & w & evs & E & _ & _).
  unfold exec, createServer, wrap, bind, get, of_res, try, sdk_Create, call in *.
  rewrite E in Hl |- *. simpl in *.
  destruct r as [data|e]; simpl; [|left; by rewrite Hl].
  destruct (buildInterfaceRequests ms (obj s)) as [[ifaces ipFamily]|e]; simpl; [|left; by rewrite Hl].
  set (req := serverRequest _ _ _ _ _).
  pose proof (live_create svc Server_UUID req w) as Hc.
  fold (live_servers w) in Hc. rewrite Hl in Hc.
  assert (grows (machineLookupTag ms (obj s)) (machineCreateTags ms (obj s)) (world s)
            (snd (svc_Create svc req w))) as Hg.
  { destruct Hc as [Hc|[x Hc]]; [by left|]. right. split; [done|]. by exists x. }
  destruct (svc_Create svc req w) as [[server|e] w']; simpl in *; [done|].
  by destruct (IsTimeoutError e).
Qed.

Lemma reconcileServer_grows s :
  grows (machineLookupTag ms (obj s)) (machineCreateTags ms (obj s)) (world s)
    (world (exec (reconcileServer ms) s)).
Proof.
  unfold exec. rewrite reconcileServer_run.
  assert (∀ w', live_servers w' = live_servers (world s) →
    grows (machineLookupTag ms (obj s)) (machineCreateTags ms (obj s)) (world s) w') as Hsame.
  { intros w' E. left. by rewrite E. }
  unfold reconcileServerBody. rewrite bind_get. destruct (serverID (obj s) == ""); simpl.
  - unfold wrap, sdk_List, call, bind.
    pose proof (live_list svc Server_UUID (machineLookupTag ms (obj s)) (world s)) as Hl.
    pose proof (live_list_ok svc Server_UUID (machineLookupTag ms (obj s)) (world s)) as Hok.
    destruct (svc_List _ _ _) as [[servers|e] w]; simpl in *; [|by apply Hsame].
    destruct servers as [|server [|server' servers]]; simpl; [|by apply Hsame..].
    specialize (Hok _ eq_refl). apply Permutation_nil_l in Hok.
    assert (owned svc Server_UUID (machineLookupTag ms (obj s)) w = 0) as H0.
    { unfold owned. rewrite Hl. by destruct (filter _ _). }
    pose proof (createServer_grows (mkSt (obj s) w
      (log s ++ [EList KServer (machineLookupTag ms (obj s)) (Ok [])])) H0) as Hg.
    unfold exec in Hg. destruct (createServer ms _) as [r s1]; simpl in *.
    unfold grows, owned, live_servers in *. by rewrite Hl in Hg.
  - unfold sdk_Get, try, call, bind. simpl.
    pose proof (live_get svc Server_UUID (serverID (obj s)) (world s)) as Hl.
    destruct (svc_Get _ _ _) as [[server|e] w]; simpl in *; [by apply Hsame|].
    destruct (IsNotFound e); by apply Hsame.
Qed.

(** Any number of attempts, from any versions of the machine object: after a
    restart, with the recorded identifier lost, after a lost answer. *)
Fixpoint attempts (objects : list CloudscaleMachine) w : World :=
  match objects with
  | [] => w
  | m :: objects => attempts objects (world (exec (reconcileServer ms) (mkSt m w [])))
  end.

Lemma owned_grows filter_tags tags w w' :
  filter_tags ⊆ tags → grows filter_tags tags w w' →
  owned svc Server_UUID filter_tags w ≤ 1 →
  owned svc Server_UUID filter_tags w' ≤ 1 ∧
  length (live_servers w') + owned svc Server_UUID filter_tags w =
    length (live_servers w) + owned svc Server_UUID filter_tags w'.
Proof.
  unfold grows, owned. intros Ht Hg H1. fold (live_servers w) (live_servers w') in *.
  destruct Hg as [->|[H0 [x ->]]]; [lia|].
  rewrite filter_cons_True by done. csimpl. set (n := length (filter _ _)) in *. assert (n = 0) by exact H0. lia.
Qed.

Lemma attempts_one name objects w :
  let tag := {[ MachineTagKey (Cluster_Name (mscope_Cluster ms)) :=
                  Cluster_Namespace (mscope_Cluster ms) +:+ "/" +:+ Cluster_Name (mscope_Cluster ms)
                  +:+ "/" +:+ name ]} in
  Forall (λ m, machineName m = name ∧ tag ⊆ machineCreateTags ms m) objects →
  owned svc Server_UUID tag w ≤ 1 →
  owned svc Server_UUID tag (attempts objects w) ≤ 1 ∧
  length (live_servers (attempts objects w)) + owned svc Server_UUID tag w =
    length (live_servers w) + owned svc Server_UUID tag (attempts objects w).
Proof.
  intros tag Hall. revert w. induction Hall as [|m objects [Hn Ht] Hall IH]; intros w Hw; simpl; [done|].
  pose proof (reconcileServer_grows (mkSt m w [])) as Hg. simpl in Hg.
  assert (machineLookupTag ms m = tag) as Hm by (unfold machineLookupTag; by rewrite Hn).
  rewrite Hm in Hg. apply owned_grows in Hg as [H1 H2]; [|done..].
  destruct (IH _ H1). lia.
Qed.
End one_server.

(** ** The server group *)

Section group_theorems.
Context `{P : Platform}.
Implicit Types (ms : MachineScope) (m : CloudscaleMachine) (s : MState).

Lemma findGroup_Some name zone groups g :
  findGroup name zone groups = Some g →
  g ∈ groups ∧ ServerGroup_Name g = name ∧ ServerGroup_Zone g = zone.
Proof.
  induction groups as [|x groups IH]; simpl; [done|].
  destruct (_ && _) eqn:E; [|intros H; split_and!; [right|..]; by apply IH].
  intros; simplify_eq. go_bools. split_and!; [by left|done..].
Qed.

Lemma findGroup_None name zone groups g :
  findGroup name zone groups = None → g ∈ groups →
  ¬ (ServerGroup_Name g = name ∧ ServerGroup_Zone g = zone).
Proof.
  induction groups as [|x groups IH]; simpl; [by intros _ ?%not_elem_of_nil|].
  destruct (_ && _) eqn:E; [done|]. intros H [->|Hg]%elem_of_cons; [|by apply IH].
  intros [<- <-]. by rewrite !bool_decide_eq_true_2 in E.
Qed.

Definition groupRequest ms (name : string) : ServerGroupRequest :=
  mkServerGroupRequest name "anti-affinity"
    (CloudscaleClusterSpec_Zone (spec (mscope_CloudscaleCluster ms)))
    (clusterOwnershipTags (mscope_CloudscaleCluster ms)).

(** The groups the listing by the cluster's tags returned. *)
Definition listed_groups ms (groups : list ServerGroup) : Prop :=
  ∃ w w', svc_List (ServerGroups (mscope_Client ms))
            (clusterOwnershipTags (mscope_CloudscaleCluster ms)) w = (Ok groups, w').
Definition groups_event ms (groups : list ServerGroup) : Event :=
  EGroupList (clusterOwnershipTags (mscope_CloudscaleCluster ms)) (Ok groups).

(** What a run may do for the group [name], by its outcome: the calls, the result
    and the identifier in status afterwards. *)
Inductive group_outcome ms m (name : string) : list Event → Res Result → string → Prop :=
  | group_kept :
      groupID m ≠ "" →
      group_outcome ms m name [EGet KServerGroup (groupID m) (Ok ())] (Ok emptyResult) (groupID m)
  | group_found pre groups g :
      not_found_by_id KServerGroup (groupID m) pre → listed_groups ms groups →
      g ∈ groups → ServerGroup_Name g = name →
      ServerGroup_Zone g = CloudscaleClusterSpec_Zone (spec (mscope_CloudscaleCluster ms)) →
      group_outcome ms m name (pre ++ [groups_event ms groups]) (Ok emptyResult) (ServerGroup_UUID g)
  | group_created pre groups id :
      not_found_by_id KServerGroup (groupID m) pre → listed_groups ms groups →
      (∀ g, g ∈ groups → ¬ (ServerGroup_Name g = name ∧
         ServerGroup_Zone g = CloudscaleClusterSpec_Zone (spec (mscope_CloudscaleCluster ms)))) →
      group_outcome ms m name
        (pre ++ [groups_event ms groups; ECreate (CServerGroup (groupRequest ms name)) (Ok id)])
        (Ok emptyResult) id
  | group_pending pre groups e :
      not_found_by_id KServerGroup (groupID m) pre → listed_groups ms groups →
      (∀ g, g ∈ groups → ¬ (ServerGroup_Name g = name ∧
         ServerGroup_Zone g = CloudscaleClusterSpec_Zone (spec (mscope_CloudscaleCluster ms)))) →
      IsTimeoutError e = true →
      group_outcome ms m name
        (pre ++ [groups_event ms groups; ECreate (CServerGroup (groupRequest ms name)) (Err e)])
        (Ok (requeue 5)) ""
  | group_failed evs e id :
      Forall (λ ev, is_read ev ∨ ∃ e', ev = ECreate (CServerGroup (groupRequest ms name)) (Err e')) evs →
      id = groupID m ∨ id = "" → group_outcome ms m name evs (Err e) id.

(** The section under the mutex, entered with no identifier in status. *)
Lemma listOrCreateGroup_outcome ms m name pre s :
  not_found_by_id KServerGroup (groupID m) pre → groupID (obj s) = "" →
  ∃ r s1 evs, listOrCreateGroup ms name s = (r, s1) ∧ log s1 = log s ++ evs ∧
    group_outcome ms m name (pre ++ evs) r (groupID (obj s1)).
Proof.
  intros Hpre Hid.
  assert (Forall (λ ev, is_read ev ∨ ∃ e', ev = ECreate (CServerGroup (groupRequest ms name)) (Err e')) pre) as HFp.
  { destruct Hpre as [[_ ->]|(_ & e & _ & ->)]; [constructor|go_forall; by left]. }
  unfold listOrCreateGroup, wrap, bind, sdk_ListGroups, sdk_Create, try, call, modify, ret, throw. simpl.
  destruct (svc_List _ _ (world s)) as [[groups|e] w] eqn:El; simpl.
  2:{ eexists _, _, _. split; [reflexivity|]. split; [done|].
      apply group_failed; [go_forall; by left|by right]. }
  assert (listed_groups ms groups) as Hlist by by exists (world s), w.
  destruct (findGroup _ _ groups) as [g|] eqn:Ef; simpl.
  { apply findGroup_Some in Ef as (Hg & Hn & Hz).
    eexists _, _, _. split; [reflexivity|]. split; [done|]. by eapply group_found. }
  fold (groupRequest ms name).
  destruct (svc_Create _ _ w) as [[group|e] w'] eqn:Ec; simpl.
  - eexists _, _, _. split; [reflexivity|]. simpl. split; [by rewrite <- !app_assoc|].
    apply group_created; [done|done|]. intros g Hg. by eapply findGroup_None.
  - destruct (IsTimeoutError e) eqn:Et; simpl; eexists _, _, _; (split; [reflexivity|]);
      simpl; (split; [by rewrite <- !app_assoc|]).
    + rewrite Hid. apply group_pending; [done..| |done]. intros g Hg. by eapply findGroup_None.
    + apply group_failed; [|by right]. go_forall; [by left|]. right. by exists e.
Qed.

Lemma reconcileServerGroupBody_outcome ms g s :
  CloudscaleMachineSpec_ServerGroup (mspec (obj s)) = Some g →
  ∃ r s1 evs, reconcileServerGroupBody ms s = (r, s1) ∧ log s1 = log s ++ evs ∧
    group_outcome ms (obj s) (ServerGroupSpec_Name g) evs r (groupID (obj s1)).
Proof.
  intros Hg. unfold reconcileServerGroupBody. rewrite bind_get, Hg.
  destruct (groupID (obj s) == "") eqn:Hid; go_bools; simpl.
  { apply (listOrCreateGroup_outcome ms (obj s) (ServerGroupSpec_Name g) []); [by left|done]. }
  unfold sdk_Get, try, call, bind. simpl.
  destruct (svc_Get _ _ _) as [[x|e] w] eqn:Eg; simpl.
  { eexists _, _, _. split; [reflexivity|]. split; [done|]. by apply group_kept. }
  destruct (IsNotFound e) eqn:En; simpl.
  - unfold modify. simpl. set (s2 := mkSt (set_group "" (obj s)) _ _).
    destruct (listOrCreateGroup_outcome ms (obj s) (ServerGroupSpec_Name g)
      [EGet KServerGroup (groupID (obj s)) (Err e)] s2) as (r & s1 & evs & E & Hl & Ho); [by right; eauto|done|].
    exists r, s1, (EGet KServerGroup (groupID (obj s)) (Err e) :: evs).
    rewrite E. split; [done|]. split; [|exact Ho]. subst s2. simpl in Hl. by rewrite Hl, <- app_assoc.
  - eexists _, _, _. split; [reflexivity|]. split; [done|]. apply group_failed; [go_forall; by left|by left].
Qed.

Lemma reconcileServerGroup_spec ms s g :
  CloudscaleMachineSpec_ServerGroup (mspec (obj s)) = Some g →
  let r := result (reconcileServerGroup ms) s in let s' := exec (reconcileServerGroup ms) s in
  (∃ evs, log s' = log s ++ evs ∧
     group_outcome ms (obj s) (ServerGroupSpec_Name g) evs r (groupID (obj s'))) ∧
  mIsTrue (obj s') ServerGroupReadyCondition = match r with Ok _ => true | Err _ => false end.
Proof.
  intros Hg. destruct (reconcileServerGroupBody_outcome ms g s Hg) as (r & s1 & evs & E & Hl & Ho).
  unfold reconcileServerGroup, result, exec, deferred. rewrite E. simpl.
  destruct r; (split; [by exists evs|apply mIsTrue_set_eq]).
Qed.
End group_theorems.

(** ** Interfaces, readiness and deletion *)

Section normal_theorems.
Context `{P : Platform}.
Implicit Types (ms : MachineScope) (m : CloudscaleMachine) (s : MState).

(** *** The interfaces of the request *)

Definition public (i : InterfaceSpec) : Prop := InterfaceSpec_Type i = InterfaceTypePublic.

(** The network requested for an interface of the spec. *)
Inductive requests_network (c : CloudscaleCluster) : InterfaceSpec → string → Prop :=
  | requests_public i : public i → requests_network c i InterfaceTypePublic
  | requests_private i ns :
      ¬ public i → InterfaceSpec_Network i ≠ "" →
      GetNetworkStatus (status c) (InterfaceSpec_Network i) = Some ns → NetworkStatus_NetworkID ns ≠ "" →
      requests_network c i (NetworkStatus_NetworkID ns).

(** The IP family of the last public interface. *)
Definition lastPublicFamily (ifaces : list InterfaceSpec) (start : option string) : option string :=
  foldl (λ acc i, if InterfaceSpec_Type i == InterfaceTypePublic then InterfaceSpec_IPFamily i else acc)
    start ifaces.

Lemma interfaceRequests_spec c ifaces acc fam reqs fam' :
  interfaceRequests c ifaces (acc, fam) = Ok (reqs, fam') ↔
  ∃ reqs', reqs = acc ++ reqs' ∧ Forall2 (requests_network c) ifaces reqs' ∧
    fam' = lastPublicFamily ifaces fam.
Proof.
  revert acc fam. induction ifaces as [|i ifaces IH]; intros acc fam; simpl.
  { split; [intros; simplify_eq; exists []; by rewrite app_nil_r|].
    intros (reqs' & -> & ->%Forall2_nil_inv_l & ->). by rewrite app_nil_r. }
  destruct (InterfaceSpec_Type i == InterfaceTypePublic) eqn:Ht; go_bools; simpl.
  - rewrite IH. split.
    + intros (reqs' & -> & HF & ->). exists (InterfaceTypePublic :: reqs').
      rewrite <- app_assoc. split_and!; [done| |done]. constructor; [by constructor|done].
    + intros (reqs' & -> & (r & reqs'' & Hr & HF & ->)%Forall2_cons_inv_l & ->).
      exists reqs''. rewrite <- app_assoc. inversion Hr; by subst.
  - destruct (InterfaceSpec_Network i == "") eqn:Hn; go_bools; simpl.
    { split; [done|]. intros (? & _ & (r & ? & Hr & _ & _)%Forall2_cons_inv_l & _). by inversion Hr. }
    destruct (GetNetworkStatus (status c) (InterfaceSpec_Network i)) as [ns|] eqn:Eg.
    2:{ split; [done|]. intros (? & _ & (r & ? & Hr & _ & _)%Forall2_cons_inv_l & _).
        inversion Hr; simplify_eq; done. }
    destruct (NetworkStatus_NetworkID ns == "") eqn:Hid; go_bools; simpl.
    { split; [done|]. intros (? & _ & (r & ? & Hr & _ & _)%Forall2_cons_inv_l & _).
      inversion Hr; simplify_eq; done. }
    rewrite IH. split.
    + intros (reqs' & -> & HF & ->). exists (NetworkStatus_NetworkID ns :: reqs').
      rewrite <- app_assoc. split_and!; [done| |done]. constructor; [by apply requests_private|done].
    + intros (reqs' & -> & (r & reqs'' & Hr & HF & ->)%Forall2_cons_inv_l & ->).
      exists reqs''. rewrite <- app_assoc. inversion Hr; simplify_eq; done.
Qed.

(** *** Readiness *)

(** An observation that is unaffected by the recorded server group and by the
    conditions other than the server's. *)
Definition ignores_group {B} (f : CloudscaleMachine → B) : Prop := ∀ id m, f (set_group id m) = f m.
Definition ignores_mcondition {B} (f : CloudscaleMachine → B) (t : string) : Prop :=
  ∀ st rs msg m, f (setCondition t st rs msg m) = f m.

Lemma condition_free_ignores {B} (f : CloudscaleMachine → B) t :
  condition_free f → ignores_mcondition f t.
Proof. intros H st rs msg m. apply H. Qed.

Lemma reconcileServerGroup_frame {B} (f : CloudscaleMachine → B) ms :
  ignores_group f → ignores_mcondition f ServerGroupReadyCondition →
  respects (keeps f) (reconcileServerGroup ms).
Proof.
  intros Hg Hc. unfold reconcileServerGroup, reconcileServerGroupBody, listOrCreateGroup,
    sdk_Get, sdk_ListGroups, sdk_Create.
  frame; try exact (Hg _ _). destruct r; exact (Hc _ _ _ _).
Qed.

(** What following a server leaves alone. *)
Definition ignores_server {B} (f : CloudscaleMachine → B) : Prop :=
  (∀ server m, f (updateMachineFromServer server m) = f m) ∧ (∀ id m, f (set_server id m) = f m).

Lemma reconcileServer_frame {B} (f : CloudscaleMachine → B) ms :
  ignores_server f → condition_free f → respects (keeps f) (reconcileServer ms).
Proof.
  intros [Hu Hs] Hc. unfold reconcileServer, reconcileServerBody, createServer, adoptServer,
    GetBootstrapData, sdk_Get, sdk_List, sdk_ListGroups, sdk_Create, Eventf.
  frame; try exact (Hu _ _); try exact (Hs _ _); try exact (Hc _ _).
  destruct r as [[res [server|]]|e]; [by apply (setServerStatusCondition_free f)|done|exact (Hc _ _)].
Qed.

Lemma provisioned_setCondition m : provisioned (setProvisioned m) = provisioned m || mIsTrue m ServerReadyCondition.
Proof. unfold setProvisioned. destruct (mIsTrue m _); by rewrite ?orb_true_r, ?orb_false_r. Qed.

Lemma setProvisioned_conditions m t : mIsTrue (setProvisioned m) t = mIsTrue m t.
Proof. unfold setProvisioned. by destruct (mIsTrue m ServerReadyCondition). Qed.

Lemma setReady_true m t :
  t ≠ ReadyCondition → mIsTrue (setReadyCondition m) t = mIsTrue m t.
Proof. intros Ht. destruct (setReadyCondition_is m) as (? & ? & ? & -> & _). by apply mIsTrue_set_ne. Qed.

Lemma setReady_ready m :
  mIsTrue (setReadyCondition m) ReadyCondition = mIsTrue m ServerReadyCondition.
Proof. destruct (setReadyCondition_is m) as (? & ? & ? & -> & <-). apply mIsTrue_set_eq. Qed.

(** The object as the server reconcile finds it, after the group: the same
    machine, but for the group and its condition. *)
Definition same_machine m m1 : Prop :=
  CloudscaleMachine_Meta m1 = CloudscaleMachine_Meta m ∧ mspec m1 = mspec m ∧
  serverID m1 = serverID m ∧ provisioned m1 = provisioned m ∧
  mconditionOf m1 ServerReadyCondition = mconditionOf m ServerReadyCondition.

(** How a normal reconcile ended. *)
Inductive normal_outcome ms m : Res Result → CloudscaleMachine → Prop :=
  | waits_for_bootstrap :
      Machine_DataSecretName (mscope_Machine ms) = None →
      normal_outcome ms m (Ok emptyResult)
        (setReadyCondition (setCondition ServerReadyCondition ConditionFalse WaitingForBootstrapDataReason
           "Waiting for bootstrap data to be available" m))
  | stops_at_group r m1 :
      same_machine m m1 → r ≠ Ok emptyResult → normal_outcome ms m r (setReadyCondition m1)
  | server_error m1 evs e m2 :
      same_machine m m1 → server_outcome ms m1 evs (Err e) m2 → provisioned m2 = provisioned m →
      normal_outcome ms m (Err (wrapError "reconciling server: " e)) (setReadyCondition m2)
  | server_done m1 evs r m2 :
      same_machine m m1 → server_outcome ms m1 evs (Ok r) m2 → provisioned m2 = provisioned m →
      normal_outcome ms m (Ok r) (setReadyCondition (setProvisioned m2)).

Lemma reconcileNormal_outcome ms :
  post (reconcileNormal ms) (λ s r s', normal_outcome ms (obj s) r (obj s')).
Proof.
  intros s. unfold result, exec, reconcileNormal, deferred, reconcileNormalBody.
  destruct (Machine_DataSecretName (mscope_Machine ms)) as [name|] eqn:Hd.
  2:{ simpl. by apply waits_for_bootstrap. }
  rewrite bind_get. unfold bind_flow.
  assert (∃ m1 r s1,
    (match CloudscaleMachineSpec_ServerGroup (mspec (obj s)) with
     | Some _ => returning (reconcileServerGroup ms) | None => ret (Next ()) end) s = (r, s1) ∧
    obj s1 = m1 ∧ same_machine (obj s) m1 ∧ (∀ r', r = Ok (Return r') → IsZero r' = false))
    as (m1 & r & s1 & E & Ho & Hm & Hr).
  { destruct (CloudscaleMachineSpec_ServerGroup _); [|by eexists _, _, _].
    eexists _, _, _. split; [apply surjective_pairing|]. split; [done|]. split.
    - assert (∀ B (f : CloudscaleMachine → B), ignores_group f → ignores_mcondition f ServerGroupReadyCondition →
        f (obj (snd (returning (reconcileServerGroup ms) s))) = f (obj s)) as H.
      { intros B f Hg Hc. apply (respects_returning (keeps f)); by apply reconcileServerGroup_frame. }
      split_and!; [apply (H _ CloudscaleMachine_Meta)|apply (H _ mspec)|apply (H _ serverID)
        |apply (H _ provisioned)|apply (H _ (λ m, mconditionOf m ServerReadyCondition))]; try done.
      intros st rs msg m. by apply mconditionOf_set_ne.
    - intros r' Hr. by apply (requeues_returning (reconcileServerGroup ms) s). }
  unfold bind. rewrite E. destruct r as [[r|[]]|e]; simpl.
  - apply stops_at_group; [by subst|]. intros [= ->]. by specialize (Hr _ eq_refl).
  - unfold wrap, modify, ret.
    destruct (reconcileServer_spec ms s1) as (evs & _ & Hout). rewrite Ho in Hout.
    pose proof (reconcileServer_frame provisioned ms) as Hp.
    specialize (Hp ltac:(done) ltac:(done) s1). unfold keeps, exec, result in *. rewrite Ho in Hp.
    destruct Hm as (? & ? & ? & Hpm & ?).
    destruct (reconcileServer ms s1) as [[res|e] s2]; simpl in *.
    + eapply server_done; [done|exact Hout|congruence].
    + eapply server_error; [done|exact Hout|congruence].
  - apply stops_at_group; [by subst|done].
Qed.
End normal_theorems.

Section machine_claims.
Context `{P : Platform}.
Implicit Types (ms : MachineScope) (m : CloudscaleMachine) (s : MState).

Lemma provisioned_setConditionReady m : provisioned (setReadyCondition m) = provisioned m.
Proof. by apply setReadyCondition_free. Qed.

Lemma server_ready_not_failed m t rs msg :
  mconditionOf m t = Some (mkCondition t ConditionFalse rs msg) → mIsTrue m t = false.
Proof. unfold mIsTrue. by intros ->. Qed.

(** C16. Ready and Provisioned tell the truth about the server. After a normal
    reconcile the Ready condition agrees with ServerReady; Provisioned is never
    reverted; and where it becomes true, ServerReady is true and either a
    running server was seen in this very reconcile or the condition was true
    before. *)
Theorem machine_ready ms s :
  let m := obj s in let m' := obj (exec (reconcileNormal ms) s) in
  mIsTrue m' ReadyCondition = mIsTrue m' ServerReadyCondition ∧
  (provisioned m = true → provisioned m' = true) ∧
  (provisioned m = false → provisioned m' = true →
     mIsTrue m' ServerReadyCondition = true ∧
     (mIsTrue m ServerReadyCondition = true ∨
      ∃ m1 evs server, same_machine m m1 ∧ sighting ms m1 evs server ∧
        Server_Status server = ServerStatusRunning)).
Proof.
  intros m m'. pose proof (reconcileNormal_outcome ms s) as H. cbv beta in H. fold m m' in H.
  clearbody m m'. assert (∃ m0, m' = setReadyCondition m0) as [m0 Hm0] by (destruct H; eauto).
  split; [by rewrite Hm0, setReady_ready, setReady_true|].
  inversion H as [Hd Hr Hm'|r m1 Hs Hne Hr Hm'|m1 evs e m2 Hs Ho Hp Hr Hm'|m1 evs r m2 Hs Ho Hp Hr Hm'];
    rewrite provisioned_setConditionReady; simpl.
  - change (provisioned (setCondition _ _ _ _ m)) with (provisioned m). split; [done|]. by intros ->.
  - destruct Hs as (_ & _ & _ & -> & _). split; [done|]. by intros ->.
  - rewrite Hp. split; [done|]. by intros ->.
  - rewrite provisioned_setCondition, Hp. split; [by intros ->|]. intros ->. simpl. intros Ht.
    rewrite setReady_true, setProvisioned_conditions by done. split; [done|].
    inversion Ho as [evs' server ? Hseen Hf|? ? ? ? ? ? Hc|? ? ?|]; subst.
    + right. exists m1, evs, server. destruct Hf as (_ & _ & _ & Hf). rewrite Hf in Ht.
      go_bools. done.
    + apply server_ready_not_failed in Hc. congruence.
    + left. destruct Hs as (_ & _ & _ & _ & Hc). unfold mIsTrue in *. by rewrite <- Hc.
Qed.

(** C17. A normal reconcile that asks for no further turn has nothing to do before
    something else changes: it waits for the bootstrap data, or the server it saw
    is in a settled state that the machine now shows, ready exactly if running,
    or the recorded server is gone, which is reported. In particular a creation
    without an answer is always retried. *)
Theorem machine_settles ms s :
  let m := obj s in let m' := obj (exec (reconcileNormal ms) s) in
  result (reconcileNormal ms) s = Ok emptyResult →
  (Machine_DataSecretName (mscope_Machine ms) = None ∧ mIsTrue m' ReadyCondition = false) ∨
  (∃ m1 evs server, same_machine m m1 ∧ sighting ms m1 evs server ∧
     Server_Status server ≠ ServerStatusChanging ∧ serverID m' = recordedID m server ∧
     GetProviderID m' = "cloudscale://" +:+ Server_UUID server ∧
     mIsTrue m' ReadyCondition = (Server_Status server == ServerStatusRunning)) ∨
  (serverID m' = serverID m ∧ serverID m ≠ "" ∧
   ∃ cond, mconditionOf m' ReadyCondition = Some cond ∧ Condition_Status cond = ConditionFalse ∧
     Condition_Reason cond = ServerDeletedExternallyReason).
Proof.
  intros m m' Hr. pose proof (reconcileNormal_outcome ms s) as H. cbv beta in H. rewrite Hr in H. fold m m' in H. clearbody m m'.
  inversion H as [Hd Hr' Hm'|r m1 Hs Hne Hr' Hm'| |m1 evs r m2 Hs Ho Hp Hr' Hm'].
  - left. split; [done|]. by rewrite setReady_ready, mIsTrue_set_eq.
  - done.
  - right. destruct Hs as (Hmeta & Hspec & Hid & Hprov & Hcond).
    assert (serverID (setReadyCondition (setProvisioned m2)) = serverID m2) as Hsid.
    { rewrite (setReadyCondition_free serverID) by done. unfold setProvisioned. by destruct (mIsTrue m2 _). }
    assert (GetProviderID (setReadyCondition (setProvisioned m2)) = GetProviderID m2) as Hpid.
    { rewrite (setReadyCondition_free GetProviderID) by done. unfold setProvisioned. by destruct (mIsTrue m2 _). }
    inversion Ho as [evs' server m2' Hseen Hf E1 E2 E3|e m2' Hne Hnf Hsid' Hpid' Hc E1 E2 E3| |].
    + left. exists m1, evs, server. destruct Hf as (F1 & F2 & _ & F4).
      rewrite setReady_ready, setProvisioned_conditions, Hsid, Hpid, F1, F2, F4.
      unfold recordedID. rewrite Hid. split_and!; [by split_and!|done| |done..].
      intros Hch. rewrite bool_decide_eq_true_2 in E2 by done. done.
    + right. rewrite Hsid, Hsid', Hid. split; [done|]. rewrite <- Hid. split; [done|].
      assert (mconditionOf (setProvisioned m2) ServerReadyCondition = mconditionOf m2 ServerReadyCondition) as Hcp.
      { unfold setProvisioned. by destruct (mIsTrue m2 _). }
      unfold setReadyCondition, readyFrom. unfold mIsTrue. rewrite Hcp, Hc. simpl.
      eexists. split; [apply mconditionOf_set_eq|done].
Qed.
End machine_claims.

(** ** Deletion and the life cycle *)

Section machine_lifecycle.
Context `{P : Platform}.
Implicit Types (ms : MachineScope) (m : CloudscaleMachine) (s : MState).

Definition mfinalizers m : list string := ObjectMeta_Finalizers (CloudscaleMachine_Meta m).

(** What [deleteServer] did. *)
Lemma deleteServer_spec ms s :
  let r := result (deleteServer ms) s in let s' := exec (deleteServer ms) s in
  mfinalizers (obj s') = mfinalizers (obj s) ∧
  ∃ evs, log s' = log s ++ evs ∧
    Forall (λ e, is_write e = true → ∃ r, e = EDelete KServer (serverID (obj s)) r ∧ serverID (obj s) ≠ "") evs ∧
    Forall quiet evs ∧
    match r with
    | Ok _ => serverID (obj s') = "" ∧
        (serverID (obj s) ≠ "" → confirmed_deleted KServer (serverID (obj s)) evs)
    | Err e => serverID (obj s') = serverID (obj s) ∧
        mconditionOf (obj s') ServerReadyCondition =
          Some (mkCondition ServerReadyCondition ConditionFalse ServerErrorReason (Error e))
    end.
Proof.
  unfold deleteServer, deferred, deleteServerBody, result, exec.
  rewrite bind_get. destruct (serverID (obj s) == "") eqn:Hid; go_bools; simpl.
  { split; [done|]. exists []. rewrite app_nil_r. split_and!; [done|constructor..|done|done]. }
  unfold bind, try, sdk_Delete, call, Eventf, emit, modify, ret, throw. simpl.
  destruct (svc_Delete _ _ _) as [[[]|e] w] eqn:Ed; simpl; [|destruct (IsNotFound e) eqn:En; simpl];
    (split; [done|]); eexists; rewrite <- ?app_assoc; (split; [reflexivity|]);
    (split; [go_forall; by eauto|]); (split; [go_forall|]); (split; [done|]).
  - intros _. eexists. split; [by left|done].
  - intros _. eexists. split; [by left|done].
  - apply mconditionOf_set_eq.
Qed.

(** The machine's finalizer is removed only when its server is gone: the
    provider confirmed the deletion of the server that status records, or none
    was recorded. After an error the finalizers, the recorded server and the
    error stay visible. No other server is ever touched. *)
Lemma machine_delete_spec ms s :
  let m := obj s in let m' := obj (exec (reconcileDelete ms) s) in
  ∃ evs, log (exec (reconcileDelete ms) s) = log s ++ evs ∧
  Forall (λ e, is_write e = true → ∃ r, e = EDelete KServer (serverID m) r) evs ∧ Forall quiet evs ∧
  match result (reconcileDelete ms) s with
  | Ok res => res = emptyResult ∧ serverID m' = "" ∧
      (∀ f, f ∈ mfinalizers m' ↔ f ≠ MachineFinalizer ∧ f ∈ mfinalizers m) ∧
      (serverID m ≠ "" → confirmed_deleted KServer (serverID m) evs)
  | Err e => mfinalizers m' = mfinalizers m ∧ serverID m' = serverID m ∧
      mIsTrue m' ServerReadyCondition = false
  end.
Proof.
  unfold reconcileDelete, result, exec. rewrite modify_bind. set (s0 := mkSt _ _ _).
  pose proof (deleteServer_spec ms s0) as (Hf & evs & Hl & Hw & Hq & Hr).
  unfold result, exec in *. unfold wrap, bind, modify, ret.
  destruct (deleteServer ms s0) as [r s1]; simpl in *. exists evs.
  assert (∀ f, f ∈ mfinalizers (upd_mfinalizers (RemoveFinalizer MachineFinalizer)
                    (setCondition ReadyCondition ConditionFalse DeletingReason
                       "Machine infrastructure has been deleted" (deleteServerGroup (obj s1)))) ↔
            f ≠ MachineFinalizer ∧ f ∈ mfinalizers (obj s)) as Hrm.
  { intros f. unfold mfinalizers at 1. simpl. rewrite RemoveFinalizer_spec.
    assert (CloudscaleMachine_Meta (deleteServerGroup (obj s1)) = CloudscaleMachine_Meta (obj s1)) as ->.
    { unfold deleteServerGroup. by destruct (CloudscaleMachineSpec_ServerGroup _). }
    unfold mfinalizers in Hf. by rewrite Hf. }
  destruct r as [[]|e]; simpl; (split; [done|]);
    (split; [eapply Forall_impl; [exact Hw|]; intros ev H Hev; destruct (H Hev) as (r & -> & _); by exists r|]);
    (split; [done|]).
  - destruct Hr as [Hid Hc]. split_and!; [done| |exact Hrm|exact Hc].
    unfold deleteServerGroup. by destruct (CloudscaleMachineSpec_ServerGroup _).
  - destruct Hr as [Hid Hc]. split_and!; [exact Hf|exact Hid|]. unfold mIsTrue. by rewrite Hc.
Qed.

Lemma GetBootstrapData_silent ms : respects (emits (O:=CloudscaleMachine) silent) (GetBootstrapData ms).
Proof. unfold GetBootstrapData. by frame. Qed.

Lemma machine_normal_quiet ms : respects (emits quiet) (reconcileNormal ms).
Proof.
  unfold reconcileNormal, reconcileNormalBody, reconcileServerGroup, reconcileServerGroupBody,
    listOrCreateGroup, reconcileServer, reconcileServerBody, createServer, adoptServer,
    GetBootstrapData, sdk_Get, sdk_List, sdk_ListGroups, sdk_Create, Eventf.
  by frame.
Qed.

Lemma machine_delete_quiet ms : respects (emits quiet) (reconcileDelete ms).
Proof. intros s. destruct (machine_delete_spec ms s) as (evs & Hl & _ & Hq & _). by exists evs. Qed.

Lemma machine_normal_finalizers ms : respects (keeps mfinalizers) (reconcileNormal ms).
Proof.
  unfold reconcileNormal, reconcileNormalBody. frame; try done.
  - by apply reconcileServerGroup_frame.
  - by apply reconcileServer_frame.
  - unfold setProvisioned. by destruct (mIsTrue _ _).
  - by apply (setReadyCondition_free mfinalizers).
Qed.

(** What runs between the creation of the scope and the patch. *)
Definition machineBody ms (snapshot : CloudscaleMachine) : MM Result :=
  match ObjectMeta_DeletionTimestamp (CloudscaleMachine_Meta snapshot) with
  | Some _ => reconcileDelete ms
  | None =>
      (if negb (ContainsFinalizer (ObjectMeta_Finalizers (CloudscaleMachine_Meta snapshot)) MachineFinalizer)
       then modify (upd_mfinalizers (AddFinalizer MachineFinalizer)) else ret ()) ;;!
      reconcileNormal ms
  end.

Lemma machineBody_quiet ms snapshot : respects (emits quiet) (machineBody ms snapshot).
Proof. unfold machineBody. frame; auto using machine_normal_quiet, machine_delete_quiet. Qed.

Lemma closing_machine_run snapshot (body : MM Result) s :
  respects (emits quiet) body →
  ∃ pre r, log (exec (closing snapshot body) s) =
    log s ++ pre ++ [EPatchMachine snapshot (obj (exec body s))
                       (match result body s with Ok _ => true | Err _ => false end) r] ∧
    log (exec body s) = log s ++ pre ∧ Forall quiet pre ∧
    obj (exec (closing snapshot body) s) = obj (exec body s) ∧
    result (closing snapshot body) s =
      match result body s, r with Ok _, Err e => Err e | _, _ => result body s end.
Proof.
  intros Hq. destruct (Hq s) as (pre & Hl & HF). exists pre.
  unfold closing, MachineScope_Close, call, exec, result in *.
  destruct (body s) as [r s1]; simpl in *. destruct (patch_Machine _ _ _ _) as [p w]; simpl.
  exists p. rewrite Hl, <- app_assoc. by split_and!.
Qed.

(** Before the scope exists nothing is written and nothing is persisted; from
    then on the body runs and is followed by the patch. *)
Definition only_conditions m m' : Prop := ∀ B (f : CloudscaleMachine → B), condition_free f → f m' = f m.

Lemma machineOwned_cases machine cluster s :
  annotations_IsPaused cluster (CloudscaleMachine_Meta (obj s)) = false →
  (∃ r s' pre, reconcileOwned machine cluster s = (r, s') ∧ only_conditions (obj s) (obj s') ∧
     log s' = log s ++ pre ∧ Forall silent pre) ∨
  (∃ ms s1 pre, clusterProvisioned (mscope_CloudscaleCluster ms) = true ∧
     reconcileOwned machine cluster s = closing (obj s1) (machineBody ms (obj s1)) s1 ∧
     only_conditions (obj s) (obj s1) ∧ log s1 = log s ++ pre ∧ Forall silent pre).
Proof.
  intros Hp. unfold reconcileOwned. rewrite bind_get, Hp, modify_bind.
  set (s0 := mkSt _ _ _). unfold wrap, try, call, bind, get. simpl.
  destruct (kube_GetCloudscaleCluster _ _) as [[cc|e] w]; simpl.
  2:{ left. eexists _, _, _. split; [reflexivity|]. split; [intros B f Hf; apply Hf|].
      split; [done|]. by constructor. }
  destruct (clusterProvisioned cc) eqn:Hprov; simpl.
  2:{ left. eexists _, _, _. split; [reflexivity|].
      split; [intros B f Hf; simpl; rewrite (setReadyCondition_free f) by done; etrans; apply Hf|].
      split; [done|]. by constructor. }
  set (s2 := mkSt _ w _).
  destruct (GetToken_silent (O:=CloudscaleMachine) (CredentialsSecretRef cc) (ObjectMeta_Namespace (CloudscaleCluster_Meta cc)) s2)
    as (pre & Hl & HF).
  pose proof (GetToken_keeps id (CredentialsSecretRef cc) (ObjectMeta_Namespace (CloudscaleCluster_Meta cc)) s2) as Hk.
  unfold exec, keeps, id in *. destruct (GetToken _ _ s2) as [[token|e] s3]; simpl in *.
  2:{ left. eexists _, _, _. split; [reflexivity|]. simpl. rewrite Hk. split; [intros B f Hf; apply Hf|].
      split; [rewrite Hl, <- app_assoc; done|]. by constructor. }
  unfold NewMachineScope. destruct (patch_NewMachineHelper _) as [[]|e]; simpl.
  2:{ left. eexists _, _, _. split; [reflexivity|]. simpl. rewrite Hk. split; [intros B f Hf; apply Hf|].
      split; [rewrite Hl, <- app_assoc; done|]. by constructor. }
  right. exists (mkMachineScope cluster machine cc (NewClient token)), s3. eexists.
  split_and!; [exact Hprov|reflexivity|rewrite Hk; intros B f Hf; apply Hf| |].
  - rewrite Hl, <- app_assoc. done.
  - by constructor.
Qed.
End machine_lifecycle.

Section machine_lifecycle_claims.
Context `{P : Platform}.
Implicit Types (ms : MachineScope) (m : CloudscaleMachine) (s : MState).

Lemma interfaceRequests_error c ifaces acc e :
  interfaceRequests c ifaces acc = Err e → ∃ i, i ∈ ifaces ∧ ∀ net, ¬ requests_network c i net.
Proof.
  revert acc. induction ifaces as [|i ifaces IH]; intros [reqs fam]; simpl; [done|].
  assert (∀ acc, interfaceRequests c ifaces acc = Err e →
            ∃ j, j ∈ i :: ifaces ∧ ∀ net, ¬ requests_network c j net) as IH'.
  { intros acc H. destruct (IH acc H) as (j & ? & ?). exists j. split; [by right|done]. }
  destruct (InterfaceSpec_Type i == InterfaceTypePublic) eqn:Ht; go_bools; simpl; [apply IH'|].
  destruct (InterfaceSpec_Network i == "") eqn:Hn; go_bools; simpl.
  { intros _. exists i. split; [by left|]. intros net Hnet. by inversion Hnet. }
  destruct (GetNetworkStatus (status c) (InterfaceSpec_Network i)) as [ns|] eqn:Eg.
  2:{ intros _. exists i. split; [by left|]. intros net Hnet. inversion Hnet; simplify_eq; done. }
  destruct (NetworkStatus_NetworkID ns == "") eqn:Hid; go_bools; simpl; [|apply IH'].
  intros _. exists i. split; [by left|]. intros net Hnet. inversion Hnet; simplify_eq; done.
Qed.

(** C18. The machine's finalizer is removed only when its server is gone: the
    provider confirmed the deletion of the server that status records, or none
    was recorded. After an error the finalizers and the recorded server stay and
    ServerReady is false. No other server is ever touched. *)
Theorem machine_delete ms s :
  let m := obj s in let m' := obj (exec (reconcileDelete ms) s) in
  let evs := calls_of (reconcileDelete ms) s in
  Forall (λ e, is_write e = true → ∃ r, e = EDelete KServer (serverID m) r) evs ∧
  match result (reconcileDelete ms) s with
  | Ok res => res = emptyResult ∧ serverID m' = "" ∧
      (∀ f, f ∈ mfinalizers m' ↔ f ≠ MachineFinalizer ∧ f ∈ mfinalizers m) ∧
      (serverID m ≠ "" → confirmed_deleted KServer (serverID m) evs)
  | Err e => mfinalizers m' = mfinalizers m ∧ serverID m' = serverID m ∧
      mIsTrue m' ServerReadyCondition = false
  end.
Proof.
  destruct (machine_delete_spec ms s) as (evs & Hl & Hw & _ & Hr). cbv zeta.
  by rewrite (calls_of_run _ _ _ Hl).
Qed.

(** Nothing done is left unrecorded. If a machine reconcile made any write,
    its last call patches the machine object as it stands at the end, and no
    earlier call does; the observed generation moves only when the reconcile
    succeeded, and a success means that the patch went through. *)
Theorem machine_patch machine cluster s :
  let evs := calls_of (reconcileOwned machine cluster) s in
  let m' := obj (exec (reconcileOwned machine cluster) s) in
  (∃ e, e ∈ evs ∧ is_write e = true) →
  ∃ pre snapshot ok r, evs = pre ++ [EPatchMachine snapshot m' ok r] ∧ Forall quiet pre ∧
    (ok = false → ∃ e, result (reconcileOwned machine cluster) s = Err e) ∧
    (∀ res, result (reconcileOwned machine cluster) s = Ok res → ok = true ∧ r = Ok ()).
Proof.
  intros evs m' (e & He & Hw). subst evs m'.
  destruct (annotations_IsPaused cluster (CloudscaleMachine_Meta (obj s))) eqn:Hp.
  { unfold calls_of, reconcileOwned in He. rewrite exec_get, Hp in He.
    unfold exec, bind, modify, ret in He. simpl in He. rewrite drop_all in He. by apply not_elem_of_nil in He. }
  destruct (machineOwned_cases machine cluster s Hp) as [(r & s' & pre & E & _ & Hl & HF)|(ms & s1 & pre & _ & E & _ & Hl & HF)].
  { rewrite (calls_of_run _ _ pre) in He by (unfold exec; by rewrite E).
    by destruct (silent_not_write _ _ HF He Hw). }
  destruct (closing_machine_run (obj s1) (machineBody ms (obj s1)) s1 (machineBody_quiet ms (obj s1)))
    as (pre2 & r & Hlog & _ & Hq & Hobj & Hres).
  destruct (run_eq _ _ _ _ E) as [Ex Er].
  rewrite <- Ex, Hl, <- app_assoc in Hlog. rewrite <- Ex in Hobj. rewrite <- Er in Hres.
  rewrite (calls_of_run _ _ _ Hlog), Hobj, Hres.
  eexists (pre ++ pre2), _, _, r. split_and!; [by rewrite <- app_assoc|..].
  - apply Forall_app. split; [by apply silent_quiet|done].
  - destruct (result (machineBody _ _) s1); [done|eauto].
  - destruct (result (machineBody _ _) s1), r as [[]|]; naive_solver.
Qed.

(** C15. A machine reconcile does what the life cycle of the machine and its
    cluster allow. Paused, it makes no call at all. While the cluster's
    infrastructure is not provisioned it only reads the cluster: the waiting
    condition it sets stays on its copy of the object and is not persisted. On
    a machine being deleted the only writes are deletions of the recorded
    server; otherwise, once anything was written, the object carries the machine
    finalizer. *)
Theorem machine_lifecycle machine cluster s :
  let m := obj s in let m' := obj (exec (reconcileOwned machine cluster) s) in
  let evs := calls_of (reconcileOwned machine cluster) s in
  let key := (Cluster_InfrastructureRef_Name cluster, ObjectMeta_Namespace (CloudscaleMachine_Meta m)) in
  if annotations_IsPaused cluster (CloudscaleMachine_Meta m) then
    evs = [] ∧ result (reconcileOwned machine cluster) s = Ok emptyResult ∧ mIsTrue m' PausedCondition = true
  else
    (match fst (kube_GetCloudscaleCluster key (world s)) with
     | Ok cc => clusterProvisioned cc = false → evs = [EKubeGet key (Ok ())] ∧
         mconditionOf m' ServerReadyCondition =
           Some (mkCondition ServerReadyCondition ConditionFalse WaitingForClusterInfrastructureReason
                   "Waiting for cluster infrastructure to be provisioned")
     | Err e => evs = [EKubeGet key (Err e)]
     end) ∧
    Forall (λ e, is_write e = true →
      match ObjectMeta_DeletionTimestamp (CloudscaleMachine_Meta m) with
      | Some _ => ∃ id r, e = EDelete KServer id r
      | None => MachineFinalizer ∈ mfinalizers m'
      end) evs.
Proof.
  intros m m' evs key. subst evs m' m.
  destruct (annotations_IsPaused cluster (CloudscaleMachine_Meta (obj s))) eqn:Hp.
  { unfold calls_of, reconcileOwned. rewrite exec_get, result_get, Hp. unfold exec, bind, modify, ret. simpl.
    rewrite drop_all. split_and!; [done|done|]. apply mIsTrue_set_eq. }
  split.
  { unfold calls_of, reconcileOwned. rewrite exec_get, Hp. unfold exec, wrap, try, call, bind, modify. simpl.
    fold key. destruct (kube_GetCloudscaleCluster key (world s)) as [[cc|e] w]; simpl;
      [intros ->; simpl; split|]; [by rewrite drop_app_length| |by rewrite drop_app_length].
    destruct (setReadyCondition_is (setCondition ServerReadyCondition ConditionFalse
      WaitingForClusterInfrastructureReason "Waiting for cluster infrastructure to be provisioned"
      (set_mconditions (conditions_delete PausedCondition (mconditions (obj s))) (obj s))))
      as (? & ? & ? & -> & _). rewrite mconditionOf_set_ne by done. apply mconditionOf_set_eq. }
  apply Forall_forall. intros e He Hw.
  destruct (machineOwned_cases machine cluster s Hp) as [(r & s' & pre & E & _ & Hl & HF)|(ms & s1 & pre & _ & E & Hm & Hl & HF)].
  { rewrite (calls_of_run _ _ pre) in He by (unfold exec; by rewrite E).
    by destruct (silent_not_write _ _ HF He Hw). }
  destruct (closing_machine_run (obj s1) (machineBody ms (obj s1)) s1 (machineBody_quiet ms (obj s1)))
    as (pre2 & r & Hlog & Hbl & _ & Hobj & _).
  destruct (run_eq _ _ _ _ E) as [Ex _]. rewrite <- Ex, Hl, <- app_assoc in Hlog. rewrite <- Ex in Hobj.
  assert (e ∈ pre2) as Hin.
  { rewrite (calls_of_run _ _ _ Hlog) in He.
    apply elem_of_app in He as [He|[He|He%list_elem_of_singleton]%elem_of_app]; [|done|by subst].
    by destruct (silent_not_write _ _ HF He Hw). }
  rewrite Hobj. clear E Ex Hlog Hobj. specialize (Hm _ CloudscaleMachine_Meta ltac:(done)).
  unfold machineBody in *. rewrite Hm in *.
  destruct (ObjectMeta_DeletionTimestamp _) as [d|].
  - destruct (machine_delete_spec ms s1) as (evs & Hd & HFd & _).
    rewrite Hbl in Hd. apply app_inv_head in Hd as ->. rewrite Forall_forall in HFd.
    destruct (HFd e Hin Hw) as [r' ->]. eauto.
  - set (m0 := if negb _ then _ else _) in *.
    assert (∃ s2, m0 s1 = (Ok (), s2) ∧ MachineFinalizer ∈ mfinalizers (obj s2)) as (s2 & E2 & Hf).
    { subst m0. unfold mfinalizers.
      destruct (ContainsFinalizer _ _) eqn:Ec; simpl; eexists; (split; [reflexivity|]).
      - rewrite Hm. by apply ContainsFinalizer_spec.
      - simpl. apply AddFinalizer_spec. by left. }
    unfold exec. rewrite (bind_ok _ _ _ _ _ E2).
    pose proof (machine_normal_finalizers ms s2) as Hk. unfold keeps, exec in Hk. by rewrite Hk.
Qed.

(** C12. A server is looked for before it is created, its answer is never lost and
    never misread: every run of [reconcileServer] ends in one of the outcomes of
    [server_outcome]. *)
Theorem reconcileServer_outcome ms :
  post (reconcileServer ms) (λ s r s',
    ∃ evs, log s' = log s ++ evs ∧ server_outcome ms (obj s) evs r (obj s')).
Proof. apply reconcileServer_spec. Qed.

(** C37. The server group of a machine is the recorded one while it exists, else a
    group of the cluster with the requested name in the cluster's zone, else a
    new anti-affinity group with those properties; the condition says whether
    that failed. A creation without an answer is retried, though the condition
    already says that the group is ready. *)
Theorem reconcileServerGroup_outcome ms s :
  match CloudscaleMachineSpec_ServerGroup (mspec (obj s)) with
  | None => result (reconcileServerGroup ms) s = Ok emptyResult
  | Some g =>
      let r := result (reconcileServerGroup ms) s in let s' := exec (reconcileServerGroup ms) s in
      (∃ evs, log s' = log s ++ evs ∧
         group_outcome ms (obj s) (ServerGroupSpec_Name g) evs r (groupID (obj s'))) ∧
      mIsTrue (obj s') ServerGroupReadyCondition = match r with Ok _ => true | Err _ => false end
  end.
Proof.
  destruct (CloudscaleMachineSpec_ServerGroup (mspec (obj s))) as [g|] eqn:Hg.
  - by apply reconcileServerGroup_spec.
  - unfold reconcileServerGroup, reconcileServerGroupBody, result, deferred. by rewrite bind_get, Hg.
Qed.

(** The interfaces of the request follow the specification: a public one for
    each public interface and the recorded network for each other one, in order,
    with the IP family of the last public interface; without interfaces, a public
    one and the cluster's first network. The request fails exactly when some
    interface has neither or its network is not provisioned. *)
Theorem buildInterfaceRequests_spec ms m :
  let c := mscope_CloudscaleCluster ms in
  match CloudscaleMachineSpec_Interfaces (mspec m) with
  | [] =>
      match CloudscaleClusterStatus_Networks (status c) with
      | [] => ∃ e, buildInterfaceRequests ms m = Err e
      | ns :: _ => buildInterfaceRequests ms m = Ok ([InterfaceTypePublic; NetworkStatus_NetworkID ns], None)
      end
  | ifaces =>
      (∀ reqs family, buildInterfaceRequests ms m = Ok (reqs, family) ↔
         Forall2 (requests_network c) ifaces reqs ∧ family = lastPublicFamily ifaces None) ∧
      ((∃ e, buildInterfaceRequests ms m = Err e) ↔
         ∃ i, i ∈ ifaces ∧ ∀ net, ¬ requests_network c i net)
  end.
Proof.
  cbv zeta. unfold buildInterfaceRequests. set (c := mscope_CloudscaleCluster ms).
  destruct (CloudscaleMachineSpec_Interfaces (mspec m)) as [|i0 is0] eqn:Hi.
  { destruct (CloudscaleClusterStatus_Networks (status c)); eauto. }
  rewrite <- Hi. clear Hi. set (l := CloudscaleMachineSpec_Interfaces (mspec m)).
  assert (∀ reqs family, interfaceRequests c l ([], None) = Ok (reqs, family) ↔
         Forall2 (requests_network c) l reqs ∧ family = lastPublicFamily l None) as Hok.
  { intros reqs family. rewrite interfaceRequests_spec. split.
    - by intros (reqs' & -> & ? & ->).
    - intros [? ->]. by exists reqs. }
  split; [exact Hok|]. split.
  - intros [e He].
    by eapply interfaceRequests_error.
  - intros (j & Hj & Hno). destruct (interfaceRequests c l ([], None)) as [[reqs family]|e] eqn:E; [|eauto].
    destruct (proj1 (Hok _ _) eq_refl) as [HF _]. apply list_elem_of_lookup in Hj as [k Hk].
    eapply Forall2_lookup_l in HF as (net & _ & Hnet); [|exact Hk]. by destruct (Hno net).
Qed.
End machine_lifecycle_claims.

Section one_server_claim.
Context `{P : Platform}.

(** However often a machine is reconciled, from whatever versions of its
    object (after a crash, with the recorded identifier lost, after a creation
    whose answer never came), at most one server is created for it, provided
    that the tags of its specification leave the lookup tag alone. *)
Lemma reconcileServer_at_most_one (ms : MachineScope)
    `{HS : !TaggedService (Servers (mscope_Client ms)) Server_UUID ServerRequest_Tags}
    (secret_live : ∀ key w, live_servers ms (snd (kube_GetSecret key w)) = live_servers ms w)
    (name : string) (objects : list CloudscaleMachine) (w : World) :
  Forall (λ m, machineName m = name ∧ machineLookupTag ms m ⊆ machineCreateTags ms m) objects →
  (∀ m, machineName m = name → owned (Servers (mscope_Client ms)) Server_UUID (machineLookupTag ms m) w = 0) →
  length (live_servers ms (attempts ms objects w)) ≤ S (length (live_servers ms w)).
Proof.
  intros Hall H0. destruct objects as [|m0 objects]; [simpl; lia|].
  assert (Forall (λ m, machineName m = name ∧
    {[ MachineTagKey (Cluster_Name (mscope_Cluster ms)) :=
         Cluster_Namespace (mscope_Cluster ms) +:+ "/" +:+ Cluster_Name (mscope_Cluster ms)
         +:+ "/" +:+ name ]} ⊆ machineCreateTags ms m) (m0 :: objects)) as Hall'.
  { eapply Forall_impl; [exact Hall|]. intros m [<- Ht]. by split. }
  apply Forall_cons in Hall as [[Hn _] _]. specialize (H0 m0 Hn).
  assert (machineLookupTag ms m0 = {[ MachineTagKey (Cluster_Name (mscope_Cluster ms)) :=
         Cluster_Namespace (mscope_Cluster ms) +:+ "/" +:+ Cluster_Name (mscope_Cluster ms)
         +:+ "/" +:+ name ]}) as E by (unfold machineLookupTag; by rewrite Hn).
  rewrite E in H0.
  destruct (attempts_one ms secret_live name (m0 :: objects) w Hall'); lia.
Qed.
End one_server_claim.
