(* ===== verification/GroupMutex.v ===== *)
(** * Concurrent reconciles and the server group mutex
    (serverGroupMu in src/internal/controller/cloudscalemachine_servergroup.go)

    Several machine reconciles run at once against one provider. Each lists the
    cluster's groups and creates one when none fits; the provider accepts
    duplicates. The section is modelled as steps of any number of workers that
    interleave on the shared world, with and without the mutex, and linked to
    [listOrCreateGroup] by a refinement lemma. *)

From stdpp Require Export functions relations.
From S2P Require Export MachineCtl.

Section mutex.
Context `{P : Platform}.
Implicit Types (ms : MachineScope) (s : MState) (w : World).

(** ** The two halves of the section *)

(** The listing; [Some] when the function returns after it. *)
Definition listHalf ms (groupName : string) : MM (option Result) :=
  let! groups := wrap "listing server groups: "
                   (sdk_ListGroups (ServerGroups (mscope_Client ms))
                      (clusterOwnershipTags (mscope_CloudscaleCluster ms))) in
  match findGroup groupName (CloudscaleClusterSpec_Zone (spec (mscope_CloudscaleCluster ms))) groups with
  | Some g => modify (set_group (ServerGroup_UUID g)) ;;! ret (Some emptyResult)
  | None => ret None
  end.

(** The creation. *)
Definition createHalf ms (groupName : string) : MM Result :=
  let! r := try (sdk_Create (ServerGroups (mscope_Client ms)) CServerGroup ServerGroup_UUID
                   (groupRequest ms groupName)) in
  match r with
  | Err e => if IsTimeoutError e then ret (requeue 5) else throw (wrapError "creating server group: " e)
  | Ok group => modify (set_group (ServerGroup_UUID group)) ;;! ret emptyResult
  end.

(** Run without interruption, the halves are the function. *)
Lemma listOrCreateGroup_halves ms name s :
  listOrCreateGroup ms name s =
    (let! o := listHalf ms name in
     match o with Some r => ret r | None => createHalf ms name end) s.
Proof.
  unfold listOrCreateGroup, listHalf, createHalf, bind, wrap.
  destruct (sdk_ListGroups _ _ s) as [[groups|e] s1]; simpl; [|done].
  by destruct (findGroup _ _ groups).
Qed.

(** ** Workers *)

Inductive phase :=
  | Outside
  | Locked
  | Listed
  | Leaving (r : Res Result)
  | Finished (r : Res Result).

Definition inside (p : phase) : bool :=
  match p with Locked | Listed | Leaving _ => true | _ => false end.

(** The shared world, the mutex, and each worker's phase and machine object. *)
Record System := mkSystem {
  sys_world : World;
  sys_mutex : option nat;
  sys_phase : nat → phase;
  sys_machine : nat → CloudscaleMachine }.

Context (scopes : nat → MachineScope) (names : nat → string).

(** Groups are never created by anyone else; they may be deleted. *)
Context (environment : World → World → Prop).

Definition after_list (r : Res (option Result)) : phase :=
  match r with
  | Ok (Some res) => Leaving (Ok res)
  | Ok None => Listed
  | Err e => Leaving (Err e)
  end.

Inductive step (use_mutex : bool) : relation System :=
  | step_lock i σ :
      sys_phase σ i = Outside → (use_mutex = true → sys_mutex σ = None) →
      step use_mutex σ
        (mkSystem (sys_world σ) (Some i) (<[i := Locked]> (sys_phase σ)) (sys_machine σ))
  | step_list i σ r m' w' evs :
      sys_phase σ i = Locked →
      listHalf (scopes i) (names i) (mkSt (sys_machine σ i) (sys_world σ) []) = (r, mkSt m' w' evs) →
      step use_mutex σ
        (mkSystem w' (sys_mutex σ) (<[i := after_list r]> (sys_phase σ)) (<[i := m']> (sys_machine σ)))
  | step_create i σ r m' w' evs :
      sys_phase σ i = Listed →
      createHalf (scopes i) (names i) (mkSt (sys_machine σ i) (sys_world σ) []) = (r, mkSt m' w' evs) →
      step use_mutex σ
        (mkSystem w' (sys_mutex σ) (<[i := Leaving r]> (sys_phase σ)) (<[i := m']> (sys_machine σ)))
  | step_unlock i σ r :
      sys_phase σ i = Leaving r →
      step use_mutex σ
        (mkSystem (sys_world σ) None (<[i := Finished r]> (sys_phase σ)) (sys_machine σ))
  (** the machine is reconciled again, from any version of its object *)
  | step_again i σ r m :
      sys_phase σ i = Finished r →
      step use_mutex σ
        (mkSystem (sys_world σ) (sys_mutex σ) (<[i := Outside]> (sys_phase σ)) (<[i := m]> (sys_machine σ)))
  | step_environment σ w' :
      environment (sys_world σ) w' →
      step use_mutex σ (mkSystem w' (sys_mutex σ) (sys_phase σ) (sys_machine σ)).

(** Nobody has entered the section yet. *)
Definition initial (σ : System) : Prop :=
  sys_mutex σ = None ∧ ∀ i, sys_phase σ i = Outside.
End mutex.

(** ** At most one group of a name and zone per cluster *)

Section mutual_exclusion.
Context `{P : Platform}.
Context (scopes : nat → MachineScope) (names : nat → string) (environment : World → World → Prop).

(** The workers talk to one provider, whose groups are created as requested. *)
Context (svc : ServerGroupService World).
Context {HS : TaggedService svc ServerGroup_UUID ServerGroupRequest_Tags}.

Definition live_groups (w : World) : list (ServerGroup * TagMap) := live svc ServerGroup_UUID w.

Class NamedGroups := {
  named_create req w :
    live_groups (snd (svc_Create svc req w)) ≡ₚ live_groups w ∨
    ∃ x, ServerGroup_Name x = ServerGroupRequest_Name req ∧
         ServerGroup_Zone x = ServerGroupRequest_Zone req ∧
         live_groups (snd (svc_Create svc req w)) ≡ₚ (x, ServerGroupRequest_Tags req) :: live_groups w }.

Context {HN : NamedGroups}.

(** The groups of one cluster with this name in this zone. *)
Definition fits (tags : TagMap) (name zone : string) (xt : ServerGroup * TagMap) : Prop :=
  tags ⊆ snd xt ∧ ServerGroup_Name (fst xt) = name ∧ ServerGroup_Zone (fst xt) = zone.
#[global] Instance fits_dec tags name zone xt : Decision (fits tags name zone xt).
Proof. unfold fits. apply _. Defined.

Definition duplicates (tags : TagMap) (name zone : string) (w : World) : nat :=
  length (filter (fits tags name zone) (live_groups w)).

Definition workerTags (i : nat) : TagMap := clusterOwnershipTags (mscope_CloudscaleCluster (scopes i)).
Definition workerZone (i : nat) : string :=
  CloudscaleClusterSpec_Zone (spec (mscope_CloudscaleCluster (scopes i))).

Context (one_provider : ∀ i, ServerGroups (mscope_Client (scopes i)) = svc).
Context (no_other_creator : ∀ w w', environment w w' →
           ∀ tags name zone, duplicates tags name zone w' ≤ duplicates tags name zone w).

Lemma duplicates_same tags name zone w w' :
  live_groups w' ≡ₚ live_groups w → duplicates tags name zone w' = duplicates tags name zone w.
Proof. unfold duplicates. by intros ->. Qed.

Lemma listHalf_run i s r s' :
  listHalf (scopes i) (names i) s = (r, s') →
  live_groups (world s') = live_groups (world s) ∧
  (r = Ok None → duplicates (workerTags i) (names i) (workerZone i) (world s') = 0).
Proof.
  unfold listHalf, wrap, sdk_ListGroups, call, bind, modify, ret, throw. rewrite one_provider. fold (workerTags i) (workerZone i).
  pose proof (live_list svc ServerGroup_UUID (workerTags i) (world s)) as Hl.
  pose proof (live_list_ok svc ServerGroup_UUID (workerTags i) (world s)) as Hok.
  destruct (svc_List svc (workerTags i) (world s)) as [[groups|e] w]; simpl in *; [|by intros; simplify_eq/=].
  specialize (Hok _ eq_refl). destruct (findGroup _ _ groups) as [g|] eqn:Ef; intros; simplify_eq/=; [done|].
  split; [done|]. intros _. unfold duplicates, live_groups. rewrite Hl.
  destruct (filter (fits _ _ _) _) as [|[x t] rest] eqn:E; [done|].
  assert ((x, t) ∈ (x, t) :: rest) as Hin by left. rewrite <- E in Hin.
  apply list_elem_of_filter in Hin as [(Ht & Hn & Hz) Hlive].
  destruct (findGroup_None _ _ _ x Ef); [|done]. rewrite Hok.
  apply list_elem_of_fmap. exists (x, t). split; [done|]. by apply list_elem_of_filter.
Qed.

Lemma ownership_inj c c' : clusterOwnershipTags c ⊆ clusterOwnershipTags c' → clusterOwnershipTags c = clusterOwnershipTags c'.
Proof.
  unfold clusterOwnershipTags. rewrite map_singleton_subseteq_l, lookup_singleton_Some.
  by intros [-> _].
Qed.

Lemma createHalf_run i s r s' c name zone :
  createHalf (scopes i) (names i) s = (r, s') →
  let d w := duplicates (clusterOwnershipTags c) name zone w in
  d (world s') ≤ d (world s) ∨
  (clusterOwnershipTags c = workerTags i ∧ name = names i ∧ zone = workerZone i ∧
   d (world s') ≤ S (d (world s))).
Proof.
  unfold createHalf, sdk_Create, try, call, bind, ret, throw, modify. rewrite one_provider.
  set (req := groupRequest _ _). pose proof (named_create req (world s)) as Hc.
  intros H. assert (world s' = snd (svc_Create svc req (world s))) as ->.
  { destruct (svc_Create svc req (world s)) as [[g|e] w]; simpl in *; [by simplify_eq/=|].
    destruct (IsTimeoutError e); by simplify_eq/=. }
  simpl. destruct Hc as [Hc|(x & Hn & Hz & Hc)]; [left; by rewrite (duplicates_same _ _ _ _ _ Hc)|].
  unfold duplicates. rewrite Hc, filter_cons. case_decide as Hf; [|left; done].
  right. destruct Hf as (Ht & Hn' & Hz'). simpl in *.
  split_and!; [by apply ownership_inj|by rewrite <- Hn', Hn|by rewrite <- Hz', Hz|done].
Qed.

(** ** The invariant *)

Definition mutual (c : CloudscaleCluster) (name zone : string) (σ : System) : Prop :=
  (∀ i, inside (sys_phase σ i) = true → sys_mutex σ = Some i) ∧
  duplicates (clusterOwnershipTags c) name zone (sys_world σ) ≤ 1 ∧
  (∀ i, sys_phase σ i = Listed → duplicates (workerTags i) (names i) (workerZone i) (sys_world σ) = 0).

Lemma mutual_step c name zone σ σ' :
  step scopes names environment true σ σ' → mutual c name zone σ → mutual c name zone σ'.
Proof.
  intros Hstep (Hm & Hd & Hl). destruct Hstep as [i σ Ho Hfree|i σ r m' w' evs Hp E|i σ r m' w' evs Hp E|i σ r Hp|i σ r m Hp|σ w' He];
    simpl in *.
  - specialize (Hfree eq_refl).
    assert (∀ j, inside (sys_phase σ j) = false) as Hnone.
    { intros j. destruct (inside (sys_phase σ j)) eqn:Ej; [|done]. apply Hm in Ej. congruence. }
    split_and!; simpl; [|done|]; intros j; destruct (decide (i = j)) as [<-|Hij];
      rewrite ?fn_lookup_insert, ?fn_lookup_insert_ne by done; [done| |done|apply Hl].
    intros Hj. by rewrite Hnone in Hj.
  - apply listHalf_run in E as [Elive Eabs]. simpl in *.
    assert (sys_mutex σ = Some i) as Hi by (apply Hm; by rewrite Hp).
    split_and!; simpl.
    + intros j. destruct (decide (i = j)) as [<-|Hij]; [done|]. rewrite fn_lookup_insert_ne by done. apply Hm.
    + rewrite (duplicates_same _ _ _ (sys_world σ)); [done|by rewrite Elive].
    + intros j. destruct (decide (i = j)) as [<-|Hij].
      * rewrite fn_lookup_insert. intros Hr. apply Eabs. destruct r as [[]|]; simpl in Hr; done.
      * rewrite fn_lookup_insert_ne by done. intros Hj. assert (sys_mutex σ = Some j) by (apply Hm; by rewrite Hj). congruence.
  - pose proof (createHalf_run _ _ _ _ c name zone E) as Hc. simpl in *.
    assert (sys_mutex σ = Some i) as Hi by (apply Hm; by rewrite Hp).
    split_and!; simpl.
    + intros j. destruct (decide (i = j)) as [<-|Hij]; [done|]. rewrite fn_lookup_insert_ne by done. apply Hm.
    + destruct Hc as [Hc|(Ht & -> & -> & Hc)]; [lia|]. rewrite Ht in *. specialize (Hl i Hp). lia.
    + intros j. destruct (decide (i = j)) as [<-|Hij]; [by rewrite fn_lookup_insert|].
      rewrite fn_lookup_insert_ne by done. intros Hj.
      assert (sys_mutex σ = Some j) by (apply Hm; by rewrite Hj). congruence.
  - assert (sys_mutex σ = Some i) as Hi by (apply Hm; by rewrite Hp).
    split_and!; simpl; [|done|]; intros j; destruct (decide (i = j)) as [<-|Hij];
      rewrite ?fn_lookup_insert, ?fn_lookup_insert_ne by done; [done| |done|apply Hl].
    intros Hj. apply Hm in Hj. congruence.
  - split_and!; simpl; [|done|]; intros j; destruct (decide (i = j)) as [<-|Hij];
      rewrite ?fn_lookup_insert, ?fn_lookup_insert_ne by done; [done|apply Hm|done|apply Hl].
  - split_and!; simpl; [done| |].
    + etrans; [by apply no_other_creator|done].
    + intros j Hj. pose proof (no_other_creator _ _ He (workerTags j) (names j) (workerZone j)).
      specialize (Hl j Hj). lia.
Qed.
End mutual_exclusion.

(** ** The property *)

Section mutex_claim.
Context `{P : Platform}.

(** C10. The mutex prevents duplicates. However many machine reconciles interleave
    their listings and creations, with groups deleted in between, as long as each
    holds the mutex over both there is never more than one group of a name and
    zone with a cluster's ownership tags, if there was at most one before. *)
Theorem mutex_prevents_duplicates
    (scopes : nat → MachineScope) (names : nat → string) (environment : World → World → Prop)
    (svc : ServerGroupService World)
    `{HS : !TaggedService svc ServerGroup_UUID ServerGroupRequest_Tags} `{HN : !NamedGroups svc}
    (one_provider : ∀ i, ServerGroups (mscope_Client (scopes i)) = svc)
    (no_other_creator : ∀ w w', environment w w' →
       ∀ tags name zone, duplicates svc tags name zone w' ≤ duplicates svc tags name zone w)
    (c : CloudscaleCluster) (name zone : string) (σ σ' : System) :
  initial σ → duplicates svc (clusterOwnershipTags c) name zone (sys_world σ) ≤ 1 →
  rtc (step scopes names environment true) σ σ' →
  duplicates svc (clusterOwnershipTags c) name zone (sys_world σ') ≤ 1.
Proof.
  intros [Hm Ho] Hd Hsteps.
  assert (mutual scopes names svc c name zone σ) as Hinv.
  { split_and!; [|done|]; intros i; by rewrite Ho. }
  clear Hm Ho Hd. induction Hsteps as [σ|σ σ1 σ' Hstep _ IH]; [by destruct Hinv as (_ & ? & _)|].
  apply IH. by eapply mutual_step.
Qed.
End mutex_claim.
