(* ===== verification/Catalog.v ===== *)
(** * The catalogues of regions and flavours
    (src/internal/cloudscale/regions.go and flavors.go)

    Lookup tables built once from the provider's listings, the questions the
    webhooks ask them, and the capacity of a flavour. *)

From S2P Require Export Platform.

(** ** The SDK's catalogue entries, by the fields the program reads *)

Record Zone := mkZone { Zone_Slug : string }.
Record Region := mkRegion { Region_Slug : string; Region_Zones : list Zone }.
Record GPU := mkGPU { GPU_Count : Z }.
Record Flavor := mkFlavor {
  Flavor_Slug : string; Flavor_VCPUCount : Z; Flavor_MemoryGB : Z; Flavor_GPU : option GPU }.

(** ** regions.go *)

Module Regions.
Record RegionInfo := mkRegionInfo {
  regions : gmap string (list string);
  zones : gmap string string }.

(** One turn of the loop: every zone points to the region, and the region to its zones. *)
Definition addRegion (ri : RegionInfo) (r : Region) : RegionInfo :=
  mkRegionInfo
    (<[Region_Slug r := Zone_Slug <$> Region_Zones r]> (regions ri))
    (foldl (λ m z, <[Zone_Slug z := Region_Slug r]> m) (zones ri) (Region_Zones r)).

Definition NewRegionInfo (rs : list Region) : RegionInfo := foldl addRegion (mkRegionInfo ∅ ∅) rs.

Definition ZoneBelongsToRegion (ri : RegionInfo) (zone region : string) : bool :=
  match zones ri !! zone with
  | None => false
  | Some zoneRegion => zoneRegion == region
  end.

Definition GetDefaultZoneForRegion (ri : RegionInfo) (region : string) : string :=
  match default [] (regions ri !! region) with
  | [] => ""
  | zone :: _ => zone
  end.

Definition IsValidZone (ri : RegionInfo) (zone : string) : bool :=
  match zones ri !! zone with Some _ => true | None => false end.

(** In the order of the map's iteration, which Go leaves open. *)
Definition GetAllRegions (ri : RegionInfo) : list string := (map_to_list (regions ri)).*1.

(** *** Lemmas *)

Definition zone_slugs (r : Region) : list string := Zone_Slug <$> Region_Zones r.

Lemma zones_fill (m : gmap string string) zs rslug z :
  foldl (λ m z, <[Zone_Slug z := rslug]> m) m zs !! z =
    if bool_decide (z ∈ Zone_Slug <$> zs) then Some rslug else m !! z.
Proof.
  revert m. induction zs as [|z0 zs IH]; intros m; csimpl; [done|].
  rewrite IH. destruct (decide (z ∈ Zone_Slug <$> zs)) as [Hin|Hin].
  - rewrite !bool_decide_eq_true_2; [done|by right|done].
  - rewrite (bool_decide_eq_false_2 (z ∈ Zone_Slug <$> zs)) by done.
    destruct (decide (z = Zone_Slug z0)) as [->|Hne].
    + rewrite lookup_insert_eq, bool_decide_eq_true_2; [done|by left].
    + rewrite lookup_insert_ne by done. rewrite bool_decide_eq_false_2; [done|].
      rewrite elem_of_cons. tauto.
Qed.

Lemma NewRegionInfo_snoc rs r : NewRegionInfo (rs ++ [r]) = addRegion (NewRegionInfo rs) r.
Proof. unfold NewRegionInfo. by rewrite foldl_app. Qed.

Lemma zones_sound rs z rslug :
  zones (NewRegionInfo rs) !! z = Some rslug →
  ∃ r, r ∈ rs ∧ Region_Slug r = rslug ∧ z ∈ zone_slugs r.
Proof.
  induction rs as [|r rs IH] using rev_ind; [done|].
  rewrite NewRegionInfo_snoc. simpl. rewrite zones_fill. case_bool_decide as Hz.
  - intros [= <-]. exists r. split_and!; [apply elem_of_app; right; by left|done|done].
  - intros H. destruct (IH H) as (r' & ? & ? & ?). exists r'. split_and!; [apply elem_of_app; by left|done|done].
Qed.

Lemma zones_complete rs z r :
  r ∈ rs → z ∈ zone_slugs r → is_Some (zones (NewRegionInfo rs) !! z).
Proof.
  induction rs as [|r' rs IH] using rev_ind; [by intros ?%not_elem_of_nil|].
  rewrite NewRegionInfo_snoc. simpl. rewrite zones_fill.
  intros [Hr| ->%list_elem_of_singleton]%elem_of_app Hz.
  - case_bool_decide; [done|by apply IH].
  - by rewrite bool_decide_eq_true_2.
Qed.

Lemma regions_spec rs rslug zs :
  regions (NewRegionInfo rs) !! rslug = Some zs →
  ∃ r, r ∈ rs ∧ Region_Slug r = rslug ∧ zs = zone_slugs r.
Proof.
  induction rs as [|r rs IH] using rev_ind; [done|].
  rewrite NewRegionInfo_snoc. simpl. intros [[<- <-]|[_ H]]%lookup_insert_Some.
  - exists r. split_and!; [apply elem_of_app; right; by left|done|done].
  - destruct (IH H) as (r' & ? & ? & ?). exists r'. split_and!; [apply elem_of_app; by left|done|done].
Qed.

(** The listing is a partition: a zone belongs to one region. *)
Definition partitioned (rs : list Region) : Prop :=
  ∀ r r' z, r ∈ rs → r' ∈ rs → z ∈ zone_slugs r → z ∈ zone_slugs r' → Region_Slug r = Region_Slug r'.

Lemma ZoneBelongsToRegion_iff rs zone region :
  partitioned rs →
  ZoneBelongsToRegion (NewRegionInfo rs) zone region = true ↔
    ∃ r, r ∈ rs ∧ Region_Slug r = region ∧ zone ∈ zone_slugs r.
Proof.
  intros Hp. unfold ZoneBelongsToRegion. split.
  - destruct (zones _ !! zone) as [rslug|] eqn:E; [|done]. intros ->%bool_decide_eq_true_1.
    by apply zones_sound.
  - intros (r & Hr & <- & Hz). destruct (zones_complete rs zone r Hr Hz) as [rslug E].
    rewrite E. apply bool_decide_eq_true_2. apply zones_sound in E as (r' & Hr' & <- & Hz').
    by eapply Hp.
Qed.

Lemma GetDefaultZone_belongs rs region :
  partitioned rs → GetDefaultZoneForRegion (NewRegionInfo rs) region ≠ "" →
  ZoneBelongsToRegion (NewRegionInfo rs) (GetDefaultZoneForRegion (NewRegionInfo rs) region) region = true.
Proof.
  intros Hp. unfold GetDefaultZoneForRegion.
  destruct (regions _ !! region) as [[|z zs]|] eqn:E; simpl; [done| |done]. intros _.
  apply ZoneBelongsToRegion_iff; [done|].
  apply regions_spec in E as (r & Hr & Hs & Hz). exists r. split_and!; [done..|].
  rewrite <- Hz. by left.
Qed.
End Regions.

(** ** flavors.go *)

Module Flavors.
(** slug -> Flavor; a later entry of the same slug wins. *)
Abbreviation FlavorInfo := (gmap string Flavor).

Definition NewFlavorInfo (fs : list Flavor) : FlavorInfo := index_by Flavor_Slug fs.

Definition IsValidFlavor (fi : FlavorInfo) (slug : string) : bool :=
  match fi !! slug with Some _ => true | None => false end.

Definition GetFlavor (fi : FlavorInfo) (slug : string) : option Flavor := fi !! slug.

Definition GetAllFlavors (fi : FlavorInfo) : list string := (map_to_list fi).*1.

Definition ResourceCPU : string := "cpu".
Definition ResourceMemory : string := "memory".
Definition ResourceNvidiaGPU : string := "nvidia.com/gpu".

Section capacity.
(** [resource.MustParse] of k8s.io/apimachinery *)
Context {Quantity : Type} (MustParse : string → Quantity).

Definition GetCapacity (fi : FlavorInfo) (slug : string) : Res (gmap string Quantity) :=
  match fi !! slug with
  | None => Err (errorString ("unknown flavor: " +:+ slug))
  | Some flavor =>
      let capacity := {[ ResourceCPU := MustParse (itoa (Flavor_VCPUCount flavor));
                         ResourceMemory := MustParse (itoa (Flavor_MemoryGB flavor) +:+ "Gi") ]} in
      match Flavor_GPU flavor with
      | Some gpu =>
          if (GPU_Count gpu >? 0)%Z
          then Ok (<[ResourceNvidiaGPU := MustParse (itoa (GPU_Count gpu))]> capacity)
          else Ok capacity
      | None => Ok capacity
      end
  end.
End capacity.

Lemma IsValidFlavor_iff fs slug :
  IsValidFlavor (NewFlavorInfo fs) slug = true ↔ slug ∈ (Flavor_Slug <$> fs).
Proof.
  unfold IsValidFlavor, NewFlavorInfo. rewrite <- index_by_is_Some.
  destruct (index_by _ _ !! slug); split; [by eauto|done|done|by intros []].
Qed.
End Flavors.
