(* ===== verification/TestUtils.v ===== *)
(** * The test utilities (src/internal/testutils)

    The mocks of the cloud's services, whose functions a test sets one by one and
    whose other functions answer that they are not configured; the cluster and the
    machine scope that the tests start from, with the options that change them; and
    the other fixtures. The mocks' functions for calls that the controllers never make
    (most Updates, and reading one pool member) are left out, as they are from the
    services. The file UnitTests runs the repository's tests with them. *)

From S2P Require Export Scope Catalog.

#[local] Open Scope Z_scope.

(** ** Mocks (mocks.go) *)

Section mocks.
Context {W : Type}.

Definition notConfigured {A} (function : string) : W → Res A * W := λ w,
  (Err (errorString ("mock(" +:+ function +:+ ") not configured")), w).

(** A function that is set is called. *)
Definition orNotConfigured {A} (function : string) (fn : option (W → Res A * W)) : W → Res A * W :=
  match fn with Some fn => fn | None => notConfigured function end.

(** The four functions that a mock of a resource has. *)
Record MockService (Req T : Type) := mkMockService {
  CreateFn : option (Req → W → Res T * W);
  GetFn : option (string → W → Res T * W);
  ListFn : option (TagMap → W → Res (list T) * W);
  DeleteFn : option (string → W → Res unit * W) }.
Arguments mkMockService {Req T}.
Arguments CreateFn {Req T}.
Arguments GetFn {Req T}.
Arguments ListFn {Req T}.
Arguments DeleteFn {Req T}.

Section methods.
Context {Req T : Type} (m : MockService Req T).
Definition mock_Create (req : Req) : W → Res T * W := orNotConfigured "Create" ((λ fn, fn req) <$> CreateFn m).
Definition mock_Get (id : string) : W → Res T * W := orNotConfigured "Get" ((λ fn, fn id) <$> GetFn m).
Definition mock_List (tags : TagMap) : W → Res (list T) * W := orNotConfigured "List" ((λ fn, fn tags) <$> ListFn m).
Definition mock_Delete (id : string) : W → Res unit * W := orNotConfigured "Delete" ((λ fn, fn id) <$> DeleteFn m).
Definition mocked : Service W Req T := mkService mock_Create mock_Get mock_List mock_Delete.
End methods.

(** A mock with nothing set. *)
Definition noMock {Req T} : MockService Req T := mkMockService None None None None.

Definition MockNetworkService := MockService NetworkCreateRequest Network.
Definition MockNetworks (m : MockNetworkService) : NetworkService W := mocked m.

Definition MockServerService := MockService ServerRequest Server.
Definition MockServers (m : MockServerService) : ServerService W := mocked m.

Definition MockSubnetService := MockService SubnetCreateRequest Subnet.
Definition MockSubnets (m : MockSubnetService) : SubnetService W := mocked m.

Definition MockServerGroupService := MockService ServerGroupRequest ServerGroup.
Definition MockServerGroups (m : MockServerGroupService) : ServerGroupService W := mocked m.

Definition MockLoadBalancerService := MockService LoadBalancerRequest LoadBalancer.
Definition MockLoadBalancers (m : MockLoadBalancerService) : LoadBalancerService W := mocked m.

Definition MockLoadBalancerPoolService := MockService LoadBalancerPoolRequest LoadBalancerPool.
Definition MockLoadBalancerPools (m : MockLoadBalancerPoolService) : LoadBalancerPoolService W := mocked m.

Definition MockLoadBalancerListenerService := MockService LoadBalancerListenerRequest LoadBalancerListener.
Definition MockLoadBalancerListeners (m : MockLoadBalancerListenerService) : LoadBalancerListenerService W := mocked m.

Definition MockLoadBalancerHealthMonitorService :=
  MockService LoadBalancerHealthMonitorRequest LoadBalancerHealthMonitor.
Definition MockLoadBalancerHealthMonitors (m : MockLoadBalancerHealthMonitorService)
    : LoadBalancerHealthMonitorService W := mocked m.

Record MockRouterService := mkMockRouterService {
  MockRouter_base : MockService RouterCreateRequest Router;
  CreateInterfaceFn : option (string → CreateInterfaceRequest → W → Res RouterInterface * W);
  DeleteInterfaceFn : option (string → string → W → Res unit * W) }.
Definition MockRouters (m : MockRouterService) : RouterService W := {|
  router_service := mocked (MockRouter_base m);
  router_CreateInterface router req :=
    orNotConfigured "CreateInterface" ((λ fn, fn router req) <$> CreateInterfaceFn m);
  router_DeleteInterface router iface :=
    orNotConfigured "DeleteInterface" ((λ fn, fn router iface) <$> DeleteInterfaceFn m) |}.

Record MockFloatingIPService := mkMockFloatingIPService {
  MockFloatingIP_base : MockService FloatingIPCreateRequest FloatingIP;
  FloatingIP_UpdateFn : option (string → FloatingIPUpdateRequest → W → Res unit * W) }.
Definition MockFloatingIPs (m : MockFloatingIPService) : FloatingIPService W := {|
  fip_service := mocked (MockFloatingIP_base m);
  fip_Update id req := orNotConfigured "Update" ((λ fn, fn id req) <$> FloatingIP_UpdateFn m) |}.

Record MockLoadBalancerPoolMemberService := mkMockLoadBalancerPoolMemberService {
  Member_CreateFn : option (string → LoadBalancerPoolMemberRequest → W → Res LoadBalancerPoolMember * W);
  Member_ListFn : option (string → W → Res (list LoadBalancerPoolMember) * W);
  Member_DeleteFn : option (string → string → W → Res unit * W);
  Member_UpdateFn : option (string → string → LoadBalancerPoolMemberRequest → W → Res unit * W) }.
(** This mock words its answer differently, and a deletion that is not set succeeds. *)
Definition MockLoadBalancerPoolMembers (m : MockLoadBalancerPoolMemberService) : LoadBalancerPoolMemberService W :=
  let unset {A} : W → Res A * W := λ w, (Err (errorString "mock not configured"), w) in {|
  member_Create pool req := match Member_CreateFn m with Some fn => fn pool req | None => unset end;
  member_List pool := match Member_ListFn m with Some fn => fn pool | None => unset end;
  member_Delete pool member :=
    match Member_DeleteFn m with Some fn => fn pool member | None => λ w, (Ok (), w) end;
  member_Update pool member req := orNotConfigured "Update" ((λ fn, fn pool member req) <$> Member_UpdateFn m) |}.

(** A service that is not wired is a nil interface: to call it is a panic. *)
Definition nilCall {A} : W → Res A * W := λ w, (Err nilDereference, w).
Definition nilService {Req T} : Service W Req T :=
  mkService (λ _, nilCall) (λ _, nilCall) (λ _, nilCall) (λ _, nilCall).
Definition emptyClient : Client W := {|
  Networks := nilService; Subnets := nilService;
  Routers := {| router_service := nilService; router_CreateInterface _ _ := nilCall; router_DeleteInterface _ _ := nilCall |};
  Servers := nilService; ServerGroups := nilService; LoadBalancers := nilService; LoadBalancerPools := nilService;
  LoadBalancerPoolMembers :=
    {| member_Create _ _ := nilCall; member_List _ := nilCall; member_Delete _ _ := nilCall; member_Update _ _ _ := nilCall |};
  LoadBalancerListeners := nilService; LoadBalancerHealthMonitors := nilService;
  FloatingIPs := {| fip_service := nilService; fip_Update _ _ := nilCall |} |}.
End mocks.
Arguments MockService : clear implicits.
Arguments mkMockService {W Req T}.
Arguments MockRouterService : clear implicits.
Arguments MockFloatingIPService : clear implicits.
Arguments MockLoadBalancerPoolMemberService : clear implicits.

(** ** Scopes (cluster_scope.go) *)

Section fixtures.
Context `{P : Platform}.

(** What Go's scope points to: the Cluster, the CloudscaleCluster that the reconcile
    changes, and the client. *)
Record ClusterFixture := mkClusterFixture {
  cf_Cluster : Cluster; cf_CloudscaleCluster : CloudscaleCluster; cf_Client : Client World }.

Definition ClusterScopeOption : Type := ClusterFixture → ClusterFixture.

Definition emptyStatus : CloudscaleClusterStatus := mkCloudscaleClusterStatus None [] [] "" "" "" "" "" [] [].

Definition clusterMeta (name : string) : ObjectMeta := mkObjectMeta name "default" ∅ [] None.

Definition NewClusterScopeOpts (opts : list ClusterScopeOption) : ClusterFixture :=
  foldl (λ cs opt, opt cs)
    {| cf_Cluster := mkCluster "test-cluster" "default" "" None;
       cf_CloudscaleCluster :=
         mkCloudscaleCluster (clusterMeta "test-cluster")
           {| CloudscaleClusterSpec_Region := "rma"; CloudscaleClusterSpec_Zone := "rma1";
              CloudscaleClusterSpec_CredentialsRef := mkCloudscaleCredentialsReference "" "";
              CloudscaleClusterSpec_ControlPlaneEndpoint := mkAPIEndpoint "" 0;
              CloudscaleClusterSpec_Networks := [mkNetworkSpec "test" "" "10.0.0.0/24" 0 ""];
              CloudscaleClusterSpec_Routers := [];
              CloudscaleClusterSpec_ControlPlaneLoadBalancer :=
                {| LoadBalancerSpec_Enabled := Some false; LoadBalancerSpec_Algorithm := "";
                   LoadBalancerSpec_Flavor := ""; LoadBalancerSpec_APIServerPort := 6443;
                   LoadBalancerSpec_Network := ""; LoadBalancerSpec_PoolMemberNetwork := "";
                   LoadBalancerSpec_HealthMonitor := mkHealthMonitorSpec 5 3 2 3 |};
              CloudscaleClusterSpec_FloatingIP := None |}
           emptyStatus;
       cf_Client := emptyClient |} opts.

(** Changes of the parts *)
Definition upd_client (f : Client World → Client World) : ClusterScopeOption := λ cs,
  mkClusterFixture (cf_Cluster cs) (cf_CloudscaleCluster cs) (f (cf_Client cs)).
Definition upd_cluster (f : CloudscaleCluster → CloudscaleCluster) : ClusterScopeOption := λ cs,
  mkClusterFixture (cf_Cluster cs) (f (cf_CloudscaleCluster cs)) (cf_Client cs).
Definition upd_lbspec (f : LoadBalancerSpec → LoadBalancerSpec) : ClusterScopeOption :=
  upd_cluster (upd_spec (λ sp, set_CloudscaleClusterSpec_ControlPlaneLoadBalancer
    (f (CloudscaleClusterSpec_ControlPlaneLoadBalancer sp)) sp)).

Definition WithLBService (svc : LoadBalancerService World) : ClusterScopeOption :=
  upd_client (λ cl, {| Networks := Networks cl; Subnets := Subnets cl; Routers := Routers cl; Servers := Servers cl; ServerGroups := ServerGroups cl; LoadBalancers := svc; LoadBalancerPools := LoadBalancerPools cl; LoadBalancerPoolMembers := LoadBalancerPoolMembers cl; LoadBalancerListeners := LoadBalancerListeners cl; LoadBalancerHealthMonitors := LoadBalancerHealthMonitors cl; FloatingIPs := FloatingIPs cl |}).
Definition WithPoolService (svc : LoadBalancerPoolService World) : ClusterScopeOption :=
  upd_client (λ cl, {| Networks := Networks cl; Subnets := Subnets cl; Routers := Routers cl; Servers := Servers cl; ServerGroups := ServerGroups cl; LoadBalancers := LoadBalancers cl; LoadBalancerPools := svc; LoadBalancerPoolMembers := LoadBalancerPoolMembers cl; LoadBalancerListeners := LoadBalancerListeners cl; LoadBalancerHealthMonitors := LoadBalancerHealthMonitors cl; FloatingIPs := FloatingIPs cl |}).
Definition WithListenerService (svc : LoadBalancerListenerService World) : ClusterScopeOption :=
  upd_client (λ cl, {| Networks := Networks cl; Subnets := Subnets cl; Routers := Routers cl; Servers := Servers cl; ServerGroups := ServerGroups cl; LoadBalancers := LoadBalancers cl; LoadBalancerPools := LoadBalancerPools cl; LoadBalancerPoolMembers := LoadBalancerPoolMembers cl; LoadBalancerListeners := svc; LoadBalancerHealthMonitors := LoadBalancerHealthMonitors cl; FloatingIPs := FloatingIPs cl |}).
Definition WithHMService (svc : LoadBalancerHealthMonitorService World) : ClusterScopeOption :=
  upd_client (λ cl, {| Networks := Networks cl; Subnets := Subnets cl; Routers := Routers cl; Servers := Servers cl; ServerGroups := ServerGroups cl; LoadBalancers := LoadBalancers cl; LoadBalancerPools := LoadBalancerPools cl; LoadBalancerPoolMembers := LoadBalancerPoolMembers cl; LoadBalancerListeners := LoadBalancerListeners cl; LoadBalancerHealthMonitors := svc; FloatingIPs := FloatingIPs cl |}).
Definition WithMemberService (svc : LoadBalancerPoolMemberService World) : ClusterScopeOption :=
  upd_client (λ cl, {| Networks := Networks cl; Subnets := Subnets cl; Routers := Routers cl; Servers := Servers cl; ServerGroups := ServerGroups cl; LoadBalancers := LoadBalancers cl; LoadBalancerPools := LoadBalancerPools cl; LoadBalancerPoolMembers := svc; LoadBalancerListeners := LoadBalancerListeners cl; LoadBalancerHealthMonitors := LoadBalancerHealthMonitors cl; FloatingIPs := FloatingIPs cl |}).
Definition WithNetworkService (svc : NetworkService World) : ClusterScopeOption :=
  upd_client (λ cl, {| Networks := svc; Subnets := Subnets cl; Routers := Routers cl; Servers := Servers cl; ServerGroups := ServerGroups cl; LoadBalancers := LoadBalancers cl; LoadBalancerPools := LoadBalancerPools cl; LoadBalancerPoolMembers := LoadBalancerPoolMembers cl; LoadBalancerListeners := LoadBalancerListeners cl; LoadBalancerHealthMonitors := LoadBalancerHealthMonitors cl; FloatingIPs := FloatingIPs cl |}).
Definition WithSubnetService (svc : SubnetService World) : ClusterScopeOption :=
  upd_client (λ cl, {| Networks := Networks cl; Subnets := svc; Routers := Routers cl; Servers := Servers cl; ServerGroups := ServerGroups cl; LoadBalancers := LoadBalancers cl; LoadBalancerPools := LoadBalancerPools cl; LoadBalancerPoolMembers := LoadBalancerPoolMembers cl; LoadBalancerListeners := LoadBalancerListeners cl; LoadBalancerHealthMonitors := LoadBalancerHealthMonitors cl; FloatingIPs := FloatingIPs cl |}).
Definition WithRouterService (svc : RouterService World) : ClusterScopeOption :=
  upd_client (λ cl, {| Networks := Networks cl; Subnets := Subnets cl; Routers := svc; Servers := Servers cl; ServerGroups := ServerGroups cl; LoadBalancers := LoadBalancers cl; LoadBalancerPools := LoadBalancerPools cl; LoadBalancerPoolMembers := LoadBalancerPoolMembers cl; LoadBalancerListeners := LoadBalancerListeners cl; LoadBalancerHealthMonitors := LoadBalancerHealthMonitors cl; FloatingIPs := FloatingIPs cl |}).
Definition WithServerGroupService (svc : ServerGroupService World) : ClusterScopeOption :=
  upd_client (λ cl, {| Networks := Networks cl; Subnets := Subnets cl; Routers := Routers cl; Servers := Servers cl; ServerGroups := svc; LoadBalancers := LoadBalancers cl; LoadBalancerPools := LoadBalancerPools cl; LoadBalancerPoolMembers := LoadBalancerPoolMembers cl; LoadBalancerListeners := LoadBalancerListeners cl; LoadBalancerHealthMonitors := LoadBalancerHealthMonitors cl; FloatingIPs := FloatingIPs cl |}).
Definition WithFloatingIPService (svc : FloatingIPService World) : ClusterScopeOption :=
  upd_client (λ cl, {| Networks := Networks cl; Subnets := Subnets cl; Routers := Routers cl; Servers := Servers cl; ServerGroups := ServerGroups cl; LoadBalancers := LoadBalancers cl; LoadBalancerPools := LoadBalancerPools cl; LoadBalancerPoolMembers := LoadBalancerPoolMembers cl; LoadBalancerListeners := LoadBalancerListeners cl; LoadBalancerHealthMonitors := LoadBalancerHealthMonitors cl; FloatingIPs := svc |}).

(** The load balancer's specification *)
Definition WithLBEnabled (enabled : bool) : ClusterScopeOption :=
  upd_lbspec (λ lb, mkLoadBalancerSpec (Some enabled) (LoadBalancerSpec_Algorithm lb) (LoadBalancerSpec_Flavor lb) (LoadBalancerSpec_APIServerPort lb) (LoadBalancerSpec_Network lb) (LoadBalancerSpec_PoolMemberNetwork lb) (LoadBalancerSpec_HealthMonitor lb)).
Definition WithFlavor (flavor : string) : ClusterScopeOption :=
  upd_lbspec (λ lb, mkLoadBalancerSpec (LoadBalancerSpec_Enabled lb) (LoadBalancerSpec_Algorithm lb) flavor (LoadBalancerSpec_APIServerPort lb) (LoadBalancerSpec_Network lb) (LoadBalancerSpec_PoolMemberNetwork lb) (LoadBalancerSpec_HealthMonitor lb)).
Definition WithAlgorithm (alg : string) : ClusterScopeOption :=
  upd_lbspec (λ lb, mkLoadBalancerSpec (LoadBalancerSpec_Enabled lb) alg (LoadBalancerSpec_Flavor lb) (LoadBalancerSpec_APIServerPort lb) (LoadBalancerSpec_Network lb) (LoadBalancerSpec_PoolMemberNetwork lb) (LoadBalancerSpec_HealthMonitor lb)).
Definition WithAPIServerPort (port : Z) : ClusterScopeOption :=
  upd_lbspec (λ lb, mkLoadBalancerSpec (LoadBalancerSpec_Enabled lb) (LoadBalancerSpec_Algorithm lb) (LoadBalancerSpec_Flavor lb) port (LoadBalancerSpec_Network lb) (LoadBalancerSpec_PoolMemberNetwork lb) (LoadBalancerSpec_HealthMonitor lb)).
Definition WithHealthMonitorParams (delayS timeoutS upThreshold downThreshold : Z) : ClusterScopeOption :=
  upd_lbspec (λ lb, mkLoadBalancerSpec (LoadBalancerSpec_Enabled lb) (LoadBalancerSpec_Algorithm lb) (LoadBalancerSpec_Flavor lb) (LoadBalancerSpec_APIServerPort lb) (LoadBalancerSpec_Network lb) (LoadBalancerSpec_PoolMemberNetwork lb) (mkHealthMonitorSpec delayS timeoutS upThreshold downThreshold)).

(** Status and specification entries *)
Definition addNetworkStatus (ns : NetworkStatus) : ClusterScopeOption :=
  upd_cluster (upd_status (λ st, set_CloudscaleClusterStatus_Networks (CloudscaleClusterStatus_Networks st ++ [ns]) st)).
Definition WithPreExistingNetwork (name netID subnetID cidr : string) : ClusterScopeOption :=
  addNetworkStatus (mkNetworkStatus name netID subnetID cidr 0 true "").
Definition WithAdoptedNetwork (name netID subnetID cidr : string) : ClusterScopeOption :=
  addNetworkStatus (mkNetworkStatus name netID subnetID cidr 0 false "").

Definition set_Routers (l : list RouterSpec) (sp : CloudscaleClusterSpec) : CloudscaleClusterSpec :=
  mkCloudscaleClusterSpec (CloudscaleClusterSpec_Region sp) (CloudscaleClusterSpec_Zone sp)
    (CloudscaleClusterSpec_CredentialsRef sp) (CloudscaleClusterSpec_ControlPlaneEndpoint sp)
    (CloudscaleClusterSpec_Networks sp) l (CloudscaleClusterSpec_ControlPlaneLoadBalancer sp)
    (CloudscaleClusterSpec_FloatingIP sp).
Definition WithRouter (routerSpec : RouterSpec) : ClusterScopeOption :=
  upd_cluster (upd_spec (λ sp, set_Routers (CloudscaleClusterSpec_Routers sp ++ [routerSpec]) sp)).
Definition WithRouterStatus (name routerID : string) (managed : bool) (interfaces : list RouterInterfaceStatus)
    : ClusterScopeOption :=
  upd_cluster (upd_status (λ st,
    set_CloudscaleClusterStatus_Routers
      (CloudscaleClusterStatus_Routers st ++ [mkRouterStatus name routerID interfaces managed]) st)).

Definition WithControlPlaneEndpoint : ClusterScopeOption := λ cs,
  upd_cluster (upd_spec (set_CloudscaleClusterSpec_ControlPlaneEndpoint (mkAPIEndpoint "10.20.30.40" 6443)))
    (upd_cluster (upd_status (set_CloudscaleClusterStatus_LoadBalancerListenerID "test-lb-listener-id"))
       (upd_cluster (upd_status (set_CloudscaleClusterStatus_LoadBalancerPoolID "test-lb-pool-id"))
          (upd_cluster (upd_status (set_CloudscaleClusterStatus_LoadBalancerID "test-lb-id"))
             (WithLBEnabled true cs)))).

(** *** Machines *)

(** The objects that the fake Kubernetes client serves (fake_client.go). *)
Record FakeClient := mkFakeClient {
  fake_clusters : list CloudscaleCluster;
  fake_machines : list CloudscaleMachine;
  fake_secrets : list ((string * string) * gmap string string) }.

Inductive FakeObject :=
  | FakeCluster (c : CloudscaleCluster)
  | FakeMachine (m : CloudscaleMachine)
  | FakeSecret (key : string * string) (data : gmap string string).

Definition NewFakeClient (objs : list FakeObject) : FakeClient := {|
  fake_clusters := omap (λ o, match o with FakeCluster c => Some c | _ => None end) objs;
  fake_machines := omap (λ o, match o with FakeMachine m => Some m | _ => None end) objs;
  fake_secrets := omap (λ o, match o with FakeSecret k d => Some (k, d) | _ => None end) objs |}.

Record MachineFixture := mkMachineFixture {
  mf_scope : MachineScope; mf_CloudscaleMachine : CloudscaleMachine; mf_FakeClient : FakeClient }.

Definition MachineScopeOption : Type := MachineFixture → MachineFixture.

Definition emptyMachineStatus : CloudscaleMachineStatus := mkCloudscaleMachineStatus None "" [] "" [].

Definition setServers (svc : ServerService World) (cl : Client World) : Client World :=
  {| Networks := Networks cl; Subnets := Subnets cl; Routers := Routers cl; Servers := svc; ServerGroups := ServerGroups cl; LoadBalancers := LoadBalancers cl; LoadBalancerPools := LoadBalancerPools cl; LoadBalancerPoolMembers := LoadBalancerPoolMembers cl; LoadBalancerListeners := LoadBalancerListeners cl; LoadBalancerHealthMonitors := LoadBalancerHealthMonitors cl; FloatingIPs := FloatingIPs cl |}.

Definition bootstrapScript : string := "#!/bin/bash" +:+ newline +:+ "echo 'bootstrap script'".

Definition testMachine : CloudscaleMachine :=
  mkCloudscaleMachine (clusterMeta "test-machine")
    (mkCloudscaleMachineSpec None "flex-8-4" "ubuntu-24.04" 0 None None None) emptyMachineStatus.

(** The cluster of the machine's scope. *)
Definition testMachineCluster : CloudscaleCluster :=
  mkCloudscaleCluster (clusterMeta "test-cluster")
    {| CloudscaleClusterSpec_Region := "rma"; CloudscaleClusterSpec_Zone := "rma1";
       CloudscaleClusterSpec_CredentialsRef := mkCloudscaleCredentialsReference "" "";
       CloudscaleClusterSpec_ControlPlaneEndpoint := mkAPIEndpoint "" 0;
       CloudscaleClusterSpec_Networks := []; CloudscaleClusterSpec_Routers := [];
       CloudscaleClusterSpec_ControlPlaneLoadBalancer :=
         mkLoadBalancerSpec None "" "" 0 "" "" (mkHealthMonitorSpec 0 0 0 0);
       CloudscaleClusterSpec_FloatingIP := None |}
    (set_CloudscaleClusterStatus_Networks
       [mkNetworkStatus "test" "net-uuid-123" "subnet-uuid-123" "" 0 true ""] emptyStatus).

(** [scope.NewMachineScope] fails on a missing parameter or an object that the
    patch helper refuses; both are there. *)
Definition NewTestMachineScope (serverService : ServerService World) (opts : list MachineScopeOption) : MachineFixture :=
  foldl (λ ms opt, opt ms)
    {| mf_scope :=
         {| mscope_Cluster := mkCluster "test-cluster" "default" "" None;
            mscope_Machine := mkMachine "test-machine" "default" ∅ (Some "bootstrap-secret") "" "";
            mscope_CloudscaleCluster := testMachineCluster;
            mscope_Client := setServers serverService emptyClient |};
       mf_CloudscaleMachine := testMachine;
       mf_FakeClient := NewFakeClient [FakeMachine testMachine;
         FakeSecret ("bootstrap-secret", "default") {[ "value" := bootstrapScript ]}] |} opts.

Definition WithMachineServerGroupService (svc : ServerGroupService World) : MachineScopeOption := λ ms,
  let sc := mf_scope ms in let cl := mscope_Client sc in
  mkMachineFixture
    (mkMachineScope (mscope_Cluster sc) (mscope_Machine sc) (mscope_CloudscaleCluster sc)
       {| Networks := Networks cl; Subnets := Subnets cl; Routers := Routers cl; Servers := Servers cl; ServerGroups := svc; LoadBalancers := LoadBalancers cl; LoadBalancerPools := LoadBalancerPools cl; LoadBalancerPoolMembers := LoadBalancerPoolMembers cl; LoadBalancerListeners := LoadBalancerListeners cl; LoadBalancerHealthMonitors := LoadBalancerHealthMonitors cl; FloatingIPs := FloatingIPs cl |})
    (mf_CloudscaleMachine ms) (mf_FakeClient ms).

Definition upd_machine (f : CloudscaleMachine → CloudscaleMachine) : MachineScopeOption := λ ms,
  mkMachineFixture (mf_scope ms) (f (mf_CloudscaleMachine ms)) (mf_FakeClient ms).

Definition WithServerGroup (sg : option ServerGroupSpec) : MachineScopeOption :=
  upd_machine (upd_mspec (λ sp, mkCloudscaleMachineSpec (CloudscaleMachineSpec_ProviderID sp)
    (CloudscaleMachineSpec_Flavor sp) (CloudscaleMachineSpec_Image sp) (CloudscaleMachineSpec_RootVolumeSize sp)
    (CloudscaleMachineSpec_TagsOrNil sp) sg (CloudscaleMachineSpec_InterfacesOrNil sp))).
End fixtures.

(** ** Fixtures (fixtures.go) *)

Definition NewControlPlaneMachine (name serverID : string) : CloudscaleMachine :=
  mkCloudscaleMachine
    (mkObjectMeta name "default" {[ ClusterNameLabel := "test-cluster"; MachineControlPlaneLabel := "" ]} [] None)
    (mkCloudscaleMachineSpec None "" "" 0 None None None)
    (mkCloudscaleMachineStatus None serverID [] "" []).

Definition NewTestFlavorInfo : Flavors.FlavorInfo := Flavors.NewFlavorInfo
  [mkFlavor "flex-4-2" 2 4 None; mkFlavor "flex-8-4" 4 8 None; mkFlavor "flex-16-8" 16 8 None;
   mkFlavor "plus-16-8" 8 16 None; mkFlavor "plus-32-16" 32 16 None;
   mkFlavor "gpu2-640-80-4-400" 80 640 (Some (mkGPU 4))].

Definition NewTestRegionInfo : Regions.RegionInfo := Regions.NewRegionInfo
  [mkRegion "rma" [mkZone "rma1"]; mkRegion "lpg" [mkZone "lpg1"]].
