(* ===== verification/TemplateCtl.v ===== *)
(** * The machine template controller
    (src/internal/controller/cloudscalemachinetemplate_controller.go)

    Writes the capacity of the template's flavour to its status, from which the
    autoscaler scales a MachineDeployment up from zero. *)

From S2P Require Export Catalog.

Section template.
(** [resource.Quantity] and [resource.MustParse] of k8s.io/apimachinery; the
    Kubernetes client and the patch helper over an abstract world. *)
Context {Quantity W : Type} (MustParse : string → Quantity).

Record CloudscaleMachineTemplate := mkCloudscaleMachineTemplate {
  CloudscaleMachineTemplate_Meta : ObjectMeta;
  CloudscaleMachineTemplate_Spec : CloudscaleMachineSpec;
  CloudscaleMachineTemplate_Capacity : gmap string Quantity }.

Definition set_capacity (v : gmap string Quantity) (t : CloudscaleMachineTemplate) : CloudscaleMachineTemplate :=
  mkCloudscaleMachineTemplate (CloudscaleMachineTemplate_Meta t) (CloudscaleMachineTemplate_Spec t) v.

Definition templateFlavor (t : CloudscaleMachineTemplate) : string :=
  CloudscaleMachineSpec_Flavor (CloudscaleMachineTemplate_Spec t).

Inductive TemplateEvent :=
  | TGet (key : string * string) (r : Res unit)
  | TPatch (snapshot patched : CloudscaleMachineTemplate) (observedGeneration : bool) (r : Res unit).

Context (kube_GetTemplate : string * string → W → Res CloudscaleMachineTemplate * W).
Context (patch_NewTemplateHelper : CloudscaleMachineTemplate → Res unit).
Context (patch_Template : CloudscaleMachineTemplate → CloudscaleMachineTemplate → bool → W → Res unit * W).

Abbreviation TM := (GoM W TemplateEvent unit).
Implicit Types (t : CloudscaleMachineTemplate) (s : St W TemplateEvent unit).

(** The FlavorInfo field may be nil. *)
Definition Reconcile (flavorInfo : option Flavors.FlavorInfo) (key : string * string) : TM Result :=
  let! r := try (call (kube_GetTemplate key) (λ r, TGet key (void r))) in
  match r with
  | Err e => if apierrors_IsNotFound e then ret emptyResult else throw e
  | Ok template =>
      match flavorInfo with
      | None => ret emptyResult
      | Some fi =>
          let! _ := of_res (patch_NewTemplateHelper template) in
          let flavor := templateFlavor template in
          if flavor == "" then ret emptyResult
          else
            match Flavors.GetCapacity MustParse fi flavor with
            | Err _ => ret emptyResult
            | Ok capacity =>
                let patched := set_capacity capacity template in
                let! _ := call (patch_Template template patched true) (λ r, TPatch template patched true r) in
                ret emptyResult
            end
      end
  end.

(** ** Theorems *)

(** The capacity of a flavour: its CPUs, its memory in gibibytes, and its GPUs
    when it has some. *)
Definition capacity_of (f : Flavor) (c : gmap string Quantity) : Prop :=
  c !! Flavors.ResourceCPU = Some (MustParse (itoa (Flavor_VCPUCount f))) ∧
  c !! Flavors.ResourceMemory = Some (MustParse (itoa (Flavor_MemoryGB f) +:+ "Gi")) ∧
  c !! Flavors.ResourceNvidiaGPU =
    match Flavor_GPU f with
    | Some gpu => if (GPU_Count gpu >? 0)%Z then Some (MustParse (itoa (GPU_Count gpu))) else None
    | None => None
    end ∧
  dom c ⊆ {[ Flavors.ResourceCPU; Flavors.ResourceMemory; Flavors.ResourceNvidiaGPU ]}.

Lemma GetCapacity_spec fi slug :
  match fi !! slug with
  | Some f => ∃ c, Flavors.GetCapacity MustParse fi slug = Ok c ∧ capacity_of f c
  | None => ∃ e, Flavors.GetCapacity MustParse fi slug = Err e
  end.
Proof.
  unfold Flavors.GetCapacity, capacity_of. destruct (fi !! slug) as [f|]; [|eauto].
  destruct (Flavor_GPU f) as [gpu|]; [destruct (GPU_Count gpu >? 0)%Z|];
    eexists; (split; [reflexivity|]);
    (split_and!; [by simplify_map_eq|by simplify_map_eq|by simplify_map_eq|set_solver]).
Qed.

(** C40. The template's status follows the catalogue. A reconcile patches the
    template exactly when it could be read, a catalogue is there, and the
    flavour is in it; the patch changes the capacity and nothing else, to the
    flavour's CPUs, memory and GPUs, and advances the observed generation. *)
Theorem template_capacity (fs : list Flavor) key s :
  let evs := calls_of (Reconcile (Some (Flavors.NewFlavorInfo fs)) key) s in
  match fst (kube_GetTemplate key (world s)) with
  | Err e => evs = [TGet key (Err e)]
  | Ok t =>
      match patch_NewTemplateHelper t with
      | Err _ => evs = [TGet key (Ok ())]
      | Ok _ =>
          (templateFlavor t ≠ "" ∧ templateFlavor t ∈ (Flavor_Slug <$> fs) →
             ∃ f c r, f ∈ fs ∧ Flavor_Slug f = templateFlavor t ∧ capacity_of f c ∧
               evs = [TGet key (Ok ()); TPatch t (set_capacity c t) true r]) ∧
          (¬ (templateFlavor t ≠ "" ∧ templateFlavor t ∈ (Flavor_Slug <$> fs)) → evs = [TGet key (Ok ())])
      end
  end.
Proof.
  unfold calls_of, Reconcile. unfold exec, bind, try, call, of_res, ret, throw.
  destruct (kube_GetTemplate key (world s)) as [[t|e] w]; simpl.
  2:{ destruct (apierrors_IsNotFound e); simpl; by rewrite drop_app_length. }
  destruct (patch_NewTemplateHelper t) as [[]|e]; simpl; [|by rewrite drop_app_length].
  destruct (templateFlavor t == "") eqn:Hf; go_bools; simpl.
  { rewrite drop_app_length. split; [by intros [? _]|done]. }
  pose proof (GetCapacity_spec (Flavors.NewFlavorInfo fs) (templateFlavor t)) as Hc.
  pose proof (index_by_is_Some Flavor_Slug fs (templateFlavor t)) as Hin.
  unfold Flavors.NewFlavorInfo in *.
  destruct (index_by Flavor_Slug fs !! templateFlavor t) as [f|] eqn:E.
  - destruct Hc as (c & -> & Hcap). simpl.
    destruct (patch_Template t _ true w) as [r w'] eqn:Ep.
    apply index_by_Some in E as [Hfin Hslug].
    split; [|intros Hn; destruct Hn; split; [done|by apply Hin]].
    intros _. exists f, c, r. split_and!; [done..|].
    destruct r as [[]|e]; simpl; by rewrite <- app_assoc, drop_app_length.
  - destruct Hc as [e ->]. simpl. rewrite drop_app_length. split; [|done].
    intros [_ H]. apply Hin in H. by destruct H.
Qed.
End template.
