(* ===== verification/Webhook.v ===== *)
(** * Admission of clusters
    (src/internal/webhook/v1beta2/cloudscalecluster_webhook.go)

    Defaulting and validation of CloudscaleCluster, as functions on the
    specification that return the list of field errors in the order in which the
    code appends them. *)

From S2P Require Export Catalog NetIP.

(** ** Field errors (k8s.io/apimachinery/pkg/util/validation/field) *)

(** A path, by the calls that built it. *)
Inductive PathElement := Child (name : string) | Index (i : nat) | Key (key : string).
Abbreviation Path := (list PathElement).

Inductive FieldError :=
  | Invalid (path : Path) (value detail : string)
  | Forbidden (path : Path) (detail : string)
  | NotFound (path : Path) (value : string)
  | Duplicate (path : Path) (value : string)
  | Required (path : Path) (detail : string)
  | TooMany (path : Path) (actual max : nat).
Abbreviation ErrorList := (list FieldError).

(** [if cond { allErrs = append(allErrs, err) }] *)
Definition when (cond : bool) (errs : ErrorList) : ErrorList := if cond then errs else [].

Definition child (p : Path) (name : string) : Path := p ++ [Child name].
Definition index (p : Path) (i : nat) : Path := p ++ [Index i].

(** ** Setters of the specification the defaulter writes *)

Definition set_Zone (v : string) (x : CloudscaleClusterSpec) : CloudscaleClusterSpec :=
  {| CloudscaleClusterSpec_Region := CloudscaleClusterSpec_Region x;
     CloudscaleClusterSpec_Zone := v;
     CloudscaleClusterSpec_CredentialsRef := CloudscaleClusterSpec_CredentialsRef x;
     CloudscaleClusterSpec_ControlPlaneEndpoint := CloudscaleClusterSpec_ControlPlaneEndpoint x;
     CloudscaleClusterSpec_Networks := CloudscaleClusterSpec_Networks x;
     CloudscaleClusterSpec_Routers := CloudscaleClusterSpec_Routers x;
     CloudscaleClusterSpec_ControlPlaneLoadBalancer := CloudscaleClusterSpec_ControlPlaneLoadBalancer x;
     CloudscaleClusterSpec_FloatingIP := CloudscaleClusterSpec_FloatingIP x |}.

Definition set_Networks (v : list NetworkSpec) (x : CloudscaleClusterSpec) : CloudscaleClusterSpec :=
  {| CloudscaleClusterSpec_Region := CloudscaleClusterSpec_Region x;
     CloudscaleClusterSpec_Zone := CloudscaleClusterSpec_Zone x;
     CloudscaleClusterSpec_CredentialsRef := CloudscaleClusterSpec_CredentialsRef x;
     CloudscaleClusterSpec_ControlPlaneEndpoint := CloudscaleClusterSpec_ControlPlaneEndpoint x;
     CloudscaleClusterSpec_Networks := v;
     CloudscaleClusterSpec_Routers := CloudscaleClusterSpec_Routers x;
     CloudscaleClusterSpec_ControlPlaneLoadBalancer := CloudscaleClusterSpec_ControlPlaneLoadBalancer x;
     CloudscaleClusterSpec_FloatingIP := CloudscaleClusterSpec_FloatingIP x |}.

Definition set_LoadBalancer (v : LoadBalancerSpec) (x : CloudscaleClusterSpec) : CloudscaleClusterSpec :=
  {| CloudscaleClusterSpec_Region := CloudscaleClusterSpec_Region x;
     CloudscaleClusterSpec_Zone := CloudscaleClusterSpec_Zone x;
     CloudscaleClusterSpec_CredentialsRef := CloudscaleClusterSpec_CredentialsRef x;
     CloudscaleClusterSpec_ControlPlaneEndpoint := CloudscaleClusterSpec_ControlPlaneEndpoint x;
     CloudscaleClusterSpec_Networks := CloudscaleClusterSpec_Networks x;
     CloudscaleClusterSpec_Routers := CloudscaleClusterSpec_Routers x;
     CloudscaleClusterSpec_ControlPlaneLoadBalancer := v;
     CloudscaleClusterSpec_FloatingIP := CloudscaleClusterSpec_FloatingIP x |}.

Definition set_FloatingIP (v : option FloatingIPSpec) (x : CloudscaleClusterSpec) : CloudscaleClusterSpec :=
  {| CloudscaleClusterSpec_Region := CloudscaleClusterSpec_Region x;
     CloudscaleClusterSpec_Zone := CloudscaleClusterSpec_Zone x;
     CloudscaleClusterSpec_CredentialsRef := CloudscaleClusterSpec_CredentialsRef x;
     CloudscaleClusterSpec_ControlPlaneEndpoint := CloudscaleClusterSpec_ControlPlaneEndpoint x;
     CloudscaleClusterSpec_Networks := CloudscaleClusterSpec_Networks x;
     CloudscaleClusterSpec_Routers := CloudscaleClusterSpec_Routers x;
     CloudscaleClusterSpec_ControlPlaneLoadBalancer := CloudscaleClusterSpec_ControlPlaneLoadBalancer x;
     CloudscaleClusterSpec_FloatingIP := v |}.

(** ** Defaulting *)

Definition defaultSubnetCIDR : string := "172.18.0.0/24".

(** [if v == zero { v = d }] *)
Definition orDefault (d v : string) : string := if v == "" then d else v.
Definition orDefaultZ (d v : Z) : Z := if (v =? 0)%Z then d else v.

Definition healthMonitorDefault (hm : HealthMonitorSpec) : HealthMonitorSpec :=
  {| HealthMonitorSpec_DelayS := orDefaultZ 5 (HealthMonitorSpec_DelayS hm);
     HealthMonitorSpec_TimeoutS := orDefaultZ 3 (HealthMonitorSpec_TimeoutS hm);
     HealthMonitorSpec_UpThreshold := orDefaultZ 2 (HealthMonitorSpec_UpThreshold hm);
     HealthMonitorSpec_DownThreshold := orDefaultZ 3 (HealthMonitorSpec_DownThreshold hm) |}.

Definition loadBalancerDefault (lb : LoadBalancerSpec) : LoadBalancerSpec :=
  {| LoadBalancerSpec_Enabled := Some (default true (LoadBalancerSpec_Enabled lb));
     LoadBalancerSpec_Algorithm := orDefault "round_robin" (LoadBalancerSpec_Algorithm lb);
     LoadBalancerSpec_Flavor := orDefault "lb-standard" (LoadBalancerSpec_Flavor lb);
     LoadBalancerSpec_APIServerPort := orDefaultZ 6443 (LoadBalancerSpec_APIServerPort lb);
     LoadBalancerSpec_Network := LoadBalancerSpec_Network lb;
     LoadBalancerSpec_PoolMemberNetwork := LoadBalancerSpec_PoolMemberNetwork lb;
     LoadBalancerSpec_HealthMonitor := healthMonitorDefault (LoadBalancerSpec_HealthMonitor lb) |}.

Definition floatingIPDefault (fip : FloatingIPSpec) : FloatingIPSpec :=
  match FloatingIPSpec_IPFamily fip with
  | None =>
      if FloatingIPSpec_Address fip == ""
      then mkFloatingIPSpec (Some IPFamilyIPv4) (FloatingIPSpec_Address fip) else fip
  | Some _ => fip
  end.

Definition clusterSpecDefault (spec : CloudscaleClusterSpec) : CloudscaleClusterSpec :=
  set_FloatingIP (floatingIPDefault <$> CloudscaleClusterSpec_FloatingIP spec)
    (set_LoadBalancer (loadBalancerDefault (CloudscaleClusterSpec_ControlPlaneLoadBalancer spec)) spec).

Definition zoneDefault (ri : Regions.RegionInfo) (spec : CloudscaleClusterSpec) : CloudscaleClusterSpec :=
  if CloudscaleClusterSpec_Zone spec == ""
  then set_Zone (Regions.GetDefaultZoneForRegion ri (CloudscaleClusterSpec_Region spec)) spec else spec.

Definition networksDefault (name : string) (spec : CloudscaleClusterSpec) : CloudscaleClusterSpec :=
  match CloudscaleClusterSpec_Networks spec with
  | [] => set_Networks [mkNetworkSpec name "" defaultSubnetCIDR 0 ""] spec
  | _ => spec
  end.

(** The defaulter of CloudscaleCluster, on the object's name and specification. *)
Definition Default (ri : Regions.RegionInfo) (name : string) (spec : CloudscaleClusterSpec)
    : CloudscaleClusterSpec :=
  clusterSpecDefault (networksDefault name (zoneDefault ri spec)).

(** ** Validation *)

Section validation.
(** The texts of [netip]'s parse errors. *)
Context (ParsePrefix_error ParseAddr_error : string → string).

Definition immutable : string := "field is immutable after cluster creation".
Definition immutableOnceSet : string := "field is immutable once set".

Definition validateAddressInCIDR (cidr address : string) (fldPath : Path) : ErrorList :=
  match ParsePrefix cidr with
  | None => []
  | Some prefix =>
      match ParseAddr address with
      | None => [Invalid fldPath address ("invalid IP address: " +:+ ParseAddr_error address)]
      | Some ip =>
          when (negb (Prefix_Contains prefix ip)) [Invalid fldPath address ("must be within CIDR " +:+ cidr)]
      end
  end.

(** One turn of the loop, after the check of the name. *)
Definition validateNetwork (netSpec : NetworkSpec) (netPath : Path) : ErrorList :=
  let hasUUID := NetworkSpec_UUID netSpec != "" in
  let hasCIDR := NetworkSpec_CIDR netSpec != "" in
  let gateway := NetworkSpec_GatewayAddress netSpec in
  when (Bool.eqb hasUUID hasCIDR)
    [Invalid netPath (NetworkSpec_Name netSpec) "exactly one of uuid or cidr must be specified"] ++
  when hasCIDR
    match ParsePrefix (NetworkSpec_CIDR netSpec) with
    | None => [Invalid (child netPath "cidr") (NetworkSpec_CIDR netSpec)
                 ("invalid CIDR: " +:+ ParsePrefix_error (NetworkSpec_CIDR netSpec))]
    | Some _ => []
    end ++
  when ((gateway != "") && negb hasCIDR)
    [Invalid (child netPath "gatewayAddress") gateway "gatewayAddress can only be set when cidr is specified"] ++
  when ((gateway != "") && hasCIDR)
    (validateAddressInCIDR (NetworkSpec_CIDR netSpec) gateway (child netPath "gatewayAddress")).

Fixpoint validateNetworksFrom (i : nat) (names : gset string) (networks : list NetworkSpec) (fldPath : Path)
    : ErrorList :=
  match networks with
  | [] => []
  | netSpec :: networks =>
      let netPath := index fldPath i in
      when (bool_decide (NetworkSpec_Name netSpec ∈ names))
        [Duplicate (child netPath "name") (NetworkSpec_Name netSpec)] ++
      validateNetwork netSpec netPath ++
      validateNetworksFrom (S i) ({[ NetworkSpec_Name netSpec ]} ∪ names) networks fldPath
  end.
Definition validateNetworks (networks : list NetworkSpec) (fldPath : Path) : ErrorList :=
  validateNetworksFrom 0 ∅ networks fldPath.

Definition validateNetworkReference (networkName : string) (networks : list NetworkSpec) (fldPath : Path)
    : ErrorList :=
  match find_by NetworkSpec_Name networkName networks with
  | Some _ => []
  | None => [NotFound fldPath networkName]
  end.

(** A map from names to the entries and their indices: the last entry of a name wins. *)
Definition indexed {A} (l : list A) : list (nat * A) := zip (seq 0 (length l)) l.

Definition newByName {A} (name : A → string) (l : list A) : gmap string (nat * A) :=
  index_by (name ∘ snd) (indexed l).

Definition validateNetworkUnchanged (newByName : gmap string (nat * NetworkSpec)) (fldPath : Path)
    (oldNet : NetworkSpec) : ErrorList :=
  match newByName !! NetworkSpec_Name oldNet with
  | None => [Forbidden fldPath ("removing network " +:+ quote (NetworkSpec_Name oldNet) +:+ " is not allowed")]
  | Some (newIdx, newNet) =>
      let newPath := index fldPath newIdx in
      when (NetworkSpec_CIDR newNet != NetworkSpec_CIDR oldNet) [Forbidden (child newPath "cidr") immutable] ++
      when (NetworkSpec_UUID newNet != NetworkSpec_UUID oldNet) [Forbidden (child newPath "uuid") immutable] ++
      when (negb (NetworkSpec_MTU newNet =? NetworkSpec_MTU oldNet)%Z) [Forbidden (child newPath "mtu") immutable] ++
      when (NetworkSpec_GatewayAddress newNet != NetworkSpec_GatewayAddress oldNet)
        [Forbidden (child newPath "gatewayAddress") immutable]
  end.

Definition validateNetworkImmutability (oldNetworks newNetworks : list NetworkSpec) (fldPath : Path)
    : ErrorList :=
  mjoin (validateNetworkUnchanged (newByName NetworkSpec_Name newNetworks) fldPath <$> oldNetworks).

(** *** Routers *)

Definition indexNetworks (networks : list NetworkSpec) : gmap string NetworkSpec :=
  index_by NetworkSpec_Name networks.

Definition validateRouterInterface (ifaceSpec : RouterInterfaceSpec) (networks : gmap string NetworkSpec)
    (routerAdopted : bool) (ifacePath : Path) : ErrorList :=
  match networks !! RouterInterfaceSpec_Network ifaceSpec with
  | None => [NotFound (child ifacePath "network") (RouterInterfaceSpec_Network ifaceSpec)]
  | Some network =>
      if RouterInterfaceSpec_UUID ifaceSpec != "" then
        when (negb routerAdopted)
          [Forbidden (child ifacePath "uuid")
             "only a router referenced by uuid carries pre-existing interfaces to adopt"] ++
        when (RouterInterfaceSpec_Address ifaceSpec != "")
          [Forbidden (child ifacePath "address")
             "the address of an adopted interface is read from the interface itself, so it cannot be requested"]
      else if RouterInterfaceSpec_Address ifaceSpec == "" then
        [Required (child ifacePath "address") "router interface address must be set explicitly"]
      else if NetworkSpec_CIDR network == "" then []
      else validateAddressInCIDR (NetworkSpec_CIDR network) (RouterInterfaceSpec_Address ifaceSpec)
             (child ifacePath "address")
  end.

Definition validateSingleRouter (routerSpec : RouterSpec) (networks : gmap string NetworkSpec)
    (routerPath : Path) : ErrorList :=
  when ((RouterSpec_UUID routerSpec != "") && RouterSpec_InternetGateway routerSpec)
    [Invalid routerPath (RouterSpec_Name routerSpec) "uuid and internetGateway are mutually exclusive"] ++
  mjoin (imap (λ j ifaceSpec, validateRouterInterface ifaceSpec networks (RouterSpec_UUID routerSpec != "")
                                (index (child routerPath "interfaces") j))
           (RouterSpec_Interfaces routerSpec)).

Definition validateRouters (routers : list RouterSpec) (networks : list NetworkSpec) (fldPath : Path)
    : ErrorList :=
  mjoin (imap (λ i routerSpec, validateSingleRouter routerSpec (indexNetworks networks) (index fldPath i))
           routers).

Definition validateInterfaceUnchanged (newIfaceByNetwork : gmap string RouterInterfaceSpec) (newPath : Path)
    (oldIface : RouterInterfaceSpec) : ErrorList :=
  match newIfaceByNetwork !! RouterInterfaceSpec_Network oldIface with
  | None =>
      [Forbidden (child newPath "interfaces")
         ("removing interface for network " +:+ quote (RouterInterfaceSpec_Network oldIface) +:+ " is not allowed")]
  | Some newIface =>
      when (RouterInterfaceSpec_Address newIface != RouterInterfaceSpec_Address oldIface)
        [Forbidden (child newPath "interfaces")
           ("address for network " +:+ quote (RouterInterfaceSpec_Network newIface)
            +:+ " is immutable after cluster creation")] ++
      when (RouterInterfaceSpec_UUID newIface != RouterInterfaceSpec_UUID oldIface)
        [Forbidden (child newPath "interfaces")
           ("uuid for network " +:+ quote (RouterInterfaceSpec_Network newIface)
            +:+ " is immutable after cluster creation")]
  end.

Definition validateRouterUnchanged (newByName : gmap string (nat * RouterSpec)) (fldPath : Path)
    (oldRouter : RouterSpec) : ErrorList :=
  match newByName !! RouterSpec_Name oldRouter with
  | None => [Forbidden fldPath ("removing router " +:+ quote (RouterSpec_Name oldRouter) +:+ " is not allowed")]
  | Some (newIdx, newRouter) =>
      let newPath := index fldPath newIdx in
      when (RouterSpec_UUID newRouter != RouterSpec_UUID oldRouter) [Forbidden (child newPath "uuid") immutable] ++
      when (negb (Bool.eqb (RouterSpec_InternetGateway newRouter) (RouterSpec_InternetGateway oldRouter)))
        [Forbidden (child newPath "internetGateway") immutable] ++
      mjoin (validateInterfaceUnchanged
               (index_by RouterInterfaceSpec_Network (RouterSpec_Interfaces newRouter)) newPath
             <$> RouterSpec_Interfaces oldRouter)
  end.

Definition validateRouterDiff (oldRouters newRouters : list RouterSpec) (fldPath : Path) : ErrorList :=
  mjoin (validateRouterUnchanged (newByName RouterSpec_Name newRouters) fldPath <$> oldRouters).

(** *** Load balancer and floating IP *)

Definition specLB (spec : CloudscaleClusterSpec) : LoadBalancerSpec :=
  CloudscaleClusterSpec_ControlPlaneLoadBalancer spec.
Definition derefEnabled (lb : LoadBalancerSpec) : bool := default true (LoadBalancerSpec_Enabled lb).

Definition validateFloatingIPRequiresLBOrPreExisting (spec : CloudscaleClusterSpec) (fldPath : Path) : ErrorList :=
  match CloudscaleClusterSpec_FloatingIP spec with
  | Some fip =>
      when ((FloatingIPSpec_Address fip == "") && negb (derefEnabled (specLB spec)))
        [Invalid (child fldPath "floatingIP") ""
           "managed floating IP requires the load balancer to be enabled; use a pre-existing floating IP if you need a floating IP without a load balancer"]
  | None => []
  end.

Definition validateLBImmutability (oldLB newLB : LoadBalancerSpec) (fldPath : Path) : ErrorList :=
  let forbid name := [Forbidden (child fldPath name) immutable] in
  let hmForbid name := [Forbidden (child (child fldPath "healthMonitor") name) immutable] in
  let hm lb := LoadBalancerSpec_HealthMonitor lb in
  when (LoadBalancerSpec_Algorithm oldLB != LoadBalancerSpec_Algorithm newLB) (forbid "algorithm") ++
  when (LoadBalancerSpec_Flavor oldLB != LoadBalancerSpec_Flavor newLB) (forbid "flavor") ++
  when (negb (LoadBalancerSpec_APIServerPort oldLB =? LoadBalancerSpec_APIServerPort newLB)%Z)
    (forbid "apiServerPort") ++
  when (LoadBalancerSpec_PoolMemberNetwork oldLB != LoadBalancerSpec_PoolMemberNetwork newLB)
    (forbid "poolMemberNetwork") ++
  when (negb (HealthMonitorSpec_DelayS (hm oldLB) =? HealthMonitorSpec_DelayS (hm newLB))%Z) (hmForbid "delayS") ++
  when (negb (HealthMonitorSpec_TimeoutS (hm oldLB) =? HealthMonitorSpec_TimeoutS (hm newLB))%Z)
    (hmForbid "timeoutS") ++
  when (negb (HealthMonitorSpec_UpThreshold (hm oldLB) =? HealthMonitorSpec_UpThreshold (hm newLB))%Z)
    (hmForbid "upThreshold") ++
  when (negb (HealthMonitorSpec_DownThreshold (hm oldLB) =? HealthMonitorSpec_DownThreshold (hm newLB))%Z)
    (hmForbid "downThreshold").

Definition validateFloatingIPRequiresPublicLB (spec : CloudscaleClusterSpec) (fldPath : Path) : ErrorList :=
  match CloudscaleClusterSpec_FloatingIP spec with
  | Some _ =>
      when (derefEnabled (specLB spec) && (LoadBalancerSpec_Network (specLB spec) != ""))
        [Invalid (child fldPath "floatingIP") ""
           "floating IPs cannot be attached to a load balancer with a private VIP; use a public load balancer or remove the floating IP"]
  | None => []
  end.

Definition validateLBPoolMemberNetworkResolvable (spec : CloudscaleClusterSpec) (fldPath : Path) : ErrorList :=
  if negb (derefEnabled (specLB spec)) then []
  else if (LoadBalancerSpec_Network (specLB spec) != "") || (LoadBalancerSpec_PoolMemberNetwork (specLB spec) != "")
  then []
  else if (length (CloudscaleClusterSpec_Networks spec) <=? 1)%nat then []
  else [Required (child fldPath "controlPlaneLoadBalancer")
          "controlPlaneLoadBalancer.network or controlPlaneLoadBalancer.poolMemberNetwork must be set to one of spec.networks[].name when multiple networks are defined; the load balancer pool members need an explicit subnet to attach to"].

Definition validateFloatingIP (fip : FloatingIPSpec) (fldPath : Path) : ErrorList :=
  let hasIPFamily := match FloatingIPSpec_IPFamily fip with Some _ => true | None => false end in
  let hasIP := FloatingIPSpec_Address fip != "" in
  when (Bool.eqb hasIPFamily hasIP) [Invalid fldPath "" "exactly one of ipFamily or ip must be specified"] ++
  match ParseAddr (FloatingIPSpec_Address fip) with
  | None => when hasIP [Invalid (child fldPath "ip") (FloatingIPSpec_Address fip)
                          ("must be a valid IP address: " +:+ ParseAddr_error (FloatingIPSpec_Address fip))]
  | Some _ => []
  end.

Definition validateFloatingIPImmutability (oldFIP newFIP : option FloatingIPSpec) (fldPath : Path) : ErrorList :=
  match oldFIP, newFIP with
  | None, None => []
  | None, Some _ => [Forbidden fldPath "floating IP cannot be added after cluster creation"]
  | Some _, None => [Forbidden fldPath "floating IP cannot be removed after cluster creation"]
  | Some oldFIP, Some newFIP =>
      when (FloatingIPSpec_Address oldFIP != FloatingIPSpec_Address newFIP)
        [Forbidden (child fldPath "ip") immutableOnceSet] ++
      when (default "" (FloatingIPSpec_IPFamily oldFIP) != default "" (FloatingIPSpec_IPFamily newFIP))
        [Forbidden (child fldPath "ipFamily") immutableOnceSet]
  end.

(** *** Creation *)

Definition validateLBReferences (spec : CloudscaleClusterSpec) (fldPath : Path) : ErrorList :=
  let lb := specLB spec in
  let networks := CloudscaleClusterSpec_Networks spec in
  let lbPath := child fldPath "controlPlaneLoadBalancer" in
  when (LoadBalancerSpec_Network lb != "")
    (validateNetworkReference (LoadBalancerSpec_Network lb) networks (child lbPath "network")) ++
  when (LoadBalancerSpec_PoolMemberNetwork lb != "")
    (validateNetworkReference (LoadBalancerSpec_PoolMemberNetwork lb) networks (child lbPath "poolMemberNetwork")).

Definition validateFloatingIPSet (spec : CloudscaleClusterSpec) (fldPath : Path) : ErrorList :=
  match CloudscaleClusterSpec_FloatingIP spec with
  | Some fip => validateFloatingIP fip (child fldPath "floatingIP")
  | None => []
  end.

(** The last three rules of creation and update. *)
Definition validateCombinations (spec : CloudscaleClusterSpec) (fldPath : Path) : ErrorList :=
  validateFloatingIPRequiresLBOrPreExisting spec fldPath ++
  validateFloatingIPRequiresPublicLB spec fldPath ++
  validateLBPoolMemberNetworkResolvable spec fldPath.

Definition clusterSpecValidateCreate (spec : CloudscaleClusterSpec) (ri : Regions.RegionInfo) (fldPath : Path)
    : ErrorList :=
  when (CloudscaleClusterSpec_Zone spec != "")
    (when (negb (Regions.ZoneBelongsToRegion ri (CloudscaleClusterSpec_Zone spec)
                   (CloudscaleClusterSpec_Region spec)))
       [Invalid (child fldPath "zone") (CloudscaleClusterSpec_Zone spec)
          ("zone must belong to region " +:+ quote (CloudscaleClusterSpec_Region spec))]) ++
  validateNetworks (CloudscaleClusterSpec_Networks spec) (child fldPath "networks") ++
  validateRouters (CloudscaleClusterSpec_Routers spec) (CloudscaleClusterSpec_Networks spec) (child fldPath "routers") ++
  validateLBReferences spec fldPath ++
  validateFloatingIPSet spec fldPath ++
  validateCombinations spec fldPath.

(** *** Update *)

Definition specPath : Path := [Child "spec"].

Definition validateEndpointImmutability (oldEndpoint newEndpoint : APIEndpoint) (fldPath : Path) : ErrorList :=
  when (APIEndpoint_Host oldEndpoint != "")
    (when (APIEndpoint_Host newEndpoint != APIEndpoint_Host oldEndpoint)
       [Forbidden (child fldPath "host") immutableOnceSet] ++
     when (negb (APIEndpoint_Port newEndpoint =? APIEndpoint_Port oldEndpoint)%Z)
       [Forbidden (child fldPath "port") immutableOnceSet]).

Definition clusterSpecValidateUpdate (old new : CloudscaleClusterSpec) : ErrorList :=
  let lbPath := child specPath "controlPlaneLoadBalancer" in
  when (CloudscaleClusterSpec_Region new != CloudscaleClusterSpec_Region old)
    [Forbidden (child specPath "region") immutable] ++
  when (CloudscaleClusterSpec_Zone new != CloudscaleClusterSpec_Zone old)
    [Forbidden (child specPath "zone") immutable] ++
  validateNetworkImmutability (CloudscaleClusterSpec_Networks old) (CloudscaleClusterSpec_Networks new)
    (child specPath "networks") ++
  validateNetworks (CloudscaleClusterSpec_Networks new) (child specPath "networks") ++
  validateRouters (CloudscaleClusterSpec_Routers new) (CloudscaleClusterSpec_Networks new) (child specPath "routers") ++
  validateRouterDiff (CloudscaleClusterSpec_Routers old) (CloudscaleClusterSpec_Routers new) (child specPath "routers") ++
  when (negb (Bool.eqb (derefEnabled (specLB new)) (derefEnabled (specLB old))))
    [Forbidden (child lbPath "enabled") immutable] ++
  when (LoadBalancerSpec_Network (specLB new) != LoadBalancerSpec_Network (specLB old))
    [Forbidden (child lbPath "network") immutableOnceSet] ++
  validateLBImmutability (specLB old) (specLB new) lbPath ++
  validateLBReferences new specPath ++
  validateEndpointImmutability (CloudscaleClusterSpec_ControlPlaneEndpoint old)
    (CloudscaleClusterSpec_ControlPlaneEndpoint new) (child specPath "controlPlaneEndpoint") ++
  validateFloatingIPImmutability (CloudscaleClusterSpec_FloatingIP old) (CloudscaleClusterSpec_FloatingIP new)
    (child specPath "floatingIP") ++
  validateFloatingIPSet new specPath ++
  validateCombinations new specPath.

(** *** Warnings *)

(** Some interface of the router is on a network of that name with a gateway. *)
Definition routerHasGateway (networks : list NetworkSpec) (router : RouterSpec) : bool :=
  existsb (λ iface,
    existsb (λ network, (NetworkSpec_Name network == RouterInterfaceSpec_Network iface)
                        && (NetworkSpec_GatewayAddress network != "")) networks)
    (RouterSpec_Interfaces router).

Definition snatWarning (router : RouterSpec) : string :=
  "Router " +:+ quote (RouterSpec_Name router) +:+
  " has internetGateway enabled but no gatewayAddress is set on its attached networks. " +:+
  "Set networks[].gatewayAddress to enable SNAT for outbound internet access.".

Definition checkSNATConfiguration (spec : CloudscaleClusterSpec) : list string :=
  snatWarning <$>
    filter (λ router, RouterSpec_InternetGateway router = true ∧
                      routerHasGateway (CloudscaleClusterSpec_Networks spec) router = false)
      (CloudscaleClusterSpec_Routers spec).

(** *** The webhook's answers: warnings, and the errors of a refusal *)

(** [apierrors.NewInvalid] *)
Record StatusInvalid := mkStatusInvalid {
  StatusInvalid_Kind : string; StatusInvalid_Name : string; StatusInvalid_Errors : ErrorList }.

Definition answer (kind name : string) (warnings : list string) (allErrs : ErrorList)
    : list string * option StatusInvalid :=
  (warnings, match allErrs with [] => None | _ => Some (mkStatusInvalid kind name allErrs) end).

Definition ValidateCreate (ri : Regions.RegionInfo) (cluster : CloudscaleCluster) :=
  answer "CloudscaleCluster" (ObjectMeta_Name (CloudscaleCluster_Meta cluster))
    (checkSNATConfiguration (CloudscaleCluster_Spec cluster))
    (clusterSpecValidateCreate (CloudscaleCluster_Spec cluster) ri specPath).

Definition ValidateUpdate (oldCluster newCluster : CloudscaleCluster) :=
  answer "CloudscaleCluster" (ObjectMeta_Name (CloudscaleCluster_Meta newCluster))
    (checkSNATConfiguration (CloudscaleCluster_Spec newCluster))
    (clusterSpecValidateUpdate (CloudscaleCluster_Spec oldCluster) (CloudscaleCluster_Spec newCluster)).

(** A deletion is never refused. *)
Definition ValidateDelete (cluster : CloudscaleCluster) : list string * option StatusInvalid := ([], None).
End validation.
