(* ===== verification/Admission.v ===== *)
(** * What cluster admission guarantees

    A declarative description of the specifications the cluster webhook admits,
    proved equivalent to its validation; the idempotence of its defaulting; what
    an admitted update keeps; and, over the whole life of an object, the
    invariant that every admitted specification is valid. *)

From S2P Require Export Webhook.

(** ** Error lists that are empty *)

Lemma when_nil b errs : when b errs = [] ↔ (b = true → errs = []).
Proof. destruct b; simpl; naive_solver. Qed.
Lemma singleton_nil {A} (x : A) : [x] = [] ↔ False.
Proof. done. Qed.
Lemma when_changed `{EqDecision A} (x y : A) e : when (x != y) [e] = [] ↔ x = y.
Proof. rewrite when_nil, singleton_nil. case_bool_decide; naive_solver. Qed.
Lemma when_changedZ (x y : Z) e : when (negb (x =? y)%Z) [e] = [] ↔ x = y.
Proof. rewrite when_nil, singleton_nil. destruct (Z.eqb_spec x y); naive_solver. Qed.
Lemma when_changedB (x y : bool) e : when (negb (Bool.eqb x y)) [e] = [] ↔ x = y.
Proof. destruct x, y; naive_solver. Qed.
Lemma mjoin_nil {A} (l : list (list A)) : mjoin l = [] ↔ Forall (λ x, x = []) l.
Proof.
  induction l as [|x l IH]; simpl; [by rewrite Forall_nil|].
  by rewrite app_nil, IH, Forall_cons.
Qed.
Lemma Forall_imap {A B} (f : nat → A → B) (P : B → Prop) (Q : A → Prop) l :
  (∀ i x, P (f i x) ↔ Q x) → Forall P (imap f l) ↔ Forall Q l.
Proof.
  revert f. induction l as [|x l IH]; intros f H; simpl; [by rewrite !Forall_nil|].
  rewrite !Forall_cons, H, (IH (f ∘ S)); [done|]. intros i y. apply H.
Qed.
(** Clears a conjunction of empty error lists into the conditions tested. *)
Ltac no_errors :=
  rewrite ?app_nil, ?when_nil, ?mjoin_nil, ?singleton_nil.

(** ** Valid specifications *)

(** The address lies in the CIDR. *)
Definition in_cidr (cidr address : string) : Prop :=
  ∃ p ip, ParsePrefix cidr = Some p ∧ ParseAddr address = Some ip ∧ Prefix_Contains p ip = true.

(** A network is either adopted by its UUID or managed with a CIDR; only a managed
    network has a gateway, inside its CIDR. *)
Definition network_valid (n : NetworkSpec) : Prop :=
  (NetworkSpec_UUID n = "" ↔ NetworkSpec_CIDR n ≠ "") ∧
  (NetworkSpec_CIDR n ≠ "" → is_Some (ParsePrefix (NetworkSpec_CIDR n))) ∧
  (NetworkSpec_GatewayAddress n ≠ "" →
     NetworkSpec_CIDR n ≠ "" ∧ in_cidr (NetworkSpec_CIDR n) (NetworkSpec_GatewayAddress n)).

Definition networks_valid (l : list NetworkSpec) : Prop :=
  NoDup (NetworkSpec_Name <$> l) ∧ Forall network_valid l.

(** An interface is on one of the networks. One that is adopted belongs to an
    adopted router and requests no address; any other requests an address, inside
    the CIDR of a managed network. *)
Definition interface_valid (networks : list NetworkSpec) (adopted : bool) (i : RouterInterfaceSpec) : Prop :=
  ∃ n, n ∈ networks ∧ NetworkSpec_Name n = RouterInterfaceSpec_Network i ∧
    if RouterInterfaceSpec_UUID i != "" then adopted = true ∧ RouterInterfaceSpec_Address i = ""
    else RouterInterfaceSpec_Address i ≠ "" ∧
         (NetworkSpec_CIDR n ≠ "" → in_cidr (NetworkSpec_CIDR n) (RouterInterfaceSpec_Address i)).

Definition router_valid (networks : list NetworkSpec) (r : RouterSpec) : Prop :=
  (RouterSpec_UUID r ≠ "" → RouterSpec_InternetGateway r = false) ∧
  Forall (interface_valid networks (RouterSpec_UUID r != "")) (RouterSpec_Interfaces r).

Definition references (networks : list NetworkSpec) (name : string) : Prop :=
  name ≠ "" → name ∈ (NetworkSpec_Name <$> networks).

Definition fip_valid (fip : FloatingIPSpec) : Prop :=
  (FloatingIPSpec_IPFamily fip = None ↔ FloatingIPSpec_Address fip ≠ "") ∧
  (FloatingIPSpec_Address fip ≠ "" → is_Some (ParseAddr (FloatingIPSpec_Address fip))).

(** A managed floating IP needs the load balancer; with a load balancer the
    floating IP needs its VIP to be public; the members of a public load balancer
    need an unambiguous network. *)
Definition combination_valid (sp : CloudscaleClusterSpec) : Prop :=
  let lb := specLB sp in
  (∀ fip, CloudscaleClusterSpec_FloatingIP sp = Some fip →
     (FloatingIPSpec_Address fip = "" → derefEnabled lb = true) ∧
     (derefEnabled lb = true → LoadBalancerSpec_Network lb = "")) ∧
  (derefEnabled lb = true → LoadBalancerSpec_Network lb = "" → LoadBalancerSpec_PoolMemberNetwork lb = "" →
     length (CloudscaleClusterSpec_Networks sp) ≤ 1).

Definition body_valid (sp : CloudscaleClusterSpec) : Prop :=
  networks_valid (CloudscaleClusterSpec_Networks sp) ∧
  Forall (router_valid (CloudscaleClusterSpec_Networks sp)) (CloudscaleClusterSpec_Routers sp) ∧
  references (CloudscaleClusterSpec_Networks sp) (LoadBalancerSpec_Network (specLB sp)) ∧
  references (CloudscaleClusterSpec_Networks sp) (LoadBalancerSpec_PoolMemberNetwork (specLB sp)) ∧
  (∀ fip, CloudscaleClusterSpec_FloatingIP sp = Some fip → fip_valid fip) ∧
  combination_valid sp.

Definition spec_valid (ri : Regions.RegionInfo) (sp : CloudscaleClusterSpec) : Prop :=
  (CloudscaleClusterSpec_Zone sp ≠ "" →
     Regions.ZoneBelongsToRegion ri (CloudscaleClusterSpec_Zone sp) (CloudscaleClusterSpec_Region sp) = true) ∧
  body_valid sp.

(** ** Each rule decides its clause *)

Section rules.
Context (ParsePrefix_error ParseAddr_error : string → string).
Implicit Types (p : Path).

Lemma validateAddressInCIDR_nil cidr address p :
  is_Some (ParsePrefix cidr) →
  validateAddressInCIDR ParseAddr_error cidr address p = [] ↔ in_cidr cidr address.
Proof.
  intros [pre Hp]. unfold validateAddressInCIDR, in_cidr. rewrite Hp.
  destruct (ParseAddr address) as [ip|]; [|split; [done|by intros (? & ? & _ & ? & _)]].
  rewrite when_nil, negb_true_iff. split.
  - intros H. exists pre, ip. split_and!; [done|done|]. by destruct (Prefix_Contains pre ip); [|specialize (H eq_refl)].
  - intros (p' & ip' & [= <-] & [= <-] & ->). done.
Qed.

Lemma validateNetwork_nil n p :
  validateNetwork ParsePrefix_error ParseAddr_error n p = [] ↔ network_valid n.
Proof.
  unfold validateNetwork, network_valid. no_errors.
  destruct (decide (NetworkSpec_CIDR n = "")) as [Hc|Hc].
  - rewrite (bool_decide_eq_true_2 (NetworkSpec_CIDR n = "")) by done. simpl.
    rewrite Hc. case_bool_decide as Hu; case_bool_decide as Hg; simpl; naive_solver.
  - rewrite (bool_decide_eq_false_2 (NetworkSpec_CIDR n = "")) by done. simpl.
    destruct (ParsePrefix (NetworkSpec_CIDR n)) as [pre|] eqn:Hp.
    + rewrite validateAddressInCIDR_nil by by rewrite Hp.
      case_bool_decide as Hu; case_bool_decide as Hg; simpl; naive_solver.
    + split; [by intros (_ & H & _); specialize (H eq_refl)|].
      intros (_ & H & _). by destruct (H Hc).
Qed.

Lemma validateNetworksFrom_nil i names l p :
  validateNetworksFrom ParsePrefix_error ParseAddr_error i names l p = [] ↔
  NoDup (NetworkSpec_Name <$> l) ∧ (∀ x, x ∈ (NetworkSpec_Name <$> l) → x ∉ names) ∧ Forall network_valid l.
Proof.
  revert i names. induction l as [|n l IH]; intros i names; csimpl.
  { split; [|done]. intros _. split_and!; [constructor|by intros ? ?%not_elem_of_nil|constructor]. }
  no_errors. rewrite IH, validateNetwork_nil, Forall_cons, NoDup_cons, bool_decide_eq_true.
  setoid_rewrite not_elem_of_union. setoid_rewrite not_elem_of_singleton. setoid_rewrite elem_of_cons.
  split.
  - intros (Hd & Hn & Hnd & Hnames & HF). split_and!; [|done| |done|done].
    + intros Hin. by destruct (Hnames _ Hin).
    + intros x [->|Hx]; [by intros ?; apply Hd|by apply Hnames].
  - intros ([Hnin Hnd] & Hnames & Hn & HF). split_and!; [|done|done| |done].
    + intros Hin. destruct (Hnames (NetworkSpec_Name n)); [by left|done].
    + intros x Hx. split; [by intros ->|]. apply Hnames. by right.
Qed.

Lemma validateNetworks_nil l p :
  validateNetworks ParsePrefix_error ParseAddr_error l p = [] ↔ networks_valid l.
Proof.
  unfold validateNetworks, networks_valid. rewrite validateNetworksFrom_nil. set_solver.
Qed.

Lemma validateNetworkReference_nil name l p :
  validateNetworkReference name l p = [] ↔ name ∈ (NetworkSpec_Name <$> l).
Proof.
  unfold validateNetworkReference. rewrite <- find_by_is_Some.
  destruct (find_by NetworkSpec_Name name l); split; [by eauto|done|done|by intros []].
Qed.

Lemma references_nil name l p :
  when (name != "") (validateNetworkReference name l p) = [] ↔ references l name.
Proof.
  unfold references. rewrite when_nil, validateNetworkReference_nil, negb_true_iff, bool_decide_eq_false. done.
Qed.

(** *** Routers, on a list of networks with distinct names *)

Section distinct.
Context (networks : list NetworkSpec) (Hn : networks_valid networks).

Lemma indexNetworks_Some k n :
  indexNetworks networks !! k = Some n ↔ n ∈ networks ∧ NetworkSpec_Name n = k.
Proof.
  unfold indexNetworks. split; [apply index_by_Some|]. intros [Hin <-].
  apply index_by_unique; [by destruct Hn|done].
Qed.

Lemma validateRouterInterface_nil i adopted p :
  validateRouterInterface ParseAddr_error i (indexNetworks networks) adopted p = [] ↔
  interface_valid networks adopted i.
Proof.
  unfold validateRouterInterface, interface_valid.
  destruct (indexNetworks networks !! RouterInterfaceSpec_Network i) as [n|] eqn:E.
  2:{ split; [done|]. intros (n & Hin & Hname & _).
      assert (indexNetworks networks !! RouterInterfaceSpec_Network i = Some n) by by apply indexNetworks_Some.
      congruence. }
  pose proof E as Hin. apply indexNetworks_Some in Hin as [Hin Hname].
  transitivity (if RouterInterfaceSpec_UUID i != "" then adopted = true ∧ RouterInterfaceSpec_Address i = ""
                else RouterInterfaceSpec_Address i ≠ "" ∧
                  (NetworkSpec_CIDR n ≠ "" → in_cidr (NetworkSpec_CIDR n) (RouterInterfaceSpec_Address i))).
  - destruct (RouterInterfaceSpec_UUID i != ""); [|case_bool_decide as Ha; simpl].
    + no_errors. rewrite !negb_true_iff, bool_decide_eq_false.
      destruct adopted, (decide (RouterInterfaceSpec_Address i = "")); naive_solver.
    + naive_solver.
    + case_bool_decide as Hc; [naive_solver|].
      rewrite validateAddressInCIDR_nil; [naive_solver|].
      destruct Hn as [_ HF]. rewrite Forall_forall in HF. by apply (HF n Hin).
  - split; [intros H; by exists n|]. intros (n' & Hin' & Hname' & H).
    assert (indexNetworks networks !! RouterInterfaceSpec_Network i = Some n') as E' by by apply indexNetworks_Some.
    rewrite E in E'. by injection E' as ->.
Qed.

Lemma validateRouters_nil l p :
  validateRouters ParseAddr_error l networks p = [] ↔ Forall (router_valid networks) l.
Proof.
  unfold validateRouters. rewrite mjoin_nil. apply Forall_imap. intros j r.
  unfold validateSingleRouter, router_valid. no_errors.
  rewrite (Forall_imap _ _ (interface_valid networks (RouterSpec_UUID r != "")))
    by (intros; apply validateRouterInterface_nil).
  rewrite andb_true_iff, negb_true_iff, bool_decide_eq_false.
  destruct (RouterSpec_InternetGateway r); naive_solver.
Qed.
End distinct.

(** *** Floating IP and combinations *)

Lemma validateFloatingIP_nil fip p : validateFloatingIP ParseAddr_error fip p = [] ↔ fip_valid fip.
Proof.
  unfold validateFloatingIP, fip_valid. no_errors.
  destruct (FloatingIPSpec_IPFamily fip) as [f|]; case_bool_decide as Ha; simpl;
    destruct (ParseAddr (FloatingIPSpec_Address fip)) eqn:Hp; naive_solver.
Qed.

Lemma validateFloatingIPSet_nil sp p :
  validateFloatingIPSet ParseAddr_error sp p = [] ↔
  ∀ fip, CloudscaleClusterSpec_FloatingIP sp = Some fip → fip_valid fip.
Proof.
  unfold validateFloatingIPSet. destruct (CloudscaleClusterSpec_FloatingIP sp) as [fip|]; [|done].
  rewrite validateFloatingIP_nil. naive_solver.
Qed.

Lemma validateLBPoolMemberNetworkResolvable_nil sp p :
  validateLBPoolMemberNetworkResolvable sp p = [] ↔
  (derefEnabled (specLB sp) = true → LoadBalancerSpec_Network (specLB sp) = "" →
   LoadBalancerSpec_PoolMemberNetwork (specLB sp) = "" → length (CloudscaleClusterSpec_Networks sp) ≤ 1).
Proof.
  unfold validateLBPoolMemberNetworkResolvable. destruct (derefEnabled (specLB sp)); simpl; [|naive_solver].
  case_bool_decide as H1; case_bool_decide as H2; simpl; try naive_solver.
  destruct (length _ <=? 1) eqn:E; [apply Nat.leb_le in E|apply Nat.leb_gt in E]; naive_solver lia.
Qed.

Lemma validateCombinations_nil sp p : validateCombinations sp p = [] ↔ combination_valid sp.
Proof.
  unfold validateCombinations, combination_valid. cbv zeta. no_errors.
  rewrite validateLBPoolMemberNetworkResolvable_nil, (assoc (∧)).
  apply and_iff_compat_r.
  unfold validateFloatingIPRequiresLBOrPreExisting, validateFloatingIPRequiresPublicLB.
  destruct (CloudscaleClusterSpec_FloatingIP sp) as [fip|]; [|naive_solver]. no_errors.
  destruct (derefEnabled (specLB sp)); case_bool_decide; case_bool_decide; naive_solver.
Qed.

(** The rules that creation and update share. *)
Lemma body_valid_nil sp p1 p2 p3 p4 p5 :
  (validateNetworks ParsePrefix_error ParseAddr_error (CloudscaleClusterSpec_Networks sp) p1 = [] ∧
   validateRouters ParseAddr_error (CloudscaleClusterSpec_Routers sp) (CloudscaleClusterSpec_Networks sp) p2 = [] ∧
   validateLBReferences sp p3 = [] ∧ validateFloatingIPSet ParseAddr_error sp p4 = [] ∧
   validateCombinations sp p5 = []) ↔ body_valid sp.
Proof.
  unfold body_valid, validateLBReferences. no_errors.
  rewrite validateNetworks_nil, validateFloatingIPSet_nil, validateCombinations_nil, <- !when_nil, !references_nil.
  split.
  - intros (Hn & Hr & [H1 H2] & H3 & H4). split_and!; try done. by apply validateRouters_nil in Hr.
  - intros (Hn & Hr & H1 & H2 & H3 & H4). split_and!; try done. by apply validateRouters_nil.
Qed.

Lemma clusterSpecValidateCreate_nil ri sp p :
  clusterSpecValidateCreate ParsePrefix_error ParseAddr_error sp ri p = [] ↔ spec_valid ri sp.
Proof.
  unfold clusterSpecValidateCreate, spec_valid. rewrite !app_nil, <- (body_valid_nil sp).
  rewrite when_nil, when_nil, negb_true_iff, bool_decide_eq_false, singleton_nil.
  destruct (Regions.ZoneBelongsToRegion _ _ _); naive_solver.
Qed.
End rules.

(** ** What an update keeps *)

(** The router is still there, with the same identity and all its interfaces. *)
Definition router_kept (new : list RouterSpec) (r : RouterSpec) : Prop :=
  ∃ r', r' ∈ new ∧ RouterSpec_Name r' = RouterSpec_Name r ∧ RouterSpec_UUID r' = RouterSpec_UUID r ∧
    RouterSpec_InternetGateway r' = RouterSpec_InternetGateway r ∧
    Forall (λ i, i ∈ RouterSpec_Interfaces r') (RouterSpec_Interfaces r).

(** A load balancer specification with the meaning of its [Enabled] pointer. *)
Definition normalLB (lb : LoadBalancerSpec) : LoadBalancerSpec :=
  {| LoadBalancerSpec_Enabled := Some (derefEnabled lb);
     LoadBalancerSpec_Algorithm := LoadBalancerSpec_Algorithm lb;
     LoadBalancerSpec_Flavor := LoadBalancerSpec_Flavor lb;
     LoadBalancerSpec_APIServerPort := LoadBalancerSpec_APIServerPort lb;
     LoadBalancerSpec_Network := LoadBalancerSpec_Network lb;
     LoadBalancerSpec_PoolMemberNetwork := LoadBalancerSpec_PoolMemberNetwork lb;
     LoadBalancerSpec_HealthMonitor := LoadBalancerSpec_HealthMonitor lb |}.

(** The floating IP's request, with the meaning of its [IPFamily] pointer. *)
Definition normalFIP (fip : FloatingIPSpec) : string * string :=
  (default "" (FloatingIPSpec_IPFamily fip), FloatingIPSpec_Address fip).

Definition update_keeps (old new : CloudscaleClusterSpec) : Prop :=
  CloudscaleClusterSpec_Region new = CloudscaleClusterSpec_Region old ∧
  CloudscaleClusterSpec_Zone new = CloudscaleClusterSpec_Zone old ∧
  Forall (λ n, n ∈ CloudscaleClusterSpec_Networks new) (CloudscaleClusterSpec_Networks old) ∧
  Forall (router_kept (CloudscaleClusterSpec_Routers new)) (CloudscaleClusterSpec_Routers old) ∧
  normalLB (specLB new) = normalLB (specLB old) ∧
  (APIEndpoint_Host (CloudscaleClusterSpec_ControlPlaneEndpoint old) ≠ "" →
     CloudscaleClusterSpec_ControlPlaneEndpoint new = CloudscaleClusterSpec_ControlPlaneEndpoint old) ∧
  normalFIP <$> CloudscaleClusterSpec_FloatingIP new = normalFIP <$> CloudscaleClusterSpec_FloatingIP old.

(** Guaranteed by the schema: routers are a list-map keyed by name, their interfaces
    one keyed by network. *)
Definition list_maps (sp : CloudscaleClusterSpec) : Prop :=
  NoDup (RouterSpec_Name <$> CloudscaleClusterSpec_Routers sp) ∧
  Forall (λ r, NoDup (RouterInterfaceSpec_Network <$> RouterSpec_Interfaces r)) (CloudscaleClusterSpec_Routers sp).

Section update.
Context (ParsePrefix_error ParseAddr_error : string → string).

Lemma indexed_snd {A} (l : list A) : (indexed l).*2 = l.
Proof. unfold indexed. apply snd_zip. by rewrite length_seq. Qed.

(** The last entry of a name, with its index. *)
Lemma newByName_Some {A} (name : A → string) l k i x :
  newByName name l !! k = Some (i, x) → x ∈ l ∧ name x = k.
Proof.
  intros [Hin Hk]%index_by_Some. split; [|done].
  rewrite <- (indexed_snd l). apply list_elem_of_fmap. by exists (i, x).
Qed.

Lemma newByName_unique {A} (name : A → string) l x :
  NoDup (name <$> l) → x ∈ l → ∃ i, newByName name l !! name x = Some (i, x).
Proof.
  intros Hnd Hx. rewrite <- (indexed_snd l) in Hx. apply list_elem_of_fmap in Hx as ([i x'] & -> & Hin).
  exists i. apply (index_by_unique (name ∘ snd) (indexed l) (i, x')); [|done].
  rewrite list_fmap_compose, indexed_snd. done.
Qed.

Lemma validateNetworkUnchanged_nil new p n :
  NoDup (NetworkSpec_Name <$> new) →
  validateNetworkUnchanged (newByName NetworkSpec_Name new) p n = [] ↔ n ∈ new.
Proof.
  intros Hnd. unfold validateNetworkUnchanged.
  destruct (newByName NetworkSpec_Name new !! NetworkSpec_Name n) as [[i n']|] eqn:E.
  - rewrite !app_nil, !when_changed, when_changedZ. split.
    + intros (H1 & H2 & H3 & H4). apply newByName_Some in E as [Hin Hname].
      destruct n, n'; simpl in *; congruence.
    + intros Hin. destruct (newByName_unique NetworkSpec_Name new n Hnd Hin) as [j Hj].
      rewrite E in Hj. by injection Hj as _ ->.
  - rewrite singleton_nil. split; [done|]. intros Hin.
    destruct (newByName_unique NetworkSpec_Name new n Hnd Hin) as [j Hj]. congruence.
Qed.

Lemma validateInterfaceUnchanged_kept new p i :
  validateInterfaceUnchanged (index_by RouterInterfaceSpec_Network new) p i = [] → i ∈ new.
Proof.
  unfold validateInterfaceUnchanged.
  destruct (index_by RouterInterfaceSpec_Network new !! _) as [i'|] eqn:E; [|done].
  rewrite app_nil, !when_changed. intros [H1 H2]. apply index_by_Some in E as [Hin Hnet].
  destruct i, i'; simpl in *; congruence.
Qed.

Lemma validateInterfaceUnchanged_nil new p i :
  NoDup (RouterInterfaceSpec_Network <$> new) →
  validateInterfaceUnchanged (index_by RouterInterfaceSpec_Network new) p i = [] ↔ i ∈ new.
Proof.
  intros Hnd. split; [apply validateInterfaceUnchanged_kept|]. intros Hin.
  unfold validateInterfaceUnchanged. rewrite (index_by_unique _ _ _ Hnd Hin).
  by rewrite app_nil, !when_changed.
Qed.

Lemma validateRouterUnchanged_kept new p r :
  validateRouterUnchanged (newByName RouterSpec_Name new) p r = [] → router_kept new r.
Proof.
  unfold validateRouterUnchanged.
  destruct (newByName RouterSpec_Name new !! _) as [[j r']|] eqn:E; [|done].
  rewrite !app_nil, when_changed, when_changedB, mjoin_nil. intros (H1 & H2 & H3).
  apply newByName_Some in E as [Hin Hname]. exists r'. split_and!; [done..|].
  apply Forall_fmap in H3. eapply Forall_impl; [exact H3|]. intros i.
  apply validateInterfaceUnchanged_kept.
Qed.

Lemma validateRouterUnchanged_nil new p r :
  NoDup (RouterSpec_Name <$> new) →
  Forall (λ r, NoDup (RouterInterfaceSpec_Network <$> RouterSpec_Interfaces r)) new →
  validateRouterUnchanged (newByName RouterSpec_Name new) p r = [] ↔ router_kept new r.
Proof.
  intros Hnd HF. split; [apply validateRouterUnchanged_kept|].
  intros (r' & Hin & Hname & Hu & Hg & Hi). unfold validateRouterUnchanged.
  destruct (newByName_unique RouterSpec_Name new r' Hnd Hin) as [j Hj]. rewrite <- Hname, Hj.
  rewrite !app_nil, when_changed, when_changedB, mjoin_nil. split_and!; [done..|].
  apply Forall_fmap. eapply Forall_impl; [exact Hi|]. intros i Hii. simpl.
  apply validateInterfaceUnchanged_nil; [|done]. rewrite Forall_forall in HF. by apply HF.
Qed.

Lemma validateLB_nil old new p1 p2 p3 :
  (when (negb (Bool.eqb (derefEnabled new) (derefEnabled old))) [Forbidden p1 immutable] = [] ∧
   when (LoadBalancerSpec_Network new != LoadBalancerSpec_Network old) [Forbidden p2 immutableOnceSet] = [] ∧
   validateLBImmutability old new p3 = []) ↔ normalLB new = normalLB old.
Proof.
  unfold validateLBImmutability, normalLB. cbv zeta.
  rewrite !app_nil, !when_changed, !when_changedZ, when_changedB. split.
  - intros (H1 & H2 & H3 & H4 & H5 & H6 & H7 & H8 & H9 & H10). rewrite H1, H2, H3, H4, H5, H6. f_equal.
    destruct (LoadBalancerSpec_HealthMonitor old), (LoadBalancerSpec_HealthMonitor new); simpl in *; congruence.
  - intros [= H1 H2 H3 H4 H5 H6 H7]. rewrite H7. split_and!; congruence.
Qed.

Lemma validateEndpoint_nil old new p :
  validateEndpointImmutability old new p = [] ↔ (APIEndpoint_Host old ≠ "" → new = old).
Proof.
  unfold validateEndpointImmutability. rewrite when_nil, app_nil, when_changed, when_changedZ.
  rewrite negb_true_iff, bool_decide_eq_false. destruct old, new; simpl.
  split; intros H Hh; specialize (H Hh); [destruct H; congruence|by simplify_eq].
Qed.

Lemma validateFloatingIPImmutability_nil old new p :
  validateFloatingIPImmutability old new p = [] ↔ normalFIP <$> new = normalFIP <$> old.
Proof.
  unfold validateFloatingIPImmutability, normalFIP. destruct old as [o|], new as [n|]; simpl; try done.
  rewrite app_nil, !when_changed. split; [intros [H1 H2]; by rewrite H1, H2|by intros [= -> ->]].
Qed.

Lemma clusterSpecValidateUpdate_kept old new :
  clusterSpecValidateUpdate ParsePrefix_error ParseAddr_error old new = [] →
  update_keeps old new ∧ body_valid new.
Proof.
  unfold clusterSpecValidateUpdate. rewrite !app_nil, !when_changed.
  intros (Hr & Hz & Hni & Hn & Hrv & Hrd & H1 & H2 & H3 & Hlb & He & Hfi & Hf & Hc).
  assert (body_valid new) as Hb.
  { by apply (proj1 (body_valid_nil ParsePrefix_error ParseAddr_error new (child specPath "networks")
      (child specPath "routers") specPath specPath specPath)). }
  split; [|done]. pose proof Hb as [[Hnd _] _]. split_and!; [done..| | | | |].
  - unfold validateNetworkImmutability in Hni. rewrite mjoin_nil, Forall_fmap in Hni.
    eapply Forall_impl; [exact Hni|]. intros n. by apply validateNetworkUnchanged_nil.
  - unfold validateRouterDiff in Hrd. rewrite mjoin_nil, Forall_fmap in Hrd.
    eapply Forall_impl; [exact Hrd|]. intros r. apply validateRouterUnchanged_kept.
  - eapply (proj1 (validateLB_nil _ _ _ (child specPath "network") _)).
    split_and!; [exact H1|by apply when_changed|exact H3].
  - exact (proj1 (validateEndpoint_nil _ _ _) He).
  - exact (proj1 (validateFloatingIPImmutability_nil _ _ _) Hfi).
Qed.

Lemma clusterSpecValidateUpdate_nil old new :
  list_maps new →
  clusterSpecValidateUpdate ParsePrefix_error ParseAddr_error old new = [] ↔
  update_keeps old new ∧ body_valid new.
Proof.
  intros [Hnd HF]. split; [apply clusterSpecValidateUpdate_kept|].
  intros [(Hr & Hz & Hni & Hrd & Hlb & He & Hfi) Hb].
  pose proof Hb as [[Hnn _] _].
  apply (proj2 (body_valid_nil ParsePrefix_error ParseAddr_error new (child specPath "networks")
           (child specPath "routers") specPath specPath specPath)) in Hb as (B1 & B2 & B3 & B4 & B5).
  apply (proj2 (validateLB_nil _ _ (child (child specPath "controlPlaneLoadBalancer") "enabled")
           (child (child specPath "controlPlaneLoadBalancer") "network")
           (child specPath "controlPlaneLoadBalancer"))) in Hlb as (L1 & L2 & L3).
  unfold clusterSpecValidateUpdate. rewrite !app_nil, L1, L2, L3, B1, B2, B3, B4, B5, !when_changed.
  split_and!; try done.
  - unfold validateNetworkImmutability. rewrite mjoin_nil, Forall_fmap.
    eapply Forall_impl; [exact Hni|]. intros n. by apply validateNetworkUnchanged_nil.
  - unfold validateRouterDiff. rewrite mjoin_nil, Forall_fmap.
    eapply Forall_impl; [exact Hrd|]. intros r. by apply validateRouterUnchanged_nil.
  - exact (proj2 (validateEndpoint_nil _ _ _) He).
  - exact (proj2 (validateFloatingIPImmutability_nil _ _ _) Hfi).
Qed.
End update.

(** ** Defaulting *)

Section defaulting.
Implicit Types (ri : Regions.RegionInfo) (sp : CloudscaleClusterSpec).

Lemma orDefault_idemp d v : orDefault d (orDefault d v) = orDefault d v.
Proof. unfold orDefault. repeat case_bool_decide; done. Qed.
Lemma orDefaultZ_idemp d v : orDefaultZ d (orDefaultZ d v) = orDefaultZ d v.
Proof. unfold orDefaultZ. destruct (v =? 0)%Z eqn:E; [by destruct (d =? 0)%Z|by rewrite E]. Qed.

Lemma loadBalancerDefault_idemp lb : loadBalancerDefault (loadBalancerDefault lb) = loadBalancerDefault lb.
Proof.
  unfold loadBalancerDefault, healthMonitorDefault. simpl.
  by rewrite !orDefault_idemp, !orDefaultZ_idemp.
Qed.
Lemma floatingIPDefault_idemp fip : floatingIPDefault (floatingIPDefault fip) = floatingIPDefault fip.
Proof.
  unfold floatingIPDefault. destruct (FloatingIPSpec_IPFamily fip) eqn:E; [by rewrite E|].
  case_bool_decide as H; [done|]. by rewrite E, bool_decide_eq_false_2.
Qed.

Lemma clusterSpecDefault_idemp sp : clusterSpecDefault (clusterSpecDefault sp) = clusterSpecDefault sp.
Proof.
  unfold clusterSpecDefault, set_FloatingIP, set_LoadBalancer. simpl. rewrite loadBalancerDefault_idemp. f_equal.
  destruct (CloudscaleClusterSpec_FloatingIP sp); simpl; [by rewrite floatingIPDefault_idemp|done].
Qed.

(** The part of the specification that the shared defaults leave alone. *)
Lemma Default_shape ri name sp :
  let sp' := Default ri name sp in
  CloudscaleClusterSpec_Region sp' = CloudscaleClusterSpec_Region sp ∧
  CloudscaleClusterSpec_Routers sp' = CloudscaleClusterSpec_Routers sp ∧
  CloudscaleClusterSpec_Zone sp' =
    (if CloudscaleClusterSpec_Zone sp == "" then
       Regions.GetDefaultZoneForRegion ri (CloudscaleClusterSpec_Region sp) else CloudscaleClusterSpec_Zone sp) ∧
  CloudscaleClusterSpec_Networks sp' =
    match CloudscaleClusterSpec_Networks sp with
    | [] => [mkNetworkSpec name "" defaultSubnetCIDR 0 ""] | ns => ns
    end ∧
  specLB sp' = loadBalancerDefault (specLB sp) ∧
  CloudscaleClusterSpec_FloatingIP sp' = floatingIPDefault <$> CloudscaleClusterSpec_FloatingIP sp.
Proof.
  unfold Default, networksDefault, zoneDefault, specLB.
  case_bool_decide as Hz; simpl; destruct (CloudscaleClusterSpec_Networks sp) eqn:E; simpl;
    rewrite ?E; split_and!; done.
Qed.

Lemma Default_idemp ri name sp : Default ri name (Default ri name sp) = Default ri name sp.
Proof.
  destruct (Default_shape ri name sp) as (Hr & _ & Hz & Hn & _ & _).
  unfold Default at 1. set (sp' := Default ri name sp) in *.
  assert (networksDefault name (zoneDefault ri sp') = sp') as ->.
  { assert (zoneDefault ri sp' = sp') as ->.
    { unfold zoneDefault. destruct (decide (CloudscaleClusterSpec_Zone sp' = "")) as [H|H];
        [|by rewrite (bool_decide_eq_false_2 (CloudscaleClusterSpec_Zone sp' = ""))].
      rewrite (bool_decide_eq_true_2 (CloudscaleClusterSpec_Zone sp' = "")), Hr by done.
      rewrite H in Hz. case_bool_decide; [|congruence]. rewrite <- Hz.
      clearbody sp'. destruct sp'. simpl in H. by subst. }
    unfold networksDefault. rewrite Hn. by destruct (CloudscaleClusterSpec_Networks sp). }
  subst sp'. unfold Default. apply clusterSpecDefault_idemp.
Qed.

Lemma default_network_valid name : networks_valid [mkNetworkSpec name "" defaultSubnetCIDR 0 ""].
Proof.
  split; [apply NoDup_singleton|]. apply Forall_singleton. split_and!; simpl; [done| |done].
  intros _. vm_compute. by eexists.
Qed.
End defaulting.

(** ** The claims *)

Section admission_claims.
Context (ParsePrefix_error ParseAddr_error : string → string).
Implicit Types (ri : Regions.RegionInfo) (sp : CloudscaleClusterSpec).
Abbreviation create ri c := (ValidateCreate ParsePrefix_error ParseAddr_error ri c).
Abbreviation update old new := (ValidateUpdate ParsePrefix_error ParseAddr_error old new).

Lemma answer_accepts kind name warnings errs : snd (answer kind name warnings errs) = None ↔ errs = [].
Proof. by destruct errs. Qed.

(** C23. Creation admits exactly the valid specifications. *)
Theorem ValidateCreate_iff ri c :
  snd (create ri c) = None ↔ spec_valid ri (CloudscaleCluster_Spec c).
Proof. unfold ValidateCreate. rewrite answer_accepts. apply clusterSpecValidateCreate_nil. Qed.

(** C24. An update is admitted exactly when it keeps what is immutable (the region
    and zone, every network, every router and interface, the load balancer, a set
    endpoint, the floating IP) and its result obeys the rules of creation. *)
Theorem ValidateUpdate_iff old new :
  list_maps (CloudscaleCluster_Spec new) →
  snd (update old new) = None ↔
    update_keeps (CloudscaleCluster_Spec old) (CloudscaleCluster_Spec new) ∧
    body_valid (CloudscaleCluster_Spec new).
Proof. intros H. unfold ValidateUpdate. rewrite answer_accepts. by apply clusterSpecValidateUpdate_nil. Qed.

(** Defaulting is idempotent and only fills what is empty: a second pass
    changes nothing, the region and the routers never change, and a zone, network
    list, load balancer setting or floating IP that was given is kept. *)
Theorem Default_fills ri name sp :
  let sp' := Default ri name sp in
  Default ri name sp' = sp' ∧
  CloudscaleClusterSpec_Region sp' = CloudscaleClusterSpec_Region sp ∧
  CloudscaleClusterSpec_Routers sp' = CloudscaleClusterSpec_Routers sp ∧
  CloudscaleClusterSpec_Networks sp' ≠ [] ∧
  (CloudscaleClusterSpec_Networks sp ≠ [] → CloudscaleClusterSpec_Networks sp' = CloudscaleClusterSpec_Networks sp) ∧
  (CloudscaleClusterSpec_Zone sp ≠ "" → CloudscaleClusterSpec_Zone sp' = CloudscaleClusterSpec_Zone sp) ∧
  derefEnabled (specLB sp') = derefEnabled (specLB sp) ∧
  LoadBalancerSpec_APIServerPort (specLB sp') =
    (if (LoadBalancerSpec_APIServerPort (specLB sp) =? 0)%Z then 6443%Z
     else LoadBalancerSpec_APIServerPort (specLB sp)) ∧
  (∀ fip, CloudscaleClusterSpec_FloatingIP sp = Some fip → FloatingIPSpec_IPFamily fip ≠ None ∨
     FloatingIPSpec_Address fip ≠ "" → CloudscaleClusterSpec_FloatingIP sp' = Some fip).
Proof.
  intros sp'. pose proof (Default_shape ri name sp) as H. cbv zeta in H. fold sp' in H.
  destruct H as (Hr & Hro & Hz & Hn & Hlb & Hf).
  split; [apply Default_idemp|]. rewrite Hr, Hro, Hz, Hn, Hlb, Hf. split_and!; try done.
  - by destruct (CloudscaleClusterSpec_Networks sp).
  - by destruct (CloudscaleClusterSpec_Networks sp).
  - intros H. by rewrite bool_decide_eq_false_2.
  - intros fip -> [H|H]; simpl; unfold floatingIPDefault; [by destruct (FloatingIPSpec_IPFamily fip)|].
    destruct (FloatingIPSpec_IPFamily fip); [done|]. by rewrite bool_decide_eq_false_2.
Qed.

(** A minimal cluster is admitted: with a region of the catalogue and nothing
    else but its credentials, and at most a managed floating IP, the defaulted
    specification is valid. *)
Theorem Default_minimal_valid (rs : list Region) name sp :
  let ri := Regions.NewRegionInfo rs in
  Regions.partitioned rs → CloudscaleClusterSpec_Zone sp = "" →
  CloudscaleClusterSpec_Networks sp = [] → CloudscaleClusterSpec_Routers sp = [] →
  LoadBalancerSpec_Network (specLB sp) = "" → LoadBalancerSpec_PoolMemberNetwork (specLB sp) = "" →
  LoadBalancerSpec_Enabled (specLB sp) = None →
  (∀ fip, CloudscaleClusterSpec_FloatingIP sp = Some fip → FloatingIPSpec_Address fip = "") →
  spec_valid ri (Default ri name sp).
Proof.
  intros ri Hp Hz Hn Hro Hnet Hpool Hen Hfip.
  pose proof (Default_shape ri name sp) as H. cbv zeta in H. destruct H as (Er & Ero & Ez & En & Elb & Ef).
  rewrite Hz, bool_decide_eq_true_2 in Ez by done. rewrite Hn in En. rewrite Hro in Ero.
  unfold spec_valid, body_valid, combination_valid, references. rewrite Er, Ero, Ez, En, Elb, Ef.
  unfold loadBalancerDefault, derefEnabled. simpl. rewrite Hnet, Hpool, Hen.
  assert (∀ fip, floatingIPDefault <$> CloudscaleClusterSpec_FloatingIP sp = Some fip → 
            FloatingIPSpec_Address fip = "" ∧ FloatingIPSpec_IPFamily fip ≠ None) as Hf.
  { destruct (CloudscaleClusterSpec_FloatingIP sp) as [fip|]; simpl; [|done]. intros fip' [= <-].
    unfold floatingIPDefault. specialize (Hfip _ eq_refl). rewrite Hfip.
    destruct (FloatingIPSpec_IPFamily fip) eqn:E; simpl; [|done]. by rewrite E. }
  split_and!; try done.
  - by apply Regions.GetDefaultZone_belongs.
  - apply default_network_valid.
  - intros fip H. destruct (Hf _ H) as [Ha Hi]. unfold fip_valid. rewrite Ha. naive_solver.
Qed.

(** *** The life of an object *)

(** The stored versions of a cluster: created and updated through the webhooks,
    which default first and validate then; the status changes freely. *)
Inductive admitted ri : CloudscaleCluster → Prop :=
  | admitted_create c :
      let c' := set_CloudscaleCluster_Spec
                  (Default ri (ObjectMeta_Name (CloudscaleCluster_Meta c)) (CloudscaleCluster_Spec c)) c in
      snd (create ri c') = None → admitted ri c'
  | admitted_update old c :
      let c' := set_CloudscaleCluster_Spec
                  (Default ri (ObjectMeta_Name (CloudscaleCluster_Meta c)) (CloudscaleCluster_Spec c)) c in
      admitted ri old → snd (update old c') = None → admitted ri c'
  | admitted_status old st :
      admitted ri old → admitted ri (set_CloudscaleCluster_Status st old).

Lemma admitted_spec_valid ri c : admitted ri c → spec_valid ri (CloudscaleCluster_Spec c).
Proof.
  induction 1 as [c c' H|old c c' _ [Hz Hb] H|old st _ IH]; [| |exact IH].
  - unfold ValidateCreate in H. rewrite answer_accepts in H. by apply clusterSpecValidateCreate_nil in H.
  - unfold ValidateUpdate in H. rewrite answer_accepts in H.
    apply clusterSpecValidateUpdate_kept in H as [(Er & Ez & _) Hb']. split; [|done].
    by rewrite Ez, Er.
Qed.

(** Every stored version of a cluster is valid, whatever sequence of admitted
    updates led to it, although updates do not check the zone against the region. *)
Theorem admitted_valid ri c : admitted ri c → spec_valid ri (CloudscaleCluster_Spec c).
Proof. apply admitted_spec_valid. Qed.

(** The warnings of both answers name exactly the routers with an internet
    gateway of which no interface is on a network that has a gateway address. *)
Theorem snat_warnings ri old new w :
  (w ∈ fst (create ri new) ↔ w ∈ fst (update old new)) ∧
  (w ∈ fst (create ri new) ↔ ∃ r, r ∈ CloudscaleClusterSpec_Routers (CloudscaleCluster_Spec new) ∧
     w = snatWarning r ∧ RouterSpec_InternetGateway r = true ∧
     ∀ i n, i ∈ RouterSpec_Interfaces r → n ∈ CloudscaleClusterSpec_Networks (CloudscaleCluster_Spec new) →
       NetworkSpec_Name n = RouterInterfaceSpec_Network i → NetworkSpec_GatewayAddress n = "").
Proof.
  split; [done|]. simpl. unfold checkSNATConfiguration. rewrite list_elem_of_fmap.
  setoid_rewrite list_elem_of_filter.
  assert (∀ r, routerHasGateway (CloudscaleClusterSpec_Networks (CloudscaleCluster_Spec new)) r = false ↔
     ∀ i n, i ∈ RouterSpec_Interfaces r → n ∈ CloudscaleClusterSpec_Networks (CloudscaleCluster_Spec new) →
       NetworkSpec_Name n = RouterInterfaceSpec_Network i → NetworkSpec_GatewayAddress n = "") as Hg.
  { intros r. unfold routerHasGateway. rewrite <- not_true_iff_false, existsb_exists.
    setoid_rewrite existsb_exists. setoid_rewrite <- list_elem_of_In. split.
    - intros H i n Hi Hn Hname. destruct (decide (NetworkSpec_GatewayAddress n = "")) as [|Hne]; [done|].
      destruct H. exists i. split; [done|]. exists n. split; [done|].
      by rewrite bool_decide_eq_true_2, bool_decide_eq_false_2.
    - intros H (i & Hi & n & Hn & Hb). go_bools. specialize (H i n Hi Hn). naive_solver. }
  setoid_rewrite Hg. naive_solver.
Qed.
End admission_claims.
