(* ===== verification/MachineWebhook.v ===== *)
(** * Admission of machines and templates
    (src/internal/webhook/v1beta2/cloudscalemachine_validation.go,
    cloudscalemachine_webhook.go, cloudscalemachinetemplate_webhook.go and
    cloudscaleclustertemplate_webhook.go)

    [reflect.DeepEqual] tells nil slices and maps from empty ones. The fields of a
    machine's specification keep that difference ([CloudscaleMachineSpec_TagsOrNil],
    [CloudscaleMachineSpec_InterfacesOrNil]), so there it is equality of the model's
    values; of a cluster template the resource says which of its empty slices are
    nil. *)

From S2P Require Export Admission MachineCtl.

#[export] Instance InterfaceSpec_eq_dec : EqDecision InterfaceSpec.
Proof. solve_decision. Defined.
#[export] Instance ServerGroupSpec_eq_dec : EqDecision ServerGroupSpec.
Proof. solve_decision. Defined.
#[export] Instance CloudscaleMachineSpec_eq_dec : EqDecision CloudscaleMachineSpec.
Proof. solve_decision. Defined.
#[export] Instance CloudscaleCredentialsReference_eq_dec : EqDecision CloudscaleCredentialsReference.
Proof. solve_decision. Defined.
#[export] Instance APIEndpoint_eq_dec : EqDecision APIEndpoint.
Proof. solve_decision. Defined.
#[export] Instance RouterSpec_eq_dec : EqDecision RouterSpec.
Proof. solve_decision. Defined.
#[export] Instance HealthMonitorSpec_eq_dec : EqDecision HealthMonitorSpec.
Proof. solve_decision. Defined.
#[export] Instance LoadBalancerSpec_eq_dec : EqDecision LoadBalancerSpec.
Proof. solve_decision. Defined.
#[export] Instance FloatingIPSpec_eq_dec : EqDecision FloatingIPSpec.
Proof. solve_decision. Defined.
#[export] Instance CloudscaleClusterSpec_eq_dec : EqDecision CloudscaleClusterSpec.
Proof. solve_decision. Defined.

(** ** Defaulting *)

Definition defaultInterface (i : InterfaceSpec) : InterfaceSpec :=
  if (InterfaceSpec_Type i == "public") && (InterfaceSpec_IPFamily i == None)
  then mkInterfaceSpec (InterfaceSpec_Type i) (InterfaceSpec_Network i) (Some IPFamilyDualStack) else i.
Definition defaultInterfaceIPFamily (interfaces : list InterfaceSpec) : list InterfaceSpec :=
  defaultInterface <$> interfaces.

(** The defaulters of CloudscaleMachine and CloudscaleMachineTemplate, on the
    machine specification. *)
Definition MachineDefault (spec : CloudscaleMachineSpec) : CloudscaleMachineSpec :=
  set_CloudscaleMachineSpec_Interfaces (defaultInterfaceIPFamily <$> CloudscaleMachineSpec_InterfacesOrNil spec) spec.

(** ** Validation *)

(** In the order of the map's iteration, which Go leaves open. *)
Definition validateTags (tags : gmap string string) (fldPath : Path) : ErrorList :=
  (λ kv, Forbidden (fldPath ++ [Key (fst kv)])
           ("tag key prefix " +:+ NameCloudscaleProviderPrefix +:+ " is reserved for internal use"))
  <$> filter (λ kv, HasPrefix (fst kv) NameCloudscaleProviderPrefix = true) (map_to_list tags).

(** One turn of the loop. *)
Definition validateInterface (iface : InterfaceSpec) (ifacePath : Path) : ErrorList :=
  let hasType := InterfaceSpec_Type iface != "" in
  let hasNetwork := InterfaceSpec_Network iface != "" in
  when (Bool.eqb hasType hasNetwork) [Invalid ifacePath "" "exactly one of type or network must be specified"] ++
  match InterfaceSpec_IPFamily iface with
  | Some ipFamily =>
      when (InterfaceSpec_Type iface != "public")
        [Invalid (child ifacePath "ipFamily") ipFamily
           "ipFamily can only be set on public interfaces (type: public)"]
  | None => []
  end.

Definition publicCount (interfaces : list InterfaceSpec) : nat :=
  length (filter (λ i, InterfaceSpec_Type i = "public") interfaces).

(** The empty list gives no errors, as the early return. *)
Definition validateInterfaces (interfaces : list InterfaceSpec) (fldPath : Path) : ErrorList :=
  mjoin (imap (λ i iface, validateInterface iface (index fldPath i)) interfaces) ++
  when (1 <? publicCount interfaces)%nat [TooMany fldPath (publicCount interfaces) 1].

Definition validateMachineSpec (spec : CloudscaleMachineSpec) (flavorInfo : option Flavors.FlavorInfo)
    (fldPath : Path) : ErrorList :=
  match flavorInfo with
  | Some fi =>
      when (negb (Flavors.IsValidFlavor fi (CloudscaleMachineSpec_Flavor spec)))
        [Invalid (child fldPath "flavor") (CloudscaleMachineSpec_Flavor spec) "unknown flavor"]
  | None => []
  end ++
  validateTags (CloudscaleMachineSpec_Tags spec) (child fldPath "tags") ++
  validateInterfaces (CloudscaleMachineSpec_Interfaces spec) (child fldPath "interfaces").

Definition fieldImmutable : string := "field is immutable".

Definition validateMachineSpecUpdate (newSpec oldSpec : CloudscaleMachineSpec) (fldPath : Path) : ErrorList :=
  when (CloudscaleMachineSpec_Image newSpec != CloudscaleMachineSpec_Image oldSpec)
    [Forbidden (child fldPath "image") fieldImmutable] ++
  when (CloudscaleMachineSpec_Flavor newSpec != CloudscaleMachineSpec_Flavor oldSpec)
    [Forbidden (child fldPath "flavor") fieldImmutable] ++
  when (negb (CloudscaleMachineSpec_RootVolumeSize newSpec =? CloudscaleMachineSpec_RootVolumeSize oldSpec)%Z)
    [Forbidden (child fldPath "rootVolumeSize") fieldImmutable] ++
  match CloudscaleMachineSpec_ProviderID oldSpec with
  | Some old =>
      when (match CloudscaleMachineSpec_ProviderID newSpec with None => true | Some new => new != old end)
        [Forbidden (child fldPath "providerID") immutableOnceSet]
  | None => []
  end ++
  when (CloudscaleMachineSpec_InterfacesOrNil newSpec != CloudscaleMachineSpec_InterfacesOrNil oldSpec)
    [Forbidden (child fldPath "interfaces") fieldImmutable] ++
  when (CloudscaleMachineSpec_ServerGroup newSpec != CloudscaleMachineSpec_ServerGroup oldSpec)
    [Forbidden (child fldPath "serverGroup") fieldImmutable] ++
  validateTags (CloudscaleMachineSpec_Tags newSpec) (child fldPath "tags").

Definition MachineValidateCreate (flavorInfo : option Flavors.FlavorInfo) (m : CloudscaleMachine) :=
  answer "CloudscaleMachine" (machineName m) [] (validateMachineSpec (mspec m) flavorInfo specPath).

Definition MachineValidateUpdate (oldObj newObj : CloudscaleMachine) :=
  answer "CloudscaleMachine" (machineName newObj) []
    (validateMachineSpecUpdate (mspec newObj) (mspec oldObj) specPath).

Definition MachineValidateDelete (m : CloudscaleMachine) : list string * option StatusInvalid := ([], None).

(** ** Templates *)

Definition templateSpecPath : Path := [Child "spec"; Child "template"; Child "spec"].

(** The template validators on the machine specification of a template. *)
Definition MachineTemplateValidateCreate (flavorInfo : option Flavors.FlavorInfo) (name : string)
    (spec : CloudscaleMachineSpec) :=
  answer "CloudscaleMachineTemplate" name [] (validateMachineSpec spec flavorInfo templateSpecPath).

Definition MachineTemplateValidateDelete (name : string) (spec : CloudscaleMachineSpec)
    : list string * option StatusInvalid := ([], None).

(** What the update of a machine template answers: the context must carry the
    admission request ([admission.RequestFromContext]); [dryRun] is what
    [topology.IsDryRunRequest] says of it. *)
Inductive TemplateAnswer :=
  | Accepted
  | BadRequest (msg : string)
  | Refused (status : StatusInvalid).

Definition MachineTemplateValidateUpdate (request : Res bool) (name : string)
    (oldSpec newSpec : CloudscaleMachineSpec) : TemplateAnswer :=
  match request with
  | Err e => BadRequest ("expected an admission.Request inside context: " +:+ Error e)
  | Ok dryRun =>
      if negb dryRun && negb (bool_decide (newSpec = oldSpec)) then
        Refused (mkStatusInvalid "CloudscaleMachineTemplate" name [Forbidden templateSpecPath fieldImmutable])
      else Accepted
  end.

(** A CloudscaleClusterTemplate's specification: the metadata to propagate
    (clusterv1.ObjectMeta) and the embedded cluster specification. *)
Inductive SliceField := NetworksField | RoutersField | InterfacesField (router : nat).

Record CloudscaleClusterTemplateResource := mkCloudscaleClusterTemplateResource {
  ClusterTemplate_Labels : option (gmap string string);
  ClusterTemplate_Annotations : option (gmap string string);
  ClusterTemplate_Spec : CloudscaleClusterSpec;
  (** of a slice that is empty: whether it is nil *)
  ClusterTemplate_Nil : SliceField → bool }.

(** The empty slices of a specification. *)
Definition emptySlices (spec : CloudscaleClusterSpec) : list SliceField :=
  match CloudscaleClusterSpec_Networks spec with [] => [NetworksField] | _ => [] end ++
  match CloudscaleClusterSpec_Routers spec with [] => [RoutersField] | _ => [] end ++
  mjoin (imap (λ i r, match RouterSpec_Interfaces r with [] => [InterfacesField i] | _ => [] end)
           (CloudscaleClusterSpec_Routers spec)).

(** [reflect.DeepEqual] on two template specifications. *)
Definition templateDeepEqual (a b : CloudscaleClusterTemplateResource) : bool :=
  (ClusterTemplate_Labels a == ClusterTemplate_Labels b) &&
  (ClusterTemplate_Annotations a == ClusterTemplate_Annotations b) &&
  (ClusterTemplate_Spec a == ClusterTemplate_Spec b) &&
  forallb (λ f, Bool.eqb (ClusterTemplate_Nil a f) (ClusterTemplate_Nil b f)) (emptySlices (ClusterTemplate_Spec a)).

Definition ClusterTemplateDefault (t : CloudscaleClusterTemplateResource) : CloudscaleClusterTemplateResource :=
  mkCloudscaleClusterTemplateResource (ClusterTemplate_Labels t) (ClusterTemplate_Annotations t)
    (clusterSpecDefault (ClusterTemplate_Spec t)) (ClusterTemplate_Nil t).

Definition ClusterTemplateValidateCreate (ParsePrefix_error ParseAddr_error : string → string)
    (ri : Regions.RegionInfo) (name : string) (t : CloudscaleClusterTemplateResource) :=
  answer "CloudscaleClusterTemplate" name (checkSNATConfiguration (ClusterTemplate_Spec t))
    (clusterSpecValidateCreate ParsePrefix_error ParseAddr_error (ClusterTemplate_Spec t) ri templateSpecPath).

Definition ClusterTemplateValidateUpdate (name : string) (old new : CloudscaleClusterTemplateResource) :=
  answer "CloudscaleClusterTemplate" name []
    (when (negb (templateDeepEqual new old))
       [Forbidden specPath "CloudscaleClusterTemplate.Spec is immutable"]).

Definition ClusterTemplateValidateDelete (name : string) (t : CloudscaleClusterTemplateResource)
    : list string * option StatusInvalid := ([], None).

(** ** Theorems *)

Section machine_admission.
Implicit Types (sp : CloudscaleMachineSpec) (p : Path).

(** No tag key uses the reserved prefix. *)
Definition tags_free (tags : gmap string string) : Prop :=
  ∀ k, is_Some (tags !! k) → HasPrefix k NameCloudscaleProviderPrefix = false.

Lemma validateTags_nil tags p : validateTags tags p = [] ↔ tags_free tags.
Proof.
  unfold validateTags, tags_free. split.
  - intros H%fmap_nil_inv k [v Hv]. apply not_true_iff_false. intros Hp.
    eapply (filter_nil_not_elem_of _ _ (k, v) H); [exact Hp|]. by apply elem_of_map_to_list.
  - intros H. destruct (filter _ _) as [|[k v] l] eqn:E; [done|]. exfalso.
    assert ((k, v) ∈ (k, v) :: l) as Hin by left. rewrite <- E in Hin.
    apply list_elem_of_filter in Hin as [Hp Hin%elem_of_map_to_list]. simpl in Hp.
    rewrite H in Hp; [done|by exists v].
Qed.

(** An interface has a type or a network, and an IP family only if public. *)
Definition machine_interface_valid (i : InterfaceSpec) : Prop :=
  (InterfaceSpec_Type i = "" ↔ InterfaceSpec_Network i ≠ "") ∧
  (InterfaceSpec_IPFamily i ≠ None → InterfaceSpec_Type i = "public").

Definition machine_interfaces_valid (l : list InterfaceSpec) : Prop :=
  Forall machine_interface_valid l ∧ publicCount l ≤ 1.

Lemma validateInterfaces_nil l p : validateInterfaces l p = [] ↔ machine_interfaces_valid l.
Proof.
  unfold validateInterfaces, machine_interfaces_valid. rewrite app_nil, mjoin_nil, when_nil, singleton_nil.
  rewrite (Forall_imap _ _ machine_interface_valid).
  - destruct (Nat.ltb_spec 1 (publicCount l)); naive_solver lia.
  - intros i x. unfold validateInterface, machine_interface_valid.
    rewrite app_nil, when_nil, singleton_nil.
    destruct (InterfaceSpec_IPFamily x); repeat case_bool_decide; simpl; naive_solver.
Qed.

Definition machine_valid (flavorInfo : option Flavors.FlavorInfo) sp : Prop :=
  (∀ fi, flavorInfo = Some fi → is_Some (fi !! CloudscaleMachineSpec_Flavor sp)) ∧
  tags_free (CloudscaleMachineSpec_Tags sp) ∧
  machine_interfaces_valid (CloudscaleMachineSpec_Interfaces sp).

Lemma validateMachineSpec_nil fi sp p : validateMachineSpec sp fi p = [] ↔ machine_valid fi sp.
Proof.
  unfold validateMachineSpec, machine_valid. rewrite !app_nil, validateTags_nil, validateInterfaces_nil.
  apply and_iff_compat_r. destruct fi as [fi|]; [|done].
  rewrite when_nil, singleton_nil. unfold Flavors.IsValidFlavor.
  destruct (fi !! CloudscaleMachineSpec_Flavor sp) eqn:E; simpl.
  - split; [|done]. intros _ fi' [= <-]. by rewrite E.
  - split; [naive_solver|]. intros H. specialize (H fi eq_refl). rewrite E in H. by destruct H.
Qed.

Definition machine_update_keeps (old new : CloudscaleMachineSpec) : Prop :=
  CloudscaleMachineSpec_Image new = CloudscaleMachineSpec_Image old ∧
  CloudscaleMachineSpec_Flavor new = CloudscaleMachineSpec_Flavor old ∧
  CloudscaleMachineSpec_RootVolumeSize new = CloudscaleMachineSpec_RootVolumeSize old ∧
  (CloudscaleMachineSpec_ProviderID old ≠ None →
     CloudscaleMachineSpec_ProviderID new = CloudscaleMachineSpec_ProviderID old) ∧
  CloudscaleMachineSpec_InterfacesOrNil new = CloudscaleMachineSpec_InterfacesOrNil old ∧
  CloudscaleMachineSpec_ServerGroup new = CloudscaleMachineSpec_ServerGroup old.

Lemma validateMachineSpecUpdate_nil new old p :
  validateMachineSpecUpdate new old p = [] ↔
  machine_update_keeps old new ∧ tags_free (CloudscaleMachineSpec_Tags new).
Proof.
  unfold validateMachineSpecUpdate, machine_update_keeps.
  rewrite !app_nil, validateTags_nil, !when_changed, when_changedZ.
  assert (match CloudscaleMachineSpec_ProviderID old with
          | Some o => when (match CloudscaleMachineSpec_ProviderID new with None => true | Some n => n != o end)
                        [Forbidden (child p "providerID") immutableOnceSet]
          | None => []
          end = [] ↔ (CloudscaleMachineSpec_ProviderID old ≠ None →
                      CloudscaleMachineSpec_ProviderID new = CloudscaleMachineSpec_ProviderID old)) as ->.
  { destruct (CloudscaleMachineSpec_ProviderID old) as [o|]; [|done].
    destruct (CloudscaleMachineSpec_ProviderID new) as [n|]; [rewrite when_changed|]; naive_solver. }
  tauto.
Qed.

Lemma MachineDefault_interfaces sp :
  CloudscaleMachineSpec_Interfaces (MachineDefault sp) = defaultInterfaceIPFamily (CloudscaleMachineSpec_Interfaces sp).
Proof.
  unfold CloudscaleMachineSpec_Interfaces, MachineDefault. simpl.
  by destruct (CloudscaleMachineSpec_InterfacesOrNil sp).
Qed.

Lemma MachineDefault_idemp sp : MachineDefault (MachineDefault sp) = MachineDefault sp.
Proof.
  unfold MachineDefault, set_CloudscaleMachineSpec_Interfaces. simpl. f_equal.
  destruct (CloudscaleMachineSpec_InterfacesOrNil sp) as [l|]; [|done]. simpl. f_equal.
  unfold defaultInterfaceIPFamily. rewrite <- list_fmap_compose. apply list_fmap_ext. intros _ i _.
  unfold compose, defaultInterface. destruct i as [t n [f|]]; simpl.
  - by rewrite !andb_false_r.
  - rewrite !andb_true_r. destruct (bool_decide (t = "public")) eqn:Ht; simpl; [by rewrite andb_false_r|].
    by rewrite Ht.
Qed.

Lemma defaultInterface_valid i : machine_interface_valid i → machine_interface_valid (defaultInterface i).
Proof.
  unfold defaultInterface. destruct (_ && _) eqn:E; [|done]. go_bools.
  intros [H1 H2]. by split.
Qed.

(** The lookup tag's key is reserved. *)
Lemma MachineTagKey_reserved cluster : HasPrefix (MachineTagKey cluster) NameCloudscaleProviderPrefix = true.
Proof. unfold MachineTagKey. unfold NameCloudscaleProviderOwned. by destruct cluster. Qed.

End machine_admission.

Section admitted_machines.
Context `{P : Platform}.
Implicit Types (ms : MachineScope) (m : CloudscaleMachine).

(** The reserved prefix protects the tag the controller looks for. *)
Lemma tags_free_lookup ms m :
  tags_free (CloudscaleMachineSpec_Tags (mspec m)) → machineLookupTag ms m ⊆ machineCreateTags ms m.
Proof.
  intros H. unfold machineCreateTags, machineLookupTag. apply map_singleton_subseteq_l.
  rewrite lookup_union_r; [by rewrite lookup_singleton_eq|].
  destruct (CloudscaleMachineSpec_Tags (mspec m) !! _) eqn:E; [|done].
  specialize (H _ (mk_is_Some _ _ E)). by rewrite MachineTagKey_reserved in H.
Qed.

End admitted_machines.

(** ** The claims *)

Section machine_webhook_claims.
Context `{P : Platform}.
Implicit Types (sp : CloudscaleMachineSpec) (m : CloudscaleMachine).

(** C38. The machine webhook admits exactly the valid machines: a known flavour, when
    the catalogue is available, no tag under the reserved prefix, and interfaces
    that are each public or on a network, at most one of them public. An update
    must keep everything but the tags and a provider ID not yet set; as the
    interfaces are compared with [reflect.DeepEqual], an empty list is not the same
    as none. *)
Theorem machine_admission_iff fi old new :
  (snd (MachineValidateCreate fi new) = None ↔ machine_valid fi (mspec new)) ∧
  (snd (MachineValidateUpdate old new) = None ↔
     machine_update_keeps (mspec old) (mspec new) ∧ tags_free (CloudscaleMachineSpec_Tags (mspec new))).
Proof.
  unfold MachineValidateCreate, MachineValidateUpdate. rewrite !answer_accepts.
  split; [apply validateMachineSpec_nil|apply validateMachineSpecUpdate_nil].
Qed.

(** Defaulting a machine is idempotent, changes nothing but the IP families,
    gives every public interface one, and turns no valid machine into an invalid
    one. *)
Theorem MachineDefault_fills fi sp :
  let sp' := MachineDefault sp in
  MachineDefault sp' = sp' ∧
  set_CloudscaleMachineSpec_Interfaces (CloudscaleMachineSpec_InterfacesOrNil sp) sp' = sp ∧
  (∀ i, i ∈ CloudscaleMachineSpec_Interfaces sp' → public i → InterfaceSpec_IPFamily i ≠ None) ∧
  (machine_valid fi sp → machine_valid fi sp').
Proof.
  split_and!; [apply MachineDefault_idemp|by destruct sp| |].
  - rewrite MachineDefault_interfaces. intros i (j & -> & Hj)%list_elem_of_fmap. unfold defaultInterface, public.
    destruct (InterfaceSpec_IPFamily j) eqn:Ef; [by rewrite andb_false_r, Ef|].
    rewrite andb_true_r. case_bool_decide; [done|]. intros Ht. by destruct H.
  - intros (Hf & Ht & HF & Hc). split_and!; [done|done|]. rewrite MachineDefault_interfaces. split.
    + apply Forall_fmap. eapply Forall_impl; [exact HF|]. intros i. apply defaultInterface_valid.
    + unfold publicCount, defaultInterfaceIPFamily in *. clear HF.
      assert (∀ l, length (filter (λ i, InterfaceSpec_Type i = "public") (defaultInterface <$> l)) =
                   length (filter (λ i, InterfaceSpec_Type i = "public") l)) as ->; [|done].
      induction l as [|i l IH]; [done|]. csimpl. rewrite !filter_cons.
      assert (InterfaceSpec_Type (defaultInterface i) = InterfaceSpec_Type i) as ->
        by (unfold defaultInterface; by destruct (_ && _)).
      case_decide; simpl; by rewrite IH.
Qed.

(** The same template: equal in all that is written down, and the empty slices are
    nil in both or in neither. *)
Definition same_template (a b : CloudscaleClusterTemplateResource) : Prop :=
  ClusterTemplate_Labels a = ClusterTemplate_Labels b ∧
  ClusterTemplate_Annotations a = ClusterTemplate_Annotations b ∧
  ClusterTemplate_Spec a = ClusterTemplate_Spec b ∧
  ∀ f, f ∈ emptySlices (ClusterTemplate_Spec a) → ClusterTemplate_Nil a f = ClusterTemplate_Nil b f.

Lemma templateDeepEqual_iff a b : templateDeepEqual a b = true ↔ same_template a b.
Proof.
  unfold templateDeepEqual, same_template. rewrite !andb_true_iff, !bool_decide_eq_true, forallb_forall.
  setoid_rewrite Bool.eqb_true_iff. setoid_rewrite list_elem_of_In. tauto.
Qed.

(** Templates are immutable: an update is accepted exactly when the embedded
    specification is unchanged, except that a dry run of the topology controller
    may change a machine template; without an admission request in the context a
    machine template's update is a bad request. *)
Theorem templates_immutable request name oldSpec newSpec old new :
  (MachineTemplateValidateUpdate request name oldSpec newSpec = Accepted ↔
     ∃ dryRun, request = Ok dryRun ∧ (dryRun = true ∨ newSpec = oldSpec)) ∧
  (snd (ClusterTemplateValidateUpdate name old new) = None ↔ same_template new old).
Proof.
  split.
  - unfold MachineTemplateValidateUpdate. destruct request as [dryRun|e]; [|naive_solver].
    destruct dryRun; simpl; [naive_solver|]. case_bool_decide; naive_solver.
  - unfold ClusterTemplateValidateUpdate. rewrite answer_accepts, when_nil, singleton_nil.
    rewrite <- templateDeepEqual_iff. destruct (templateDeepEqual new old); naive_solver.
Qed.
End machine_webhook_claims.
