(* ===== verification/Composition.v ===== *)
(** * Webhooks and controllers together

    What admission guarantees to the controllers, and what the controllers
    guarantee to admission: the objects they write back are admitted again. *)

From S2P Require Export MachineWebhook ClusterCtl.

(** ** Clusters *)

Section clusters.
Context `{P : Platform}.
Context (ParsePrefix_error ParseAddr_error : string → string).
Implicit Types (c : CloudscaleCluster) (s : CState).

Definition endpoint c : APIEndpoint := CloudscaleClusterSpec_ControlPlaneEndpoint (spec c).
Definition name c : string := ObjectMeta_Name (CloudscaleCluster_Meta c).

(** The object kept its name and its specification but for an endpoint that was
    not set before. *)
Definition same_but_endpoint c c' : Prop :=
  name c' = name c ∧
  spec c' = set_CloudscaleClusterSpec_ControlPlaneEndpoint (endpoint c') (spec c) ∧
  (endpointHost c ≠ "" → endpoint c' = endpoint c).

Lemma same_but_endpoint_intro c c' : name c' = name c → spec c' = spec c → same_but_endpoint c c'.
Proof. intros Hn Hs. unfold same_but_endpoint, endpoint. rewrite Hs. split_and!; [done| |done]. by destruct (spec c). Qed.

Lemma reconcileNormal_same sc s : same_but_endpoint (obj s) (obj (exec (ClusterCtl.reconcileNormal sc) s)).
Proof.
  destruct (reconcileNormal_spec sc s) as (Hs & He & _). split; [|by split].
  assert (respects (keeps name) (ClusterCtl.reconcileNormal sc)) as Hk; [|apply Hk].
  unfold ClusterCtl.reconcileNormal, ClusterCtl.reconcileNormalBody, reconcileControlPlaneEndpoint, Eventf.
  frame; try done.
  - by apply reconcileNetwork_frame.
  - by apply reconcileRouters_frame.
  - by apply reconcileLoadBalancer_frame.
  - by apply reconcileFloatingIP_frame.
  - unfold ClusterCtl.setReadyCondition. by rewrite (readyFrom_spec_status name).
Qed.

Lemma teardown_keeps {B} (f : CloudscaleCluster → B) sc :
  (∀ t, ignores_condition f t) → ignores_networks f → ignores_routers f → ignores_fip f → ignores_lb f →
  (∀ c, f (removeFinalizer c) = f c) → respects (keeps f) (ClusterCtl.reconcileDelete sc).
Proof.
  intros Hc Hn Hr Hf Hl Hx. unfold ClusterCtl.reconcileDelete, retryOn. frame.
  all: try exact (Hx _); try exact (Hc _ _ _ _ _).
  - by apply (teardown_frame (Teardown:=fip_teardown sc)).
  - by apply (teardown_frame (Teardown:=lb_teardown sc)).
  - by apply (teardown_frame (Teardown:=servergroup_teardown sc)).
  - by apply (teardown_frame (Teardown:=router_teardown sc)).
  - by apply (teardown_frame (Teardown:=network_teardown sc)).
Qed.

Lemma reconcileBody_same sc s : same_but_endpoint (obj s) (obj (exec (reconcileBody sc) s)).
Proof.
  unfold reconcileBody. rewrite exec_get. destruct (ObjectMeta_DeletionTimestamp _).
  - pose proof (teardown_keeps name sc) as Hn. pose proof (teardown_keeps spec sc) as Hs.
    apply same_but_endpoint_intro; [by apply Hn|by apply Hs].
  - set (m0 := if negb _ then _ else _).
    assert (∃ s1, m0 s = (Ok (), s1) ∧ name (obj s1) = name (obj s) ∧ spec (obj s1) = spec (obj s))
      as (s1 & E & Hn & Hs) by (subst m0; destruct (negb _); by eexists).
    unfold exec. rewrite (bind_ok _ _ _ _ _ E).
    destruct (reconcileNormal_same sc s1) as (H1 & H2 & H3). unfold exec, same_but_endpoint, endpoint, endpointHost in *.
    by rewrite H1, Hn, H2, Hs in *.
Qed.

Lemma reconcileOwned_same cluster s :
  same_but_endpoint (obj s) (obj (exec (ClusterCtl.reconcileOwned cluster) s)).
Proof.
  destruct (annotations_IsPaused cluster (CloudscaleCluster_Meta (obj s))) eqn:Hp.
  { unfold ClusterCtl.reconcileOwned. rewrite exec_get, Hp. by apply same_but_endpoint_intro. }
  destruct (reconcileOwned_cases cluster s Hp)
    as [(e & s' & pre & E & Ho & _)|(sc & s1 & pre & _ & E & Ho & _)]; unfold exec; rewrite E.
  - simpl. rewrite Ho. by apply same_but_endpoint_intro.
  - destruct (ClusterCtl.closing_run (obj s1) (reconcileBody sc) s1 (reconcileBody_quiet sc))
      as (_ & _ & _ & _ & _ & Hobj & _).
    unfold exec in Hobj. rewrite Hobj. pose proof (reconcileBody_same sc s1) as H.
    by rewrite Ho in H.
Qed.

(** *** Admission of what the controller writes *)

Lemma Default_endpoint ri n e sp :
  Default ri n (set_CloudscaleClusterSpec_ControlPlaneEndpoint e sp) =
  set_CloudscaleClusterSpec_ControlPlaneEndpoint e (Default ri n sp).
Proof.
  unfold Default, networksDefault, zoneDefault. simpl.
  case_bool_decide; simpl; by destruct (CloudscaleClusterSpec_Networks sp).
Qed.

Abbreviation admitted := (admitted ParsePrefix_error ParseAddr_error).

Lemma admitted_defaulted ri c : admitted ri c → Default ri (name c) (spec c) = spec c.
Proof. induction 1 as [c c' H|old c c' _ _ H|old st _ IH]; [apply Default_idemp..|exact IH]. Qed.

Lemma body_valid_endpoint e sp : body_valid sp → body_valid (set_CloudscaleClusterSpec_ControlPlaneEndpoint e sp).
Proof. done. Qed.

Lemma router_kept_refl l : Forall (router_kept l) l.
Proof.
  apply Forall_forall. intros r Hr. exists r. split_and!; [done..|]. by apply Forall_forall.
Qed.

Lemma update_keeps_endpoint e sp :
  (APIEndpoint_Host (CloudscaleClusterSpec_ControlPlaneEndpoint sp) ≠ "" →
     e = CloudscaleClusterSpec_ControlPlaneEndpoint sp) →
  update_keeps sp (set_CloudscaleClusterSpec_ControlPlaneEndpoint e sp).
Proof.
  intros He. unfold update_keeps. simpl. split_and!; [done..| | |done|done|done].
  - by apply Forall_forall.
  - apply router_kept_refl.
Qed.

(** C8. Admission and the cluster controller fit together. When a cluster that
    went through the webhooks is reconciled, whatever happens, the object that the
    patch then submits is admitted again: the defaulter leaves it as it is and the
    validator accepts it. With every stored version valid, the controller never
    sees a specification that the webhook would refuse. *)
Theorem reconcile_keeps_admitted ri cluster s :
  let c := obj s in let c' := obj (exec (ClusterCtl.reconcileOwned cluster) s) in
  admitted ri c → list_maps (spec c) →
  Default ri (name c') (spec c') = spec c' ∧
  snd (ValidateUpdate ParsePrefix_error ParseAddr_error c c') = None ∧
  admitted ri c' ∧ spec_valid ri (spec c').
Proof.
  intros c c' Ha Hl. destruct (reconcileOwned_same cluster s) as (Hn & Hs & He). fold c c' in Hn, Hs, He.
  assert (spec_valid ri (spec c)) as Hv by by eapply admitted_spec_valid.
  assert (Default ri (name c') (spec c') = spec c') as Hd.
  { rewrite Hn, Hs, Default_endpoint. f_equal. by apply admitted_defaulted. }
  assert (snd (ValidateUpdate ParsePrefix_error ParseAddr_error c c') = None) as Hu.
  { unfold ValidateUpdate. rewrite answer_accepts. apply clusterSpecValidateUpdate_nil.
    - change (list_maps (spec c')). by rewrite Hs.
    - change (update_keeps (spec c) (spec c') ∧ body_valid (spec c')). rewrite Hs.
      split; [apply update_keeps_endpoint, He|apply body_valid_endpoint, Hv]. }
  assert (admitted ri c') as Ha'.
  { assert (set_CloudscaleCluster_Spec (Default ri (name c') (spec c')) c' = c') as Hc.
    { rewrite Hd. by destruct c'. }
    rewrite <- Hc. eapply admitted_update; [exact Ha|].
    change (snd (ValidateUpdate ParsePrefix_error ParseAddr_error c
              (set_CloudscaleCluster_Spec (Default ri (name c') (spec c')) c')) = None). by rewrite Hc. }
  split_and!; [done..|]. by eapply admitted_spec_valid.
Qed.
End clusters.

(** ** Machines *)

Section machines.
Context `{P : Platform}.
Implicit Types (ms : MachineScope) (m : CloudscaleMachine) (s : MState).

(** The stored versions of a machine. *)
Inductive machine_admitted (fi : option Flavors.FlavorInfo) : CloudscaleMachine → Prop :=
  | machine_admitted_create m :
      let m' := set_CloudscaleMachine_Spec (MachineDefault (mspec m)) m in
      snd (MachineValidateCreate fi m') = None → machine_admitted fi m'
  | machine_admitted_update old m :
      let m' := set_CloudscaleMachine_Spec (MachineDefault (mspec m)) m in
      machine_admitted fi old → snd (MachineValidateUpdate old m') = None → machine_admitted fi m'
  | machine_admitted_status old st :
      machine_admitted fi old → machine_admitted fi (set_CloudscaleMachine_Status st old).

Lemma machine_admitted_valid fi m : machine_admitted fi m → machine_valid fi (mspec m).
Proof.
  induction 1 as [m m' H|old m m' _ (Hf & _ & Hi) H|old st _ IH]; [| |exact IH].
  - unfold MachineValidateCreate in H. rewrite answer_accepts in H. by apply validateMachineSpec_nil in H.
  - unfold MachineValidateUpdate in H. rewrite answer_accepts in H.
    apply validateMachineSpecUpdate_nil in H as [(_ & Ef & _ & _ & Ei & _) Ht].
    unfold machine_valid, CloudscaleMachineSpec_Interfaces. rewrite Ef, Ei. by split_and!.
Qed.

(** C9. At most one server per machine. However often a machine is reconciled, from
    whatever stored versions of its object (after a crash, with the recorded
    identifier lost, after a creation whose answer never came), at most one server
    is created for it: admission keeps the user's tags off the tag by which the
    controller finds the server again. *)
Theorem admitted_machine_one_server (ms : MachineScope)
    `{HS : !TaggedService (Servers (mscope_Client ms)) Server_UUID ServerRequest_Tags}
    (secret_live : ∀ key w, live_servers ms (snd (kube_GetSecret key w)) = live_servers ms w)
    (fi : option Flavors.FlavorInfo) (name : string) (objects : list CloudscaleMachine) (w : World) :
  Forall (λ m, machineName m = name ∧ machine_admitted fi m) objects →
  (∀ m, machineName m = name → owned (Servers (mscope_Client ms)) Server_UUID (machineLookupTag ms m) w = 0) →
  length (live_servers ms (attempts ms objects w)) ≤ S (length (live_servers ms w)).
Proof.
  intros Hall H0. apply (reconcileServer_at_most_one ms secret_live name); [|done].
  eapply Forall_impl; [exact Hall|]. intros m [Hn Ha]. split; [done|].
  apply tags_free_lookup. by destruct (machine_admitted_valid _ _ Ha) as (_ & ? & _).
Qed.

(** Guaranteed by the schema: the only interface type is "public". *)
Definition schema_types m : Prop :=
  Forall (λ i, InterfaceSpec_Type i = "" ∨ public i) (CloudscaleMachineSpec_Interfaces (mspec m)).

(** The specification of an admitted machine determines its interfaces: when
    the request for them cannot be built, some network it names is missing from the
    cluster's status or not provisioned, never because the specification is
    malformed; and a request has at most one public interface. *)
Theorem admitted_machine_interfaces fi ms m :
  machine_admitted fi m → schema_types m → CloudscaleMachineSpec_Interfaces (mspec m) ≠ [] →
  match buildInterfaceRequests ms m with
  | Ok (reqs, _) => length reqs = length (CloudscaleMachineSpec_Interfaces (mspec m))
  | Err _ => ∃ i, i ∈ CloudscaleMachineSpec_Interfaces (mspec m) ∧ InterfaceSpec_Network i ≠ "" ∧
      ∀ ns, GetNetworkStatus (status (mscope_CloudscaleCluster ms)) (InterfaceSpec_Network i) = Some ns →
        NetworkStatus_NetworkID ns = ""
  end.
Proof.
  unfold schema_types. intros Ha Hs Hne. destruct (machine_admitted_valid _ _ Ha) as (_ & _ & HF & _).
  unfold buildInterfaceRequests.
  destruct (CloudscaleMachineSpec_Interfaces (mspec m)) as [|i0 is0] eqn:Ei; [done|]. rewrite <- Ei in *. clear Ei Hne.
  set (l := CloudscaleMachineSpec_Interfaces (mspec m)) in *.
  destruct (interfaceRequests _ l ([], None)) as [[reqs fam]|e] eqn:E.
  - apply interfaceRequests_spec in E as (reqs' & -> & H & _). symmetry. by eapply Forall2_length.
  - apply interfaceRequests_error in E as (i & Hi & Hno). exists i. split; [done|].
    rewrite Forall_forall in HF. destruct (HF i Hi) as [Hx _].
    assert (¬ public i) as Hp by (intros Hp; by apply (Hno InterfaceTypePublic); constructor).
    assert (InterfaceSpec_Network i ≠ "") as Hn.
    { rewrite Forall_forall in Hs. destruct (Hs i Hi) as [Ht|Ht]; [by apply Hx|done]. }
    split; [done|]. intros ns Hns. destruct (decide (NetworkStatus_NetworkID ns = "")) as [|Hid]; [done|].
    by destruct (Hno (NetworkStatus_NetworkID ns)); constructor.
Qed.

(** *** What the machine controller writes *)

(** The specification without the provider ID, and the name. *)
Definition fixed_part m : CloudscaleMachineSpec * string :=
  (set_CloudscaleMachineSpec_ProviderID None (mspec m), machineName m).

Lemma fixed_part_free : condition_free fixed_part.
Proof. done. Qed.

Lemma machineBody_fixed ms snapshot : respects (keeps fixed_part) (machineBody ms snapshot).
Proof.
  unfold machineBody. destruct (ObjectMeta_DeletionTimestamp _).
  - unfold MachineCtl.reconcileDelete, MachineCtl.deleteServer, deleteServerBody, sdk_Delete, Eventf. frame; try done.
    + by destruct r.
    + unfold MachineCtl.deleteServerGroup. by destruct (CloudscaleMachineSpec_ServerGroup _).
  - unfold MachineCtl.reconcileNormal, MachineCtl.reconcileNormalBody. frame; try done.
    + by apply reconcileServerGroup_frame.
    + by apply reconcileServer_frame.
    + unfold MachineCtl.setProvisioned. by destruct (mIsTrue _ _).
    + by apply (setReadyCondition_free fixed_part).
Qed.

Lemma machineOwned_fixed machine cluster s :
  fixed_part (obj (exec (MachineCtl.reconcileOwned machine cluster) s)) = fixed_part (obj s).
Proof.
  destruct (annotations_IsPaused cluster (CloudscaleMachine_Meta (obj s))) eqn:Hp.
  { unfold MachineCtl.reconcileOwned. by rewrite exec_get, Hp. }
  destruct (machineOwned_cases machine cluster s Hp)
    as [(r & s' & pre & E & Ho & _)|(ms & s1 & pre & _ & E & Ho & _)]; unfold exec; rewrite E.
  - simpl. by apply (Ho _ fixed_part).
  - destruct (closing_machine_run (obj s1) (machineBody ms (obj s1)) s1 (machineBody_quiet ms (obj s1)))
      as (_ & _ & _ & _ & _ & Hobj & _).
    unfold exec in Hobj. rewrite Hobj. etrans; [apply machineBody_fixed|]. by apply (Ho _ fixed_part).
Qed.

(** Admission and the machine controller fit together: of an admitted machine
    the controller changes nothing that the webhook guards except the provider ID,
    so the object its patch submits is admitted again whenever the provider ID was
    not set before or is still the same. *)
Theorem machine_reconcile_keeps_admitted fi machine cluster s :
  let m := obj s in let m' := obj (exec (MachineCtl.reconcileOwned machine cluster) s) in
  machine_admitted fi m →
  CloudscaleMachineSpec_ProviderID (mspec m) = None ∨
  CloudscaleMachineSpec_ProviderID (mspec m') = CloudscaleMachineSpec_ProviderID (mspec m) →
  snd (MachineValidateUpdate m m') = None ∧ machine_valid fi (mspec m').
Proof.
  intros m m' Ha Hp. pose proof (machineOwned_fixed machine cluster s) as Hf. fold m m' in Hf.
  destruct (machine_admitted_valid _ _ Ha) as (Hfl & Ht & Hi).
  unfold MachineValidateUpdate. rewrite answer_accepts, validateMachineSpecUpdate_nil.
  unfold machine_valid, machine_update_keeps, CloudscaleMachineSpec_Tags, CloudscaleMachineSpec_Interfaces in *.
  apply (f_equal fst) in Hf. simpl in Hf. injection Hf as E1 E2 E3 E4 E5 E6.
  rewrite E1, E2, E3, E4, E5, E6. split_and!; try done.
  intros Hne. by destruct Hp.
Qed.
End machines.
