(* ===== verification/Schema.v ===== *)
(** * The keyed lists of a cluster

    The custom resource declares its lists of networks, routers and router
    interfaces as maps ([+listType=map] with [+listMapKey], in
    src/api/v1beta2/cloudscalecluster_types.go): the API server refuses an object
    with two entries of one key, and with it the whole patch. This file shows that
    the controller never produces such an object. *)

From S2P Require Export ClusterCtl.

Section schema.
Context `{P : Platform}.
Implicit Types (sc : ClusterScope) (c : CloudscaleCluster) (s : CState).

(** ** The keys *)

Definition interfaces_keyed (rs : RouterStatus) : Prop :=
  NoDup (RouterInterfaceStatus_Network <$> RouterStatus_Interfaces rs).

(** status.networks and status.routers by name, a router's interfaces by network. *)
Definition status_keyed c : Prop :=
  NoDup (NetworkStatus_Name <$> networks_of c) ∧
  NoDup (RouterStatus_Name <$> routers_of c) ∧
  Forall interfaces_keyed (routers_of c).

(** spec.networks and spec.routers by name, a router's interfaces by network. *)
Definition spec_keyed c : Prop :=
  NoDup (NetworkSpec_Name <$> CloudscaleClusterSpec_Networks (spec c)) ∧
  NoDup (RouterSpec_Name <$> CloudscaleClusterSpec_Routers (spec c)) ∧
  Forall (λ r, NoDup (RouterInterfaceSpec_Network <$> RouterSpec_Interfaces r))
    (CloudscaleClusterSpec_Routers (spec c)).

Definition keyed c : Prop := spec_keyed c ∧ status_keyed c.

(** What [keyed] reads of the object. *)
Definition keyed_part c : list NetworkSpec * list RouterSpec * list NetworkStatus * list RouterStatus :=
  (CloudscaleClusterSpec_Networks (spec c), CloudscaleClusterSpec_Routers (spec c), networks_of c, routers_of c).

Lemma keyed_part_eq c c' : keyed_part c = keyed_part c' → keyed c → keyed c'.
Proof. unfold keyed, spec_keyed, status_keyed. by intros [= -> -> -> ->]. Qed.

(** ** Provisioning *)

Lemma setNetworkStatus_keyed name nid sid cidr managed mtu c :
  keyed c → keyed (setNetworkStatus name nid sid cidr managed mtu c).
Proof.
  intros (Hs & Hn & Hr & Hi). split; [exact Hs|]. split; [|by split].
  by apply upsert_keys_NoDup.
Qed.

Lemma setRouterStatus_keyed routerSpec id c : keyed c → keyed (setRouterStatus routerSpec id c).
Proof.
  intros (Hs & Hn & Hr & Hi). split; [exact Hs|]. split_and!; [done|by apply upsert_keys_NoDup|].
  apply Forall_forall. rewrite Forall_forall in Hi. intros rs Hrs.
  apply upsert_by_elem in Hrs as [Hrs| ->]; [by apply Hi|].
  destruct (find_by _ _ _) as [old|] eqn:E; [|constructor].
  apply find_by_Some in E as [E _]. by apply (Hi old).
Qed.

Lemma setRouterInterfaceStatus_keyed name net id managed c :
  keyed c → keyed (setRouterInterfaceStatus name net id managed c).2.
Proof.
  intros Hk. pose proof Hk as (Hs & Hn & Hr & Hi). unfold setRouterInterfaceStatus.
  destruct (GetRouterStatus _ _) as [rs|]; [|done].
  assert (keyed (upd_routers (update_by RouterStatus_Name name (upsertInterface net id managed)) c)) as Hu.
  { split; [exact Hs|]. split_and!; [done| |].
    - unfold routers_of, upd_routers. simpl. by rewrite update_by_keys.
    - apply Forall_forall. rewrite Forall_forall in Hi. intros x Hx.
      apply update_by_elem in Hx as [Hx|(y & Hy & ->)]; [by apply Hi|].
      apply find_by_Some in Hy as [Hy _]. by apply upsert_keys_NoDup, Hi. }
  destruct (GetInterfaceStatus _ _); [by case_match|done].
Qed.

Lemma recordInterface_keyed name net id managed :
  respects (preserves keyed) (recordInterface name net id managed).
Proof.
  intros s Hk. unfold exec. rewrite recordInterface_run. simpl. by apply setRouterInterfaceStatus_keyed.
Qed.

Lemma same_part_keyed {A} (m : CM A) : respects (keeps keyed_part) m → respects (preserves keyed) m.
Proof. intros H s Hk. by eapply keyed_part_eq; [symmetry; apply H|]. Qed.

Lemma ensureResource_keyed {Req T} k (svc : Service World Req T) uuid id name tags :
  respects (preserves keyed) (ensureResource (O:=CloudscaleCluster) k svc uuid id name tags).
Proof. apply same_part_keyed, ensureResource_keeps. Qed.

Lemma reconcileNetwork_keyed sc : respects (preserves keyed) (reconcileNetwork sc).
Proof.
  unfold reconcileNetwork, reconcileNetworks, reconcileOneNetwork, reconcilePreExistingNetwork,
    reconcileManagedNetwork, createNetwork, createSubnet, sdk_Get, sdk_Create, Eventf.
  frame; try apply ensureResource_keyed; try (by apply setNetworkStatus_keyed); by case_match.
Qed.

Lemma reconcileRouters_keyed sc : respects (preserves keyed) (reconcileRouters sc).
Proof.
  unfold reconcileRouters, reconcileRoutersLoop, reconcileRouter, adoptRouter, ensureManagedRouter,
    reconcileRouterInterfaces, reconcileRouterInterface, adoptRouterInterface, claimRouterInterface,
    createRouterInterface, sdk_Get, sdk_Create, Eventf.
  frame; try apply ensureResource_keyed; try apply recordInterface_keyed;
    try (by apply setRouterStatus_keyed); repeat case_match; done.
Qed.

Lemma reconcileNormal_keyed sc : respects (preserves keyed) (reconcileNormal sc).
Proof.
  unfold reconcileNormal, reconcileNormalBody, reconcileControlPlaneEndpoint, Eventf.
  frame; auto using reconcileNetwork_keyed, reconcileRouters_keyed.
  - by apply same_part_keyed, reconcileLoadBalancer_frame.
  - by apply same_part_keyed, reconcileFloatingIP_frame.
  - eapply keyed_part_eq; [|done]. unfold setReadyCondition. by rewrite (readyFrom_spec_status keyed_part).
Qed.

(** ** Deletion: what remains is part of what was there *)

Lemma sublist_snoc {A} (l k : list A) x : l `sublist_of` k → l ++ [x] `sublist_of` k ++ [x].
Proof. intros. by apply sublist_app. Qed.

Lemma sublist_skip {A} (l k : list A) x : l `sublist_of` k → l `sublist_of` k ++ [x].
Proof. intros. by apply sublist_inserts_r. Qed.

Lemma deleteNetwork_keyed sc : respects (preserves keyed) (deleteNetwork sc).
Proof.
  intros s (Hs & Hn & Hr & Hi).
  set (I (pre : list NetworkStatus) (acc : list NetworkStatus * list error) (_ : CState) :=
         NetworkStatus_Name <$> acc.1 `sublist_of` NetworkStatus_Name <$> pre).
  pose proof (foldM_ind I (deleteNetworkStep sc) (networks_of (obj s)) [] ([], [])) as Hf.
  pose proof (respects_foldM (keeps id) (deleteNetworkStep sc) (networks_of (obj s)) ([], [])) as Hk.
  unfold deleteNetwork, deleteNetworks. go_run. fold (networks_of (obj s)).
  destruct (foldM _ _ _ s) as [r s1] eqn:E; simpl.
  assert (obj s1 = obj s) as Ho.
  { apply (respects_run (keeps id) _ _ _ _) in E; [done|]. apply Hk. intros [rem errs] ns _.
    unfold deleteNetworkStep, sdk_Delete, Eventf. frame. }
  destruct r as [[rem errs]|e]; simpl; rewrite Ho; [|done].
  specialize (Hf (rem, errs) s). rewrite E in Hf.
  assert (I (networks_of (obj s)) (rem, errs) s1) as HI.
  { apply Hf; [|apply sublist_nil_l|done]. clear. intros pre ns [rem errs] acc' s' _ HI.
    unfold deleteNetworkStep, sdk_Delete, Eventf, I in *. rewrite fmap_app. simpl in *.
    go_run. repeat (case_match; simplify_eq/=); intros; simplify_eq/=; rewrite ?fmap_app; csimpl;
      auto using sublist_snoc, sublist_skip. }
  assert (keyed (upd_status (set_CloudscaleClusterStatus_Networks rem) (obj s))) as H.
  { split; [exact Hs|]. split; [|by split]. eapply sublist_NoDup; [exact Hn|exact HI]. }
  by destruct errs.
Qed.

Lemma deleteRouterInterfaces_sublist sc rs s rs' errs s' :
  deleteRouterInterfaces sc rs s = (Ok (rs', errs), s') →
  RouterStatus_Name rs' = RouterStatus_Name rs ∧
  RouterInterfaceStatus_Network <$> RouterStatus_Interfaces rs' `sublist_of`
    RouterInterfaceStatus_Network <$> RouterStatus_Interfaces rs.
Proof.
  unfold deleteRouterInterfaces. destruct (hasManagedInterface rs); simpl; [|by intros [= <- <- <-]].
  unfold sdk_Get. go_run. destruct (svc_Get _ _ _) as [[router|e] w]; simpl.
  2:{ destruct (IsNotFound e); simpl; intros [= <- <- <-]; split; try done; apply sublist_nil_l. }
  set (s1 := mkSt _ _ _).
  set (I (pre : list RouterInterfaceStatus) (acc : list RouterInterfaceStatus * list error) (_ : CState) :=
         RouterInterfaceStatus_Network <$> acc.1 `sublist_of` RouterInterfaceStatus_Network <$> pre).
  pose proof (foldM_ind I (deleteInterfaceStep sc rs router) (RouterStatus_Interfaces rs) [] ([], [])) as Hf.
  destruct (foldM _ _ _ s1) as [[[rem es]|e] s2] eqn:E; simpl; [|done]. intros [= <- <- <-]. split; [done|].
  specialize (Hf (rem, es) s1). unfold result, exec in Hf. rewrite E in Hf. apply Hf; [|apply sublist_nil_l|done].
  clear. intros pre i [rem errs] acc' s' _ HI. unfold deleteInterfaceStep, I in *. rewrite fmap_app. simpl in *.
  go_run. repeat (case_match; simplify_eq/=); intros; simplify_eq/=; rewrite ?fmap_app; csimpl;
    auto using sublist_snoc, sublist_skip.
Qed.

Lemma deleteRouterStep_sublist sc rem errs rs s rem' errs' :
  result (deleteRouterStep sc (rem, errs) rs) s = Ok (rem', errs') →
  rem' = rem ∨ ∃ rs', rem' = rem ++ [rs'] ∧ RouterStatus_Name rs' = RouterStatus_Name rs ∧
    RouterInterfaceStatus_Network <$> RouterStatus_Interfaces rs' `sublist_of`
      RouterInterfaceStatus_Network <$> RouterStatus_Interfaces rs.
Proof.
  unfold deleteRouterStep, sdk_Delete, Eventf. case_bool_decide; [by intros [= <- <-]; left|].
  unfold result, bind. destruct (deleteRouterInterfaces sc rs s) as [[[rs' es]|e] s1] eqn:E; simpl; [|done].
  apply deleteRouterInterfaces_sublist in E as [Hn Hsub].
  go_run. repeat (case_match; simplify_eq/=); intros; simplify_eq/=; eauto.
Qed.

Lemma deleteRouters_keyed sc : respects (preserves keyed) (deleteRouters sc).
Proof.
  intros s (Hs & Hn & Hr & Hi).
  destruct (deleteRouters_loop sc s) as (rem & errs & s1 & E & Hinv).
  set (I (pre : list RouterStatus) (acc : list RouterStatus * list error) (_ : CState) :=
         RouterStatus_Name <$> acc.1 `sublist_of` RouterStatus_Name <$> pre ∧
         (Forall interfaces_keyed pre → Forall interfaces_keyed acc.1)).
  pose proof (foldM_ind I (deleteRouterStep sc) (routers_of (obj s)) [] ([], []) (rem, errs) s) as Hf.
  unfold result, exec in Hf. rewrite E in Hf. destruct Hf as [Hsub Hkeyed]; [|by split; [apply sublist_nil_l|]|done|].
  { clear. intros pre rs [rem errs] [rem' errs'] s' _ [Hsub Hk] Hr. split; simpl in *.
    - rewrite fmap_app. apply deleteRouterStep_sublist in Hr as [->|(rs' & -> & Hname & _)];
        [by apply sublist_skip|]. rewrite fmap_app. simpl. rewrite Hname. by apply sublist_snoc.
    - intros [Hp Hx]%Forall_app. apply deleteRouterStep_sublist in Hr as [->|(rs' & -> & _ & Hi)];
        [by apply Hk|]. apply Forall_app. split; [by apply Hk|]. apply Forall_singleton.
      rewrite Forall_singleton in Hx. eapply sublist_NoDup; [exact Hx|exact Hi]. }
  destruct Hinv as [Ho _].
  unfold deleteRouters, deleteRoutersLoop. go_run. fold (routers_of (obj s)). rewrite E. simpl. rewrite Ho.
  assert (keyed (upd_status (set_CloudscaleClusterStatus_Routers rem) (obj s))) as H.
  { split; [exact Hs|]. split_and!; [done| |by apply Hkeyed]. eapply sublist_NoDup; [exact Hr|exact Hsub]. }
  by destruct errs.
Qed.

Lemma reconcileDelete_keyed sc : respects (preserves keyed) (reconcileDelete sc).
Proof.
  unfold reconcileDelete, retryOn. frame; try done; auto using deleteRouters_keyed, deleteNetwork_keyed.
  - by apply same_part_keyed, (teardown_frame (Teardown:=fip_teardown sc)).
  - by apply same_part_keyed, (teardown_frame (Teardown:=lb_teardown sc)).
  - by apply same_part_keyed, (teardown_frame (Teardown:=servergroup_teardown sc)).
Qed.

(** ** The whole reconcile *)

Lemma reconcileBody_keyed sc : respects (preserves keyed) (reconcileBody sc).
Proof. unfold reconcileBody. frame; auto using reconcileDelete_keyed, reconcileNormal_keyed. Qed.

(** C21. The keys stay unique. A reconcile, whatever its outcome and whichever life
    cycle stage the cluster is in, keeps every list-map of the object keyed: the
    networks, routers and router interfaces of its specification and of its
    status. The object that the final patch submits is never refused for a
    duplicate key. *)
Theorem reconcile_keeps_keys cluster s :
  keyed (obj s) → keyed (obj (exec (reconcileOwned cluster) s)).
Proof.
  intros Hk. destruct (annotations_IsPaused cluster (CloudscaleCluster_Meta (obj s))) eqn:Hp.
  { unfold reconcileOwned. by rewrite exec_get, Hp. }
  destruct (reconcileOwned_cases cluster s Hp)
    as [(e & s' & pre & E & Ho & _)|(sc & s1 & pre & _ & E & Ho & _)]; unfold exec; rewrite E.
  - simpl. by rewrite Ho.
  - destruct (closing_run (obj s1) (reconcileBody sc) s1 (reconcileBody_quiet sc)) as (_ & _ & _ & _ & _ & Hobj & _).
    unfold exec in Hobj. rewrite Hobj. apply reconcileBody_keyed. by rewrite Ho.
Qed.
End schema.
