(* ===== verification/Strconv.v ===== *)
(** * Reading numbers (the parts of Go's [strconv] that the [flag] package uses)

    [ParseBool], [ParseInt] with base 0 and 64 bits, and [ParseFloat] with 64 bits:
    prefixes, underscores, signs, the special values, decimal and hexadecimal
    mantissas with an exponent, and rounding to the nearest float64 with ties to
    even. An error is one of the two that [strconv] has; its text is that of the
    [flag] package, which does not show the number. *)

From Stdlib Require Import Ascii QArith.
From S2P Require Export Go.
From S2P Require Import Release.

#[local] Open Scope Z_scope.

(** ** Characters *)

Definition byteOf (c : ascii) : Z := Z.of_N (N_of_ascii c).

(** [c | ('x' - 'X')]: the lower-case letter of a letter. *)
Definition lower (c : ascii) : Z := Z.lor (byteOf c) 32.

Definition isDigit (c : ascii) : bool := (48 <=? byteOf c) && (byteOf c <=? 57).
Definition isHexLetter (c : ascii) : bool := (97 <=? lower c) && (lower c <=? 102).
Definition isLetter (c : ascii) : bool := (97 <=? lower c) && (lower c <=? 122).
Definition is_char (n : Z) (c : ascii) : bool := byteOf c =? n.

(** What a digit in any base stands for. *)
Definition digitValue (c : ascii) : option Z :=
  if isDigit c then Some (byteOf c - 48)
  else if isLetter c then Some (lower c - 97 + 10)
  else None.

Inductive NumError := ErrSyntax | ErrRange.

(** ** ParseBool *)

Definition ParseBool (s : string) : bool + NumError :=
  if bool_decide (s ∈ ["1"; "t"; "T"; "true"; "TRUE"; "True"]) then inl true
  else if bool_decide (s ∈ ["0"; "f"; "F"; "false"; "FALSE"; "False"]) then inl false
  else inr ErrSyntax.

(** ** Underscores *)

(** The last class of character seen: the beginning, a digit or base prefix, an
    underscore, none of these. *)
Inductive Saw := SawBeginning | SawDigit | SawUnderscore | SawOther.

Fixpoint underscoresFrom (hex : bool) (saw : Saw) (s : string) : bool :=
  match s with
  | EmptyString => match saw with SawUnderscore => false | _ => true end
  | String c s =>
      if isDigit c || (hex && isHexLetter c) then underscoresFrom hex SawDigit s
      else if is_char 95 c then
        match saw with SawDigit => underscoresFrom hex SawUnderscore s | _ => false end
      else
        match saw with SawUnderscore => false | _ => underscoresFrom hex SawOther s end
  end.

(** Drop an optional sign; whether it is a minus. *)
Definition readSign (s : string) : bool * string :=
  match s with
  | String c s' => if is_char 45 c then (true, s') else if is_char 43 c then (false, s') else (false, s)
  | EmptyString => (false, s)
  end.

Definition underscoreOK (s : string) : bool :=
  let s := snd (readSign s) in
  match s with
  | String c0 (String c1 rest) =>
      if is_char 48 c0 && ((lower c1 =? 98) || (lower c1 =? 111) || (lower c1 =? 120))
      then underscoresFrom (lower c1 =? 120) SawDigit rest
      else underscoresFrom false SawBeginning s
  | _ => underscoresFrom false SawBeginning s
  end.

(** ** ParseUint and ParseInt, base 0, 64 bits *)

Definition maxUint64 : Z := 2 ^ 64 - 1.

(** The loop: the number read so far and whether an underscore was seen. *)
Fixpoint parseUintLoop (base : Z) (s : string) (n : Z) (underscores : bool) : (Z * bool) + NumError :=
  match s with
  | EmptyString => inl (n, underscores)
  | String c s =>
      if is_char 95 c then parseUintLoop base s n true
      else match digitValue c with
           | None => inr ErrSyntax
           | Some d =>
               if base <=? d then inr ErrSyntax
               else if maxUint64 / base + 1 <=? n then inr ErrRange
               else
                 let n := (n * base) mod 2 ^ 64 in
                 let n1 := (n + d) mod 2 ^ 64 in
                 if n1 <? n then inr ErrRange else parseUintLoop base s n1 underscores
           end
  end.

(** The base that a prefix announces, and what follows it. *)
Definition basePrefix (s : string) : Z * string :=
  match s with
  | String c0 rest =>
      if negb (is_char 48 c0) then (10, s)
      else match rest with
           | String c1 (String c2 rest2) =>
               if lower c1 =? 98 then (2, String c2 rest2)
               else if lower c1 =? 111 then (8, String c2 rest2)
               else if lower c1 =? 120 then (16, String c2 rest2)
               else (8, rest)
           | _ => (8, rest)
           end
  | EmptyString => (10, s)
  end.

Definition ParseUint (s : string) : Z + NumError :=
  if s == "" then inr ErrSyntax
  else
    let '(base, digits) := basePrefix s in
    match parseUintLoop base digits 0 false with
    | inr e => inr e
    | inl (n, underscores) => if underscores && negb (underscoreOK s) then inr ErrSyntax else inl n
    end.

Definition ParseInt (s : string) : Z + NumError :=
  let '(neg, s) := readSign s in
  match ParseUint s with
  | inr e => inr e
  | inl un =>
      if negb neg && (2 ^ 63 <=? un) then inr ErrRange
      else if neg && (2 ^ 63 <? un) then inr ErrRange
      else inl (if neg then - un else un)
  end.

(** ** ParseFloat *)

(** A float64, as far as comparisons go: the two zeros are one. *)
Inductive float64 := NaN | NegInf | Finite (q : Q) | PosInf.

(** Go's [<]: false when an operand is not a number. *)
Definition float_lt (a b : float64) : bool :=
  match a, b with
  | NaN, _ | _, NaN => false
  | Finite p, Finite q => negb (Qle_bool q p)
  | NegInf, NegInf | PosInf, _ | _, NegInf => false
  | _, _ => true
  end.

(** The special values, in any case: [inf] and [infinity] with an optional sign,
    [nan] without one. *)
Definition lowerAscii (c : ascii) : ascii :=
  if (65 <=? byteOf c) && (byteOf c <=? 90) then ascii_of_N (Z.to_N (byteOf c + 32)) else c.
Fixpoint lowerString (s : string) : string :=
  match s with EmptyString => EmptyString | String c s => String (lowerAscii c) (lowerString s) end.

Definition special (s : string) : option float64 :=
  let '(neg, rest) := readSign s in
  if bool_decide (lowerString rest ∈ ["inf"; "infinity"]) then Some (if neg then NegInf else PosInf)
  else if lowerString s == "nan" then Some NaN
  else None.

(** The mantissa: its digits as one number, how many of them follow the point,
    whether there was any digit, whether there was an underscore, and the rest. *)
Fixpoint readMantissa (hex : bool) (s : string) (mant frac : Z) (sawdot sawdigits underscores : bool)
    : Z * Z * bool * bool * string :=
  match s with
  | EmptyString => (mant, frac, sawdigits, underscores, s)
  | String c s' =>
      if is_char 95 c then readMantissa hex s' mant frac sawdot sawdigits true
      else if is_char 46 c then
        if sawdot then (mant, frac, sawdigits, underscores, s)
        else readMantissa hex s' mant frac true sawdigits underscores
      else
        match (if isDigit c || (hex && isHexLetter c) then digitValue c else None) with
        | Some d => readMantissa hex s' (mant * (if hex then 16 else 10) + d)
                      (if sawdot then frac + 1 else frac) sawdot true underscores
        | None => (mant, frac, sawdigits, underscores, s)
        end
  end.

(** The exponent's digits: those beyond 10000 no longer count. *)
Fixpoint readExponent (s : string) (e : Z) (underscores : bool) : Z * bool * string :=
  match s with
  | EmptyString => (e, underscores, s)
  | String c s' =>
      if is_char 95 c then readExponent s' e true
      else if isDigit c then readExponent s' (if e <? 10000 then e * 10 + (byteOf c - 48) else e) underscores
      else (e, underscores, s)
  end.

Definition startsWithDigit (s : string) : bool :=
  match s with String c _ => isDigit c | EmptyString => false end.

(** [readFloat] of a whole text: sign, mantissa, the power of ten or of two that it
    is multiplied with, and whether the mantissa is hexadecimal. *)
Definition readFloat (s : string) : option (bool * Z * Z * bool) :=
  let '(neg, body) := readSign s in
  let '(hex, body) :=
    match body with
    | String c0 (String c1 (String c2 rest)) =>
        if is_char 48 c0 && (lower c1 =? 120) then (true, String c2 rest) else (false, body)
    | _ => (false, body)
    end in
  let '(mant, frac, sawdigits, underscores, rest) := readMantissa hex body 0 0 false false false in
  let frac := if hex then 4 * frac else frac in
  if negb sawdigits then None
  else
    match rest with
    | EmptyString =>
        if hex || (underscores && negb (underscoreOK s)) then None else Some (neg, mant, - frac, hex)
    | String c rest =>
        if lower c =? (if hex then 112 else 101) then
          let '(eneg, rest) := readSign rest in
          if negb (startsWithDigit rest) then None
          else
            let '(e, underscores, rest) := readExponent rest 0 underscores in
            if (rest != "") || (underscores && negb (underscoreOK s)) then None
            else Some (neg, mant, (if eneg then - e else e) - frac, hex)
        else None
    end.

(** [a / b] rounded to an integer, ties to even. *)
Definition roundHalfEven (a b : Z) : Z :=
  let q := a / b in
  match 2 * (a mod b) ?= b with
  | Lt => q
  | Gt => q + 1
  | Eq => if Z.even q then q else q + 1
  end.

(** [a / b] divided by [2 ^ e], as a fraction. *)
Definition scaled (a b e : Z) : Z * Z := if 0 <=? e then (a, b * 2 ^ e) else (a * 2 ^ (- e), b).

(** The exponent of the last of the 53 bits of [a / b]; -1074 is the least. *)
Definition ulpExponent (a b : Z) : Z :=
  let e := Z.log2 a - Z.log2 b - 52 in
  let '(x, y) := scaled a b e in
  Z.max (-1074) (if x <? 2 ^ 52 * y then e - 1 else e).

(** [m * 2 ^ e] as a reduced fraction. *)
Definition dyadic (m e : Z) : Q :=
  if 0 <=? e then inject_Z (m * 2 ^ e) else Qred (Qmake m (Z.to_pos (2 ^ (- e)))).

(** [a / b], both positive, to the nearest float64; None when it is too large. *)
Definition nearest (a b : Z) : option Q :=
  let e := ulpExponent a b in
  let '(x, y) := scaled a b e in
  let m := roundHalfEven x y in
  if 2 ^ 1024 <=? m * 2 ^ Z.max 0 e then None else Some (dyadic m e).

Definition ParseFloat (s : string) : float64 + NumError :=
  match special s with
  | Some f => inl f
  | None =>
      match readFloat s with
      | None => inr ErrSyntax
      | Some (neg, mant, exp, hex) =>
          if mant =? 0 then inl (Finite 0)
          else
            let base := if hex then 2 else 10 in
            let '(a, b) := if 0 <=? exp then (mant * base ^ exp, 1) else (mant, base ^ (- exp)) in
            match nearest a b with
            | None => inr ErrRange
            | Some q => inl (Finite (if neg then - q else q)%Q)
            end
      end
  end.

(** ** Some numbers *)

Example ParseInt_prefixes :
  ParseInt <$> ["4"; "+4"; "-0x1F"; "0b1_01"; "017"; "08"; "1__0"; "_1"; "0x"; ""; "9223372036854775808"; "-9223372036854775808"] =
  [inl 4; inl 4; inl (-31); inl 5; inl 15; inr ErrSyntax; inr ErrSyntax; inr ErrSyntax; inr ErrSyntax;
   inr ErrSyntax; inr ErrRange; inl (- 2 ^ 63)].
Proof. by vm_compute. Qed.

Example ParseFloat_texts :
  ParseFloat <$> ["0.5"; "1"; "1e-1"; "0.1"; ".25"; "2."; "0x1p-2"; "0x1.8p1"; "-Inf"; "nan"; "+nan"; "1e400"; "1e-400"; "."; "1e"; "0x1"; "1_0.5e0_1"] =
  [inl (Finite (1 # 2)); inl (Finite 1); inl (Finite (3602879701896397 # 36028797018963968));
   inl (Finite (3602879701896397 # 36028797018963968)); inl (Finite (1 # 4)); inl (Finite 2);
   inl (Finite (1 # 4)); inl (Finite 3); inl NegInf; inl NaN; inr ErrSyntax; inr ErrRange; inl (Finite 0);
   inr ErrSyntax; inr ErrSyntax; inr ErrSyntax; inl (Finite 105)].
Proof. by vm_compute. Qed.

(** ** Reading what was printed *)

Lemma isDigit_spec c : isDigit c = is_digit c.
Proof.
  unfold isDigit, is_digit, byteOf. cbv zeta.
  destruct (Z.leb_spec 48 (Z.of_N (N_of_ascii c))), (N.leb_spec 48 (N_of_ascii c)),
    (Z.leb_spec (Z.of_N (N_of_ascii c)) 57), (N.leb_spec (N_of_ascii c) 57); done || lia.
Qed.

Lemma digit_facts c :
  is_digit c = true →
  is_char 95 c = false ∧ is_char 46 c = false ∧ is_char 45 c = false ∧ is_char 43 c = false ∧
  digitValue c = Some (Z.of_N (digit_of c)) ∧ isDigit c = true ∧ 0 <= Z.of_N (digit_of c) < 10.
Proof. intros H. destruct c as [[] [] [] [] [] [] [] []]; vm_compute in H; try discriminate; by vm_compute. Qed.


Lemma charDigit_of c : is_digit c = true → byteOf c - 48 = Z.of_N (digit_of c).
Proof. intros H. destruct c as [[] [] [] [] [] [] [] []]; vm_compute in H; try discriminate; by vm_compute. Qed.


Lemma parseUintLoop_digits s n :
  digits s → (value s n < 2 ^ 64)%N → parseUintLoop 10 s (Z.of_N n) false = inl (Z.of_N (value s n), false).
Proof.
  revert n. induction s as [|c s IH]; intros n Hs Hv; [done|].
  apply Forall_cons in Hs as [Hc Hs]. destruct (digit_facts c Hc) as (H1 & _ & _ & _ & H2 & _ & H3).
  cbn [parseUintLoop]. rewrite H1, H2. cbn [value] in Hv |- *.
  pose proof (value_ge s (n * 10 + digit_of c)) as Hge.
  assert ((2 ^ 64 = 18446744073709551616)%N) as E by done.
  replace (10 <=? Z.of_N (digit_of c)) with false by lia.
  replace (maxUint64 / 10 + 1 <=? Z.of_N n) with false
    by (change (maxUint64 / 10 + 1) with 1844674407370955162; lia).
  cbv zeta. change (2 ^ 64) with 18446744073709551616.
  rewrite (Z.mod_small (Z.of_N n * 10)), Z.mod_small by lia.
  replace (_ <? _) with false by lia. rewrite <- IH by done. f_equal. lia.
Qed.

Lemma basePrefix_numeral s :
  numeral s → s ≠ "" ∧ ∃ base ds, basePrefix s = (base, ds) ∧ ((base = 10 ∧ ds = s) ∨ (s = "0" ∧ base = 8 ∧ ds = "")).
Proof.
  intros [->|(c & s' & -> & Hc & _)]; (split; [done|]); [eexists _, _; split; [done|by right]|].
  exists 10, (String c s'). split; [|by left].
  destruct c as [[] [] [] [] [] [] [] []]; vm_compute in Hc; try discriminate; done.
Qed.

Lemma ParseUint_numeral s :
  numeral s → (value s 0 < 2 ^ 64)%N → ParseUint s = inl (Z.of_N (value s 0)).
Proof.
  intros Hs Hv. destruct (basePrefix_numeral s Hs) as (Hne & base & ds & E & Hb).
  unfold ParseUint. rewrite bool_decide_eq_false_2 by done. rewrite E.
  destruct Hb as [[-> ->]|(-> & -> & ->)]; [|done].
  apply numeral_digits in Hs as [Hd _]. by rewrite (parseUintLoop_digits s 0 Hd Hv : parseUintLoop 10 s 0 false = _).
Qed.

Lemma readSign_digits s : (∀ c s', s = String c s' → is_digit c = true) → readSign s = (false, s).
Proof.
  intros H. destruct s as [|c s]; [done|]. destruct (digit_facts c) as (_ & _ & H1 & H2 & _); [by eapply H|].
  cbn [readSign]. by rewrite H1, H2.
Qed.

Lemma numeral_head s c s' : numeral s → s = String c s' → is_digit c = true.
Proof. intros [H _]%numeral_digits ->. by apply Forall_cons in H as [? _]. Qed.

Lemma pretty_numeral (n : N) : numeral (pretty n).
Proof. apply numeral_pretty. by exists n. Qed.

Lemma itoa_sign n :
  itoa n = (if n <? 0 then "-" else "") +:+ pretty (Z.to_N (Z.abs n)).
Proof. by destruct n. Qed.

Lemma readSign_itoa n rest :
  readSign (itoa n +:+ rest) = (n <? 0, pretty (Z.to_N (Z.abs n)) +:+ rest).
Proof.
  rewrite itoa_sign. destruct (n <? 0); [done|]. rewrite app_empty_l. apply readSign_digits.
  intros c s' E. pose proof (pretty_numeral (Z.to_N (Z.abs n))) as Hn.
  destruct (pretty (Z.to_N (Z.abs n))) as [|c' t]; [by destruct (proj2 (numeral_digits _ Hn))|].
  injection E as <- _. by eapply numeral_head.
Qed.

(** [flag] reads the integers it prints. *)
Lemma ParseInt_itoa n : - 2 ^ 63 <= n < 2 ^ 63 → ParseInt (itoa n) = inl n.
Proof.
  intros Hn. unfold ParseInt. rewrite <- (app_empty_r (itoa n)), readSign_itoa, app_empty_r.
  rewrite ParseUint_numeral by (try apply pretty_numeral; rewrite value_pretty; lia).
  rewrite value_pretty. destruct (Z.ltb_spec n 0); cbn [negb andb].
  - destruct (Z.ltb_spec (2 ^ 63) (Z.of_N (Z.to_N (Z.abs n)))); [lia|]. f_equal. lia.
  - destruct (Z.leb_spec (2 ^ 63) (Z.of_N (Z.to_N (Z.abs n)))); [lia|]. f_equal. lia.
Qed.

(** *** Floats *)

Lemma readMantissa_digits s rest n :
  digits s → readMantissa false (s +:+ rest) (Z.of_N n) 0 false true false =
             readMantissa false rest (Z.of_N (value s n)) 0 false true false.
Proof.
  revert n. induction s as [|c s IH]; intros n Hs; [done|].
  apply Forall_cons in Hs as [Hc Hs]. destruct (digit_facts c Hc) as (H1 & H2 & _ & _ & H3 & H4 & _).
  rewrite app_cons_s. cbn [readMantissa]. rewrite H1, H2, H4. cbn [orb]. rewrite H3.
  cbn [value]. etransitivity; [|by apply IH]. f_equal. lia.
Qed.

Lemma readMantissa_number s rest :
  digits s → s ≠ "" → readMantissa false (s +:+ rest) 0 0 false false false =
             readMantissa false rest (Z.of_N (value s 0)) 0 false true false.
Proof.
  intros Hs Hne. destruct s as [|c s]; [done|].
  apply Forall_cons in Hs as [Hc Hs]. destruct (digit_facts c Hc) as (H1 & H2 & _ & _ & H3 & H4 & _).
  rewrite app_cons_s. cbn [readMantissa]. rewrite H1, H2, H4. cbn [orb]. rewrite H3.
  cbn [value]. etransitivity; [|by apply readMantissa_digits]. f_equal.
Qed.

(** The exponents that occur: up to five digits count. *)
Lemma readExponent_digits s n :
  digits s → (value s n < 100000)%N → readExponent s (Z.of_N n) false = (Z.of_N (value s n), false, "").
Proof.
  revert n. induction s as [|c s IH]; intros n Hs Hv; [done|].
  apply Forall_cons in Hs as [Hc Hs]. destruct (digit_facts c Hc) as (H1 & _ & _ & _ & _ & H4 & _).
  cbn [readExponent value] in Hv |- *. rewrite H1, H4. pose proof (value_ge s (n * 10 + digit_of c)).
  replace (Z.of_N n <? 10000) with true by lia. rewrite charDigit_of by done. rewrite <- IH by done.
  f_equal. lia.
Qed.

(** *** A number that is a float64 is its own nearest float64 *)

Lemma pow2_pos k : 0 <= k → 0 < 2 ^ k.
Proof. intros. by apply Z.pow_pos_nonneg. Qed.

Lemma scaled_spec a b e x y T :
  0 < a → 0 < b → Z.max 0 (- e) <= T → scaled a b e = (x, y) →
  0 < x ∧ 0 < y ∧ x * b * 2 ^ (e + T) = a * y * 2 ^ T.
Proof.
  intros Ha Hb HT. unfold scaled. destruct (Z.leb_spec 0 e) as [He|He]; intros [= <- <-].
  - pose proof (pow2_pos e He). split_and!; [lia|by apply Z.mul_pos_pos|]. rewrite Z.pow_add_r by lia. ring.
  - pose proof (pow2_pos (- e) ltac:(lia)). split_and!; [by apply Z.mul_pos_pos|lia|].
    replace T with ((e + T) + - e) at 2 by lia. rewrite (Z.pow_add_r 2 (e + T) (- e)) by lia. ring.
Qed.

(** The exponent leaves at least 53 bits, unless it is the least, and at most 54. *)
Lemma ulpExponent_bounds a b T :
  0 < a → 0 < b → Z.abs (Z.log2 a - Z.log2 b) + 2000 <= T →
  let e := ulpExponent a b in
  (e = -1074 ∨ -1074 <= e ∧ 2 ^ (52 + e + T) * b <= a * 2 ^ T) ∧ a * 2 ^ T < 2 ^ (54 + e + T) * b ∧ Z.max 0 (- e) <= T.
Proof.
  intros Ha Hb HT. unfold ulpExponent. cbv zeta. set (e0 := Z.log2 a - Z.log2 b - 52).
  pose proof (Z.log2_spec a Ha) as [Ha1 Ha2]. pose proof (Z.log2_spec b Hb) as [Hb1 Hb2].
  pose proof (Z.log2_nonneg a). pose proof (Z.log2_nonneg b).
  destruct (scaled a b e0) as [x y] eqn:E.
  destruct (scaled_spec a b e0 x y T Ha Hb ltac:(lia) E) as (Hx & Hy & Hxy).
  assert (e0 = Z.log2 a - Z.log2 b - 52) as He0 by done. clearbody e0.
  assert (a * 2 ^ T < 2 ^ (53 + e0 + T) * b) as Hup.
  { apply Z.lt_le_trans with (2 ^ (53 + e0 + T) * 2 ^ Z.log2 b); [|by apply Z.mul_le_mono_nonneg_l; [apply Z.pow_nonneg; lia|]].
    rewrite <- Z.pow_add_r by lia. replace (53 + e0 + T + Z.log2 b) with (Z.succ (Z.log2 a) + T) by lia.
    rewrite Z.pow_add_r by lia. apply Z.mul_lt_mono_pos_r; [apply pow2_pos; lia|done]. }
  assert (2 ^ (51 + e0 + T) * b <= a * 2 ^ T) as Hlow.
  { apply Z.le_trans with (2 ^ (51 + e0 + T) * 2 ^ Z.succ (Z.log2 b)).
    { apply Z.mul_le_mono_nonneg_l; [apply Z.pow_nonneg|]; lia. }
    rewrite <- Z.pow_add_r by lia. replace (51 + e0 + T + Z.succ (Z.log2 b)) with (Z.log2 a + T) by lia.
    rewrite Z.pow_add_r by lia. apply Z.mul_le_mono_nonneg_r; [apply Z.pow_nonneg|]; lia. }
  set (e1 := if x <? 2 ^ 52 * y then e0 - 1 else e0).
  assert (2 ^ (52 + e1 + T) * b <= a * 2 ^ T) as Hlow1.
  { unfold e1. destruct (Z.ltb_spec x (2 ^ 52 * y)) as [_|Hge].
    - by replace (52 + (e0 - 1) + T) with (51 + e0 + T) by lia.
    - apply (Z.mul_le_mono_pos_r _ _ y); [done|].
      replace (a * 2 ^ T * y) with (x * b * 2 ^ (e0 + T)) by lia.
      replace (52 + e0 + T) with (52 + (e0 + T)) by lia. rewrite Z.pow_add_r by lia.
      pose proof (pow2_pos (e0 + T) ltac:(lia)). nia. }
  assert (e0 - 1 <= e1 <= e0) as He1 by (unfold e1; destruct (x <? _); lia). clearbody e1.
  split_and!; [|eapply Z.lt_le_trans; [exact Hup|]|lia].
  - destruct (Z.max_spec (-1074) e1) as [[? ->]|[? ->]]; [right; split; [lia|done]|by left].
  - apply Z.mul_le_mono_nonneg_r; [lia|]. apply Z.pow_le_mono_r; lia.
Qed.

Lemma roundHalfEven_exact m y : 0 < y → roundHalfEven (m * y) y = m.
Proof.
  intros Hy. unfold roundHalfEven. rewrite Z.mod_mul, Z.div_mul by lia.
  destruct (2 * 0 ?= y) eqn:E; [apply Z.compare_eq in E; lia|done|apply Z.compare_gt_iff in E; lia].
Qed.

Lemma dyadic_eq m e T :
  Z.max 0 (- e) <= T → (dyadic m e == Qmake (m * 2 ^ (e + T)) (Z.to_pos (2 ^ T)))%Q.
Proof.
  intros HT. unfold dyadic. pose proof (pow2_pos T ltac:(lia)). destruct (Z.leb_spec 0 e) as [He|He].
  - unfold Qeq, inject_Z. cbn [Qnum Qden]. rewrite Z2Pos.id by done. rewrite Z.pow_add_r by lia. ring.
  - rewrite Qred_correct. pose proof (pow2_pos (- e) ltac:(lia)). unfold Qeq. cbn [Qnum Qden].
    rewrite !Z2Pos.id by done. replace T with ((e + T) + - e) at 1 by lia. rewrite (Z.pow_add_r 2 (e + T) (- e)) by lia. ring.
Qed.

Lemma dyadic_red m e : Qred (dyadic m e) = dyadic m e.
Proof.
  unfold dyadic. destruct (0 <=? e); [|apply Qred_complete, Qred_correct].
  unfold inject_Z, Qred. pose proof (Z.ggcd_gcd (m * 2 ^ e) 1) as Hg.
  pose proof (Z.ggcd_correct_divisors (m * 2 ^ e) 1) as Hd.
  destruct (Z.ggcd (m * 2 ^ e) 1) as [g [aa bb]]. simpl in *. rewrite Z.gcd_1_r in Hg. subst g.
  destruct Hd as [Hd1 Hd2]. rewrite Z.mul_1_l in *. by subst.
Qed.

Lemma dyadic_unique m e m' e' : (dyadic m e == dyadic m' e')%Q → dyadic m e = dyadic m' e'.
Proof. intros H. rewrite <- (dyadic_red m e), <- (dyadic_red m' e'). by apply Qred_complete. Qed.

Lemma nearest_exact a b m e :
  0 < a → 0 < b → 0 < m < 2 ^ 53 → -1074 <= e <= 971 → (Qmake a (Z.to_pos b) == dyadic m e)%Q →
  nearest a b = Some (dyadic m e).
Proof.
  intros Ha Hb Hm He Heq. set (T := Z.abs (Z.log2 a - Z.log2 b) + 2000).
  assert (a * 2 ^ T = m * 2 ^ (e + T) * b) as Hv.
  { rewrite (dyadic_eq m e T) in Heq by lia. unfold Qeq in Heq. cbn [Qnum Qden] in Heq.
    rewrite !Z2Pos.id in Heq by (try apply pow2_pos; lia). lia. }
  destruct (ulpExponent_bounds a b T Ha Hb ltac:(lia)) as (Hlow & Hup & HT).
  unfold nearest. set (e' := ulpExponent a b) in *. destruct (scaled a b e') as [x y] eqn:E.
  destruct (scaled_spec a b e' x y T Ha Hb HT E) as (Hx & Hy & Hxy).
  pose proof (pow2_pos T ltac:(lia)). pose proof (pow2_pos (e + T) ltac:(lia)).
  assert (e' <= e) as Hle.
  { destruct Hlow as [->|[_ Hlow]]; [lia|]. rewrite Hv in Hlow. apply Z.mul_le_mono_pos_r in Hlow; [|done].
    assert (2 ^ (52 + e' + T) < 2 ^ (53 + (e + T))) as Hlt.
    { eapply Z.le_lt_trans; [exact Hlow|]. rewrite (Z.pow_add_r 2 53) by lia.
      apply Z.mul_lt_mono_pos_r; [done|lia]. }
    apply Z.pow_lt_mono_r_iff in Hlt; lia. }
  assert (x = m * 2 ^ (e - e') * y) as ->.
  { replace (a * y * 2 ^ T) with (a * 2 ^ T * y) in Hxy by ring. rewrite Hv in Hxy.
    pose proof (pow2_pos (e' + T) ltac:(lia)).
    apply (Z.mul_reg_r _ _ (b * 2 ^ (e' + T))); [lia|].
    replace (m * 2 ^ (e - e') * y * (b * 2 ^ (e' + T))) with (m * (2 ^ (e - e') * 2 ^ (e' + T)) * b * y) by ring.
    rewrite <- Z.pow_add_r by lia. replace (e - e' + (e' + T)) with (e + T) by lia. lia. }
  rewrite roundHalfEven_exact by done. 
  assert (m * 2 ^ (e - e') * 2 ^ Z.max 0 e' < 2 ^ 1024) as Hov.
  { destruct (Z.max_spec 0 e') as [[Hz ->]|[Hz ->]].
    - rewrite <- Z.mul_assoc, <- Z.pow_add_r by lia. replace (e - e' + e') with e by lia.
      apply Z.lt_le_trans with (2 ^ 53 * 2 ^ e); [apply Z.mul_lt_mono_pos_r; [apply pow2_pos|]; lia|].
      rewrite <- Z.pow_add_r by lia. apply Z.pow_le_mono_r; lia.
    - rewrite Z.mul_1_r. rewrite Hv in Hup. apply Z.mul_lt_mono_pos_r in Hup; [|done].
      replace (e + T) with ((e - e') + (e' + T)) in Hup by lia.
      replace (54 + e' + T) with (54 + (e' + T)) in Hup by lia.
      rewrite (Z.pow_add_r 2 (e - e')), (Z.pow_add_r 2 54), Z.mul_assoc in Hup by lia. apply Z.mul_lt_mono_pos_r in Hup; [|apply pow2_pos; lia].
      eapply Z.lt_trans; [exact Hup|]. by vm_compute. }
  destruct (Z.leb_spec (2 ^ 1024) (m * 2 ^ (e - e') * 2 ^ Z.max 0 e')); [lia|]. f_equal.
  apply dyadic_unique. rewrite (dyadic_eq _ e' T), (dyadic_eq _ e T) by lia.
  rewrite <- Z.mul_assoc, <- Z.pow_add_r by lia. by replace (e - e' + (e' + T)) with (e + T) by lia.
Qed.

(** ** A text for every float64 *)

(** The numbers that are a float64. *)
Definition is_float64 (f : float64) : Prop :=
  match f with
  | Finite q => ∃ m e, Z.abs m < 2 ^ 53 ∧ -1074 <= e <= 971 ∧ q = dyadic m e
  | _ => True
  end.

(** An exact decimal text: [n / 2 ^ k] is [(n * 5 ^ k) / 10 ^ k]. *)
Definition floatText (f : float64) : string :=
  match f with
  | NaN => "NaN"
  | PosInf => "+Inf"
  | NegInf => "-Inf"
  | Finite q =>
      let k := Z.log2 (Zpos (Qden q)) in
      itoa (Qnum q * 5 ^ k) +:+ "e-" +:+ pretty (Z.to_N k)
  end.

Lemma divides_pow2 j d : 0 <= j → 0 < d → (d | 2 ^ j) → d = 2 ^ Z.log2 d ∧ Z.log2 d <= j.
Proof.
  intros Hj Hd Hdiv. split.
  - revert d Hd Hdiv. pattern j. apply natlike_ind; [| |done]; clear j Hj.
    { intros d Hd Hdiv. apply Z.divide_1_r_nonneg in Hdiv; [by subst|lia]. }
    intros j Hj IH d Hd Hdiv. rewrite Z.pow_succ_r in Hdiv by done.
    destruct (Z.Even_or_Odd d) as [[d' ->]|Hodd].
    + apply Z.mul_divide_cancel_l in Hdiv; [|lia]. rewrite Z.log2_double by lia.
      rewrite Z.pow_succ_r by apply Z.log2_nonneg. f_equal. apply IH; [lia|done].
    + apply IH; [done|]. eapply Z.gauss; [exact Hdiv|].
      pose proof (Z.gcd_nonneg d 2). pose proof (Z.gcd_divide_l d 2) as [u Hu]. pose proof (Z.gcd_divide_r d 2) as Hr.
      apply Z.divide_pos_le in Hr; [|lia]. assert (Z.gcd d 2 ≠ 2); [|assert (Z.gcd d 2 ≠ 0); [|lia]].
      * intros Hg. rewrite Hg in Hu. destruct Hodd as [v Hv]. lia.
      * intros Hg. apply Z.gcd_eq_0_r in Hg. lia.
  - apply Z.divide_pos_le in Hdiv; [|by apply pow2_pos]. apply Z.log2_le_mono in Hdiv.
    by rewrite Z.log2_pow2 in Hdiv.
Qed.

Lemma dyadic_den m e :
  -1074 <= e → ∃ k, 0 <= k <= 1074 ∧ Zpos (Qden (dyadic m e)) = 2 ^ k ∧ Z.log2 (Zpos (Qden (dyadic m e))) = k.
Proof.
  intros He. unfold dyadic. destruct (Z.leb_spec 0 e) as [H0|H0]; [by exists 0|].
  pose proof (pow2_pos (- e) ltac:(lia)) as Hp. unfold Qred.
  pose proof (Z.ggcd_correct_divisors m (Zpos (Z.to_pos (2 ^ (- e))))) as Hd.
  pose proof (Z.ggcd_gcd m (Zpos (Z.to_pos (2 ^ (- e))))) as Hg.
  destruct (Z.ggcd _ _) as [g [aa bb]]. cbn [fst snd Qden] in *. destruct Hd as [_ Hd].
  rewrite Z2Pos.id in Hd, Hg by done. pose proof (Z.gcd_nonneg m (2 ^ (- e))).
  assert (0 < g) by (destruct (Z.eq_dec g 0) as [->|]; lia).
  assert (0 < bb) by (apply (Z.mul_pos_cancel_l g); lia).
  rewrite Z2Pos.id by done. destruct (divides_pow2 (- e) bb) as [Hb1 Hb2]; [lia|done|by exists g; lia|].
  exists (Z.log2 bb). pose proof (Z.log2_nonneg bb). split_and!; [lia|lia|done|done].
Qed.

Lemma special_number n rest : special (itoa n +:+ rest) = None.
Proof.
  unfold special. rewrite readSign_itoa.
  pose proof (pretty_numeral (Z.to_N (Z.abs n))) as Hn.
  destruct (pretty (Z.to_N (Z.abs n))) as [|c t] eqn:E; [by destruct (proj2 (numeral_digits _ Hn))|].
  pose proof (numeral_head _ c t Hn eq_refl) as Hc.
  rewrite bool_decide_eq_false_2, bool_decide_eq_false_2; [done| |].
  - rewrite itoa_sign, E. destruct (n <? 0); [by rewrite app_cons_s|].
    destruct c as [[] [] [] [] [] [] [] []]; vm_compute in Hc; try discriminate; by intros [= ].
  - rewrite app_cons_s. cbn [lowerString]. rewrite !elem_of_cons, elem_of_nil.
    destruct c as [[] [] [] [] [] [] [] []]; vm_compute in Hc; try discriminate; by intros [[= ]|[[= ]|[]]].
Qed.

Lemma readFloat_text n k :
  0 <= k <= 1074 →
  readFloat (itoa n +:+ "e-" +:+ pretty (Z.to_N k)) = Some (n <? 0, Z.abs n, - k, false).
Proof.
  intros Hk. unfold readFloat. rewrite readSign_itoa.
  pose proof (pretty_numeral (Z.to_N (Z.abs n))) as Hn. pose proof (numeral_digits _ Hn) as [Hd Hne].
  set (tail := "e-" +:+ pretty (Z.to_N k)).
  assert (match pretty (Z.to_N (Z.abs n)) +:+ tail with
          | String c0 (String c1 (String c2 rest)) =>
              if is_char 48 c0 && (lower c1 =? 120) then (true, String c2 rest)
              else (false, pretty (Z.to_N (Z.abs n)) +:+ tail)
          | _ => (false, pretty (Z.to_N (Z.abs n)) +:+ tail)
          end = (false, pretty (Z.to_N (Z.abs n)) +:+ tail)) as ->.
  { destruct Hn as [->|(c & s' & -> & Hc & Hs)]; [done|].
    assert (is_char 48 c = false) as Hz.
    { destruct c as [[] [] [] [] [] [] [] []]; vm_compute in Hc; try discriminate; done. }
    rewrite app_cons_s. rewrite Hz. destruct (s' +:+ tail) as [|? [|? ?]]; done. }
  rewrite readMantissa_number by done. rewrite value_pretty.
  pose proof (pretty_numeral (Z.to_N k)) as Hnk. pose proof (numeral_digits _ Hnk) as [Hdk Hnek].
  unfold tail. change ("e-" +:+ pretty (Z.to_N k)) with (String "e" (String "-" (pretty (Z.to_N k)))).
  cbn [readMantissa]. change (is_char 95 "e") with false. change (is_char 46 "e") with false.
  change (isDigit "e" || (false && isHexLetter "e")) with false. cbn iota. cbn [negb].
  change (lower "e" =? 101) with true. cbn iota. cbn [readSign]. change (is_char 45 "-") with true. cbn iota.
  assert (startsWithDigit (pretty (Z.to_N k)) = true) as ->.
  { destruct (pretty (Z.to_N k)) as [|c t]; [done|]. cbn. rewrite isDigit_spec. by eapply numeral_head. }
  cbn [negb]. pose proof (readExponent_digits (pretty (Z.to_N k)) 0 Hdk) as Hex.
  rewrite value_pretty in Hex. cbn [Z.of_N] in Hex. rewrite Hex by lia.
  rewrite !Z2N.id by lia. cbn. by rewrite Z.sub_0_r.
Qed.

Lemma dyadic_opp m e : dyadic (- m) e = (- dyadic m e)%Q.
Proof.
  unfold dyadic. destruct (0 <=? e); [unfold inject_Z, Qopp; cbn; f_equal; ring|].
  by rewrite <- Qred_opp.
Qed.

Lemma dyadic_sign m e : Z.sgn (Qnum (dyadic m e)) = Z.sgn m.
Proof.
  pose proof (dyadic_eq m e (Z.max 0 (- e)) ltac:(lia)) as Hq. unfold Qeq in Hq. cbn [Qnum Qden] in Hq.
  pose proof (pow2_pos (Z.max 0 (- e)) ltac:(lia)). pose proof (pow2_pos (e + Z.max 0 (- e)) ltac:(lia)).
  rewrite Z2Pos.id in Hq by done. apply (f_equal Z.sgn) in Hq. rewrite !Z.sgn_mul in Hq.
  rewrite !(Z.sgn_pos (2 ^ _)) in Hq by done. cbn [Z.sgn] in Hq. lia.
Qed.

Lemma dyadic_abs m e :
  dyadic (Z.abs m) e = Qmake (Z.abs (Qnum (dyadic m e))) (Qden (dyadic m e)).
Proof.
  pose proof (dyadic_sign m e) as Hs. destruct (Z.abs_spec m) as [[Hm ->]|[Hm ->]].
  - destruct (dyadic m e) as [n d]. cbn [Qnum Qden] in *. f_equal. lia.
  - rewrite dyadic_opp. destruct (dyadic m e) as [n d]. unfold Qopp. cbn [Qnum Qden] in *. f_equal. lia.
Qed.

(** Every float64 is read back from its text. *)
Lemma ParseFloat_text f : is_float64 f → ParseFloat (floatText f) = inl f.
Proof.
  destruct f as [| |q|]; [done|done| |done]. intros (m & e & Hm & He & ->). unfold floatText. cbv zeta.
  destruct (dyadic_den m e ltac:(lia)) as (k & Hk & Hden & ->).
  unfold ParseFloat. rewrite special_number, readFloat_text by done.
  pose proof (Z.pow_pos_nonneg 5 k ltac:(lia) ltac:(lia)) as H5.
  pose proof (Z.pow_pos_nonneg 10 k ltac:(lia) ltac:(lia)) as H10.
  pose proof (dyadic_sign m e) as Hs. destruct (Z.eq_dec m 0) as [->|Hm0].
  { assert (Qnum (dyadic 0 e) = 0) as -> by lia. cbn [Z.mul Z.abs Z.eqb]. do 2 f_equal.
    transitivity (dyadic 0 0); [done|]. apply dyadic_unique. rewrite !(dyadic_eq _ _ (Z.max 0 (- e))) by lia.
    by rewrite !Z.mul_0_l. }
  set (n := Qnum (dyadic m e)) in *.
  destruct (Z.eqb_spec (Z.abs (n * 5 ^ k)) 0) as [Ha|Ha]; [nia|].
  assert ((if 0 <=? - k then (Z.abs (n * 5 ^ k) * 10 ^ (- k), 1) else (Z.abs (n * 5 ^ k), 10 ^ (- - k)))
          = (Z.abs (n * 5 ^ k), 10 ^ k)) as ->.
  { destruct (Z.leb_spec 0 (- k)); [replace k with 0 by lia; by rewrite Z.mul_1_r|by rewrite Z.opp_involutive]. }
  assert (nearest (Z.abs (n * 5 ^ k)) (10 ^ k) = Some (dyadic (Z.abs m) e)) as ->.
  { apply nearest_exact; [lia|done|lia|done|]. rewrite dyadic_abs.
    unfold Qeq. cbn [Qnum Qden]. rewrite Z2Pos.id, Hden by done. fold n.
    change 10 with (5 * 2). rewrite Z.pow_mul_l, Z.abs_mul, (Z.abs_eq (5 ^ k)) by lia. ring. }
  do 2 f_equal. destruct (Z.ltb_spec (n * 5 ^ k) 0).
  - rewrite <- dyadic_opp. f_equal. nia.
  - f_equal. nia.
Qed.
