(* ===== verification/Startup.v ===== *)
(** * Process start
    (src/cmd/main.go, src/internal/observability/tracing.go, NewClient and
    NewTransport of src/internal/cloudscale/client.go, the SetupWithManager methods
    of src/internal/controller and the Setup functions of src/internal/webhook)

    From the parsed flags to the running manager: what is checked, fetched and
    registered before the manager starts, in which order, and what is cleaned up
    when the process ends. Logging, the signal handler and the trace propagator, which
    cannot fail, are left out. *)

From Stdlib Require Import QArith.
From S2P Require Export Strconv Catalog Admission MachineWebhook.

Set Warnings "-register-all".

(** ** Flags *)

(** The variables that [flag.Parse] fills in. *)
Record Flags := mkFlags {
  metricsAddr : string;
  probeAddr : string;
  enableLeaderElection : bool;
  secureMetrics : bool;
  webhookCertPath : string;
  webhookCertName : string;
  webhookCertKey : string;
  metricsCertPath : string;
  metricsCertName : string;
  metricsCertKey : string;
  enableHTTP2 : bool;
  clusterConcurrency : Z;
  machineConcurrency : Z;
  watchFilter : string;
  enableTracing : bool;
  tracingSampleRate : float64;
  profilerAddress : string }.

(** Their values when nothing is given; 0.1 is the float64 next to it. *)
Definition defaultFlags : Flags := {|
  metricsAddr := "0"; probeAddr := ":8081"; enableLeaderElection := false; secureMetrics := true;
  webhookCertPath := ""; webhookCertName := "tls.crt"; webhookCertKey := "tls.key";
  metricsCertPath := ""; metricsCertName := "tls.crt"; metricsCertKey := "tls.key";
  enableHTTP2 := false; clusterConcurrency := 1; machineConcurrency := 1; watchFilter := "";
  enableTracing := false; tracingSampleRate := Finite (3602879701896397 # 36028797018963968); profilerAddress := "" |}.

(** ** Servers: their options *)

Record tlsConfig := mkTLSConfig { NextProtos : list string }.

Definition disableHTTP2 (c : tlsConfig) : tlsConfig := mkTLSConfig ["http/1.1"].

Definition tlsOpts (f : Flags) : list (tlsConfig → tlsConfig) :=
  if negb (enableHTTP2 f) then [disableHTTP2] else [].

(** What a server does with its options: they are applied in order. *)
Definition configured (opts : list (tlsConfig → tlsConfig)) (c : tlsConfig) : tlsConfig :=
  foldl (λ c opt, opt c) c opts.

Record WebhookServerOptions := mkWebhookServerOptions {
  whs_TLSOpts : list (tlsConfig → tlsConfig);
  whs_CertDir : string; whs_CertName : string; whs_KeyName : string }.

Definition webhookServerOptions (f : Flags) : WebhookServerOptions :=
  if (0 <? String.length (webhookCertPath f))%nat
  then mkWebhookServerOptions (tlsOpts f) (webhookCertPath f) (webhookCertName f) (webhookCertKey f)
  else mkWebhookServerOptions (tlsOpts f) "" "" "".

Record MetricsServerOptions := mkMetricsServerOptions {
  ms_BindAddress : string; ms_SecureServing : bool;
  ms_TLSOpts : list (tlsConfig → tlsConfig);
  (** [filters.WithAuthenticationAndAuthorization] is set *)
  ms_Authenticated : bool;
  ms_CertDir : string; ms_CertName : string; ms_KeyName : string }.

Definition metricsServerOptions (f : Flags) : MetricsServerOptions :=
  let cert := (0 <? String.length (metricsCertPath f))%nat in
  {| ms_BindAddress := metricsAddr f; ms_SecureServing := secureMetrics f; ms_TLSOpts := tlsOpts f;
     ms_Authenticated := secureMetrics f;
     ms_CertDir := if cert then metricsCertPath f else "";
     ms_CertName := if cert then metricsCertName f else "";
     ms_KeyName := if cert then metricsCertKey f else "" |}.

Record ManagerOptions := mkManagerOptions {
  Metrics : MetricsServerOptions;
  WebhookServer : WebhookServerOptions;
  HealthProbeBindAddress : string;
  LeaderElection : bool;
  LeaderElectionID : string;
  PprofBindAddress : string }.

Definition managerOptions (f : Flags) : ManagerOptions := {|
  Metrics := metricsServerOptions f; WebhookServer := webhookServerOptions f;
  HealthProbeBindAddress := probeAddr f; LeaderElection := enableLeaderElection f;
  LeaderElectionID := "cloudscale.infrastructure.cluster.x-k8s.io"; PprofBindAddress := profilerAddress f |}.

(** ** The client of the cloud's API (client.go) *)

(** The transport's settings; durations in nanoseconds. *)
Record Transport := mkTransport {
  Dialer_Timeout : Z; Dialer_KeepAlive : Z; TLSHandshakeTimeout : Z;
  ForceAttemptHTTP2 : bool; HTTP2_SendPingTimeout : Z; HTTP2_PingTimeout : Z;
  IdleConnTimeout : Z; MaxIdleConns : Z; MaxIdleConnsPerHost : Z; MaxConnsPerHost : Z }.

Definition NewTransport : Transport := {|
  Dialer_Timeout := 5 * Second; Dialer_KeepAlive := 30 * Second; TLSHandshakeTimeout := 5 * Second;
  ForceAttemptHTTP2 := true; HTTP2_SendPingTimeout := 5 * Second; HTTP2_PingTimeout := 3 * Second;
  IdleConnTimeout := 90 * Second; MaxIdleConns := 50; MaxIdleConnsPerHost := 50; MaxConnsPerHost := 0 |}.

(** [instrumentation.InstrumentedTransport]: metrics and spans around a transport. *)
Record RoundTripper := Instrumented { Base : Transport; TracerName : string }.

Definition instrumentedTransport : RoundTripper := Instrumented NewTransport "cloudscale-go-sdk".

(** The SDK's client: the HTTP client, with its token and transport, and the agent. *)
Record APIClient := mkAPIClient {
  AccessToken : string; HTTPTransport : RoundTripper; UserAgent : string }.

(** ** Controllers (the SetupWithManager methods) *)

Inductive Predicate :=
  | ResourceNotPaused
  | ResourceHasFilterLabel (label : string)
  | ResourceIsNotExternallyManaged
  | AnyOf (ps : list Predicate)
  | ClusterPausedTransitions
  | ClusterControlPlaneInitialized
  | ClusterPausedTransitionsOrInfrastructureProvisioned.

(** The functions that map an event of a watched kind to requests: those of
    cluster-api/util, and those of the two controllers
    ([ClusterCtl.cloudscaleMachineToCluster] and
    [MachineCtl.cloudscaleClusterToCloudscaleMachines]). *)
Inductive MapFunc :=
  | ClusterToInfrastructureMapFunc (kind : string)
  | MachineToInfrastructureMapFunc (kind : string)
  | ClusterToTypedObjectsMapper (listKind : string)
  | cloudscaleMachineToCluster
  | cloudscaleClusterToCloudscaleMachines.

Record Watch := mkWatch { Watch_Kind : string; Watch_Map : MapFunc; Watch_Predicates : list Predicate }.

(** The fields of the reconcilers that [run] sets, beside the manager's client and
    scheme. *)
Record Reconciler := mkReconciler {
  WatchFilter : string; Reconciler_Transport : RoundTripper; Version : string; MaxConcurrentReconciles : Z }.

Inductive ReconcilerOf :=
  | CloudscaleClusterReconciler (r : Reconciler)
  | CloudscaleMachineReconciler (r : Reconciler)
  | CloudscaleMachineTemplateReconciler (FlavorInfo : Flavors.FlavorInfo).

(** A controller as it is handed to the manager; [Concurrency] and [Recorder] are
    None where the code sets none. *)
Record Controller := mkController {
  Named : string; For : string; Concurrency : option Z; Recorder : option string;
  EventFilters : list Predicate; Watches : list Watch; Complete : ReconcilerOf }.

Definition eventFilters (r : Reconciler) : list Predicate :=
  [ResourceNotPaused; ResourceHasFilterLabel (WatchFilter r); ResourceIsNotExternallyManaged].

Definition clusterController (r : Reconciler) : Controller := {|
  Named := "cloudscalecluster"; For := "CloudscaleCluster"; Concurrency := Some (MaxConcurrentReconciles r);
  Recorder := Some "cloudscalecluster-controller";
  EventFilters := eventFilters r;
  Watches :=
    [mkWatch "Cluster" (ClusterToInfrastructureMapFunc "CloudscaleCluster")
       [AnyOf [ClusterPausedTransitions; ClusterControlPlaneInitialized]];
     mkWatch "CloudscaleMachine" cloudscaleMachineToCluster []];
  Complete := CloudscaleClusterReconciler r |}.

Definition machineController (r : Reconciler) : Controller := {|
  Named := "cloudscalemachine"; For := "CloudscaleMachine"; Concurrency := Some (MaxConcurrentReconciles r);
  Recorder := Some "cloudscalemachine-controller";
  EventFilters := eventFilters r;
  Watches :=
    [mkWatch "Machine" (MachineToInfrastructureMapFunc "CloudscaleMachine") [];
     mkWatch "Cluster" (ClusterToTypedObjectsMapper "CloudscaleMachineList")
       [ClusterPausedTransitionsOrInfrastructureProvisioned; ResourceHasFilterLabel (WatchFilter r)];
     mkWatch "CloudscaleCluster" cloudscaleClusterToCloudscaleMachines []];
  Complete := CloudscaleMachineReconciler r |}.

Definition templateController (fi : Flavors.FlavorInfo) : Controller := {|
  Named := "cloudscalemachinetemplate"; For := "CloudscaleMachineTemplate"; Concurrency := None;
  Recorder := None;
  EventFilters := []; Watches := []; Complete := CloudscaleMachineTemplateReconciler fi |}.

(** ** Webhooks (the Setup functions), by what their validator and defaulter hold *)

Inductive Webhook :=
  | CloudscaleClusterWebhook (validator defaulter : Regions.RegionInfo)
  | CloudscaleMachineWebhook (validator : option Flavors.FlavorInfo)
  | CloudscaleMachineTemplateWebhook (validator : option Flavors.FlavorInfo)
  | CloudscaleClusterTemplateWebhook (validator : Regions.RegionInfo).

(** ** The manager and the process *)

Record Manager := mkManager {
  Options : ManagerOptions;
  Controllers : list Controller;
  Webhooks : list Webhook;
  HealthzChecks : list string;
  ReadyzChecks : list string }.

(** OpenTelemetry: the resource attributes that the code adds to those of the
    environment and the process, the sampler, and the provider. *)
Inductive ResourceKey := ServiceVersionKey | ServiceNameKey | ServiceInstanceIDKey.
Inductive Sampler := AlwaysSample | ParentBasedTraceIDRatio (rate : float64).
Record TracerProvider := mkTracerProvider {
  tp_Sampler : Sampler; tp_Resource : list (ResourceKey * string) }.

(** [runtime.Scheme]: the packages whose types were added, and the kinds of this
    repository's API. The manager holds the process's scheme itself. *)
Record GroupVersion := mkGroupVersion { GV_Group : string; GV_Version : string }.
Record Scheme := mkScheme { Packages : list string; KnownTypes : list (GroupVersion * string) }.

Record Process := mkProcess {
  manager : option Manager;
  tracerProvider : option TracerProvider;
  scheme : Scheme }.

Definition set_manager (m : Manager) (p : Process) : Process := mkProcess (Some m) (tracerProvider p) (scheme p).
Definition set_tracerProvider (t : TracerProvider) (p : Process) : Process := mkProcess (manager p) (Some t) (scheme p).
Definition upd_manager (f : Manager → Manager) (p : Process) : Process :=
  mkProcess (f <$> manager p) (tracerProvider p) (scheme p).
Definition upd_scheme (f : Scheme → Scheme) (p : Process) : Process :=
  mkProcess (manager p) (tracerProvider p) (f (scheme p)).
Definition add_controller (c : Controller) (m : Manager) : Manager :=
  mkManager (Options m) (Controllers m ++ [c]) (Webhooks m) (HealthzChecks m) (ReadyzChecks m).
Definition add_webhook (h : Webhook) (m : Manager) : Manager :=
  mkManager (Options m) (Controllers m) (Webhooks m ++ [h]) (HealthzChecks m) (ReadyzChecks m).
Definition add_healthz (n : string) (m : Manager) : Manager :=
  mkManager (Options m) (Controllers m) (Webhooks m) (HealthzChecks m ++ [n]) (ReadyzChecks m).
Definition add_readyz (n : string) (m : Manager) : Manager :=
  mkManager (Options m) (Controllers m) (Webhooks m) (HealthzChecks m) (ReadyzChecks m ++ [n]).

(** ** What the process asks of its surroundings *)

(** Calls whose only answer is whether they succeeded. *)
Inductive Call :=
  | AddPackageToScheme (package : string)
  | GetConfigOrDie
  | NewManager (o : ManagerOptions)
  | NewResource (attrs : list (ResourceKey * string))
  | NewExporter
  | ClusterToTypedObjectsMapperFor (listKind : string)
  | CompleteController (c : Controller)
  | CompleteWebhook (h : Webhook)
  | AddHealthzCheck (name : string)
  | AddReadyzCheck (name : string)
  | StartManager (m : Manager)
  | ShutdownTracer (tp : TracerProvider).

Inductive StartEvent :=
  | Did (c : Call) (r : Res unit)
  | ListedRegions (client : APIClient) (cancelled : bool) (r : Res (list Region))
  | ListedFlavors (client : APIClient) (cancelled : bool) (r : Res (list Flavor)).

(** controller-runtime, OpenTelemetry and the SDK's catalogue services over an
    abstract world. A listing is told whether its context was cancelled when it
    was answered. *)
Class Runtime := {
  RWorld : Type;
  perform : Call → RWorld → Res unit * RWorld;
  list_regions : APIClient → bool → RWorld → Res (list Region) * RWorld;
  list_flavors : APIClient → bool → RWorld → Res (list Flavor) * RWorld }.

Section startup.
(** [os.Getenv]; the SDK's own user agent; the version set by the linker; the
    [%f] verb. *)
Context `{RT : Runtime} (Getenv : string → string) (sdkUserAgent version : string)
  (format_f : float64 → string).

Abbreviation SM := (GoM RWorld StartEvent Process).
Implicit Types (f : Flags) (s : St RWorld StartEvent Process).

Definition do (c : Call) : SM unit := call (perform c) (Did c).

(** Run [m], then the deferred action, whatever [m] returned. *)
Definition finally {A} (m : SM A) (after : SM unit) : SM A := λ s,
  let '(r, s1) := m s in (r, snd (after s1)).

(** *** The scheme (groupversion_info.go, the init functions of the API types and
    of main.go) *)

Definition SchemeGroupVersion : GroupVersion := mkGroupVersion "infrastructure.cluster.x-k8s.io" "v1beta2".

(** What the init functions of the four files of API types collect. *)
Definition objectTypes : list string :=
  [] ++ ["CloudscaleCluster"; "CloudscaleClusterList"]
     ++ ["CloudscaleClusterTemplate"; "CloudscaleClusterTemplateList"]
     ++ ["CloudscaleMachine"; "CloudscaleMachineList"]
     ++ ["CloudscaleMachineTemplate"; "CloudscaleMachineTemplateList"].

Definition addKnownTypes (sch : Scheme) : Scheme :=
  mkScheme (Packages sch) (KnownTypes sch ++ map (pair SchemeGroupVersion) objectTypes).

Definition add_package (package : string) (sch : Scheme) : Scheme :=
  mkScheme (Packages sch ++ [package]) (KnownTypes sch).

(** [AddToScheme] of another package. *)
Definition addToScheme (package : string) : SM unit :=
  let! _ := do (AddPackageToScheme package) in modify (upd_scheme (add_package package)).

(** An error of the first or second step is a panic ([utilruntime.Must]); that of
    the third is dropped. *)
Definition init : SM unit :=
  let! _ := addToScheme "k8s.io/client-go/kubernetes/scheme" in
  let! _ := modify (upd_scheme addKnownTypes) in
  let! _ := try (addToScheme "sigs.k8s.io/cluster-api/api/core/v1beta2") in
  ret ().

(** *** client.go *)

Definition NewClient (token version : string) (transport : RoundTripper) : APIClient :=
  mkAPIClient token transport (sdkUserAgent +:+ " capcs/" +:+ version).

(** *** tracing.go *)

Definition tracingAttrs (serviceName version : string) : list (ResourceKey * string) :=
  let attrs := [(ServiceVersionKey, version)] in
  let attrs := if Getenv "OTEL_SERVICE_NAME" == "" then attrs ++ [(ServiceNameKey, serviceName)] else attrs in
  let podName := Getenv "POD_NAME" in
  if podName != "" then attrs ++ [(ServiceInstanceIDKey, podName)] else attrs.

Definition samplerOf (sampleRate : float64) : Sampler :=
  if float_lt sampleRate (Finite 1) then ParentBasedTraceIDRatio sampleRate else AlwaysSample.

(** The shutdown function that is returned: its error is only logged. *)
Definition shutdown (tp : TracerProvider) : SM unit :=
  let! _ := try (do (ShutdownTracer tp)) in ret ().

Definition InitTracing (serviceName version : string) (sampleRate : float64) : SM (SM unit) :=
  if float_lt sampleRate (Finite 0) || float_lt (Finite 1) sampleRate
  then throw (errorString ("tracing-sample-rate must be between 0.0 and 1.0, got " +:+ format_f sampleRate))
  else
    let attrs := tracingAttrs serviceName version in
    let! _ := wrap "failed to create opentelemetry resource: " (do (NewResource attrs)) in
    let! _ := wrap "failed to create OTLP trace exporter: " (do NewExporter) in
    let tp := mkTracerProvider (samplerOf sampleRate) attrs in
    let! _ := modify (set_tracerProvider tp) in
    ret (shutdown tp).

(** *** The SetupWithManager methods: a controller is the manager's once
    [Complete] succeeded *)

Definition complete (c : Controller) : SM unit :=
  let! _ := do (CompleteController c) in modify (upd_manager (add_controller c)).

Definition SetupClusterController (r : Reconciler) : SM unit := complete (clusterController r).

Definition SetupMachineController (r : Reconciler) : SM unit :=
  let! _ := do (ClusterToTypedObjectsMapperFor "CloudscaleMachineList") in
  complete (machineController r).

Definition SetupTemplateController (fi : Flavors.FlavorInfo) : SM unit := complete (templateController fi).

(** *** The Setup functions of the webhooks *)

Definition completeWebhook (h : Webhook) : SM unit :=
  let! _ := do (CompleteWebhook h) in modify (upd_manager (add_webhook h)).

Definition SetupCloudscaleClusterWebhookWithManager (ri : Regions.RegionInfo) : SM unit :=
  completeWebhook (CloudscaleClusterWebhook ri ri).
Definition SetupCloudscaleMachineWebhookWithManager (fi : Flavors.FlavorInfo) : SM unit :=
  completeWebhook (CloudscaleMachineWebhook (Some fi)).
Definition SetupCloudscaleMachineTemplateWebhookWithManager (fi : Flavors.FlavorInfo) : SM unit :=
  completeWebhook (CloudscaleMachineTemplateWebhook (Some fi)).
Definition SetupCloudscaleClusterTemplateWebhookWithManager (ri : Regions.RegionInfo) : SM unit :=
  completeWebhook (CloudscaleClusterTemplateWebhook ri).

(** *** main.go *)

Definition is_Err {A} (r : Res A) : bool := match r with Ok _ => false | Err _ => true end.

(** [errgroup.WithContext] with two goroutines, by the order in which their calls
    are answered: the first error is the group's and cancels the context that the
    other still runs under. *)
Definition errgroup {A B} (secondFirst : bool) (g1 : bool → SM A) (g2 : bool → SM B) : SM (A * B) :=
  if secondFirst then
    let! r2 := try (g2 false) in
    let! r1 := try (g1 (is_Err r2)) in
    of_res (res_bind r2 (λ b, res_map (λ a, (a, b)) r1))
  else
    let! r1 := try (g1 false) in
    let! r2 := try (g2 (is_Err r1)) in
    of_res (res_bind r1 (λ a, res_map (λ b, (a, b)) r2)).

Definition fetchAPIInfo (transport : RoundTripper) (version : string) (flavorsFirst : bool)
    : SM (Regions.RegionInfo * Flavors.FlavorInfo) :=
  let token := Getenv "CLOUDSCALE_API_TOKEN" in
  if token == "" then throw (errorString "CLOUDSCALE_API_TOKEN environment variable is required")
  else
    let client := NewClient token version transport in
    errgroup flavorsFirst
      (λ cancelled,
         let! regions := wrap "failed to list regions: "
           (call (list_regions client cancelled) (ListedRegions client cancelled)) in
         ret (Regions.NewRegionInfo regions))
      (λ cancelled,
         let! flavors := wrap "failed to list flavors: "
           (call (list_flavors client cancelled) (ListedFlavors client cancelled)) in
         ret (Flavors.NewFlavorInfo flavors)).

Definition reconcilerOf f (concurrency : Z) : Reconciler :=
  mkReconciler (watchFilter f) instrumentedTransport version concurrency.

Definition webhooksEnabled : bool := Getenv "ENABLE_WEBHOOKS" != "false".

Definition setupWebhooks (ri : Regions.RegionInfo) (fi : Flavors.FlavorInfo) : SM unit :=
  let failed kind := "failed to setup webhook validation webhook " +:+ kind +:+ ": " in
  let! _ := wrap (failed "CloudscaleCluster") (SetupCloudscaleClusterWebhookWithManager ri) in
  let! _ := wrap (failed "CloudscaleMachine") (SetupCloudscaleMachineWebhookWithManager fi) in
  let! _ := wrap (failed "CloudscaleMachineTemplate") (SetupCloudscaleMachineTemplateWebhookWithManager fi) in
  wrap (failed "CloudscaleClusterTemplate") (SetupCloudscaleClusterTemplateWebhookWithManager ri).

(** Everything that is registered with the manager. *)
Definition register f (ri : Regions.RegionInfo) (fi : Flavors.FlavorInfo) : SM unit :=
  let failed kind := "failed to create controller " +:+ kind +:+ ": " in
  let! _ := wrap (failed "CloudscaleCluster") (SetupClusterController (reconcilerOf f (clusterConcurrency f))) in
  let! _ := wrap (failed "CloudscaleMachine") (SetupMachineController (reconcilerOf f (machineConcurrency f))) in
  let! _ := wrap (failed "CloudscaleMachineTemplate") (SetupTemplateController fi) in
  let! _ := if webhooksEnabled then setupWebhooks ri fi else ret () in
  let! _ := wrap "failed to set up health check: "
    (let! _ := do (AddHealthzCheck "healthz") in modify (upd_manager (add_healthz "healthz"))) in
  wrap "failed to set up ready check: "
    (let! _ := do (AddReadyzCheck "readyz") in modify (upd_manager (add_readyz "readyz"))).

(** From the fetched catalogues to the end of the manager, whose [Start] returns
    when the process is told to stop or a component fails. *)
Definition serve f (flavorsFirst : bool) : SM unit :=
  let! infos := wrap "failed to fetch API info: " (fetchAPIInfo instrumentedTransport version flavorsFirst) in
  let! _ := register f (fst infos) (snd infos) in
  let! p := get in
  let! m := deref (manager p) in
  wrap "failed to run manager: " (do (StartManager m)).

(** A new manager has nothing registered. [GetConfigOrDie] ends the process with
    the exit code that [main] gives any error. *)
Definition newManager f : SM unit :=
  let! _ := do GetConfigOrDie in
  let! _ := wrap "failed to start manager: " (do (NewManager (managerOptions f))) in
  modify (set_manager (mkManager (managerOptions f) [] [] [] [])).

Definition out_of (lo hi n : Z) : bool := (n <? lo)%Z || (n >? hi)%Z.

Definition run f (flavorsFirst : bool) : SM unit :=
  if out_of 1 4 (clusterConcurrency f) then
    throw (errorString ("invalid flag: --cluster-concurrency must be between 1 and 4, got "
                        +:+ itoa (clusterConcurrency f)))
  else if out_of 1 10 (machineConcurrency f) then
    throw (errorString ("invalid flag: --machine-concurrency must be between 1 and 10, got "
                        +:+ itoa (machineConcurrency f)))
  else
    let! _ := newManager f in
    if enableTracing f then
      let! stop := wrap "failed to initialize tracing: " (InitTracing "capcs" version (tracingSampleRate f)) in
      finally (serve f flavorsFirst) stop
    else serve f flavorsFirst.

(** The exit code, and what is written to the standard error. *)
Definition exitStatus (r : Res unit) : Z * option string :=
  match r with Ok _ => (0%Z, None) | Err e => (1%Z, Some (Error e +:+ newline)) end.

Definition main f (flavorsFirst : bool) s : (Z * option string) * St RWorld StartEvent Process :=
  let '(r, s') := run f flavorsFirst s in (exitStatus r, s').
End startup.

(** ** Quiet steps: they neither start the manager nor shut the tracer down, and
    when they succeed every call they made succeeded *)

Definition quiet (e : StartEvent) : Prop :=
  match e with Did (StartManager _) _ | Did (ShutdownTracer _) _ => False | _ => True end.

Definition succeeded (e : StartEvent) : Prop :=
  match e with
  | Did _ r => r = Ok ()
  | ListedRegions _ _ r => ∃ regions, r = Ok regions
  | ListedFlavors _ _ r => ∃ flavors, r = Ok flavors
  end.

Lemma bind_bind {W Ev O A B C} (m : GoM W Ev O A) (k : A → GoM W Ev O B) (h : B → GoM W Ev O C) s :
  bind (bind m k) h s = bind m (λ a, bind (k a) h) s.
Proof. unfold bind. by destruct (m s) as [[]]. Qed.

Section quiet.
Context `{RT : Runtime}.
Abbreviation SM := (GoM RWorld StartEvent Process).
Implicit Types (evs : list StartEvent) (p : Process).

(** [Q] relates the events, the process before, the value and the process after
    of every successful run. *)
Definition quietly {A} (m : SM A) (Q : list StartEvent → Process → A → Process → Prop) : Prop :=
  ∀ s, ∃ evs, log (exec m s) = log s ++ evs ∧ Forall quiet evs ∧
    ∀ a, result m s = Ok a → Forall succeeded evs ∧ Q evs (obj s) a (obj (exec m s)).

Lemma quietly_weaken {A} (m : SM A) Q Q' :
  quietly m Q → (∀ evs p a p', Q evs p a p' → Q' evs p a p') → quietly m Q'.
Proof.
  intros H HQ s. destruct (H s) as (evs & Hl & Hq & Hok). exists evs. split_and!; [done..|].
  intros a Ha. destruct (Hok a Ha). auto.
Qed.

Lemma quietly_ret {A} (a : A) : quietly (ret a) (λ evs p b p', evs = [] ∧ b = a ∧ p' = p).
Proof.
  intros s. exists []. rewrite app_nil_r. split_and!; [done|constructor|].
  intros b [= <-]. by split; [constructor|].
Qed.

Lemma quietly_throw {A} e Q : quietly (throw (A:=A) e) Q.
Proof. intros s. exists []. rewrite app_nil_r. split_and!; [done|constructor|done]. Qed.

Lemma quietly_modify g : quietly (modify g) (λ evs p _ p', evs = [] ∧ p' = g p).
Proof.
  intros s. exists []. rewrite app_nil_r. split_and!; [done|constructor|]. intros [] _. by split; [constructor|].
Qed.

Lemma quietly_call {A} (c : RWorld → Res A * RWorld) ev :
  (∀ r, quiet (ev r)) → (∀ a, succeeded (ev (Ok a))) →
  quietly (call c ev) (λ evs p a p', evs = [ev (Ok a)] ∧ p' = p).
Proof.
  intros Hq Hs s. unfold result, exec, call. destruct (c (world s)) as [r w]. simpl.
  exists [ev r]. split_and!; [done|by constructor|]. intros a ->. split; [by constructor|done].
Qed.

Lemma quietly_wrap {A} pre (m : SM A) Q : quietly m Q → quietly (wrap pre m) Q.
Proof.
  intros H s. specialize (H s). rewrite exec_wrap. unfold result, wrap in *.
  destruct (m s) as [[a|e] s']; simpl in *; [done|].
  destruct H as (evs & ? & ? & _). by exists evs.
Qed.

Lemma quietly_bind {A B} (m : SM A) (k : A → SM B) Q1 Q2 :
  quietly m Q1 → (∀ a, quietly (k a) (Q2 a)) →
  quietly (bind m k) (λ evs p b p', ∃ evs1 evs2 a p1,
    evs = evs1 ++ evs2 ∧ Q1 evs1 p a p1 ∧ Q2 a evs2 p1 b p').
Proof.
  intros Hm Hk s. destruct (Hm s) as (evs1 & Hl1 & Hq1 & Hok1). unfold result, exec, bind in *.
  destruct (m s) as [[a|e] s1]; simpl in *; [|by exists evs1].
  destruct (Hk a s1) as (evs2 & Hl2 & Hq2 & Hok2). unfold result, exec in *. exists (evs1 ++ evs2).
  rewrite Hl2, Hl1, app_assoc. split_and!; [done|by apply Forall_app|].
  intros b Hb. destruct (Hok1 a eq_refl), (Hok2 b Hb). split; [by apply Forall_app|].
  by exists evs1, evs2, a, (obj s1).
Qed.

(** A step that, when it succeeds, applies [g] to the process. *)
Definition updates {A} (m : SM A) (g : Process → Process) : Prop := quietly m (λ _ p _ p', p' = g p).

Lemma updates_ret {A} (a : A) : updates (ret a) id.
Proof. eapply quietly_weaken; [apply quietly_ret|]. by intros ? ? ? ? (? & ? & ->). Qed.
Lemma updates_modify g : updates (modify g) g.
Proof. eapply quietly_weaken; [apply quietly_modify|]. by intros ? ? ? ? (? & ->). Qed.
Lemma updates_do c : (∀ r, quiet (Did c r)) → updates (do c) id.
Proof.
  intros H. eapply quietly_weaken; [apply quietly_call; [done|by intros []]|]. by intros ? ? ? ? (? & ->).
Qed.
Lemma updates_wrap {A} pre (m : SM A) g : updates m g → updates (wrap pre m) g.
Proof. apply quietly_wrap. Qed.
Lemma updates_bind {A B} (m : SM A) (k : A → SM B) g h :
  updates m g → (∀ a, updates (k a) h) → updates (bind m k) (h ∘ g).
Proof.
  intros Hm Hk. eapply quietly_weaken; [apply (quietly_bind m k (λ _ p _ p', p' = g p) (λ _ _ p _ p', p' = h p)); [exact Hm|exact Hk]|].
  by intros ? ? ? ? (? & ? & ? & ? & ? & -> & ->).
Qed.
Lemma updates_eq {A} (m : SM A) g g' : updates m g → (∀ p, g p = g' p) → updates m g'.
Proof. intros H Heq. eapply quietly_weaken; [exact H|]. intros ? p ? ? ->. apply Heq. Qed.
End quiet.

Create HintDb startup discriminated.
#[export] Hint Resolve updates_ret updates_modify updates_wrap : startup.
#[export] Hint Extern 2 (updates (bind _ _) _) => eapply updates_bind; [|intros ?] : startup.
#[export] Hint Extern 2 (updates (do _) _) => apply updates_do; done : startup.

Section startup_theorems.
Context `{RT : Runtime} (Getenv : string → string) (sdkUserAgent version : string)
  (format_f : float64 → string).
Implicit Types (f : Flags) (s : St RWorld StartEvent Process).

Abbreviation fetch := (fetchAPIInfo Getenv sdkUserAgent instrumentedTransport version).
Abbreviation RegisterAll := (register Getenv version).
Abbreviation Serve := (serve Getenv sdkUserAgent version).
Abbreviation Run := (run Getenv sdkUserAgent version format_f).
Abbreviation startClient := (NewClient sdkUserAgent (Getenv "CLOUDSCALE_API_TOKEN") version instrumentedTransport).

(** *** What is served *)

(** The manager that is started, as a function of the flags and the two catalogues. *)
Definition servedManager f (ri : Regions.RegionInfo) (fi : Flavors.FlavorInfo) : Manager := {|
  Options := managerOptions f;
  Controllers :=
    [clusterController (reconcilerOf version f (clusterConcurrency f));
     machineController (reconcilerOf version f (machineConcurrency f));
     templateController fi];
  Webhooks :=
    if Getenv "ENABLE_WEBHOOKS" != "false" then
      [CloudscaleClusterWebhook ri ri; CloudscaleMachineWebhook (Some fi);
       CloudscaleMachineTemplateWebhook (Some fi); CloudscaleClusterTemplateWebhook ri]
    else [];
  HealthzChecks := ["healthz"];
  ReadyzChecks := ["readyz"] |}.

Lemma complete_updates c : updates (complete c) (upd_manager (add_controller c)).
Proof. eapply updates_eq; [unfold complete; auto with startup|done]. Qed.
Lemma completeWebhook_updates h : updates (completeWebhook h) (upd_manager (add_webhook h)).
Proof. eapply updates_eq; [unfold completeWebhook; auto with startup|done]. Qed.

Hint Resolve complete_updates completeWebhook_updates : startup.

(** The steps of [register], with the webhooks enabled or not. *)
Lemma register_updates f ri fi :
  ∃ g, updates (RegisterAll f ri fi) g ∧
    ∀ p, manager p = Some (mkManager (managerOptions f) [] [] [] []) →
      manager (g p) = Some (servedManager f ri fi).
Proof.
  unfold register, servedManager, webhooksEnabled, setupWebhooks, SetupClusterController,
    SetupMachineController, SetupTemplateController, SetupCloudscaleClusterWebhookWithManager,
    SetupCloudscaleMachineWebhookWithManager, SetupCloudscaleMachineTemplateWebhookWithManager,
    SetupCloudscaleClusterTemplateWebhookWithManager. cbv zeta.
  destruct (Getenv "ENABLE_WEBHOOKS" != "false");
    (eexists; split; [solve [eauto 30 with startup]|]; by intros [m t sch] [= ->]).
Qed.

(** Both listings were answered, neither under a cancelled context. *)
Lemma fetch_quietly flavorsFirst :
  quietly (fetch flavorsFirst) (λ evs p infos p', p' = p ∧ Getenv "CLOUDSCALE_API_TOKEN" ≠ "" ∧
    ∃ regions flavors, infos = (Regions.NewRegionInfo regions, Flavors.NewFlavorInfo flavors) ∧
      ListedRegions startClient false (Ok regions) ∈ evs ∧ ListedFlavors startClient false (Ok flavors) ∈ evs).
Proof.
  unfold fetchAPIInfo. cbv zeta. case_bool_decide as Ht; [apply quietly_throw|].
  intros s. unfold errgroup, NewClient. unfold result, exec, try, bind, wrap, call, ret, of_res.
  destruct flavorsFirst.
  - destruct (list_flavors _ false _) as [[fl|e] w]; simpl;
      destruct (list_regions _ _ w) as [[rl|e'] w']; simpl;
      (eexists; split_and!; [by rewrite <- app_assoc|by repeat constructor|]); try done.
    intros a [= <-].
    split; [repeat (apply List.Forall_cons; [by eexists|]); apply List.Forall_nil|]. split_and!; [done..|]. exists rl, fl.
    split_and!; [done|right; by left|by left].
  - destruct (list_regions _ false _) as [[rl|e] w]; simpl;
      destruct (list_flavors _ _ w) as [[fl|e'] w']; simpl;
      (eexists; split_and!; [by rewrite <- app_assoc|by repeat constructor|]); try done.
    intros a [= <-].
    split; [repeat (apply List.Forall_cons; [by eexists|]); apply List.Forall_nil|]. split_and!; [done..|]. exists rl, fl.
    split_and!; [done|by left|right; by left].
Qed.

(** *** From the catalogues to the end *)

(** What a run that got as far as [mgr.Start] did before it. *)
Definition started f (before : list StartEvent) (m : Manager) : Prop :=
  Forall quiet before ∧ Forall succeeded before ∧ Getenv "CLOUDSCALE_API_TOKEN" ≠ "" ∧
  ∃ regions flavors,
    ListedRegions startClient false (Ok regions) ∈ before ∧
    ListedFlavors startClient false (Ok flavors) ∈ before ∧
    m = servedManager f (Regions.NewRegionInfo regions) (Flavors.NewFlavorInfo flavors).

(** A run of [serve], or of all of [run] up to the deferred shutdown. *)
Definition serves f s (r : Res unit) (s' : St RWorld StartEvent Process) : Prop :=
  (∃ evs e, log s' = log s ++ evs ∧ Forall quiet evs ∧ r = Err e) ∨
  (∃ before m answer, log s' = log s ++ before ++ [Did (StartManager m) answer] ∧
     started f before m ∧ r = res_wrap "failed to run manager: " answer).

(** The catalogues and the registrations, before the manager starts. *)
Definition prepare f (flavorsFirst : bool) : GoM RWorld StartEvent Process unit :=
  let! infos := wrap "failed to fetch API info: " (fetch flavorsFirst) in
  RegisterAll f (fst infos) (snd infos).

Lemma prepare_quietly f flavorsFirst :
  quietly (prepare f flavorsFirst) (λ evs p _ p',
    manager p = Some (mkManager (managerOptions f) [] [] [] []) →
    Forall quiet evs → Forall succeeded evs →
    ∃ m, manager p' = Some m ∧ started f evs m).
Proof.
  eapply quietly_weaken.
  - eapply quietly_bind with (Q2 := λ (infos : Regions.RegionInfo * Flavors.FlavorInfo) _ p _ p',
      manager p = Some (mkManager (managerOptions f) [] [] [] []) →
      manager p' = Some (servedManager f (fst infos) (snd infos))); [apply quietly_wrap, fetch_quietly|].
    intros infos. destruct (register_updates f (fst infos) (snd infos)) as (g & Hg & Hm).
    eapply quietly_weaken; [exact Hg|]. simpl. intros _ p _ ? -> Hp. by apply Hm.
  - simpl. intros evs p [] p' (evs1 & evs2 & infos & p1 & -> & (-> & Ht & rs & fs & -> & Hr & Hf) & Hm) Hp Hq Hs.
    exists (servedManager f (Regions.NewRegionInfo rs) (Flavors.NewFlavorInfo fs)).
    split; [by apply Hm|]. split_and!; [done..|]. exists rs, fs. split_and!; [set_solver..|done].
Qed.

Lemma serve_serves f flavorsFirst s :
  manager (obj s) = Some (mkManager (managerOptions f) [] [] [] []) →
  serves f s (result (Serve f flavorsFirst) s) (exec (Serve f flavorsFirst) s).
Proof.
  intros Hp.
  assert (Serve f flavorsFirst s = bind (prepare f flavorsFirst) (λ _,
    let! p := get in let! m := deref (manager p) in
    wrap "failed to run manager: " (do (StartManager m))) s) as E.
  { unfold serve, prepare. symmetry. apply bind_bind. }
  destruct (prepare_quietly f flavorsFirst s) as (evs & Hl & Hq & Hok).
  unfold result, exec in *. rewrite E.
  destruct (prepare f flavorsFirst s) as [[[]|e] s1] eqn:Er; simpl in *.
  2:{ rewrite (bind_err _ _ _ _ _ Er). left. by exists evs, e. }
  rewrite (bind_ok _ _ _ _ _ Er). destruct (Hok () eq_refl) as [Hs Hm].
  destruct (Hm Hp Hq Hs) as (m & Hm1 & Hst).
  right. exists evs, m, (fst (perform (StartManager m) (world s1))).
  rewrite bind_get, Hm1. unfold deref, bind, do, wrap, call, ret.
  destruct (perform _ (world s1)) as [[[]|e] w]; simpl; rewrite Hl, <- app_assoc; by split_and!.
Qed.

(** What only the tracer's set-up and the initialisers change. *)
Definition settled (p : Process) : option TracerProvider * Scheme := (tracerProvider p, scheme p).

Lemma serve_keeps f flavorsFirst : respects (keeps settled) (Serve f flavorsFirst).
Proof.
  unfold serve, fetchAPIInfo, errgroup, register, setupWebhooks, SetupClusterController,
    SetupMachineController, SetupTemplateController, SetupCloudscaleClusterWebhookWithManager,
    SetupCloudscaleMachineWebhookWithManager, SetupCloudscaleMachineTemplateWebhookWithManager,
    SetupCloudscaleClusterTemplateWebhookWithManager, complete, completeWebhook, do.
  by frame.
Qed.

(** *** Before the catalogues *)

Lemma newManager_quietly f :
  quietly (newManager f) (λ _ p _ p', p' = set_manager (mkManager (managerOptions f) [] [] [] []) p).
Proof. apply (updates_eq _ (set_manager (mkManager (managerOptions f) [] [] [] []) ∘ id ∘ id)); [unfold newManager; eauto with startup|done]. Qed.

Lemma newManager_keeps f : respects (keeps settled) (newManager f).
Proof. unfold newManager, do. by frame. Qed.

(** The rates that the range check lets through. *)
Definition accepted_rate (rate : float64) : Prop :=
  match rate with NaN => True | Finite q => (0 <= q <= 1)%Q | _ => False end.

Lemma rate_check rate :
  float_lt rate (Finite 0) || float_lt (Finite 1) rate = false ↔ accepted_rate rate.
Proof.
  destruct rate as [| |q|]; simpl; [done|done| |done].
  rewrite orb_false_iff, !negb_false_iff, !Qle_bool_iff. done.
Qed.

(** The provider that is installed for a rate. *)
Definition provider (rate : float64) : TracerProvider :=
  mkTracerProvider (samplerOf rate) (tracingAttrs Getenv "capcs" version).

Lemma InitTracing_run rate s :
  let m := InitTracing Getenv format_f "capcs" version rate in
  ∃ evs, log (exec m s) = log s ++ evs ∧ Forall quiet evs ∧
    (((∃ e, result m s = Err e) ∧ obj (exec m s) = obj s) ∨
     (result m s = Ok (shutdown (provider rate)) ∧ Forall succeeded evs ∧ accepted_rate rate ∧
      obj (exec m s) = set_tracerProvider (provider rate) (obj s))).
Proof.
  intros m. subst m. unfold InitTracing. destruct (_ || _) eqn:Hr.
  { exists []. rewrite app_nil_r. split_and!; [done|constructor|]. left. split; [by eexists|done]. }
  apply rate_check in Hr. unfold result, exec, bind, wrap, do, call, modify, ret. simpl.
  destruct (perform (NewResource _) (world s)) as [[[]|e] w]; simpl.
  2:{ eexists. split_and!; [done|by repeat constructor|]. left. eauto. }
  destruct (perform NewExporter w) as [[[]|e] w']; simpl;
    (eexists; split_and!; [by rewrite <- app_assoc|by repeat constructor|]); [right|left; by eauto].
  split_and!; [done|by repeat constructor|done..].
Qed.

Lemma shutdown_run tp s :
  ∃ answer, log (exec (shutdown tp) s) = log s ++ [Did (ShutdownTracer tp) answer] ∧
    obj (exec (shutdown tp) s) = obj s.
Proof.
  unfold shutdown, exec, bind, try, do, call, ret. destruct (perform _ _) as [r w]. by exists r.
Qed.

(** *** The shape of every run *)

Definition flags_ok f : Prop := (1 <= clusterConcurrency f <= 4)%Z ∧ (1 <= machineConcurrency f <= 10)%Z.

Lemma out_of_spec lo hi n : out_of lo hi n = false ↔ (lo <= n <= hi)%Z.
Proof. unfold out_of. rewrite orb_false_iff. split; lia. Qed.

(** Ready to serve: nothing failed so far and nothing is registered. *)
Definition ready f s s1 : Prop :=
  flags_ok f ∧ manager (obj s1) = Some (mkManager (managerOptions f) [] [] [] []) ∧
  scheme (obj s1) = scheme (obj s) ∧
  ∃ evs, log s1 = log s ++ evs ∧ Forall quiet evs ∧ Forall succeeded evs.

Lemma run_shape f ff s :
  (∃ evs e, log (exec (Run f ff) s) = log s ++ evs ∧ Forall quiet evs ∧ result (Run f ff) s = Err e ∧
     settled (obj (exec (Run f ff) s)) = settled (obj s)) ∨
  (∃ s1, ready f s s1 ∧
     if enableTracing f then
       accepted_rate (tracingSampleRate f) ∧
       tracerProvider (obj s1) = Some (provider (tracingSampleRate f)) ∧
       Run f ff s = (result (Serve f ff) s1,
                     exec (shutdown (provider (tracingSampleRate f))) (exec (Serve f ff) s1))
     else tracerProvider (obj s1) = tracerProvider (obj s) ∧ Run f ff s = Serve f ff s1).
Proof.
  unfold run. destruct (out_of 1 4 _) eqn:Hc; [|destruct (out_of 1 10 _) eqn:Hm].
  1,2: left; exists []; eexists; rewrite app_nil_r; by split_and!; [|constructor| |].
  apply out_of_spec in Hc, Hm.
  destruct (newManager_quietly f s) as (evs & Hl & Hq & Hok).
  pose proof (newManager_keeps f s) as Hk. unfold result, exec, keeps in *.
  destruct (newManager f s) as [[[]|e] s1] eqn:E; simpl in *.
  2:{ left. rewrite (bind_err _ _ _ _ _ E). by exists evs, e. }
  rewrite (bind_ok _ _ _ _ _ E). destruct (Hok () eq_refl) as [Hs Ho].
  assert (ready f s s1) as Hr by (split_and!; [done..|by rewrite Ho|by injection Hk|by exists evs]).
  destruct (enableTracing f).
  2:{ right. exists s1. split_and!; [done|by injection Hk|done]. }
  destruct (InitTracing_run (tracingSampleRate f) s1) as (evs' & Hl' & Hq' & H).
  unfold wrap, bind, result, exec in *.
  destruct (InitTracing _ _ _ _ _ s1) as [[stop|e] s2]; simpl in *;
    (destruct H as [([e' He] & Ho')|(Hst & Hs' & Ha & Ho')]; [|]); simplify_eq.
  - right. exists s2. destruct Hr as (Hf & Hmgr & Hsch & _). split_and!; [split_and!|done| |].
    + done.
    + by rewrite Ho'.
    + by rewrite Ho'.
    + exists (evs ++ evs'). rewrite Hl', Hl, app_assoc. split_and!; [done|by apply Forall_app..].
    + by rewrite Ho'.
    + unfold finally. by destruct (serve _ _ _ _ _ _).
  - left. eexists (evs ++ evs'), _. rewrite Hl', Hl, app_assoc, Ho'.
    split_and!; [done|by apply Forall_app|done|]. unfold settled in *. simpl in *. congruence.
Qed.

(** *** The process as a whole *)

Abbreviation Main := (main Getenv sdkUserAgent version format_f).

(** The protocols a server offers, given what it would offer by default. *)
Definition protocols (opts : list (tlsConfig → tlsConfig)) (default : tlsConfig) : list string :=
  NextProtos (configured opts default).

Definition is_start (e : StartEvent) : Prop := match e with Did (StartManager _) _ => True | _ => False end.
Definition is_shutdown (e : StartEvent) : Prop := match e with Did (ShutdownTracer _) _ => True | _ => False end.

Lemma quiet_no_start evs : Forall quiet evs → Forall (λ e, ¬ is_start e) evs.
Proof. intros H. eapply Forall_impl; [exact H|]. intros [[]| |]; simpl; tauto. Qed.
Lemma quiet_no_shutdown evs : Forall quiet evs → Forall (λ e, ¬ is_shutdown e) evs.
Proof. intros H. eapply Forall_impl; [exact H|]. intros [[]| |]; simpl; tauto. Qed.

Lemma exitStatus_zero (r : Res unit) : fst (exitStatus r) = 0%Z ↔ r = Ok ().
Proof. clear. by destruct r as [[]|e]. Qed.

(** How far the run got: it failed before the start, or it started the manager. *)
Definition got_to f (evs : list StartEvent) (r : Res unit) : Prop :=
  (Forall quiet evs ∧ ∃ e, r = Err e) ∨
  (∃ before m answer, evs = before ++ [Did (StartManager m) answer] ∧ flags_ok f ∧
     started f before m ∧ r = res_wrap "failed to run manager: " answer).

(** What became of the tracer. *)
Definition traced f (p p' : Process) (evs after : list StartEvent) : Prop :=
  (after = [] ∧ tracerProvider p' = tracerProvider p ∧ (enableTracing f = false ∨ Forall quiet evs)) ∨
  (enableTracing f = true ∧ accepted_rate (tracingSampleRate f) ∧
   tracerProvider p' = Some (provider (tracingSampleRate f)) ∧
   ∃ answer, after = [Did (ShutdownTracer (provider (tracingSampleRate f))) answer]).

Lemma started_app f evs before m :
  Forall quiet evs → Forall succeeded evs → started f before m → started f (evs ++ before) m.
Proof.
  intros Hq Hs (Hq' & Hs' & Ht & rs & fs & Hr & Hf & ->).
  split_and!; [by apply Forall_app..|done|]. exists rs, fs. rewrite !elem_of_app. auto.
Qed.

Lemma serve_from f ff s s1 :
  ready f s s1 →
  ∃ evs, log (exec (Serve f ff) s1) = log s ++ evs ∧ got_to f evs (result (Serve f ff) s1).
Proof.
  intros (Hf & Hm & _ & evs & Hl & Hq & Hs).
  destruct (serve_serves f ff s1 Hm) as [(evs' & e & Hl' & Hq' & Hr)|(before & m & a & Hl' & Hst & Hr)].
  - exists (evs ++ evs'). rewrite Hl', Hl, app_assoc. split; [done|]. left. split; [by apply Forall_app|eauto].
  - exists ((evs ++ before) ++ [Did (StartManager m) a]). rewrite Hl', Hl, !app_assoc. split; [done|].
    right. exists (evs ++ before), m, a. split_and!; [done..|by apply started_app|done].
Qed.

Lemma run_outcome f ff s :
  ∃ evs after, log (exec (Run f ff) s) = log s ++ evs ++ after ∧
    got_to f evs (result (Run f ff) s) ∧ traced f (obj s) (obj (exec (Run f ff) s)) evs after ∧
    scheme (obj (exec (Run f ff) s)) = scheme (obj s).
Proof.
  destruct (run_shape f ff s) as [(evs & e & Hl & Hq & Hr & Ht)|(s1 & Hready & H)].
  { injection Ht as Ht Hsch. exists evs, []. rewrite app_nil_r. split_and!; [done|left; eauto|left; eauto|done]. }
  pose proof Hready as (_ & _ & Hsch & _).
  destruct (serve_from f ff s s1 Hready) as (evs & Hl & Hg). pose proof (serve_keeps f ff s1) as Hk.
  injection Hk as Hk Hks.
  destruct (enableTracing f) eqn:Htr.
  - destruct H as (Ha & Htp & Hrun).
    destruct (shutdown_run (provider (tracingSampleRate f)) (exec (Serve f ff) s1)) as (a & Hl' & Ho').
    assert (scheme (obj (exec (Run f ff) s)) = scheme (obj s)) as Hs2
      by (unfold exec at 1; rewrite Hrun; cbn [snd]; congruence).
    exists evs, [Did (ShutdownTracer (provider (tracingSampleRate f))) a].
    unfold result at 1, exec at 1 2. rewrite Hrun. cbn [fst snd]. rewrite Hl', Hl, <- app_assoc, Ho'.
    split_and!; [done..| |done]. right. split_and!; [done..| |by exists a]. by rewrite Hk.
  - destruct H as [Htp Hrun].
    assert (scheme (obj (exec (Run f ff) s)) = scheme (obj s)) as Hs2
      by (unfold exec in *; rewrite Hrun; congruence).
    exists evs, []. rewrite app_nil_r.
    unfold result at 1, exec at 1 2. rewrite Hrun. split_and!; [done..| |done].
    left. split_and!; [done| |by left]. rewrite <- Htp. apply Hk.
Qed.

(** The manager that was started is the one that was prepared. *)
Lemma started_in_log f p p' evs after r m answer :
  got_to f evs r → traced f p p' evs after → Did (StartManager m) answer ∈ evs ++ after →
  ∃ before, started f before m ∧ before ⊆ evs.
Proof.
  intros Hg Ht Hin. assert (Did (StartManager m) answer ∈ evs) as Hin'.
  { apply elem_of_app in Hin as [Hin|Hin]; [done|].
    destruct Ht as [(-> & _)|(_ & _ & _ & a & ->)]; [by apply not_elem_of_nil in Hin|].
    by apply list_elem_of_singleton in Hin. }
  destruct Hg as [[Hq _]|(before & m' & a & -> & _ & Hst & _)].
  { rewrite Forall_forall in Hq. by destruct (Hq _ Hin'). }
  exists before. split; [|set_solver].
  apply elem_of_app in Hin' as [Hin'|Hin'].
  - destruct Hst as (Hq & _). rewrite Forall_forall in Hq. by destruct (Hq _ Hin').
  - apply list_elem_of_singleton in Hin' as [= -> ->]. done.
Qed.

Lemma machine_valid_listed fs sp :
  machine_valid (Some (Flavors.NewFlavorInfo fs)) sp ↔
  CloudscaleMachineSpec_Flavor sp ∈ (Flavor_Slug <$> fs) ∧ machine_valid None sp.
Proof.
  unfold machine_valid. rewrite <- (index_by_is_Some Flavor_Slug fs). unfold Flavors.NewFlavorInfo.
  split.
  - intros (H & ? & ?). split; [by apply H|]. by split_and!.
  - intros (H & _ & ? & ?). split_and!; [by intros ? [= <-]|done..].
Qed.

End startup_theorems.
