(* ===== verification/CommandLine.v ===== *)
(** * The command line (the flags of src/cmd/main.go)

    The flags that [run] defines, read by [flag.Parse]: the parser of Go's [flag]
    package, one argument at a time, over the flags of the program and those that
    logging and the imported packages define, which are a parameter. The process is
    then the whole of it: the package initialisers, the command line, and the run
    with what was parsed. *)

From Stdlib Require Import Ascii QArith.
From S2P Require Export Startup.

#[local] Open Scope Z_scope.
#[local] Open Scope go_scope.

(** ** Flags, as the [flag] package keeps them *)

(** [T] is the memory the flags' variables are in. [Assign] is the value's [Set];
    [Default] is what defining the flag writes. *)
Record Flag (T : Type) := mkFlag {
  Flag_Name : string;
  IsBoolFlag : bool;
  Assign : string → T → Res T;
  Default : T → T }.
Arguments mkFlag {T}.
Arguments Flag_Name {T}.
Arguments IsBoolFlag {T}.
Arguments Assign {T}.
Arguments Default {T}.

Definition names {T} (fls : list (Flag T)) : list string := Flag_Name (T:=T) <$> fls.

(** The texts the package shows for the errors of [strconv]. *)
Definition numError (e : NumError) : error :=
  errorString (match e with ErrSyntax => "parse error" | ErrRange => "value out of range" end).

Definition parsedBy {T A} (parse : string → A + NumError) (set : A → T → T) (s : string) (t : T) : Res T :=
  match parse s with inl a => Ok (set a t) | inr e => Err (numError e) end.

Definition StringVar {T} (set : string → T → T) (name : string) (value : string) : Flag T :=
  mkFlag name false (λ s t, Ok (set s t)) (set value).
Definition BoolVar {T} (set : bool → T → T) (name : string) (value : bool) : Flag T :=
  mkFlag name true (parsedBy ParseBool set) (set value).
Definition IntVar {T} (set : Z → T → T) (name : string) (value : Z) : Flag T :=
  mkFlag name false (parsedBy ParseInt set) (set value).
Definition Float64Var {T} (set : float64 → T → T) (name : string) (value : float64) : Flag T :=
  mkFlag name false (parsedBy ParseFloat set) (set value).

(** A flag on one of two memories. *)
Definition onFst {A B} (fl : Flag A) : Flag (A * B) :=
  mkFlag (Flag_Name fl) (IsBoolFlag fl) (λ s t, res_map (λ a, (a, snd t)) (Assign fl s (fst t)))
    (λ t, (Default fl (fst t), snd t)).
Definition onSnd {A B} (fl : Flag B) : Flag (A * B) :=
  mkFlag (Flag_Name fl) (IsBoolFlag fl) (λ s t, res_map (λ b, (fst t, b)) (Assign fl s (snd t)))
    (λ t, (fst t, Default fl (snd t))).

Section flagset.
Context {T : Type}.
Implicit Types (fs : list (Flag T)) (t : T).

Definition lookupFlag (name : string) fs : option (Flag T) := find_by Flag_Name name fs.

(** [FlagSet.Var]: None for the panics on a name that begins with a hyphen or holds
    an equals sign, and on a name that is taken. *)
Definition Var fs (fl : Flag T) : option (list (Flag T)) :=
  if HasPrefix (Flag_Name fl) "-" || Contains (Flag_Name fl) "=" then None
  else match lookupFlag (Flag_Name fl) fs with
       | Some _ => None
       | None => Some (fs ++ [fl])
       end.

Definition define (fls : list (Flag T)) : option (list (Flag T)) :=
  foldl (λ o fl, match o with Some fs => Var fs fl | None => None end) (Some []) fls.

(** The memory once the flags are defined. *)
Definition defaults fls t : T := foldl (λ t fl, Default fl t) t fls.

(** ** [flag.Parse] *)

Inductive FlagError := ErrHelp | failf (msg : string).

Inductive OneParsed :=
  | Seen (t : T) (args : list string)
  | Finished (args : list string)
  | Failed (e : FlagError).

(** A flag's text without its hyphens, up to an equals sign that is not the first
    character, and what follows the sign. *)
Fixpoint splitEquals (s : string) : string * option string :=
  match s with
  | EmptyString => (EmptyString, None)
  | String c s => if is_char 61 c then (EmptyString, Some s)
                  else let '(name, value) := splitEquals s in (String c name, value)
  end.

Definition splitFlag (s : string) : string * option string :=
  match s with
  | EmptyString => (EmptyString, None)
  | String c s => let '(name, value) := splitEquals s in (String c name, value)
  end.

Definition startsWith (n : Z) (s : string) : bool :=
  match s with String c _ => is_char n c | EmptyString => false end.

(** The flag and its value, with the arguments that follow. *)
Definition parseFlag fs t (name : string) (value : option string) (args : list string) : OneParsed :=
  match lookupFlag name fs with
  | None =>
      if (name == "help") || (name == "h") then Failed ErrHelp
      else Failed (failf ("flag provided but not defined: -" +:+ name))
  | Some fl =>
      if IsBoolFlag fl then
        match value with
        | Some v =>
            match Assign fl v t with
            | Ok t => Seen t args
            | Err e => Failed (failf ("invalid boolean value " +:+ quote v +:+ " for -" +:+ name +:+ ": " +:+ Error e))
            end
        | None =>
            match Assign fl "true" t with
            | Ok t => Seen t args
            | Err e => Failed (failf ("invalid boolean flag " +:+ name +:+ ": " +:+ Error e))
            end
        end
      else
        match value, args with
        | None, [] => Failed (failf ("flag needs an argument: -" +:+ name))
        | _, _ =>
            let '(v, args) := match value, args with
                              | Some v, _ => (v, args)
                              | None, v :: args => (v, args)
                              | None, [] => ("", [])
                              end in
            match Assign fl v t with
            | Ok t => Seen t args
            | Err e => Failed (failf ("invalid value " +:+ quote v +:+ " for flag -" +:+ name +:+ ": " +:+ Error e))
            end
        end
  end.

Definition parseOne fs t (args : list string) : OneParsed :=
  match args with
  | [] => Finished []
  | s :: rest =>
      match s with
      | String c0 (String c1 s2) =>
          if negb (is_char 45 c0) then Finished args
          else if is_char 45 c1 && (s2 == "") then Finished rest
          else
            let name := if is_char 45 c1 then s2 else String c1 s2 in
            if (name == "") || startsWith 45 name || startsWith 61 name
            then Failed (failf ("bad flag syntax: " +:+ s))
            else let '(name, value) := splitFlag name in parseFlag fs t name value rest
      | _ => Finished args
      end
  end.

Inductive Parsing :=
  | Parsed (t : T) (args : list string)
  | ParseFailed (e : FlagError).

(** The loop of [FlagSet.Parse]; every round takes an argument at least. *)
Fixpoint parseAll (fuel : nat) fs t (args : list string) : Parsing :=
  match fuel with
  | O => Parsed t args
  | S fuel =>
      match parseOne fs t args with
      | Seen t args => parseAll fuel fs t args
      | Finished args => Parsed t args
      | Failed e => ParseFailed e
      end
  end.

Definition Parse fs t (args : list string) : Parsing := parseAll (S (length args)) fs t args.
End flagset.
Arguments OneParsed : clear implicits.
Arguments Parsing : clear implicits.

(** ** The program's flags (main.go) *)

Definition set_metricsAddr (v : string) (f : Flags) : Flags :=
  mkFlags v (probeAddr f) (enableLeaderElection f) (secureMetrics f) (webhookCertPath f) (webhookCertName f) (webhookCertKey f) (metricsCertPath f) (metricsCertName f) (metricsCertKey f) (enableHTTP2 f) (clusterConcurrency f) (machineConcurrency f) (watchFilter f) (enableTracing f) (tracingSampleRate f) (profilerAddress f).
Definition set_probeAddr (v : string) (f : Flags) : Flags :=
  mkFlags (metricsAddr f) v (enableLeaderElection f) (secureMetrics f) (webhookCertPath f) (webhookCertName f) (webhookCertKey f) (metricsCertPath f) (metricsCertName f) (metricsCertKey f) (enableHTTP2 f) (clusterConcurrency f) (machineConcurrency f) (watchFilter f) (enableTracing f) (tracingSampleRate f) (profilerAddress f).
Definition set_enableLeaderElection (v : bool) (f : Flags) : Flags :=
  mkFlags (metricsAddr f) (probeAddr f) v (secureMetrics f) (webhookCertPath f) (webhookCertName f) (webhookCertKey f) (metricsCertPath f) (metricsCertName f) (metricsCertKey f) (enableHTTP2 f) (clusterConcurrency f) (machineConcurrency f) (watchFilter f) (enableTracing f) (tracingSampleRate f) (profilerAddress f).
Definition set_secureMetrics (v : bool) (f : Flags) : Flags :=
  mkFlags (metricsAddr f) (probeAddr f) (enableLeaderElection f) v (webhookCertPath f) (webhookCertName f) (webhookCertKey f) (metricsCertPath f) (metricsCertName f) (metricsCertKey f) (enableHTTP2 f) (clusterConcurrency f) (machineConcurrency f) (watchFilter f) (enableTracing f) (tracingSampleRate f) (profilerAddress f).
Definition set_webhookCertPath (v : string) (f : Flags) : Flags :=
  mkFlags (metricsAddr f) (probeAddr f) (enableLeaderElection f) (secureMetrics f) v (webhookCertName f) (webhookCertKey f) (metricsCertPath f) (metricsCertName f) (metricsCertKey f) (enableHTTP2 f) (clusterConcurrency f) (machineConcurrency f) (watchFilter f) (enableTracing f) (tracingSampleRate f) (profilerAddress f).
Definition set_webhookCertName (v : string) (f : Flags) : Flags :=
  mkFlags (metricsAddr f) (probeAddr f) (enableLeaderElection f) (secureMetrics f) (webhookCertPath f) v (webhookCertKey f) (metricsCertPath f) (metricsCertName f) (metricsCertKey f) (enableHTTP2 f) (clusterConcurrency f) (machineConcurrency f) (watchFilter f) (enableTracing f) (tracingSampleRate f) (profilerAddress f).
Definition set_webhookCertKey (v : string) (f : Flags) : Flags :=
  mkFlags (metricsAddr f) (probeAddr f) (enableLeaderElection f) (secureMetrics f) (webhookCertPath f) (webhookCertName f) v (metricsCertPath f) (metricsCertName f) (metricsCertKey f) (enableHTTP2 f) (clusterConcurrency f) (machineConcurrency f) (watchFilter f) (enableTracing f) (tracingSampleRate f) (profilerAddress f).
Definition set_metricsCertPath (v : string) (f : Flags) : Flags :=
  mkFlags (metricsAddr f) (probeAddr f) (enableLeaderElection f) (secureMetrics f) (webhookCertPath f) (webhookCertName f) (webhookCertKey f) v (metricsCertName f) (metricsCertKey f) (enableHTTP2 f) (clusterConcurrency f) (machineConcurrency f) (watchFilter f) (enableTracing f) (tracingSampleRate f) (profilerAddress f).
Definition set_metricsCertName (v : string) (f : Flags) : Flags :=
  mkFlags (metricsAddr f) (probeAddr f) (enableLeaderElection f) (secureMetrics f) (webhookCertPath f) (webhookCertName f) (webhookCertKey f) (metricsCertPath f) v (metricsCertKey f) (enableHTTP2 f) (clusterConcurrency f) (machineConcurrency f) (watchFilter f) (enableTracing f) (tracingSampleRate f) (profilerAddress f).
Definition set_metricsCertKey (v : string) (f : Flags) : Flags :=
  mkFlags (metricsAddr f) (probeAddr f) (enableLeaderElection f) (secureMetrics f) (webhookCertPath f) (webhookCertName f) (webhookCertKey f) (metricsCertPath f) (metricsCertName f) v (enableHTTP2 f) (clusterConcurrency f) (machineConcurrency f) (watchFilter f) (enableTracing f) (tracingSampleRate f) (profilerAddress f).
Definition set_enableHTTP2 (v : bool) (f : Flags) : Flags :=
  mkFlags (metricsAddr f) (probeAddr f) (enableLeaderElection f) (secureMetrics f) (webhookCertPath f) (webhookCertName f) (webhookCertKey f) (metricsCertPath f) (metricsCertName f) (metricsCertKey f) v (clusterConcurrency f) (machineConcurrency f) (watchFilter f) (enableTracing f) (tracingSampleRate f) (profilerAddress f).
Definition set_clusterConcurrency (v : Z) (f : Flags) : Flags :=
  mkFlags (metricsAddr f) (probeAddr f) (enableLeaderElection f) (secureMetrics f) (webhookCertPath f) (webhookCertName f) (webhookCertKey f) (metricsCertPath f) (metricsCertName f) (metricsCertKey f) (enableHTTP2 f) v (machineConcurrency f) (watchFilter f) (enableTracing f) (tracingSampleRate f) (profilerAddress f).
Definition set_machineConcurrency (v : Z) (f : Flags) : Flags :=
  mkFlags (metricsAddr f) (probeAddr f) (enableLeaderElection f) (secureMetrics f) (webhookCertPath f) (webhookCertName f) (webhookCertKey f) (metricsCertPath f) (metricsCertName f) (metricsCertKey f) (enableHTTP2 f) (clusterConcurrency f) v (watchFilter f) (enableTracing f) (tracingSampleRate f) (profilerAddress f).
Definition set_watchFilter (v : string) (f : Flags) : Flags :=
  mkFlags (metricsAddr f) (probeAddr f) (enableLeaderElection f) (secureMetrics f) (webhookCertPath f) (webhookCertName f) (webhookCertKey f) (metricsCertPath f) (metricsCertName f) (metricsCertKey f) (enableHTTP2 f) (clusterConcurrency f) (machineConcurrency f) v (enableTracing f) (tracingSampleRate f) (profilerAddress f).
Definition set_enableTracing (v : bool) (f : Flags) : Flags :=
  mkFlags (metricsAddr f) (probeAddr f) (enableLeaderElection f) (secureMetrics f) (webhookCertPath f) (webhookCertName f) (webhookCertKey f) (metricsCertPath f) (metricsCertName f) (metricsCertKey f) (enableHTTP2 f) (clusterConcurrency f) (machineConcurrency f) (watchFilter f) v (tracingSampleRate f) (profilerAddress f).
Definition set_tracingSampleRate (v : float64) (f : Flags) : Flags :=
  mkFlags (metricsAddr f) (probeAddr f) (enableLeaderElection f) (secureMetrics f) (webhookCertPath f) (webhookCertName f) (webhookCertKey f) (metricsCertPath f) (metricsCertName f) (metricsCertKey f) (enableHTTP2 f) (clusterConcurrency f) (machineConcurrency f) (watchFilter f) (enableTracing f) v (profilerAddress f).
Definition set_profilerAddress (v : string) (f : Flags) : Flags :=
  mkFlags (metricsAddr f) (probeAddr f) (enableLeaderElection f) (secureMetrics f) (webhookCertPath f) (webhookCertName f) (webhookCertKey f) (metricsCertPath f) (metricsCertName f) (metricsCertKey f) (enableHTTP2 f) (clusterConcurrency f) (machineConcurrency f) (watchFilter f) (enableTracing f) (tracingSampleRate f) v.

(** The variables before any flag is defined. *)
Definition zeroFlags : Flags :=
  mkFlags "" "" false false "" "" "" "" "" "" false 0 0 "" false (Finite 0) "".

Definition programFlags : list (Flag Flags) :=
  [StringVar set_metricsAddr "metrics-bind-address" "0";
   StringVar set_probeAddr "health-probe-bind-address" ":8081";
   BoolVar set_enableLeaderElection "leader-elect" false;
   BoolVar set_secureMetrics "metrics-secure" true;
   StringVar set_webhookCertPath "webhook-cert-path" "";
   StringVar set_webhookCertName "webhook-cert-name" "tls.crt";
   StringVar set_webhookCertKey "webhook-cert-key" "tls.key";
   StringVar set_metricsCertPath "metrics-cert-path" "";
   StringVar set_metricsCertName "metrics-cert-name" "tls.crt";
   StringVar set_metricsCertKey "metrics-cert-key" "tls.key";
   BoolVar set_enableHTTP2 "enable-http2" false;
   IntVar set_clusterConcurrency "cluster-concurrency" 1;
   IntVar set_machineConcurrency "machine-concurrency" 1;
   StringVar set_watchFilter "watch-filter" "";
   BoolVar set_enableTracing "enable-tracing" false;
   Float64Var set_tracingSampleRate "tracing-sample-rate" (Finite (3602879701896397 # 36028797018963968));
   StringVar set_profilerAddress "profiler-address" ""].

(** The flags that are not the program's: those the imported packages define when
    they are initialised, and those of [zap.Options.BindFlags]; with the variables
    they are about. *)
Class OtherFlags := {
  Others : Type;
  zeroOthers : Others;
  importedFlags : list (Flag Others);
  zapFlags : list (Flag Others) }.

(** Their names are well formed and are not the program's. *)
Definition well_named {T} (fl : Flag T) : Prop :=
  HasPrefix (Flag_Name fl) "-" = false ∧ Contains (Flag_Name fl) "=" = false.

Class OtherFlagsNamed `{OtherFlags} := {
  others_well_named : Forall well_named (importedFlags ++ zapFlags);
  others_distinct : NoDup (names (importedFlags ++ zapFlags));
  others_apart : ∀ fl, fl ∈ importedFlags ++ zapFlags → Flag_Name fl ∉ names programFlags }.

(** ** The process *)

Section process.
Context `{OF : OtherFlags} `{RT : Runtime} (Getenv : string → string) (sdkUserAgent version : string)
  (format_f : float64 → string).

(** Everything that is defined on [flag.CommandLine], in its order. *)
Definition allFlags : list (Flag (Flags * Others)) :=
  map onSnd importedFlags ++ map onFst programFlags ++ map onSnd zapFlags.

(** The command line: the flags are defined and read. None is a panic. *)
Definition CommandLine (args : list string) : option (Parsing (Flags * Others)) :=
  (λ fs, Parse fs (defaults allFlags (zeroFlags, zeroOthers)) args) <$> define allFlags.

(** [flag.CommandLine] ends the process on an error: with code 0 when help was
    asked for and 2 otherwise, after the message; the usage text is left out. *)
Definition parseStatus (e : FlagError) : Z * option string :=
  match e with ErrHelp => (0, None) | failf msg => (2, Some (msg +:+ newline)) end.

(** A panic's exit code, and the beginning of what it prints. *)
Definition panicStatus (msg : string) : Z * option string := (2, Some ("panic: " +:+ msg)).

Definition process (args : list string) (flavorsFirst : bool) (w : RWorld)
    : (Z * option string) * St RWorld StartEvent Process :=
  match init (mkSt (mkProcess None None (mkScheme [] [])) w []) with
  | (Err e, s) => (panicStatus (Error e), s)
  | (Ok _, s) =>
      match CommandLine args with
      | None => (panicStatus "flag redefined", s)
      | Some (ParseFailed e) => (parseStatus e, s)
      | Some (Parsed (f, _) _) => main Getenv sdkUserAgent version format_f f flavorsFirst s
      end
  end.
End process.

(** ** A command line for every configuration *)

Definition boolText (b : bool) : string := if b then "true" else "false".

Definition settingsOf (f : Flags) : list (string * string) :=
  [("metrics-bind-address", metricsAddr f);
   ("health-probe-bind-address", probeAddr f);
   ("leader-elect", boolText (enableLeaderElection f));
   ("metrics-secure", boolText (secureMetrics f));
   ("webhook-cert-path", webhookCertPath f);
   ("webhook-cert-name", webhookCertName f);
   ("webhook-cert-key", webhookCertKey f);
   ("metrics-cert-path", metricsCertPath f);
   ("metrics-cert-name", metricsCertName f);
   ("metrics-cert-key", metricsCertKey f);
   ("enable-http2", boolText (enableHTTP2 f));
   ("cluster-concurrency", itoa (clusterConcurrency f));
   ("machine-concurrency", itoa (machineConcurrency f));
   ("watch-filter", watchFilter f);
   ("enable-tracing", boolText (enableTracing f));
   ("tracing-sample-rate", floatText (tracingSampleRate f));
   ("profiler-address", profilerAddress f)].

(** Hyphens, name and value in one argument. *)
Definition written (nv : string * string) : string := "--" +:+ fst nv +:+ "=" +:+ snd nv.

Definition commandLineOf (f : Flags) : list string := map written (settingsOf f).

(** What the variables can hold. *)
Definition machine_flags (f : Flags) : Prop :=
  (- 2 ^ 63 <= clusterConcurrency f < 2 ^ 63) ∧ (- 2 ^ 63 <= machineConcurrency f < 2 ^ 63) ∧
  is_float64 (tracingSampleRate f).

Example defaults_are_the_flags : defaults programFlags zeroFlags = defaultFlags.
Proof. reflexivity. Qed.

(** ** Defining flags *)

Section flagset_lemmas.
Context {T : Type}.
Implicit Types (fs fls : list (Flag T)) (t : T) (fl : Flag T).

Lemma lookupFlag_in fs fl :
  NoDup (names fs) → fl ∈ fs → lookupFlag (Flag_Name fl) fs = Some fl.
Proof. apply find_by_unique. Qed.

(** The flags that can be defined: well-formed names, each only once. *)
Lemma define_all fls :
  Forall well_named fls → NoDup (names fls) → define fls = Some fls.
Proof.
  unfold define. intros Hw Hnd. change fls with ([] ++ fls) in Hnd. change (Some fls) with (Some ([] ++ fls)).
  revert Hnd Hw. generalize (@nil (Flag T)) as fs.
  induction fls as [|fl fls IH]; intros fs Hnd Hw; cbn [foldl]; [by rewrite app_nil_r|].
  apply Forall_cons in Hw as [[Hm He] Hw].
  assert (Var fs fl = Some (fs ++ [fl])) as ->.
  { unfold Var. rewrite Hm, He. cbn [orb].
    destruct (lookupFlag (Flag_Name fl) fs) as [fl'|] eqn:E; [|done].
    apply find_by_Some in E as [Hin Hn]. unfold names in Hnd. rewrite fmap_app in Hnd.
    apply NoDup_app in Hnd as (_ & Hd & _).
    destruct (Hd (Flag_Name fl')); [by apply list_elem_of_fmap_2|]. rewrite Hn. csimpl. by left. }
  rewrite IH; [by rewrite <- app_assoc|by rewrite <- app_assoc|done].
Qed.

(** ** The texts of flags *)

Definition noEquals (s : string) : Prop := Contains s "=" = false.

Lemma noEquals_cons c s : noEquals (String c s) ↔ is_char 61 c = false ∧ noEquals s.
Proof.
  unfold noEquals. cbn [Contains]. rewrite orb_false_iff. split; intros [H1 H2]; (split; [|done]).
  - destruct c as [[] [] [] [] [] [] [] []]; try done; vm_compute in H1; destruct s; discriminate H1.
  - destruct c as [[] [] [] [] [] [] [] []]; try done.
Qed.

Lemma splitEquals_value s v : noEquals s → splitEquals (s +:+ "=" +:+ v) = (s, Some v).
Proof.
  induction s as [|c s IH]; [done|]. intros [Hc Hs]%noEquals_cons. rewrite app_cons_s. cbn [splitEquals].
  by rewrite Hc, IH.
Qed.

Lemma splitEquals_bare s : noEquals s → splitEquals s = (s, None).
Proof.
  induction s as [|c s IH]; [done|]. intros [Hc Hs]%noEquals_cons. cbn [splitEquals]. by rewrite Hc, IH.
Qed.

(** Nothing is lost: the name, and the value after an equals sign, are the text. *)
Lemma splitEquals_join s :
  let '(name, value) := splitEquals s in
  s = match value with Some v => name +:+ "=" +:+ v | None => name end.
Proof.
  induction s as [|c s IH]; [done|]. cbn [splitEquals]. destruct (is_char 61 c) eqn:Hc.
  - destruct c as [[] [] [] [] [] [] [] []]; try done.
  - destruct (splitEquals s) as [name [v|]]; by rewrite IH.
Qed.

Lemma splitFlag_join s :
  let '(name, value) := splitFlag s in
  s = match value with Some v => name +:+ "=" +:+ v | None => name end.
Proof.
  destruct s as [|c s]; [done|]. cbn [splitFlag]. pose proof (splitEquals_join s) as H.
  destruct (splitEquals s) as [name [v|]]; by rewrite H.
Qed.

(** A name a flag can be set by. *)
Definition settable (name : string) : Prop := name ≠ "" ∧ startsWith 45 name = false ∧ noEquals name.

Lemma settable_first name : settable name → startsWith 61 name = false.
Proof. destruct name as [|c s]; [done|]. intros (_ & _ & [H _]%noEquals_cons). done. Qed.

Lemma splitFlag_value name v : settable name → splitFlag (name +:+ "=" +:+ v) = (name, Some v).
Proof.
  destruct name as [|c s]; [by intros []|]. intros (_ & _ & [Hc Hs]%noEquals_cons).
  rewrite app_cons_s. cbn [splitFlag]. by rewrite splitEquals_value.
Qed.

Lemma splitFlag_bare name : settable name → splitFlag name = (name, None).
Proof.
  destruct name as [|c s]; [by intros []|]. intros (_ & _ & [Hc Hs]%noEquals_cons).
  cbn [splitFlag]. by rewrite splitEquals_bare.
Qed.

(** One or two hyphens. *)
Definition hyphens (h : string) : Prop := h = "-" ∨ h = "--".

(** An argument that is hyphens and a text is read as that text. *)
Lemma parseOne_hyphens fs t h text args :
  hyphens h → text ≠ "" → startsWith 45 text = false → startsWith 61 text = false →
  parseOne fs t ((h +:+ text) :: args) =
    let '(name, value) := splitFlag text in parseFlag fs t name value args.
Proof.
  intros Hh Hne H45 H61. destruct text as [|c s]; [done|]. cbn [startsWith] in *.
  destruct Hh as [-> | ->].
  - change ("-" +:+ String c s) with (String "-" (String c s)). cbn [parseOne].
    change (is_char 45 "-") with true. cbn [negb]. rewrite H45. cbn [andb].
    rewrite bool_decide_eq_false_2 by done. cbn [orb startsWith]. by rewrite H45, H61.
  - change ("--" +:+ String c s) with (String "-" (String "-" (String c s))). cbn [parseOne].
    change (is_char 45 "-") with true. cbn [negb andb].
    rewrite bool_decide_eq_false_2 by done. cbn [orb startsWith]. by rewrite H45, H61.
Qed.

(** ** Settings *)

(** The ways to write that a flag gets a value. *)
Inductive spelled fl (v : string) : list string → Prop :=
  | spelled_equals h : hyphens h → spelled fl v [h +:+ Flag_Name fl +:+ "=" +:+ v]
  | spelled_next h : hyphens h → IsBoolFlag fl = false → spelled fl v [h +:+ Flag_Name fl; v]
  | spelled_bare h : hyphens h → IsBoolFlag fl = true → v = "true" → spelled fl v [h +:+ Flag_Name fl].

(** A sequence of settings of the flags [fs], as arguments. *)
Inductive spelling fs : list (Flag T * string) → list string → Prop :=
  | spelling_nil : spelling fs [] []
  | spelling_cons fl v args settings rest :
      fl ∈ fs → settable (Flag_Name fl) → spelled fl v args → spelling fs settings rest →
      spelling fs ((fl, v) :: settings) (args ++ rest).

(** The settings take effect one after the other. *)
Fixpoint assignAll (settings : list (Flag T * string)) t : Res T :=
  match settings with
  | [] => Ok t
  | (fl, v) :: settings => res_bind (Assign fl v t) (assignAll settings)
  end.

(** Where flags end: the arguments are over, [--] is read, or an argument is
    not a flag. *)
Definition flagLike (s : string) : bool :=
  match s with String c0 (String _ _) => is_char 45 c0 | _ => false end.

Inductive stops : list string → list string → Prop :=
  | stops_end : stops [] []
  | stops_hyphens args : stops ("--" :: args) args
  | stops_argument s args : flagLike s = false → stops (s :: args) (s :: args).

Lemma parseOne_stops fs t tail rest : stops tail rest ↔ parseOne fs t tail = Finished rest.
Proof.
  split.
  - intros []; [done..|]. destruct s as [|c0 [|c1 s]]; [done..|]. cbn in *. by rewrite H.
  - destruct tail as [|s args]; [intros [= <-]; constructor|]. cbn [parseOne].
    destruct s as [|c0 [|c1 s2]]; [intros [= <-]; by constructor..|].
    destruct (is_char 45 c0) eqn:H0; cbn [negb]; [|intros [= <-]; by constructor].
    destruct (is_char 45 c1) eqn:H1; cbn [andb].
    + case_bool_decide as Hs2; [intros [= <-]|].
      { subst. destruct c0 as [[] [] [] [] [] [] [] []]; try done. destruct c1 as [[] [] [] [] [] [] [] []]; try done.
        constructor. }
      destruct (_ || _); [done|]. destruct (splitFlag s2) as [name value].
      unfold parseFlag. repeat case_match; done.
    + destruct (_ || _); [done|]. destruct (splitFlag _) as [name value].
      unfold parseFlag. repeat case_match; done.
Qed.

(** One round reads one setting, and fails when its value is refused. *)
Lemma parseOne_spelled fs t fl v args rest :
  NoDup (names fs) → fl ∈ fs → settable (Flag_Name fl) → spelled fl v args →
  match Assign fl v t with
  | Ok t' => parseOne fs t (args ++ rest) = Seen t' rest
  | Err _ => ∃ msg, parseOne fs t (args ++ rest) = Failed (failf msg)
  end.
Proof.
  intros Hnd Hin Hset Hsp. pose proof (lookupFlag_in fs fl Hnd Hin) as Hl.
  pose proof (settable_first _ Hset) as H61. pose proof Hset as (Hne & H45 & _).
  destruct Hsp as [h Hh|h Hh Hb|h Hh Hb ->]; cbn [app].
  - rewrite parseOne_hyphens; [|done|destruct (Flag_Name fl); done|by destruct (Flag_Name fl)|by destruct (Flag_Name fl)].
    rewrite splitFlag_value by done. unfold parseFlag. rewrite Hl.
    destruct (IsBoolFlag fl), (Assign fl v t); eauto; by destruct rest.
  - rewrite parseOne_hyphens, splitFlag_bare by done. unfold parseFlag. rewrite Hl, Hb.
    destruct (Assign fl v t); by eauto.
  - rewrite parseOne_hyphens, splitFlag_bare by done. unfold parseFlag. rewrite Hl, Hb.
    destruct (Assign fl "true" t); by eauto.
Qed.

(** *** And only settings are read *)

Lemma splitEquals_noEquals s : noEquals (fst (splitEquals s)).
Proof.
  induction s as [|c s IH]; [done|]. cbn [splitEquals]. destruct (is_char 61 c) eqn:Hc; [done|].
  destruct (splitEquals s) as [name value]. by apply noEquals_cons.
Qed.

Lemma splitFlag_settable text :
  (text == "") || startsWith 45 text || startsWith 61 text = false → settable (fst (splitFlag text)).
Proof.
  rewrite !orb_false_iff, bool_decide_eq_false. intros [[Hne H45] H61]. destruct text as [|c s]; [done|].
  cbn [splitFlag]. pose proof (splitEquals_noEquals s). destruct (splitEquals s) as [name value].
  split_and!; [done|done|by apply noEquals_cons].
Qed.

Lemma parseFlag_seen fs t name value args t' rest :
  parseFlag fs t name value args = Seen t' rest →
  ∃ fl v, fl ∈ fs ∧ Flag_Name fl = name ∧ Assign fl v t = Ok t' ∧
    ((value = Some v ∧ rest = args) ∨ (value = None ∧ IsBoolFlag fl = true ∧ v = "true" ∧ rest = args) ∨
     (value = None ∧ IsBoolFlag fl = false ∧ args = v :: rest)).
Proof.
  unfold parseFlag. destruct (lookupFlag name fs) as [fl|] eqn:E; [|by case_match].
  apply find_by_Some in E as [Hin Hn]. destruct (IsBoolFlag fl) eqn:Eb, value as [v|].
  - destruct (Assign fl v t) eqn:Ea; [|done]. intros [= -> ->]. exists fl, v. by split_and!; [| | |left].
  - destruct (Assign fl "true" t) eqn:Ea; [|done]. intros [= -> ->]. exists fl, "true".
    by split_and!; [| | |right; left].
  - intros H. exists fl, v. destruct args; destruct (Assign fl v t) eqn:Ea; simplify_eq;
      by split_and!; [| | |left].
  - destruct args as [|v args]; [done|]. destruct (Assign fl v t) eqn:Ea; [|done]. intros [= -> ->]. exists fl, v.
    by split_and!; [| | |right; right].
Qed.

Lemma parseOne_seen fs t args t' rest :
  parseOne fs t args = Seen t' rest →
  ∃ fl v sargs, args = sargs ++ rest ∧ sargs ≠ [] ∧ fl ∈ fs ∧ settable (Flag_Name fl) ∧ spelled fl v sargs ∧
    Assign fl v t = Ok t'.
Proof.
  destruct args as [|s args]; [done|]. cbn [parseOne].
  destruct s as [|c0 [|c1 s2]]; [done..|]. destruct (is_char 45 c0) eqn:H0; cbn [negb]; [|done].
  assert (∃ h text, hyphens h ∧ String c0 (String c1 s2) = h +:+ text ∧
            text = (if is_char 45 c1 then s2 else String c1 s2)) as (h & text & Hh & Es & Et).
  { destruct c0 as [[] [] [] [] [] [] [] []]; try done. destruct (is_char 45 c1) eqn:H1.
    - destruct c1 as [[] [] [] [] [] [] [] []]; try done. exists "--", s2. by split_and!; [right| |].
    - exists "-", (String c1 s2). by split_and!; [left| |]. }
  rewrite <- Et, Es. destruct (_ && _); [done|]. destruct (_ || _) eqn:Hb; [done|].
  apply splitFlag_settable in Hb. pose proof (splitFlag_join text) as Hj.
  destruct (splitFlag text) as [name value]. cbn [fst] in Hb.
  intros (fl & v & Hin & <- & Ha & Hc)%parseFlag_seen. exists fl, v.
  destruct Hc as [[-> ->]|[(-> & Hbf & -> & ->)|(-> & Hbf & ->)]]; subst.
  - eexists [_]. split_and!; [done|done|done|done|rewrite Hj; by constructor|done].
  - eexists [_]. split_and!; [done|done|done|done|rewrite Hj; by constructor|done].
  - eexists [_; _]. split_and!; [done|done|done|done|rewrite Hj; by constructor|done].
Qed.

Lemma spelled_nonempty fl v args : spelled fl v args → args ≠ [].
Proof. by intros []. Qed.

(** Every round takes an argument, so the rounds that [Parse] has are enough. *)
Lemma parseAll_spelling fuel fs t args t' rest :
  NoDup (names fs) → (length args < fuel)%nat →
  parseAll fuel fs t args = Parsed t' rest ↔
  ∃ settings sargs tail, args = sargs ++ tail ∧ spelling fs settings sargs ∧ stops tail rest ∧
    assignAll settings t = Ok t'.
Proof.
  intros Hnd. revert t args. induction fuel as [|fuel IH]; intros t args Hf; [lia|]. cbn [parseAll]. split.
  - destruct (parseOne fs t args) as [t1 args1|args1|e] eqn:E; [| |done].
    + apply parseOne_seen in E as (fl & v & sargs & -> & Hne & Hin & Hset & Hsp & Ha).
      assert (length args1 < fuel)%nat as Hf'.
      { rewrite length_app in Hf. destruct sargs; [done|]. simpl in Hf. lia. }
      intros (settings & sargs' & tail & -> & Hspell & Hst & Hass)%(IH t1 args1 Hf').
      exists ((fl, v) :: settings), (sargs ++ sargs'), tail. split_and!; [by rewrite app_assoc|by constructor|done|].
      cbn [assignAll]. by rewrite Ha.
    + intros [= <- <-]. apply parseOne_stops in E. exists [], [], args. by split_and!; [|constructor| |].
  - intros (settings & sargs & tail & -> & Hspell & Hst & Hass). destruct Hspell as [|fl v args settings more Hin Hset Hsp Hspell].
    + cbn [app]. apply (parseOne_stops fs t) in Hst as ->. by injection Hass as ->.
    + cbn [assignAll] in Hass. rewrite <- app_assoc.
      pose proof (parseOne_spelled fs t fl v args (more ++ tail) Hnd Hin Hset Hsp) as Hp.
      destruct (Assign fl v t) as [t1|e]; [|done]. rewrite Hp. apply IH.
      { apply spelled_nonempty in Hsp. rewrite <- app_assoc, length_app in Hf. destruct args; [done|]. simpl in Hf. lia. }
      by exists settings, more, tail.
Qed.

Lemma Parse_spelling fs t args t' rest :
  NoDup (names fs) →
  Parse fs t args = Parsed t' rest ↔
  ∃ settings sargs tail, args = sargs ++ tail ∧ spelling fs settings sargs ∧ stops tail rest ∧
    assignAll settings t = Ok t'.
Proof. intros H. apply parseAll_spelling; [done|lia]. Qed.
End flagset_lemmas.

(** ** The program's command line *)

Section commandline.
Context `{ON : OtherFlagsNamed}.

Lemma programFlags_named : Forall well_named programFlags ∧ NoDup (names programFlags).
Proof. split; [by repeat constructor|]. by apply (bool_decide_unpack _). Qed.

Lemma names_allFlags : names allFlags = names importedFlags ++ names programFlags ++ names zapFlags.
Proof. unfold names, allFlags. by rewrite !fmap_app, <- !list_fmap_compose. Qed.

Lemma allFlags_defined : define allFlags = Some allFlags ∧ NoDup (names allFlags).
Proof.
  destruct programFlags_named as [Hw Hnd].
  pose proof others_well_named as Hw'. pose proof others_distinct as Hnd'.
  apply Forall_app in Hw' as [Hw1 Hw2]. unfold names in Hnd'. rewrite fmap_app in Hnd'.
  apply NoDup_app in Hnd' as (Hn1 & Hn12 & Hn2).
  assert (∀ n, n ∈ names importedFlags ∨ n ∈ names zapFlags → n ∉ names programFlags) as Hap.
  { intros n [Hn|Hn]; apply list_elem_of_fmap in Hn as (fl & -> & Hin); apply others_apart, elem_of_app; auto. }
  assert (NoDup (names allFlags)) as Hall.
  { rewrite names_allFlags. apply NoDup_app. split_and!; [done| |apply NoDup_app; split_and!; [done| |done]].
    - intros n Hn [Hn'|Hn']%elem_of_app; [by eapply Hap; [left|]|by eapply Hn12].
    - intros n Hn Hn'. by eapply Hap; [right|]. }
  split; [|done]. apply define_all; [|done].
  unfold allFlags. rewrite !Forall_app, !Forall_map. split_and!; [exact Hw1|exact Hw|exact Hw2].
Qed.

(** The variables once all flags are defined: the documented defaults. *)
Lemma defaults_allFlags :
  ∃ others, defaults allFlags (zeroFlags, zeroOthers) = (defaultFlags, others).
Proof.
  assert (∀ (fls : list (Flag Others)) f o, ∃ o', defaults (T:=Flags * Others) (map onSnd fls) (f, o) = (f, o')) as Ho.
  { induction fls as [|fl fls IH]; intros f o; [by exists o|]. apply IH. }
  assert (∀ (fls : list (Flag Flags)) f (o : Others), defaults (map onFst fls) (f, o) = (defaults fls f, o)) as Hf.
  { induction fls as [|fl fls IH]; intros f o; [done|]. apply IH. }
  assert (∀ fs gs t, defaults (T:=Flags * Others) (fs ++ gs) t = defaults gs (defaults fs t)) as Happ
    by (intros; apply foldl_app).
  unfold allFlags. rewrite !Happ. destruct (Ho importedFlags zeroFlags zeroOthers) as [o1 ->].
  rewrite Hf. apply Ho.
Qed.

Lemma allFlags_program fl : fl ∈ programFlags → onFst fl ∈ allFlags.
Proof. intros Hin. unfold allFlags. rewrite !elem_of_app. right. left. by apply list_elem_of_fmap_2. Qed.

Lemma programFlags_settable fl : fl ∈ programFlags → settable (Flag_Name fl).
Proof.
  intros Hin. assert (Forall (λ fl, settable (Flag_Name fl)) programFlags) as Hall by by repeat constructor.
  rewrite Forall_forall in Hall. by apply Hall.
Qed.

(** Each of the program's flags once, in one argument. *)
Lemma spelling_written (fls : list (Flag Flags)) texts :
  fls ⊆ programFlags →
  spelling allFlags (zip (map onFst fls) texts) (zip_with (λ fl v, written (Flag_Name fl, v)) fls texts).
Proof.
  revert texts. induction fls as [|fl fls IH]; intros [|v texts] Hsub; [constructor..|].
  change (zip_with (λ fl v, written (Flag_Name fl, v)) (fl :: fls) (v :: texts))
    with ([written (Flag_Name fl, v)] ++ zip_with (λ fl v, written (Flag_Name fl, v)) fls texts).
  constructor; [by apply allFlags_program, Hsub; left|by apply programFlags_settable, Hsub; left| |apply IH; set_solver].
  apply (spelled_equals (onFst fl) v "--"). by right.
Qed.

Lemma assign_String (set : string → Flags → Flags) n d v (f : Flags) (o : Others) :
  Assign (onFst (StringVar set n d)) v (f, o) = Ok (set v f, o).
Proof. done. Qed.
Lemma assign_Bool (set : bool → Flags → Flags) n d b (f : Flags) (o : Others) :
  Assign (onFst (BoolVar set n d)) (boolText b) (f, o) = Ok (set b f, o).
Proof. by destruct b. Qed.
Lemma assign_Int (set : Z → Flags → Flags) n d z (f : Flags) (o : Others) :
  - 2 ^ 63 <= z < 2 ^ 63 → Assign (onFst (IntVar set n d)) (itoa z) (f, o) = Ok (set z f, o).
Proof. intros Hz. unfold IntVar, onFst, parsedBy. cbn [Assign fst snd]. by rewrite ParseInt_itoa. Qed.
Lemma assign_Float64 (set : float64 → Flags → Flags) n d x (f : Flags) (o : Others) :
  is_float64 x → Assign (onFst (Float64Var set n d)) (floatText x) (f, o) = Ok (set x f, o).
Proof. intros Hx. unfold Float64Var, onFst, parsedBy. cbn [Assign fst snd]. by rewrite ParseFloat_text. Qed.

Lemma assignAll_settings f f0 (o : Others) :
  machine_flags f →
  assignAll (zip (map onFst programFlags) (snd <$> settingsOf f)) (f0, o) = Ok (f, o).
Proof.
  intros (Hc & Hm & Hr). unfold programFlags, settingsOf. cbn [map zip zip_with fmap list_fmap snd assignAll].
  repeat (first [rewrite assign_String | rewrite assign_Bool | rewrite assign_Int by done | rewrite assign_Float64 by done];
          cbn [res_bind]).
  by destruct f.
Qed.

(** C29. The command line is read as Go's users write it. What [flag.Parse] accepts is
    exactly a sequence of settings of defined flags - [-name=value] or
    [--name=value], [-name value] for a flag that is not boolean, [-name] alone for a
    boolean one - up to where flags end: the last argument, [--], or the first
    argument that is not a flag; the settings take effect in their order over the
    defaults, so that the last one of a flag counts; and the rest of the arguments is
    left over. Defining the flags does not panic. *)
Theorem commandline_read args t rest :
  CommandLine args ≠ None ∧
  (CommandLine args = Some (Parsed t rest) ↔
   ∃ settings sargs tail others, args = sargs ++ tail ∧ spelling allFlags settings sargs ∧ stops tail rest ∧
     defaults allFlags (zeroFlags, zeroOthers) = (defaultFlags, others) ∧
     assignAll settings (defaultFlags, others) = Ok t).
Proof.
  destruct allFlags_defined as [Hd Hnd]. destruct defaults_allFlags as [o Ho]. unfold CommandLine. rewrite Hd.
  split; [done|]. cbn [fmap option_fmap option_map]. rewrite Ho. transitivity (Parse allFlags (defaultFlags, o) args = Parsed t rest).
  { split; [by intros [= ->]|by intros ->]. }
  rewrite (Parse_spelling _ _ _ _ _ Hnd). split.
  - intros (settings & sargs & tail & Hs). exists settings, sargs, tail, o. naive_solver.
  - intros (settings & sargs & tail & o' & ? & ? & ? & [= <-] & ?). by exists settings, sargs, tail.
Qed.

(** C28. Every configuration has a command line: the variables can be given any
    values they can hold - any text, any 64-bit integer, any float64 - and what is
    read back is that configuration, with nothing left over. *)
Theorem commandline_roundtrip f :
  machine_flags f →
  ∃ others, CommandLine (commandLineOf f) = Some (Parsed (f, others) []).
Proof.
  intros Hf. destruct allFlags_defined as [Hd Hnd]. destruct defaults_allFlags as [o Ho]. exists o.
  unfold CommandLine. rewrite Hd. cbn [fmap option_fmap option_map]. rewrite Ho. f_equal.
  apply Parse_spelling; [done|].
  assert (commandLineOf f = zip_with (λ fl v, written (Flag_Name fl, v)) programFlags (snd <$> settingsOf f)) as E
    by reflexivity.
  exists (zip (map onFst programFlags) (snd <$> settingsOf f)), (commandLineOf f), [].
  split_and!; [by rewrite app_nil_r|rewrite E; by apply spelling_written|constructor|].
  by apply assignAll_settings.
Qed.
End commandline.

(** ** The process as a whole *)

Section process_theorems.
Context `{OF : OtherFlags} `{RT : Runtime} (Getenv : string → string) (sdkUserAgent version : string)
  (format_f : float64 → string).
Implicit Types (f : Flags) (s : St RWorld StartEvent Process) (args : list string).

Abbreviation Run := (run Getenv sdkUserAgent version format_f).
Abbreviation theProcess := (process Getenv sdkUserAgent version format_f).
Abbreviation startClient := (NewClient sdkUserAgent (Getenv "CLOUDSCALE_API_TOKEN") version instrumentedTransport).
Abbreviation HasStarted := (started Getenv sdkUserAgent version).
Abbreviation GotTo := (got_to Getenv sdkUserAgent version).
Abbreviation Traced := (traced Getenv version).

(** The calls of the initialisers when they do not panic. *)
Definition bootedBy (boot : list StartEvent) : Prop :=
  ∃ answer, boot = [Did (AddPackageToScheme "k8s.io/client-go/kubernetes/scheme") (Ok ());
                    Did (AddPackageToScheme "sigs.k8s.io/cluster-api/api/core/v1beta2") answer].

(** The kinds of this repository's API are known to the scheme. *)
Definition knowsKinds (p : Process) : Prop := KnownTypes (scheme p) = map (pair SchemeGroupVersion) objectTypes.

Lemma init_boots w :
  let '(r, s) := init (mkSt (mkProcess None None (mkScheme [] [])) w []) in
  manager (obj s) = None ∧ tracerProvider (obj s) = None ∧ Forall quiet (log s) ∧
  (r = Ok () → bootedBy (log s) ∧ knowsKinds (obj s)).
Proof.
  unfold init, addToScheme, bind, try, do, call, modify, ret. simpl.
  destruct (perform _ w) as [[[]|e] w1]; simpl; [|by split_and!; [| |repeat constructor|]].
  destruct (perform _ w1) as [[[]|e] w2]; simpl;
    (split_and!; [done|done|by repeat constructor|intros _; split; [by eexists|done]]).
Qed.

(** The ways a process ends: in the initialisers or at its command line, asked
    for help, or in [run]. *)
Lemma process_outcome args ff w :
  let '((code, stderr), s') := theProcess args ff w in
  (Forall quiet (log s') ∧ tracerProvider (obj s') = None ∧
     ((code = 2 ∧ is_Some stderr) ∨ (code = 0 ∧ CommandLine args = Some (ParseFailed ErrHelp)))) ∨
  (∃ f others rest boot evs after p r, CommandLine args = Some (Parsed (f, others) rest) ∧
     bootedBy boot ∧ Forall quiet boot ∧ log s' = boot ++ evs ++ after ∧ knowsKinds (obj s') ∧
     tracerProvider p = None ∧ GotTo f evs r ∧ Traced f p (obj s') evs after ∧ (code, stderr) = exitStatus r).
Proof.
  unfold process. pose proof (init_boots w) as Hb. destruct (init _) as [[[]|e] s].
  2:{ destruct Hb as (_ & ? & ? & _). left. split_and!; [done..|]. by left. }
  destruct Hb as (_ & Ht & Hq & Hok). destruct (Hok eq_refl) as [Hboot Hk].
  destruct (CommandLine args) as [[[f o] rest|[]]|].
  - destruct (run_outcome Getenv sdkUserAgent version format_f f ff s) as (evs & after & Hl & Hg & Htr & Hsch).
    unfold main, result, exec in *. destruct (Run f ff s) as [r s']. cbn [fst snd] in *.
    destruct (exitStatus r) as [code stderr] eqn:Ex. right.
    exists f, o, rest, (log s), evs, after, (obj s), r. assert (knowsKinds (obj s')) by (unfold knowsKinds; by rewrite Hsch). by split_and!.
  - left. split_and!; [done..|]. by right.
  - left. split_and!; [done..|]. by left.
  - left. split_and!; [done..|]. by left.
Qed.

(** C25. The process serves only what it checked. Either the manager is never
    started, and the process exits with a code other than 0, unless help was asked
    for; or the command line was read, and the manager is started exactly once, with
    both concurrencies in their ranges, a scheme that knows the kinds of the API, and
    after every earlier call of [run] succeeded, with the three controllers, the
    health checks and (unless ENABLE_WEBHOOKS is "false") the four webhooks, built
    from the regions and flavours that the cloud listed for the configured token;
    nothing follows but the tracer's shutdown, when tracing is on; and the exit code
    is 0 exactly when the manager ended without an error. Unless --enable-http2 is
    given, the metrics and webhook servers offer HTTP/1.1 only. *)
Theorem process_serves args flavorsFirst w :
  let '((code, stderr), s') := theProcess args flavorsFirst w in
  (Forall (λ e, ¬ is_start e) (log s') ∧
     (code ≠ 0 ∧ is_Some stderr ∨ code = 0 ∧ CommandLine args = Some (ParseFailed ErrHelp))) ∨
  (∃ f others rest boot before m answer after,
     CommandLine args = Some (Parsed (f, others) rest) ∧
     log s' = boot ++ before ++ [Did (StartManager m) answer] ++ after ∧
     bootedBy boot ∧ knowsKinds (obj s') ∧
     flags_ok f ∧ HasStarted f before m ∧ (code = 0 ↔ answer = Ok ()) ∧
     Forall (λ e, enableTracing f = true ∧ is_shutdown e) after ∧ (length after ≤ 1)%nat ∧
     ∀ c, protocols (ms_TLSOpts (Metrics (Options m))) c =
            (if enableHTTP2 f then NextProtos c else ["http/1.1"]) ∧
          protocols (whs_TLSOpts (WebhookServer (Options m))) c =
            (if enableHTTP2 f then NextProtos c else ["http/1.1"])).
Proof.
  pose proof (process_outcome args flavorsFirst w) as H. destruct (process _ _ _ _ _ _ _) as [[code stderr] s'].
  destruct H as [(Hq & _ & Hx)|(f & o & rest & boot & evs & after & p & r & Hc & Hboot & Hqb & Hl & Hk & Hp & Hg & Ht & Hx)].
  { left. split; [by apply quiet_no_start|]. destruct Hx as [[-> ?]|?]; [by left|by right]. }
  destruct Hg as [[Hq [e ->]]|(before & m & a & -> & Hf & Hst & ->)].
  - left. injection Hx as -> ->. split; [|by left; split; [|eexists]]. rewrite Hl.
    apply Forall_app. split; [by apply quiet_no_start|]. apply Forall_app. split; [by apply quiet_no_start|].
    destruct Ht as [(-> & _)|(_ & _ & _ & a & ->)]; [by apply Forall_nil|apply Forall_singleton; simpl; tauto].
  - pose proof (exitStatus_zero (res_wrap "failed to run manager: " a)) as Hz. rewrite <- Hx in Hz. cbn [fst] in Hz.
    right. exists f, o, rest, boot, before, m, a, after. rewrite <- app_assoc in Hl.
    split_and!; [done..| | | |].
    + rewrite Hz. destruct a as [[]|]; simpl; naive_solver.
    + destruct Ht as [(-> & _)|(? & _ & _ & a' & ->)]; [by apply Forall_nil|apply Forall_singleton; simpl; tauto].
    + destruct Ht as [(-> & _)|(? & _ & _ & a' & ->)]; simpl; lia.
    + destruct Hst as (_ & _ & _ & rs & fs & _ & _ & ->). intros c. unfold protocols. simpl.
      unfold webhookServerOptions, tlsOpts. destruct (enableHTTP2 f); simpl; by case_match.
Qed.

(** C27. The tracer's life. A tracer provider is installed only when the command
    line turns tracing on with a sample rate that passes the range check, which lets
    through the rates between 0 and 1 and not-a-number; it samples everything from 1
    on, and for not-a-number too, and else the given ratio; and once installed it is
    shut down exactly once, as the last thing the process does, however the rest
    ends. Without a provider nothing is shut down, and with tracing on the manager is
    not started. *)
Theorem process_traces args flavorsFirst w :
  let s' := snd (theProcess args flavorsFirst w) in
  match tracerProvider (obj s') with
  | None => Forall (λ e, ¬ is_shutdown e) (log s') ∧
      (∀ f others rest, CommandLine args = Some (Parsed (f, others) rest) → enableTracing f = true →
        Forall (λ e, ¬ is_start e) (log s'))
  | Some tp => ∃ f others rest, CommandLine args = Some (Parsed (f, others) rest) ∧
      enableTracing f = true ∧
      match tracingSampleRate f with
      | NaN => tp_Sampler tp = AlwaysSample
      | Finite q => (0 <= q <= 1)%Q ∧
          tp_Sampler tp = (if Qle_bool 1 q then AlwaysSample else ParentBasedTraceIDRatio (Finite q))
      | _ => False
      end ∧
      (Getenv "OTEL_SERVICE_NAME" = "" ↔ (ServiceNameKey, "capcs") ∈ tp_Resource tp) ∧
      ∃ before answer, log s' = before ++ [Did (ShutdownTracer tp) answer] ∧
        Forall (λ e, ¬ is_shutdown e) before
  end.
Proof.
  pose proof (process_outcome args flavorsFirst w) as H. destruct (process _ _ _ _ _ _ _) as [[code stderr] s'].
  cbn [snd]. cbv zeta.
  destruct H as [(Hq & -> & _)|(f & o & rest & boot & evs & after & p & r & Hc & Hboot & Hqb & Hl & Hk & Hp & Hg & Ht & _)].
  { split; [by apply quiet_no_shutdown|]. intros. by apply quiet_no_start. }
  assert (Forall (λ e, ¬ is_shutdown e) (boot ++ evs)) as Hns.
  { apply Forall_app. split; [by apply quiet_no_shutdown|].
    destruct Hg as [[Hq _]|(before & m & a & -> & _ & (Hq & _) & _)]; [by apply quiet_no_shutdown|].
    apply Forall_app. split; [by apply quiet_no_shutdown|]. apply Forall_singleton. by intros []. }
  rewrite Hl. destruct Ht as [(-> & -> & Ht)|(Ht & Ha & -> & a & ->)].
  - rewrite app_nil_r, Hp. split; [done|]. rewrite Hc. intros ? ? ? [= <- <- <-] Htr.
    destruct Ht as [?|Hq]; [congruence|]. apply Forall_app. split; by apply quiet_no_start.
  - exists f, o, rest. rewrite app_assoc. split_and!; [done|done| | |by eauto].
    + unfold provider, samplerOf. destruct (tracingSampleRate f) as [| |q|]; simpl in *; [done..| |done].
      split; [done|]. by destruct (Qle_bool 1 q).
    + unfold provider, tracingAttrs. cbv zeta.
      destruct (decide (Getenv "OTEL_SERVICE_NAME" = "")) as [H1|H1];
        [rewrite (bool_decide_eq_true_2 _ H1)|rewrite (bool_decide_eq_false_2 _ H1)];
        case_bool_decide; simpl; set_solver.
Qed.

(** C26. Admission follows the cloud's catalogues. When the manager is started with
    the webhooks enabled, all four kinds have a validator, and for the regions and
    flavours that were listed: a cluster and a cluster template are admitted exactly
    when their specification is valid for these regions, a machine and a machine
    template exactly when their flavour is listed and their tags and interfaces are
    valid; nothing refuses a deletion. *)
Theorem process_admits ParsePrefix_error ParseAddr_error args flavorsFirst w m answer :
  Did (StartManager m) answer ∈ log (snd (theProcess args flavorsFirst w)) →
  Getenv "ENABLE_WEBHOOKS" ≠ "false" →
  ∃ regions flavors,
    ListedRegions startClient false (Ok regions) ∈ log (snd (theProcess args flavorsFirst w)) ∧
    ListedFlavors startClient false (Ok flavors) ∈ log (snd (theProcess args flavorsFirst w)) ∧
    ∃ cluster machine machineTemplate clusterTemplate,
      Webhooks m = [CloudscaleClusterWebhook cluster cluster; CloudscaleMachineWebhook machine;
                    CloudscaleMachineTemplateWebhook machineTemplate;
                    CloudscaleClusterTemplateWebhook clusterTemplate] ∧
      (∀ c, snd (ValidateCreate ParsePrefix_error ParseAddr_error cluster c) = None ↔
            spec_valid (Regions.NewRegionInfo regions) (CloudscaleCluster_Spec c)) ∧
      (∀ name t, snd (ClusterTemplateValidateCreate ParsePrefix_error ParseAddr_error clusterTemplate name t) = None ↔
            spec_valid (Regions.NewRegionInfo regions) (ClusterTemplate_Spec t)) ∧
      (∀ c, snd (MachineValidateCreate machine c) = None ↔
            CloudscaleMachineSpec_Flavor (mspec c) ∈ (Flavor_Slug <$> flavors) ∧ machine_valid None (mspec c)) ∧
      (∀ name sp, snd (MachineTemplateValidateCreate machineTemplate name sp) = None ↔
            CloudscaleMachineSpec_Flavor sp ∈ (Flavor_Slug <$> flavors) ∧ machine_valid None sp) ∧
      (∀ c cm name sp t, snd (ValidateDelete c) = None ∧ snd (MachineValidateDelete cm) = None ∧
         snd (MachineTemplateValidateDelete name sp) = None ∧ snd (ClusterTemplateValidateDelete name t) = None).
Proof.
  pose proof (process_outcome args flavorsFirst w) as H. destruct (process _ _ _ _ _ _ _) as [[code stderr] s'].
  cbn [snd]. intros Hin Hw.
  destruct H as [(Hq & _)|(f & o & rest & boot & evs & after & p & r & Hc & Hboot & Hqb & Hl & Hk & Hp & Hg & Ht & _)].
  { rewrite Forall_forall in Hq. by destruct (Hq _ Hin). }
  rewrite Hl in Hin |- *. apply elem_of_app in Hin as [Hin|Hin].
  { rewrite Forall_forall in Hqb. by destruct (Hqb _ Hin). }
  destruct (started_in_log _ _ _ _ _ _ _ _ _ _ _ Hg Ht Hin) as (before & (_ & _ & _ & rs & fs & Hr & Hf & ->) & Hsub).
  exists rs, fs. split_and!; [by rewrite !elem_of_app; right; left; apply Hsub..|].
  exists (Regions.NewRegionInfo rs), (Some (Flavors.NewFlavorInfo fs)), (Some (Flavors.NewFlavorInfo fs)),
    (Regions.NewRegionInfo rs).
  unfold servedManager, ValidateCreate, ClusterTemplateValidateCreate, MachineValidateCreate,
    MachineTemplateValidateCreate. cbn [Webhooks]. rewrite (bool_decide_eq_false_2 _ Hw).
  split_and!; [done| | | | |done]; intros; rewrite answer_accepts.
  - apply clusterSpecValidateCreate_nil.
  - apply clusterSpecValidateCreate_nil.
  - rewrite validateMachineSpec_nil. apply machine_valid_listed.
  - rewrite validateMachineSpec_nil. apply machine_valid_listed.
Qed.
End process_theorems.

(** ** A start *)

(** Everything that is asked for succeeds; the cloud has one region and one flavour. *)
Definition smooth_runtime : Runtime := {|
  RWorld := unit;
  perform := λ _ w, (Ok (), w);
  list_regions := λ _ _ w, (Ok [mkRegion "lpg" [mkZone "lpg1"]], w);
  list_flavors := λ _ _ w, (Ok [mkFlavor "flex-4-2" 2 4 None], w) |}.

Definition smooth_env (name : string) : string := if name == "CLOUDSCALE_API_TOKEN" then "secret" else "".

(** The flags of controller-runtime and of zap, each keeping the text it was set to. *)
Definition keptText (name : string) : Flag (gmap string string) :=
  mkFlag name false (λ s m, Ok (<[name:=s]> m)) id.
Definition known_flags : OtherFlags := {|
  Others := gmap string string;
  zeroOthers := ∅;
  importedFlags := [keptText "kubeconfig"];
  zapFlags := [mkFlag "zap-devel" true (λ s m, Ok (<["zap-devel":=s]> m)) id; keptText "zap-encoder";
               keptText "zap-log-level"; keptText "zap-stacktrace-level"; keptText "zap-time-encoding"] |}.

Lemma known_flags_named : OtherFlagsNamed (H:=known_flags).
Proof.
  split; [by repeat constructor|by apply (bool_decide_unpack _)|].
  intros fl Hfl. assert (Forall (λ n, n ∉ names programFlags) (names (@importedFlags known_flags ++ @zapFlags known_flags))) as H.
  { by apply (bool_decide_unpack _). }
  rewrite Forall_forall in H. apply H. by apply list_elem_of_fmap_2.
Qed.

Definition an_invocation : list string :=
  ["-cluster-concurrency"; "3"; "--leader-elect"; "--zap-log-level=debug"; "--metrics-bind-address=:8443";
   "-machine-concurrency=0xA"; "-cluster-concurrency=4"; "--"; "--enable-http2"].

(** What is read from it. *)
Definition a_reading := Eval vm_compute in
  match CommandLine (OF:=known_flags) an_invocation with
  | Some (Parsed t _) => t
  | _ => (zeroFlags, zeroOthers (OtherFlags:=known_flags))
  end.
Lemma a_reading_read : CommandLine (OF:=known_flags) an_invocation = Some (Parsed a_reading ["--enable-http2"]).
Proof. vm_compute. reflexivity. Qed.

Lemma commandline_read_witness :
  ∃ t, CommandLine (OF:=known_flags) an_invocation = Some (Parsed t ["--enable-http2"]) ∧
    clusterConcurrency (fst t) = 4 ∧ machineConcurrency (fst t) = 10 ∧ enableHTTP2 (fst t) = false ∧
    ∃ settings sargs tail, an_invocation = sargs ++ tail ∧ spelling (allFlags (OF:=known_flags)) settings sargs ∧
      stops tail ["--enable-http2"].
Proof.
  exists a_reading. split_and!; [exact a_reading_read|reflexivity..|].
  destruct (proj1 (proj2 (commandline_read (ON:=known_flags_named) an_invocation _ _)) a_reading_read)
    as (settings & sargs & tail & _ & Ha & Hs & Ht & _).
  by exists settings, sargs, tail.
Defined.

Definition a_configuration : Flags := {|
  metricsAddr := ":8443"; probeAddr := ""; enableLeaderElection := true; secureMetrics := false;
  webhookCertPath := "/a=b"; webhookCertName := "--"; webhookCertKey := "k"; metricsCertPath := "";
  metricsCertName := "c"; metricsCertKey := "-"; enableHTTP2 := true; clusterConcurrency := -7;
  machineConcurrency := 2 ^ 63 - 1; watchFilter := "x y"; enableTracing := true;
  tracingSampleRate := Finite (5 # 8); profilerAddress := "localhost:6060" |}.

Lemma commandline_roundtrip_witness :
  machine_flags a_configuration ∧
  ∃ others, CommandLine (OF:=known_flags) (commandLineOf a_configuration) = Some (Parsed (a_configuration, others) []).
Proof.
  assert (machine_flags a_configuration) as H.
  { split_and!; [done..|]. exists 5, (-3). by split_and!. }
  split; [exact H|]. exact (commandline_roundtrip (ON:=known_flags_named) a_configuration H).
Defined.

Lemma process_admits_witness :
  ∃ m cluster machine machineTemplate clusterTemplate,
    Webhooks m = [CloudscaleClusterWebhook cluster cluster; CloudscaleMachineWebhook machine;
                  CloudscaleMachineTemplateWebhook machineTemplate;
                  CloudscaleClusterTemplateWebhook clusterTemplate] ∧
    Did (StartManager m) (Ok ()) ∈
      log (snd (process (OF:=known_flags) (RT:=smooth_runtime) smooth_env "cloudscale/v10" "dev" (λ _, "NaN")
                  an_invocation true ())).
Proof.
  set (s' := snd (process (OF:=known_flags) (RT:=smooth_runtime) smooth_env "cloudscale/v10" "dev" (λ _, "NaN")
                    an_invocation true ())).
  destruct (log s' !! 16%nat) as [e|] eqn:E; [|vm_compute in E; discriminate E].
  pose proof E as E'. vm_compute in E'. injection E' as <-. apply list_elem_of_lookup_2 in E.
  pose proof (process_admits (OF:=known_flags) (RT:=smooth_runtime) smooth_env "cloudscale/v10" "dev" (λ _, "NaN")
    (λ _, "") (λ _, "") an_invocation true () _ _ E ltac:(done)) as (rs & fs & _ & _ & c & mm & mt & ct & Hw & _).
  eexists _, c, mm, mt, ct. split; [exact Hw|exact E].
Defined.
