(* ===== verification/ReleaseTool.v ===== *)
(** * The release check as a process (main of src/hack/verify-release-metadata/main.go)

    The tool's two flags, read by the parser of CommandLine.v, and the exits that
    [flag.Parse] makes, around the check of Release.v. What imported packages define
    on [flag.CommandLine] is a parameter, as is the usage text. *)

From S2P Require Export CommandLine Release.

#[local] Open Scope Z_scope.
#[local] Open Scope go_scope.

(** The variables of the flags. *)
Record ToolFlags := mkToolFlags { tag : string; metadataPath : string }.

Definition set_tag (v : string) (f : ToolFlags) : ToolFlags := mkToolFlags v (metadataPath f).
Definition set_metadataPath (v : string) (f : ToolFlags) : ToolFlags := mkToolFlags (tag f) v.

Definition toolFlags : list (Flag ToolFlags) :=
  [StringVar set_tag "tag" ""; StringVar set_metadataPath "metadata" "metadata.yaml"].

Section tool.
Context {O : Type} (zeroO : O) (imported : list (Flag O)) (usage : string).
Context (yaml_ToJSON : string → Res string) (json_Unmarshal : string → Res providerMetadata).
Context (ReadFile : string → Res string).

Definition definedFlags : list (Flag (ToolFlags * O)) := map onSnd imported ++ map onFst toolFlags.
Definition startFlags : ToolFlags * O := defaults definedFlags (mkToolFlags "" "", zeroO).

(** The flags are defined, which may panic, and read; on an error [flag.Parse] writes
    the message, if there is one, and the usage, and ends the process. *)
Definition main (args : list string) : Outcome :=
  match define definedFlags with
  | None => mkOutcome "" ("panic: flag redefined" +:+ newline) 2
  | Some fs =>
      match Parse fs startFlags args with
      | ParseFailed ErrHelp => mkOutcome "" usage 0
      | ParseFailed (failf msg) => mkOutcome "" (msg +:+ newline +:+ usage) 2
      | Parsed (f, _) _ => mainParsed yaml_ToJSON json_Unmarshal ReadFile (tag f) (metadataPath f)
      end
  end.

(** *** What it reads *)

(** Imported packages name their flags well, and leave the two names alone. *)
Context (named : Forall well_named imported) (distinct : NoDup (names imported)).
Context (apart : ∀ fl, fl ∈ imported → Flag_Name fl ∉ names toolFlags).

Lemma names_definedFlags : names definedFlags = names imported ++ names toolFlags.
Proof. unfold names, definedFlags. by rewrite fmap_app, <- !list_fmap_compose. Qed.

Lemma definedFlags_defined : define definedFlags = Some definedFlags ∧ NoDup (names definedFlags).
Proof.
  assert (NoDup (names definedFlags)) as Hnd.
  { rewrite names_definedFlags. apply NoDup_app. split_and!; [done| |by apply (bool_decide_unpack _)].
    intros n (fl & -> & Hin)%list_elem_of_fmap. by apply apart. }
  split; [|done]. apply define_all; [|done]. unfold definedFlags. rewrite Forall_app, !Forall_map.
  split; [exact named|]. by repeat constructor.
Qed.

(** The defaults: no tag, and the file of the working directory. *)
Lemma startFlags_are : ∃ o, startFlags = (mkToolFlags "" "metadata.yaml", o).
Proof.
  assert (∀ (fls : list (Flag O)) f o, ∃ o', defaults (T:=ToolFlags * O) (map onSnd fls) (f, o) = (f, o')) as Ho.
  { induction fls as [|fl fls IH]; intros f o; [by exists o|]. apply IH. }
  unfold startFlags, definedFlags, defaults. rewrite foldl_app.
  destruct (Ho imported (mkToolFlags "" "") zeroO) as [o Eo]. unfold defaults in Eo. rewrite Eo. by exists o.
Qed.

(** C39. The release check, from its arguments to its exit code, accepts what it
    should. It exits with code 0 exactly when help was asked for, or the arguments are
    settings of defined flags that give a tag and a file - no tag and metadata.yaml
    unless set - such that the file can be read, the tag is printed from three numbers,
    as [vMAJOR.MINOR.PATCH] without leading zeros, with an optional pre-release and
    build part, the major and the minor version fit a signed 64-bit integer, and the
    decoded metadata lists that series: reading back the printed numbers loses
    nothing. It exits with code 2 exactly when the arguments are refused, and
    otherwise with code 1; on a code other than 0 there is a message on the standard
    error and nothing on the standard output. *)
Theorem main_accepts args :
  let outcome := main args in
  let parsed := Parse definedFlags startFlags args in
  (ExitCode outcome = 0%Z ↔
   parsed = ParseFailed ErrHelp ∨
   ∃ settings given tail rest f others,
     (args = given ++ tail ∧ spelling definedFlags settings given ∧ stops tail rest ∧
      assignAll settings startFlags = Ok (f, others)) ∧
     ∃ (major minor patch : N) suffix metadataYAML metadataJSON metadata,
       ReadFile (metadataPath f) = Ok metadataYAML ∧
       tag f = tag_text (pretty major) (pretty minor) (pretty patch) suffix ∧ version_suffix suffix ∧
       (major < 2 ^ 63)%N ∧ (minor < 2 ^ 63)%N ∧
       yaml_ToJSON metadataYAML = Ok metadataJSON ∧ json_Unmarshal metadataJSON = Ok metadata ∧
       mkReleaseSeries (Z.of_N major) (Z.of_N minor) ∈ providerMetadata_ReleaseSeries metadata) ∧
  (ExitCode outcome = 2%Z ↔ ∃ msg, parsed = ParseFailed (failf msg)) ∧
  (ExitCode outcome ≠ 0%Z →
     (ExitCode outcome = 1%Z ∨ ExitCode outcome = 2%Z) ∧ Stdout outcome = "" ∧ Stderr outcome ≠ "") ∧
  ∃ others, startFlags = (mkToolFlags "" "metadata.yaml", others).
Proof.
  destruct definedFlags_defined as [Hdef Hnd]. unfold main. rewrite Hdef. cbv zeta.
  pose proof (λ t' rest, Parse_spelling definedFlags startFlags args t' rest Hnd) as Hp.
  destruct (Parse definedFlags startFlags args) as [[f others] rest|[|msg]].
  - destruct (mainParsed_accepts yaml_ToJSON json_Unmarshal ReadFile (tag f) (metadataPath f)) as [H0 H1].
    destruct (proj1 (Hp (f, others) rest) eq_refl) as (settings & given & tail & Hargs).
    split_and!; [split|..].
    + intros (ma & mi & pa & sf & y & j & md & H)%H0. right.
      exists settings, given, tail, rest, f, others. split; [exact Hargs|]. by exists ma, mi, pa, sf, y, j, md.
    + intros [[=]|(st & gv & tl & rs & f' & o' & Hargs' & H)]. apply H0.
      assert (Parsed (f, others) rest = Parsed (f', o') rs) as [= <- <- <-]; [|exact H].
      apply Hp. by exists st, gv, tl.
    + split; [|by intros [? [=]]]. intros H2. destruct H1 as [H1 _]; [by rewrite H2|]. congruence.
    + intros Hne. destruct (H1 Hne) as (-> & ? & ?). split; [by left|done].
    + apply startFlags_are.
  - simpl. split_and!; [split; [by left|done]|split; [done|by intros [? [=]]]|done|apply startFlags_are].
  - simpl. split_and!; [split; [done|]|split; [by eauto|done]| |apply startFlags_are].
    + intros [[=]|(st & gv & tl & rs & f' & o' & Hargs' & _)].
      assert (ParseFailed (failf msg) = Parsed (f', o') rs) as [=]. apply Hp. by exists st, gv, tl.
    + intros _. split; [by right|]. split; [done|]. by destruct msg.
Qed.
End tool.

(** ** Runs on a concrete file *)

Definition demo_file (path : string) : Res string :=
  if path == "metadata.yaml" then Ok "" else Err (errorString "no such file").
Definition demo_tool : list string → Outcome := main () [] "Usage" Ok one_series demo_file.

Example tool_accepts : demo_tool ["-tag=v0.3.12"] =
  mkOutcome ("Verified that metadata.yaml contains the release series for v0.3.12" +:+ newline) "" 0.
Proof. vm_compute. reflexivity. Qed.
Example tool_other_file : ExitCode (demo_tool ["-tag"; "v0.3.12"; "--metadata"; "other.yaml"]) = 1.
Proof. vm_compute. reflexivity. Qed.
Example tool_help : demo_tool ["-h"; "-tag=x"] = mkOutcome "" "Usage" 0.
Proof. vm_compute. reflexivity. Qed.
Example tool_refuses : ExitCode (demo_tool ["-tag=v0.3.12"; "-verbose"]) = 2.
Proof. vm_compute. reflexivity. Qed.

Lemma main_accepts_witness :
  ∃ settings given tail rest f (others : ()),
    ["-tag=v0.3.12"] = given ++ tail ∧ spelling (definedFlags []) settings given ∧ stops tail rest ∧
    assignAll settings (startFlags () []) = Ok (f, others) ∧ ∃ yaml, demo_file (metadataPath f) = Ok yaml.
Proof.
  destruct (main_accepts () [] "Usage" Ok one_series demo_file) with (args := ["-tag=v0.3.12"]) as [[H _] _].
  - constructor.
  - constructor.
  - intros fl Hin. by apply not_elem_of_nil in Hin.
  - destruct H as [H|(settings & given & tail & rest & f & o & (H1 & H2 & H3 & H4) & _ & _ & _ & _ & yaml & _ & _ & Hy & _)].
    + vm_compute. reflexivity.
    + exfalso. revert H. vm_compute. discriminate.
    + exists settings, given, tail, rest, f, o. split; [exact H1|]. split; [exact H2|]. split; [exact H3|].
      split; [exact H4|]. by exists yaml.
Defined.
