(* ===== verification/Watching.v ===== *)
(** * Wake-ups
    (the mapping functions of src/internal/controller and the watches that
    SetupWithManager registers)

    A reconcile that ends without asking for another turn relies on an event to be
    woken. The machine controller waits so for its cluster, and the cluster controller
    for its control plane machines; this file shows that the mapping of the events
    they wait for leads back to them. *)

From S2P Require Startup.
From S2P Require Export ClusterCtl MachineCtl.

(** ** What a listing by namespace and labels shows of what is stored *)

Section listing.
Context {A : Type} (namespace : A → string) (labels : A → gmap string string).

Definition selected (ns : string) (sel : gmap string string) (x : A) : Prop :=
  namespace x = ns ∧ sel ⊆ labels x.

(** controller-runtime's List with InNamespace and MatchingLabels *)
Definition lists (list_fn : string → gmap string string → Res (list A)) (stored : list A) : Prop :=
  ∀ ns sel, ∃ l, list_fn ns sel = Ok l ∧ ∀ x, x ∈ l ↔ x ∈ stored ∧ selected ns sel x.

Lemma selected_label ns k v x : selected ns {[ k := v ]} x ↔ namespace x = ns ∧ labels x !! k = Some v.
Proof. unfold selected. by rewrite map_singleton_subseteq_l. Qed.
End listing.

Definition cluster_namespace (c : CloudscaleCluster) : string := ObjectMeta_Namespace (CloudscaleCluster_Meta c).
Definition cluster_labels (c : CloudscaleCluster) : gmap string string :=
  ObjectMeta_Labels (CloudscaleCluster_Meta c).
Definition cluster_key (c : CloudscaleCluster) : string * string :=
  (ObjectMeta_Name (CloudscaleCluster_Meta c), cluster_namespace c).
Definition machine_namespace (m : CloudscaleMachine) : string := ObjectMeta_Namespace (CloudscaleMachine_Meta m).
Definition machine_labels (m : CloudscaleMachine) : gmap string string :=
  ObjectMeta_Labels (CloudscaleMachine_Meta m).

(** ** The mappings *)

Section mappings.
Context `{P : Platform}.

(** A machine's event requests exactly the clusters of its namespace with its cluster
    label, if it is a control plane machine. *)
Lemma machine_event_requests m list_clusters stored req :
  lists cluster_namespace cluster_labels list_clusters stored →
  req ∈ cloudscaleMachineToCluster (Some m) list_clusters ↔
  is_Some (machine_labels m !! MachineControlPlaneLabel) ∧
  ∃ name c, machine_labels m !! ClusterNameLabel = Some name ∧ c ∈ stored ∧ req = cluster_key c ∧
    cluster_namespace c = machine_namespace m ∧ cluster_labels c !! ClusterNameLabel = Some name.
Proof.
  intros Hl. unfold cloudscaleMachineToCluster. fold (machine_labels m) (machine_namespace m).
  destruct (machine_labels m !! MachineControlPlaneLabel); [|split; [by intros ?%not_elem_of_nil|by intros [[] _]]].
  destruct (machine_labels m !! ClusterNameLabel) as [name|];
    [|split; [by intros ?%not_elem_of_nil|by intros (_ & ? & ? & [=] & _)]].
  destruct (Hl (machine_namespace m) {[ ClusterNameLabel := name ]}) as (l & -> & Hin).
  rewrite list_elem_of_fmap. split.
  - intros (c & -> & [Hc [Hns Hlab]%selected_label]%Hin). split; [done|]. by exists name, c.
  - intros (_ & ? & c & [= <-] & Hc & -> & Hns & Hlab). exists c. split; [done|].
    apply Hin. split; [done|]. by apply selected_label.
Qed.

(** A cluster's event requests exactly the CloudscaleMachines of its owner's machines,
    unless it is being deleted. *)
Lemma cluster_event_requests c owner list_machines stored req :
  lists Machine_Namespace Machine_Labels list_machines stored →
  req ∈ cloudscaleClusterToCloudscaleMachines (Some c) owner list_machines ↔
  ObjectMeta_DeletionTimestamp (CloudscaleCluster_Meta c) = None ∧
  ∃ cluster x, owner (CloudscaleCluster_Meta c) = Ok (Some cluster) ∧ x ∈ stored ∧
    req = (Machine_InfrastructureRef_Name x, Machine_Namespace x) ∧
    Machine_Namespace x = Cluster_Namespace cluster ∧
    Machine_Labels x !! ClusterNameLabel = Some (Cluster_Name cluster) ∧
    Machine_InfrastructureRef_Kind x = "CloudscaleMachine".
Proof.
  intros Hl. unfold cloudscaleClusterToCloudscaleMachines.
  destruct (ObjectMeta_DeletionTimestamp _); [split; [by intros ?%not_elem_of_nil|by intros [[=] _]]|].
  destruct (owner _) as [[cluster|]|e]; [|split; [by intros ?%not_elem_of_nil|by intros (_ & ? & ? & [=] & _)]..].
  destruct (Hl (Cluster_Namespace cluster) {[ ClusterNameLabel := Cluster_Name cluster ]}) as (l & -> & Hin).
  rewrite list_elem_of_fmap. split.
  - intros (x & -> & [Hk [Hx [Hns Hlab]%selected_label]%Hin]%list_elem_of_filter).
    split; [done|]. by exists cluster, x.
  - intros (_ & ? & x & [= <-] & Hx & -> & Hns & Hlab & Hk). exists x. split; [done|].
    apply list_elem_of_filter. split; [done|]. apply Hin. split; [done|]. by apply selected_label.
Qed.

(** The cluster controller hears of every machine it looks at for its pool members. *)
Theorem member_events_wake_cluster sc c m list_clusters stored :
  lists cluster_namespace cluster_labels list_clusters stored →
  c ∈ stored → cluster_labels c !! ClusterNameLabel = Some (Cluster_Name (scope_Cluster sc)) →
  selected machine_namespace machine_labels (cluster_namespace c) (controlPlaneLabels sc) m →
  cluster_key c ∈ cloudscaleMachineToCluster (Some m) list_clusters.
Proof.
  intros Hl Hc Hlab [Hns Hsel]. apply (machine_event_requests _ _ _ _ Hl).
  rewrite map_subseteq_spec in Hsel. split.
  - exists "". apply Hsel. unfold controlPlaneLabels. by simplify_map_eq.
  - exists (Cluster_Name (scope_Cluster sc)), c. split_and!; [|done..].
    apply Hsel. unfold controlPlaneLabels. by simplify_map_eq.
Qed.
End mappings.

(** ** A machine that waits for its cluster *)

Section waiting.
Context `{P : Platform}.

(** What a reconcile of [req] reads when it finds the machine's owner and cluster, and
    the machine is not paused. *)
Definition finds (req : string * string) (w : World) (m : CloudscaleMachine) (machine : Machine)
    (cluster : Cluster) (w' : World) : Prop :=
  ∃ w1 w2, kube_GetCloudscaleMachine req w = (Ok m, w1) ∧
    util_GetOwnerMachine (CloudscaleMachine_Meta m) w1 = (Ok (Some machine), w2) ∧
    util_GetClusterFromMetadata machine w2 = (Ok cluster, w') ∧
    annotations_IsPaused cluster (CloudscaleMachine_Meta m) = false.

Definition infrastructure_key (m : CloudscaleMachine) (cluster : Cluster) : string * string :=
  (Cluster_InfrastructureRef_Name cluster, machine_namespace m).

(** The CloudscaleCluster is not there, or not provisioned. *)
Definition not_provisioned (r : Res CloudscaleCluster) : Prop :=
  match r with Ok cc => clusterProvisioned cc = false | Err _ => True end.

(** The objects refer to each other as Cluster API sets them up: the machine's
    infrastructure is the reconciled object, and it carries its cluster's label in its
    cluster's namespace. *)
Definition linked (req : string * string) (machine : Machine) (cluster : Cluster) : Prop :=
  Machine_InfrastructureRef_Kind machine = "CloudscaleMachine" ∧
  req = (Machine_InfrastructureRef_Name machine, Machine_Namespace machine) ∧
  Machine_Namespace machine = Cluster_Namespace cluster ∧
  Machine_Labels machine !! ClusterNameLabel = Some (Cluster_Name cluster).

(** ** What a controller makes of an event of a CloudscaleCluster

    controller-runtime hands an event to the handler of a watch when it passes the
    filters of the controller and then the predicates of the watch. What the
    predicates and the mappings of cluster-api answer is a parameter. *)

Section events.
Context (passes : Startup.Predicate → CloudscaleCluster → bool).
Context (mapped : Startup.MapFunc → CloudscaleCluster → list (string * string)).

Definition watch_requests (ctl : Startup.Controller) (cc : CloudscaleCluster) (w : Startup.Watch)
    : list (string * string) :=
  if (Startup.Watch_Kind w == "CloudscaleCluster")
     && forallb (λ p, passes p cc) (Startup.EventFilters ctl ++ Startup.Watch_Predicates w)
  then mapped (Startup.Watch_Map w) cc else [].

Definition event_requests (ctl : Startup.Controller) (cc : CloudscaleCluster) : list (string * string) :=
  Startup.Watches ctl ≫= watch_requests ctl cc.

(** The machine controller has one watch for these events, behind its three filters. *)
Lemma machine_event_requests_iff r cc req :
  req ∈ event_requests (Startup.machineController r) cc ↔
  passes Startup.ResourceNotPaused cc = true ∧
  passes (Startup.ResourceHasFilterLabel (Startup.WatchFilter r)) cc = true ∧
  passes Startup.ResourceIsNotExternallyManaged cc = true ∧
  req ∈ mapped Startup.cloudscaleClusterToCloudscaleMachines cc.
Proof.
  unfold event_requests, watch_requests. simpl. rewrite !app_nil_r.
  destruct (passes Startup.ResourceNotPaused cc), (passes (Startup.ResourceHasFilterLabel _) cc),
    (passes Startup.ResourceIsNotExternallyManaged cc); simpl; set_solver.
Qed.
End events.

(** The mapping of the machine controller is its own function. *)
Definition maps_clusters (mapped : Startup.MapFunc → CloudscaleCluster → list (string * string))
    (owner : ObjectMeta → Res (option Cluster))
    (list_machines : string → gmap string string → Res (list Machine)) : Prop :=
  ∀ cc, mapped Startup.cloudscaleClusterToCloudscaleMachines cc =
        cloudscaleClusterToCloudscaleMachines (Some cc) owner list_machines.

(** C20. No wake-up is lost. A reconcile of a machine that is not paused and whose
    CloudscaleCluster is missing or not provisioned makes no call but reads, so
    nothing is persisted, and ends without an error and without asking for another
    turn; that holds for a machine being deleted, too, whose finalizer stays. The
    controller watches the CloudscaleCluster: an event of it, while it is not being
    deleted and belongs to the machine's cluster, requests that machine again
    exactly when it passes the three filters of the controller - it is not paused,
    carries the label of the watch filter, and is not externally managed. *)
Theorem waiting_machine_is_woken r req s m machine cluster w' :
  finds req (world s) m machine cluster w' →
  not_provisioned (fst (kube_GetCloudscaleCluster (infrastructure_key m cluster) w')) →
  linked req machine cluster →
  result (MachineCtl.Reconcile req) s = Ok emptyResult ∧
  Forall (λ e, ∃ key answer, e = EKubeGet key answer) (calls_of (MachineCtl.Reconcile req) s) ∧
  ∀ passes mapped cc owner list_machines stored,
    maps_clusters mapped owner list_machines →
    lists Machine_Namespace Machine_Labels list_machines stored → machine ∈ stored →
    ObjectMeta_DeletionTimestamp (CloudscaleCluster_Meta cc) = None →
    owner (CloudscaleCluster_Meta cc) = Ok (Some cluster) →
    req ∈ event_requests passes mapped (Startup.machineController r) cc ↔
    passes Startup.ResourceNotPaused cc = true ∧
    passes (Startup.ResourceHasFilterLabel (Startup.WatchFilter r)) cc = true ∧
    passes Startup.ResourceIsNotExternallyManaged cc = true.
Proof.
  intros (w1 & w2 & Hm & Ho & Hc & Hp) Hnp (Hk & Hreq & Hns & Hlab).
  assert (∃ w evs, MachineCtl.Reconcile req s = (Ok emptyResult, mkSt (obj s) w (log s ++ evs)) ∧
          Forall (λ e, ∃ key answer, e = EKubeGet key answer) evs) as (w & evs & Hrun & HF).
  { unfold MachineCtl.Reconcile, bind, try, call. rewrite Hm. simpl. rewrite Ho. simpl. rewrite Hc. simpl.
    unfold with_obj, MachineCtl.reconcileOwned, bind, get, modify, try, call, ret. simpl. rewrite Hp. simpl.
    unfold infrastructure_key, machine_namespace in Hnp.
    destruct (kube_GetCloudscaleCluster _ w') as [[cc|e] w3]; simpl in *; [rewrite Hnp|]; simpl;
      (eexists _, _; split; [by rewrite <- !app_assoc|by repeat constructor; eauto]). }
  split_and!.
  - unfold result. by rewrite Hrun.
  - rewrite (calls_of_run _ _ evs); [done|]. unfold exec at 1. by rewrite Hrun.
  - intros passes mapped cc owner list_machines stored Hmap Hl Hin Hdel Hown.
    rewrite machine_event_requests_iff, Hmap, (cluster_event_requests _ _ _ _ _ Hl).
    split; [tauto|]. intros (? & ? & ?). split_and!; [done..|]. exists cluster, machine. by split_and!.
Qed.
End waiting.
