(* ===== verification/Polling.v ===== *)
(** * When a reconcile asks to be called again
    (the [ctrl.Result]s of every function of src/internal/controller)

    A bound on all waiting times of both controllers: an answer either asks for no
    further turn or for one within half a minute, and never immediately. *)

From S2P Require Export ClusterCtl MachineCtl.

(** ** A rule for what a run returns when it succeeds *)

Section answers.
Context {W Ev O : Type}.
Abbreviation M := (GoM W Ev O).

Definition answers {A} (Φ : A → Prop) (m : M A) : Prop := ∀ s a, result m s = Ok a → Φ a.

(** An early return answers, a normal end does not. *)
Definition flows {A} (Φ : Result → Prop) (f : flow A) : Prop :=
  match f with Return r => Φ r | Next _ => True end.

Lemma answers_ret {A} (Φ : A → Prop) a : Φ a → answers Φ (ret a).
Proof. by intros H s a' [= <-]. Qed.
Lemma answers_throw {A} (Φ : A → Prop) e : answers Φ (throw e).
Proof. by intros s a. Qed.
Lemma answers_bind {A B} (Ψ : A → Prop) (Φ : B → Prop) (m : M A) k :
  answers Ψ m → (∀ a, Ψ a → answers Φ (k a)) → answers Φ (bind m k).
Proof.
  intros Hm Hk s b. specialize (Hm s). unfold result, bind in *.
  destruct (m s) as [[a|e] s1]; simpl in *; [|done]. by apply Hk, Hm.
Qed.
Lemma answers_then {A B} (Φ : B → Prop) (m : M A) k : (∀ a, answers Φ (k a)) → answers Φ (bind m k).
Proof. intros Hk. by apply (answers_bind (λ _, True)). Qed.
Lemma answers_wrap {A} (Φ : A → Prop) pre (m : M A) : answers Φ m → answers Φ (wrap pre m).
Proof. intros H s a. specialize (H s). unfold result, wrap in *. destruct (m s) as [[]]; simpl in *; [apply H|done]. Qed.
Lemma answers_deferred {A} (Φ : A → Prop) f (m : M A) : answers Φ m → answers Φ (deferred f m).
Proof. intros H s a. specialize (H s). unfold result, deferred in *. destruct (m s) as [r s1]. apply H. Qed.
Lemma answers_returning (Φ : Result → Prop) (m : M Result) : answers Φ m → answers (flows Φ) (returning m).
Proof.
  intros H. unfold returning. apply (answers_bind Φ); [done|]. intros r Hr.
  destruct (IsZero r); simpl; by apply answers_ret.
Qed.
Lemma answers_bind_flow {A} Φ (m : M (flow A)) k :
  answers (flows Φ) m → (∀ a, answers Φ (k a)) → answers Φ (bind_flow m k).
Proof.
  intros Hm Hk. unfold bind_flow. apply (answers_bind (flows Φ)); [done|].
  intros [r|a] Hf; [by apply answers_ret|apply Hk].
Qed.
Lemma answers_foreach {A} Φ (l : list A) body :
  (∀ x, answers (flows Φ) (body x)) → answers (flows Φ) (foreach l body).
Proof.
  intros Hb. induction l as [|x l IH]; [by apply answers_ret|].
  apply (answers_bind (flows Φ)); [apply Hb|]. intros [r|[]] Hf; [by apply answers_ret|done].
Qed.
Lemma answers_foldM {A B} (Φ : B → Prop) (f : B → A → M B) l b :
  (∀ b x, Φ b → answers Φ (f b x)) → Φ b → answers Φ (foldM f l b).
Proof.
  intros Hf. revert b. induction l as [|x l IH]; intros b Hb; [by apply answers_ret|].
  apply (answers_bind Φ); [by apply Hf|]. intros b'. apply IH.
Qed.
Lemma answers_with_obj {O' A} (Φ : A → Prop) (o : O') (m : GoM W Ev O' A) :
  (∀ s a, result m s = Ok a → Φ a) → answers Φ (with_obj o m).
Proof.
  intros H s a. specialize (H (mkSt o (world s) (log s))). unfold result, with_obj in *.
  destruct (m _) as [r s1]. apply H.
Qed.
End answers.

Ltac answer_step :=
  lazymatch goal with
  | |- answers _ (ret _) => apply answers_ret
  | |- answers _ (throw _) => apply answers_throw
  | |- answers _ (bind _ _) => apply answers_then; intros ?
  | |- answers _ (wrap _ _) => apply answers_wrap
  | |- answers _ (deferred _ _) => apply answers_deferred
  | |- answers _ (returning _) => apply answers_returning
  | |- answers _ (bind_flow _ _) => apply answers_bind_flow; [|intros ?]
  | |- answers _ (foreach _ _) => apply answers_foreach; intros ?
  | |- answers _ (let _ := _ in _) => progress cbv zeta
  | |- answers _ (match ?x with _ => _ end) => destruct x eqn:?
  end.
Ltac answer := repeat (answer_step; simpl).

(** ** The bound *)

(** No further turn, or one after at least 5 and at most 30 seconds. *)
Definition polls (r : Result) : Prop :=
  r = emptyResult ∨ (5 * Second ≤ RequeueAfter r ≤ 30 * Second)%Z.

Lemma polls_empty : polls emptyResult.
Proof. by left. Qed.
Lemma polls_requeue n : (5 ≤ n ≤ 30)%Z → polls (requeue n).
Proof. intros. right. unfold requeue, Second. simpl. lia. Qed.

Ltac polled :=
  first [exact polls_empty|exact I|apply (polls_requeue 5); lia|apply (polls_requeue 10); lia
        |apply (polls_requeue 30); lia|done].

Section cluster_polling.
Context `{P : Platform}.
Implicit Types (sc : ClusterScope).

Lemma reconcileNetwork_polls sc : answers polls (reconcileNetwork sc).
Proof.
  unfold reconcileNetwork, reconcileNetworks, reconcileOneNetwork, reconcileManagedNetwork, createNetwork,
    createSubnet.
  answer; polled.
Qed.

Lemma lowerResult_polls r r' : polls r → polls r' → polls (lowerResult r r').
Proof. unfold lowerResult. by destruct (_ && _). Qed.

Lemma requeueOnTimeout_polls e r : requeueOnTimeout e = Some r → polls r.
Proof. unfold requeueOnTimeout. destruct (negb _); intros [= <-]. polled. Qed.

Lemma reconcileRouterInterfaces_polls sc spec router : answers polls (reconcileRouterInterfaces sc spec router).
Proof.
  unfold reconcileRouterInterfaces, reconcileRouterInterface, createRouterInterface.
  answer; first [by eapply requeueOnTimeout_polls|polled].
Qed.

Lemma reconcileRouter_polls sc spec : answers polls (reconcileRouter sc spec).
Proof.
  unfold reconcileRouter. apply (answers_bind (λ x, polls x.2)).
  - unfold ensureManagedRouter. answer; first [by eapply requeueOnTimeout_polls|polled].
  - intros [router res] Hres. simpl in *. answer; [done|polled|].
    apply reconcileRouterInterfaces_polls.
Qed.

Lemma reconcileRouters_polls sc : answers polls (reconcileRouters sc).
Proof.
  unfold reconcileRouters, reconcileRoutersLoop. answer.
  apply answers_foldM; [|polled]. intros r spec Hr.
  apply (answers_bind polls); [apply answers_wrap, reconcileRouter_polls|].
  intros r' Hr'. by apply answers_ret, lowerResult_polls.
Qed.

Lemma ensureOrCreate_polls {Req T} k (svc : Service World Req T) uuid mk name id setID request created :
  answers polls (ensureOrCreate k svc uuid mk name id setID request created).
Proof. unfold ensureOrCreate. answer; polled. Qed.

Lemma reconcileLBMembers_polls sc : answers polls (reconcileLBMembers sc).
Proof. unfold reconcileLBMembers, ensureMember, pruneMember, createLoadBalancerMember. answer; polled. Qed.

Definition outcome_polls (o : LBOutcome) : Prop := polls o.1.2.

Lemma stage_polls pending msg m k :
  answers polls m → answers outcome_polls k → answers outcome_polls (stage pending msg m k).
Proof.
  intros Hm Hk. unfold stage. apply (answers_bind polls); [by apply answers_wrap|].
  intros r Hr. destruct (IsZero r); [done|]. by apply answers_ret.
Qed.

Lemma reconcileLBChildren_polls sc lb pending : answers outcome_polls (reconcileLBChildren sc lb pending).
Proof.
  unfold reconcileLBChildren, reconcileLBPool, reconcileLBListener, reconcileLBHealthMonitor.
  repeat apply stage_polls; answer; auto using ensureOrCreate_polls, reconcileLBMembers_polls; polled.
Qed.

Lemma reconcileLoadBalancer_polls sc : answers (λ x, polls x.2) (reconcileLoadBalancer sc).
Proof.
  unfold reconcileLoadBalancer. apply answers_then. intros c.
  destruct (negb _); [answer; polled|]. apply (answers_bind outcome_polls).
  - apply answers_deferred. unfold reconcileLBEnabled.
    apply stage_polls; [unfold reconcileLB; answer; apply ensureOrCreate_polls|].
    answer; auto using reconcileLBChildren_polls; unfold outcome_polls; simpl; polled.
  - intros [[st r] msg] Hr. by apply answers_ret.
Qed.

Lemma reconcileFloatingIP_polls sc : answers polls (reconcileFloatingIP sc).
Proof. unfold reconcileFloatingIP, reconcileManagedFloatingIP. answer; polled. Qed.

Lemma reconcileNormal_polls sc : answers polls (ClusterCtl.reconcileNormal sc).
Proof.
  unfold ClusterCtl.reconcileNormal, ClusterCtl.reconcileNormalBody.
  apply answers_deferred.
  apply answers_bind_flow; [by apply answers_returning, answers_wrap, reconcileNetwork_polls|intros _].
  apply answers_bind_flow; [by apply answers_returning, answers_wrap, reconcileRouters_polls|intros _].
  apply (answers_bind (λ x, polls x.2)); [apply answers_wrap, reconcileLoadBalancer_polls|].
  intros [lb r] Hr. answer; auto using reconcileFloatingIP_polls; polled.
Qed.

Lemma cluster_closing_polls snapshot (m : CM Result) :
  answers polls m → answers polls (ClusterCtl.closing snapshot m).
Proof.
  intros H s r. specialize (H s). unfold result, ClusterCtl.closing in *.
  destruct (m s) as [r1 s1]. destruct (ClusterScope_Close _ _ _ s1) as [[[]|e] s2]; simpl in *.
  - destruct r1; apply H.
  - destruct r1; [done|apply H].
Qed.

Lemma cluster_polls req : answers polls (ClusterCtl.Reconcile req).
Proof.
  assert (∀ cluster, answers polls (ClusterCtl.reconcileOwned cluster)) as H.
  { intros cluster. unfold ClusterCtl.reconcileOwned, ClusterCtl.reconcileDelete, retryOn.
    answer; try polled. apply cluster_closing_polls.
    answer; try polled; apply reconcileNormal_polls. }
  unfold ClusterCtl.Reconcile. answer; try polled. apply answers_with_obj, H.
Qed.
End cluster_polling.

Section machine_polling.
Context `{P : Platform}.
Implicit Types (ms : MachineScope).

Lemma reconcileServerGroup_polls ms : answers polls (reconcileServerGroup ms).
Proof. unfold reconcileServerGroup, reconcileServerGroupBody, listOrCreateGroup. answer; polled. Qed.

Lemma reconcileServer_polls ms : answers polls (reconcileServer ms).
Proof.
  unfold reconcileServer. apply (answers_bind (λ x, polls x.1)); [|by intros [r o] Hr; apply answers_ret].
  apply answers_deferred. unfold reconcileServerBody, createServer, adoptServer. answer; simpl; repeat case_match; try polled.
Qed.

Lemma machine_closing_polls snapshot (m : MM Result) :
  answers polls m → answers polls (MachineCtl.closing snapshot m).
Proof.
  intros H s r. specialize (H s). unfold result, MachineCtl.closing in *.
  destruct (m s) as [r1 s1]. destruct (MachineScope_Close _ _ _ s1) as [[[]|e] s2]; simpl in *.
  - destruct r1; apply H.
  - destruct r1; [done|apply H].
Qed.

Lemma machine_normal_polls ms : answers polls (MachineCtl.reconcileNormal ms).
Proof.
  unfold MachineCtl.reconcileNormal, MachineCtl.reconcileNormalBody. apply answers_deferred.
  destruct (Machine_DataSecretName _); [|answer; polled].
  apply answers_then. intros m. apply answers_bind_flow.
  - destruct (CloudscaleMachineSpec_ServerGroup _); [|by apply answers_ret].
    apply answers_returning, reconcileServerGroup_polls.
  - intros _. apply (answers_bind polls); [apply answers_wrap, reconcileServer_polls|].
    intros r Hr. by answer.
Qed.

Lemma machine_polls req : answers polls (MachineCtl.Reconcile req).
Proof.
  assert (∀ machine cluster, answers polls (MachineCtl.reconcileOwned machine cluster)) as H.
  { intros machine cluster. unfold MachineCtl.reconcileOwned, MachineCtl.reconcileDelete.
    answer; try polled. apply machine_closing_polls. answer; try polled. apply machine_normal_polls. }
  unfold MachineCtl.Reconcile. answer; try polled. apply answers_with_obj, H.
Qed.
End machine_polling.

(** ** The property *)

Section polling_claim.
Context `{P : Platform}.

(** C22. Waiting is bounded. Whatever request either controller gets, in whatever
    state, an answer without an error asks for no further turn or for one within
    5 to 30 seconds: a controller never spins, and never puts a resource that is
    still being created, attached or deleted aside for longer. *)
Theorem reconcile_polls (req : string * string) (s : St World Event unit) (r : Result) :
  result (ClusterCtl.Reconcile req) s = Ok r ∨ result (MachineCtl.Reconcile req) s = Ok r →
  r = emptyResult ∨ (5 * Second ≤ RequeueAfter r ≤ 30 * Second)%Z.
Proof. intros [H|H]; [exact (cluster_polls req s r H)|exact (machine_polls req s r H)]. Qed.
End polling_claim.
