(* ===== verification/LookFirst.v ===== *)
(** * Looking before creating

    Answers get lost, status gets lost, and every controller starts over from
    what it reads. What keeps it from creating a resource twice is that it looks
    for it first. This file shows, for every call that either controller makes in
    a whole reconcile, that a creation comes after a listing, in the same
    reconcile, that covers the resource and did not show it; and that a pool
    member is updated or removed only after it was listed. *)

From S2P Require Export ClusterCtl MachineCtl.

(** ** What warrants a call *)

Definition tags_of (req : CreateRequest) : TagMap :=
  match req with
  | CNetwork r => NetworkCreateRequest_Tags r
  | CSubnet r => SubnetCreateRequest_Tags r
  | CRouter r => RouterCreateRequest_Tags r
  | CServer r => ServerRequest_Tags r
  | CServerGroup r => ServerGroupRequest_Tags r
  | CLoadBalancer r => LoadBalancerRequest_Tags r
  | CPool r => LoadBalancerPoolRequest_Tags r
  | CListener r => LoadBalancerListenerRequest_Tags r
  | CHealthMonitor r => LoadBalancerHealthMonitorRequest_Tags r
  | CFloatingIP r => FloatingIPCreateRequest_Tags r
  end.

(** [user] are the tags that the specification of the reconciled machine gives. *)
Section warrant.
Context (user : TagMap).

(** The calls before a call that warrant it. A creation: a listing of that kind,
    by tags that the new resource carries, that showed none. A server is looked up
    by the tag of its machine and is created with the tags of the specification
    and that one; so it carries what was looked up, unless the specification gives
    that key itself, which the webhook refuses. A cluster has server groups of
    several names, so the listing may show some, but none of the wanted name and
    zone. *)
Definition warrant_create (pre : list Event) (req : CreateRequest) : Prop :=
  match req with
  | CServerGroup r => ∃ tags groups,
      EGroupList tags (Ok groups) ∈ pre ∧ tags ⊆ ServerGroupRequest_Tags r ∧
      ∀ g, g ∈ groups → ¬ (ServerGroup_Name g = ServerGroupRequest_Name r ∧
                           ServerGroup_Zone g = ServerGroupRequest_Zone r)
  | CServer r => ∃ namespace cluster,
      let key := MachineTagKey cluster in
      let tags := {[ key := namespace +:+ "/" +:+ cluster +:+ "/" +:+ ServerRequest_Name r ]} in
      EList KServer tags (Ok []) ∈ pre ∧ ServerRequest_Tags r = user ∪ tags ∧
      (user !! key = None → tags ⊆ ServerRequest_Tags r)
  | _ => ∃ tags ids,
      EList (kind_of req) tags (Ok ids) ∈ pre ∧ tags ⊆ tags_of req ∧ Forall (λ id, id = "") ids
  end.

Definition warrant (pre : list Event) (e : Event) : Prop :=
  match e with
  | ECreate req _ => warrant_create pre req
  | EMemberCreate pool req _ => ∃ members,
      EMemberList pool (Ok members) ∈ pre ∧
      ∀ m, m ∈ members → LoadBalancerPoolMember_Name m ≠ LoadBalancerPoolMemberRequest_Name req
  | EMemberUpdate pool id _ _ | EMemberDelete pool id _ => ∃ members m,
      EMemberList pool (Ok members) ∈ pre ∧ m ∈ members ∧ LoadBalancerPoolMember_UUID m = id
  | _ => True
  end.

Lemma warrant_mono pre pre' e : pre ⊆ pre' → warrant pre e → warrant pre' e.
Proof.
  intros H. destruct e; simpl; try done.
  - destruct req; simpl; intros (x & y & Hin & ?); exists x, y; by split; [apply H|].
  - intros (ms & Hin & ?). exists ms. by split; [apply H|].
  - intros (ms & m & Hin & ?). exists ms, m. by split; [apply H|].
  - intros (ms & m & Hin & ?). exists ms, m. by split; [apply H|].
Qed.

(** Every call is warranted by [pre] and the calls before it. *)
Definition warranted (pre evs : list Event) : Prop :=
  ∀ i e, evs !! i = Some e → warrant (pre ++ take i evs) e.

Lemma warranted_app pre evs evs' :
  warranted pre evs → warranted (pre ++ evs) evs' → warranted pre (evs ++ evs').
Proof.
  intros H H' i e. destruct (decide (i < length evs)) as [Hlt|Hge].
  - rewrite lookup_app_l, take_app_le by lia. apply H.
  - rewrite lookup_app_r by lia. rewrite take_app_ge by lia. rewrite app_assoc. apply H'.
Qed.

Lemma warranted_mono pre pre' evs : pre ⊆ pre' → warranted pre evs → warranted pre' evs.
Proof.
  intros H Hw i e He. eapply warrant_mono; [|by apply Hw].
  intros x [Hx|Hx]%elem_of_app; apply elem_of_app; [left; by apply H|by right].
Qed.

Lemma warranted_one pre e : warrant pre e → warranted pre [e].
Proof. intros H [|i] e'; [|done]. intros [= <-]. by rewrite app_nil_r. Qed.

Lemma warranted_reads pre evs : Forall is_read evs → warranted pre evs.
Proof.
  rewrite Forall_forall. intros H i e He. specialize (H e (list_elem_of_lookup_2 _ _ _ He)).
  by destruct e.
Qed.

(** ** As a frame *)

Section guarded.
Context `{P : Platform} {O B : Type} (f : O → B) (b : B).
Abbreviation M := (GoM World Event O).
Abbreviation state := (St World Event O).

(** From an object with [f o = b], on which the requests depend: that stays, and
    every call is warranted. *)
Definition guarded (pre : list Event) : relation state := λ s s',
  f (obj s) = b → f (obj s') = b ∧ ∃ evs, log s' = log s ++ evs ∧ warranted pre evs.

Lemma guarded_silently pre s s' : f (obj s') = f (obj s) → log s' = log s → guarded pre s s'.
Proof.
  intros Ho Hl Hs. split; [congruence|]. exists []. rewrite app_nil_r. split; [done|]. intros i e. by rewrite lookup_nil.
Qed.

#[export] Instance guarded_preorder pre : PreOrder (guarded pre).
Proof.
  split; [by intros s; apply guarded_silently|].
  intros s1 s2 s3 H12 H23 Hs1. destruct (H12 Hs1) as (Hs2 & e1 & H1 & W1). destruct (H23 Hs2) as (Hs3 & e2 & H2 & W2).
  split; [done|]. exists (e1 ++ e2). rewrite H2, H1, app_assoc. split; [done|]. apply warranted_app; [done|].
  eapply warranted_mono; [|exact W2]. by apply list_subseteq_app_l.
Qed.

Lemma guarded_get {A} pre (k : O → M A) :
  (∀ o, f o = b → respects (guarded pre) (k o)) → respects (guarded pre) (bind get k).
Proof. intros H s Hs. rewrite exec_get. by apply H. Qed.
Lemma guarded_modify pre g : (∀ o, f (g o) = f o) → respects (guarded pre) (modify g).
Proof. intros H s. apply guarded_silently; [apply H|done]. Qed.
Lemma guarded_deferred {A} pre g (m : M A) :
  (∀ r o, f (g r o) = f o) → respects (guarded pre) m → respects (guarded pre) (deferred g m).
Proof. intros Hg H. apply respects_deferred; [apply _|done|]. intros r s. apply guarded_silently; [apply Hg|done]. Qed.
Lemma guarded_emit pre e : warrant pre e → respects (guarded pre) (emit e).
Proof. intros H s Hs. split; [done|]. exists [e]. split; [done|]. by apply warranted_one. Qed.
Lemma guarded_call {A} pre (c : World → Res A * World) ev :
  (∀ r, warrant pre (ev r)) → respects (guarded pre) (call c ev).
Proof. intros H. apply respects_call. intros s r w Hs. split; [done|]. exists [ev r]. split; [done|]. by apply warranted_one. Qed.

(** A read that leaves evidence about what it returned. *)
Definition looks {A} (seen : A → list Event → Prop) (m : M A) : Prop := ∀ s,
  f (obj s) = b → f (obj (exec m s)) = b ∧ ∃ evs, log (exec m s) = log s ++ evs ∧ Forall is_read evs ∧
    ∀ a, result m s = Ok a → ∃ ev, ev ⊆ evs ∧ seen a ev.

Lemma looks_call {A} (c : World → Res A * World) ev :
  (∀ r, is_read (ev r)) → looks (λ a evs, evs = [ev (Ok a)]) (call c ev).
Proof.
  intros H s Hs. unfold exec, result, call. destruct (c (world s)) as [r w]; simpl. split; [done|].
  exists [ev r]. split; [done|]. split; [by constructor|]. intros a ->. by eexists.
Qed.

Lemma looks_pure {A} (φ : A → Prop) (m : M A) :
  (∀ s, exec m s = s) → (∀ s a, f (obj s) = b → result m s = Ok a → φ a) → looks (λ a _, φ a) m.
Proof.
  intros He Hr s Hs. rewrite He. split; [done|]. exists []. rewrite app_nil_r. split_and!; [done..|].
  intros a Ha. exists []. split; [done|by apply (Hr s)].
Qed.

Lemma looks_wrap {A} seen pfx (m : M A) : looks seen m → looks seen (wrap pfx m).
Proof.
  intros H s Hs. destruct (H s Hs) as (Ho & evs & Hl & Hr & Hseen). unfold exec, result, wrap in *.
  destruct (m s) as [[a|e] s1]; simpl in *; (split; [done|]); exists evs; by split_and!.
Qed.

(** What is done after a look, with its evidence. *)
Lemma guarded_look {A A'} seen pre (m : M A) (k : A → M A') :
  looks seen m → (∀ a ev, seen a ev → respects (guarded (ev ++ pre)) (k a)) →
  respects (guarded pre) (bind m k).
Proof.
  intros Hm Hk s Hs. destruct (Hm s Hs) as (Ho & evs & Hl & Hr & Hseen). unfold exec, result, bind in *.
  destruct (m s) as [[a|e] s1]; simpl in *.
  - destruct (Hseen a eq_refl) as (ev & Hsub & Ha). destruct (Hk a ev Ha s1 Ho) as (Hs' & evs' & Hl' & Hw).
    unfold exec in Hs', Hl'. split; [done|]. exists (evs ++ evs'). rewrite Hl', Hl, app_assoc. split; [done|].
    apply warranted_app; [by apply warranted_reads|]. eapply warranted_mono; [|exact Hw].
    intros x [Hx|Hx]%elem_of_app; apply elem_of_app; [right; by apply Hsub|by left].
  - split; [done|]. exists evs. split; [done|]. by apply warranted_reads.
Qed.

(** Starting with a read, whose answer is known. *)
Lemma guarded_read {A A'} pre (c : World → Res A * World) ev (k : Res A → M A') s :
  (∀ r, is_read (ev r)) → respects (guarded pre) (k (fst (c (world s)))) →
  guarded pre s (exec (bind (try (call c ev)) k) s).
Proof.
  intros Hr Hk. unfold exec, bind, try, call in *. destruct (c (world s)) as [r w]. simpl in *.
  etrans; [|apply Hk]. intros Hs. split; [done|]. exists [ev r]. split; [done|].
  apply warranted_reads. by constructor.
Qed.

(** What the lookup of a resource has seen when it found none. *)
Lemma looks_ensureResource {Req T} k (svc : Service World Req T) uuid id name tags :
  looks (λ x ev, x.2 = "" → ∃ ids, EList k tags (Ok ids) ∈ ev ∧ Forall (λ id, id = "") ids)
    (ensureResource (O:=O) k svc uuid id name tags).
Proof.
  intros s Hs. destruct (ensureResource_ensured k svc uuid id name tags s) as (Ho & evs & Hl & He).
  split; [by rewrite Ho|]. exists evs. split; [done|].
  assert (∀ evs, not_found_by_id k id evs → Forall is_read evs) as Hpre.
  { intros pre [[_ ->]|(_ & e & _ & ->)]; by repeat constructor. }
  split.
  - destruct He; try (apply Forall_app; split; [by apply Hpre|]); by repeat constructor.
  - intros a Ha. exists evs. split; [done|]. intros Hid. rewrite Ha in He. inversion He; subst; simpl in *.
    + done.
    + eexists. split; [apply elem_of_app; right; by left|]. by constructor.
    + eexists. split; [apply elem_of_app; right; by left|]. by constructor.
Qed.
End guarded.
End warrant.

#[global] Arguments warrant : simpl never.

Lemma guarded_with_obj `{P : Platform} {O O' B A} user (f : O' → B) (o : O') pre (m : GoM World Event O' A) :
  respects (guarded user f (f o) pre) m → respects (guarded user (λ _, ()) () pre) (with_obj (O:=O) o m).
Proof.
  intros H s _. split; [done|]. destruct (H (mkSt o (world s) (log s)) eq_refl) as (_ & evs & Hl & Hw).
  exists evs. unfold exec, with_obj in *. by destruct (m _) as [r s1].
Qed.

(** A creation after the lookup of what is created. *)
Lemma warrant_created user (ev pre : list Event) req tags r :
  (∃ ids, EList (kind_of req) tags (Ok ids) ∈ ev ∧ Forall (λ id, id = "") ids) →
  kind_of req ≠ KServer → kind_of req ≠ KServerGroup → tags ⊆ tags_of req →
  warrant user (ev ++ pre) (ECreate req r).
Proof.
  intros (ids & Hin & Hids) Hs Hg Hc.
  assert (∃ tags ids, EList (kind_of req) tags (Ok ids) ∈ ev ++ pre ∧ tags ⊆ tags_of req ∧ Forall (λ id, id = "") ids).
  { exists tags, ids. split; [apply elem_of_app; by left|done]. }
  by destruct req.
Qed.

(** What holds whatever the object was holds of the calls alone. *)
Abbreviation plain user := (guarded user (λ _, ()) ()).

(** Depending on more of the object does no harm. *)
Lemma guarded_more `{P : Platform} {O B B' A} user (f : O → B) (g : O → B') b pre (m : GoM World Event O A) :
  (∀ b', respects (guarded user (λ o, (f o, g o)) (b, b') pre) m) → respects (guarded user f b pre) m.
Proof.
  intros H s Hs. destruct (H (g (obj s)) s) as [Ho ?]; [by rewrite Hs|]. split; [|done]. by injection Ho.
Qed.

Lemma guarded_plain `{P : Platform} {O B A} user (f : O → B) pre (m : GoM World Event O A) :
  (∀ b, respects (guarded user f b pre) m) → respects (plain user pre) m.
Proof. intros H s _. split; [done|]. by destruct (H (f (obj s)) s eq_refl) as [_ ?]. Qed.

Ltac by_lookup :=
  go_bools; subst;
  match goal with H : _ = "" → ∃ ids, _ |- _ => eapply warrant_created; [exact (H eq_refl)|done|done|simpl; reflexivity] end.

Ltac guard_step :=
  lazymatch goal with
  | |- respects (guarded _ _ _ _) (bind get _) => apply guarded_get; intros ? ?
  | |- respects (guarded _ _ _ _) (bind (ensureResource _ _ _ _ _ _) _) =>
      eapply guarded_look; [apply looks_ensureResource|intros [? ?] ? ?]
  | |- respects (guarded _ _ _ _) (bind (wrap _ (ensureResource _ _ _ _ _ _)) _) =>
      eapply guarded_look; [apply looks_wrap, looks_ensureResource|intros [? ?] ? ?]
  | |- respects (guarded _ _ _ _) (deferred _ _) => apply guarded_deferred; [intros ? ?; try solve [repeat case_match; done]|]
  | |- respects (guarded _ _ _ _) (modify _) => apply guarded_modify; intros ?; try solve [repeat case_match; done]
  | |- respects (guarded _ _ _ _) (emit _) => apply guarded_emit; done
  | |- respects (guarded _ _ _ _) (call _ _) => apply guarded_call; intros ?; first [exact I|solve [by_lookup]|idtac]
  | |- _ => frame_step
  end.
Ltac guarding := repeat (guard_step; simpl).

(** ** The cluster controller *)

Section cluster.
Context `{P : Platform}.
Context (user : TagMap).
Implicit Types (sc : ClusterScope) (c : CloudscaleCluster).

Lemma reconcileNetwork_guarded sc tags : respects (guarded user clusterOwnershipTags tags []) (reconcileNetwork sc).
Proof.
  unfold reconcileNetwork, reconcileNetworks, reconcileOneNetwork, reconcilePreExistingNetwork,
    reconcileManagedNetwork, createNetwork, createSubnet, sdk_Get, sdk_Create, Eventf.
  guarding.
Qed.

Lemma recordInterface_guarded name net id managed tags :
  respects (guarded user clusterOwnershipTags tags []) (recordInterface name net id managed).
Proof.
  intros s. unfold exec. rewrite recordInterface_run. apply guarded_silently; [simpl|done].
  unfold setRouterInterfaceStatus. by repeat case_match.
Qed.

Lemma reconcileRouters_guarded sc tags : respects (guarded user clusterOwnershipTags tags []) (reconcileRouters sc).
Proof.
  unfold reconcileRouters, reconcileRoutersLoop, reconcileRouter, adoptRouter, ensureManagedRouter,
    reconcileRouterInterfaces, reconcileRouterInterface, adoptRouterInterface, claimRouterInterface,
    createRouterInterface, sdk_Get, sdk_Create, Eventf.
  guarding; apply recordInterface_guarded.
Qed.

Lemma reconcileFloatingIP_guarded sc tags : respects (guarded user clusterOwnershipTags tags []) (reconcileFloatingIP sc).
Proof.
  unfold reconcileFloatingIP, reconcileManagedFloatingIP, reconcilePreExistingFloatingIP,
    ensureFloatingIPAssignment, getFloatingIPTarget, listMachines, sdk_Get, sdk_Create, Eventf.
  guarding.
Qed.

(** The shape that the four load balancer functions share. *)
Lemma ensureOrCreate_guarded {Req T} k (svc : Service World Req T) uuid mk name id setID request created tags :
  (∀ req, kind_of (mk req) = k) → k ≠ KServer → k ≠ KServerGroup →
  (∀ id c, clusterOwnershipTags (upd_status (setID id) c) = clusterOwnershipTags c) →
  looks clusterOwnershipTags tags (λ req ev, tags ⊆ tags_of (mk req)) request →
  (∀ x pre, respects (guarded user clusterOwnershipTags tags pre) (created x)) →
  respects (guarded user clusterOwnershipTags tags []) (ensureOrCreate k svc uuid mk name id setID request created).
Proof.
  intros Hk Hns Hng Hset Hreq Hcreated. unfold ensureOrCreate, sdk_Create.
  apply guarded_get. intros c Hc. eapply guarded_look; [apply looks_ensureResource|]. intros [x rid] ev Hev.
  apply respects_bind; [apply _|apply guarded_modify; intros; apply Hset|]. intros _.
  destruct (rid != "") eqn:Hid; [guarding|]. go_bools. subst rid.
  eapply guarded_look; [exact Hreq|]. intros req ev' Hcov. guarding; auto.
  eapply warrant_mono; [apply list_subseteq_app_r; reflexivity|].
  rewrite <- (Hk req), Hc in Hev. rewrite <- (Hk req) in Hns, Hng.
  by apply (warrant_created user ev [] _ tags); [apply Hev|..].
Qed.

Lemma lb_parts_guarded sc tags :
  respects (guarded user clusterOwnershipTags tags []) (reconcileLB sc) ∧
  respects (guarded user clusterOwnershipTags tags []) (reconcileLBPool sc) ∧
  respects (guarded user clusterOwnershipTags tags []) (reconcileLBListener sc) ∧
  respects (guarded user clusterOwnershipTags tags []) (reconcileLBHealthMonitor sc).
Proof.
  unfold reconcileLB, reconcileLBPool, reconcileLBListener, reconcileLBHealthMonitor.
  split_and!; apply guarded_get; intros c _; apply ensureOrCreate_guarded; try done;
    try (intros; unfold lbCreated, poolCreated, listenerCreated, monitorCreated, Eventf; by guarding).
  all: apply looks_pure; [intros s|intros s req Hs];
    unfold lbRequest, poolRequest, listenerRequest, monitorRequest; go_run; repeat case_match; try done.
  all: intros; by simplify_eq/=.
Qed.

(** *** Members *)

Lemma ensureMember_guarded sc pool current desired pre :
  EMemberList pool (Ok current) ∈ pre →
  respects (guarded user poolID pool pre)
    (ensureMember sc (index_by LoadBalancerPoolMember_Name current) desired).
Proof.
  intros Hin. unfold ensureMember, createLoadBalancerMember, updateLoadBalancerMember.
  destruct (index_by _ _ !! _) as [m|] eqn:E; guarding; intros; subst.
  - apply index_by_Some in E as [Hm _]. by exists current, m.
  - exists current. split; [done|]. intros m Hm Hname.
    assert (is_Some (index_by LoadBalancerPoolMember_Name current !! LoadBalancerPoolMemberRequest_Name desired))
      as [? ?]; [|congruence].
    apply index_by_is_Some. rewrite <- Hname. by apply list_elem_of_fmap_2.
Qed.

Lemma pruneMember_guarded sc pool current desired member pre :
  EMemberList pool (Ok current) ∈ pre → member ∈ current →
  respects (guarded user poolID pool pre) (pruneMember sc desired member).
Proof.
  intros Hin Hm. unfold pruneMember, deleteLoadBalancerMember. guarding. subst. by exists current, member.
Qed.

Lemma reconcileLBMembers_guarded sc pool : respects (guarded user poolID pool []) (reconcileLBMembers sc).
Proof.
  unfold reconcileLBMembers. apply guarded_get. intros c Hc.
  eapply guarded_look; [apply looks_wrap, looks_call; done|]. intros current ev ->. rewrite Hc.
  apply respects_bind; [apply _|unfold getDesiredLoadBalancerMembers, listMachines; guarding|]. intros desired.
  assert (EMemberList pool (Ok current) ∈ [EMemberList pool (Ok current)] ++ []) as Hin by by left.
  guarding; eauto using ensureMember_guarded, pruneMember_guarded.
Qed.

Lemma stage_guarded pending msg m k :
  respects (plain user []) m → respects (plain user []) k → respects (plain user []) (stage pending msg m k).
Proof. intros. unfold stage. guarding; done. Qed.

Lemma own_tags_plain {A} (m : CM A) :
  (∀ tags, respects (guarded user clusterOwnershipTags tags []) m) → respects (plain user []) m.
Proof. apply guarded_plain. Qed.

Lemma reconcileLBChildren_guarded sc lb pending : respects (plain user []) (reconcileLBChildren sc lb pending).
Proof.
  unfold reconcileLBChildren.
  apply stage_guarded; [apply own_tags_plain; intros t; by destruct (lb_parts_guarded sc t) as (_ & ? & _)|].
  apply stage_guarded; [apply own_tags_plain; intros t; by destruct (lb_parts_guarded sc t) as (_ & _ & ? & _)|].
  apply stage_guarded; [apply own_tags_plain; intros t; by destruct (lb_parts_guarded sc t) as (_ & _ & _ & ?)|].
  apply stage_guarded; [apply (guarded_plain user poolID), reconcileLBMembers_guarded|]. apply respects_ret, _.
Qed.

Lemma reconcileLoadBalancer_guarded sc : respects (plain user []) (reconcileLoadBalancer sc).
Proof.
  assert (respects (plain user []) (reconcileLB sc)) as H
    by (apply own_tags_plain; intros t; by destruct (lb_parts_guarded sc t) as (? & _)).
  unfold reconcileLoadBalancer, reconcileLBEnabled, pendingMessage, listMembers, sdk_Get, stage.
  guarding; first [exact H|apply reconcileLBChildren_guarded].
Qed.

Lemma cluster_normal_guarded sc : respects (plain user []) (ClusterCtl.reconcileNormal sc).
Proof.
  unfold ClusterCtl.reconcileNormal, ClusterCtl.reconcileNormalBody, reconcileControlPlaneEndpoint, Eventf.
  guarding; auto using reconcileLoadBalancer_guarded.
  - apply own_tags_plain, reconcileNetwork_guarded.
  - apply own_tags_plain, reconcileRouters_guarded.
  - apply own_tags_plain, reconcileFloatingIP_guarded.
Qed.

(** Deletion creates nothing and leaves pool members alone. *)
Lemma cluster_delete_guarded sc : respects (plain user []) (ClusterCtl.reconcileDelete sc).
Proof.
  intros s _. split; [done|]. destruct (reconcileDelete_calls sc s) as (evs & Hl & _ & HF).
  exists evs. split; [exact Hl|]. intros i e He. rewrite Forall_forall in HF.
  specialize (HF e (list_elem_of_lookup_2 _ _ _ He)). unfold warrant.
  destruct e; simpl in HF; try exact I; specialize (HF eq_refl); lia.
Qed.

Lemma cluster_closing_guarded snapshot (m : CM Result) :
  respects (plain user []) m → respects (plain user []) (ClusterCtl.closing snapshot m).
Proof.
  intros H s Hs. destruct (H s Hs) as (_ & evs & Hl & Hw). split; [done|].
  unfold ClusterCtl.closing, ClusterScope_Close, call, exec in *. destruct (m s) as [r s1]; simpl in *.
  destruct (patch_Cluster _ _ _ _) as [p w]; simpl. eexists (evs ++ [_]). rewrite Hl, <- app_assoc.
  split; [reflexivity|]. apply warranted_app; [done|]. by apply warranted_one.
Qed.

Lemma cluster_guarded req : respects (plain user []) (ClusterCtl.Reconcile req).
Proof.
  assert (∀ cluster, respects (plain user []) (ClusterCtl.reconcileOwned cluster)) as H.
  { intros cluster. unfold ClusterCtl.reconcileOwned, GetToken, NewClusterScope.
    guarding. apply cluster_closing_guarded.
    guarding; auto using cluster_delete_guarded, cluster_normal_guarded. }
  unfold ClusterCtl.Reconcile. guarding. by apply (guarded_with_obj _ (λ _, ())).
Qed.
End cluster.

(** ** The machine controller *)

Section machine.
Context `{P : Platform}.
Implicit Types (ms : MachineScope) (m : CloudscaleMachine).

(** The tags that the specification gives. *)
Definition userTags m : TagMap := CloudscaleMachineSpec_Tags (mspec m).
Abbreviation mine user := (guarded user userTags user).

Lemma listOrCreateGroup_guarded user ms name : respects (mine user []) (listOrCreateGroup ms name).
Proof.
  unfold listOrCreateGroup, sdk_ListGroups, sdk_Create.
  eapply guarded_look; [apply looks_wrap, looks_call; done|]. intros groups ev ->.
  destruct (findGroup _ _ groups) as [g|] eqn:Ef; guarding.
  eexists _, groups. split; [by left|]. split; [simpl; reflexivity|]. intros g Hg. by eapply findGroup_None.
Qed.

Lemma reconcileServerGroup_guarded user ms : respects (mine user []) (reconcileServerGroup ms).
Proof.
  unfold reconcileServerGroup, reconcileServerGroupBody, sdk_Get.
  guarding; apply listOrCreateGroup_guarded.
Qed.

Lemma createServer_guarded user ms name pre :
  (∃ m, machineName m = name ∧ EList KServer (machineLookupTag ms m) (Ok []) ∈ pre) →
  respects (guarded user (λ m, (userTags m, machineName m)) (user, name) pre) (createServer ms).
Proof.
  intros (m & Hm & Hin). unfold createServer, adoptServer, GetBootstrapData, sdk_Create, Eventf. guarding.
  match goal with H : (userTags ?o, machineName ?o) = _ |- _ => injection H as Hu Hn end.
  exists (Cluster_Namespace (mscope_Cluster ms)), (Cluster_Name (mscope_Cluster ms)).
  unfold machineLookupTag in Hin. rewrite Hm in Hin. simpl. unfold machineCreateTags, machineLookupTag.
  unfold userTags in Hu. rewrite Hn, Hu. split_and!; [exact Hin|done|].
  intros Hk. apply map_union_subseteq_r, map_disjoint_singleton_r, Hk.
Qed.

Lemma reconcileServer_guarded user ms : respects (mine user []) (reconcileServer ms).
Proof.
  apply (guarded_more user userTags machineName). intros name.
  unfold reconcileServer, reconcileServerBody, sdk_Get, sdk_List, adoptServer.
  apply respects_bind; [apply _| |intros []; guarding].
  apply guarded_deferred; [intros [[? [server|]]|e] o; [|done..]; unfold setServerStatusCondition; repeat (case_bool_decide; simpl); repeat case_match; done|].
  apply guarded_get. intros m Hm. destruct (serverID m != ""); [guarding|].
  eapply guarded_look; [apply looks_wrap, looks_call; done|]. intros servers ev ->.
  destruct servers as [|server [|]]; [|guarding..]. apply createServer_guarded. exists m.
  injection Hm as _ Hn. split; [done|by left].
Qed.

Lemma userTags_setReadyCondition m : userTags (setReadyCondition m) = userTags m.
Proof. by destruct (setReadyCondition_is m) as (st & rs & msg & -> & _). Qed.
Lemma userTags_setProvisioned m : userTags (setProvisioned m) = userTags m.
Proof. unfold setProvisioned. by case_match. Qed.

Lemma userTags_deleteServerGroup m : userTags (deleteServerGroup m) = userTags m.
Proof. unfold deleteServerGroup. by repeat case_match. Qed.

Lemma machine_normal_guarded user ms : respects (mine user []) (MachineCtl.reconcileNormal ms).
Proof.
  unfold MachineCtl.reconcileNormal, MachineCtl.reconcileNormalBody.
  guarding; auto using reconcileServer_guarded, reconcileServerGroup_guarded,
    userTags_setReadyCondition, userTags_setProvisioned.
Qed.

Lemma machine_closing_guarded user snapshot (m : MM Result) :
  respects (mine user []) m → respects (mine user []) (MachineCtl.closing snapshot m).
Proof.
  intros H s Hs. destruct (H s Hs) as (Ho & evs & Hl & Hw).
  unfold MachineCtl.closing, MachineScope_Close, call, exec in *. destruct (m s) as [r s1]; simpl in *.
  destruct (patch_Machine _ _ _ _) as [p w]; simpl. split; [done|]. eexists (evs ++ [_]). rewrite Hl, <- app_assoc.
  split; [reflexivity|]. apply warranted_app; [done|]. by apply warranted_one.
Qed.

Lemma machine_owned_guarded user machine cluster : respects (mine user []) (MachineCtl.reconcileOwned machine cluster).
Proof.
  unfold MachineCtl.reconcileOwned, GetToken, NewMachineScope.
  guarding; first [apply userTags_setReadyCondition|apply machine_closing_guarded].
  guarding; auto using machine_normal_guarded.
  unfold MachineCtl.reconcileDelete, deleteServer, deleteServerBody, sdk_Delete, Eventf.
  guarding; auto using userTags_deleteServerGroup.
Qed.

(** The machine of the request, as the reconcile reads it. *)
Definition requestedTags (req : string * string) (w : World) : TagMap :=
  match kube_GetCloudscaleMachine req w with (Ok m, _) => userTags m | (Err _, _) => ∅ end.

Lemma machine_guarded req (s : St World Event unit) :
  guarded (requestedTags req (world s)) (λ _, ()) () [] s (exec (MachineCtl.Reconcile req) s).
Proof.
  unfold MachineCtl.Reconcile, requestedTags. apply guarded_read; [done|].
  destruct (kube_GetCloudscaleMachine req (world s)) as [[m|e] w]; simpl; guarding.
  apply (guarded_with_obj _ userTags), machine_owned_guarded.
Qed.
End machine.

(** ** The property *)

Section look_first_claim.
Context `{P : Platform}.

(** C3. Nothing is created blindly. In every reconcile of either controller, whatever
    the request, the state and the answers of the calls: before each creation, the
    same reconcile has listed, without an error, the resources of that kind by
    tags that the new resource carries, and the listing showed none (for a server
    group: none of the name and zone of the new one). A server is listed by the tag
    of its machine and carries that tag together with the tags that the machine's
    specification gives, which win where they give that key themselves. Before each
    creation of a pool member, the pool was listed and has no member of that name;
    and a pool member is updated or deleted only if it was listed. *)
Theorem look_before_create (req : string * string) (s : St World Event unit) (evs : list Event) :
  evs = calls_of (ClusterCtl.Reconcile req) s ∨ evs = calls_of (MachineCtl.Reconcile req) s →
  ∀ pre e post, evs = pre ++ e :: post → warrant (requestedTags req (world s)) pre e.
Proof.
  assert (∀ user (m : GoM World Event unit Result), guarded user (λ _, ()) () [] s (exec m s) →
    ∀ pre e post, calls_of m s = pre ++ e :: post → warrant user pre e) as H.
  { intros user m Hm pre e post E. destruct (Hm eq_refl) as (_ & calls & Hl & Hw).
    rewrite (calls_of_run _ _ _ Hl) in E. subst. specialize (Hw (length pre) e).
    rewrite take_app_length in Hw. apply Hw. by apply list_lookup_middle. }
  intros [-> | ->]; apply H; [apply cluster_guarded|apply machine_guarded].
Qed.
End look_first_claim.
