(* ===== verification/Settling.v ===== *)
(** * Runs that achieve their goal, or else spend budget

    The logic behind the termination results. An environment may fail, but only
    as long as its budget lasts: a call that does not do its duty spends some of
    it. A run [reaches] its goal when it either achieves it or has spent budget;
    [settles] says so for every healthy state. Repeating such a run achieves the
    goal, at the latest when the budget is used up. *)

From S2P Require Export Go.

Section settling.
Context {W Ev O : Type} (healthy : W → Prop) (budget : W → nat).
Abbreviation state := (St W Ev O).
Abbreviation M := (GoM W Ev O).
Implicit Types (s : state).

(** ** Calls *)

(** A call makes nothing worse. *)
Definition gentle {A} (c : W → Res A * W) : Prop := ∀ w, healthy w →
  healthy (snd (c w)) ∧ budget (snd (c w)) ≤ budget w.

(** In world [w] it does its duty, or spends budget: its answer is good, or its
    error is one that the caller copes with. *)
Definition recovers_at {A} (good : A → Prop) (tolerated : error → bool) (c : W → Res A * W) (w : W) : Prop :=
  healthy (snd (c w)) ∧ budget (snd (c w)) ≤ budget w ∧
  (budget (snd (c w)) < budget w ∨
   match fst (c w) with Ok a => good a | Err e => tolerated e = true end).

Definition recovers {A} (good : A → Prop) (tolerated : error → bool) (c : W → Res A * W) : Prop :=
  ∀ w, healthy w → recovers_at good tolerated c w.

Lemma recovers_gentle {A} good tol (c : W → Res A * W) : recovers good tol c → gentle c.
Proof. intros H w Hw. by destruct (H w Hw) as (? & ? & _). Qed.

Lemma recovers_at_weaken {A} (good good' : A → Prop) tol (c : W → Res A * W) w :
  recovers_at good tol c w → (∀ a w', c w = (Ok a, w') → good a → good' a) → recovers_at good' tol c w.
Proof.
  intros (H1 & H2 & H3) Hg. split_and!; [done..|]. destruct H3 as [?|H3]; [by left|right].
  destruct (c w) as [[a|e] w']; simpl in *; [by eapply Hg|done].
Qed.

(** ** No run makes the environment worse *)

Definition spends : relation state := λ s s',
  healthy (world s) → healthy (world s') ∧ budget (world s') ≤ budget (world s).

#[export] Instance spends_preorder : PreOrder spends.
Proof.
  split; [by intros s Hs; split|]. intros s1 s2 s3 H12 H23 H1.
  destruct (H12 H1) as [H2 ?]. destruct (H23 H2) as [H3 ?]. split; [done|lia].
Qed.

Lemma spends_call {A} (c : W → Res A * W) ev : gentle c → respects spends (call c ev).
Proof.
  intros H s Hs. specialize (H (world s) Hs). unfold exec, call. by destruct (c (world s)).
Qed.
Lemma spends_bind {A B} (m : M A) (k : A → M B) s :
  spends s (exec m s) → (∀ a, spends (exec m s) (exec (k a) (exec m s))) → spends s (exec (bind m k) s).
Proof.
  intros Hm Hk. unfold exec, bind in *. destruct (m s) as [[a|e] s1]; simpl in *; [|done]. by etrans.
Qed.
Lemma spends_modify f : respects spends (modify f).
Proof. by intros s Hs. Qed.
Lemma spends_emit e : respects spends (emit e).
Proof. by intros s Hs. Qed.
Lemma spends_deferred {A} f (m : M A) : respects spends m → respects spends (deferred f m).
Proof. intros H. apply respects_deferred; [apply _|done|]. by intros r s Hs. Qed.

(** ** Reaching a goal from a state *)

Definition reaches {A} (m : M A) s (Φ : A → state → Prop) : Prop :=
  budget (world (exec m s)) < budget (world s) ∨ ∃ a, result m s = Ok a ∧ Φ a (exec m s).

Lemma reaches_weaken {A} (m : M A) s Φ Φ' :
  reaches m s Φ → (∀ a, result m s = Ok a → Φ a (exec m s) → Φ' a (exec m s)) → reaches m s Φ'.
Proof. intros [?|(a & Ha & H)] HΦ; [by left|right]. exists a. auto. Qed.
Lemma reaches_run {A} (m m' : M A) s Φ : m s = m' s → reaches m' s Φ → reaches m s Φ.
Proof. intros E. unfold reaches, exec, result. by rewrite E. Qed.
Lemma reaches_keeps {A B} (f : O → B) (m : M A) s Φ :
  respects (keeps f) m → reaches m s Φ → reaches m s (λ a s', Φ a s' ∧ f (obj s') = f (obj s)).
Proof. intros Hm H. eapply reaches_weaken; [done|]. intros a _ Ha. split; [done|apply Hm]. Qed.
Lemma reaches_ret {A} (a : A) s Φ : Φ a s → reaches (ret a) s Φ.
Proof. right. by exists a. Qed.
Lemma reaches_of_res {A} (r : Res A) s Φ : (∃ a, r = Ok a ∧ Φ a s) → reaches (of_res r) s Φ.
Proof. intros (a & -> & H). by apply (reaches_ret a). Qed.
Lemma reaches_modify f s Φ : Φ () (mkSt (f (obj s)) (world s) (log s)) → reaches (modify f) s Φ.
Proof. right. by exists (). Qed.
Lemma reaches_emit e s Φ : Φ () (mkSt (obj s) (world s) (log s ++ [e])) → reaches (emit e) s Φ.
Proof. right. by exists (). Qed.
Lemma reaches_wrap {A} pre (m : M A) s Φ : reaches m s Φ → reaches (wrap pre m) s Φ.
Proof.
  unfold reaches, exec, result, wrap. destruct (m s) as [[a|e] s1]; simpl; [done|].
  intros [H|(a & [=] & _)]. by left.
Qed.
Lemma reaches_deferred {A} f (m : M A) s Φ :
  reaches m s (λ a s', Φ a (mkSt (f (Ok a) (obj s')) (world s') (log s'))) → reaches (deferred f m) s Φ.
Proof.
  unfold reaches, exec, result, deferred. destruct (m s) as [r s1]; simpl.
  intros [H|(a & -> & H)]; [by left|right; by exists a].
Qed.
Lemma reaches_bind_at {A B} (m : M A) (k : A → M B) s Ψ Φ :
  healthy (world s) → spends s (exec m s) →
  (∀ a, result m s = Ok a → spends (exec m s) (exec (k a) (exec m s))) →
  reaches m s Ψ →
  (∀ a s1, healthy (world s1) → result m s = Ok a → s1 = exec m s → Ψ a s1 → reaches (k a) s1 Φ) →
  reaches (bind m k) s Φ.
Proof.
  intros Hh Hm Hk Hs Hks. destruct (Hm Hh) as [Hh1 Hle].
  unfold reaches, exec, result, bind in *. destruct (m s) as [[a|e] s1]; simpl in *.
  - destruct (Hk a eq_refl Hh1) as [_ Hle2]. destruct Hs as [Hlt|(a' & [= <-] & Ha)]; [left; lia|].
    destruct (Hks a s1 Hh1 eq_refl eq_refl Ha) as [Hlt|H]; [left; lia|by right].
  - destruct Hs as [Hlt|(a' & [=] & _)]. by left.
Qed.
Lemma reaches_bind {A B} (m : M A) (k : A → M B) s Ψ Φ :
  healthy (world s) → spends s (exec m s) → (∀ a, respects spends (k a)) → reaches m s Ψ →
  (∀ a s1, healthy (world s1) → result m s = Ok a → s1 = exec m s → Ψ a s1 → reaches (k a) s1 Φ) →
  reaches (bind m k) s Φ.
Proof. intros Hh Hm Hk. apply reaches_bind_at; [done|done|]. intros a _. apply Hk. Qed.
Lemma reaches_bind_get {B} (k : O → M B) s Φ : reaches (k (obj s)) s Φ → reaches (bind get k) s Φ.
Proof. done. Qed.
Lemma reaches_bind_modify {B} f (k : unit → M B) s Φ :
  reaches (k ()) (mkSt (f (obj s)) (world s) (log s)) Φ → reaches (bind (modify f) k) s Φ.
Proof. done. Qed.
Lemma reaches_bind_emit {B} e (k : unit → M B) s Φ :
  reaches (k ()) (mkSt (obj s) (world s) (log s ++ [e])) Φ → reaches (bind (emit e) k) s Φ.
Proof. done. Qed.
Lemma reaches_bind_ret {A B} (a : A) (k : A → M B) s Φ : reaches (k a) s Φ → reaches (bind (ret a) k) s Φ.
Proof. done. Qed.

(** An inspected call: a good answer, or a tolerated error, or it was paid for. *)
Lemma reaches_inspect {A B} good tol (c : W → Res A * W) ev (k : Res A → M B) s Φ :
  recovers_at good tol c (world s) → (∀ r, respects spends (k r)) →
  (∀ a w, c (world s) = (Ok a, w) → healthy w → good a →
     reaches (k (Ok a)) (mkSt (obj s) w (log s ++ [ev (Ok a)])) Φ) →
  (∀ e w, healthy w → tol e = true → reaches (k (Err e)) (mkSt (obj s) w (log s ++ [ev (Err e)])) Φ) →
  reaches (bind (try (call c ev)) k) s Φ.
Proof.
  intros (Hh1 & Hle & H) Hk Hok Herr.
  unfold reaches, exec, result, bind, try, call in *. destruct (c (world s)) as [r w]; simpl in *.
  destruct (Hk r (mkSt (obj s) w (log s ++ [ev r])) Hh1) as [_ Hle2]. unfold exec in Hle2. simpl in Hle2.
  destruct H as [Hlt|H]; [left; lia|].
  destruct r as [a|e]; [specialize (Hok a w eq_refl Hh1 H)|specialize (Herr e w Hh1 H)]; simpl in *;
    [destruct Hok|destruct Herr]; [left; lia|by right|left; lia|by right].
Qed.

(** A call whose error ends the function. *)
Lemma reaches_call {A B} good pre (c : W → Res A * W) ev (k : A → M B) s Φ :
  recovers_at good (λ _, false) c (world s) → (∀ a, respects spends (k a)) →
  (∀ a w, c (world s) = (Ok a, w) → healthy w → good a →
     reaches (k a) (mkSt (obj s) w (log s ++ [ev (Ok a)])) Φ) →
  reaches (bind (wrap pre (call c ev)) k) s Φ.
Proof.
  intros (Hh1 & Hle & H) Hk Hok.
  unfold reaches, exec, result, bind, wrap, call in *. destruct (c (world s)) as [[a|e] w]; simpl in *.
  - destruct (Hk a (mkSt (obj s) w (log s ++ [ev (Ok a)])) Hh1) as [_ Hle2]. unfold exec in Hle2. simpl in Hle2.
    destruct H as [Hlt|H]; [left; lia|]. destruct (Hok a w eq_refl Hh1 H); simpl in *; [left; lia|by right].
  - destruct H as [Hlt|[=]]. by left.
Qed.

Definition goes_on (f : flow unit) : Prop := f = Next ().

(** A loop, with an invariant of the part still to come and the state. *)
Lemma reaches_foreach {A} (I : list A → state → Prop) (l : list A) body s :
  healthy (world s) → (∀ x, respects spends (body x)) → I l s →
  (∀ x rest s, x ∈ l → healthy (world s) → I (x :: rest) s →
     reaches (body x) s (λ f s', goes_on f ∧ I rest s')) →
  reaches (foreach l body) s (λ f s', goes_on f ∧ I [] s').
Proof.
  intros Hh Hm. revert s Hh. induction l as [|x l IH]; intros s Hh HI Hb; [by apply reaches_ret|].
  apply (reaches_bind _ _ _ (λ f s', goes_on f ∧ I l s')); [done|apply Hm| |by apply Hb; [left|..]|].
  - intros [r|[]]; [apply respects_ret; apply _|]. apply respects_foreach; [apply _|auto].
  - intros f s1 Hh1 _ _ [-> HI1]. apply IH; [done|done|]. intros y rest s2 Hy. apply Hb. by right.
Qed.

Lemma reaches_foldM {A B} (I : B → state → Prop) (f : B → A → M B) l b s :
  healthy (world s) → (∀ b x, respects spends (f b x)) → I b s →
  (∀ b x s, x ∈ l → healthy (world s) → I b s → reaches (f b x) s I) →
  reaches (foldM f l b) s I.
Proof.
  intros Hh Hm. revert b s Hh. induction l as [|x l IH]; intros b s Hh HI Hf; [by apply reaches_ret|].
  rewrite foldM_cons. apply (reaches_bind _ _ _ I); [done|apply Hm| |apply Hf; [by left|done|done]|].
  - intros b'. apply respects_foldM; [apply _|]. intros. apply Hm.
  - intros b' s1 Hh1 _ _ HI1. apply IH; [done|done|]. intros b2 y s2 Hy. apply Hf. by right.
Qed.

Lemma reaches_bind_flow_at (m : M (flow unit)) (k : unit → M Result) s I Φ :
  healthy (world s) → spends s (exec m s) → spends (exec m s) (exec (k ()) (exec m s)) →
  reaches m s (λ f s', goes_on f ∧ I s') →
  (∀ s1, healthy (world s1) → s1 = exec m s → I s1 → reaches (k ()) s1 Φ) →
  reaches (bind_flow m k) s Φ.
Proof.
  intros Hh Hm Hk Hs Hks. unfold bind_flow.
  apply (reaches_bind_at _ _ _ (λ f s', goes_on f ∧ I s')); [done|done| |done|].
  - intros [r|[]] _; [done|exact Hk].
  - intros f s1 Hh1 _ E [-> HI]. by apply Hks.
Qed.

Lemma reaches_bind_flow (m : M (flow unit)) (k : unit → M Result) s I Φ :
  healthy (world s) → spends s (exec m s) → (∀ a, respects spends (k a)) →
  reaches m s (λ f s', goes_on f ∧ I s') → (∀ s1, healthy (world s1) → I s1 → reaches (k ()) s1 Φ) →
  reaches (bind_flow m k) s Φ.
Proof. intros Hh Hm Hk Hs Hks. eapply reaches_bind_flow_at; [done|done|apply Hk|done|auto]. Qed.

(** ** From every healthy state *)

Definition settles {A} (Φ : A → Prop) (m : M A) : Prop := ∀ s, healthy (world s) → reaches m s (λ a _, Φ a).

Lemma settles_ret {A} (Φ : A → Prop) a : Φ a → settles Φ (ret a).
Proof. intros H s _. by apply reaches_ret. Qed.
Lemma settles_modify f : settles (λ _, True) (modify f).
Proof. intros s _. by apply reaches_modify. Qed.
Lemma settles_emit e : settles (λ _, True) (emit e).
Proof. intros s _. by apply reaches_emit. Qed.
Lemma settles_bind {A B} (Ψ : A → Prop) (Φ : B → Prop) (m : M A) k :
  respects spends m → settles Ψ m → (∀ a, respects spends (k a)) → (∀ a, Ψ a → settles Φ (k a)) →
  settles Φ (bind m k).
Proof.
  intros Hm Hs Hk Hks s Hh. apply (reaches_bind _ _ _ (λ a _, Ψ a)); [done|apply Hm|done|by apply Hs|].
  intros a s1 Hh1 _ _ Ha. by apply Hks.
Qed.
Lemma settles_wrap {A} (Φ : A → Prop) pre (m : M A) : settles Φ m → settles Φ (wrap pre m).
Proof. intros H s Hs. by apply reaches_wrap, H. Qed.
Lemma settles_deferred {A} (Φ : A → Prop) f (m : M A) : settles Φ m → settles Φ (deferred f m).
Proof. intros H s Hs. by apply reaches_deferred, H. Qed.
Lemma settles_call {A} (good : A → Prop) (c : W → Res A * W) ev :
  recovers good (λ _, false) c → settles good (call c ev).
Proof.
  intros H s Hs. destruct (H (world s) Hs) as (_ & _ & H'). unfold reaches, exec, result, call.
  destruct (c (world s)) as [[a|e] w]; simpl in *; (destruct H' as [?|?]; [by left|]); [right; by exists a|done].
Qed.
Lemma settles_inspected {A B} (good : A → Prop) tol (c : W → Res A * W) ev (Φ : B → Prop) (k : Res A → M B) :
  recovers good tol c → (∀ r, respects spends (k r)) →
  (∀ a, good a → settles Φ (k (Ok a))) → (∀ e, tol e = true → settles Φ (k (Err e))) →
  settles Φ (bind (try (call c ev)) k).
Proof.
  intros Hc Hk Hok Herr s Hs. eapply reaches_inspect; [by apply Hc|done|..].
  - intros a w _ Hw Ha. by apply Hok.
  - intros e w Hw He. by apply Herr.
Qed.
Lemma settles_bind_get {B} (Φ : B → Prop) (k : O → M B) : (∀ o, settles Φ (k o)) → settles Φ (bind get k).
Proof. intros H s Hs. apply reaches_bind_get. by apply H. Qed.
Lemma settles_foldM {A B} (Φ : B → Prop) (f : B → A → M B) l b :
  (∀ b x, respects spends (f b x)) → (∀ b x, Φ b → settles Φ (f b x)) → Φ b → settles Φ (foldM f l b).
Proof.
  intros Hm Hf Hb s Hs. apply (reaches_foldM (λ b _, Φ b)); [done..|]. intros b' x s' _ Hs' Hb'. by apply Hf.
Qed.
Lemma settles_foreach {A} (l : list A) body :
  (∀ x, respects spends (body x)) → (∀ x, x ∈ l → settles goes_on (body x)) →
  settles goes_on (foreach l body).
Proof.
  intros Hm Hb s Hs. eapply reaches_weaken; [apply (reaches_foreach (λ _ _, True)); [done..|]|by intros a _ [? _]].
  intros x rest s' Hx Hs' _. eapply reaches_weaken; [by apply Hb|]. by intros.
Qed.
Lemma settles_bind_flow (Φ : Result → Prop) (m : M (flow unit)) k :
  respects spends m → settles goes_on m → (∀ a, respects spends (k a)) → settles Φ (k ()) →
  settles Φ (bind_flow m k).
Proof.
  intros Hm Hs Hk Hf s Hh. apply (reaches_bind_flow _ _ _ (λ _, True)); [done|apply Hm|done| |by intros; apply Hf].
  eapply reaches_weaken; [by apply Hs|]. by intros.
Qed.
End settling.

(** ** Reconciles that end with a patch

    Both controllers close a reconcile by patching the object, whatever came before;
    what the API server holds afterwards is the patched object when the last call
    was a patch that succeeded. [persisted] tells such calls from others. *)

Section patching.
Context {W Ev O : Type} (healthy : W → Prop) (budget : W → nat) (persisted : Ev → option O).
Context (patch : O → bool → W → Res unit * W) (ev : O → bool → Res unit → Ev).
Context (Hev : ∀ o ok r, persisted (ev o ok r) = match r with Ok _ => Some o | Err _ => None end).
Context (Hpatch : ∀ o ok, recovers healthy budget (λ _, True) (λ _, false) (patch o ok)).
Abbreviation M := (GoM W Ev O).

Definition patched (body : M Result) : M Result := λ s,
  let '(r, s1) := body s in
  let ok := match r with Ok _ => true | Err _ => false end in
  let '(p, s2) := call (patch (obj s1) ok) (ev (obj s1) ok) s1 in
  (match r, p with Ok _, Err e => Err e | _, _ => r end, s2).

Definition stored (o : O) (evs : list Ev) : O := default o (last evs ≫= persisted).

(** Nothing is patched on the way. *)
Definition unpatched (e : Ev) : Prop := persisted e = None.

Lemma stored_unpatched o evs : Forall unpatched evs → stored o evs = o.
Proof.
  intros H. unfold stored. destruct (last evs) as [e|] eqn:El; [|done].
  apply last_Some_elem_of in El. rewrite Forall_forall in H. simpl. by rewrite (H _ El).
Qed.

(** What is stored then: [J] holds of it if it holds of the old and of the new
    object, and it reaches the goal [Φ], given what that takes, when nothing was
    spent. *)
Lemma patched_reaches (body : M Result) o s (given : Prop) (Φ : O → Prop) (J : O → W → Prop) :
  healthy (world s) → spends healthy budget s (exec body s) →
  (given → reaches budget body s (λ _ s', Φ (obj s'))) →
  J o (world (exec body s)) → J (obj (exec body s)) (world (exec body s)) →
  (∀ o o' ok w, J o w → J o (snd (patch o' ok w))) →
  let s' := exec (patched body) s in
  healthy (world s') ∧ budget (world s') ≤ budget (world s) ∧
  J (stored o (log s')) (world s') ∧
  (given → budget (world s') < budget (world s) ∨ Φ (stored o (log s'))).
Proof.
  intros Hh Hm Hs HJo HJ HJp s'. subst s'. destruct (Hm Hh) as [Hh1 Hle].
  unfold reaches, patched, call, exec, result in *. destruct (body s) as [a s1]; simpl in *.
  set (ok := match a with Ok _ => true | Err _ => false end).
  destruct (Hpatch (obj s1) ok (world s1) Hh1) as (Hh2 & Hle2 & Hp).
  apply (HJp _ (obj s1) ok) in HJ, HJo.
  destruct (patch _ _ _) as [p w2]; simpl in *. unfold stored. rewrite last_snoc. simpl. rewrite Hev.
  split_and!; [done|lia|by destruct p|].
  intros Hg. destruct (Hs Hg) as [?|(x & -> & HΦ)]; [left; lia|]. destruct Hp as [?|Hp]; [left; lia|right].
  by destruct p.
Qed.
End patching.

(** ** Turns: a step from a stored object and a world to the next *)

Section turns.
Context {W O : Type} (healthy : W → Prop) (budget : W → nat) (turn : O * W → O * W).

(** [n] turns; in between, others act on the world. *)
Fixpoint turns (others : nat → W → W) (n : nat) (x : O * W) : O * W :=
  match n with
  | 0 => x
  | S n => let x' := turn x in turns (λ i, others (S i)) n (x'.1, others 0 x'.2)
  end.

(** When every turn reaches the goal or leaves a state like the one before with
    less budget, the goal is reached within the budget. *)
Lemma turns_reach (others : nat → W → W) (I : O → W → Prop) (goal : O → Prop) o w :
  (∀ i w, healthy w → healthy (others i w) ∧ budget (others i w) ≤ budget w) →
  (∀ i o w, healthy w → I o w → I o (others i w)) →
  (∀ o w, healthy w → I o w → let x' := turn (o, w) in
     healthy x'.2 ∧ (goal x'.1 ∨ I x'.1 x'.2 ∧ budget x'.2 < budget w)) →
  healthy w → I o w →
  ∃ n, n ≤ S (budget w) ∧ goal (fst (turns others n (o, w))).
Proof.
  intros Hothers HI Hturn. remember (budget w) as b eqn:Hb. revert others o w Hothers HI Hb.
  induction b as [b IH] using lt_wf_ind. intros others o w Hothers HI -> Hh Hd.
  destruct (Hturn o w Hh Hd) as [Hh' [Hdone|[Hd' Hlt]]].
  { exists 1. split; [lia|done]. }
  destruct (Hothers 0 (turn (o, w)).2 Hh') as [Hh'' Hle].
  destruct (IH (budget (others 0 (turn (o, w)).2)) ltac:(lia) (λ i, others (S i)) (turn (o, w)).1
              (others 0 (turn (o, w)).2)) as (n & Hn & Hfin); [auto..|].
  exists (S n). split; [lia|done].
Qed.
End turns.

(** ** Automation: the hints in [recovery] say what each call of the program owes *)

Create HintDb recovery.
#[export] Hint Extern 1 (gentle _ _ _) => eapply recovers_gentle : recovery.

Definition always {A} (a : A) : Prop := True.
Definition never (e : error) : bool := false.

Ltac spend_step :=
  first [ assumption | apply spends_deferred | apply spends_modify | apply spends_emit
        | apply spends_call; solve [eauto with recovery] | frame_step ].

Ltac settle_step spend :=
  lazymatch goal with
  | |- settles _ _ _ (ret _) => apply settles_ret
  | |- settles _ _ _ (modify _) => apply settles_modify
  | |- settles _ _ _ (emit _) => apply settles_emit
  | |- settles _ _ _ (wrap _ _) => apply settles_wrap
  | |- settles _ _ _ (deferred _ _) => apply settles_deferred
  | |- settles _ _ _ (bind get _) => apply settles_bind_get; intros ?
  | |- settles _ _ _ (bind (try (call _ _)) _) =>
      eapply settles_inspected; [solve [eauto with recovery]|intros ?; solve [spend]|intros ? ?|intros ? ?]
  | |- settles _ _ _ (bind _ _) =>
      apply (settles_bind _ _ always); [solve [spend]| |intros ?; solve [spend]|intros ? _]
  | |- settles _ _ _ (let _ := _ in _) => progress cbv zeta
  | |- settles _ _ _ (if ?x then _ else _) => destruct x eqn:?
  | |- settles _ _ _ (match ?x with _ => _ end) => destruct x eqn:?
  end.
