(* ===== verification/Turns.v ===== *)
(** * Turns of the controller

    A reconcile is repeated until it is done, each time from what the one before
    has stored. This file holds what the results about many reconciles share: the
    environment that all of them need, a turn and a sequence of turns, and the rule
    that a sequence reaches its goal when each turn reaches it or has spent budget.
    Termination.v and Convergence.v apply it to clusters, MachineTurns.v and Hosting.v to
    machines. *)

From S2P Require Export ClusterCtl Settling.

Ltac spend := unfold FloatingIPsOf, RoutersOf; simpl; repeat (spend_step; simpl).
Ltac settle :=
  unfold FloatingIPsOf, RoutersOf; simpl; repeat (settle_step ltac:(spend); simpl);
  try solve [exact I|done|cbv beta in *; go_bools; congruence].

(** ** What every reconcile needs *)

(** The secret holds a token. *)
Definition holds_token (data : gmap string string) : Prop :=
  ∃ token, data !! TokenKey = Some token ∧ token ≠ "".

(** The secret that [GetToken] asks for. *)
Definition credentials_key (secretRef : string * string) (clusterNamespace : string) : string * string :=
  (secretRef.1, if bool_decide (secretRef.2 = "") then clusterNamespace else secretRef.2).

(** A platform that fails only as long as its budget lasts. The secrets named by
    [credentials] hold a token, once they can be read. *)
Class Environment `{P : Platform} := {
  healthy : World → Prop;
  budget : World → nat;
  credentials : string * string → Prop;
  gentle_secret key : gentle healthy budget (kube_GetSecret key);
  recovers_secret key : credentials key → recovers healthy budget holds_token never (kube_GetSecret key) }.

(** The same for the cluster object's patch. *)
Class ClusterEnvironment `{E : Environment} := {
  recovers_helper c : patch_NewClusterHelper c = Ok ();
  recovers_patch snapshot c ok : recovers healthy budget always never (patch_Cluster snapshot c ok) }.

#[export] Hint Resolve gentle_secret recovers_secret recovers_patch : recovery.

Section token.
Context `{E : Environment} {O : Type}.

Lemma GetToken_spends ref ns : respects (spends (O:=O) healthy budget) (GetToken ref ns).
Proof. unfold GetToken. spend. Qed.

Lemma GetToken_settles ref ns :
  credentials (credentials_key ref ns) → settles (O:=O) healthy budget always (GetToken ref ns).
Proof.
  intros Hkey. unfold credentials_key in Hkey.
  unfold GetToken. cbv zeta. apply (settles_bind _ _ holds_token); [spend| |intros data; spend|].
  - by apply settles_wrap, settles_call, recovers_secret.
  - intros data (token & -> & Hne). rewrite bool_decide_eq_false_2 by done. by apply settles_ret.
Qed.
End token.

Section turns.
Context `{CE : ClusterEnvironment}.
Context (cluster : Cluster).
Implicit Types (s : CState) (c : CloudscaleCluster) (w : World).

(** The scope that [reconcileOwned] makes. *)
Definition scopeOf (token : string) : ClusterScope := mkClusterScope P cluster (NewClient token).

(** The calls that store the cluster. *)
Definition persisted (e : Event) : option CloudscaleCluster :=
  match e with EPatchCluster _ c' _ (Ok _) => Some c' | _ => None end.

(** A reconcile of the stored object, and what is stored afterwards. *)
Definition turn (x : CloudscaleCluster * World) : CloudscaleCluster * World :=
  let s' := exec (reconcileOwned cluster) (mkSt x.1 x.2 []) in (stored persisted x.1 (log s'), world s').

(** The reconcile gets past its first lines. *)
Definition active c : Prop :=
  annotations_IsPaused cluster (CloudscaleCluster_Meta c) = false ∧
  credentials (credentials_key (CredentialsSecretRef c) (ObjectMeta_Namespace (CloudscaleCluster_Meta c))).

Abbreviation tspends := (spends (O:=CloudscaleCluster) (Ev:=Event) healthy budget).
Lemma quiet_unpatched evs : Forall quiet evs → Forall (unpatched persisted) evs.
Proof. intros H. eapply Forall_impl; [exact H|]. by intros []. Qed.

(** A turn on an active cluster, by what its body does: the goal [Φ] when nothing
    is spent, and [J] in any case. *)
Lemma turn_cases c w (Φ J : CloudscaleCluster → Prop) :
  healthy w → active c →
  (∀ token s, obj s = unpaused c → tspends s (exec (reconcileBody (scopeOf token)) s)) →
  (∀ token s, healthy (world s) → obj s = unpaused c →
     reaches budget (reconcileBody (scopeOf token)) s (λ _ s', Φ (obj s'))) →
  (∀ token s, obj s = unpaused c → J (obj (exec (reconcileBody (scopeOf token)) s))) →
  let x' := turn (c, w) in
  healthy x'.2 ∧ (x'.1 = c ∨ J x'.1) ∧ (Φ x'.1 ∨ budget x'.2 < budget w).
Proof.
  intros Hh [Hp Hkey] Hsp Hre HJ x'. subst x'. unfold turn, exec, reconcileOwned. rewrite bind_get. cbn [fst snd obj world log].
  rewrite Hp, modify_bind. cbn [obj world log]. fold (unpaused c).
  set (s0 := mkSt (unpaused c) w []).
  destruct (GetToken_spends (CredentialsSecretRef c) (ObjectMeta_Namespace (CloudscaleCluster_Meta c)) s0 Hh)
    as [Hh1 Hle].
  pose proof (GetToken_settles _ _ Hkey s0 Hh) as Htr.
  pose proof (GetToken_silent (CredentialsSecretRef c) (ObjectMeta_Namespace (CloudscaleCluster_Meta c)) s0)
    as (pre & Hl & HF).
  pose proof (GetToken_keeps id (CredentialsSecretRef c) (ObjectMeta_Namespace (CloudscaleCluster_Meta c)) s0)
    as Hk.
  unfold reaches, exec, result, keeps, id in *. unfold wrap, bind, get. simpl in *.
  destruct (GetToken _ _ s0) as [[token|e] s1]; simpl in *.
  2:{ rewrite Hl, stored_unpatched by (by apply quiet_unpatched, silent_quiet). split_and!; [done|by left|right].
      by destruct Htr as [?|(? & [=] & _)]. }
  unfold NewClusterScope. rewrite recovers_helper, Hk. simpl. fold (scopeOf token).
  match goal with |- context [closing (unpaused c) ?m s1] =>
    assert (closing (unpaused c) m s1 =
            patched (patch_Cluster (unpaused c)) (EPatchCluster (unpaused c)) (reconcileBody (scopeOf token)) s1) as ->
      by (assert (∀ A (k : CloudscaleCluster → CM A), bind get k s1 = k (unpaused c) s1) as Hg
            by (intros; by rewrite bind_get, Hk);
          unfold closing, patched, reconcileBody; rewrite Hg; reflexivity)
  end.
  edestruct (patched_reaches healthy budget persisted (patch_Cluster (unpaused c)) (EPatchCluster (unpaused c)))
    with (body := reconcileBody (scopeOf token)) (o := c) (given := True) (s := s1) (J := λ c' (_ : World), c' = c ∨ J c')
    as (Hh2 & Hle2 & HJ' & HΦ); [by intros ? ? []|intros; apply recovers_patch|done|by apply Hsp|
      by intros _; apply (Hre token s1)|by left|right; by apply (HJ token s1)|done|].
  split_and!; [done|done|]. unfold exec in *. destruct (HΦ I) as [?|?]; [right; lia|by left].
Qed.
End turns.
