(* ===== verification/Providing.v ===== *)
(** * What a provisioning relies on

    The environment in which a cluster gets provisioned, as a class: every service
    does its duty or spends budget, a listing by tag shows at most one resource,
    and a resource that was just found or created can be used. Then the two steps
    that all provisioning is made of, finding by tag and creating, in the logic of
    Settling.v, and with them networks and routers. *)

From S2P Require Export Turns.

(** ** Services that provide *)

Section provides.
Context `{E : Environment}.

(** A service whose resources are found by one tag. [absent key value w]: none has
    this tag; [known id w]: the one with this identifier can be used. Creating is
    only safe where a listing has shown nothing, as it could be a second one. *)
Class Provides {Req T : Type} (svc : Service World Req T) (uuid : T → string)
    (reqTags : Req → TagMap) (good : T → Prop) := {
  absent : string → string → World → Prop;
  known : string → World → Prop;
  provides_get id : recovers healthy budget good IsNotFound (svc_Get svc id);
  provides_get_known id w x w' : healthy w → svc_Get svc id w = (Ok x, w') → known id w';
  provides_list key value :
    recovers healthy budget (λ l, length l ≤ 1 ∧ Forall good l) never (svc_List svc {[key := value]});
  provides_list_absent key value w w' :
    healthy w → svc_List svc {[key := value]} w = (Ok [], w') → absent key value w';
  provides_list_known key value w l w' x :
    healthy w → svc_List svc {[key := value]} w = (Ok l, w') → x ∈ l → uuid x ≠ "" ∧ known (uuid x) w';
  provides_create key value req w :
    healthy w → absent key value w → reqTags req = {[key := value]} →
    recovers_at healthy budget good never (svc_Create svc req) w;
  provides_create_known req w x w' :
    healthy w → svc_Create svc req w = (Ok x, w') → uuid x ≠ "" ∧ known (uuid x) w' }.
End provides.

(** ** Finding and creating *)

Section finding.
Context `{E : Environment}.
Context {Req T : Type} (kd : Kind) (svc : Service World Req T) (uuid : T → string)
  {reqTags : Req → TagMap} {good : T → Prop} {HP : Provides svc uuid reqTags good}.
Context (key value : string).
Implicit Types (s : CState).

Abbreviation pspends := (spends (O:=CloudscaleCluster) (Ev:=Event) healthy budget).
Abbreviation preaches := (reaches (O:=CloudscaleCluster) (Ev:=Event) budget).

(** What a lookup comes back with. *)
Definition found s (r : Res (option T * string)) s1 : Prop :=
  healthy (world s1) ∧ budget (world s1) ≤ budget (world s) ∧ obj s1 = obj s ∧
  match r with
  | Ok (Some x, id) => id ≠ "" ∧ known id (world s1) ∧ (budget (world s1) < budget (world s) ∨ good x)
  | Ok (None, id) => id = "" ∧ absent key value (world s1)
  | Err _ => budget (world s1) < budget (world s)
  end.

Definition finds (m : CM (option T * string)) : Prop :=
  ∀ s, healthy (world s) → found s (result m s) (exec m s).

Lemma listByTag_finds name : finds (listByTag kd svc uuid name {[key := value]}).
Proof.
  intros s Hh. destruct (provides_list key value (world s) Hh) as (Hh1 & Hle & Hd).
  pose proof (provides_list_absent key value (world s)) as Ha.
  pose proof (provides_list_known key value (world s)) as Hk.
  unfold found, listByTag, sdk_List, exec, result, bind, wrap, call, throw, ret.
  destruct (svc_List svc {[key := value]} (world s)) as [[l|e] w]; simpl in *.
  - specialize (Hk l w). destruct l as [|x [|y l]]; simpl in *; (split_and!; [done|done|done|..]).
    + done.
    + by apply Ha.
    + apply (Hk x); [done|done|by left].
    + apply (Hk x); [done|done|by left].
    + destruct Hd as [?|[_ Hg]]; [by left|right]. by inversion_clear Hg.
    + destruct Hd as [?|[? _]]; [done|lia].
  - by destruct Hd.
Qed.

Lemma ensureResource_finds id name : finds (ensureResource kd svc uuid id name {[key := value]}).
Proof.
  intros s Hh. pose proof (listByTag_finds name) as Hlist. unfold ensureResource.
  case_bool_decide as Hid; simpl; [by apply Hlist|].
  destruct (provides_get id (world s) Hh) as (Hh1 & Hle & Hd).
  pose proof (provides_get_known id (world s)) as Hk.
  unfold found, finds, sdk_Get, exec, result, bind, try, call, throw, ret in *.
  destruct (svc_Get svc id (world s)) as [[x|e] w]; simpl in *.
  { split_and!; try done. by eapply Hk. }
  destruct (IsNotFound e) eqn:Ee; simpl; [|split_and!; [done..|]; by destruct Hd].
  destruct (Hlist (mkSt (obj s) w (log s ++ [EGet kd id (Err e)])) Hh1) as (H1 & H2 & H3 & H4); simpl in *.
  split_and!; [done|lia|done|].
  destruct (listByTag _ _ _ _ _ _) as [[[[x|] id']|e'] s']; simpl in *; [|done|lia].
  destruct H4 as (? & ? & [?|?]); split_and!; try done; [left; lia|by right].
Qed.

Lemma finds_wrap pre m : finds m → finds (wrap pre m).
Proof.
  intros H s Hh. specialize (H s Hh). unfold found, exec, result, wrap in *.
  by destruct (m s) as [[]].
Qed.

(** Go on with what was found; with nothing found, creating is safe. *)
Lemma finds_spends {B} m (cont : option T * string → CM B) s :
  finds m → (∀ x id, id ≠ "" → respects pspends (cont (Some x, id))) →
  (∀ s1, obj s1 = obj s → absent key value (world s1) → pspends s1 (exec (cont (None, "")) s1)) →
  pspends s (exec (bind m cont) s).
Proof.
  intros Hm Hsome Hnone Hh. destruct (Hm s Hh) as (Hh1 & Hle & Ho & Hr).
  unfold exec, result, bind in *. destruct (m s) as [[[[x|] id]|e] s1]; simpl in *; [| |done].
  - destruct Hr as (Hid & _). destruct (Hsome x id Hid s1 Hh1). unfold exec in *. split; [done|lia].
  - destruct Hr as [-> Ha]. destruct (Hnone s1 Ho Ha Hh1). unfold exec in *. split; [done|lia].
Qed.

Lemma finds_reaches {B} m (cont : option T * string → CM B) s Φ :
  healthy (world s) → finds m → (∀ x id, id ≠ "" → respects pspends (cont (Some x, id))) →
  (∀ x id s1, healthy (world s1) → obj s1 = obj s → id ≠ "" → known id (world s1) → good x →
     preaches (cont (Some x, id)) s1 Φ) →
  (∀ s1, healthy (world s1) → obj s1 = obj s → absent key value (world s1) →
     preaches (cont (None, "")) s1 Φ) →
  preaches (bind m cont) s Φ.
Proof.
  intros Hh Hm Hsome Hsome' Hnone'. destruct (Hm s Hh) as (Hh1 & Hle & Ho & Hr).
  unfold reaches, exec, result, bind in *.
  destruct (m s) as [[[[x|] id]|e] s1]; simpl in *; [| |by left].
  - destruct Hr as (Hid & Hk & Hg). destruct (Hsome x id Hid s1 Hh1) as [_ Hle']. unfold exec in Hle'.
    destruct Hg as [?|Hg]; [left; lia|]. destruct (Hsome' x id s1) as [?|?]; [done..|left; lia|by right].
  - destruct Hr as [-> Ha]. destruct (Hnone' s1) as [?|?]; [done..|left; lia|by right].
Qed.

Lemma create_spends {B} mk req (cont : Res T → CM B) s :
  absent key value (world s) → reqTags req = {[key := value]} → (∀ r, respects pspends (cont r)) →
  pspends s (exec (bind (try (sdk_Create svc mk uuid req)) cont) s).
Proof.
  intros Ha Ht Hc Hh. destruct (provides_create key value req (world s) Hh Ha Ht) as (Hh1 & Hle & _).
  unfold sdk_Create, exec, bind, try, call. destruct (svc_Create svc req (world s)) as [r w]; simpl in *.
  destruct (Hc r (mkSt (obj s) w (log s ++ [ECreate (mk req) (res_map uuid r)])) Hh1). unfold exec in *. simpl in *.
  split; [done|lia].
Qed.

Lemma create_reaches {B} mk req (cont : Res T → CM B) s Φ :
  healthy (world s) → absent key value (world s) → reqTags req = {[key := value]} →
  (∀ r, respects pspends (cont r)) →
  (∀ x s1, healthy (world s1) → obj s1 = obj s → good x → uuid x ≠ "" → known (uuid x) (world s1) →
     preaches (cont (Ok x)) s1 Φ) →
  preaches (bind (try (sdk_Create svc mk uuid req)) cont) s Φ.
Proof.
  intros Hh Ha Ht Hc Hok. apply (reaches_inspect healthy _ good never); [by eapply provides_create|done| |done].
  intros x w Hx Hw Hg. destruct (provides_create_known req (world s) x w Hh Hx). by apply Hok.
Qed.

(** The shape of networks and subnets: a creation that may ask for another turn. *)
Section find_create.
Context {A : Type} (g : option T → string → A) (creation : CM (flow A)) (cont : A → CM Result).
Context (Hcreation : ∀ s, absent key value (world s) → pspends s (exec creation s)).
Context (Hcont : ∀ a, respects pspends (cont a)).

Definition find_create (m : CM (option T * string)) : CM Result :=
  bind m (λ '(x, id), bind_flow (if id == "" then creation else ret (Next (g x id))) cont).

Lemma bind_flow_spends (m : CM (flow A)) s : pspends s (exec m s) → pspends s (exec (bind_flow m cont) s).
Proof.
  intros Hm Hh. destruct (Hm Hh) as [Hh1 Hle]. unfold exec, bind_flow, bind, ret in *.
  destruct (m s) as [[[r|a]|e] s1]; simpl in *; [done| |done].
  destruct (Hcont a s1 Hh1). unfold exec in *. split; [done|lia].
Qed.

Lemma find_create_spends m : finds m → respects pspends (find_create m).
Proof.
  intros Hm s. apply finds_spends; [done|..]; simpl.
  - intros x id Hid s1. rewrite bool_decide_eq_false_2 by done. by apply bind_flow_spends.
  - intros s1 _ Ha. by apply bind_flow_spends, Hcreation.
Qed.

Lemma find_create_reaches m s (Ψ : A → Prop) Φ :
  healthy (world s) → finds m → (∀ x id, id ≠ "" → Ψ (g (Some x) id)) →
  (∀ s1, healthy (world s1) → obj s1 = obj s → absent key value (world s1) →
     preaches creation s1 (λ f s2, ∃ a, f = Next a ∧ Ψ a ∧ obj s2 = obj s)) →
  (∀ a s1, healthy (world s1) → obj s1 = obj s → Ψ a → preaches (cont a) s1 Φ) →
  preaches (find_create m) s Φ.
Proof.
  intros Hh Hm HΨ Hcr Hk. apply finds_reaches; [done|done|..]; simpl.
  - intros x id Hid s1. rewrite bool_decide_eq_false_2 by done. by apply bind_flow_spends.
  - intros x id s1 Hh1 Ho Hid _ _. rewrite bool_decide_eq_false_2 by done.
    apply reaches_bind_ret. apply Hk; auto.
  - intros s1 Hh1 Ho Ha.
    apply (reaches_bind healthy _ _ _ _ (λ f s2, ∃ a, f = Next a ∧ Ψ a ∧ obj s2 = obj s)); [done|auto| |auto|].
    + intros [r|a]; [apply respects_ret; apply _|auto].
    + intros f s2 Hh2 _ _ (a & -> & Ha' & Ho'). by apply Hk.
Qed.
End find_create.
End finding.

(** ** The environment of a provisioning *)

(** The members of a pool: [present pool id w] says that a member can be updated
    and deleted, as those can that were just listed. *)
Class ProvidesMembers `{E : Environment} (svc : LoadBalancerPoolMemberService World) := {
  present : string → string → World → Prop;
  members_list pool :
    recovers healthy budget (λ l, NoDup (LoadBalancerPoolMember_UUID <$> l)) never (member_List svc pool);
  members_create pool req : recovers healthy budget always never (member_Create svc pool req);
  members_update pool id req : gentle healthy budget (member_Update svc pool id req);
  members_delete pool id : gentle healthy budget (member_Delete svc pool id);
  members_updates pool id req w : healthy w → present pool id w →
    recovers_at healthy budget always never (member_Update svc pool id req) w;
  members_deletes pool id w : healthy w → present pool id w →
    recovers_at healthy budget always never (member_Delete svc pool id) w;
  present_list pool w l w' m : healthy w →
    member_List svc pool w = (Ok l, w') → m ∈ l → present pool (LoadBalancerPoolMember_UUID m) w';
  present_machines pool id ns labels w :
    present pool id w → present pool id (snd (kube_ListCloudscaleMachines ns labels w));
  present_create pool id req w x w' :
    present pool id w → member_Create svc pool req w = (Ok x, w') → present pool id w';
  present_update pool id id' req w w' :
    present pool id w → member_Update svc pool id' req w = (Ok (), w') → present pool id w';
  present_delete pool id id' w w' :
    present pool id w → id ≠ id' → member_Delete svc pool id' w = (Ok (), w') → present pool id w' }.

(** Routers count as good once they are active, load balancers once they run and
    have an address; until then a look at them spends budget. Answers about
    machines leave the floating IP alone, and finalizers do not pause a cluster. *)
Class Providing `{CE : ClusterEnvironment} := {
  providing_paused cluster fs meta :
    annotations_IsPaused cluster (set_ObjectMeta_Finalizers fs meta) = annotations_IsPaused cluster meta;
  providing_NetworkIDs token :: NetworkIDs (NewClient token);
  providing_RouterIDs token :: RouterIDs (NewClient token);
  providing_LBIDs token :: LBIDs (NewClient token);
  providing_FloatingIPIDs token :: FloatingIPIDs (NewClient token);
  providing_networks token :: Provides (Networks (NewClient token)) Network_UUID NetworkCreateRequest_Tags always;
  providing_subnets token :: Provides (Subnets (NewClient token)) Subnet_UUID SubnetCreateRequest_Tags always;
  providing_routers token :: Provides (router_service (Routers (NewClient token))) Router_UUID
    RouterCreateRequest_Tags (λ r, Router_Status r = RouterActive);
  providing_iface token router req :
    recovers healthy budget always never (router_CreateInterface (Routers (NewClient token)) router req);
  providing_lbs token :: Provides (LoadBalancers (NewClient token)) LoadBalancer_UUID
    LoadBalancerRequest_Tags always;
  providing_lb_running token id w : healthy w → known (svc:=LoadBalancers (NewClient token)) id w →
    recovers_at healthy budget
      (λ lb, LoadBalancer_Status lb = LoadBalancerRunningStatus ∧
             match LoadBalancer_VIPAddresses lb with a :: _ => a ≠ "" | [] => False end)
      never (svc_Get (LoadBalancers (NewClient token)) id) w;
  providing_pools token :: Provides (LoadBalancerPools (NewClient token)) LoadBalancerPool_UUID
    LoadBalancerPoolRequest_Tags always;
  providing_listeners token :: Provides (LoadBalancerListeners (NewClient token)) LoadBalancerListener_UUID
    LoadBalancerListenerRequest_Tags always;
  providing_monitors token :: Provides (LoadBalancerHealthMonitors (NewClient token))
    LoadBalancerHealthMonitor_UUID LoadBalancerHealthMonitorRequest_Tags always;
  providing_machines ns labels :
    recovers healthy budget always never (kube_ListCloudscaleMachines ns labels);
  providing_members token :: ProvidesMembers (LoadBalancerPoolMembers (NewClient token));
  providing_fips token :: Provides (fip_service (FloatingIPs (NewClient token))) FloatingIP_IP
    FloatingIPCreateRequest_Tags always;
  providing_fip_update token ip req : gentle healthy budget (fip_Update (FloatingIPs (NewClient token)) ip req);
  providing_fip_updates token ip req w : healthy w →
    known (svc:=fip_service (FloatingIPs (NewClient token))) ip w →
    recovers_at healthy budget always never (fip_Update (FloatingIPs (NewClient token)) ip req) w;
  known_machines token ip ns labels w :
    known (svc:=fip_service (FloatingIPs (NewClient token))) ip w →
    known (svc:=fip_service (FloatingIPs (NewClient token))) ip (snd (kube_ListCloudscaleMachines ns labels w));
  absent_machines token key value ns labels w :
    absent (svc:=fip_service (FloatingIPs (NewClient token))) key value w →
    absent (svc:=fip_service (FloatingIPs (NewClient token))) key value
      (snd (kube_ListCloudscaleMachines ns labels w)) }.

#[export] Instance scope_NetworkIDs `{R : Providing} cluster token :
  NetworkIDs (scope_Client (scopeOf cluster token)) := providing_NetworkIDs token.
#[export] Instance scope_RouterIDs `{R : Providing} cluster token :
  RouterIDs (scope_Client (scopeOf cluster token)) := providing_RouterIDs token.
#[export] Instance scope_LBIDs `{R : Providing} cluster token :
  LBIDs (scope_Client (scopeOf cluster token)) := providing_LBIDs token.
#[export] Instance scope_FloatingIPIDs `{R : Providing} cluster token :
  FloatingIPIDs (scope_Client (scopeOf cluster token)) := providing_FloatingIPIDs token.

#[export] Hint Resolve providing_iface providing_machines providing_fip_update : recovery.
#[export] Hint Extern 1 (recovers _ _ _ _ (member_List _ _)) => apply members_list : recovery.
#[export] Hint Extern 1 (recovers _ _ _ _ (member_Create _ _ _)) => apply members_create : recovery.
#[export] Hint Extern 0 (gentle _ _ (member_Update _ _ _ _)) => apply members_update : recovery.
#[export] Hint Extern 0 (gentle _ _ (member_Delete _ _ _)) => apply members_delete : recovery.
#[export] Hint Extern 1 (recovers _ _ _ _ (svc_Get _ _)) => apply provides_get : recovery.

(** ** Networks *)

Section networks.
Context `{R : Providing}.
Context (cluster : Cluster) (token : string).
Implicit Types (s : CState) (c : CloudscaleCluster).
Abbreviation sc := (scopeOf cluster token).
Abbreviation pspends := (spends (O:=CloudscaleCluster) (Ev:=Event) healthy budget).
Abbreviation preaches := (reaches (O:=CloudscaleCluster) (Ev:=Event) budget).
Abbreviation owner := (NameCloudscaleProviderOwned +:+ Cluster_Name cluster).

Lemma createNetwork_spends n s :
  absent (svc:=Networks (NewClient token)) owner (NetworkSpec_Name n) (world s) →
  pspends s (exec (createNetwork sc n (networkTags sc (NetworkSpec_Name n))) s).
Proof.
  intros Ha. unfold createNetwork. rewrite exec_get. eapply create_spends; [done|done|].
  intros [x|e]; unfold Eventf; spend.
Qed.

Lemma createSubnet_spends n nid s :
  absent (svc:=Subnets (NewClient token)) owner (NetworkSpec_Name n) (world s) →
  pspends s (exec (createSubnet sc n nid (networkTags sc (NetworkSpec_Name n))) s).
Proof.
  intros Ha. unfold createSubnet. eapply create_spends; [done|done|]. intros [x|e]; unfold Eventf; spend.
Qed.

(** A managed network is two rounds of finding or creating. *)
Definition record_network n nid (network : option Network) (sid : string) : CM Result :=
  let! network := deref network in
  modify (setNetworkStatus (NetworkSpec_Name n) nid sid (NetworkSpec_CIDR n) true (Network_MTU network)) ;;!
  ret emptyResult.
Definition find_subnet n (subnetID : string) (x : option Network * string) : CM Result :=
  find_create (λ _ id, id) (createSubnet sc n x.2 (networkTags sc (NetworkSpec_Name n)))
    (record_network n x.2 x.1)
    (ensureResource KSubnet (Subnets (NewClient token)) Subnet_UUID subnetID
       ("subnet/" +:+ NetworkSpec_Name n) {[owner := NetworkSpec_Name n]}).

Lemma reconcileManagedNetwork_shape n s :
  ∃ nid sid, reconcileManagedNetwork sc n s =
    find_create pair (createNetwork sc n (networkTags sc (NetworkSpec_Name n))) (find_subnet n sid)
      (ensureResource KNetwork (Networks (NewClient token)) Network_UUID nid
         ("network/" +:+ NetworkSpec_Name n) {[owner := NetworkSpec_Name n]}) s.
Proof.
  set (ns := GetNetworkStatus (status (obj s)) (NetworkSpec_Name n)).
  exists (match ns with Some ns => NetworkStatus_NetworkID ns | None => "" end),
    (match ns with Some ns => NetworkStatus_SubnetID ns | None => "" end).
  unfold reconcileManagedNetwork, find_create, find_subnet, bind_flow. rewrite bind_get. unfold bind.
  destruct (ensureResource KNetwork _ _ _ _ _ s) as [[[x id]|e] s1]; [|reflexivity]. simpl.
  destruct (_ s1) as [[[r|[y nid]]|e] s2]; reflexivity.
Qed.

Lemma find_subnet_spends n sid x : respects pspends (find_subnet n sid x).
Proof.
  apply (find_create_spends _ _ (HP:=providing_subnets token) owner (NetworkSpec_Name n)).
  - intros s. apply createSubnet_spends.
  - intros a. unfold record_network. spend.
  - apply ensureResource_finds.
Qed.

Lemma reconcileManagedNetwork_spends n : respects pspends (reconcileManagedNetwork sc n).
Proof.
  intros s. unfold exec. destruct (reconcileManagedNetwork_shape n s) as (nid & sid & ->).
  apply (find_create_spends _ _ (HP:=providing_networks token) owner (NetworkSpec_Name n)).
  - intros s1. apply createNetwork_spends.
  - intros a. apply find_subnet_spends.
  - apply ensureResource_finds.
Qed.

Lemma createNetwork_reaches n s :
  healthy (world s) → absent (svc:=Networks (NewClient token)) owner (NetworkSpec_Name n) (world s) →
  preaches (createNetwork sc n (networkTags sc (NetworkSpec_Name n))) s
    (λ f s2, ∃ a, f = Next a ∧ is_Some a.1 ∧ obj s2 = obj s).
Proof.
  intros Hh Ha. unfold createNetwork. apply reaches_bind_get. cbv zeta.
  eapply create_reaches; [done|done|done|intros [x|e]; unfold Eventf; spend|].
  intros x s1 _ Ho _ _ _. apply reaches_bind_emit, reaches_ret. eexists. by split_and!.
Qed.

Lemma createSubnet_reaches n nid s :
  healthy (world s) → absent (svc:=Subnets (NewClient token)) owner (NetworkSpec_Name n) (world s) →
  preaches (createSubnet sc n nid (networkTags sc (NetworkSpec_Name n))) s
    (λ f s2, ∃ a, f = Next a ∧ True ∧ obj s2 = obj s).
Proof.
  intros Hh Ha. unfold createSubnet.
  eapply create_reaches; [done|done|done|intros [x|e]; unfold Eventf; spend|].
  intros x s1 _ Ho _ _ _. apply reaches_bind_emit, reaches_ret. eexists. by split_and!.
Qed.

Lemma find_subnet_reaches n sid x s :
  healthy (world s) → is_Some x.1 → preaches (find_subnet n sid x) s (λ r _, r = emptyResult).
Proof.
  intros Hh [y Hy].
  apply (find_create_reaches _ _ (HP:=providing_subnets token) owner (NetworkSpec_Name n)) with (Ψ := always).
  - intros s1. apply createSubnet_spends.
  - intros a. unfold record_network. spend.
  - done.
  - apply ensureResource_finds.
  - done.
  - intros s1 Hh1 Ho Ha. rewrite <- Ho. by apply createSubnet_reaches.
  - intros a s1 _ _ _. unfold record_network. rewrite Hy. right. by exists emptyResult.
Qed.

(** A managed network is provisioned, or budget was spent. *)
Lemma reconcileManagedNetwork_settles n :
  settles healthy budget (λ r, r = emptyResult) (reconcileManagedNetwork sc n).
Proof.
  intros s Hh. destruct (reconcileManagedNetwork_shape n s) as (nid & sid & Es).
  apply (reaches_run _ _ _ _ _ Es).
  apply (find_create_reaches _ _ (HP:=providing_networks token) owner (NetworkSpec_Name n)) with
    (Ψ := λ a, is_Some a.1).
  - intros s1. apply createNetwork_spends.
  - intros a. apply find_subnet_spends.
  - done.
  - apply ensureResource_finds.
  - by eexists.
  - intros s1 Hh1 Ho Ha. rewrite <- Ho. by apply createNetwork_reaches.
  - intros a s1 Hh1 _ Ha. by apply find_subnet_reaches.
Qed.

Definition managed_networks c : Prop :=
  CloudscaleClusterSpec_Networks (spec c) ≠ [] ∧
  Forall (λ n, NetworkSpec_UUID n = "") (CloudscaleClusterSpec_Networks (spec c)).

Lemma reconcileOneNetwork_spends n : respects pspends (reconcileOneNetwork sc n).
Proof.
  unfold reconcileOneNetwork, reconcilePreExistingNetwork, sdk_Get. spend.
  apply reconcileManagedNetwork_spends.
Qed.

Lemma reconcileNetwork_spends : respects pspends (reconcileNetwork sc).
Proof. unfold reconcileNetwork, reconcileNetworks. spend; apply reconcileOneNetwork_spends. Qed.

(** All networks are provisioned, or budget was spent. *)
Lemma reconcileNetwork_reaches s :
  healthy (world s) → managed_networks (obj s) → preaches (reconcileNetwork sc) s (λ r _, r = emptyResult).
Proof.
  intros Hh [Hne Hm]. rewrite Forall_forall in Hm. unfold reconcileNetwork, reconcileNetworks.
  apply reaches_deferred, reaches_bind_get. destruct (CloudscaleClusterSpec_Networks _) as [|n ns]; [done|].
  apply (settles_bind_flow healthy); [|apply settles_foreach| |by apply settles_ret|done].
  - spend; apply reconcileOneNetwork_spends.
  - apply reconcileOneNetwork_spends.
  - intros x Hx. unfold reconcileOneNetwork. rewrite Hm by done. simpl. unfold returning.
    apply (settles_bind _ _ (λ r, r = emptyResult)); [spend; apply reconcileManagedNetwork_spends| |intros; spend|].
    + apply settles_wrap, reconcileManagedNetwork_settles.
    + intros r Hr. cbv beta in Hr. subst r. by apply settles_ret.
  - intros; spend.
Qed.
End networks.

(** ** Routers *)

Section routers.
Context `{R : Providing}.
Context (cluster : Cluster) (token : string).
Implicit Types (s : CState) (c : CloudscaleCluster) (x : RouterSpec) (i : RouterInterfaceSpec).
Abbreviation sc := (scopeOf cluster token).
Abbreviation pspends := (spends (O:=CloudscaleCluster) (Ev:=Event) healthy budget).
Abbreviation preaches := (reaches (O:=CloudscaleCluster) (Ev:=Event) budget).

Lemma ensureManagedRouter_spends x : respects pspends (ensureManagedRouter sc x).
Proof.
  unfold ensureManagedRouter. apply respects_bind; [apply _|apply respects_get; apply _|intros c]. cbv zeta.
  intros s. eapply finds_spends; [apply finds_wrap, ensureResource_finds|..]; simpl.
  - intros r id Hid. rewrite bool_decide_eq_false_2 by done. simpl. spend.
  - intros s1 _ Ha. eapply create_spends; [done|done|]. unfold requeueOnTimeout, Eventf.
    intros [r|e]; spend.
Qed.

Lemma ensureManagedRouter_reaches x s :
  healthy (world s) →
  preaches (ensureManagedRouter sc x) s (λ a s', obj s' = obj s ∧
    ∃ router, a = (Some router, emptyResult) ∧ Router_Status router = RouterActive).
Proof.
  intros Hh. unfold ensureManagedRouter. apply reaches_bind_get. cbv zeta.
  eapply finds_reaches; [done|apply finds_wrap, ensureResource_finds|..]; simpl.
  - intros r id Hid. rewrite bool_decide_eq_false_2 by done. simpl. spend.
  - intros r id s1 _ Ho Hid _ Hg. rewrite bool_decide_eq_false_2 by done. simpl.
    apply reaches_ret. split; [done|]. by exists r.
  - intros s1 Hh1 Ho Ha. eapply create_reaches; [done|done|done|unfold requeueOnTimeout, Eventf; intros [r|e]; spend|].
    intros r s2 _ Ho2 Hg _ _. apply reaches_bind_emit, reaches_ret. simpl. split; [congruence|]. by exists r.
Qed.

(** *** Interfaces *)

Lemma claimRouterInterface_spends x i ns live : respects pspends (claimRouterInterface x i ns live).
Proof. unfold claimRouterInterface, recordInterface, Eventf. spend. Qed.
Lemma createRouterInterface_spends x router i ns : respects pspends (createRouterInterface sc x router i ns).
Proof. unfold createRouterInterface, recordInterface, requeueOnTimeout, Eventf. spend. Qed.

Lemma reconcileRouterInterface_spends x router i : respects pspends (reconcileRouterInterface sc x router i).
Proof.
  unfold reconcileRouterInterface, adoptRouterInterface, recordInterface.
  spend; auto using claimRouterInterface_spends, createRouterInterface_spends.
Qed.

(** What the interface loop finds in the object, and leaves there. *)
Definition attaching x (nets : list NetworkStatus) (rid : string) s : Prop :=
  CloudscaleClusterStatus_Networks (status (obj s)) = nets ∧
  router_view (obj s) (RouterSpec_Name x) = Some (rid, true).

Lemma attaching_record x nets rid net id s :
  attaching x nets rid s →
  attaching x nets rid
    (mkSt (setRouterInterfaceStatus (RouterSpec_Name x) net id true (obj s)).2 (world s) (log s)).
Proof.
  intros [<- Hv]. destruct (setRouterInterfaceStatus_set (RouterSpec_Name x) net id true (obj s))
    as (_ & Hn & Hw & _); [by rewrite Hv|]. split; [done|]. simpl. by rewrite Hw.
Qed.

Lemma reaches_record {B} name net id m (k : bool → CM B) s Φ :
  (let p := setRouterInterfaceStatus name net id m (obj s) in
   preaches (k p.1) (mkSt p.2 (world s) (log s)) Φ) →
  preaches (bind (recordInterface name net id m) k) s Φ.
Proof.
  intros H. unfold reaches, exec, result in *.
  by rewrite (bind_ok _ _ _ _ _ (recordInterface_run name net id m s)).
Qed.

Lemma claimRouterInterface_reaches x i ns live nets rid s :
  attaching x nets rid s → preaches (claimRouterInterface x i ns live) s (λ _ s', attaching x nets rid s').
Proof.
  intros Ha. unfold claimRouterInterface, Eventf. apply reaches_bind_get.
  destruct Ha as [Hn Hv]. unfold router_view in Hv. destruct (GetRouterStatus _ _) as [rs|] eqn:Hrs; [|done].
  simpl in Hv. injection Hv as Hid Hm. apply reaches_bind_ret. rewrite Hm, andb_false_r.
  apply reaches_record. cbv zeta.
  assert (attaching x nets rid s) as Ha by (split; [done|unfold router_view; by rewrite Hrs; simpl; rewrite Hid, Hm]).
  apply (attaching_record _ _ _ (NetworkStatus_Name ns) (RouterInterface_UUID live)) in Ha.
  destruct (_ && _); [apply reaches_bind_emit|apply reaches_bind_ret]; by apply reaches_ret.
Qed.

Lemma createRouterInterface_reaches x router i ns nets rid s :
  healthy (world s) → attaching x nets rid s →
  preaches (createRouterInterface sc x router i ns) s (λ r s', r = emptyResult ∧ attaching x nets rid s').
Proof.
  intros Hh Ha. unfold createRouterInterface, Eventf. apply reaches_record. cbv zeta.
  apply (attaching_record _ _ _ (NetworkStatus_Name ns) "") in Ha.
  eapply (reaches_inspect healthy); [by apply providing_iface| | |done].
  - unfold requeueOnTimeout, recordInterface. intros [r|e]; spend.
  - intros created w _ Hw _. simpl. apply reaches_record. cbv zeta. simpl.
    apply reaches_bind_emit, reaches_ret. split; [done|].
    by apply (attaching_record _ _ _ (NetworkStatus_Name ns) (RouterInterface_UUID created)) in Ha.
Qed.

Lemma reconcileRouterInterface_reaches x router i nets rid s :
  healthy (world s) → RouterInterfaceSpec_UUID i = "" →
  is_Some (find_by NetworkStatus_Name (RouterInterfaceSpec_Network i) nets) → attaching x nets rid s →
  preaches (reconcileRouterInterface sc x router i) s (λ f s', goes_on f ∧ attaching x nets rid s').
Proof.
  intros Hh Hu [ns Hns] Ha. unfold reconcileRouterInterface. cbv zeta. apply reaches_bind_get.
  unfold GetNetworkStatus. rewrite (proj1 Ha), Hns, Hu. simpl. destruct (index_by _ _ !! _) as [live|].
  - apply (reaches_bind healthy _ _ _ _ (λ _ s', attaching x nets rid s')); [done|..].
    + by apply claimRouterInterface_spends.
    + intros; spend.
    + by apply claimRouterInterface_reaches.
    + intros a s1 _ _ _ Ha1. by apply reaches_ret.
  - unfold returning. apply (reaches_bind healthy _ _ _ _ (λ r s', r = emptyResult ∧ attaching x nets rid s')); [done|..].
    + by apply createRouterInterface_spends.
    + intros; spend.
    + by apply createRouterInterface_reaches.
    + intros a s1 _ _ _ [-> Ha1]. by apply reaches_ret.
Qed.

Lemma reconcileRouterInterfaces_spends x router : respects pspends (reconcileRouterInterfaces sc x router).
Proof. unfold reconcileRouterInterfaces. spend. apply reconcileRouterInterface_spends. Qed.

Lemma reconcileRouterInterfaces_reaches x router nets rid s :
  healthy (world s) →
  (∀ i, i ∈ RouterSpec_Interfaces x → RouterInterfaceSpec_UUID i = "" ∧
     is_Some (find_by NetworkStatus_Name (RouterInterfaceSpec_Network i) nets)) →
  attaching x nets rid s →
  preaches (reconcileRouterInterfaces sc x router) s (λ r s',
    r = emptyResult ∧ CloudscaleClusterStatus_Networks (status (obj s')) = nets).
Proof.
  intros Hh Hi Ha. unfold reconcileRouterInterfaces. apply reaches_bind_get.
  destruct (view_entry (obj s) (RouterSpec_Name x)) as [rs ->]; [by rewrite (proj2 Ha)|].
  apply (reaches_bind_flow healthy _ _ _ _ (attaching x nets rid)); [done|..].
  - apply respects_foreach; [apply _|]. intros i _. apply reconcileRouterInterface_spends.
  - intros; spend.
  - apply (reaches_foreach healthy _ (λ _, attaching x nets rid)); [done| |done|].
    + intros i. apply reconcileRouterInterface_spends.
    + intros i rest s1 Hin Hh1 Ha1. destruct (Hi i Hin). by apply reconcileRouterInterface_reaches.
  - intros s1 _ [Hn _]. by apply reaches_ret.
Qed.

(** *** One router, all routers *)

Lemma reconcileRouter_spends x : respects pspends (reconcileRouter sc x).
Proof.
  unfold reconcileRouter, adoptRouter, sdk_Get.
  spend; auto using ensureManagedRouter_spends, reconcileRouterInterfaces_spends.
Qed.

(** A router that is created and deleted with the cluster, attached to networks
    that it knows. *)
Definition managed_router (known : string → Prop) x : Prop :=
  RouterSpec_UUID x = "" ∧
  ∀ i, i ∈ RouterSpec_Interfaces x → RouterInterfaceSpec_UUID i = "" ∧ known (RouterInterfaceSpec_Network i).

Lemma reconcileRouter_reaches x nets s :
  healthy (world s) → managed_router (λ n, is_Some (find_by NetworkStatus_Name n nets)) x →
  CloudscaleClusterStatus_Networks (status (obj s)) = nets →
  preaches (reconcileRouter sc x) s (λ r s',
    r = emptyResult ∧ CloudscaleClusterStatus_Networks (status (obj s')) = nets).
Proof.
  intros Hh [Hu Hi] Hn. unfold reconcileRouter. rewrite Hu. simpl.
  apply (reaches_bind healthy _ _ _ _ (λ a s', obj s' = obj s ∧
    ∃ router, a = (Some router, emptyResult) ∧ Router_Status router = RouterActive)); [done|..].
  - apply ensureManagedRouter_spends.
  - intros [o r]. spend. apply reconcileRouterInterfaces_spends.
  - by apply ensureManagedRouter_reaches.
  - intros a s1 Hh1 _ _ (Ho & router & -> & Hact). simpl. apply reaches_bind_ret, reaches_bind_modify.
    rewrite Hact, bool_decide_eq_true_2 by done. simpl.
    apply (reconcileRouterInterfaces_reaches _ _ _ (Router_UUID router)); [done|done|].
    split; [by rewrite Ho|]. simpl. by rewrite router_view_set_eq, Hu, bool_decide_eq_true_2.
Qed.

Lemma reconcileRouters_spends : respects pspends (reconcileRouters sc).
Proof. unfold reconcileRouters, reconcileRoutersLoop. spend. apply reconcileRouter_spends. Qed.

(** All routers are provisioned and attached, or budget was spent. *)
Lemma reconcileRouters_reaches s :
  healthy (world s) →
  (∀ x, x ∈ CloudscaleClusterSpec_Routers (spec (obj s)) →
     managed_router (λ n, is_Some (GetNetworkStatus (status (obj s)) n)) x) →
  preaches (reconcileRouters sc) s (λ r _, r = emptyResult).
Proof.
  intros Hh Hx. unfold reconcileRouters, reconcileRoutersLoop.
  apply reaches_deferred, reaches_bind_get. unfold GetNetworkStatus in Hx.
  set (nets := CloudscaleClusterStatus_Networks (status (obj s))) in *.
  eapply reaches_weaken; [apply (reaches_foldM healthy _ (λ r s', r = emptyResult ∧
    CloudscaleClusterStatus_Networks (status (obj s')) = nets)); [done| |done|]|by intros a _ [-> _]].
  - intros r x. spend. apply reconcileRouter_spends.
  - intros r x s1 Hin Hh1 [-> Hn1].
    apply (reaches_bind healthy _ _ _ _ (λ r s', r = emptyResult ∧
      CloudscaleClusterStatus_Networks (status (obj s')) = nets)); [done|..].
    + apply respects_wrap, reconcileRouter_spends.
    + intros; spend.
    + apply reaches_wrap, reconcileRouter_reaches; auto.
    + intros r s2 _ _ _ [-> Hn2]. by apply reaches_ret.
Qed.
End routers.
