(* ===== verification/Termination.v ===== *)
(** * Deletion terminates

    A cluster that is being deleted is reconciled again and again, each time with
    an error or a request for another turn, until nothing is left. This file shows
    that this ends: the cloud and the API server may fail, lose answers and refuse
    deletions in any order, but if they do so only finitely often, then after
    that many turns and one more the cluster's finalizer is gone.

    "Finitely often" is a budget that the environment has ([Recovering]): a call
    that does not do its duty spends some of it. *)

From S2P Require Export Turns.

(** ** The environment of a deletion *)

(** Machines are gone sooner or later, and deleting what is gone already is no
    failure. *)
Class Recovering `{CE : ClusterEnvironment} := {
  recovers_machines ns labels :
    recovers healthy budget (Forall (λ m, serverID m = "")) never (kube_ListCloudscaleMachines ns labels);
  recovers_fip token id :
    recovers healthy budget always IsNotFound (svc_Delete (fip_service (FloatingIPs (NewClient token))) id);
  recovers_lb token id :
    recovers healthy budget always IsNotFound (svc_Delete (LoadBalancers (NewClient token)) id);
  recovers_groups token tags :
    recovers healthy budget always never (svc_List (ServerGroups (NewClient token)) tags);
  recovers_group token id :
    recovers healthy budget always IsNotFound (svc_Delete (ServerGroups (NewClient token)) id);
  recovers_router_get token id :
    recovers healthy budget always IsNotFound (svc_Get (router_service (Routers (NewClient token))) id);
  recovers_iface token router id :
    recovers healthy budget always IsNotFound (router_DeleteInterface (Routers (NewClient token)) router id);
  recovers_router token id :
    recovers healthy budget always IsNotFound (svc_Delete (router_service (Routers (NewClient token))) id);
  recovers_network token id :
    recovers healthy budget always (λ e, IsNotFound e && negb (isLBPoolMembersError e))
      (svc_Delete (Networks (NewClient token)) id) }.

#[export] Hint Resolve recovers_machines recovers_fip recovers_lb
  recovers_groups recovers_group recovers_router_get recovers_iface recovers_router recovers_network : recovery.

Section deletion.
Context `{R : Recovering}.
Context (cluster : Cluster) (token : string).
Implicit Types (s : CState) (c : CloudscaleCluster).

Abbreviation dscope := (scopeOf cluster token).

Abbreviation ssettles := (settles (O:=CloudscaleCluster) (Ev:=Event) healthy budget).
Abbreviation sspends := (spends (O:=CloudscaleCluster) (Ev:=Event) healthy budget).

(** *** Floating IP and load balancer *)

Lemma deleteFloatingIP_spends : respects sspends (deleteFloatingIP dscope).
Proof. unfold deleteFloatingIP, deleteFIPBody, sdk_Delete, Eventf. spend. Qed.
Lemma deleteLoadBalancer_spends : respects sspends (deleteLoadBalancer dscope).
Proof. unfold deleteLoadBalancer, deleteLBBody, sdk_Delete, Eventf. spend. Qed.
Lemma deleteServerGroups_spends : respects sspends (deleteServerGroups dscope).
Proof.
  unfold deleteServerGroups, getOwnedServerIDs, deleteServerGroup, listMachines, sdk_ListGroups, sdk_Delete. spend.
Qed.
Lemma deleteInterfaceStep_spends rs router acc i :
  respects sspends (deleteInterfaceStep dscope rs router acc i).
Proof. unfold deleteInterfaceStep. spend. Qed.
Lemma deleteRouterStep_spends acc rs : respects sspends (deleteRouterStep dscope acc rs).
Proof.
  unfold deleteRouterStep, deleteRouterInterfaces, sdk_Get, sdk_Delete, Eventf. spend.
  all: apply deleteInterfaceStep_spends.
Qed.
Lemma deleteNetworkStep_spends acc ns : respects sspends (deleteNetworkStep dscope acc ns).
Proof. unfold deleteNetworkStep, sdk_Delete, Eventf. spend. Qed.
Lemma reconcileDelete_spends : respects sspends (reconcileDelete dscope).
Proof.
  unfold reconcileDelete, retryOn, deleteRouters, deleteRoutersLoop, deleteNetwork, deleteNetworks. spend.
  all: auto using deleteFloatingIP_spends, deleteLoadBalancer_spends, deleteServerGroups_spends,
    deleteRouterStep_spends, deleteNetworkStep_spends.
Qed.

(** *** What each step achieves *)

Lemma deleteFloatingIP_settles : ssettles always (deleteFloatingIP dscope).
Proof. unfold deleteFloatingIP, deleteFIPBody, sdk_Delete, Eventf. settle. Qed.

Lemma deleteLoadBalancer_settles : ssettles always (deleteLoadBalancer dscope).
Proof. unfold deleteLoadBalancer, deleteLBBody, sdk_Delete, Eventf. settle. Qed.

(** The machines are gone, so no group holds a server of theirs. *)
Lemma deleteServerGroup_settles g : ssettles goes_on (deleteServerGroup dscope ∅ g).
Proof.
  unfold deleteServerGroup, sdk_Delete. cbv zeta.
  destruct (existsb _ _) eqn:Eo; [|settle].
  apply existsb_exists in Eo as (id & _ & Hid%bool_decide_eq_true_1). set_solver.
Qed.

Lemma getOwnedServerIDs_settles : ssettles (λ ids, ids = ∅) (getOwnedServerIDs dscope).
Proof.
  unfold getOwnedServerIDs, listMachines. settle_step ltac:(spend).
  apply (settles_bind _ _ (Forall (λ m, serverID m = ""))); [spend|settle_step ltac:(spend)|intros ?; spend|].
  { apply settles_call, recovers_machines. }
  intros ms Hms. apply settles_ret.
  assert (filter (λ id, id ≠ "") (serverID <$> ms) = []) as ->; [|done].
  induction Hms as [|m ms Hm _ IH]; [done|]. csimpl.
  rewrite filter_cons_False; [done|]. intros Hne. by apply Hne.
Qed.

Lemma deleteServerGroups_settles : ssettles always (deleteServerGroups dscope).
Proof.
  assert (∀ ids g, respects sspends (deleteServerGroup dscope ids g)) as Hg
    by (intros; unfold deleteServerGroup, sdk_Delete; spend).
  assert (respects sspends (getOwnedServerIDs dscope)) as Ho
    by (unfold getOwnedServerIDs, listMachines; spend).
  unfold deleteServerGroups, sdk_ListGroups.
  apply (settles_bind _ _ (λ ids, ids = ∅)); [by apply respects_wrap| |intros; spend; apply Hg|].
  { apply settles_wrap, getOwnedServerIDs_settles. }
  intros ids ->. settle_step ltac:(spend).
  apply (settles_bind _ _ always); [spend|settle_step ltac:(spend)|intros; spend; apply Hg|].
  { apply settles_call, recovers_groups. }
  intros groups _. apply (settles_bind _ _ goes_on); [spend; apply Hg| |intros; spend|by intros; apply settles_ret].
  apply settles_foreach; [apply Hg|]. intros g _. apply deleteServerGroup_settles.
Qed.

Definition no_errors {A} (acc : A * list error) : Prop := acc.2 = [].

Lemma deleteInterfaceStep_settles rs router acc i :
  no_errors acc → ssettles no_errors (deleteInterfaceStep dscope rs router acc i).
Proof. destruct acc as [rem errs]. intros H. unfold deleteInterfaceStep. settle. Qed.

Lemma deleteNetworkStep_settles acc ns :
  no_errors acc → ssettles no_errors (deleteNetworkStep dscope acc ns).
Proof. destruct acc as [rem errs]. intros H. unfold deleteNetworkStep, sdk_Delete, Eventf. settle. Qed.

Lemma deleteRouterInterfaces_settles rs : ssettles no_errors (deleteRouterInterfaces dscope rs).
Proof.
  unfold deleteRouterInterfaces, sdk_Get.
  assert (∀ router, respects sspends (foldM (deleteInterfaceStep dscope rs router) (RouterStatus_Interfaces rs) ([], [])))
    as Hf by (intros; spend; apply deleteInterfaceStep_spends).
  destruct (negb _); [by apply settles_ret|]. unfold RoutersOf. simpl.
  eapply settles_inspected; [apply recovers_router_get|intros [router|e]; spend; apply deleteInterfaceStep_spends| |].
  - intros router _. apply (settles_bind _ _ no_errors); [done| |intros []; spend|].
    + apply settles_foldM; [intros; apply deleteInterfaceStep_spends|apply deleteInterfaceStep_settles|done].
    + intros [rem errs] H. by apply settles_ret.
  - intros e ->. by apply settles_ret.
Qed.

Lemma deleteRouterStep_settles acc rs :
  no_errors acc → ssettles no_errors (deleteRouterStep dscope acc rs).
Proof.
  pose proof (deleteRouterStep_spends acc rs) as Hs.
  destruct acc as [rem errs]. intros H. unfold deleteRouterStep, sdk_Delete, Eventf in *.
  destruct (RouterStatus_RouterID rs == ""); [by apply settles_ret|].
  apply (settles_bind _ _ no_errors).
  - unfold deleteRouterInterfaces, sdk_Get. spend. apply deleteInterfaceStep_spends.
  - apply deleteRouterInterfaces_settles.
  - intros [? []]; spend.
  - intros [rs' errs'] H'. unfold no_errors in H'. simpl in H'. subst errs'. settle.
Qed.

Lemma errors_Join_settles errs : errs = [] → ssettles always (of_res (errors_Join errs)).
Proof. intros ->. by apply (settles_ret _ _ _ ()). Qed.

Lemma deleteRouters_settles : ssettles always (deleteRouters dscope).
Proof.
  unfold deleteRouters, deleteRoutersLoop. apply settles_deferred. settle_step ltac:(spend).
  apply (settles_bind _ _ no_errors); [spend; apply deleteRouterStep_spends| |intros []; spend|].
  - apply settles_foldM; [apply deleteRouterStep_spends|apply deleteRouterStep_settles|done].
  - intros [rem errs] H. settle. by apply errors_Join_settles.
Qed.

Lemma deleteNetwork_settles : ssettles always (deleteNetwork dscope).
Proof.
  unfold deleteNetwork, deleteNetworks. apply settles_deferred. settle_step ltac:(spend).
  apply (settles_bind _ _ no_errors); [spend; apply deleteNetworkStep_spends| |intros []; spend|].
  - apply settles_foldM; [apply deleteNetworkStep_spends|apply deleteNetworkStep_settles|done].
  - intros [rem errs] H. settle. by apply errors_Join_settles.
Qed.

Lemma retryOn_settles e msg (m : CM unit) :
  respects sspends m → ssettles always m → ssettles goes_on (retryOn e msg m).
Proof.
  intros Hm Hs s Hh. specialize (Hs s Hh). unfold reaches, retryOn, exec, result, bind, try in *.
  destruct (m s) as [[[]|err] s1]; simpl in *; [right; by eexists|].
  destruct Hs as [Hs|(a & [=] & _)]. left. by destruct (errors_Is err e).
Qed.

(** A whole reconcile of a deletion. *)
Lemma reconcileDelete_settles : ssettles (λ r, r = emptyResult) (reconcileDelete dscope).
Proof.
  assert (respects sspends (deleteRouters dscope)) as Hr
    by (unfold deleteRouters, deleteRoutersLoop; spend; apply deleteRouterStep_spends).
  assert (respects sspends (deleteNetwork dscope)) as Hn
    by (unfold deleteNetwork, deleteNetworks; spend; apply deleteNetworkStep_spends).
  pose proof deleteFloatingIP_spends. pose proof deleteLoadBalancer_spends.
  pose proof deleteServerGroups_spends. pose proof deleteFloatingIP_settles.
  pose proof deleteLoadBalancer_settles. pose proof deleteServerGroups_settles.
  pose proof deleteRouters_settles. pose proof deleteNetwork_settles.
  unfold reconcileDelete.
  repeat lazymatch goal with
  | |- settles _ _ _ (ret _) => by apply settles_ret
  | |- settles _ _ _ (bind _ _) => apply (settles_bind _ _ always);
      [unfold retryOn; spend; done|settle; done|intros ?; unfold retryOn; spend; done|intros ? _]
  | |- settles _ _ _ (bind_flow _ _) => apply settles_bind_flow;
      [unfold retryOn; spend; done|by apply retryOn_settles|intros ?; unfold retryOn; spend; done|]
  end.
Qed.
End deletion.

(** ** Turns of a deletion *)

Section termination.
Context `{R : Recovering}.
Context (cluster : Cluster).
Implicit Types (s : CState) (c : CloudscaleCluster) (w : World).

Definition deleting c : Prop :=
  is_Some (ObjectMeta_DeletionTimestamp (CloudscaleCluster_Meta c)) ∧ active cluster c.

(** What the body of such a reconcile leaves. *)
Lemma deletion_body token c s :
  deleting c → obj s = unpaused c →
  let s' := exec (reconcileBody (scopeOf cluster token)) s in
  exec (reconcileDelete (scopeOf cluster token)) s = s' ∧
  result (reconcileDelete (scopeOf cluster token)) s = result (reconcileBody (scopeOf cluster token)) s ∧
  (declared (obj s') = declared c ∨ ClusterFinalizer ∉ finalizers (obj s')) ∧
  (result (reconcileBody (scopeOf cluster token)) s = Ok emptyResult → ClusterFinalizer ∉ finalizers (obj s')).
Proof.
  intros [[t Ht] _] Hs s'. subst s'. unfold reconcileBody. rewrite exec_get, result_get, Hs.
  change (ObjectMeta_DeletionTimestamp (CloudscaleCluster_Meta (unpaused c)))
    with (ObjectMeta_DeletionTimestamp (CloudscaleCluster_Meta c)). rewrite Ht.
  split; [done|split; [done|]].
  destruct (reconcileDelete_run (scopeOf cluster token) s)
    as [[Hne [Hm _]]|(_ & s1 & s2 & s3 & s4 & s5 & _ & _ & _ & _ & _ & _ & ->)].
  - split; [left; by rewrite Hm, Hs|]. intros Hr. by destruct Hne.
  - assert (∀ c, ClusterFinalizer ∉ finalizers (removeFinalizer c)) as Hf.
    { intros c'. unfold finalizers, removeFinalizer. simpl. rewrite RemoveFinalizer_spec. tauto. }
    split; [right|intros _]; apply Hf.
Qed.

(** A turn finishes the deletion, or it leaves a cluster that is still being
    deleted and has spent budget. *)
Lemma deletion_turn c w :
  healthy w → deleting c → let x' := turn cluster (c, w) in
  healthy x'.2 ∧ (ClusterFinalizer ∉ finalizers x'.1 ∨ deleting x'.1 ∧ budget x'.2 < budget w).
Proof.
  intros Hh Hd. destruct (turn_cases cluster c w (λ c', ClusterFinalizer ∉ finalizers c')
    (λ c', declared c' = declared c ∨ ClusterFinalizer ∉ finalizers c')) as (Hh' & HJ & HΦ);
    [done|apply Hd|..].
  - intros token s Hs. destruct (deletion_body token c s Hd Hs) as (<- & _). apply reconcileDelete_spends.
  - intros token s Hhs Hs. destruct (deletion_body token c s Hd Hs) as (He & Hr & _ & Hfin).
    pose proof (reconcileDelete_settles cluster token s Hhs) as H. unfold reaches in *. rewrite <- He, <- Hr in *.
    destruct H as [?|(r & Hok & ->)]; [by left|right]. exists emptyResult. split; [done|]. by apply Hfin.
  - intros token s Hs. by destruct (deletion_body token c s Hd Hs) as (_ & _ & HJ & _).
  - split; [done|]. destruct HΦ as [?|Hlt]; [by left|].
    assert (declared (turn cluster (c, w)).1 = declared c ∨ ClusterFinalizer ∉ finalizers (turn cluster (c, w)).1)
      as [Hm|?]; [|right; split; [|done]|by left].
    { by destruct HJ as [->|]; [left|]. }
    revert Hm Hd. generalize (turn cluster (c, w)).1. intros c' [= Hm Hspec].
    unfold deleting, active, CredentialsSecretRef, spec in *. by rewrite Hm, Hspec.
Qed.

(** C5. Deletion terminates. Let a cluster that is being deleted, and not paused, be
    reconciled over and over, with the API server storing what each reconcile
    patches, and let others act on the world in between. If calls fail, lose
    their answers or still find machines only as often as the environment's
    budget allows, then within that many turns and one more a turn stores the
    cluster without its finalizer, and the object can go. *)
Theorem deletion_terminates (others : nat → World → World) c w :
  (∀ i w, healthy w → healthy (others i w) ∧ budget (others i w) ≤ budget w) →
  healthy w → deleting c →
  ∃ n, n ≤ S (budget w) ∧ ClusterFinalizer ∉ finalizers (fst (turns (turn cluster) others n (c, w))).
Proof.
  intros Ho. apply (turns_reach healthy budget (turn cluster) others (λ c _, deleting c) (λ c, ClusterFinalizer ∉ finalizers c));
    [done|done|]. apply deletion_turn.
Qed.
End termination.
