(* ===== verification/Convergence.v ===== *)
(** * Provisioning converges

    A cluster whose resources are all managed is reconciled again and again until
    it is provisioned. This file shows that this happens: if the cloud fails, loses
    answers, or is not ready only as often as the environment's budget allows, then
    within that many turns and one more everything the specification asks for is
    recorded, and the cluster is Ready. *)

From S2P Require Export Providing.
From S2P Require Import NetIP.

(** ** The load balancer *)

Section balancer.
Context `{R : Providing}.
Context (cluster : Cluster) (token : string).
Implicit Types (s : CState) (c : CloudscaleCluster).
Abbreviation sc := (scopeOf cluster token).
Abbreviation pspends := (spends (O:=CloudscaleCluster) (Ev:=Event) healthy budget).
Abbreviation preaches := (reaches (O:=CloudscaleCluster) (Ev:=Event) budget).

Section ensure_or_create.
Context {Req T : Type} (kd : Kind) (svc : Service World Req T) (uuid : T → string)
  {reqTags : Req → TagMap} {HP : Provides svc uuid reqTags always}.
Context (mk : Req → CreateRequest) (name : string)
  (setID : string → CloudscaleClusterStatus → CloudscaleClusterStatus)
  (getID : CloudscaleClusterStatus → string)
  (request : CM Req) (created : T → CM unit) (ψ : CloudscaleCluster → Req → Prop).
Context {HR : RequestOf svc uuid setID getID request created ψ}.
Context (Htags : ∀ s req, result request s = Ok req → reqTags req = clusterOwnershipTags (obj s)).

Lemma created_spends x : respects pspends (created x).
Proof. destruct (created_event _ _ _ _ _ _ _ x) as (ty & rs & ac & nt & ->). unfold Eventf. spend. Qed.

Lemma request_run s : request s = (result request s, s).
Proof. rewrite <- (request_pure _ _ _ _ _ _ _ s) at 3. unfold result, exec. by destruct (request s). Qed.

(** The creation, where a lookup has found nothing. *)
Lemma requested_spends {B} (cont : Res T → CM B) s :
  absent (ClusterTagKey (obj s)) ResourceLifecycleOwned (world s) → (∀ r, respects pspends (cont r)) →
  pspends s (exec (let! req := request in bind (try (sdk_Create svc mk uuid req)) cont) s).
Proof.
  intros Ha Hc. unfold exec. destruct (result request s) as [req|e] eqn:Er.
  - rewrite (bind_ok _ _ _ _ _ (eq_trans (request_run s) (f_equal (λ r, (r, s)) Er))).
    eapply create_spends; [done|by apply Htags|done].
  - by rewrite (bind_err _ _ _ _ _ (eq_trans (request_run s) (f_equal (λ r, (r, s)) Er))).
Qed.

Lemma ensureOrCreate_spends id : respects pspends (ensureOrCreate kd svc uuid mk name id setID request created).
Proof.
  intros s. unfold ensureOrCreate. rewrite exec_get.
  eapply finds_spends; [apply ensureResource_finds|..]; simpl.
  - intros x v Hv. rewrite bool_decide_eq_false_2 by done. simpl. spend.
  - intros s1 Ho Ha. unfold exec. rewrite modify_bind. simpl.
    assert (∀ s1', pspends s1 s1' ↔ pspends (mkSt (upd_status (setID "") (obj s1)) (world s1) (log s1)) s1') as ->
      by done.
    apply requested_spends; [simpl; by rewrite Ho|]. intros [x|e]; spend. apply created_spends.
Qed.

(** When the request can be made, the resource is recorded and known. *)
Lemma ensureOrCreate_reaches id s :
  healthy (world s) →
  (∀ s1, obj s1 = upd_status (setID "") (obj s) → ∃ req, result request s1 = Ok req) →
  preaches (ensureOrCreate kd svc uuid mk name id setID request created) s (λ r s',
    r = emptyResult ∧ known (getID (status (obj s'))) (world s')).
Proof.
  intros Hh Hreq. unfold ensureOrCreate. apply reaches_bind_get.
  eapply finds_reaches; [done|apply ensureResource_finds|..]; simpl.
  - intros x v Hv. rewrite bool_decide_eq_false_2 by done. simpl. spend.
  - intros x v s1 _ Ho Hv Hk _. apply reaches_bind_modify. rewrite bool_decide_eq_false_2 by done.
    apply reaches_ret. split; [done|]. simpl. unfold status. simpl. by rewrite (getID_setID _ _ _ _ _ _ _).
  - intros s1 Hh1 Ho Ha. apply reaches_bind_modify. simpl. set (s2 := mkSt _ _ _).
    destruct (Hreq s2) as [req Er]; [subst s2; simpl; by rewrite Ho|].
    eapply reaches_run; [exact (bind_ok _ _ _ _ _ (eq_trans (request_run s2) (f_equal (λ r, (r, s2)) Er)))|].
    eapply create_reaches; [done|exact Ha| |intros [x|e]; spend; apply created_spends|].
    + rewrite (Htags _ _ Er). subst s2. simpl. by rewrite Ho.
    + intros x s3 Hh3 Ho3 _ _ Hk. apply reaches_bind_modify.
      destruct (created_event _ _ _ _ _ _ _ x) as (ty & rs & ac & nt & ->). apply reaches_bind_emit, reaches_ret.
      split; [done|]. simpl. unfold status. simpl. by rewrite (getID_setID _ _ _ _ _ _ _).
Qed.
End ensure_or_create.

(** *** The four resources *)

Lemma lb_tags s req : result lbRequest s = Ok req → LoadBalancerRequest_Tags req = clusterOwnershipTags (obj s).
Proof.
  unfold lbRequest, result, bind, get, of_res, ret. case_bool_decide; simpl; [by intros [= <-]|].
  destruct (safeUseSubnet _ _); simpl; by intros [= <-].
Qed.

Lemma lb_parts_spend :
  respects pspends (reconcileLB sc) ∧ respects pspends (reconcileLBPool sc) ∧
  respects pspends (reconcileLBListener sc) ∧ respects pspends (reconcileLBHealthMonitor sc).
Proof.
  split_and!; (apply respects_bind; [apply _|apply respects_get; apply _|intros c]).
  - eapply (ensureOrCreate_spends _ _ _ (HP:=providing_lbs token)); [apply (lb_request sc); apply _|apply lb_tags].
  - eapply (ensureOrCreate_spends _ _ _ (HP:=providing_pools token)); [apply (pool_request sc); apply _|]. intros s req. unfold result, poolRequest. by intros [= <-].
  - eapply (ensureOrCreate_spends _ _ _ (HP:=providing_listeners token)); [apply (listener_request sc); apply _|].
    intros s req. unfold result, listenerRequest. by intros [= <-].
  - eapply (ensureOrCreate_spends _ _ _ (HP:=providing_monitors token)); [apply (monitor_request sc); apply _|].
    intros s req. unfold result, monitorRequest. by intros [= <-].
Qed.

(** The subnet for the address is there. *)
Definition vip_ready c : Prop :=
  LoadBalancerSpec_Network (lbSpec c) = "" ∨ provisioned_network c (LoadBalancerSpec_Network (lbSpec c)).

Lemma safeUseSubnet_ok c name : provisioned_network c name → ∃ id, safeUseSubnet c name = Ok id.
Proof.
  intros (ns & Hg & _ & Hs). unfold safeUseSubnet. rewrite Hg, bool_decide_eq_false_2 by done. by eauto.
Qed.

Lemma reconcileLB_reaches s :
  healthy (world s) → vip_ready (obj s) →
  preaches (reconcileLB sc) s (λ r s',
    r = emptyResult ∧ known (svc:=LoadBalancers (NewClient token)) (lbID (obj s')) (world s')).
Proof.
  intros Hh Hv. unfold reconcileLB. apply reaches_bind_get.
  eapply (ensureOrCreate_reaches _ _ _ (HP:=providing_lbs token)); [apply (lb_request sc); apply _|apply lb_tags|done|].
  intros s1 Ho. unfold lbRequest, result, bind, get. rewrite Ho. simpl.
  destruct (bool_decide (LoadBalancerSpec_Network _ = "")) eqn:Eb; simpl; [by eexists|]. go_bools.
  destruct Hv as [?|Hv]; [done|].
  match goal with |- context [safeUseSubnet ?c ?n] => destruct (safeUseSubnet_ok c n Hv) as [id ->] end.
  by eexists.
Qed.

Lemma lb_parts_settle :
  settles healthy budget (λ r, r = emptyResult) (reconcileLBPool sc) ∧
  settles healthy budget (λ r, r = emptyResult) (reconcileLBListener sc) ∧
  settles healthy budget (λ r, r = emptyResult) (reconcileLBHealthMonitor sc).
Proof.
  split_and!; intros s Hh; apply reaches_bind_get.
  - eapply reaches_weaken; [eapply (ensureOrCreate_reaches _ _ _ (HP:=providing_pools token));
      [apply (pool_request sc); apply _| |done|by intros; eexists]|by intros r _ [Hr _]].
    intros s1 req. unfold result, poolRequest. by intros [= <-].
  - eapply reaches_weaken; [eapply (ensureOrCreate_reaches _ _ _ (HP:=providing_listeners token));
      [apply (listener_request sc); apply _| |done|by intros; eexists]|by intros r _ [Hr _]].
    intros s1 req. unfold result, listenerRequest. by intros [= <-].
  - eapply reaches_weaken; [eapply (ensureOrCreate_reaches _ _ _ (HP:=providing_monitors token));
      [apply (monitor_request sc); apply _| |done|by intros; eexists]|by intros r _ [Hr _]].
    intros s1 req. unfold result, monitorRequest. by intros [= <-].
Qed.

(** *** The members of the pool *)

Lemma ensureMember_spends cur d : respects pspends (ensureMember sc cur d).
Proof. unfold ensureMember, createLoadBalancerMember, updateLoadBalancerMember. spend. Qed.
Lemma pruneMember_spends wanted m : respects pspends (pruneMember sc wanted m).
Proof. unfold pruneMember, deleteLoadBalancerMember. spend. Qed.
Lemma reconcileLBMembers_spends : respects pspends (reconcileLBMembers sc).
Proof.
  unfold reconcileLBMembers, getDesiredLoadBalancerMembers, listMembers, listMachines.
  spend; auto using ensureMember_spends, pruneMember_spends.
Qed.

(** The wanted members can be computed. *)
Definition subnet_ready c : Prop := ∃ subnetID cidr net,
  getPoolMemberSubnetID c = Ok subnetID ∧ getMemberSubnetCIDR c subnetID = Ok cidr ∧ ParseCIDR cidr = Some net.

Abbreviation svc := (LoadBalancerPoolMembers (NewClient token)).

(** The members still to be looked at are there. *)
Definition pool_holds (p : string) (ms : list LoadBalancerPoolMember) s : Prop :=
  poolID (obj s) = p ∧ ∀ m, m ∈ ms → present (svc:=svc) p (LoadBalancerPoolMember_UUID m) (world s).

Lemma updateLoadBalancerMember_reaches p cur m a s :
  healthy (world s) → pool_holds p cur s → m ∈ cur →
  preaches (updateLoadBalancerMember sc (LoadBalancerPoolMember_UUID m) a) s (λ _ s', pool_holds p cur s').
Proof.
  intros Hh [Hp Hpr] Hm. unfold updateLoadBalancerMember. apply reaches_bind_get. rewrite Hp. apply reaches_wrap.
  set (req := mkLoadBalancerPoolMemberRequest _ _ _ _ _).
  destruct (members_updates p _ req (world s) Hh (Hpr m Hm)) as (_ & _ & Hd).
  pose proof (λ m' w', present_update (svc:=svc) p (LoadBalancerPoolMember_UUID m') (LoadBalancerPoolMember_UUID m)
    req (world s) w') as Hk.
  unfold reaches, exec, result, call.
  change (LoadBalancerPoolMembers (scope_Client sc)) with svc.
  destruct (member_Update svc _ _ _ (world s)) as [[[]|e] w]; simpl in *; (destruct Hd as [?|?]; [by left|]); [|done].
  right. exists (). split; [done|]. split; [done|]. simpl. intros m' Hm'. apply Hk; auto.
Qed.

Lemma createLoadBalancerMember_reaches p cur d s :
  healthy (world s) → pool_holds p cur s →
  preaches (createLoadBalancerMember sc d) s (λ r s', r = emptyResult ∧ pool_holds p cur s').
Proof.
  intros Hh [Hp Hpr]. unfold createLoadBalancerMember. apply reaches_bind_get. rewrite Hp.
  eapply (reaches_inspect healthy _ always never); [by apply members_create|intros [x|e]; spend| |done].
  intros x w Hx Hw _. apply reaches_bind_modify, reaches_ret. split; [done|]. split; [done|]. simpl.
  intros m Hm. by eapply present_create; [apply Hpr|].
Qed.

Lemma ensureMember_reaches p cur d s :
  healthy (world s) → pool_holds p cur s →
  preaches (ensureMember sc (index_by LoadBalancerPoolMember_Name cur) d) s
    (λ f s', goes_on f ∧ pool_holds p cur s').
Proof.
  intros Hh Hp. unfold ensureMember.
  destruct (index_by LoadBalancerPoolMember_Name cur !! _) as [m|] eqn:Em.
  - apply index_by_Some in Em as [Hm _].
    apply (reaches_bind healthy _ _ _ _ (λ _ s', pool_holds p cur s')); [done|..].
    + assert (respects pspends (updateLoadBalancerMember sc (LoadBalancerPoolMember_UUID m)
        (LoadBalancerPoolMemberRequest_Address d))) by (unfold updateLoadBalancerMember; spend).
      destruct (_ != _)%go; [by apply respects_wrap|done].
    + intros; spend.
    + destruct (_ != _)%go; [by apply reaches_wrap, updateLoadBalancerMember_reaches|by apply reaches_ret].
    + intros [] s1 _ _ _ Hp1. by apply reaches_ret.
  - unfold returning. apply (reaches_bind healthy _ _ _ _ (λ r s', r = emptyResult ∧ pool_holds p cur s')); [done|..].
    + apply respects_wrap. unfold createLoadBalancerMember. spend.
    + intros; spend.
    + by apply reaches_wrap, createLoadBalancerMember_reaches.
    + intros r s1 _ _ _ [-> Hp1]. by apply reaches_ret.
Qed.

(** Removing members, none of them twice. *)
Lemma pruneMember_reaches p wanted m rest s :
  healthy (world s) → NoDup (LoadBalancerPoolMember_UUID <$> m :: rest) → pool_holds p (m :: rest) s →
  preaches (pruneMember sc wanted m) s (λ f s', goes_on f ∧ pool_holds p rest s').
Proof.
  intros Hh Hnd [Hp Hpr]. csimpl in Hnd. apply NoDup_cons in Hnd as [Hnm _]. unfold pruneMember.
  destruct (wanted !! _) as [d|].
  { apply reaches_ret. split; [done|]. split; [done|]. intros m' Hm'. apply Hpr. by right. }
  apply (reaches_bind healthy _ _ _ _ (λ _ s', pool_holds p rest s')); [done|..].
  - apply respects_wrap. unfold deleteLoadBalancerMember. spend.
  - intros; spend.
  - apply reaches_wrap. unfold deleteLoadBalancerMember. apply reaches_bind_get. rewrite Hp. cbv zeta.
    apply (reaches_call healthy _ always); [apply members_deletes; [done|apply Hpr; by left]|intros; spend|].
    intros [] w Hx Hw _. apply reaches_modify. split; [done|]. simpl. intros m' Hm'.
    eapply present_delete; [apply Hpr; by right| |done].
    intros Heq. apply Hnm. rewrite <- Heq. by apply list_elem_of_fmap_2.
  - intros [] s1 _ _ _ Hp1. by apply reaches_ret.
Qed.

Lemma getDesired_reaches p cur s :
  healthy (world s) → subnet_ready (obj s) → pool_holds p cur s →
  preaches (getDesiredLoadBalancerMembers sc) s (λ _ s', pool_holds p cur s').
Proof.
  intros Hh Hs [Hp Hpr]. unfold getDesiredLoadBalancerMembers. apply reaches_bind_get.
  apply (reaches_call healthy _ always); [by apply providing_machines|intros; spend|].
  intros machines w Hx _ _. destruct Hs as (subnetID & cidr & net & H1 & H2 & H3).
  apply reaches_of_res. unfold desiredFrom. rewrite H1. simpl. rewrite H2. simpl. rewrite H3.
  eexists. split; [done|]. split; [done|]. simpl. intros m Hm.
  pose proof (present_machines (svc:=svc) p (LoadBalancerPoolMember_UUID m)
    (ObjectMeta_Namespace (CloudscaleCluster_Meta (obj s))) (controlPlaneLabels sc) (world s) (Hpr m Hm)) as H.
  by rewrite Hx in H.
Qed.

Lemma reconcileLBMembers_reaches s :
  healthy (world s) → subnet_ready (obj s) → preaches (reconcileLBMembers sc) s (λ r _, r = emptyResult).
Proof.
  intros Hh Hs. unfold reconcileLBMembers. apply reaches_bind_get. set (p := poolID (obj s)).
  pose proof ensureMember_spends. pose proof pruneMember_spends.
  apply (reaches_call healthy _ (λ l, NoDup (LoadBalancerPoolMember_UUID <$> l)));
    [by apply members_list|unfold getDesiredLoadBalancerMembers, listMachines; intros; spend; auto|].
  intros cur w Hl Hw Hnd.
  apply (reaches_bind healthy _ _ _ _ (λ _ s', pool_holds p cur s')); [done|..].
  - unfold getDesiredLoadBalancerMembers, listMachines. apply respects_wrap. spend.
  - intros; spend; auto.
  - apply reaches_wrap, getDesired_reaches; [done|done|]. split; [done|]. intros m Hm. exact (present_list (svc:=svc) p (world s) cur w m Hh Hl Hm).
  - intros wanted s2 Hh2 _ _ Hp2. cbv zeta.
    apply (reaches_bind_flow healthy _ _ _ _ (pool_holds p cur)); [done|apply respects_foreach; [apply _|auto]|..].
    + intros; spend; auto.
    + apply (reaches_foreach healthy _ (λ _, pool_holds p cur)); [done|auto|done|].
      intros d rest s3 _ Hh3 Hp3. by apply ensureMember_reaches.
    + intros s3 Hh3 Hp3.
      set (I := λ rest s, NoDup (LoadBalancerPoolMember_UUID <$> rest) ∧ pool_holds p rest s).
      apply (reaches_bind_flow healthy _ _ _ _ (I [])); [done|apply respects_foreach; [apply _|auto]|intros; spend|..].
      * apply (reaches_foreach healthy _ I); [done|auto|done|]. intros m rest s4 _ Hh4 [Hnd4 Hp4].
        eapply reaches_weaken; [by eapply pruneMember_reaches|].
        intros f _ [Hf Hp5]. csimpl in Hnd4. apply NoDup_cons in Hnd4 as [_ Hnd4]. done.
      * intros s4 _ _. by apply reaches_ret.
Qed.

(** *** The whole load balancer *)

Lemma stage_spends pending msg m k :
  respects pspends m → respects pspends k → respects pspends (stage pending msg m k).
Proof. intros. unfold stage. by spend. Qed.

Lemma stage_reaches pending msg m k s (I : CState → Prop) Φ :
  healthy (world s) → respects pspends m → respects pspends k →
  preaches m s (λ r s', r = emptyResult ∧ I s') →
  (∀ s1, healthy (world s1) → I s1 → preaches k s1 Φ) → preaches (stage pending msg m k) s Φ.
Proof.
  intros Hh Hm Hk Hs Hks. unfold stage.
  apply (reaches_bind healthy _ _ _ _ (λ r s', r = emptyResult ∧ I s')); [done|by apply respects_wrap| | |].
  - intros r. by spend.
  - by apply reaches_wrap.
  - intros r s1 Hh1 _ _ [-> HI]. by apply Hks.
Qed.

Lemma reconcileLBChildren_spends lb pending : respects pspends (reconcileLBChildren sc lb pending).
Proof.
  destruct lb_parts_spend as (_ & H2 & H3 & H4). unfold reconcileLBChildren.
  do 3 (apply stage_spends; [done|]). apply stage_spends; [apply reconcileLBMembers_spends|spend].
Qed.

Lemma reconcileLBEnabled_spends : respects pspends (reconcileLBEnabled sc).
Proof.
  unfold reconcileLBEnabled, pendingMessage, listMembers, sdk_Get. apply stage_spends; [apply lb_parts_spend|].
  spend; apply reconcileLBChildren_spends.
Qed.

Lemma reconcileLoadBalancer_spends : respects pspends (reconcileLoadBalancer sc).
Proof. unfold reconcileLoadBalancer. spend. apply reconcileLBEnabled_spends. Qed.

(** What the load balancer needs of the networks. *)
Definition net_view c := (spec c, CloudscaleClusterStatus_Networks (status c)).

Lemma vip_ready_view c c' : net_view c' = net_view c → vip_ready c → vip_ready c'.
Proof.
  unfold net_view, vip_ready, lbSpec, provisioned_network, GetNetworkStatus. by intros [= -> ->].
Qed.
Lemma subnet_ready_view c c' : net_view c' = net_view c → subnet_ready c → subnet_ready c'.
Proof.
  unfold net_view, subnet_ready, getPoolMemberSubnetID, getMemberSubnetCIDR, safeUseSubnet, lbSpec,
    GetNetworkStatus. by intros [= -> ->].
Qed.

Lemma children_keep_nets :
  respects (keeps net_view) (reconcileLB sc) ∧ respects (keeps net_view) (reconcileLBPool sc) ∧
  respects (keeps net_view) (reconcileLBListener sc) ∧ respects (keeps net_view) (reconcileLBHealthMonitor sc).
Proof.
  split_and!; (apply respects_bind; [apply _|apply respects_get; apply _|intros ?; apply ensureOrCreate_frame]);
    try done; unfold lbRequest, poolRequest, listenerRequest, monitorRequest, lbCreated, poolCreated,
      listenerCreated, monitorCreated, Eventf; intros; by frame.
Qed.

Lemma reconcileLBChildren_reaches lb s :
  healthy (world s) → subnet_ready (obj s) →
  match LoadBalancer_VIPAddresses lb with a :: _ => a ≠ "" | [] => False end →
  preaches (reconcileLBChildren sc lb None) s (λ a _,
    a.1.2 = emptyResult ∧ lb_ready a.1.1 = true ∧ lb_ipAddress a.1.1 ≠ "").
Proof.
  intros Hh Hs Hv. unfold reconcileLBChildren. destruct children_keep_nets as (_ & K2 & K3 & K4).
  destruct lb_parts_spend as (_ & H2 & H3 & H4). destruct lb_parts_settle as (S2 & S3 & S4).
  pose proof reconcileLBMembers_spends as H5.
  assert (∀ m s, respects (keeps net_view) m → settles healthy budget (λ r, r = emptyResult) m →
    healthy (world s) → subnet_ready (obj s) →
    preaches m s (λ r s', r = emptyResult ∧ subnet_ready (obj s'))) as Hkeep.
  { intros m s1 Hk Hm Hh1 Hs1. eapply reaches_weaken; [apply (reaches_keeps _ net_view); [done|by apply Hm]|].
    intros r _ [-> Hn]. split; [done|]. by eapply subnet_ready_view. }
  do 3 (apply (stage_reaches _ _ _ _ _ (λ s', subnet_ready (obj s'))); [done|done| |by apply Hkeep|clear s Hh Hs; intros s Hh Hs];
    [repeat (apply stage_spends; [done|]); spend|]).
  apply (stage_reaches _ _ _ _ _ (λ _, True)); [done|done|spend| |].
  - eapply reaches_weaken; [by apply reconcileLBMembers_reaches|done].
  - intros s1 _ _. apply reaches_ret. simpl. split; [done|]. split; [done|]. by destruct (LoadBalancer_VIPAddresses lb).
Qed.

Lemma reconcileLoadBalancer_reaches s :
  healthy (world s) → (lbEnabled (spec (obj s)) = true → vip_ready (obj s) ∧ subnet_ready (obj s)) →
  preaches (reconcileLoadBalancer sc) s (λ a _,
    a.2 = emptyResult ∧ lb_ready a.1 = true ∧ (lbEnabled (spec (obj s)) = true → lb_ipAddress a.1 ≠ "")).
Proof.
  intros Hh Hready. unfold reconcileLoadBalancer. apply reaches_bind_get.
  destruct (lbEnabled (spec (obj s))) eqn:Hen; simpl; [|by apply reaches_bind_modify, reaches_ret].
  destruct (Hready eq_refl) as [Hv Hs].
  apply (reaches_bind healthy _ _ _ _ (λ a _,
    a.1.2 = emptyResult ∧ lb_ready a.1.1 = true ∧ lb_ipAddress a.1.1 ≠ "")); [done|..].
  { apply spends_deferred, reconcileLBEnabled_spends. }
  { intros [[? ?] ?]; spend. }
  2:{ intros [[st r] p] s1 _ _ _ (H1 & H2 & H3). by apply reaches_ret. }
  apply reaches_deferred. unfold reconcileLBEnabled.
  apply (stage_reaches _ _ _ _ _ (λ s', subnet_ready (obj s') ∧ lbID (obj s') ≠ "" ∧
    known (svc:=LoadBalancers (NewClient token)) (lbID (obj s')) (world s'))); [done|apply lb_parts_spend|..].
  { unfold pendingMessage, listMembers, sdk_Get. spend; apply reconcileLBChildren_spends. }
  { eapply reaches_weaken; [apply (reaches_keeps _ net_view); [apply children_keep_nets|by apply reconcileLB_reaches]|].
    intros r Hr [[-> Hk] Hn]. split; [done|]. split; [by eapply subnet_ready_view|]. split; [|done].
    by apply (reconcileLB_ensures sc s). }
  intros s1 Hh1 (Hs1 & Hne & Hk). apply reaches_bind_get. rewrite bool_decide_eq_false_2 by done.
  eapply (reaches_call healthy); [by apply providing_lb_running| |].
  { unfold pendingMessage, listMembers. intros lb. spend; apply reconcileLBChildren_spends. }
  intros lb w _ Hw [Hrun Hvip]. rewrite Hrun, bool_decide_eq_true_2 by done.
  by apply reconcileLBChildren_reaches.
Qed.
End balancer.

(** ** The floating IP *)

Section floating.
Context `{R : Providing}.
Context (cluster : Cluster) (token : string).
Implicit Types (s : CState) (c : CloudscaleCluster).
Abbreviation sc := (scopeOf cluster token).
Abbreviation pspends := (spends (O:=CloudscaleCluster) (Ev:=Event) healthy budget).
Abbreviation preaches := (reaches (O:=CloudscaleCluster) (Ev:=Event) budget).
Abbreviation svc := (fip_service (FloatingIPs (NewClient token))).

Lemma getFloatingIPTarget_spends : respects pspends (getFloatingIPTarget sc).
Proof. unfold getFloatingIPTarget, listMachines. spend. Qed.
Lemma ensureFloatingIPAssignment_spends fip : respects pspends (ensureFloatingIPAssignment sc fip).
Proof. unfold ensureFloatingIPAssignment, Eventf. spend. apply getFloatingIPTarget_spends. Qed.

(** Looking for the target changes nothing at the provider. *)
Lemma getFloatingIPTarget_same s :
  let s' := exec (getFloatingIPTarget sc) s in
  obj s' = obj s ∧
  (∀ key value, absent (svc:=svc) key value (world s) → absent (svc:=svc) key value (world s')) ∧
  (∀ ip, known (svc:=svc) ip (world s) → known (svc:=svc) ip (world s')).
Proof.
  unfold getFloatingIPTarget, listMachines. rewrite exec_get.
  destruct (lbEnabled _); [by case_bool_decide|]. unfold exec, wrap, bind, call.
  pose proof (λ key value, absent_machines token key value (ObjectMeta_Namespace (CloudscaleCluster_Meta (obj s)))
    (controlPlaneLabels sc) (world s)) as Ha.
  pose proof (λ ip, known_machines token ip (ObjectMeta_Namespace (CloudscaleCluster_Meta (obj s)))
    (controlPlaneLabels sc) (world s)) as Hk.
  destruct (kube_ListCloudscaleMachines _ _ _) as [[ms|e] w]; simpl in *; [|done].
  by destruct (firstServer ms).
Qed.

Lemma reaches_try {A} (m : CM A) s Φ :
  Φ (result m s) (exec m s) → preaches (try m) s Φ.
Proof. unfold reaches, exec, result, try. destruct (m s) as [r s1]. right. by exists r. Qed.

Lemma ensureFloatingIPAssignment_reaches fip s :
  healthy (world s) → known (svc:=svc) (fipOf (obj s)) (world s) →
  preaches (ensureFloatingIPAssignment sc fip) s (λ _ _, True).
Proof.
  intros Hh Hk. unfold ensureFloatingIPAssignment, Eventf.
  apply (reaches_bind healthy _ _ _ _ (λ _ s', obj s' = obj s ∧ known (svc:=svc) (fipOf (obj s)) (world s'))); [done|..].
  - apply respects_try, getFloatingIPTarget_spends.
  - intros; spend.
  - apply reaches_try. destruct (getFloatingIPTarget_same s) as (Ho & _ & H). auto.
  - intros [t|e] s1 Hh1 _ _ [Ho Hk1]; [|by apply reaches_ret].
    destruct (assignmentUpdate fip t) as [req|]; [|by apply reaches_ret]. apply reaches_bind_get. cbv zeta.
    eapply (reaches_inspect healthy _ always never); [|intros [x|e]; spend| |done].
    + apply providing_fip_updates; [done|]. by rewrite Ho.
    + intros [] w _ _ _. by apply reaches_emit.
Qed.

(** Creating an address after looking for its target. *)
Lemma fip_create_spends {B} (req : Res floatingIPTarget → FloatingIPCreateRequest) key value
    (cont : Res FloatingIP → CM B) s :
  absent (svc:=svc) key value (world s) → (∀ r, FloatingIPCreateRequest_Tags (req r) = {[key := value]}) →
  (∀ r, respects pspends (cont r)) → ∀ r,
  pspends (exec (try (getFloatingIPTarget sc)) s)
    (exec (bind (try (sdk_Create svc CFloatingIP FloatingIP_IP (req r))) cont) (exec (try (getFloatingIPTarget sc)) s)).
Proof.
  intros Ha Ht Hc r. destruct (getFloatingIPTarget_same s) as (_ & Ha2 & _). specialize (Ha2 _ _ Ha).
  eapply create_spends; [|apply Ht|done]. unfold exec, try in *. by destruct (getFloatingIPTarget sc s).
Qed.

Lemma reconcileManagedFloatingIP_spends fs : respects pspends (reconcileManagedFloatingIP sc fs).
Proof.
  intros s. unfold reconcileManagedFloatingIP. rewrite exec_get. cbv zeta.
  eapply finds_spends; [apply ensureResource_finds|..]; simpl.
  - intros x v Hv. rewrite bool_decide_eq_false_2 by done. simpl. spend. apply ensureFloatingIPAssignment_spends.
  - intros s1 Ho Ha. apply spends_bind; [done|intros _].
    apply spends_bind; [apply (respects_try _ _ getFloatingIPTarget_spends)|].
    eapply fip_create_spends; [exact Ha|done|]. intros [x|e]; unfold Eventf; spend.
Qed.

Lemma reconcileManagedFloatingIP_settles fs :
  settles healthy budget (λ r, r = emptyResult) (reconcileManagedFloatingIP sc fs).
Proof.
  intros s Hh. unfold reconcileManagedFloatingIP. apply reaches_bind_get. cbv zeta.
  eapply finds_reaches; [done|apply ensureResource_finds|..]; simpl.
  - intros x v Hv. rewrite bool_decide_eq_false_2 by done. simpl. spend. apply ensureFloatingIPAssignment_spends.
  - intros x v s1 Hh1 _ Hv Hk _. apply reaches_bind_modify. rewrite bool_decide_eq_false_2 by done.
    apply reaches_bind_ret. apply (reaches_bind healthy _ _ _ _ (λ _ _, True)); [done|..].
    + apply ensureFloatingIPAssignment_spends.
    + intros; spend.
    + by apply ensureFloatingIPAssignment_reaches.
    + intros; by apply reaches_ret.
  - intros s1 Hh1 Ho Ha. apply reaches_bind_modify. simpl. set (s2 := mkSt _ _ _).
    apply (reaches_bind_at healthy _ _ _ _ (λ _ s3,
      absent (svc:=svc) (ClusterTagKey (obj s)) ResourceLifecycleOwned (world s3))); [done|..].
    + apply (respects_try _ _ getFloatingIPTarget_spends).
    + intros r _. revert r. eapply fip_create_spends; [exact Ha|done|]. intros [x|e]; unfold Eventf; spend.
    + apply reaches_try. destruct (getFloatingIPTarget_same s2) as (_ & Ha2 & _). by apply Ha2.
    + intros r s3 Hh3 _ _ Ha3. eapply create_reaches; [done|exact Ha3|done|intros [x|e]; unfold Eventf; spend|].
      intros x s4 _ _ _ _ _. apply reaches_bind_modify, reaches_bind_emit. by apply reaches_ret.
Qed.

Lemma reconcileFloatingIP_spends : respects pspends (reconcileFloatingIP sc).
Proof.
  unfold reconcileFloatingIP, reconcilePreExistingFloatingIP, sdk_Get.
  spend; auto using reconcileManagedFloatingIP_spends, ensureFloatingIPAssignment_spends.
Qed.

Definition managed_fip c : Prop :=
  match CloudscaleClusterSpec_FloatingIP (spec c) with Some fs => FloatingIPSpec_Address fs = "" | None => True end.

(** The floating IP is there, or budget was spent. *)
Lemma reconcileFloatingIP_reaches s :
  healthy (world s) → managed_fip (obj s) → preaches (reconcileFloatingIP sc) s (λ r _, r = emptyResult).
Proof.
  intros Hh Hm. unfold reconcileFloatingIP. apply reaches_bind_get. unfold managed_fip in Hm.
  destruct (CloudscaleClusterSpec_FloatingIP _) as [fs|]; [|by apply reaches_bind_modify, reaches_ret].
  apply reaches_deferred. rewrite Hm. simpl. by apply reconcileManagedFloatingIP_settles.
Qed.
End floating.

(** ** A whole reconcile *)

Section convergence.
Context `{R : Providing}.
Context (cluster : Cluster).
Implicit Types (s : CState) (c : CloudscaleCluster) (sp : CloudscaleClusterSpec) (w : World).
Abbreviation pspends := (spends (O:=CloudscaleCluster) (Ev:=Event) healthy budget).
Abbreviation preaches := (reaches (O:=CloudscaleCluster) (Ev:=Event) budget).

Definition valid_cidr (cidr : string) : Prop := is_Some (ParseCIDR cidr).

(** A specification of managed resources only, whose parts fit together: routers
    attach to its networks, the load balancer uses them, and an endpoint is given
    or can be had. *)
Definition all_managed sp : Prop :=
  let names := NetworkSpec_Name <$> CloudscaleClusterSpec_Networks sp in
  CloudscaleClusterSpec_Networks sp ≠ [] ∧
  (∀ n, n ∈ CloudscaleClusterSpec_Networks sp → NetworkSpec_UUID n = "" ∧ valid_cidr (NetworkSpec_CIDR n)) ∧
  unique_routers (CloudscaleClusterSpec_Routers sp) ∧
  (∀ x, x ∈ CloudscaleClusterSpec_Routers sp → managed_router (λ n, n ∈ names) x) ∧
  (lbEnabled sp = true →
     let lb := CloudscaleClusterSpec_ControlPlaneLoadBalancer sp in
     (LoadBalancerSpec_Network lb = "" ∨ LoadBalancerSpec_Network lb ∈ names) ∧
     (LoadBalancerSpec_PoolMemberNetwork lb = "" ∨ LoadBalancerSpec_PoolMemberNetwork lb ∈ names)) ∧
  match CloudscaleClusterSpec_FloatingIP sp with
  | Some fs => FloatingIPSpec_Address fs = ""
  | None => lbEnabled sp = true ∨ APIEndpoint_Host (CloudscaleClusterSpec_ControlPlaneEndpoint sp) ≠ ""
  end.

(** Every recorded network is complete. *)
Definition sound_network (ns : NetworkStatus) : Prop := network_ids ns ∧ valid_cidr (NetworkStatus_CIDR ns).
Definition sound_networks c : Prop := Forall sound_network (CloudscaleClusterStatus_Networks (status c)).

Lemma sound_networks_set name nid sid cidr m mtu c :
  nid ≠ "" → sid ≠ "" → valid_cidr cidr → sound_networks c →
  sound_networks (setNetworkStatus name nid sid cidr m mtu c).
Proof.
  unfold sound_networks. rewrite !Forall_forall. intros Hn Hs Hc H ns Hin. unfold setNetworkStatus in Hin.
  apply upsert_by_elem in Hin as [Hin|Hin]; [by apply H|]. by destruct (find_by _ name _); subst ns.
Qed.

Lemma reconcileManagedNetwork_sound token n s :
  valid_cidr (NetworkSpec_CIDR n) → sound_networks (obj s) →
  sound_networks (obj (exec (reconcileManagedNetwork (scopeOf cluster token) n) s)).
Proof.
  intros Hc Hs. pose proof (reconcileManagedNetwork_post (scopeOf cluster token) n s) as H.
  unfold managed_outcome in H. destruct (result _ s) as [r|e]; [|by destruct H as [-> _]].
  destruct H as [(_ & nid & sid & mtu & ? & ? & ->)|[_ ->]]; [by apply sound_networks_set|done].
Qed.

Lemma reconcileNetwork_sound token s :
  all_managed (spec (obj s)) → sound_networks (obj s) →
  sound_networks (obj (exec (reconcileNetwork (scopeOf cluster token)) s)).
Proof.
  intros (_ & Hn & _) Hs. unfold reconcileNetwork, reconcileNetworks. unfold exec, deferred.
  rewrite bind_get.
  assert (respects (preserves sound_networks) (match CloudscaleClusterSpec_Networks (spec (obj s)) with
    | [] => throw (errorString "no networks defined in spec")
    | networks => bind_flow (foreach networks (reconcileOneNetwork (scopeOf cluster token))) (λ _, ret emptyResult)
    end)) as H.
  { destruct (CloudscaleClusterSpec_Networks (spec (obj s))) as [|n ns]; [by frame|].
    apply respects_bind_flow; [apply _| |intros; by frame]. apply respects_foreach; [apply _|].
    intros x Hx. destruct (Hn x Hx) as [Hu Hc]. unfold reconcileOneNetwork. rewrite Hu. simpl.
    apply respects_returning; [apply _|]. apply respects_wrap. intros s1 Hs1.
    by apply reconcileManagedNetwork_sound. }
  specialize (H s Hs). unfold exec in H. destruct (_ s) as [r s1]. by destruct r.
Qed.

(** The networks are only written by the first stage. *)
Definition recorded_networks c : list NetworkStatus := CloudscaleClusterStatus_Networks (status c).

Lemma later_stages_keep_nets sc :
  respects (keeps net_view) (reconcileRouters sc) ∧ respects (keeps net_view) (reconcileLoadBalancer sc) ∧
  respects (keeps net_view) (reconcileFloatingIP sc).
Proof.
  split_and!; [apply reconcileRouters_frame|apply reconcileLoadBalancer_frame|apply reconcileFloatingIP_frame]; done.
Qed.

(** What the load balancer asks of the networks holds once they are done. *)
Lemma done_network c name :
  networks_done c → name ∈ (NetworkSpec_Name <$> CloudscaleClusterSpec_Networks (spec c)) →
  provisioned_network c name.
Proof. intros [_ H] (n & -> & Hn)%list_elem_of_fmap. by apply H. Qed.

Lemma done_vip_ready c : all_managed (spec c) → networks_done c → lbEnabled (spec c) = true → vip_ready c.
Proof.
  intros (_ & _ & _ & _ & Hlb & _) Hd Hen. destruct (Hlb Hen) as [[Hv|Hv] _]; [by left|right].
  by apply done_network.
Qed.

Lemma memberSubnetCIDR_ok nets ns :
  Forall sound_network nets → ns ∈ nets →
  ∃ cidr net, memberSubnetCIDR_loop nets (NetworkStatus_SubnetID ns) = Ok cidr ∧ ParseCIDR cidr = Some net.
Proof.
  assert (∀ y, sound_network y → NetworkStatus_CIDR y ≠ "") as Hne.
  { intros y [_ Hc] He. unfold valid_cidr in Hc. rewrite He in Hc. by destruct Hc. }
  induction 1 as [|y nets Hy Hs IH]; [by intros ?%not_elem_of_nil|]. intros Hin. simpl.
  destruct (bool_decide (NetworkStatus_SubnetID y = _)) eqn:Ey; simpl.
  - rewrite bool_decide_eq_false_2 by (by apply Hne). simpl. destruct Hy as [_ [net Hnet]]. by eexists _, _.
  - go_bools. apply elem_of_cons in Hin as [->|Hin]; [done|by apply IH].
Qed.

Lemma done_subnet_ready c :
  all_managed (spec c) → networks_done c → sound_networks c → lbEnabled (spec c) = true → subnet_ready c.
Proof.
  intros (_ & _ & _ & _ & Hlb & _) Hd Hs Hen. destruct (Hlb Hen) as [Hv Hm]. unfold lbSpec in *.
  assert (∃ ns, ns ∈ recorded_networks c ∧ getPoolMemberSubnetID c = Ok (NetworkStatus_SubnetID ns)) as (ns & Hin & Hg).
  { assert (∀ name, provisioned_network c name →
      ∃ ns, ns ∈ recorded_networks c ∧ safeUseSubnet c name = Ok (NetworkStatus_SubnetID ns)) as Hsafe.
    { intros name (ns & Hg & _ & Hsub). exists ns. unfold safeUseSubnet. rewrite Hg, bool_decide_eq_false_2 by done.
      split; [|done]. by apply find_by_Some in Hg as [? _]. }
    unfold getPoolMemberSubnetID, lbSpec.
    destruct (bool_decide (LoadBalancerSpec_PoolMemberNetwork _ = "")) eqn:E1; simpl; go_bools;
      [destruct (bool_decide (LoadBalancerSpec_Network _ = "")) eqn:E2; simpl; go_bools|].
    - destruct Hd as [Hne Hd]. destruct (CloudscaleClusterSpec_Networks (spec c)) as [|n ns]; [done|].
      destruct (Hd n ltac:(by left)) as (n0 & Hn0 & _). unfold GetNetworkStatus in Hn0.
      unfold sound_networks, recorded_networks in *.
      destruct (CloudscaleClusterStatus_Networks (status c)) as [|n1 rest]; [done|].
      apply Forall_cons in Hs as [[[_ Hid] _] _]. exists n1. rewrite bool_decide_eq_false_2 by done.
      split; [by left|done].
    - apply Hsafe. destruct Hv as [?|Hv]; [done|]. by apply done_network.
    - apply Hsafe. destruct Hm as [?|Hm]; [done|]. by apply done_network. }
  destruct (memberSubnetCIDR_ok (recorded_networks c) ns Hs Hin) as (cidr & net & Hc & Hp).
  exists (NetworkStatus_SubnetID ns), cidr, net. by split_and!.
Qed.

(** *** The stages, one after the other *)

Lemma normal_stage msg (m : CM Result) (k : unit → CM Result) s Φ :
  healthy (world s) → respects pspends m → (∀ a, respects pspends (k a)) →
  preaches m s (λ r _, r = emptyResult) →
  (∀ s1, healthy (world s1) → m s = (Ok emptyResult, s1) → preaches (k ()) s1 Φ) →
  preaches (bind_flow (returning (wrap msg m)) k) s Φ.
Proof.
  intros Hh Hm Hk Hs Hks.
  apply (reaches_bind_flow healthy _ _ _ _ (λ s1, m s = (Ok emptyResult, s1)));
    [done|apply respects_returning; [apply _|by apply respects_wrap]|done| |auto].
  unfold returning. apply (reaches_bind healthy _ _ _ _ (λ r s1, r = emptyResult ∧ m s = (Ok emptyResult, s1))).
  - done.
  - by apply respects_wrap.
  - intros; spend.
  - apply reaches_wrap. eapply reaches_weaken; [done|]. intros r Hr ->. split; [done|].
    unfold result, exec in *. destruct (m s). simpl in Hr. by subst.
  - intros r s1 _ _ _ [-> E1]. by apply reaches_ret.
Qed.

(** The endpoint is set in the end. *)
Lemma withEndpoint_set ip c :
  all_managed (spec c) → fip_done c → (lbEnabled (spec c) = true → ip ≠ "") →
  endpointHost (withEndpoint ip c) ≠ "".
Proof.
  intros (_ & _ & _ & _ & _ & He) Hf Hip. unfold withEndpoint. case_bool_decide as Hd; [by destruct Hd|].
  intros H0. apply Hd. split; [done|]. unfold endpointSource, fip_done in *.
  destruct (CloudscaleClusterSpec_FloatingIP (spec c)); [by apply Hf|].
  destruct (lbEnabled (spec c)); [by apply Hip|]. by destruct He.
Qed.

(** Everything the specification asks for is there, and the cluster says so. *)
Definition cluster_provisioned c : Prop :=
  networks_done c ∧ routers_done c ∧ lb_done c ∧ fip_done c ∧ IsTrue c ReadyCondition = true ∧
  CloudscaleClusterStatus_Initialization (status c) = Some (mkClusterInitializationStatus (Some true)).

Lemma stages_provision token s s1 s2 st s3 s4 :
  let sc := scopeOf cluster token in
  all_managed (spec (obj s)) → sound_networks (obj s) →
  reconcileNetwork sc s = (Ok emptyResult, s1) → reconcileRouters sc s1 = (Ok emptyResult, s2) →
  reconcileLoadBalancer sc s2 = (Ok (st, emptyResult), s3) → reconcileFloatingIP sc s3 = (Ok emptyResult, s4) →
  lb_ready st = true → (lbEnabled (spec (obj s2)) = true → lb_ipAddress st ≠ "") →
  cluster_provisioned (setReadyCondition (setProvisioned (withEndpoint (lb_ipAddress st) (obj s4)))).
Proof.
  intros sc Ha Hs E1 E2 E3 E4 Hrd Hip. destruct (later_stages_keep_nets sc) as (K2 & K3 & K4).
  pose proof (reconcileNetwork_sound token s Ha Hs) as Hs1. unfold exec in Hs1. fold sc in Hs1. rewrite E1 in Hs1.
  pose proof (frame_run spec _ _ _ _ (reconcileNetwork_frame sc spec ltac:(done) ltac:(done)) E1) as V1.
  pose proof (frame_run _ _ _ _ _ K2 E2) as [= V2 N2]. pose proof (frame_run _ _ _ _ _ K3 E3) as [= V3 N3].
  pose proof (frame_run _ _ _ _ _ K4 E4) as [= V4 N4].
  pose proof Ha as (_ & _ & Hu & _).
  destruct (stages_deliver sc s s1 s2 st s3 s4 Hu E1 E2 E3 E4)
    as (H1 & H2 & H3 & H4 & H5 & H6).
  set (ip := lb_ipAddress st) in *. set (c' := setReadyCondition _) in *.
  unfold cluster_provisioned. rewrite H5, H6. split_and!; try done. do 3 f_equal. apply bool_decide_eq_true_2.
  assert (networks_of c' = CloudscaleClusterStatus_Networks (status (obj s1))) as Hnets.
  { transitivity (networks_of (obj s4)); [by apply (finish_view networks_of)|].
    unfold networks_of. by rewrite N4, N3, N2. }
  split.
  - rewrite Hnets. eapply Forall_impl; [exact Hs1|]. by intros ns [? _].
  - assert (endpointHost c' = endpointHost (withEndpoint ip (obj s4))) as ->.
    { subst c'. unfold setReadyCondition. by rewrite (readyFrom_spec_status endpointHost). }
    apply withEndpoint_set.
    + by rewrite V4, V3, V2, V1.
    + destruct (finish_views ip (obj s4)) as (_ & _ & _ & W4). by eapply floating_view_done; [symmetry; exact W4|].
    + by rewrite V4, V3.
Qed.

Lemma reconcileNormal_spends token : respects pspends (reconcileNormal (scopeOf cluster token)).
Proof.
  pose proof (reconcileNetwork_spends cluster token). pose proof (reconcileRouters_spends cluster token).
  pose proof (reconcileLoadBalancer_spends cluster token). pose proof (reconcileFloatingIP_spends cluster token).
  unfold reconcileNormal, reconcileNormalBody, reconcileControlPlaneEndpoint, Eventf. repeat spend_step.
Qed.

Lemma reconcileControlPlaneEndpoint_spends ip : respects pspends (reconcileControlPlaneEndpoint ip).
Proof. unfold reconcileControlPlaneEndpoint, Eventf. spend. Qed.

(** A whole reconcile provisions the cluster, or budget was spent. *)
Lemma reconcileNormal_reaches token s :
  healthy (world s) → all_managed (spec (obj s)) → sound_networks (obj s) →
  preaches (reconcileNormal (scopeOf cluster token)) s (λ _ s', cluster_provisioned (obj s')).
Proof.
  intros Hh Ha Hs. set (sc := scopeOf cluster token).
  pose proof (reconcileNetwork_spends cluster token). pose proof (reconcileRouters_spends cluster token).
  pose proof (reconcileLoadBalancer_spends cluster token). pose proof (reconcileFloatingIP_spends cluster token).
  pose proof reconcileControlPlaneEndpoint_spends.
  destruct (later_stages_keep_nets sc) as (K2 & K3 & K4).
  unfold reconcileNormal, reconcileNormalBody. apply reaches_deferred.
  apply normal_stage; [done|done|intros; repeat spend_step; auto| |].
  { apply reconcileNetwork_reaches; [done|]. destruct Ha as (Hne & Hn & _). split; [done|].
    apply Forall_forall. intros n Hin. by apply Hn. }
  intros s1 Hh1 E1.
  pose proof (reconcileNetwork_sound token s Ha Hs) as Hs1. unfold exec in Hs1. fold sc in Hs1. rewrite E1 in Hs1.
  pose proof (frame_run spec _ _ _ _ (reconcileNetwork_frame sc spec ltac:(done) ltac:(done)) E1) as V1.
  destruct (stage_run _ _ _ _ _ _ _ _ E1 I eq_refl) as [G1 _].
  apply normal_stage; [done|done|intros; repeat spend_step; auto| |].
  { apply reconcileRouters_reaches; [done|]. rewrite V1. destruct Ha as (_ & _ & _ & Hr & _).
    intros x Hx. destruct (Hr x Hx) as [Hu Hi]. split; [done|]. intros i Hin. destruct (Hi i Hin) as [Hui Hnet].
    split; [done|]. rewrite <- V1 in Hnet. destruct (done_network _ _ G1 Hnet) as (ns & -> & _). by eexists. }
  intros s2 Hh2 E2. pose proof (frame_run _ _ _ _ _ K2 E2) as [= V2 N2].
  assert (networks_done (obj s2) ∧ sound_networks (obj s2)) as [G2 Hs2].
  { split; [eapply network_view_done; [|exact G1]|by unfold sound_networks; rewrite N2].
    eapply frame_run; [apply routers_keep_networks|exact E2]. }
  apply (reaches_bind healthy _ _ _ _ (λ a s3, reconcileLoadBalancer sc s2 = (Ok a, s3) ∧
    a.2 = emptyResult ∧ lb_ready a.1 = true ∧ (lbEnabled (spec (obj s2)) = true → lb_ipAddress a.1 ≠ "")));
    [done|by apply respects_wrap|intros []; repeat spend_step; auto| |].
  { apply reaches_wrap. eapply reaches_weaken; [apply reconcileLoadBalancer_reaches; [done|]|].
    - intros Hen. rewrite V2, V1 in Hen. split; [apply done_vip_ready|apply done_subnet_ready]; rewrite ?V2, ?V1; done.
    - intros a Hr Hp. split; [|done]. unfold result, exec in *. destruct (reconcileLoadBalancer _ s2). simpl in Hr.
      by subst. }
  intros [st r] s3 Hh3 _ _ (E3 & Hz & Hrd & Hip). simpl in Hz, Hrd, Hip. subst r. simpl.
  pose proof (frame_run _ _ _ _ _ K3 E3) as [= V3 N3].
  apply normal_stage; [done|done|intros; repeat spend_step; auto| |].
  { apply reconcileFloatingIP_reaches; [done|]. destruct Ha as (_ & _ & _ & _ & _ & Hf). unfold managed_fip.
    rewrite V3, V2, V1. by destruct (CloudscaleClusterSpec_FloatingIP _). }
  intros s4 Hh4 E4. right.
  destruct (reconcileControlPlaneEndpoint_run (lb_ipAddress st) s4) as (evs & Ee & _).
  unfold exec, result. rewrite !(bind_ok _ _ _ _ _ Ee), !modify_bind. cbn [obj world log].
  destruct (_ || _); simpl; (eexists; split; [done|]); by eapply stages_provision.
Qed.

(** *** What a reconcile leaves for the next one *)

Definition fit c : Prop := all_managed (spec c) ∧ sound_networks c.

Lemma fit_view {A} (m : CM A) : respects (keeps net_view) m → respects (preserves fit) m.
Proof. apply (preserves_keeps net_view (λ v, all_managed v.1 ∧ Forall sound_network v.2)). Qed.

Lemma all_managed_endpoint ep sp :
  APIEndpoint_Host ep ≠ "" → all_managed sp → all_managed (set_CloudscaleClusterSpec_ControlPlaneEndpoint ep sp).
Proof.
  intros Hep (H1 & H2 & H3 & H4 & H5 & H6). unfold all_managed in *. destruct sp. simpl in *. split_and!; try done.
  destruct CloudscaleClusterSpec_FloatingIP; [done|by right].
Qed.

Lemma fit_withEndpoint ip c : fit c → fit (withEndpoint ip c).
Proof.
  intros [Ha Hs]. unfold withEndpoint. case_bool_decide as Hd; [|done]. split; [|done].
  by apply all_managed_endpoint; [apply Hd|].
Qed.

Lemma reconcileNormal_fit token : respects (preserves fit) (reconcileNormal (scopeOf cluster token)).
Proof.
  destruct (later_stages_keep_nets (scopeOf cluster token)) as (K2 & K3 & K4).
  apply fit_view in K2, K3, K4.
  assert (respects (preserves fit) (reconcileNetwork (scopeOf cluster token))) as K1.
  { intros s [Ha Hs]. split; [|by apply reconcileNetwork_sound].
    by rewrite (reconcileNetwork_frame _ spec ltac:(done) ltac:(done) s). }
  assert (∀ ip, respects (preserves fit) (reconcileControlPlaneEndpoint ip)) as K5.
  { intros ip s Hf. destruct (reconcileControlPlaneEndpoint_run ip s) as (evs & Ee & _).
    unfold exec. rewrite Ee. by apply fit_withEndpoint. }
  unfold reconcileNormal, reconcileNormalBody. repeat frame_step; try done.
  unfold fit, sound_networks, setReadyCondition.
  by rewrite (readyFrom_spec_status spec), (readyFrom_spec_status (λ c, CloudscaleClusterStatus_Networks (status c))).
Qed.

(** A cluster to be provisioned. *)
Definition provisioning c : Prop :=
  ObjectMeta_DeletionTimestamp (CloudscaleCluster_Meta c) = None ∧ active cluster c ∧ fit c.

(** The body of the reconcile, for such a cluster. *)
Lemma provisioning_body token s :
  ObjectMeta_DeletionTimestamp (CloudscaleCluster_Meta (obj s)) = None →
  ∃ c, reconcileBody (scopeOf cluster token) s =
         reconcileNormal (scopeOf cluster token) (mkSt c (world s) (log s)) ∧
       spec c = spec (obj s) ∧ status c = status (obj s) ∧
       ∃ fs, CloudscaleCluster_Meta c = set_ObjectMeta_Finalizers fs (CloudscaleCluster_Meta (obj s)).
Proof.
  intros Hd. unfold reconcileBody. rewrite bind_get, Hd.
  destruct (ContainsFinalizer _ _); simpl.
  - exists (obj s). split_and!; [by destruct s|done|done|].
    exists (ObjectMeta_Finalizers (CloudscaleCluster_Meta (obj s))). by destruct (CloudscaleCluster_Meta (obj s)).
  - exists (addFinalizer (obj s)). split_and!; [done..|]. by eexists.
Qed.

Lemma provisioning_kept token c s :
  provisioning c → obj s = unpaused c → provisioning (obj (exec (reconcileBody (scopeOf cluster token)) s)).
Proof.
  intros (Hd & [Hp Hk] & Hf) Hs.
  destruct (provisioning_body token s) as (c1 & Eb & Hsp & Hst & fs & Hm); [by rewrite Hs|].
  set (s1 := mkSt c1 (world s) (log s)) in *.
  assert (obj (exec (reconcileBody (scopeOf cluster token)) s) =
          obj (exec (reconcileNormal (scopeOf cluster token)) s1)) as -> by (unfold exec; by rewrite Eb).
  pose proof (reconcileNormal_meta (scopeOf cluster token) s1) as Hm1. unfold keeps in Hm1. simpl in Hm1.
  destruct (reconcileNormal_spec (scopeOf cluster token) s1) as (Hsp1 & _). simpl in Hsp1.
  rewrite Hs in Hsp, Hst, Hm. unfold provisioning, active, CredentialsSecretRef in *.
  change (obj s1) with c1 in Hm1.
  split_and!.
  - by rewrite Hm1, Hm.
  - rewrite Hm1, Hm, providing_paused. exact Hp.
  - unfold spec in Hsp1, Hsp. rewrite Hsp1, Hm1, Hm, Hsp. exact Hk.
  - apply reconcileNormal_fit. unfold fit, sound_networks. simpl. by rewrite Hsp, Hst.
Qed.

Lemma provisioning_turn c w :
  healthy w → provisioning c → let x' := turn cluster (c, w) in
  healthy x'.2 ∧ (cluster_provisioned x'.1 ∨ provisioning x'.1 ∧ budget x'.2 < budget w).
Proof.
  intros Hh Hc. destruct (turn_cases cluster c w cluster_provisioned provisioning) as (Hh' & HJ & HΦ);
    [done|apply Hc|..].
  - intros token s Hs. destruct (provisioning_body token s) as (c1 & Eb & _); [rewrite Hs; apply Hc|].
    unfold exec. rewrite Eb. apply (reconcileNormal_spends token (mkSt c1 (world s) (log s))).
  - intros token s Hhs Hs. destruct (provisioning_body token s) as (c1 & Eb & Hsp & Hst & _); [rewrite Hs; apply Hc|].
    rewrite Hs in Hsp, Hst. destruct Hc as (_ & _ & Ha & Hn).
    pose proof (reconcileNormal_reaches token (mkSt c1 (world s) (log s)) Hhs) as H.
    unfold reaches, exec, result in *. rewrite Eb. apply H; unfold sound_networks; simpl; by rewrite ?Hsp, ?Hst.
  - intros token s Hs. by eapply provisioning_kept.
  - split; [done|]. destruct HΦ as [?|Hlt]; [by left|right]. split; [|done]. by destruct HJ as [->|].
Qed.

(** C4. Provisioning converges. Let a cluster whose resources are all managed, that is
    neither being deleted nor paused, be reconciled over and over, with the API
    server storing what each reconcile patches, and let others act on the world in
    between. If calls fail, lose their answers, or find routers and load balancers
    not ready only as often as the environment's budget allows, then within that
    many turns and one more a turn stores a cluster for which every network, router,
    interface, load balancer part and floating IP of the spec is recorded, which is
    marked provisioned, and whose Ready condition is True. *)
Theorem provisioning_converges (others : nat → World → World) c w :
  (∀ i w, healthy w → healthy (others i w) ∧ budget (others i w) ≤ budget w) →
  healthy w → provisioning c →
  ∃ n, n ≤ S (budget w) ∧ cluster_provisioned (fst (turns (turn cluster) others n (c, w))).
Proof.
  intros Ho. apply (turns_reach healthy budget (turn cluster) others (λ c _, provisioning c) cluster_provisioned);
    [done|done|]. apply provisioning_turn.
Qed.
End convergence.
