(* ===== verification/MachineTurns.v ===== *)
(** * Turns of the machine controller

    A CloudscaleMachine is reconciled over and over, each time from what the
    reconcile before has stored, as the cluster is in Turns.v. Two results: a machine
    that is being deleted loses its finalizer, and a machine of a provisioned cluster
    gets its server, follows it, and is Ready, once the environment has failed as
    often as its budget allows. *)

From S2P Require Export Turns.
From S2P Require Export MachineCtl.

(** ** What every machine reconcile needs *)

(** The machine's patch goes through, and its cluster can be read, as long as
    nothing is spent. *)
Class MachineEnvironment `{E : Environment} := {
  recovers_mhelper m : patch_NewMachineHelper m = Ok ();
  recovers_mpatch snapshot m ok : recovers healthy budget always never (patch_Machine snapshot m ok);
  gentle_cluster key : gentle healthy budget (kube_GetCloudscaleCluster key) }.

#[export] Hint Resolve recovers_mpatch gentle_cluster : recovery.

(** A cluster whose machines can be reconciled. *)
Definition serves `{E : Environment} (cc : CloudscaleCluster) : Prop :=
  clusterProvisioned cc = true ∧
  credentials (credentials_key (CredentialsSecretRef cc) (ObjectMeta_Namespace (CloudscaleCluster_Meta cc))).

Section machine_turns.
Context `{ME : MachineEnvironment}.
Context (machine : Machine) (cluster : Cluster).
Implicit Types (s : MState) (m : CloudscaleMachine) (cc : CloudscaleCluster) (w : World).

Abbreviation mspends := (spends (O:=CloudscaleMachine) (Ev:=Event) healthy budget).
Abbreviation mreaches := (reaches (O:=CloudscaleMachine) (Ev:=Event) budget).

(** The scope that [reconcileOwned] makes. *)
Definition mscopeOf cc (token : string) : MachineScope := mkMachineScope cluster machine cc (NewClient token).

Definition mpersisted (e : Event) : option CloudscaleMachine :=
  match e with EPatchMachine _ m' _ (Ok _) => Some m' | _ => None end.

Definition mturn (x : CloudscaleMachine * World) : CloudscaleMachine * World :=
  let s' := exec (reconcileOwned machine cluster) (mkSt x.1 x.2 []) in (stored mpersisted x.1 (log s'), world s').

Definition munpaused m : CloudscaleMachine :=
  set_mconditions (conditions_delete PausedCondition (mconditions m)) m.

(** The key under which the machine's reconcile reads the infrastructure cluster. *)
Definition clusterKey m : string * string :=
  (Cluster_InfrastructureRef_Name cluster, ObjectMeta_Namespace (CloudscaleMachine_Meta m)).

Lemma quiet_munpatched evs : Forall quiet evs → Forall (unpatched mpersisted) evs.
Proof. intros H. eapply Forall_impl; [exact H|]. by intros []. Qed.

(** A turn, by what its body does: the goal [Φ] when nothing is spent; and [J] in any
    case, an invariant of the object and the world that no call breaks ([R]). The
    body sees a cluster with [ψ] unless budget was spent. *)
Section turn_cases.
Context (R : relation World) `{!PreOrder R}.
Context (moves_cluster : ∀ key w, R w (snd (kube_GetCloudscaleCluster key w)))
  (moves_secret : ∀ key w, R w (snd (kube_GetSecret key w)))
  (moves_patch : ∀ snapshot m ok w, R w (snd (patch_Machine snapshot m ok w))).
Context (ψ : CloudscaleCluster → Prop) (Φ : CloudscaleMachine → Prop) (J : CloudscaleMachine → World → Prop).
Context (HR : ∀ m w w', R w w' → J m w → J m w').

Lemma moves_token ref ns : respects (wmoves R) (GetToken (O:=CloudscaleMachine) ref ns).
Proof. unfold GetToken. frame. apply moves_secret. Qed.

(** From the point where the cluster was read. *)
Definition afterCluster m cc : MM Result :=
  if negb (clusterProvisioned cc) then
    modify (setCondition ServerReadyCondition ConditionFalse WaitingForClusterInfrastructureReason
              "Waiting for cluster infrastructure to be provisioned") ;;!
    modify setReadyCondition ;;!
    ret emptyResult
  else
    let! token := wrap "failed to get cloudscale.ch credentials: "
                    (GetToken (CredentialsSecretRef cc) (ObjectMeta_Namespace (CloudscaleCluster_Meta cc))) in
    patched (patch_Machine (munpaused m)) (EPatchMachine (munpaused m))
      (machineBody (mscopeOf cc token) (munpaused m)).

Lemma reconcileOwned_shape m w :
  annotations_IsPaused cluster (CloudscaleMachine_Meta m) = false →
  exec (reconcileOwned machine cluster) (mkSt m w []) =
    match kube_GetCloudscaleCluster (clusterKey m) w with
    | (Err e, w1) => mkSt (munpaused m) w1 [EKubeGet (clusterKey m) (Err e)]
    | (Ok cc, w1) => exec (afterCluster m cc) (mkSt (munpaused m) w1 [EKubeGet (clusterKey m) (Ok ())])
    end.
Proof.
  intros Hp. unfold exec, reconcileOwned. rewrite bind_get. cbn [obj]. rewrite Hp, modify_bind. cbn [obj world log].
  fold (munpaused m). unfold try, call, bind at 1. cbn [obj world log]. unfold clusterKey.
  destruct (kube_GetCloudscaleCluster _ w) as [[cc|e] w1]; cbn [void res_map app]; [|reflexivity].
  unfold afterCluster. destruct (clusterProvisioned cc) eqn:Hcc; [|reflexivity]. cbn [negb].
  set (s1 := mkSt (munpaused m) w1 _).
  pose proof (GetToken_keeps id (CredentialsSecretRef cc) (ObjectMeta_Namespace (CloudscaleCluster_Meta cc)) s1) as Hk.
  unfold exec, keeps, id in Hk. unfold wrap, bind, get.
  destruct (GetToken _ _ s1) as [[token|e] s2]; simpl in *; [|reflexivity].
  unfold NewMachineScope. rewrite recovers_mhelper, Hk. reflexivity.
Qed.

Lemma mturn_cases m w :
  (∀ cc token, respects (wmoves R) (machineBody (mscopeOf cc token) (munpaused m))) →
  (∀ cc token s, healthy (world s) → obj s = munpaused m → J m (world s) →
     mspends s (exec (machineBody (mscopeOf cc token) (munpaused m)) s) ∧
     J (obj (exec (machineBody (mscopeOf cc token) (munpaused m)) s))
       (world (exec (machineBody (mscopeOf cc token) (munpaused m)) s)) ∧
     (ψ cc → mreaches (machineBody (mscopeOf cc token) (munpaused m)) s (λ _ s', Φ (obj s')))) →
  healthy w → annotations_IsPaused cluster (CloudscaleMachine_Meta m) = false →
  recovers healthy budget (λ cc, serves cc ∧ ψ cc) never (kube_GetCloudscaleCluster (clusterKey m)) →
  J m w →
  let x' := mturn (m, w) in
  healthy x'.2 ∧ J x'.1 x'.2 ∧ (Φ x'.1 ∨ budget x'.2 < budget w).
Proof.
  intros HbR Hb Hh Hp Hcl HJ x'. subst x'. unfold mturn. cbn [fst snd].
  rewrite reconcileOwned_shape by done. destruct (Hcl w Hh) as (Hh1 & Hle1 & Hcc).
  pose proof (moves_cluster (clusterKey m) w) as HR1.
  destruct (kube_GetCloudscaleCluster _ w) as [[cc|e] w1]; cbn [fst snd] in *.
  2:{ simpl. split_and!; [done|by eapply HR|]. destruct Hcc as [?|[=]]. by right. }
  set (s1 := mkSt (munpaused m) w1 _). unfold afterCluster.
  destruct (clusterProvisioned cc) eqn:Hprov; cbn [negb].
  2:{ simpl. split_and!; [done|by eapply HR|]. destruct Hcc as [?|[[Hs _] _]]; [by right|]. by rewrite Hs in Hprov. }
  pose proof (moves_token (CredentialsSecretRef cc) (ObjectMeta_Namespace (CloudscaleCluster_Meta cc)) s1) as HR2.
  pose proof (GetToken_spends (CredentialsSecretRef cc) (ObjectMeta_Namespace (CloudscaleCluster_Meta cc)) s1 Hh1)
    as [Hh2 Hle2].
  assert (budget w1 < budget w ∨ mreaches (GetToken (CredentialsSecretRef cc)
            (ObjectMeta_Namespace (CloudscaleCluster_Meta cc))) s1 (λ _ _, ψ cc)) as Htok.
  { destruct Hcc as [?|[[_ Hkey] Hψ]]; [by left|right].
    eapply reaches_weaken; [by apply (GetToken_settles _ _ Hkey s1)|]. by intros. }
  pose proof (GetToken_silent (CredentialsSecretRef cc) (ObjectMeta_Namespace (CloudscaleCluster_Meta cc)) s1)
    as (pre & Hl & HF).
  pose proof (GetToken_keeps id (CredentialsSecretRef cc) (ObjectMeta_Namespace (CloudscaleCluster_Meta cc)) s1)
    as Hk.
  unfold reaches, exec, result, keeps, wmoves, id in *. unfold wrap, bind. simpl in *.
  destruct (GetToken _ _ s1) as [[token|e] s2]; simpl in *.
  2:{ rewrite Hl, stored_unpatched by (apply quiet_munpatched; constructor; [done|by apply silent_quiet]).
      split_and!; [done|by eapply HR, HR, HJ|]. right. destruct Htok as [?|[?|(? & [=] & _)]]; lia. }
  assert (J m (world s2)) as HJ2 by (by eapply HR, HR, HJ).
  destruct (Hb cc token s2 Hh2 Hk HJ2) as (Hsp & HJ3 & Hre).
  pose proof (HbR cc token s2) as HR3. unfold wmoves, exec in HR3.
  destruct (patched_reaches healthy budget mpersisted (patch_Machine (munpaused m)) (EPatchMachine (munpaused m)))
    with (body := machineBody (mscopeOf cc token) (munpaused m)) (o := m) (s := s2) (J := J) (Φ := Φ) (given := ψ cc)
    as (Hh4 & Hle4 & HJ4 & HΦ4);
    [by intros ? ? []|intros; apply recovers_mpatch|done|done|done|exact (HR m _ _ HR3 HJ2)|done|
     intros o o' ok w' ?; by apply (HR o w'); [apply moves_patch|]|].
  unfold exec in *. split_and!; [done|done|].
  destruct Htok as [?|[?|(? & _ & Hψ)]]; [right; lia..|]. destruct (HΦ4 Hψ); [right; lia|by left].
Qed.
End turn_cases.
End machine_turns.

(** ** Deletion *)

(** A server that is gone already is no failure. *)
Class Undeploying `{E : Environment} := {
  recovers_server token id :
    recovers healthy budget always IsNotFound (svc_Delete (Servers (NewClient token)) id) }.

#[export] Hint Resolve recovers_server : recovery.

Section machine_deletion.
Context `{ME : MachineEnvironment} {U : Undeploying}.
Context (machine : Machine) (cluster : Cluster).
Implicit Types (s : MState) (m : CloudscaleMachine).

Abbreviation mspends := (spends (O:=CloudscaleMachine) (Ev:=Event) healthy budget).
Abbreviation msettles := (settles (O:=CloudscaleMachine) (Ev:=Event) healthy budget).
Abbreviation dscope := (mscopeOf machine cluster).

Lemma machine_delete_spends cc token : respects mspends (reconcileDelete (dscope cc token)).
Proof. unfold reconcileDelete, deleteServer, deleteServerBody, sdk_Delete, Eventf. spend. Qed.

Lemma machine_delete_settles cc token : msettles always (reconcileDelete (dscope cc token)).
Proof.
  unfold reconcileDelete, deleteServer, deleteServerBody, sdk_Delete, Eventf.
  settle.
Qed.

Definition undeployed m : Prop := MachineFinalizer ∉ mfinalizers m.

(** A machine to be deleted, whose cluster can be read. *)
Definition machine_deleting m : Prop :=
  is_Some (ObjectMeta_DeletionTimestamp (CloudscaleMachine_Meta m)) ∧
  annotations_IsPaused cluster (CloudscaleMachine_Meta m) = false ∧
  recovers healthy budget serves never (kube_GetCloudscaleCluster (clusterKey cluster m)).

Lemma machine_deleting_meta m m' :
  CloudscaleMachine_Meta m' = CloudscaleMachine_Meta m → machine_deleting m → machine_deleting m'.
Proof. unfold machine_deleting, clusterKey. by intros ->. Qed.

(** What a deletion leaves: it went through, or the object is as before in all that
    counts for the next one. *)
Lemma machine_delete_leaves cc token s :
  let s' := exec (reconcileDelete (dscope cc token)) s in
  undeployed (obj s') ∨ CloudscaleMachine_Meta (obj s') = CloudscaleMachine_Meta (obj s).
Proof.
  assert (respects (keeps CloudscaleMachine_Meta) (deleteServer (dscope cc token))) as Hk.
  { unfold deleteServer, deleteServerBody, sdk_Delete, Eventf. frame; try done. by destruct r. }
  intros s'. subst s'. unfold reconcileDelete, exec. rewrite modify_bind. set (s0 := mkSt _ _ _).
  specialize (Hk s0). unfold wrap, bind, modify, ret, exec, keeps in *.
  destruct (deleteServer _ s0) as [[[]|e] s1]; simpl in *; [left|by right].
  unfold undeployed, mfinalizers. simpl. rewrite RemoveFinalizer_spec. tauto.
Qed.

Lemma machine_deletion_turn m w :
  healthy w → machine_deleting m → let x' := mturn machine cluster (m, w) in
  healthy x'.2 ∧ (undeployed x'.1 ∨ machine_deleting x'.1 ∧ budget x'.2 < budget w).
Proof.
  intros Hh Hd. destruct Hd as ([t Ht] & Hp & Hcl).
  assert (∀ cc token, machineBody (dscope cc token) (munpaused m) = reconcileDelete (dscope cc token)) as Eb.
  { intros cc token. unfold machineBody.
    by change (CloudscaleMachine_Meta (munpaused m)) with (CloudscaleMachine_Meta m); rewrite Ht. }
  assert (PreOrder (λ _ _ : World, True)) as Hpre by done.
  destruct (mturn_cases machine cluster (λ _ _, True)) with (m := m) (w := w) (ψ := λ _ : CloudscaleCluster, True) (Φ := undeployed)
    (J := λ m' (_ : World), undeployed m' ∨ CloudscaleMachine_Meta m' = CloudscaleMachine_Meta m)
    as (Hh' & HJ & HΦ); try done.
  - intros cc token s Hhs Ho _. change (mscopeOf machine cluster cc token) with (dscope cc token).
    rewrite Eb. split_and!.
    + apply machine_delete_spends.
    + destruct (machine_delete_leaves cc token s) as [?|E1]; [by left|right]. by rewrite E1, Ho.
    + intros _. pose proof (machine_delete_settles cc token s Hhs) as Hs. revert Hs. unfold reaches.
      pose proof (machine_delete_spec (dscope cc token) s) as (evs & _ & _ & _ & Hr).
      intros [?|(a & Ha & _)]; [by left|right]. exists a. split; [done|]. rewrite Ha in Hr.
      destruct Hr as (_ & _ & Hf & _). unfold undeployed. rewrite Hf. tauto.
  - intros w1 Hw1. destruct (Hcl w1 Hw1) as (H1 & H2 & H3). split_and!; [done..|].
    destruct H3 as [?|H3]; [by left|right]. by destruct (fst _).
  - by right.
  - split; [done|]. destruct HJ as [?|Hm]; [by left|]. destruct HΦ as [?|?]; [by left|right].
    split; [|done]. eapply machine_deleting_meta; [done|]. split_and!; [by exists t|done|done].
Qed.

(** C7. Machine deletion terminates. Let a machine that is being deleted, and not
    paused, be reconciled over and over, with the API server storing what each
    reconcile patches, and let others act on the world in between. If its cluster
    is provisioned and calls fail or lose their answers only as often as the
    environment's budget allows, then within that many turns and one more a turn
    stores the machine without its finalizer, and the object can go. *)
Theorem machine_deletion_terminates (others : nat → World → World) m w :
  (∀ i w, healthy w → healthy (others i w) ∧ budget (others i w) ≤ budget w) →
  healthy w → machine_deleting m →
  ∃ n, n ≤ S (budget w) ∧ undeployed (fst (turns (mturn machine cluster) others n (m, w))).
Proof.
  intros Ho. apply (turns_reach healthy budget (mturn machine cluster) others (λ m _, machine_deleting m) undeployed);
    [done|done|]. apply machine_deletion_turn.
Qed.
End machine_deletion.
