(* ===== verification/Hosting.v ===== *)
(** * Machines get their servers

    The environment in which the machines of a cluster get servers, as a class, and
    the result for it: a machine that is reconciled again and again gets one server,
    follows it, and is Ready, at the latest when the environment has failed, lost
    answers, or shown the server not running as often as its budget allows. *)

From S2P Require Export MachineTurns.

(** ** The environment *)

Definition running (x : Server) : Prop := Server_Status x = ServerStatusRunning.

(** Servers are looked up by one tag, the machine tag of their cluster ([key]):
    [unhosted value w] says that no server carries it with this value, [hosted id w]
    that the server [id] exists, which no call that a machine reconcile makes can
    end. Creating is only safe where a listing has shown nothing. Until a server
    runs, a look at it spends budget. *)
Class Hosting `{E : Environment} (key : string) := {
  hosting_paused cluster fs meta :
    annotations_IsPaused cluster (set_ObjectMeta_Finalizers fs meta) = annotations_IsPaused cluster meta;
  unhosted : string → World → Prop;
  hosted : string → World → Prop;
  server_get_gentle token id : gentle healthy budget (svc_Get (Servers (NewClient token)) id);
  server_get token id w : healthy w → hosted id w →
    recovers_at healthy budget running never (svc_Get (Servers (NewClient token)) id) w;
  server_get_id token id w x w' : svc_Get (Servers (NewClient token)) id w = (Ok x, w') → Server_UUID x = id;
  server_list token value :
    recovers healthy budget (λ l, length l ≤ 1 ∧ Forall running l) never
      (svc_List (Servers (NewClient token)) {[key := value]});
  server_list_none token value w w' :
    svc_List (Servers (NewClient token)) {[key := value]} w = (Ok [], w') → unhosted value w';
  server_list_hosted token value w l w' x :
    svc_List (Servers (NewClient token)) {[key := value]} w = (Ok l, w') → x ∈ l →
    Server_UUID x ≠ "" ∧ hosted (Server_UUID x) w';
  server_create token value req w :
    healthy w → unhosted value w → ServerRequest_Tags req !! key = Some value →
    recovers_at healthy budget running never (svc_Create (Servers (NewClient token)) req) w;
  server_create_hosted token req w x w' :
    svc_Create (Servers (NewClient token)) req w = (Ok x, w') → Server_UUID x ≠ "" ∧ hosted (Server_UUID x) w';
  unhosted_secret value k w : unhosted value w → unhosted value (snd (kube_GetSecret k w));
  group_get token id : recovers healthy budget always IsNotFound (svc_Get (ServerGroups (NewClient token)) id);
  group_list token tags : recovers healthy budget always never (svc_List (ServerGroups (NewClient token)) tags);
  group_create token req : recovers healthy budget always never (svc_Create (ServerGroups (NewClient token)) req);
  lasts_cluster id k w : hosted id w → hosted id (snd (kube_GetCloudscaleCluster k w));
  lasts_secret id k w : hosted id w → hosted id (snd (kube_GetSecret k w));
  lasts_patch id sn m ok w : hosted id w → hosted id (snd (patch_Machine sn m ok w));
  lasts_get token id id' w : hosted id w → hosted id (snd (svc_Get (Servers (NewClient token)) id' w));
  lasts_list token id tags w : hosted id w → hosted id (snd (svc_List (Servers (NewClient token)) tags w));
  lasts_create token id req w : hosted id w → hosted id (snd (svc_Create (Servers (NewClient token)) req w));
  lasts_group_get token id id' w : hosted id w → hosted id (snd (svc_Get (ServerGroups (NewClient token)) id' w));
  lasts_group_list token id tags w :
    hosted id w → hosted id (snd (svc_List (ServerGroups (NewClient token)) tags w));
  lasts_group_create token id req w :
    hosted id w → hosted id (snd (svc_Create (ServerGroups (NewClient token)) req w)) }.

#[export] Hint Extern 1 (recovers _ _ _ _ (svc_Get (ServerGroups _) _)) => apply group_get : recovery.
#[export] Hint Extern 1 (recovers _ _ _ _ (svc_List (ServerGroups _) _)) => apply group_list : recovery.
#[export] Hint Extern 1 (recovers _ _ _ _ (svc_Create (ServerGroups _) _)) => apply group_create : recovery.

Section hosting.
Context `{ME : MachineEnvironment}.
Context (machine : Machine) (cluster : Cluster).
Abbreviation key := (MachineTagKey (Cluster_Name cluster)).
Context {H : Hosting key}.
Implicit Types (s : MState) (m : CloudscaleMachine) (cc : CloudscaleCluster) (w : World).

Abbreviation mspends := (spends (O:=CloudscaleMachine) (Ev:=Event) healthy budget).
Abbreviation msettles := (settles (O:=CloudscaleMachine) (Ev:=Event) healthy budget).
Abbreviation mreaches := (reaches (O:=CloudscaleMachine) (Ev:=Event) budget).
Abbreviation hscope := (mscopeOf machine cluster).

(** ** What a machine may rely on *)

(** Servers stay. *)
Definition lasting : relation World := λ w w', ∀ id, hosted id w → hosted id w'.

#[local] Instance lasting_preorder : PreOrder lasting.
Proof. split; [by intros w id|]. intros w1 w2 w3 H1 H2 id Hid. by apply H2, H1. Qed.

Lemma machine_normal_lasts cc token : respects (wmoves lasting) (reconcileNormal (hscope cc token)).
Proof.
  unfold reconcileNormal, reconcileNormalBody, reconcileServerGroup, reconcileServerGroupBody,
    listOrCreateGroup, reconcileServer, reconcileServerBody, createServer, adoptServer,
    GetBootstrapData, sdk_Get, sdk_List, sdk_ListGroups, sdk_Create, Eventf.
  frame; intros id Hid; eauto using lasts_secret, lasts_get, lasts_list, lasts_create, lasts_group_get,
    lasts_group_list, lasts_group_create.
Qed.

(** The recorded server exists, and the user's tags leave the machine tag alone. *)
Definition recorded m w : Prop := serverID m = "" ∨ hosted (serverID m) w.
Definition untagged m : Prop := CloudscaleMachineSpec_Tags (mspec m) !! key = None.

Lemma recorded_lasting m w w' : lasting w w' → recorded m w → recorded m w'.
Proof. intros Hl [?|?]; [by left|right]. by apply Hl. Qed.

(** ** The server *)

Lemma create_tags cc token m data ifaces fam :
  untagged m →
  ServerRequest_Tags (serverRequest (hscope cc token) m data ifaces fam) !! key =
    Some (Cluster_Namespace cluster +:+ "/" +:+ Cluster_Name cluster +:+ "/" +:+ machineName m).
Proof.
  intros Hu. simpl. unfold machineCreateTags. rewrite lookup_union_r by exact Hu. apply lookup_singleton_eq.
Qed.

(** Reading the bootstrap data is one look at a secret, or none. *)
Lemma GetBootstrapData_world cc token s :
  let s' := exec (GetBootstrapData (hscope cc token)) s in
  obj s' = obj s ∧ (world s' = world s ∨ ∃ k, world s' = snd (kube_GetSecret k (world s))).
Proof.
  unfold GetBootstrapData, exec. destruct (Machine_DataSecretName _) as [name|]; [|by split; [|left]].
  unfold wrap, bind, call, throw, ret. simpl.
  destruct (kube_GetSecret _ _) as [[data|e] w] eqn:Eg; simpl; [destruct (data !! "value")|];
    (split; [done|right]); eexists (_, _); rewrite Eg; done.
Qed.

Abbreviation lookupValue m :=
  (Cluster_Namespace cluster +:+ "/" +:+ Cluster_Name cluster +:+ "/" +:+ machineName m).

(** What is known of a run from [s] to [s']: it makes the environment no worse, and
    the recorded server exists at its end. *)
Definition tracks s s' : Prop :=
  healthy (world s) → untagged (obj s) → recorded (obj s) (world s) →
  healthy (world s') ∧ budget (world s') ≤ budget (world s) ∧ recorded (obj s') (world s').

(** The part of [createServer] after the bootstrap data. *)
Definition createWith cc token (bootstrapData : string) : MM (Result * option Server) :=
  let ms := hscope cc token in
  let! m := get in
  let! (interfaces, ipFamily) :=
    wrap "building interface requests: " (of_res (buildInterfaceRequests ms m)) in
  let req := serverRequest ms m bootstrapData interfaces ipFamily in
  let! r := try (sdk_Create (Servers (mscope_Client ms)) CServer Server_UUID req) in
  match r with
  | Err e =>
      if IsTimeoutError e then ret (requeue 30, None) else throw (wrapError "creating server: " e)
  | Ok server =>
      modify (set_server (Server_UUID server)) ;;!
      Eventf "Normal" "ServerCreated" "CreateServer"
        ("Created server " +:+ Server_UUID server +:+ " in zone " +:+ ServerRequest_Zone req) ;;!
      adoptServer server
  end.

Lemma createServer_shape cc token :
  createServer (hscope cc token) =
    bind (wrap "getting bootstrap data: " (GetBootstrapData (hscope cc token))) (createWith cc token).
Proof. reflexivity. Qed.

Lemma createWith_tracks cc token data s :
  serverID (obj s) = "" → unhosted (lookupValue (obj s)) (world s) →
  tracks s (exec (createWith cc token data) s).
Proof.
  intros Hid Hun Hh Hu _. unfold createWith. rewrite exec_get. unfold exec, wrap, bind, of_res.
  destruct (buildInterfaceRequests _ _) as [[ifaces fam]|e]; simpl; [|split_and!; [done|done|by left]].
  unfold try, sdk_Create, call. simpl. set (req := serverRequest _ _ _ _ _).
  assert (ServerRequest_Tags req !! key = Some (lookupValue (obj s))) as Ht by (by apply (create_tags cc token)).
  destruct (server_create token (lookupValue (obj s)) req (world s) Hh Hun Ht) as (Hh2 & Hle2 & _).
  pose proof (server_create_hosted token req (world s)) as Hk.
  destruct (svc_Create _ _ _) as [[x|e] w2]; simpl in *.
  - split_and!; [done|lia|right]. by destruct (Hk x w2 eq_refl).
  - destruct (IsTimeoutError e); simpl; (split_and!; [done|lia|by left]).
Qed.

(** Up to the bootstrap data nothing has changed that matters. *)
Lemma before_creation cc token s :
  healthy (world s) → unhosted (lookupValue (obj s)) (world s) →
  let s' := exec (GetBootstrapData (hscope cc token)) s in
  obj s' = obj s ∧ healthy (world s') ∧ budget (world s') ≤ budget (world s) ∧
  unhosted (lookupValue (obj s)) (world s').
Proof.
  intros Hh Hun s'. destruct (GetBootstrapData_world cc token s) as [Ho Hw]. fold s' in Ho, Hw.
  split; [done|]. destruct Hw as [->|[k ->]]; [done|]. destruct (gentle_secret k (world s) Hh).
  split_and!; [done|done|by apply unhosted_secret].
Qed.

Lemma createServer_tracks cc token s :
  serverID (obj s) = "" → unhosted (lookupValue (obj s)) (world s) →
  tracks s (exec (createServer (hscope cc token)) s).
Proof.
  intros Hid Hun Hh Hu _. destruct (before_creation cc token s Hh Hun) as (Ho & Hh1 & Hle1 & Hun1).
  rewrite createServer_shape. unfold exec, wrap, bind in *.
  destruct (GetBootstrapData _ s) as [[data|e] s1]; simpl in *; [|split_and!; [done|done|left; congruence]].
  destruct (createWith_tracks cc token data s1) as (H1 & H2 & H3);
    [by rewrite Ho|by rewrite Ho|done|by unfold untagged; rewrite Ho|left; by rewrite Ho|].
  unfold exec in *. split_and!; [done|lia|done].
Qed.

Lemma reconcileServer_tracks cc token s : tracks s (exec (reconcileServer (hscope cc token)) s).
Proof.
  assert (tracks s (exec (reconcileServerBody (hscope cc token)) s)) as Hb.
  2:{ intros Hh Hu Hr. destruct (Hb Hh Hu Hr) as (H1 & H2 & H3). unfold exec in *. rewrite reconcileServer_run.
      destruct (reconcileServerBody _ s) as [r s1]; simpl in *. split_and!; [done|done|].
      unfold recorded, afterServer in *. destruct r as [[res [x|]]|e]; try done.
      by rewrite (setServerStatusCondition_free serverID). }
  intros Hh Hu Hr. unfold reconcileServerBody. rewrite exec_get.
  destruct (serverID (obj s) == "") eqn:Hid; go_bools; cbn [negb].
  - unfold exec, wrap, bind, sdk_List, call. simpl.
    destruct (server_list token (lookupValue (obj s)) (world s) Hh) as (Hh1 & Hle1 & _).
    pose proof (server_list_none token (lookupValue (obj s)) (world s)) as Hnone.
    pose proof (server_list_hosted token (lookupValue (obj s)) (world s)) as Hsome.
    unfold machineLookupTag. simpl.
    destruct (svc_List _ _ _) as [[[|x [|y l]]|e] w1]; simpl in *.
    + set (s1 := mkSt (obj s) w1 _). destruct (createServer_tracks cc token s1) as (H1 & H2 & H3); auto.
      { by left. } split_and!; [done|simpl in *; unfold exec in *; lia|done].
    + split_and!; [done|done|right]. destruct (Hsome _ _ x eq_refl) as [_ Hx]; [by left|exact Hx].
    + split_and!; [done|done|by left].
    + split_and!; [done|done|by left].
  - destruct Hr as [?|Hr]; [done|]. unfold exec, try, bind, sdk_Get, call. simpl.
    destruct (server_get_gentle token (serverID (obj s)) (world s) Hh) as [Hh1 Hle1].
    pose proof (lasts_get token (serverID (obj s)) (serverID (obj s)) (world s) Hr) as Hl1.
    destruct (svc_Get _ _ _) as [[x|e] w1]; simpl in *; [|destruct (IsNotFound e); simpl]; (split_and!; [done|done|by right]).
Qed.

(** *** What it takes to get a server *)

(** The bootstrap data is there, once it can be read. *)
Definition bootstraps : Prop :=
  ∃ name, Machine_DataSecretName machine = Some name ∧
    recovers healthy budget (λ data, is_Some (data !! "value")) never
      (kube_GetSecret (name, Machine_Namespace machine)).

(** The interfaces of the machine can be requested in this cluster. *)
Definition wired m cc : Prop := ∃ r, buildInterfaceRequests (hscope cc "") m = Ok r.

Lemma GetBootstrapData_spends cc token : respects mspends (GetBootstrapData (hscope cc token)).
Proof. unfold GetBootstrapData. spend. Qed.

Lemma GetBootstrapData_reaches cc token s :
  healthy (world s) → bootstraps → mreaches (GetBootstrapData (hscope cc token)) s (λ _ _, True).
Proof.
  intros Hh (name & Hn & Hr). unfold GetBootstrapData. simpl. rewrite Hn. eapply reaches_call; [by apply Hr|..].
  - intros data. spend.
  - intros data w _ _ [v Hv]. rewrite Hv. by apply reaches_ret.
Qed.

(** The result of a server reconcile that is done: the machine follows a running server. *)
Definition got (p : Result * option Server) m : Prop :=
  p.1 = emptyResult ∧ ∃ x, p.2 = Some x ∧ running x ∧ Server_UUID x ≠ "" ∧
    serverID m = Server_UUID x ∧ GetProviderID m = "cloudscale://" +:+ Server_UUID x.

Lemma adoptServer_reaches x s :
  running x → Server_UUID x ≠ "" → serverID (obj s) = Server_UUID x →
  mreaches (adoptServer x) s (λ p s', got p (obj s')).
Proof.
  intros Hr Hne Hid. unfold adoptServer. apply reaches_bind_modify, reaches_ret. unfold got. simpl.
  unfold running in Hr. rewrite Hr. split; [done|]. by exists x.
Qed.

Lemma createWith_reaches cc token data s :
  healthy (world s) → unhosted (lookupValue (obj s)) (world s) → untagged (obj s) → wired (obj s) cc →
  mreaches (createWith cc token data) s (λ p s', got p (obj s')).
Proof.
  intros Hh Hun Hu [[ifaces fam] Hb]. unfold createWith. cbv zeta. apply reaches_bind_get.
  eapply reaches_run; [apply (bind_ok _ _ _ (ifaces, fam) s);
    change (buildInterfaceRequests (hscope cc token) (obj s)) with (buildInterfaceRequests (hscope cc "") (obj s));
    by rewrite Hb|].
  set (req := serverRequest _ _ _ _ _).
  assert (ServerRequest_Tags req !! key = Some (lookupValue (obj s))) as Ht by (by apply (create_tags cc token)).
  eapply reaches_inspect; [exact (server_create token _ req (world s) Hh Hun Ht)|..].
  - intros [x|e]; unfold adoptServer, Eventf; spend.
  - intros x w Hx _ Hr. destruct (server_create_hosted token req (world s) x w Hx) as [Hne _].
    apply reaches_bind_modify, reaches_bind_emit. by apply adoptServer_reaches.
  - done.
Qed.

Lemma createServer_reaches cc token s :
  healthy (world s) → bootstraps → unhosted (lookupValue (obj s)) (world s) → untagged (obj s) →
  serverID (obj s) = "" → wired (obj s) cc →
  mreaches (createServer (hscope cc token)) s (λ p s', got p (obj s')).
Proof.
  intros Hh Hb Hun Hu Hid Hw. destruct (before_creation cc token s Hh Hun) as (Ho & Hh1 & Hle1 & Hun1).
  rewrite createServer_shape. apply (reaches_bind_at healthy _ _ _ _ (λ _ _, True)); [done|..].
  - apply respects_wrap, GetBootstrapData_spends.
  - intros data _ _. rewrite exec_wrap. destruct (createWith_tracks cc token data
      (exec (GetBootstrapData (hscope cc token)) s)) as (H1 & H2 & _);
      [by rewrite Ho|by rewrite Ho|done|by unfold untagged; rewrite Ho|left; by rewrite Ho|done].
  - by apply reaches_wrap, GetBootstrapData_reaches.
  - intros data s1 _ _ -> _. rewrite exec_wrap. by apply createWith_reaches; rewrite ?Ho.
Qed.

(** The part of [reconcileServerBody] after the listing. *)
Definition afterListing cc token (servers : list Server) : MM (Result * option Server) :=
  match servers with
  | [] => createServer (hscope cc token)
  | [server] => modify (set_server (Server_UUID server)) ;;! adoptServer server
  | _ =>
      throw (errorString ("found " +:+ itoa (Z.of_nat (length servers))
                          +:+ " servers matching tag filter, expected at most 1"))
  end.

(** What the listing shows, when it answers. *)
Lemma listing_shows token s :
  healthy (world s) →
  let lookup := wrap "listing servers: " (sdk_List KServer (Servers (NewClient token)) Server_UUID
                  {[key := lookupValue (obj s)]}) in
  mspends s (exec lookup s) ∧ obj (exec lookup s) = obj s ∧
  (∀ l, result lookup s = Ok l → l = [] → unhosted (lookupValue (obj s)) (world (exec lookup s))) ∧
  mreaches lookup s (λ l s1, length l ≤ 1 ∧ Forall running l ∧
    ∀ x, x ∈ l → Server_UUID x ≠ "").
Proof.
  intros Hh. destruct (server_list token (lookupValue (obj s)) (world s) Hh) as (Hh1 & Hle1 & Hd).
  pose proof (server_list_none token (lookupValue (obj s)) (world s)) as Hnone.
  pose proof (server_list_hosted token (lookupValue (obj s)) (world s)) as Hsome.
  unfold spends, reaches, exec, result, wrap, sdk_List, call. simpl.
  destruct (svc_List _ _ _) as [[l|e] w1]; simpl in *.
  - split_and!; [done|done|intros l' [= <-] ->; by apply Hnone|].
    destruct Hd as [?|[? ?]]; [by left|right]. exists l. split_and!; [done..|]. intros x Hx. by destruct (Hsome l w1 x).
  - split_and!; [done..|]. destruct Hd as [?|[=]]. by left.
Qed.

Lemma reconcileServerBody_reaches cc token s :
  healthy (world s) → bootstraps → untagged (obj s) → recorded (obj s) (world s) → wired (obj s) cc →
  mreaches (reconcileServerBody (hscope cc token)) s (λ p s', got p (obj s')).
Proof.
  intros Hh Hb Hu Hr Hw. unfold reconcileServerBody. apply reaches_bind_get.
  destruct (serverID (obj s) == "") eqn:Hid; go_bools; cbn [negb].
  - destruct (listing_shows token s Hh) as (Hsp & Ho & Hun & Hl).
    change (machineLookupTag (hscope cc token) (obj s)) with ({[key := lookupValue (obj s)]} : TagMap).
    change (Servers (mscope_Client (hscope cc token))) with (Servers (NewClient token)).
    set (lookup := wrap _ _) in *. change (mreaches (bind lookup (afterListing cc token)) s (λ p s', got p (obj s'))).
    destruct (Hsp Hh) as [Hh1 _].
    eapply (reaches_bind_at healthy); [done|done| |exact Hl|].
    + intros [|x [|y l]] Hres; [|by intros..]. intros _. specialize (Hun [] Hres eq_refl).
      destruct (createServer_tracks cc token (exec lookup s)) as (H1 & H2 & _);
        [by rewrite Ho|by rewrite Ho|done|by unfold untagged; rewrite Ho|left; by rewrite Ho|done].
    + intros l s1 _ Hres -> (Hlen & Hrun & Hne). destruct l as [|x [|y l]]; simpl in Hlen; [..|lia].
      * apply createServer_reaches; unfold untagged; rewrite ?Ho; try done. by apply (Hun [] Hres).
      * simpl. apply reaches_bind_modify. inversion_clear Hrun. apply adoptServer_reaches; auto. apply Hne. by left.
  - destruct Hr as [?|Hr]; [done|]. change (Servers (mscope_Client (hscope cc token))) with (Servers (NewClient token)).
    eapply reaches_inspect; [exact (server_get token (serverID (obj s)) (world s) Hh Hr)|..].
    + intros [x|e]; unfold adoptServer; spend.
    + intros x w Hx _ Hrun. pose proof (server_get_id _ _ _ _ _ Hx) as Eid. simpl.
      apply adoptServer_reaches; simpl; [done|congruence|done].
    + done.
Qed.

(** The machine follows its server, which runs. *)
Definition following m : Prop :=
  serverID m ≠ "" ∧ GetProviderID m = "cloudscale://" +:+ serverID m ∧ mIsTrue m ServerReadyCondition = true.

Lemma reconcileServer_reaches cc token s :
  healthy (world s) → bootstraps → untagged (obj s) → recorded (obj s) (world s) → wired (obj s) cc →
  mreaches (reconcileServer (hscope cc token)) s (λ r s', r = emptyResult ∧ following (obj s')).
Proof.
  intros Hh Hb Hu Hr Hw. pose proof (reconcileServerBody_reaches cc token s Hh Hb Hu Hr Hw) as Hs.
  revert Hs. unfold reaches, exec, result. rewrite reconcileServer_run.
  destruct (reconcileServerBody _ s) as [[p|e] s1]; simpl; [|intros [?|(? & [=] & _)]; by left].
  intros [?|(p' & [= <-] & Hz & x & Hx & Hrun & Hne & Hid & Hpid)]; [by left|right].
  destruct p as [r o]. simpl in *. subst. exists emptyResult. split; [done|split; [done|]].
  change (following (setServerStatusCondition x (obj s1))). unfold following. split_and!.
  - by rewrite (setServerStatusCondition_free serverID), Hid.
  - by rewrite (setServerStatusCondition_free GetProviderID), (setServerStatusCondition_free serverID), Hid.
  - destruct (setServerStatusCondition_is x (obj s1)) as (st & rs & msg & -> & Hst). rewrite mIsTrue_set_eq, Hst.
    by apply bool_decide_eq_true_2.
Qed.

(** ** The server group, and the whole reconcile *)

Lemma group_spends cc token : respects mspends (reconcileServerGroup (hscope cc token)).
Proof.
  unfold reconcileServerGroup, reconcileServerGroupBody, listOrCreateGroup, sdk_Get, sdk_ListGroups, sdk_Create. spend.
Qed.

Lemma group_settles cc token : msettles (λ r, r = emptyResult) (reconcileServerGroup (hscope cc token)).
Proof.
  unfold reconcileServerGroup, reconcileServerGroupBody, listOrCreateGroup, sdk_Get, sdk_ListGroups, sdk_Create. settle.
  all: apply settles_call, group_list.
Qed.

(** The stage for the group, if the machine asks for one. *)
Definition groupStage cc token m : MM (flow unit) :=
  match CloudscaleMachineSpec_ServerGroup (mspec m) with
  | Some _ => returning (reconcileServerGroup (hscope cc token))
  | None => ret (Next ())
  end.

Lemma groupStage_keeps {B} (f : CloudscaleMachine → B) cc token m :
  ignores_group f → ignores_mcondition f ServerGroupReadyCondition → respects (keeps f) (groupStage cc token m).
Proof.
  intros Hg Hc. unfold groupStage. destruct (CloudscaleMachineSpec_ServerGroup _); [|apply respects_ret; apply _].
  apply respects_returning; [apply _|]. by apply reconcileServerGroup_frame.
Qed.

Lemma groupStage_lasts cc token m : respects (wmoves lasting) (groupStage cc token m).
Proof.
  unfold groupStage, reconcileServerGroup, reconcileServerGroupBody, listOrCreateGroup, sdk_Get, sdk_ListGroups, sdk_Create.
  frame; intros id Hid; eauto using lasts_group_get, lasts_group_list, lasts_group_create.
Qed.

Lemma groupStage_spends cc token m : respects mspends (groupStage cc token m).
Proof.
  unfold groupStage. destruct (CloudscaleMachineSpec_ServerGroup _); [|apply respects_ret; apply _].
  apply respects_returning; [apply _|]. apply group_spends.
Qed.

Lemma groupStage_settles cc token m : msettles goes_on (groupStage cc token m).
Proof.
  unfold groupStage. destruct (CloudscaleMachineSpec_ServerGroup _); [|by apply settles_ret].
  unfold returning. apply (settles_bind _ _ (λ r, r = emptyResult)).
  - apply group_spends.
  - apply group_settles.
  - intros; spend.
  - intros r ->. by apply settles_ret.
Qed.

(** After the group, the same holds of the machine as before. *)
Lemma groupStage_tracks cc token m s :
  let s' := exec (groupStage cc token m) s in
  mspec (obj s') = mspec (obj s) ∧ serverID (obj s') = serverID (obj s) ∧
  tracks s s' ∧ (recorded (obj s) (world s) → recorded (obj s') (world s')).
Proof.
  pose proof (groupStage_keeps mspec cc token m ltac:(done) ltac:(done) s) as Hk.
  pose proof (groupStage_keeps serverID cc token m ltac:(done) ltac:(done) s) as Hi.
  pose proof (groupStage_lasts cc token m s) as Hl. unfold keeps in *.
  assert (recorded (obj s) (world s) → recorded (obj (exec (groupStage cc token m) s))
            (world (exec (groupStage cc token m) s))) as Hr.
  { intros Hr. apply (recorded_lasting _ _ _ Hl) in Hr. unfold recorded in *. by rewrite Hi. }
  split_and!; [done|done| |done]. intros Hh _ Hrec. destruct (groupStage_spends cc token m s Hh). auto.
Qed.

Lemma reconcileNormalBody_shape cc token s :
  is_Some (Machine_DataSecretName machine) →
  reconcileNormalBody (hscope cc token) s =
    bind_flow (groupStage cc token (obj s)) (λ _,
      let! result := wrap "reconciling server: " (reconcileServer (hscope cc token)) in
      modify setProvisioned ;;! ret result) s.
Proof. intros [name Hn]. unfold reconcileNormalBody. simpl. rewrite Hn. by rewrite bind_get. Qed.

Lemma server_stage_tracks cc token s :
  tracks s (exec (let! result := wrap "reconciling server: " (reconcileServer (hscope cc token)) in
                  modify setProvisioned ;;! ret result) s).
Proof.
  intros Hh Hu Hr. destruct (reconcileServer_tracks cc token s Hh Hu Hr) as (H1 & H2 & H3).
  unfold exec, wrap, bind in *. destruct (reconcileServer _ s) as [[res|e] s1]; simpl in *; [|done].
  split_and!; [done|done|]. unfold recorded, setProvisioned in *. by destruct (mIsTrue _ _).
Qed.

Lemma machine_normal_tracks cc token s : tracks s (exec (reconcileNormal (hscope cc token)) s).
Proof.
  assert (tracks s (exec (reconcileNormalBody (hscope cc token)) s)) as Hb.
  2:{ intros Hh Hu Hr. destruct (Hb Hh Hu Hr) as (H1 & H2 & H3). unfold reconcileNormal, exec, deferred in *.
      destruct (reconcileNormalBody _ s) as [r s1]; simpl in *. split_and!; [done|done|].
      unfold recorded in *. by rewrite (setReadyCondition_free serverID). }
  destruct (Machine_DataSecretName machine) as [name|] eqn:Hn.
  2:{ unfold reconcileNormalBody. simpl. rewrite Hn. by intros Hh Hu Hr. }
  unfold exec. rewrite reconcileNormalBody_shape by done. intros Hh Hu Hr.
  destruct (groupStage_tracks cc token (obj s) s) as (Hk & Hi & Ht & _). specialize (Ht Hh Hu Hr).
  unfold bind_flow, exec in *. destruct (groupStage _ _ _ s) as [[[r|[]]|e] s1] eqn:Eg; simpl in Ht, Hk, Hi;
    [by rewrite (bind_ok _ _ _ _ _ Eg)| |by rewrite (bind_err _ _ _ _ _ Eg)].
  rewrite (bind_ok _ _ _ _ _ Eg).
  destruct Ht as (H1 & H2 & H3).
  destruct (server_stage_tracks cc token s1 H1) as (H4 & H5 & H6); [unfold untagged; by rewrite Hk|done|].
  unfold exec in *. split_and!; [done|lia|done].
Qed.

(** What the machine shows in the end. *)
Definition machine_provisioned m : Prop :=
  serverID m ≠ "" ∧ GetProviderID m = "cloudscale://" +:+ serverID m ∧
  mIsTrue m ReadyCondition = true ∧ provisioned m = true.

Lemma following_provisioned m : following m → machine_provisioned (setReadyCondition (setProvisioned m)).
Proof.
  intros (Hid & Hp & Hr). unfold machine_provisioned.
  rewrite (setReadyCondition_free serverID), (setReadyCondition_free GetProviderID),
    (setReadyCondition_free provisioned), provisioned_setCondition, Hr by done.
  destruct (setReadyCondition_is (setProvisioned m)) as (st & rs & msg & -> & Hst).
  rewrite setProvisioned_conditions, Hr in Hst. rewrite mIsTrue_set_eq, Hst.
  unfold setProvisioned. rewrite Hr. split_and!; [done..|by rewrite orb_true_r].
Qed.

Lemma machine_normal_reaches cc token s :
  healthy (world s) → bootstraps → untagged (obj s) → recorded (obj s) (world s) → wired (obj s) cc →
  mreaches (reconcileNormal (hscope cc token)) s (λ _ s', machine_provisioned (obj s')).
Proof.
  intros Hh Hb Hu Hr Hw. unfold reconcileNormal. apply reaches_deferred.
  assert (is_Some (Machine_DataSecretName machine)) as Hn by (destruct Hb as (name & -> & _); by eexists).
  eapply reaches_run; [by apply reconcileNormalBody_shape|].
  destruct (groupStage_tracks cc token (obj s) s) as (Hk & Hi & Ht & Hrec).
  destruct (Ht Hh Hu Hr) as (Hh1 & _ & Hr1).
  assert (untagged (obj (exec (groupStage cc token (obj s)) s))) as Hu1 by (unfold untagged; by rewrite Hk).
  assert (wired (obj (exec (groupStage cc token (obj s)) s)) cc) as Hw1.
  { unfold wired, buildInterfaceRequests in *. by rewrite Hk. }
  apply (reaches_bind_flow_at healthy _ _ _ _ (λ _, True)); [done|apply groupStage_spends|..].
  - intros _. destruct (server_stage_tracks cc token _ Hh1 Hu1 Hr1) as (H1 & H2 & _). exact (conj H1 H2).
  - eapply reaches_weaken; [by apply groupStage_settles|]. done.
  - intros s1 _ -> _. eapply (reaches_bind_at healthy budget); [done|..].
    + intros _. rewrite exec_wrap. destruct (reconcileServer_tracks cc token _ Hh1 Hu1 Hr1) as (H1 & H2 & _).
      exact (conj H1 H2).
    + intros res _. spend.
    + apply reaches_wrap. by apply reconcileServer_reaches.
    + intros res s2 _ _ _ [_ Hf]. apply reaches_bind_modify, reaches_ret. simpl. by apply following_provisioned.
Qed.
(** ** Turns of a provisioning *)

(** What a reconcile reads of the object and leaves alone. *)
Definition given_part m : ObjectMeta * TagMap * list InterfaceSpec :=
  (CloudscaleMachine_Meta m, CloudscaleMachineSpec_Tags (mspec m), CloudscaleMachineSpec_Interfaces (mspec m)).

Lemma machine_normal_given cc token : respects (keeps given_part) (reconcileNormal (hscope cc token)).
Proof.
  unfold reconcileNormal, reconcileNormalBody. frame; try done.
  - by apply reconcileServerGroup_frame.
  - by apply reconcileServer_frame.
  - unfold setProvisioned. by destruct (mIsTrue _ _).
  - by apply (setReadyCondition_free given_part).
Qed.

(** A machine that is not being deleted, in a cluster that can take it. *)
Definition machine_provisioning m w : Prop :=
  ObjectMeta_DeletionTimestamp (CloudscaleMachine_Meta m) = None ∧
  annotations_IsPaused cluster (CloudscaleMachine_Meta m) = false ∧
  bootstraps ∧ untagged m ∧
  recovers healthy budget (λ cc, serves cc ∧ wired m cc) never (kube_GetCloudscaleCluster (clusterKey cluster m)) ∧
  recorded m w.

(** Up to finalizers, and with the recorded server still there. *)
Definition advances m m' w : Prop :=
  (∃ fs, given_part m' =
     (set_ObjectMeta_Finalizers fs (CloudscaleMachine_Meta m), CloudscaleMachineSpec_Tags (mspec m),
      CloudscaleMachineSpec_Interfaces (mspec m))) ∧ recorded m' w.

Lemma advances_provisioning m m' w w' :
  machine_provisioning m w → advances m m' w' → machine_provisioning m' w'.
Proof.
  intros (Hd & Hp & Hb & Hu & Hcl & _) [[fs [= Hm Ht Hi]] Hr].
  unfold machine_provisioning, untagged, wired, buildInterfaceRequests, clusterKey in *. rewrite Hm, Ht, Hi, hosting_paused.
  by split_and!.
Qed.

Lemma finalizers_same m :
  given_part m = (set_ObjectMeta_Finalizers (ObjectMeta_Finalizers (CloudscaleMachine_Meta m)) (CloudscaleMachine_Meta m),
    CloudscaleMachineSpec_Tags (mspec m), CloudscaleMachineSpec_Interfaces (mspec m)).
Proof. unfold given_part. by destruct (CloudscaleMachine_Meta m). Qed.

(** The body adds the finalizer, if it is missing, and reconciles. *)
Lemma machineBody_run cc token m s :
  ObjectMeta_DeletionTimestamp (CloudscaleMachine_Meta m) = None → obj s = munpaused m →
  ∃ m1, machineBody (hscope cc token) (munpaused m) s =
          reconcileNormal (hscope cc token) (mkSt m1 (world s) (log s)) ∧
        serverID m1 = serverID m ∧
        ∃ fs, given_part m1 = (set_ObjectMeta_Finalizers fs (CloudscaleMachine_Meta m),
                CloudscaleMachineSpec_Tags (mspec m), CloudscaleMachineSpec_Interfaces (mspec m)).
Proof.
  intros Hd Ho. unfold machineBody. change (CloudscaleMachine_Meta (munpaused m)) with (CloudscaleMachine_Meta m).
  rewrite Hd. destruct (ContainsFinalizer _ _); simpl.
  - exists (munpaused m). rewrite <- Ho. split_and!; [by destruct s|by rewrite Ho|]. rewrite Ho.
    eexists. exact (finalizers_same m).
  - exists (upd_mfinalizers (AddFinalizer MachineFinalizer) (munpaused m)). rewrite <- Ho.
    split_and!; [done|by rewrite Ho|]. rewrite Ho. by eexists.
Qed.

Lemma machineBody_lasts cc token m :
  ObjectMeta_DeletionTimestamp (CloudscaleMachine_Meta m) = None →
  respects (wmoves lasting) (machineBody (hscope cc token) (munpaused m)).
Proof.
  intros Hd. unfold machineBody. change (CloudscaleMachine_Meta (munpaused m)) with (CloudscaleMachine_Meta m).
  rewrite Hd. pose proof (machine_normal_lasts cc token).
  apply respects_bind; [apply _| |done]. destruct (negb _); frame.
Qed.

Lemma machine_provisioning_turn m w :
  healthy w → machine_provisioning m w → let x' := mturn machine cluster (m, w) in
  healthy x'.2 ∧ (machine_provisioned x'.1 ∨ machine_provisioning x'.1 x'.2 ∧ budget x'.2 < budget w).
Proof.
  intros Hh Hm. pose proof Hm as (Hd & Hp & Hb & Hu & Hcl & Hr).
  destruct (mturn_cases machine cluster lasting) with (m := m) (w := w) (ψ := wired m)
    (Φ := machine_provisioned) (J := advances m) as (Hh' & HJ & HΦ);
    [intros k w' id ?; by apply lasts_cluster|intros k w' id ?; by apply lasts_secret|
     intros sn m' ok w' id ?; by apply lasts_patch| | | |done|done|done|split; [eexists; apply finalizers_same|done]|].
  - intros m1 w1 w2 Hl [Hg Hr1]. split; [done|]. by eapply recorded_lasting.
  - intros cc token. by apply machineBody_lasts.
  - intros cc token s Hhs Ho [_ Hrs]. destruct (machineBody_run cc token m s Hd Ho) as (m1 & E1 & Hi1 & fs & Hg1).
    set (s1 := mkSt m1 (world s) (log s)) in *. pose proof Hg1 as [= _ Ht1 Hf1].
    assert (untagged m1) as Hu1 by (unfold untagged; by rewrite Ht1).
    assert (recorded m1 (world s)) as Hr1 by (unfold recorded; by rewrite Hi1).
    destruct (machine_normal_tracks cc token s1 Hhs Hu1 Hr1) as (H1 & H2 & H3).
    unfold reaches, exec, result in *. change (mscopeOf machine cluster cc token) with (hscope cc token). rewrite E1.
    split_and!; [by intros _| |].
    + split; [|done]. exists fs. rewrite <- Hg1. apply (machine_normal_given cc token s1).
    + intros Hw. apply (machine_normal_reaches cc token s1); try done.
      unfold wired, buildInterfaceRequests in *. simpl. by rewrite Hf1.
  - split; [done|]. destruct HΦ as [?|?]; [by left|right]. split; [|done]. by eapply advances_provisioning.
Qed.

(** C6. Machine provisioning converges. Let a machine that is neither being deleted
    nor paused be reconciled over and over, with the API server storing what each
    reconcile patches, and let others act on the world in between, as long as they
    leave the servers alone. If its cluster is provisioned and has the networks the
    machine asks for, its bootstrap data can be read, and calls fail, lose their
    answers, or show the server not running only as often as the environment's
    budget allows, then within that many turns and one more a turn stores the
    machine with its server recorded, the provider ID that names it, Ready, and
    marked provisioned. *)
Theorem machine_provisioning_converges (others : nat → World → World) m w :
  (∀ i w, healthy w → healthy (others i w) ∧ budget (others i w) ≤ budget w) →
  (∀ i w, lasting w (others i w)) →
  healthy w → machine_provisioning m w →
  ∃ n, n ≤ S (budget w) ∧ machine_provisioned (fst (turns (mturn machine cluster) others n (m, w))).
Proof.
  intros Ho Hl. apply (turns_reach healthy budget (mturn machine cluster) others machine_provisioning machine_provisioned);
    [done| |apply machine_provisioning_turn].
  intros i m' w' _ (H1 & H2 & H3 & H4 & H5 & H6). split_and!; try done.
  exact (recorded_lasting _ _ _ (Hl i w') H6).
Qed.
End hosting.
