(* ===== verification/Sim.v ===== *)
(** * A concrete platform

    An instance of [Platform] with an in-memory cloud and Kubernetes API, to show
    that the laws the theorems assume hold together, and to run the reconcilers.
    The cloud is a store of the requests that created its resources; identifiers
    are the store's keys. A list of faults decides how the next writing calls end:
    a time-out may or may not have taken effect. Nothing here models code of the
    repository. *)

From S2P Require Export ClusterCtl Termination.

(** ** The world *)

Inductive Item :=
  | IRes (r : CreateRequest)
  | IIface (router : string) (r : CreateInterfaceRequest)
  | IMember (pool : string) (r : LoadBalancerPoolMemberRequest).

Inductive Fault := NoFault | TimeoutApplied | TimeoutLost | ServerFailure.

Record SimWorld := mkSimWorld {
  sim_items : gmap nat Item;
  sim_faults : list Fault;
  sim_server_status : string;
  sim_lb_status : string;
  sim_clusters : list CloudscaleCluster;
  sim_machines : list CloudscaleMachine;
  sim_secrets : list ((string * string) * gmap string string);
  sim_owner_cluster : option Cluster;
  sim_owner_machine : option Machine }.

Definition set_items (m : gmap nat Item) (w : SimWorld) : SimWorld :=
  mkSimWorld m (sim_faults w) (sim_server_status w) (sim_lb_status w) (sim_clusters w)
    (sim_machines w) (sim_secrets w) (sim_owner_cluster w) (sim_owner_machine w).
Definition set_faults (f : list Fault) (w : SimWorld) : SimWorld :=
  mkSimWorld (sim_items w) f (sim_server_status w) (sim_lb_status w) (sim_clusters w)
    (sim_machines w) (sim_secrets w) (sim_owner_cluster w) (sim_owner_machine w).
Definition set_clusters (l : list CloudscaleCluster) (w : SimWorld) : SimWorld :=
  mkSimWorld (sim_items w) (sim_faults w) (sim_server_status w) (sim_lb_status w) l
    (sim_machines w) (sim_secrets w) (sim_owner_cluster w) (sim_owner_machine w).
Definition set_machines (l : list CloudscaleMachine) (w : SimWorld) : SimWorld :=
  mkSimWorld (sim_items w) (sim_faults w) (sim_server_status w) (sim_lb_status w) (sim_clusters w)
    l (sim_secrets w) (sim_owner_cluster w) (sim_owner_machine w).

(** Identifiers *)
Definition uuid_of (n : nat) : string := "id-" +:+ pretty n.

Lemma uuid_of_nonempty n : uuid_of n ≠ "".
Proof. done. Qed.

#[export] Instance uuid_of_inj : Inj (=) (=) uuid_of.
Proof. intros n m H. unfold uuid_of in H. by apply (inj (String.append _)), (inj pretty) in H. Qed.

Definition new_id (m : gmap nat Item) : nat := S (foldr Nat.max 0 (map_to_list m).*1).

Lemma new_id_fresh m : m !! new_id m = None.
Proof.
  destruct (m !! new_id m) as [it|] eqn:E; [|done]. apply elem_of_map_to_list in E.
  apply (list_elem_of_fmap_2 fst) in E. unfold new_id in E at 1. simpl in E.
  assert (∀ l n, n ∈ l → n ≤ foldr Nat.max 0 l) as H.
  { intros l n. induction 1; simpl; lia. }
  apply H in E. unfold new_id in E. lia.
Qed.

Definition notFoundErr : error := ErrorResponse 404 "not found".
Definition timeoutErr : error := urlError true "Post: " ErrDeadlineExceeded.
Definition serverErr : error := ErrorResponse 500 "internal server error".

(** A writing call: take the next fault, and do the write unless it is lost. *)
Definition faulty {A} (write : SimWorld → Res A * SimWorld) (w : SimWorld) : Res A * SimWorld :=
  let w1 := set_faults (tail (sim_faults w)) w in
  match default NoFault (head (sim_faults w)) with
  | NoFault => write w1
  | TimeoutApplied => (Err timeoutErr, snd (write w1))
  | TimeoutLost => (Err timeoutErr, w1)
  | ServerFailure => (Err serverErr, w1)
  end.

(** ** One service for all kinds *)

(** The requests of one kind, by identifier. *)
Definition sel {R} (prj : Item → option R) (w : SimWorld) : gmap nat R := omap prj (sim_items w).

Definition find_id {R} (m : gmap nat R) (id : string) : option (nat * R) :=
  list_find (λ x, uuid_of x.1 = id) (map_to_list m) ≫= λ x, Some x.2.

Lemma find_id_Some {R} (m : gmap nat R) id n r : find_id m id = Some (n, r) → m !! n = Some r ∧ id = uuid_of n.
Proof.
  unfold find_id. intros (x & H & [= E])%bind_Some. destruct x as [i y]; simpl in *; subst.
  apply list_find_Some in H as (Hl & <- & _). split; [|done].
  by apply elem_of_map_to_list, (list_elem_of_lookup_2 _ i).
Qed.

Section service.
Context {Req T : Type} (inj : Req → Item) (prj : Item → option Req) (reqTags : Req → TagMap)
  (view : SimWorld → nat → Req → T).

Definition sim_create (req : Req) : SimWorld → Res T * SimWorld :=
  faulty (λ w, let n := new_id (sim_items w) in
               let w' := set_items (<[n := inj req]> (sim_items w)) w in
               (Ok (view w' n req), w')).
Definition sim_get (id : string) (w : SimWorld) : Res T * SimWorld :=
  (match find_id (sel prj w) id with Some (n, r) => Ok (view w n r) | None => Err notFoundErr end, w).
Definition sim_list (tags : TagMap) (w : SimWorld) : Res (list T) * SimWorld :=
  (Ok ((λ x, view w x.1 x.2) <$>
         filter (λ x, tags ⊆ reqTags x.2) (map_to_list (sel prj w))), w).
Definition sim_delete (id : string) : SimWorld → Res unit * SimWorld :=
  faulty (λ w, match find_id (sel prj w) id with
               | Some (n, _) => (Ok (), set_items (delete n (sim_items w)) w)
               | None => (Err notFoundErr, w)
               end).
Definition sim_service : Service SimWorld Req T := mkService sim_create sim_get sim_list sim_delete.

(** What a service returns is a view of a stored request. *)
Lemma sim_create_view req w x w' : sim_create req w = (Ok x, w') → ∃ w n r, x = view w n r.
Proof.
  unfold sim_create, faulty. destruct (default _ _); intros; simplify_eq; by eauto.
Qed.
Lemma sim_get_view id w x w' : sim_get id w = (Ok x, w') → ∃ w n r, x = view w n r.
Proof. unfold sim_get. destruct (find_id _ _) as [[]|]; intros; simplify_eq; by eauto. Qed.
Lemma sim_list_view tags w l w' :
  sim_list tags w = (Ok l, w') → ∀ x, x ∈ l → ∃ w n r, x = view w n r.
Proof.
  unfold sim_list. intros [= <- _] x (y & -> & _)%list_elem_of_fmap. by eauto.
Qed.

Lemma sel_create_other {R} (prj' : Item → option R) req w :
  prj' (inj req) = None → sel prj' (snd (sim_create req w)) = sel prj' w.
Proof.
  intros H. unfold sim_create, faulty.
  assert (omap prj' (<[new_id (sim_items w) := inj req]> (sim_items w)) = omap prj' (sim_items w)) as E.
  { apply map_eq. intros i. rewrite !lookup_omap, lookup_insert. case_decide; [|done].
    subst. by rewrite new_id_fresh. }
  by destruct (default _ _).
Qed.

Context (uuid : T → string)
  (prj_inj : ∀ r, prj (inj r) = Some r)
  (view_uuid : ∀ w n r, uuid (view w n r) = uuid_of n)
  (view_items : ∀ req w n r, view (snd (sim_create req w)) n r = view w n r).

Definition sim_live (w : SimWorld) : list (T * TagMap) :=
  (λ x, (view w x.1 x.2, reqTags x.2)) <$> map_to_list (sel prj w).

Lemma sim_live_create_view req w :
  sim_live (snd (sim_create req w)) ≡ₚ sim_live w ∨
  ∃ w' n, sim_live (snd (sim_create req w)) ≡ₚ (view w' n req, reqTags req) :: sim_live w.
Proof.
  unfold sim_live.
  assert (∀ l : list (nat * Req),
    (λ x, (view (snd (sim_create req w)) x.1 x.2, reqTags x.2)) <$> l =
    (λ x, (view w x.1 x.2, reqTags x.2)) <$> l) as ->.
  { intros l. apply list_fmap_ext. intros i [n r] _. simpl. by rewrite view_items. }
  assert (omap prj (<[new_id (sim_items w) := inj req]> (sim_items w)) =
          <[new_id (sim_items w) := req]> (omap prj (sim_items w))) as E
    by (by apply omap_insert_Some).
  assert (omap prj (sim_items w) !! new_id (sim_items w) = None) as En
    by (by rewrite lookup_omap, new_id_fresh).
  unfold sim_create, faulty, sel. destruct (default _ _); simpl; [right..|by left|by left];
    (eexists _, _; rewrite E, map_to_list_insert by done; rewrite fmap_cons; reflexivity).
Qed.

Lemma sim_live_create req w :
  sim_live (snd (sim_create req w)) ≡ₚ sim_live w ∨
  ∃ x, sim_live (snd (sim_create req w)) ≡ₚ (x, reqTags req) :: sim_live w.
Proof. destruct (sim_live_create_view req w) as [H|(w' & n & H)]; [by left|right; by eexists]. Qed.

End service.

(** ** The resources *)

Definition as_network (i : Item) := match i with IRes (CNetwork r) => Some r | _ => None end.
Definition as_subnet (i : Item) := match i with IRes (CSubnet r) => Some r | _ => None end.
Definition as_router (i : Item) := match i with IRes (CRouter r) => Some r | _ => None end.
Definition as_server (i : Item) := match i with IRes (CServer r) => Some r | _ => None end.
Definition as_group (i : Item) := match i with IRes (CServerGroup r) => Some r | _ => None end.
Definition as_lb (i : Item) := match i with IRes (CLoadBalancer r) => Some r | _ => None end.
Definition as_pool (i : Item) := match i with IRes (CPool r) => Some r | _ => None end.
Definition as_listener (i : Item) := match i with IRes (CListener r) => Some r | _ => None end.
Definition as_monitor (i : Item) := match i with IRes (CHealthMonitor r) => Some r | _ => None end.
Definition as_fip (i : Item) := match i with IRes (CFloatingIP r) => Some r | _ => None end.
Definition as_iface (router : string) (i : Item) :=
  match i with IIface r req => if r == router then Some req else None | _ => None end.
Definition as_member (pool : string) (i : Item) :=
  match i with IMember p req => if p == pool then Some req else None | _ => None end.

Definition view_network (w : SimWorld) (n : nat) (r : NetworkCreateRequest) : Network :=
  mkNetwork (uuid_of n) (NetworkCreateRequest_Zone r) (NetworkCreateRequest_MTU r)
    ((λ x, mkSubnetStub (uuid_of x.1) (SubnetCreateRequest_CIDR x.2)) <$>
       filter (λ x, SubnetCreateRequest_Network x.2 = uuid_of n) (map_to_list (sel as_subnet w))).
Definition view_subnet (w : SimWorld) (n : nat) (r : SubnetCreateRequest) : Subnet := mkSubnet (uuid_of n).
Definition view_iface (x : nat * CreateInterfaceRequest) : RouterInterface :=
  mkRouterInterface (uuid_of x.1) (CreateInterfaceRequest_Network x.2) (CreateInterfaceRequest_Addresses x.2).
Definition view_router (w : SimWorld) (n : nat) (r : RouterCreateRequest) : Router :=
  mkRouter (uuid_of n) "active" (RouterCreateRequest_Zone r)
    (view_iface <$> map_to_list (sel (as_iface (uuid_of n)) w)).
Definition view_server (w : SimWorld) (n : nat) (r : ServerRequest) : Server :=
  mkServer (uuid_of n) (sim_server_status w)
    [mkServerInterface "private" ["10.0.0." +:+ pretty (10 + n)]].
Definition view_group (w : SimWorld) (n : nat) (r : ServerGroupRequest) : ServerGroup :=
  mkServerGroup (uuid_of n) (ServerGroupRequest_Name r) (ServerGroupRequest_Zone r)
    ((λ x, uuid_of x.1) <$>
       filter (λ x, uuid_of n ∈ ServerRequest_ServerGroups x.2) (map_to_list (sel as_server w))).
Definition view_lb (w : SimWorld) (n : nat) (r : LoadBalancerRequest) : LoadBalancer :=
  mkLoadBalancer (uuid_of n) (sim_lb_status w) ["203.0.113." +:+ pretty n].
Definition view_pool (w : SimWorld) (n : nat) (r : LoadBalancerPoolRequest) : LoadBalancerPool :=
  mkLoadBalancerPool (uuid_of n).
Definition view_listener (w : SimWorld) (n : nat) (r : LoadBalancerListenerRequest) : LoadBalancerListener :=
  mkLoadBalancerListener (uuid_of n).
Definition view_monitor (w : SimWorld) (n : nat) (r : LoadBalancerHealthMonitorRequest) : LoadBalancerHealthMonitor :=
  mkLoadBalancerHealthMonitor (uuid_of n).
Definition view_member (x : nat * LoadBalancerPoolMemberRequest) : LoadBalancerPoolMember :=
  mkLoadBalancerPoolMember (uuid_of x.1) (LoadBalancerPoolMemberRequest_Name x.2)
    (LoadBalancerPoolMemberRequest_Address x.2) (LoadBalancerPoolMemberRequest_ProtocolPort x.2) "up".
Definition optional (s : string) : option string := if s == "" then None else Some s.
Definition view_fip (w : SimWorld) (n : nat) (r : FloatingIPCreateRequest) : FloatingIP :=
  mkFloatingIP (uuid_of n) (Some (FloatingIPCreateRequest_Region r))
    (optional (FloatingIPCreateRequest_LoadBalancer r)) (optional (FloatingIPCreateRequest_Server r)).

(** ** Interfaces, members and floating IPs *)

Definition sim_CreateInterface (router : string) (req : CreateInterfaceRequest)
    : SimWorld → Res RouterInterface * SimWorld :=
  faulty (λ w, let n := new_id (sim_items w) in
               (Ok (view_iface (n, req)), set_items (<[n := IIface router req]> (sim_items w)) w)).
Definition sim_DeleteInterface (router iface : string) : SimWorld → Res unit * SimWorld :=
  sim_delete (as_iface router) iface.

Definition sim_member_Create (pool : string) (req : LoadBalancerPoolMemberRequest)
    : SimWorld → Res LoadBalancerPoolMember * SimWorld :=
  faulty (λ w, let n := new_id (sim_items w) in
               (Ok (view_member (n, req)), set_items (<[n := IMember pool req]> (sim_items w)) w)).
Definition sim_members (pool : string) (w : SimWorld) : list LoadBalancerPoolMember :=
  view_member <$> map_to_list (sel (as_member pool) w).
Definition sim_member_List (pool : string) (w : SimWorld) : Res (list LoadBalancerPoolMember) * SimWorld :=
  (Ok (sim_members pool w), w).
Definition set_member_address (a : string) (r : LoadBalancerPoolMemberRequest) : LoadBalancerPoolMemberRequest :=
  mkLoadBalancerPoolMemberRequest (LoadBalancerPoolMemberRequest_Name r)
    (LoadBalancerPoolMemberRequest_Subnet r) (LoadBalancerPoolMemberRequest_ProtocolPort r) a
    (LoadBalancerPoolMemberRequest_Tags r).
Definition sim_member_Update (pool member : string) (req : LoadBalancerPoolMemberRequest)
    : SimWorld → Res unit * SimWorld :=
  faulty (λ w, match find_id (sel (as_member pool) w) member with
               | Some (n, r) =>
                   (Ok (), set_items (<[n := IMember pool
                             (set_member_address (LoadBalancerPoolMemberRequest_Address req) r)]> (sim_items w)) w)
               | None => (Err notFoundErr, w)
               end).

Definition sim_fip_Update (ip : string) (req : FloatingIPUpdateRequest) : SimWorld → Res unit * SimWorld :=
  faulty (λ w, match find_id (sel as_fip w) ip with
               | Some (n, r) =>
                   (Ok (), set_items (<[n := IRes (CFloatingIP
                       (mkFloatingIPCreateRequest (FloatingIPCreateRequest_IPVersion r)
                          (FloatingIPCreateRequest_Region r) (FloatingIPCreateRequest_Tags r)
                          (FloatingIPUpdateRequest_LoadBalancer req) (FloatingIPUpdateRequest_Server req)))]>
                       (sim_items w)) w)
               | None => (Err notFoundErr, w)
               end).

Definition sim_client : Client SimWorld :=
  mkClient _
    (sim_service (IRes ∘ CNetwork) as_network NetworkCreateRequest_Tags view_network)
    (sim_service (IRes ∘ CSubnet) as_subnet SubnetCreateRequest_Tags view_subnet)
    (mkRouterService _ (sim_service (IRes ∘ CRouter) as_router RouterCreateRequest_Tags view_router)
       sim_CreateInterface sim_DeleteInterface)
    (sim_service (IRes ∘ CServer) as_server ServerRequest_Tags view_server)
    (sim_service (IRes ∘ CServerGroup) as_group ServerGroupRequest_Tags view_group)
    (sim_service (IRes ∘ CLoadBalancer) as_lb LoadBalancerRequest_Tags view_lb)
    (sim_service (IRes ∘ CPool) as_pool LoadBalancerPoolRequest_Tags view_pool)
    (mkLoadBalancerPoolMemberService _ sim_member_Create sim_member_List
       (λ pool, sim_delete (as_member pool)) sim_member_Update)
    (sim_service (IRes ∘ CListener) as_listener LoadBalancerListenerRequest_Tags view_listener)
    (sim_service (IRes ∘ CHealthMonitor) as_monitor LoadBalancerHealthMonitorRequest_Tags view_monitor)
    (mkFloatingIPService _ (sim_service (IRes ∘ CFloatingIP) as_fip FloatingIPCreateRequest_Tags view_fip)
       sim_fip_Update).

(** ** Kubernetes *)

(** Conditions as an association list. *)
Fixpoint cond_get (cs : list Condition) (t : string) : option Condition :=
  match cs with
  | [] => None
  | c :: cs => if Condition_Type c == t then Some c else cond_get cs t
  end.
Definition cond_delete (t : string) (cs : list Condition) : list Condition :=
  filter (λ c, Condition_Type c ≠ t) cs.
Definition cond_set (c : Condition) (cs : list Condition) : list Condition :=
  c :: cond_delete (Condition_Type c) cs.

Lemma cond_get_delete_eq t cs : cond_get (cond_delete t cs) t = None.
Proof.
  unfold cond_delete. induction cs as [|c cs IH]; [done|]. rewrite filter_cons.
  case_decide; [simpl; by rewrite bool_decide_eq_false_2|done].
Qed.
Lemma cond_get_delete_ne t t' cs : t' ≠ t → cond_get (cond_delete t cs) t' = cond_get cs t'.
Proof.
  intros Ht. unfold cond_delete. induction cs as [|c cs IH]; [done|]. rewrite filter_cons.
  case_decide as H; simpl; [by rewrite IH|].
  rewrite IH, bool_decide_eq_false_2; [done|congruence].
Qed.
Lemma cond_get_set_eq c cs : cond_get (cond_set c cs) (Condition_Type c) = Some c.
Proof. simpl. by rewrite bool_decide_eq_true_2. Qed.
Lemma cond_get_set_ne c cs t : t ≠ Condition_Type c → cond_get (cond_set c cs) t = cond_get cs t.
Proof.
  intros H. simpl. rewrite bool_decide_eq_false_2 by congruence. by apply cond_get_delete_ne.
Qed.

#[export] Instance sim_conditions : Conditions := {|
  conditions_set := cond_set; conditions_get := cond_get; conditions_delete := cond_delete;
  conditions_get_set_eq := cond_get_set_eq; conditions_get_set_ne := cond_get_set_ne;
  conditions_get_delete_eq := cond_get_delete_eq; conditions_get_delete_ne := cond_get_delete_ne |}.

Definition fin_add (f : string) (fs : list string) : list string :=
  if bool_decide (f ∈ fs) then fs else fs ++ [f].
Definition fin_remove (f : string) (fs : list string) : list string := filter (λ g, g ≠ f) fs.

Lemma fin_contains_spec (fs : list string) (f : string) : bool_decide (f ∈ fs) = true ↔ f ∈ fs.
Proof. apply bool_decide_eq_true. Qed.
Lemma fin_add_spec f fs g : g ∈ fin_add f fs ↔ g = f ∨ g ∈ fs.
Proof.
  unfold fin_add. case_bool_decide; rewrite ?elem_of_app, ?list_elem_of_singleton; [|tauto].
  split; [by right|by intros [->|?]].
Qed.
Lemma fin_remove_spec f fs g : g ∈ fin_remove f fs ↔ g ≠ f ∧ g ∈ fs.
Proof. unfold fin_remove. by rewrite list_elem_of_filter. Qed.

#[export] Instance sim_finalizers : Finalizers := {|
  ContainsFinalizer fs f := bool_decide (f ∈ fs); AddFinalizer := fin_add; RemoveFinalizer := fin_remove;
  ContainsFinalizer_spec := fin_contains_spec; AddFinalizer_spec := fin_add_spec;
  RemoveFinalizer_spec := fin_remove_spec |}.

Definition key_of (m : ObjectMeta) : string * string := (ObjectMeta_Name m, ObjectMeta_Namespace m).
Definition kubeNotFound : error := apiStatusError true "not found".

Definition sim_find {A} (key : A → string * string) (k : string * string) (l : list A) : Res A :=
  match head (filter (λ a, key a = k) l) with Some a => Ok a | None => Err kubeNotFound end.

(** A patched object replaces the stored one; it disappears when it is being
    deleted and has no finalizer left. *)
Definition gone (m : ObjectMeta) : bool :=
  match ObjectMeta_DeletionTimestamp m with
  | Some _ => bool_decide (ObjectMeta_Finalizers m = [])
  | None => false
  end.
Definition sim_patch {A} (meta : A → ObjectMeta) (a : A) (l : list A) : list A :=
  if gone (meta a) then filter (λ b, key_of (meta b) ≠ key_of (meta a)) l
  else (λ b, if bool_decide (key_of (meta b) = key_of (meta a)) then a else b) <$> l.

Definition sim_pausedLabel : string := "paused".

#[export] Instance sim_platform : Platform := {|
  World := SimWorld;
  RouterActive := "active";
  NewClient _ := sim_client;
  kube_GetCloudscaleCluster k w := (sim_find (key_of ∘ CloudscaleCluster_Meta) k (sim_clusters w), w);
  kube_GetCloudscaleMachine k w := (sim_find (key_of ∘ CloudscaleMachine_Meta) k (sim_machines w), w);
  kube_GetSecret k w := (res_map snd (sim_find fst k (sim_secrets w)), w);
  kube_ListCloudscaleMachines ns labels w :=
    (Ok (filter (λ m, ObjectMeta_Namespace (CloudscaleMachine_Meta m) = ns ∧
                      labels ⊆ ObjectMeta_Labels (CloudscaleMachine_Meta m)) (sim_machines w)), w);
  util_GetOwnerCluster _ w := (Ok (sim_owner_cluster w), w);
  util_GetOwnerMachine _ w := (Ok (sim_owner_machine w), w);
  util_GetClusterFromMetadata _ w :=
    (match sim_owner_cluster w with Some c => Ok c | None => Err kubeNotFound end, w);
  annotations_IsPaused _ m := match ObjectMeta_Labels m !! sim_pausedLabel with Some _ => true | None => false end;
  patch_NewClusterHelper _ := Ok ();
  patch_NewMachineHelper _ := Ok ();
  patch_Cluster _ c _ w := (Ok (), set_clusters (sim_patch CloudscaleCluster_Meta c (sim_clusters w)) w);
  patch_Machine _ m _ w := (Ok (), set_machines (sim_patch CloudscaleMachine_Meta m (sim_machines w)) w) |}.

(** ** The laws hold *)

#[export] Instance sim_NetworkIDs : NetworkIDs sim_client.
Proof.
  split.
  - intros id w x w' (w1 & n & r & ->)%sim_get_view. split; [done|].
    by intros sn (y & -> & _)%list_elem_of_fmap.
  - by intros req w x w' (w1 & n & r & ->)%sim_create_view.
  - by intros req w x w' (w1 & n & r & ->)%sim_create_view.
Qed.

Lemma view_router_wf w n r : wf_router (view_router w n r).
Proof. split; [done|]. by intros i (y & -> & _)%list_elem_of_fmap. Qed.

#[export] Instance sim_RouterIDs : RouterIDs sim_client.
Proof.
  split.
  - intros id w x w' (w1 & n & r & ->)%sim_get_view. apply view_router_wf.
  - intros tags w l w' H x Hx. apply (sim_list_view _ _ _ _ _ _ _ H) in Hx as (w1 & n & r & ->).
    apply view_router_wf.
  - intros req w x w' (w1 & n & r & ->)%sim_create_view. apply view_router_wf.
  - intros rid req w x w'. simpl. unfold sim_CreateInterface, faulty.
    destruct (default _ _); intros; by simplify_eq.
Qed.

#[export] Instance sim_LBIDs : LBIDs sim_client.
Proof. split; by intros req w x w' (w1 & n & r & ->)%sim_create_view. Qed.

#[export] Instance sim_FloatingIPIDs : FloatingIPIDs sim_client.
Proof.
  split.
  - by intros id w x w' (w1 & n & r & ->)%sim_get_view.
  - by intros req w x w' (w1 & n & r & ->)%sim_create_view.
Qed.

(** Every service keeps the promises about tags. *)
Lemma sim_TaggedService {Req T} (inj : Req → Item) (prj : Item → option Req) (reqTags : Req → TagMap)
    (view : SimWorld → nat → Req → T) (uuid : T → string) :
  (∀ r, prj (inj r) = Some r) → (∀ w n r, uuid (view w n r) = uuid_of n) →
  (∀ req w n r, view (snd (sim_create inj view req w)) n r = view w n r) →
  TaggedService (sim_service inj prj reqTags view) uuid reqTags.
Proof.
  intros Hinj Huuid Hview.
  refine {| live := sim_live prj reqTags view : @World sim_platform → _ |}; [done|done|..].
  - intros tags w items. simpl. unfold sim_list, sim_live. simpl. intros [= <-].
    induction (map_to_list (sel prj w)) as [|x l IH]; [done|]. csimpl.
    rewrite !filter_cons. simpl. case_decide; csimpl; [by rewrite IH|done].
  - intros req w. by apply sim_live_create.
  - intros w x t (y & [= -> ->] & _)%list_elem_of_fmap. by rewrite Huuid.
Defined.

Ltac sim_tagged :=
  apply sim_TaggedService; [done|done|]; intros req w n r; simpl; unfold view_network, view_group;
  rewrite ?sel_create_other by done; try done; unfold sim_create, faulty; by destruct (default _ _).

#[export] Instance sim_networks_tagged :
  TaggedService (Networks sim_client) Network_UUID NetworkCreateRequest_Tags.
Proof. sim_tagged. Defined.
#[export] Instance sim_lbs_tagged :
  TaggedService (LoadBalancers sim_client) LoadBalancer_UUID LoadBalancerRequest_Tags.
Proof. sim_tagged. Defined.
#[export] Instance sim_pools_tagged :
  TaggedService (LoadBalancerPools sim_client) LoadBalancerPool_UUID LoadBalancerPoolRequest_Tags.
Proof. sim_tagged. Defined.
#[export] Instance sim_listeners_tagged :
  TaggedService (LoadBalancerListeners sim_client) LoadBalancerListener_UUID LoadBalancerListenerRequest_Tags.
Proof. sim_tagged. Defined.
#[export] Instance sim_monitors_tagged :
  TaggedService (LoadBalancerHealthMonitors sim_client) LoadBalancerHealthMonitor_UUID
    LoadBalancerHealthMonitorRequest_Tags.
Proof. sim_tagged. Defined.
#[export] Instance sim_servers_tagged :
  TaggedService (Servers sim_client) Server_UUID ServerRequest_Tags.
Proof. sim_tagged. Defined.

#[export] Instance sim_groups_tagged :
  TaggedService (ServerGroups sim_client) ServerGroup_UUID ServerGroupRequest_Tags.
Proof. sim_tagged. Defined.

#[export] Instance sim_networks_subnets :
  Untouched (Networks sim_client) Network_UUID (Subnets sim_client).
Proof.
  split; [|done|done]. intros req w. unfold live_tags, live. simpl. unfold sim_live.
  rewrite sel_create_other by done. by rewrite <- !list_fmap_compose.
Qed.

(** Pool members. *)
Lemma NoDup_sim_members p w : NoDup (LoadBalancerPoolMember_UUID <$> sim_members p w).
Proof.
  unfold sim_members. rewrite <- list_fmap_compose.
  change (NoDup ((uuid_of ∘ fst) <$> map_to_list (sel (as_member p) w))).
  rewrite list_fmap_compose. apply (NoDup_fmap_2 uuid_of), NoDup_fst_map_to_list.
Qed.

Lemma elem_of_sim_members p w m :
  m ∈ sim_members p w ↔ ∃ n r, sel (as_member p) w !! n = Some r ∧ m = view_member (n, r).
Proof.
  unfold sim_members. rewrite list_elem_of_fmap. split.
  - intros ([n r] & -> & H%elem_of_map_to_list). by eauto.
  - intros (n & r & H & ->). exists (n, r). by rewrite elem_of_map_to_list.
Qed.

Lemma sel_member_insert p n d w w' :
  sel (as_member p) (set_items (<[n := IMember p d]> (sim_items w)) w') = <[n := d]> (sel (as_member p) w).
Proof. apply omap_insert_Some. simpl. by rewrite bool_decide_eq_true_2. Qed.

Lemma sel_delete {R} (prj : Item → option R) n w w' :
  sel prj (set_items (delete n (sim_items w)) w') = delete n (sel prj w).
Proof. apply omap_delete. Qed.

Lemma sim_members_NoDup p w : NoDup (sim_members p w).
Proof. eapply NoDup_fmap_1, NoDup_sim_members. Qed.

Lemma sim_members_update p u d w w' :
  member_Update (LoadBalancerPoolMembers sim_client) p u d w = (Ok (), w') →
  sim_members p w' ≡ₚ
    (λ m, if bool_decide (LoadBalancerPoolMember_UUID m = u)
          then set_address (LoadBalancerPoolMemberRequest_Address d) m else m) <$> sim_members p w.
Proof.
  simpl. unfold sim_member_Update, faulty.
  destruct (default _ _); try done. destruct (find_id _ _) as [[n r]|] eqn:E; [|done].
  apply find_id_Some in E as [En ->]. intros [= <-].
  change (sel (as_member p) w !! n = Some r) in En. apply NoDup_Permutation.
  + apply sim_members_NoDup.
  + apply (NoDup_fmap_1 LoadBalancerPoolMember_UUID).
    rewrite <- list_fmap_compose.
    rewrite (list_fmap_ext _ LoadBalancerPoolMember_UUID); [apply NoDup_sim_members|].
    intros i m _. simpl. by case_bool_decide.
  + intros m. rewrite elem_of_sim_members, sel_member_insert, list_elem_of_fmap. simpl.
    change (sel (as_member p) (set_faults (tail (sim_faults w)) w)) with (sel (as_member p) w).
    split.
    * intros (n' & r' & Hn' & ->). rewrite lookup_insert in Hn'. case_decide.
      -- simplify_eq. exists (view_member (n', r)). rewrite bool_decide_eq_true_2 by done. split; [done|].
         apply elem_of_sim_members. by eauto.
      -- exists (view_member (n', r')). rewrite bool_decide_eq_false_2; [split; [done|]|].
         ++ apply elem_of_sim_members. by eauto.
         ++ simpl. by intros ?%(inj uuid_of).
    * intros (m' & -> & (n' & r' & Hn' & ->)%elem_of_sim_members). case_bool_decide as Hu; simpl in Hu.
      -- apply (inj uuid_of) in Hu as ->. simplify_eq. eexists n, _.
         rewrite lookup_insert_eq. by split.
      -- exists n', r'. rewrite lookup_insert_ne; [done|]. by intros ->.
Qed.

Lemma sim_members_delete p u w w' :
  member_Delete (LoadBalancerPoolMembers sim_client) p u w = (Ok (), w') →
  sim_members p w' ≡ₚ filter (λ m, LoadBalancerPoolMember_UUID m ≠ u) (sim_members p w).
Proof.
  simpl. unfold sim_delete, faulty. destruct (default _ _); try done.
  destruct (find_id _ _) as [[n r]|] eqn:E; [|done].
  apply find_id_Some in E as [En ->]. intros [= <-]. apply NoDup_Permutation.
  + apply sim_members_NoDup.
  + apply NoDup_filter, sim_members_NoDup.
  + intros m. rewrite list_elem_of_filter, !elem_of_sim_members, sel_delete. split.
    * intros (n' & r' & [Hne Hn']%lookup_delete_Some & ->). split; [|by eauto].
      by intros ?%(inj uuid_of).
    * intros (Hne & n' & r' & Hn' & ->). exists n', r'. split; [|done].
      apply lookup_delete_Some. split; [|done]. intros ->. by apply Hne.
Qed.

#[export] Instance sim_MemberService p : MemberService sim_client p.
Proof.
  refine {| members := sim_members p : @World sim_platform → _ |}.
  - apply NoDup_sim_members.
  - by intros w l w' [= <- <-].
  - intros d w m w'. simpl. unfold sim_member_Create, faulty.
    destruct (default _ _); try done. intros [= <- <-]. split; [|done].
    unfold sim_members. rewrite sel_member_insert, map_to_list_insert; [done|].
    unfold sel. simpl. by rewrite lookup_omap, new_id_fresh.
  - apply sim_members_update.
  - apply sim_members_delete.
  - done.
Defined.

(** ** Faults as a budget

    The budget is the number of faults to come: a writing call that goes wrong
    takes one of them. *)

Definition sim_budget (w : SimWorld) : nat := length (sim_faults w).

Lemma faulty_recovers_at {A} (healthy : SimWorld → Prop) good tol (write : SimWorld → Res A * SimWorld) w :
  let w1 := set_faults (tail (sim_faults w)) w in
  healthy w1 →
  healthy (snd (write w1)) ∧ sim_faults (snd (write w1)) = sim_faults w1 ∧
    match fst (write w1) with Ok a => good a | Err e => tol e = true end →
  recovers_at healthy sim_budget good tol (faulty write) w.
Proof.
  intros w1 H1 (H2 & H3 & H4). unfold recovers_at, faulty, sim_budget. fold w1.
  assert (sim_faults w1 = tail (sim_faults w)) as E1 by done.
  destruct (sim_faults w) as [|[] fs]; simpl in *; rewrite ?H3, ?E1; simpl;
    (split; [done|split; [lia|]]); try (left; lia).
  right. by destruct (fst (write w1)).
Qed.

(** ** Deletion recovers

    Without machines and with the credentials in place, nothing but a fault can
    go wrong. *)

Definition sim_key : string * string := ("creds", "default").
Definition sim_secret (w : SimWorld) : Prop :=
  sim_find fst sim_key (sim_secrets w) = Ok (sim_key, {[ TokenKey := "secret" ]}).

Definition sim_healthy (w : SimWorld) : Prop := sim_machines w = [] ∧ sim_secret w.

(** A writing call that only fails by a fault, or in a tolerated way. *)
Lemma faulty_recovers {A} tol (write : SimWorld → Res A * SimWorld) :
  (∀ w, sim_machines (snd (write w)) = sim_machines w ∧ sim_secrets (snd (write w)) = sim_secrets w ∧
        sim_faults (snd (write w)) = sim_faults w ∧ match fst (write w) with Ok _ => True | Err e => tol e = true end) →
  recovers sim_healthy sim_budget always tol (faulty write).
Proof.
  intros H w [Hm Hs]. destruct (H (set_faults (tail (sim_faults w)) w)) as (H1 & H2 & H3 & H4).
  apply faulty_recovers_at; [done|]. unfold sim_healthy, sim_secret. by rewrite H1, H2.
Qed.

Lemma sim_delete_recovers {R} tol (prj : Item → option R) id :
  tol notFoundErr = true → recovers sim_healthy sim_budget always tol (sim_delete prj id).
Proof. intros H. apply faulty_recovers. intros w. by destruct (find_id _ _) as [[]|]. Qed.

Lemma pure_recovers {A} (healthy : SimWorld → Prop) (good : A → Prop) tol (c : SimWorld → Res A) :
  (∀ w, healthy w → match c w with Ok a => good a | Err e => tol e = true end) →
  recovers healthy sim_budget good tol (λ w, (c w, w)).
Proof. intros H w Hw. split; [done|split; [done|]]. right. by apply H. Qed.

#[export] Instance sim_environment : Environment (P:=sim_platform).
Proof.
  refine {| healthy := sim_healthy : @World sim_platform → Prop; budget := sim_budget;
            credentials := λ k, k = sim_key |}; intros.
  - by intros w Hw.
  - apply pure_recovers. intros w [_ Hs]. subst key. unfold sim_secret in Hs. rewrite Hs. simpl. by exists "secret".
Defined.

#[export] Instance sim_environment_cluster : ClusterEnvironment (E:=sim_environment).
Proof. split; [done|]. intros sn c ok w [Hm Hs]. split; [done|split; [done|by right]]. Defined.

#[export] Instance sim_recovering : Recovering (E:=sim_environment).
Proof.
  split; intros; try (by apply sim_delete_recovers).
  - apply pure_recovers. intros w [Hm _]. rewrite Hm. constructor.
  - by apply pure_recovers.
  - apply pure_recovers. intros w _. by destruct (find_id _ _) as [[]|].
Defined.
