(* ===== verification/SimCloud.v ===== *)
(** * The concrete platform provides

    The in-memory cloud of Sim.v as an environment of a provisioning: with the
    credentials in place and load balancers that run, nothing but a fault goes
    wrong, as long as no two resources of a kind share a tag. *)

From S2P Require Export Sim Convergence.

(** ** Unique tags *)

Definition req_tags (r : CreateRequest) : TagMap :=
  match r with
  | CNetwork r => NetworkCreateRequest_Tags r | CSubnet r => SubnetCreateRequest_Tags r
  | CRouter r => RouterCreateRequest_Tags r | CServer r => ServerRequest_Tags r
  | CServerGroup r => ServerGroupRequest_Tags r | CLoadBalancer r => LoadBalancerRequest_Tags r
  | CPool r => LoadBalancerPoolRequest_Tags r | CListener r => LoadBalancerListenerRequest_Tags r
  | CHealthMonitor r => LoadBalancerHealthMonitorRequest_Tags r
  | CFloatingIP r => FloatingIPCreateRequest_Tags r
  end.

(** The resource [n] is of this kind and carries this tag. *)
Definition carries (k : Kind) (key value : string) (m : gmap nat Item) (n : nat) : Prop :=
  ∃ r, m !! n = Some (IRes r) ∧ kind_of r = k ∧ {[ key := value ]} ⊆ req_tags r.

Definition unique_tags (m : gmap nat Item) : Prop :=
  ∀ k key value n1 n2, carries k key value m n1 → carries k key value m n2 → n1 = n2.

Lemma singleton_subseteq key value key' value' :
  ({[ key := value ]} : TagMap) ⊆ {[ key' := value' ]} → key = key' ∧ value = value'.
Proof. intros H%map_singleton_subseteq_l. by apply lookup_singleton_Some in H as [-> ->]. Qed.

(** Something that is not a resource, or changes one without touching its tags. *)
Lemma unique_tags_other m n it :
  unique_tags m →
  (∀ k key value, carries k key value (<[n := it]> m) n → carries k key value m n) →
  unique_tags (<[n := it]> m).
Proof.
  intros Hu Hn k key value n1 n2 H1 H2.
  assert (∀ i, carries k key value (<[n := it]> m) i → carries k key value m i) as H; [|by eapply Hu; apply H].
  intros i Hi. destruct (decide (i = n)) as [->|Hne]; [by apply Hn|].
  destruct Hi as (r & Hr & ?). rewrite lookup_insert_ne in Hr by done. by exists r.
Qed.

(** A new resource with a tag that no other of its kind has. *)
Lemma unique_tags_create m r key value :
  unique_tags m → req_tags r = {[ key := value ]} → (∀ n, ¬ carries (kind_of r) key value m n) →
  unique_tags (<[new_id m := IRes r]> m).
Proof.
  intros Hu Ht Hno k key' value' n1 n2 H1 H2.
  assert (∀ i, carries k key' value' (<[new_id m := IRes r]> m) i →
    i = new_id m ∧ kind_of r = k ∧ key' = key ∧ value' = value ∨ i ≠ new_id m ∧ carries k key' value' m i) as H.
  { intros i (r' & Hr & Hk & Hs). destruct (decide (i = new_id m)) as [->|Hne].
    - rewrite lookup_insert_eq in Hr. injection Hr as <-. rewrite Ht in Hs.
      apply singleton_subseteq in Hs as [-> ->]. by left.
    - rewrite lookup_insert_ne in Hr by done. right. split; [done|]. by exists r'. }
  destruct (H n1 H1) as [(-> & <- & -> & ->)|[_ C1]], (H n2 H2) as [(-> & E2 & E3 & E4)|[_ C2]]; [done| | |by eapply Hu].
  - by destruct (Hno n2).
  - subst. by destruct (Hno n1).
Qed.

(** ** The environment *)

Definition sim_steady (w : SimWorld) : Prop :=
  sim_secret w ∧ sim_lb_status w = "running" ∧ unique_tags (sim_items w).

Definition sim_cloud : Environment (P:=sim_platform).
Proof.
  refine {| healthy := sim_steady : @World sim_platform → Prop; budget := sim_budget;
            credentials := λ k, k = sim_key |}; intros.
  - by intros w Hw.
  - apply pure_recovers. intros w [Hs _]. subst key. unfold sim_secret in Hs. rewrite Hs. simpl. by exists "secret".
Defined.

#[export] Instance sim_cloud_cluster : ClusterEnvironment (E:=sim_cloud).
Proof. split; [done|]. intros sn c ok w Hw. split; [exact Hw|split; [done|by right]]. Defined.

(** ** Services *)

Lemma find_id_is_Some {R} (m : gmap nat R) n r : m !! n = Some r → is_Some (find_id m (uuid_of n)).
Proof.
  intros Hm%elem_of_map_to_list. unfold find_id.
  destruct (list_find_elem_of (λ x, uuid_of x.1 = uuid_of n) (map_to_list m) (n, r) Hm eq_refl) as [[i x] ->].
  by eexists.
Qed.

Section provides.
Context {Req T : Type} (C : Req → CreateRequest) (prj : Item → option Req) (reqTags : Req → TagMap)
  (view : SimWorld → nat → Req → T) (uuid : T → string) (good : T → Prop) (k : Kind).
Context (Hprj : ∀ i r, prj i = Some r ↔ i = IRes (C r)) (Hkind : ∀ r, kind_of (C r) = k) (Hsur : ∀ r, kind_of r = k → ∃ r', r = C r')
  (Htags : ∀ r, req_tags (C r) = reqTags r) (Huuid : ∀ w n r, uuid (view w n r) = uuid_of n)
  (Hgood : ∀ w n r, good (view w n r)).
Abbreviation svc := (sim_service (IRes ∘ C) prj reqTags view).

Lemma sel_lookup w n r : sel prj w !! n = Some r ↔ sim_items w !! n = Some (IRes (C r)).
Proof.
  unfold sel. rewrite lookup_omap. split.
  - intros (i & Hi & Hr)%bind_Some. by apply Hprj in Hr as ->.
  - intros ->. simpl. by apply Hprj.
Qed.

(** What a listing by one tag shows. *)
Lemma tagged_carries key value w n r :
  (n, r) ∈ filter (λ x : nat * Req, {[ key := value ]} ⊆ reqTags x.2) (map_to_list (sel prj w)) →
  carries k key value (sim_items w) n.
Proof.
  intros [Ht Hin%elem_of_map_to_list%sel_lookup]%list_elem_of_filter. exists (C r).
  split_and!; [done|apply Hkind|by rewrite Htags].
Qed.

Lemma tagged_at_most_one key value w :
  unique_tags (sim_items w) →
  length (filter (λ x : nat * Req, {[ key := value ]} ⊆ reqTags x.2) (map_to_list (sel prj w))) ≤ 1.
Proof.
  intros Hu. pose proof (λ n r, tagged_carries key value w n r) as Hc.
  assert (NoDup (filter (λ x : nat * Req, {[ key := value ]} ⊆ reqTags x.2) (map_to_list (sel prj w))).*1) as Hnd.
  { eapply sublist_NoDup; [apply (NoDup_fst_map_to_list (sel prj w))|]. apply fmap_sublist, sublist_filter. }
  destruct (filter _ _) as [|[n1 r1] [|[n2 r2] l]]; simpl; [lia|lia|]. exfalso.
  csimpl in Hnd. apply NoDup_cons in Hnd as [Hn _]. apply Hn, elem_of_cons. left. simpl.
  eapply Hu; [apply (Hc n1 r1); by left|apply (Hc n2 r2); right; by left].
Qed.

Definition sim_known (id : string) (w : SimWorld) : Prop := is_Some (find_id (sel prj w) id).
Definition sim_absent (key value : string) (w : SimWorld) : Prop := ∀ n, ¬ carries k key value (sim_items w) n.

Lemma sim_create_steady key value req w :
  sim_steady w → sim_absent key value w → reqTags req = {[ key := value ]} →
  recovers_at sim_steady sim_budget good never (sim_create (IRes ∘ C) view req) w.
Proof.
  intros (Hs & Hl & Hu) Ha Ht. apply faulty_recovers_at; [done|]. simpl. split; [|by split].
  split; [done|]. split; [done|]. simpl. eapply unique_tags_create; [done|by rewrite Htags|by rewrite Hkind].
Qed.

Lemma sim_Provides : Provides (E:=sim_cloud) svc uuid reqTags good.
Proof.
  refine {| absent := sim_absent : _ → _ → @World sim_platform → Prop;
            known := sim_known : _ → @World sim_platform → Prop |}.
  - intros id. apply pure_recovers. intros w Hw. by destruct (find_id _ _) as [[n r]|].
  - intros id w x w' _. simpl. unfold sim_get, sim_known.
    destruct (find_id (sel prj w) id) as [[n r]|] eqn:Ef; [|done]. intros [= _ <-]. rewrite Ef. by eexists.
  - intros key value. apply pure_recovers. intros w (_ & _ & Hu). rewrite length_fmap.
    split; [by apply tagged_at_most_one|]. apply Forall_fmap, Forall_true. intros [n r]. apply Hgood.
  - intros key value w w' _ [= Hl <-] n (r & Hr & Hk & Ht). apply fmap_nil_inv in Hl.
    destruct (Hsur r Hk) as [r' ->]. rewrite Htags in Ht. apply (not_elem_of_nil (n, r')). rewrite <- Hl.
    apply list_elem_of_filter. split; [done|]. by apply elem_of_map_to_list, sel_lookup.
  - intros key value w l w' x _ [= <- <-] (y & -> & Hy)%list_elem_of_fmap. rewrite Huuid. split; [done|].
    destruct y as [n r]. apply list_elem_of_filter in Hy as [_ Hy%elem_of_map_to_list].
    by eapply find_id_is_Some.
  - intros key value req w. apply sim_create_steady.
  - intros req w x w' _. simpl. unfold sim_create, faulty. destruct (default _ _); try done.
    intros [= <- <-]. rewrite Huuid. split; [done|]. unfold sim_known.
    apply (find_id_is_Some _ _ req), sel_lookup. simpl. apply lookup_insert_eq.
Defined.
End provides.

(** ** The resources *)

Ltac sim_provides k :=
  apply (sim_Provides _ _ _ _ _ _ k);
    [intros [[]| |] ?; simpl; split; intros; by simplify_eq|done|intros [] [=]; by eexists|done|done|done].

#[export] Instance sim_provides_networks :
  Provides (E:=sim_cloud) (Networks sim_client) Network_UUID NetworkCreateRequest_Tags always.
Proof. sim_provides KNetwork. Defined.
#[export] Instance sim_provides_subnets :
  Provides (E:=sim_cloud) (Subnets sim_client) Subnet_UUID SubnetCreateRequest_Tags always.
Proof. sim_provides KSubnet. Defined.
#[export] Instance sim_provides_routers :
  Provides (E:=sim_cloud) (router_service (Routers sim_client)) Router_UUID RouterCreateRequest_Tags
    (λ r, Router_Status r = RouterActive).
Proof. sim_provides KRouter. Defined.
#[export] Instance sim_provides_lbs :
  Provides (E:=sim_cloud) (LoadBalancers sim_client) LoadBalancer_UUID LoadBalancerRequest_Tags always.
Proof. sim_provides KLoadBalancer. Defined.
#[export] Instance sim_provides_pools :
  Provides (E:=sim_cloud) (LoadBalancerPools sim_client) LoadBalancerPool_UUID LoadBalancerPoolRequest_Tags always.
Proof. sim_provides KPool. Defined.
#[export] Instance sim_provides_listeners :
  Provides (E:=sim_cloud) (LoadBalancerListeners sim_client) LoadBalancerListener_UUID
    LoadBalancerListenerRequest_Tags always.
Proof. sim_provides KListener. Defined.
#[export] Instance sim_provides_monitors :
  Provides (E:=sim_cloud) (LoadBalancerHealthMonitors sim_client) LoadBalancerHealthMonitor_UUID
    LoadBalancerHealthMonitorRequest_Tags always.
Proof. sim_provides KHealthMonitor. Defined.
#[export] Instance sim_provides_fips :
  Provides (E:=sim_cloud) (fip_service (FloatingIPs sim_client)) FloatingIP_IP FloatingIPCreateRequest_Tags always.
Proof. sim_provides KFloatingIP. Defined.

(** A writing call that changes no tags. *)
Lemma sim_other_recovers {A} tol (write : SimWorld → Res A * SimWorld) w :
  (∀ w, sim_steady w → sim_steady (snd (write w))) → (∀ w, sim_faults (snd (write w)) = sim_faults w) →
  sim_steady w →
  match fst (write (set_faults (tail (sim_faults w)) w)) with Ok a => True | Err e => tol e = true end →
  recovers_at sim_steady sim_budget always tol (faulty write) w.
Proof.
  intros Hw Hf Hs Hr. apply faulty_recovers_at; [done|]. split; [by apply Hw|]. split; [by apply Hf|].
  by destruct (write _) as [[]].
Qed.

Lemma faulty_gentle {A} (write : SimWorld → Res A * SimWorld) :
  (∀ w, sim_steady w → sim_steady (snd (write w))) → (∀ w, sim_faults (snd (write w)) = sim_faults w) →
  gentle sim_steady sim_budget (faulty write).
Proof.
  intros Hw Hf w Hs. destruct (sim_other_recovers (λ _, true) write w Hw Hf Hs) as (? & ? & _); [|done].
  by destruct (fst _).
Qed.

(** Interfaces and members are no resources. *)
Lemma steady_other n it w :
  (∀ r, it ≠ IRes r) → sim_steady w → sim_steady (set_items (<[n := it]> (sim_items w)) w).
Proof.
  intros Hit (Hs & Hl & Hu). split; [done|split; [done|]]. simpl. apply unique_tags_other; [done|].
  intros k key value (r & Hr & _). rewrite lookup_insert_eq in Hr. injection Hr as Hr. by destruct (Hit r).
Qed.
Lemma steady_delete n w : sim_steady w → sim_steady (set_items (delete n (sim_items w)) w).
Proof.
  intros (Hs & Hl & Hu). split; [done|split; [done|]]. intros k key value n1 n2 (r1 & H1 & ?) (r2 & H2 & ?).
  simpl in H1, H2. apply lookup_delete_Some in H1 as [_ H1], H2 as [_ H2]. eapply Hu; [by exists r1|by exists r2].
Qed.

(** ** Members *)

Definition sim_present (pool id : string) (w : SimWorld) : Prop := is_Some (find_id (sel (as_member pool) w) id).

Lemma present_iff pool n w : sim_present pool (uuid_of n) w ↔ is_Some (sel (as_member pool) w !! n).
Proof.
  split.
  - intros [[n' r] H%find_id_Some]. destruct H as [H E%(inj uuid_of)]. subst. by eexists.
  - intros [r H]. by eapply find_id_is_Some.
Qed.
Lemma present_id pool id w : sim_present pool id w → ∃ n, id = uuid_of n.
Proof. intros [[n r] [_ ->]%find_id_Some]. by eexists. Qed.

Lemma member_update_steady pool id req w :
  sim_steady w →
  let write w := match find_id (sel (as_member pool) w) id with
                 | Some (n, r) => (Ok (), set_items (<[n := IMember pool
                     (set_member_address (LoadBalancerPoolMemberRequest_Address req) r)]> (sim_items w)) w)
                 | None => (Err notFoundErr, w)
                 end in sim_steady (snd (write w)).
Proof. intros Hw. simpl. destruct (find_id _ _) as [[n r]|]; [by apply steady_other|done]. Qed.

#[export] Instance sim_provides_members :
  ProvidesMembers (E:=sim_cloud) (LoadBalancerPoolMembers sim_client).
Proof.
  refine {| present := sim_present : _ → _ → @World sim_platform → Prop |}.
  - intros pool. apply pure_recovers. intros w _. apply NoDup_sim_members.
  - intros pool req w Hw. apply sim_other_recovers; [|done|done|done]. intros. by apply steady_other.
  - intros pool id req. apply faulty_gentle; [intros; by apply member_update_steady|].
    intros w. by destruct (find_id _ _) as [[]|].
  - intros pool id. apply faulty_gentle; intros w; [intros Hw|]; destruct (find_id _ _) as [[]|]; try done.
    by apply steady_delete.
  - intros pool id req w Hw [[n r] Hp]. apply sim_other_recovers; [intros; by apply member_update_steady| |done|].
    + intros w'. by destruct (find_id (sel (as_member pool) w') id) as [[]|].
    + change (find_id (sel (as_member pool) (set_faults (tail (sim_faults w)) w)) id) with (find_id (sel (as_member pool) w) id).
      by rewrite Hp.
  - intros pool id w Hw [[n r] Hp]. apply sim_other_recovers; [| |done|].
    + intros w' Hw'. destruct (find_id (sel (as_member pool) w') id) as [[]|]; [by apply steady_delete|done].
    + intros w'. by destruct (find_id (sel (as_member pool) w') id) as [[]|].
    + change (find_id (sel (as_member pool) (set_faults (tail (sim_faults w)) w)) id) with (find_id (sel (as_member pool) w) id).
      by rewrite Hp.
  - intros pool w l w' m _ [= <- <-] (n & r & Hn & ->)%elem_of_sim_members. by eapply find_id_is_Some.
  - done.
  - intros pool id req w x w' Hp. simpl. unfold sim_member_Create, faulty. destruct (default _ _); try done.
    intros [= _ <-]. destruct (present_id _ _ _ Hp) as [n ->]. apply present_iff in Hp as [r Hr]. apply present_iff.
    rewrite sel_member_insert. apply lookup_insert_is_Some'. right. by exists r.
  - intros pool id id' req w w' Hp. simpl. unfold sim_member_Update, faulty. destruct (default _ _); try done.
    destruct (find_id _ _) as [[n' r']|]; [|done]. intros [= <-].
    destruct (present_id _ _ _ Hp) as [n ->]. apply present_iff in Hp as [r Hr]. apply present_iff.
    rewrite sel_member_insert. apply lookup_insert_is_Some'. right. by exists r.
  - intros pool id id' w w' Hp Hne. simpl. unfold sim_delete, faulty. destruct (default _ _); try done.
    destruct (find_id _ _) as [[n' r']|] eqn:Ef; [|done]. intros [= <-]. apply find_id_Some in Ef as [_ ->].
    destruct (present_id _ _ _ Hp) as [n ->]. apply present_iff in Hp as [r Hr]. apply present_iff.
    rewrite sel_delete. exists r. apply lookup_delete_Some. split; [|done]. intros ->. by apply Hne.
Defined.

(** ** The floating IP *)

(** An update keeps the tags. *)
Lemma fip_update_steady ip req w :
  sim_steady w →
  sim_steady (snd (match find_id (sel as_fip w) ip with
    | Some (n, r) =>
        (Ok (), set_items (<[n := IRes (CFloatingIP
            (mkFloatingIPCreateRequest (FloatingIPCreateRequest_IPVersion r)
               (FloatingIPCreateRequest_Region r) (FloatingIPCreateRequest_Tags r)
               (FloatingIPUpdateRequest_LoadBalancer req) (FloatingIPUpdateRequest_Server req)))]> (sim_items w)) w)
    | None => (Err notFoundErr, w)
    end)).
Proof.
  intros (Hs & Hl & Hu). destruct (find_id _ _) as [[n r]|] eqn:Ef; [|done].
  apply find_id_Some in Ef as [Hn%(sel_lookup CFloatingIP) _]; [|intros [[]| |] ?; simpl; split; intros; by simplify_eq].
  split; [done|split; [done|]]. simpl. apply unique_tags_other; [done|].
  intros k key value (r' & Hr & Hk & Ht). rewrite lookup_insert_eq in Hr. injection Hr as <-.
  by exists (CFloatingIP r).
Qed.

(** ** All together *)

#[export] Instance sim_providing : Providing (E:=sim_cloud).
Proof.
  refine {| providing_NetworkIDs _ := sim_NetworkIDs; providing_RouterIDs _ := sim_RouterIDs;
            providing_LBIDs _ := sim_LBIDs; providing_FloatingIPIDs _ := sim_FloatingIPIDs;
            providing_networks _ := sim_provides_networks; providing_subnets _ := sim_provides_subnets;
            providing_routers _ := sim_provides_routers; providing_lbs _ := sim_provides_lbs;
            providing_pools _ := sim_provides_pools; providing_listeners _ := sim_provides_listeners;
            providing_monitors _ := sim_provides_monitors; providing_members _ := sim_provides_members;
            providing_fips _ := sim_provides_fips |}.
  - done.
  - intros token router req w Hw. apply sim_other_recovers; [|done|done|done]. intros. by apply steady_other.
  - intros token id w (Hs & Hl & Hu) [[n r] Hk].
    split; [done|split; [done|right]]. simpl in *. by rewrite Hk.
  - intros ns labels. by apply pure_recovers.
  - intros token ip req. apply faulty_gentle; [intros; by apply fip_update_steady|].
    intros w. by destruct (find_id _ _) as [[]|].
  - intros token ip req w Hw [[n r] Hk]. apply sim_other_recovers; [intros; by apply fip_update_steady| |done|].
    + intros w'. by destruct (find_id (sel as_fip w') ip) as [[]|].
    + change (find_id (sel as_fip (set_faults (tail (sim_faults w)) w)) ip) with (find_id (sel as_fip w) ip).
      by rewrite Hk.
  - done.
  - done.
Defined.
