(* ===== verification/SimMachines.v ===== *)
(** * The concrete platform hosts machines

    The in-memory cloud of Sim.v as an environment of machine reconciles: with the
    secrets and the cluster in place and servers that run, nothing but a fault goes
    wrong, as long as no two servers share a machine tag. *)

From S2P Require Export SimCloud Hosting.

Section sim_hosting.
(** The machine tag, the cluster under its key, and the key of the bootstrap secret. *)
Context (key : string) (ck : string * string) (cc : CloudscaleCluster) (bk : string * string).

Definition servers_of (w : SimWorld) : gmap nat ServerRequest := sel as_server w.

Definition unique_servers (w : SimWorld) : Prop :=
  ∀ value n1 n2 r1 r2, servers_of w !! n1 = Some r1 → servers_of w !! n2 = Some r2 →
    ServerRequest_Tags r1 !! key = Some value → ServerRequest_Tags r2 !! key = Some value → n1 = n2.

(** With one server there is nothing to mix up. *)
Lemma unique_servers_one w : length (map_to_list (servers_of w)) ≤ 1 → unique_servers w.
Proof.
  intros Hl v n1 n2 r1 r2 H1%elem_of_map_to_list H2%elem_of_map_to_list _ _.
  destruct (map_to_list (servers_of w)) as [|x [|]]; simpl in Hl; [by apply not_elem_of_nil in H1| |lia].
  apply list_elem_of_singleton in H1, H2. by simplify_eq.
Qed.

Definition sim_hosts (w : SimWorld) : Prop :=
  sim_secret w ∧ sim_find (key_of ∘ CloudscaleCluster_Meta) ck (sim_clusters w) = Ok cc ∧
  (∃ data v, sim_find fst bk (sim_secrets w) = Ok (bk, data) ∧ data !! "value" = Some v) ∧
  sim_server_status w = ServerStatusRunning ∧ unique_servers w.

Definition sim_host : Environment (P:=sim_platform).
Proof.
  refine {| healthy := sim_hosts : @World sim_platform → Prop; budget := sim_budget;
            credentials := λ k, k = sim_key |}; intros k.
  - by intros w Hw.
  - intros ->. apply pure_recovers. intros w [Hs _]. unfold sim_secret in Hs. rewrite Hs. by exists "secret".
Defined.

#[local] Existing Instance sim_host.

Lemma sim_host_machine : MachineEnvironment.
Proof.
  split; [done| |by intros k w Hw]. intros sn m ok w Hw. split; [exact Hw|split; [done|by right]].
Qed.

(** The cluster and the bootstrap secret can be read. *)
Lemma sim_cluster_recovers (good : CloudscaleCluster → Prop) :
  good cc → recovers healthy budget good never (kube_GetCloudscaleCluster ck).
Proof. intros Hg. apply pure_recovers. intros w (_ & Hc & _). simpl in *. by rewrite Hc. Qed.

Lemma sim_bootstrap_recovers :
  recovers healthy budget (λ data, is_Some (data !! "value")) never (kube_GetSecret bk).
Proof.
  apply pure_recovers. intros w (_ & _ & (data & v & Hf & Hv) & _). rewrite Hf. simpl. by exists v.
Qed.

(** *** Servers *)

Definition sim_hosted (id : string) (w : SimWorld) : Prop := is_Some (find_id (servers_of w) id).
Definition sim_unhosted (value : string) (w : SimWorld) : Prop :=
  ∀ n r, servers_of w !! n = Some r → ServerRequest_Tags r !! key ≠ Some value.

Lemma hosted_iff n w : sim_hosted (uuid_of n) w ↔ is_Some (servers_of w !! n).
Proof.
  split.
  - intros [[n' r] [Hn E%(inj uuid_of)]%find_id_Some]. subst. by eexists.
  - intros [r Hr]. by eapply find_id_is_Some.
Qed.

Lemma hosted_id id w : sim_hosted id w → ∃ n, id = uuid_of n.
Proof. intros [[n r] [_ ->]%find_id_Some]. by eexists. Qed.

Lemma hosted_mono id w w' :
  (∀ n, is_Some (servers_of w !! n) → is_Some (servers_of w' !! n)) → sim_hosted id w → sim_hosted id w'.
Proof. intros Hs Hid. destruct (hosted_id _ _ Hid) as [n ->]. rewrite hosted_iff in *. auto. Qed.

Abbreviation create_server := (sim_create (IRes ∘ CServer) view_server).
Abbreviation create_group := (sim_create (IRes ∘ CServerGroup) view_group).

Lemma servers_insert n r w w' :
  servers_of (set_items (<[n := IRes (CServer r)]> (sim_items w)) w') = <[n := r]> (servers_of w).
Proof. by apply omap_insert_Some. Qed.

(** The request of the new server, whatever the answer. *)
Lemma servers_create req w :
  servers_of (snd (create_server req w)) = servers_of w ∨
  servers_of (snd (create_server req w)) = <[new_id (sim_items w) := req]> (servers_of w).
Proof.
  unfold sim_create, faulty. destruct (default _ _); simpl; auto; right; apply (servers_insert _ _ w).
Qed.

Lemma servers_new w : servers_of w !! new_id (sim_items w) = None.
Proof. unfold servers_of, sel. by rewrite lookup_omap, new_id_fresh. Qed.

Lemma unique_insert req value w w' :
  unique_servers w → sim_unhosted value w → ServerRequest_Tags req !! key = Some value →
  servers_of w' = <[new_id (sim_items w) := req]> (servers_of w) → unique_servers w'.
Proof.
  intros Hu Hun Ht E v n1 n2 r1 r2. rewrite E, !lookup_insert.
  case_decide as E1; case_decide as E2; subst; intros H1 H2 T1 T2; simplify_eq; [done|..].
  - by destruct (Hun _ _ H2).
  - by destruct (Hun _ _ H1).
  - by eapply (Hu v).
Qed.

Lemma sim_server_create value req w :
  sim_hosts w → sim_unhosted value w → ServerRequest_Tags req !! key = Some value →
  recovers_at sim_hosts sim_budget running never (create_server req) w.
Proof.
  intros (H1 & H2 & H3 & H4 & H5) Hun Ht. apply faulty_recovers_at; [by split_and!|]. simpl.
  split; [|by split]. split_and!; [done..|]. eapply (unique_insert req value w); [done..|].
  apply (servers_insert _ _ w).
Qed.

Lemma sim_server_list value :
  recovers sim_hosts sim_budget (λ l, length l ≤ 1 ∧ Forall running l) never
    (svc_List (Servers sim_client) {[key := value]}).
Proof.
  apply pure_recovers. intros w (_ & _ & _ & Hs & Hu). rewrite length_fmap. split.
  - set (P := λ x : nat * ServerRequest, {[key := value]} ⊆ ServerRequest_Tags x.2).
    change (sel as_server w) with (servers_of w).
    assert (∀ n r, (n, r) ∈ filter P (map_to_list (servers_of w)) →
      servers_of w !! n = Some r ∧ ServerRequest_Tags r !! key = Some value) as Hin.
    { intros n r [Ht%map_singleton_subseteq_l Hn%elem_of_map_to_list]%list_elem_of_filter. done. }
    assert (NoDup (filter P (map_to_list (servers_of w))).*1) as Hnd.
    { eapply sublist_NoDup; [apply (NoDup_fst_map_to_list (servers_of w))|]. apply fmap_sublist, sublist_filter. }
    destruct (filter P _) as [|[n1 r1] [|[n2 r2] l]]; simpl; [lia|lia|]. exfalso.
    csimpl in Hnd. apply NoDup_cons in Hnd as [Hn _]. apply Hn, elem_of_cons. left. simpl.
    destruct (Hin n1 r1) as [? ?]; [by left|]. destruct (Hin n2 r2) as [? ?]; [by right; left|].
    by eapply (Hu value).
  - apply Forall_fmap, Forall_true. intros [n r]. exact Hs.
Qed.

Lemma groups_keep_servers req w : servers_of (snd (create_group req w)) = servers_of w.
Proof. by apply sel_create_other. Qed.

Lemma sim_group_create req : recovers sim_hosts sim_budget always never (create_group req).
Proof.
  intros w (H1 & H2 & H3 & H4 & H5). apply faulty_recovers_at; [by split_and!|]. simpl.
  split; [|by split]. split_and!; [done..|]. intros v n1 n2 r1 r2.
  assert (∀ w', servers_of (set_items (<[new_id (sim_items w) := IRes (CServerGroup req)]> (sim_items w)) w') =
    servers_of w) as E.
  { intros w'. apply map_eq. intros i. unfold servers_of, sel. simpl. rewrite !lookup_omap, lookup_insert.
    case_decide; [|done]. subst. by rewrite new_id_fresh. }
  rewrite E. apply H5.
Qed.

Lemma sim_hosting : Hosting key.
Proof.
  refine {| unhosted := sim_unhosted : _ → @World sim_platform → Prop;
            hosted := sim_hosted : _ → @World sim_platform → Prop |}; try done.
  - intros token id w (H1 & H2 & H3 & H4 & H5) [[n r] Hf]. split; [by split_and!|split; [done|right]].
    simpl. unfold sim_get. fold (servers_of w). by rewrite Hf.
  - intros token id w x w'. simpl. unfold sim_get. destruct (find_id _ _) as [[n r]|] eqn:Ef; [|done].
    apply find_id_Some in Ef as [_ ->]. by intros [= <- _].
  - intros token value. apply sim_server_list.
  - intros token value w w' [= Hl <-] n r Hn Ht. apply fmap_nil_inv in Hl.
    apply (not_elem_of_nil (n, r)). rewrite <- Hl. apply list_elem_of_filter.
    split; [by apply map_singleton_subseteq_l|]. by apply elem_of_map_to_list.
  - intros token value w l w' x [= <- <-] (y & -> & Hy)%list_elem_of_fmap. split; [done|].
    destruct y as [n r]. apply list_elem_of_filter in Hy as [_ Hy%elem_of_map_to_list]. by apply hosted_iff; eexists.
  - intros token value req w. apply sim_server_create.
  - intros token req w x w'. simpl. unfold sim_create, faulty. destruct (default _ _); try done.
    intros [= <- <-]. split; [done|]. apply hosted_iff. rewrite (servers_insert _ _ w), lookup_insert_eq. by eexists.
  - intros token id. apply pure_recovers. intros w _. by destruct (find_id _ _) as [[n r]|].
  - intros token tags. by apply pure_recovers.
  - intros token req. apply sim_group_create.
  - intros token id req w. apply hosted_mono. intros n Hn.
    destruct (servers_create req w) as [E|E]; simpl in *; rewrite E; [done|]. by apply lookup_insert_is_Some'; right.
  - intros token id req w. apply hosted_mono. intros n Hn. simpl. by rewrite groups_keep_servers.
Defined.

(** *** Deletion *)

Lemma sim_undeploying : Undeploying.
Proof.
  split. intros token id w (H1 & H2 & H3 & H4 & H5). apply faulty_recovers_at; [by split_and!|]. simpl.
  destruct (find_id _ _) as [[n r]|]; simpl; [|by split_and!]. split; [|done]. split_and!; [done..|].
  intros v n1 n2 r1 r2. unfold servers_of. rewrite (sel_delete as_server n w).
  intros [_ E1]%lookup_delete_Some [_ E2]%lookup_delete_Some. by eapply H5.
Qed.
End sim_hosting.
