(* ===== verification/Witness.v ===== *)
(** * Witnesses for the cluster controller

    The theorems about clusters that have hypotheses, applied on the concrete
    platform of Sim: a cluster with a managed network, a router, a load balancer and
    a floating IP, the states its reconciles go through, and its deletion while calls
    fail. *)

From S2P Require Export SimCloud Schema Polling LookFirst.
From S2P Require Import NetIP.

(** ** The scenario *)

Definition demo_network : NetworkSpec := mkNetworkSpec "main" "" "10.0.0.0/24" 1500 "".
Definition demo_interface : RouterInterfaceSpec := mkRouterInterfaceSpec "main" "" "10.0.0.1".
Definition demo_router : RouterSpec := mkRouterSpec "edge" "" true [demo_interface].
Definition demo_lb : LoadBalancerSpec :=
  mkLoadBalancerSpec (Some true) "round_robin" "lb-standard" 6443 "" "" (mkHealthMonitorSpec 5 3 2 3).
Definition demo_spec : CloudscaleClusterSpec :=
  mkCloudscaleClusterSpec "lpg" "lpg1" (mkCloudscaleCredentialsReference "creds" "")
    (mkAPIEndpoint "" 0) [demo_network] [demo_router] demo_lb (Some (mkFloatingIPSpec (Some "IPv4") "")).
Definition demo_status : CloudscaleClusterStatus :=
  mkCloudscaleClusterStatus None [] [] "" "" "" "" "" [] [].
Definition demo_meta : ObjectMeta :=
  mkObjectMeta "demo" "default" {[ ClusterNameLabel := "demo" ]} [] None.
Definition demo_cluster : CloudscaleCluster := mkCloudscaleCluster demo_meta demo_spec demo_status.
Definition demo_owner : Cluster := mkCluster "demo" "default" "demo" (Some false).

Definition demo_machine (name address : string) : CloudscaleMachine :=
  mkCloudscaleMachine
    (mkObjectMeta name "default"
       (<[ MachineControlPlaneLabel := "" ]> {[ ClusterNameLabel := "demo" ]}) [] None)
    (mkCloudscaleMachineSpec None "flex-4-2" "debian" 50 None None None)
    (mkCloudscaleMachineStatus None "" [mkMachineAddress MachineInternalIP address] "" []).

Definition demo_world : SimWorld :=
  mkSimWorld ∅ [] "running" "running" [demo_cluster]
    [demo_machine "cp-0" "10.0.0.10"; demo_machine "cp-1" "10.0.0.11"]
    [(("creds", "default"), {[ "token" := "secret" ]})] (Some demo_owner) None.

Definition demo_scope : ClusterScope := mkClusterScope sim_platform demo_owner sim_client.

(** The states after each stage of the first reconcile. *)
Definition at_start : CState := mkSt demo_cluster demo_world [].
Definition after_network : CState := Eval vm_compute in exec (reconcileNetwork demo_scope) at_start.
Definition after_routers : CState := Eval vm_compute in exec (reconcileRouters demo_scope) after_network.
Definition after_lb : CState := Eval vm_compute in exec (reconcileLoadBalancer demo_scope) after_routers.
Definition after_fip : CState := Eval vm_compute in exec (reconcileFloatingIP demo_scope) after_lb.

(** Finds a concrete event in a computed log. *)
Ltac find_event := vm_compute; repeat first [apply list_elem_of_here | apply list_elem_of_further].

Lemma some_write evs : existsb is_write evs = true → ∃ e, e ∈ evs ∧ is_write e = true.
Proof. intros (e & He & Hw)%existsb_exists. exists e. split; [by apply list_elem_of_In|done]. Qed.

(** The network creation times out although it took effect. *)
Definition timed_out : CState :=
  mkSt demo_cluster (set_faults [TimeoutApplied] demo_world) [].

(** ** Networks *)

Lemma reconcileNetwork_provisions_witness :
  provisioned_network (obj (exec (reconcileNetwork demo_scope) at_start)) "main".
Proof.
  apply (reconcileNetwork_provisions demo_scope at_start) with (n := demo_network).
  - vm_compute. reflexivity.
  - by left.
Defined.

Lemma reconcileNetwork_ownership_witness :
  ownership_recorded [demo_network] (obj (exec (reconcileNetwork demo_scope) timed_out)).
Proof.
  apply (reconcileNetwork_ownership demo_scope timed_out).
  - apply (bool_decide_unpack (NoDup _)). vm_compute. exact I.
  - intros n ns _ [=].
Defined.

Lemma reconcileManagedNetwork_no_duplicates_witness :
  owned (Networks sim_client) Network_UUID (networkTags demo_scope "main")
    (world (exec (reconcileManagedNetwork demo_scope demo_network) timed_out)) ≤ 1.
Proof.
  apply (reconcileManagedNetwork_no_duplicates demo_scope demo_network timed_out).
  apply Nat.leb_le. vm_compute. reflexivity.
Defined.

(** The condition says provisioned, and the network is not recorded. *)
Lemma reconcileNetwork_condition_witness :
  let c' := obj (exec (reconcileNetwork demo_scope) timed_out) in
  conditionOf c' NetworkReadyCondition =
    Some (mkCondition NetworkReadyCondition ConditionTrue NetworkProvisionedReason "") ∧
  GetNetworkStatus (status c') "main" = None ∧
  ∃ calls e, calls_of (reconcileNetwork demo_scope) timed_out = calls ++ [e] ∧
    timed_out_creation demo_scope demo_network e.
Proof.
  pose proof (reconcileNetwork_condition demo_scope timed_out) as H. cbv zeta in H.
  replace (result (reconcileNetwork demo_scope) timed_out) with (Ok (requeue 5)) in H by (vm_compute; reflexivity).
  destruct H as (Hc & _ & [[[=] _]|(_ & [|x pre] & n & post & calls & e & Hn & _ & [_ Hsame] & Hev & He)]);
    [|by destruct pre].
  injection Hn as <- _. split; [exact Hc|]. split; [|by exists calls, e].
  rewrite Hsame; [reflexivity|apply not_elem_of_nil].
Defined.

Lemma deleteNetwork_only_managed_witness :
  ∃ ns r, ns ∈ networks_of (obj after_fip) ∧ NetworkStatus_Managed ns = true ∧
          NetworkStatus_NetworkID ns ≠ "" ∧
          EDelete KNetwork "id-1" (Ok ()) = EDelete KNetwork (NetworkStatus_NetworkID ns) r.
Proof.
  apply (deleteNetwork_only_managed demo_scope after_fip); [|reflexivity].
  find_event.
Defined.

(** ** Routers *)

Lemma demo_routers_unique : unique_routers [demo_router].
Proof. apply (bool_decide_unpack (unique_routers _)). vm_compute. exact I. Defined.

Lemma reconcileRouters_provisions_witness :
  let c' := obj (exec (reconcileRouters demo_scope) after_network) in
  (∃ rid, rid ≠ "" ∧ router_view c' "edge" = Some (rid, true)) ∧
  ∀ i, i ∈ [demo_interface] → ∃ id, id ≠ "" ∧
    iface_entry c' "edge" (RouterInterfaceSpec_Network i) =
      Some (mkRouterInterfaceStatus (RouterInterfaceSpec_Network i) id
              (bool_decide (RouterInterfaceSpec_UUID i = ""))).
Proof.
  apply (reconcileRouters_provisions demo_scope after_network) with (x := demo_router).
  - exact demo_routers_unique.
  - vm_compute. reflexivity.
  - left.
Defined.

Lemma reconcileRouters_write_ahead_witness :
  ∃ x, x ∈ [demo_router] ∧
    router_write x (obj after_network) (obj (exec (reconcileRouters demo_scope) after_network))
      (EInterfaceCreate "id-3" (mkCreateInterfaceRequest "id-1" [mkInterfaceAddress "id-2" "10.0.0.1"]) (Ok "id-4")).
Proof.
  apply (reconcileRouters_write_ahead demo_scope after_network).
  - exact demo_routers_unique.
  - find_event.
  - reflexivity.
Defined.

(** The router and its interface exist already; the spec adopts the router. *)
Definition adopting_router : RouterSpec := mkRouterSpec "edge" "id-3" true [demo_interface].
Definition adopting : CState :=
  mkSt (upd_spec (λ sp, mkCloudscaleClusterSpec (CloudscaleClusterSpec_Region sp) (CloudscaleClusterSpec_Zone sp)
           (CloudscaleClusterSpec_CredentialsRef sp) (CloudscaleClusterSpec_ControlPlaneEndpoint sp)
           (CloudscaleClusterSpec_Networks sp) [adopting_router]
           (CloudscaleClusterSpec_ControlPlaneLoadBalancer sp) (CloudscaleClusterSpec_FloatingIP sp))
         (obj after_network))
    (set_items (<[3%nat := IRes (CRouter (mkRouterCreateRequest "foreign" true "lpg1" ∅))]>
                  (sim_items (world after_network))) (world after_network)) [].

Lemma reconcileRouters_no_foreign_claim_witness :
  is_Some (iface_entry (obj adopting) "edge" "main") ∨
  ∃ rid i ns r,
    fst <$> router_view (obj (exec (reconcileRouters demo_scope) adopting)) "edge" = Some rid ∧
    i ∈ [demo_interface] ∧ RouterInterfaceSpec_Network i = "main" ∧
    EInterfaceCreate rid (attach_request i ns) r ∈ calls_of (reconcileRouters demo_scope) adopting.
Proof.
  apply (reconcileRouters_no_foreign_claim demo_scope adopting) with
    (x := adopting_router) (e := mkRouterInterfaceStatus "main" "id-4" true).
  - apply (bool_decide_unpack (unique_routers _)). vm_compute. exact I.
  - left.
  - done.
  - vm_compute. reflexivity.
  - reflexivity.
Defined.

Lemma reconcileRouters_ownership_witness :
  routers_ownership [demo_router] (obj (exec (reconcileRouters demo_scope) after_network)).
Proof.
  apply (reconcileRouters_ownership demo_scope after_network).
  - exact demo_routers_unique.
  - intros x ->%list_elem_of_singleton. split; [intros v [=]|intros i e _ [=]].
Defined.

Lemma deleteRouters_only_managed_witness :
  ∃ rs, rs ∈ routers_of (obj after_fip) ∧ RouterStatus_RouterID rs ≠ "" ∧
    ((∃ iface id r, iface ∈ RouterStatus_Interfaces rs ∧ RouterInterfaceStatus_Managed iface = true ∧
        (RouterInterfaceStatus_InterfaceID iface = id ∨ RouterInterfaceStatus_InterfaceID iface = "") ∧
        EInterfaceDelete "id-3" "id-4" (Ok ()) = EInterfaceDelete (RouterStatus_RouterID rs) id r) ∨
     (RouterStatus_Managed rs = true ∧
      ∃ r, EInterfaceDelete "id-3" "id-4" (Ok ()) = EDelete KRouter (RouterStatus_RouterID rs) r)).
Proof.
  apply (deleteRouters_only_managed demo_scope after_fip); [find_event|reflexivity].
Defined.

(** ** Load balancer *)

Lemma reconcileLoadBalancer_provisions_witness :
  let c' := obj (exec (reconcileLoadBalancer demo_scope) after_routers) in
  lbID c' ≠ "" ∧ poolID c' ≠ "" ∧ listenerID c' ≠ "" ∧ monitorID c' ≠ "" ∧
  true = IsTrue c' LoadBalancerReadyCondition.
Proof.
  apply (reconcileLoadBalancer_provisions demo_scope after_routers (mkLbStatus "203.0.113.5" true)).
  - reflexivity.
  - vm_compute. reflexivity.
Defined.

Lemma reconcileLoadBalancer_references_witness :
  let c' := obj (exec (reconcileLoadBalancer demo_scope) after_routers) in
  refs_ok (lbID c') (poolID c')
    (EMemberCreate "id-6" (mkLoadBalancerPoolMemberRequest "cp-0" "id-2" 6443 "10.0.0.10"
       (Some (clusterOwnershipTags demo_cluster))) (Ok "id-9")).
Proof.
  apply (reconcileLoadBalancer_references demo_scope after_routers). find_event.
Defined.

Lemma reconcileLoadBalancer_no_duplicates_witness :
  (owned (LoadBalancers sim_client) LoadBalancer_UUID (clusterOwnershipTags demo_cluster)
    (world (exec (reconcileLB demo_scope) after_routers)) ≤ 1)%nat.
Proof.
  apply (reconcileLoadBalancer_no_duplicates demo_scope after_routers).
  apply Nat.leb_le. vm_compute. reflexivity.
Defined.

Lemma desiredFrom_spec_witness :
  ∃ subnet cidr net, getPoolMemberSubnetID (obj after_lb) = Ok subnet ∧
    getMemberSubnetCIDR (obj after_lb) subnet = Ok cidr ∧ ParseCIDR cidr = Some net ∧
    (∃ a, a ∈ machineAddresses (demo_machine "cp-0" "10.0.0.10") ∧ reachable net a).
Proof.
  destruct (desiredFrom_spec (obj after_lb) [demo_machine "cp-0" "10.0.0.10"]
    [mkLoadBalancerPoolMemberRequest "cp-0" "id-2" 6443 "10.0.0.10" (Some (clusterOwnershipTags demo_cluster))])
    as (subnet & cidr & net & H1 & H2 & H3 & H4 & _).
  - vm_compute. reflexivity.
  - exists subnet, cidr, net. split; [exact H1|split; [exact H2|split; [exact H3|]]].
    destruct (H4 _ ltac:(left)) as (m & a & ->%list_elem_of_singleton & Ha & Hr & _).
    by exists a.
Defined.

(** One member is stale and one is at an old address. *)
Definition drifted : CState :=
  mkSt (obj after_lb)
    (set_machines [demo_machine "cp-1" "10.0.0.77"; demo_machine "cp-2" "10.0.0.12"] (world after_lb)) [].

Lemma reconcileLBMembers_converges_witness :
  ∃ machines wanted, machineName <$> machines = ["cp-1"; "cp-2"] ∧
    desiredFrom (obj drifted) machines = Ok wanted ∧
    (λ m, (LoadBalancerPoolMember_Name m, LoadBalancerPoolMember_Address m)) <$>
      sim_members (poolID (obj drifted)) (world (exec (reconcileLBMembers demo_scope) drifted)) ≡ₚ
    (λ d, (LoadBalancerPoolMemberRequest_Name d, LoadBalancerPoolMemberRequest_Address d)) <$> wanted.
Proof.
  destruct (reconcileLBMembers_converges demo_scope drifted (MS := sim_MemberService (poolID (obj drifted))))
    as (machines & w' & wanted & Hl & Hd & Hp).
  - apply (bool_decide_unpack (NoDup _)). vm_compute. exact I.
  - intros machines w' H. apply (f_equal fst) in H. vm_compute in H. injection H as <-.
    apply (bool_decide_unpack (NoDup _)). vm_compute. exact I.
  - vm_compute. reflexivity.
  - exists machines, wanted.
    apply (f_equal fst) in Hl. vm_compute in Hl. injection Hl as <-.
    split; [reflexivity|split; [exact Hd|exact Hp]].
Defined.

(** ** Floating IP *)

Lemma reconcileFloatingIP_targets_witness :
  fip_write demo_spec (lbID (obj after_lb))
    (ECreate (CFloatingIP (mkFloatingIPCreateRequest 4 "lpg" (clusterOwnershipTags demo_cluster) "id-5" ""))
       (Ok "id-11")).
Proof.
  apply (reconcileFloatingIP_targets demo_scope after_lb). find_event.
Defined.

Lemma reconcileFloatingIP_provisions_witness :
  fipOf (obj (exec (reconcileFloatingIP demo_scope) after_lb)) ≠ "".
Proof.
  apply (reconcileFloatingIP_provisions demo_scope after_lb).
  - done.
  - vm_compute. reflexivity.
Defined.

(** ** The cluster controller *)

Definition demo_owner_up : Cluster := mkCluster "demo" "default" "demo" (Some true).
Definition demo_scope_up : ClusterScope := mkClusterScope sim_platform demo_owner_up sim_client.

Lemma reconcileNormal_converged_witness :
  let c' := obj (exec (ClusterCtl.reconcileNormal demo_scope_up) at_start) in
  networks_done c' ∧ routers_done c' ∧ lb_done c' ∧ fip_done c' ∧ IsTrue c' ReadyCondition = true.
Proof.
  destruct (reconcileNormal_converged demo_scope_up at_start) as (_ & H1 & H2 & H3 & H4 & H5 & _).
  - exact demo_routers_unique.
  - vm_compute. reflexivity.
  - exact (conj H1 (conj H2 (conj H3 (conj H4 H5)))).
Defined.

Lemma reconcileOwned_patch_witness :
  let evs := calls_of (ClusterCtl.reconcileOwned demo_owner) at_start in
  let c' := obj (exec (ClusterCtl.reconcileOwned demo_owner) at_start) in
  ∃ pre r, evs = pre ++ [EPatchCluster demo_cluster c' true r] ∧ Forall quiet pre.
Proof.
  destruct (reconcileOwned_patch demo_owner at_start) as (pre & ok & r & H1 & H2 & _ & H3 & _).
  - apply some_write. vm_compute. reflexivity.
  - exists pre, r. split; [|exact H2]. destruct ok; [exact H1|].
    destruct (H3 eq_refl) as [e He]. exfalso. revert He. vm_compute. discriminate.
Defined.

Lemma demo_keyed : keyed demo_cluster.
Proof. unfold keyed, spec_keyed, status_keyed. split_and!; apply (bool_decide_unpack _); vm_compute; exact I. Qed.

Lemma reconcile_keeps_keys_witness :
  let c' := obj (exec (ClusterCtl.reconcileOwned demo_owner) at_start) in
  keyed c' ∧ NetworkStatus_Name <$> networks_of c' = ["main"] ∧ RouterStatus_Name <$> routers_of c' = ["edge"].
Proof.
  split; [|vm_compute; by split].
  apply (reconcile_keeps_keys demo_owner at_start). exact demo_keyed.
Defined.

Lemma reconcile_polls_witness :
  requeue 10 = emptyResult ∨ (5 * Second ≤ RequeueAfter (requeue 10) ≤ 30 * Second)%Z.
Proof.
  apply (reconcile_polls (P:=sim_platform) ("demo", "default") (mkSt () demo_world [])).
  (* the first reconcile waits for the control plane *)
  left. vm_compute. reflexivity.
Defined.

(** ** Provisioning *)

(** The first reconciles lose answers and fail; the control plane has two machines. *)
Definition demo_flaky : SimWorld :=
  set_faults [TimeoutApplied; NoFault; NoFault; ServerFailure; NoFault; TimeoutLost; NoFault; NoFault; TimeoutApplied]
    demo_world.

Lemma demo_managed : all_managed demo_spec.
Proof.
  split_and!; try done.
  - intros n [->|Hn]%elem_of_cons; [|by apply not_elem_of_nil in Hn]. split; [done|]. vm_compute. by eexists.
  - exact demo_routers_unique.
  - intros x [->|Hx]%elem_of_cons; [|by apply not_elem_of_nil in Hx]. split; [done|].
    intros i [->|Hi]%elem_of_cons; [|by apply not_elem_of_nil in Hi]. split; [done|]. by left.
  - intros _. split; by left.
Defined.

Lemma provisioning_converges_witness :
  (∃ n, n ≤ 10 ∧ cluster_provisioned (fst (turns (turn demo_owner) (λ _ w, w) n (demo_cluster, demo_flaky)))) ∧
  IsTrue (fst (turns (turn demo_owner) (λ _ w, w) 4 (demo_cluster, demo_flaky))) ReadyCondition = false.
Proof.
  split; [|vm_compute; reflexivity].
  refine (provisioning_converges (R:=sim_providing) demo_owner (λ _ w, w) demo_cluster demo_flaky _ _ _).
  - done.
  - split; [done|split; [done|]]. intros k key value n1 n2 (r & [=] & _).
  - split; [done|split; [by split|]]. split; [exact demo_managed|constructor].
Defined.

(** ** Deletion *)

(** The cluster of the first reconcile is deleted while the cloud loses answers
    and fails; its machines are gone. *)
Definition demo_doomed : CloudscaleCluster :=
  set_CloudscaleCluster_Meta
    (mkObjectMeta "demo" "default" {[ ClusterNameLabel := "demo" ]} [ClusterFinalizer] (Some 1%Z))
    (obj after_fip).
Definition demo_failing : SimWorld :=
  set_machines [] (set_faults [TimeoutApplied; ServerFailure; NoFault; TimeoutLost] (world after_fip)).

Lemma deletion_terminates_witness :
  (∃ n, n ≤ 5 ∧ ClusterFinalizer ∉ finalizers (fst (turns (turn demo_owner) (λ _ w, w) n (demo_doomed, demo_failing)))) ∧
  ClusterFinalizer ∈ finalizers (fst (turns (turn demo_owner) (λ _ w, w) 3 (demo_doomed, demo_failing))).
Proof.
  split.
  - refine (deletion_terminates (R:=sim_recovering) demo_owner (λ _ w, w) demo_doomed demo_failing _ _ _).
    + done.
    + by split.
    + split; [by exists 1%Z|by split].
  - apply (bool_decide_unpack _). vm_compute. exact I.
Defined.

(** ** Creations *)

Lemma look_before_create_witness :
  let evs := calls_of (ClusterCtl.Reconcile ("demo", "default")) (mkSt () demo_world []) in
  ∃ req r, evs !! 4 = Some (ECreate (CNetwork req) r) ∧ warrant ∅ (take 4 evs) (ECreate (CNetwork req) r).
Proof.
  intros evs. destruct (evs !! 4) as [e|] eqn:E; [|vm_compute in E; discriminate E].
  pose proof (look_before_create (P:=sim_platform) ("demo", "default") (mkSt () demo_world []) evs
    (or_introl eq_refl) (take 4 evs) e (drop 5 evs) (eq_sym (take_drop_middle _ _ _ E))) as H.
  pose proof E as E'. vm_compute in E'. injection E' as <-. eexists _, _. split; [reflexivity|exact H].
Defined.
