(* ===== verification/MachineWitness.v ===== *)
(** * Witnesses for the machine controller, the webhooks and their composition

    The theorems of MachineCtl, GroupMutex, Admission, MachineWebhook, TemplateCtl
    and Composition that have hypotheses, applied on the concrete platform. *)

From S2P Require Export Witness Composition GroupMutex TemplateCtl.
From S2P Require Import SimMachines Watching.

(** ** The machine of a provisioned cluster *)

Definition demo_cc : CloudscaleCluster :=
  Eval vm_compute in obj (exec (ClusterCtl.reconcileNormal demo_scope_up) at_start).
Definition demo_capi_machine : Machine :=
  mkMachine "cp-0" "default" {[ ClusterNameLabel := "demo" ]} (Some "boot") "CloudscaleMachine" "cp-0".
Definition demo_mscope : MachineScope :=
  mkMachineScope demo_owner_up demo_capi_machine demo_cc sim_client.
Definition demo_m : CloudscaleMachine :=
  mkCloudscaleMachine (mkObjectMeta "cp-0" "default" {[ ClusterNameLabel := "demo" ]} [] None)
    (mkCloudscaleMachineSpec None "flex-4-2" "debian" 50 None (Some (mkServerGroupSpec "cp")) None)
    (mkCloudscaleMachineStatus None "" [] "" []).
Definition demo_mworld : SimWorld :=
  mkSimWorld ∅ [] "running" "running" [demo_cc] [demo_m]
    [(("creds", "default"), {[ "token" := "secret" ]}); (("boot", "default"), {[ "value" := "#!" ]})]
    (Some demo_owner_up) (Some demo_capi_machine).
Definition m_start : MState := mkSt demo_m demo_mworld [].

(** ** The machine controller *)

Lemma machine_settles_witness :
  let m' := obj (exec (MachineCtl.reconcileNormal demo_mscope) m_start) in
  (Machine_DataSecretName demo_capi_machine = None ∧ mIsTrue m' ReadyCondition = false) ∨
  (∃ m1 evs server, same_machine demo_m m1 ∧ sighting demo_mscope m1 evs server ∧
     Server_Status server ≠ ServerStatusChanging ∧ MachineCtl.serverID m' = recordedID demo_m server ∧
     GetProviderID m' = "cloudscale://" +:+ Server_UUID server ∧
     mIsTrue m' ReadyCondition = (Server_Status server == ServerStatusRunning)) ∨
  (MachineCtl.serverID m' = "" ∧ "" ≠ "" ∧
   ∃ cond, mconditionOf m' ReadyCondition = Some cond ∧ Condition_Status cond = ConditionFalse ∧
     Condition_Reason cond = ServerDeletedExternallyReason).
Proof. apply (machine_settles demo_mscope m_start). vm_compute. reflexivity. Defined.

Lemma machine_patch_witness :
  let evs := calls_of (MachineCtl.reconcileOwned demo_capi_machine demo_owner_up) m_start in
  let m' := obj (exec (MachineCtl.reconcileOwned demo_capi_machine demo_owner_up) m_start) in
  ∃ pre snapshot ok r, evs = pre ++ [EPatchMachine snapshot m' ok r] ∧ Forall quiet pre.
Proof.
  destruct (machine_patch demo_capi_machine demo_owner_up m_start) as (pre & snapshot & ok & r & H1 & H2 & _).
  - apply some_write. vm_compute. reflexivity.
  - exists pre, snapshot, ok, r. exact (conj H1 H2).
Defined.

(** ** Server groups *)

#[export] Instance sim_groups_named : NamedGroups (ServerGroups sim_client).
Proof.
  split. intros req w. unfold live_groups, live. simpl.
  destruct (sim_live_create_view (IRes ∘ CServerGroup) as_group ServerGroupRequest_Tags view_group) with (req := req) (w := w)
    as [H|(w' & n & H)]; [done| |by left|right].
  - intros r v n q. unfold view_group. by rewrite sel_create_other by done.
  - by exists (view_group w' n req).
Qed.

(** Two workers for the same group, and the steps they take as functions. *)
Definition demo_scopes (i : nat) : MachineScope := demo_mscope.
Definition demo_names (i : nat) : string := "cp".
Definition nothing_happens (w w' : SimWorld) : Prop := w = w'.
Abbreviation demo_step := (step demo_scopes demo_names nothing_happens).
Abbreviation demo_groups :=
  (duplicates (ServerGroups sim_client) (clusterOwnershipTags demo_cc) "cp" "lpg1").

Definition locks (i : nat) (σ : System) : System :=
  mkSystem (sys_world σ) (Some i) (<[i := Locked]> (sys_phase σ)) (sys_machine σ).
Definition lists (i : nat) (σ : System) : System :=
  let '(r, s) := listHalf demo_mscope "cp" (mkSt (sys_machine σ i) (sys_world σ) []) in
  mkSystem (world s) (sys_mutex σ) (<[i := after_list r]> (sys_phase σ)) (<[i := obj s]> (sys_machine σ)).
Definition creates (i : nat) (σ : System) : System :=
  let '(r, s) := createHalf demo_mscope "cp" (mkSt (sys_machine σ i) (sys_world σ) []) in
  mkSystem (world s) (sys_mutex σ) (<[i := Leaving r]> (sys_phase σ)) (<[i := obj s]> (sys_machine σ)).
Definition unlocks (i : nat) (r : Res Result) (σ : System) : System :=
  mkSystem (sys_world σ) None (<[i := Finished r]> (sys_phase σ)) (sys_machine σ).

Lemma lists_step b i σ : sys_phase σ i = Locked → demo_step b σ (lists i σ).
Proof.
  intros H. unfold lists. destruct (listHalf _ _ _) as [r [m w evs]] eqn:E. by eapply step_list.
Qed.
Lemma creates_step b i σ : sys_phase σ i = Listed → demo_step b σ (creates i σ).
Proof.
  intros H. unfold creates. destruct (createHalf _ _ _) as [r [m w evs]] eqn:E. by eapply step_create.
Qed.

Definition σ_start : System := mkSystem demo_mworld None (λ _, Outside) (λ _, demo_m).

(** One after the other: the second worker finds the first one's group. *)
Definition σ_serial : System :=
  lists 1 (locks 1 (unlocks 0 (Ok emptyResult) (creates 0 (lists 0 (locks 0 σ_start))))).

Lemma σ_serial_reached : rtc (demo_step true) σ_start σ_serial.
Proof.
  eapply rtc_l; [by apply (step_lock _ _ _ true 0)|].
  eapply rtc_l; [apply (lists_step true 0); reflexivity|].
  eapply rtc_l; [apply (creates_step true 0); vm_compute; reflexivity|].
  eapply rtc_l; [apply (step_unlock _ _ _ true 0); vm_compute; reflexivity|].
  eapply rtc_l; [apply (step_lock _ _ _ true 1); [vm_compute; reflexivity|done]|].
  apply rtc_once. by apply (lists_step true 1).
Qed.

Lemma mutex_prevents_duplicates_witness :
  demo_groups (sys_world σ_serial) ≤ 1 ∧ sys_phase σ_serial 1 = Leaving (Ok emptyResult).
Proof.
  split; [|vm_compute; reflexivity].
  apply (mutex_prevents_duplicates demo_scopes demo_names nothing_happens (ServerGroups sim_client))
    with (σ := σ_start).
  - done.
  - by intros w w' <-.
  - done.
  - apply Nat.leb_le. vm_compute. reflexivity.
  - exact σ_serial_reached.
Defined.

(** Without the mutex both workers list before either creates: two groups. *)
Definition σ_racing : System := creates 1 (creates 0 (lists 1 (lists 0 (locks 1 (locks 0 σ_start))))).

Lemma without_mutex_duplicates :
  rtc (demo_step false) σ_start σ_racing ∧ demo_groups (sys_world σ_racing) = 2.
Proof.
  split; [|vm_compute; reflexivity].
  eapply rtc_l; [by apply (step_lock _ _ _ false 0)|].
  eapply rtc_l; [by apply (step_lock _ _ _ false 1)|].
  eapply rtc_l; [by apply (lists_step false 0)|].
  eapply rtc_l; [by apply (lists_step false 1)|].
  eapply rtc_l; [apply (creates_step false 0); vm_compute; reflexivity|].
  apply rtc_once. apply (creates_step false 1). vm_compute. reflexivity.
Qed.

(** ** Machines across reconciles *)

(** The first creation times out although it took effect; the second reconcile
    starts from the same stored object. *)
Lemma admitted_machine_one_server_witness :
  (length (live_servers demo_mscope (attempts demo_mscope [demo_m; demo_m]
     (set_faults [TimeoutApplied] demo_mworld))) ≤ 1)%nat ∧
  length (live_servers demo_mscope (attempts demo_mscope [demo_m; demo_m]
     (set_faults [TimeoutApplied] demo_mworld))) = 1%nat.
Proof.
  split; [|vm_compute; reflexivity].
  change 1%nat with (S (length (live_servers demo_mscope (set_faults [TimeoutApplied] demo_mworld)))).
  apply (admitted_machine_one_server demo_mscope) with (fi := None) (name := "cp-0").
  - done.
  - assert (machineName demo_m = "cp-0" ∧ machine_admitted None demo_m) as H.
    { split; [done|]. apply (machine_admitted_create None demo_m). vm_compute. reflexivity. }
    apply Forall_cons; split; [exact H|apply Forall_cons; split; [exact H|by apply Forall_nil]].
  - intros m Hm. vm_compute. reflexivity.
Defined.

(** ** Turns of a machine *)

#[local] Existing Instance sim_host.
#[local] Existing Instance sim_host_machine.
#[local] Existing Instance sim_hosting.
#[local] Existing Instance sim_undeploying.

Abbreviation demo_host :=
  (sim_host (MachineTagKey "demo") ("demo", "default") demo_cc ("boot", "default")).
Abbreviation demo_turns := (turns (mturn demo_capi_machine demo_owner_up) (λ _ w, w)).

(** The cloud loses the answer of the group's creation, and of the server's. *)
Definition demo_mflaky : SimWorld := set_faults [TimeoutApplied; TimeoutApplied; ServerFailure] demo_mworld.

Lemma demo_mflaky_hosts : healthy (Environment:=demo_host) demo_mflaky.
Proof.
  split; [done|]. split; [done|]. split; [by eexists _, _|]. split; [done|].
  intros v n1 n2 r1 r2 H1. by vm_compute in H1.
Defined.

Lemma demo_machine_provisioning :
  machine_provisioning (E:=demo_host) demo_capi_machine demo_owner_up demo_m demo_mflaky.
Proof.
  split_and!; [done|done| |done| |by left].
  - exists "boot". split; [done|]. apply sim_bootstrap_recovers.
  - apply (sim_cluster_recovers _ _ _ _). split; [by split|]. vm_compute. by eexists.
Defined.

Lemma machine_provisioning_converges_witness :
  (∃ n, n ≤ 4 ∧ machine_provisioned (fst (demo_turns n (demo_m, demo_mflaky)))) ∧
  mIsTrue (fst (demo_turns 2 (demo_m, demo_mflaky))) ReadyCondition = false.
Proof.
  split; [|vm_compute; reflexivity].
  refine (machine_provisioning_converges (E:=demo_host) demo_capi_machine demo_owner_up (λ _ w, w) demo_m demo_mflaky
    _ _ _ _); [done|by intros i w id|exact demo_mflaky_hosts|exact demo_machine_provisioning].
Defined.

(** The machine is deleted while the cloud loses an answer and fails. *)
Definition demo_mdoomed : CloudscaleMachine :=
  let m := fst (demo_turns 1 (demo_m, demo_mworld)) in
  set_CloudscaleMachine_Meta
    (mkObjectMeta "cp-0" "default" {[ ClusterNameLabel := "demo" ]} [MachineFinalizer] (Some 1%Z)) m.
Definition demo_mfailing : SimWorld :=
  set_faults [TimeoutLost; ServerFailure] (snd (demo_turns 1 (demo_m, demo_mworld))).

Lemma machine_deletion_terminates_witness :
  (∃ n, n ≤ 3 ∧ undeployed (fst (demo_turns n (demo_mdoomed, demo_mfailing)))) ∧
  MachineFinalizer ∈ mfinalizers (fst (demo_turns 2 (demo_mdoomed, demo_mfailing))).
Proof.
  split.
  - refine (machine_deletion_terminates (E:=demo_host) demo_capi_machine demo_owner_up (λ _ w, w) demo_mdoomed
      demo_mfailing _ _ _).
    + done.
    + split; [done|]. split; [done|]. split; [by eexists _, _|]. split; [done|].
      apply unique_servers_one, Nat.leb_le. vm_compute. reflexivity.
    + split; [by exists 1%Z|]. split; [done|]. apply (sim_cluster_recovers _ _ _ _). by split.
  - apply (bool_decide_unpack _). vm_compute. exact I.
Defined.

(** ** Admission *)

Definition demo_regions : list Region := [mkRegion "lpg" [mkZone "lpg1"]; mkRegion "rma" [mkZone "rma1"]].
Definition demo_ri : Regions.RegionInfo := Regions.NewRegionInfo demo_regions.
Definition no_text (s : string) : string := "".

Lemma demo_partitioned : Regions.partitioned demo_regions.
Proof.
  intros r r' z [->| ->%list_elem_of_singleton]%elem_of_cons [->| ->%list_elem_of_singleton]%elem_of_cons; try done;
    by intros ->%list_elem_of_singleton Hz%list_elem_of_singleton.
Qed.

(** A specification with nothing but its region and credentials. *)
Definition minimal_spec : CloudscaleClusterSpec :=
  mkCloudscaleClusterSpec "lpg" "" (mkCloudscaleCredentialsReference "creds" "") (mkAPIEndpoint "" 0) [] []
    (mkLoadBalancerSpec None "" "" 0 "" "" (mkHealthMonitorSpec 0 0 0 0)) (Some (mkFloatingIPSpec None "")).
Definition minimal_cluster : CloudscaleCluster := mkCloudscaleCluster demo_meta minimal_spec demo_status.

Lemma Default_minimal_valid_witness : spec_valid demo_ri (Default demo_ri "demo" minimal_spec).
Proof. apply (Default_minimal_valid no_text no_text demo_regions); [exact demo_partitioned|done..|by intros fip [= <-]]. Defined.

(** The stored version of the minimal cluster. *)
Definition stored : CloudscaleCluster :=
  set_CloudscaleCluster_Spec (Default demo_ri "demo" minimal_spec) minimal_cluster.

Lemma stored_admitted : Admission.admitted no_text no_text demo_ri stored.
Proof. apply (admitted_create no_text no_text demo_ri minimal_cluster). vm_compute. reflexivity. Qed.

Lemma stored_list_maps : list_maps (CloudscaleCluster_Spec stored).
Proof. split; constructor. Qed.

Lemma admitted_valid_witness : spec_valid demo_ri (CloudscaleCluster_Spec stored).
Proof. exact (admitted_valid no_text no_text demo_ri stored stored_admitted). Defined.

(** Adding a second network leaves the members' network undetermined. *)
Definition two_networks : CloudscaleCluster :=
  set_CloudscaleCluster_Spec
    (set_Networks (CloudscaleClusterSpec_Networks (CloudscaleCluster_Spec stored) ++
                   [mkNetworkSpec "second" "" "10.1.0.0/16" 0 "10.2.0.1"]) (CloudscaleCluster_Spec stored)) stored.

Lemma ValidateUpdate_iff_witness :
  ¬ (update_keeps (CloudscaleCluster_Spec stored) (CloudscaleCluster_Spec two_networks) ∧
     body_valid (CloudscaleCluster_Spec two_networks)).
Proof.
  intros H. apply (ValidateUpdate_iff no_text no_text stored two_networks) in H.
  - vm_compute in H. discriminate H.
  - exact stored_list_maps.
Defined.

(** The stored cluster is reconciled: its first reconcile sets the endpoint. *)
Definition stored_start : CState := mkSt stored (set_clusters [stored] demo_world) [].
Lemma reconcile_keeps_admitted_witness :
  let c' := obj (exec (ClusterCtl.reconcileOwned demo_owner) stored_start) in
  snd (ValidateUpdate no_text no_text stored c') = None ∧ spec_valid demo_ri (spec c') ∧
  endpointHost c' = "id-7".
Proof.
  destruct (reconcile_keeps_admitted no_text no_text demo_ri demo_owner stored_start)
    as (_ & H1 & _ & H2).
  - exact stored_admitted.
  - exact stored_list_maps.
  - split; [exact H1|split; [exact H2|vm_compute; reflexivity]].
Defined.

(** ** Wake-ups *)

(** The machine is reconciled before its cluster is provisioned. *)
Definition early_start : St SimWorld Event unit := mkSt () (set_clusters [demo_cluster] demo_mworld) [].
Definition sim_list_machines (ns : string) (sel : gmap string string) : Res (list Machine) :=
  Ok (filter (λ x, Machine_Namespace x = ns ∧ sel ⊆ Machine_Labels x) [demo_capi_machine]).

(** An event that passes the filters, and one of a cluster that is paused. *)
Definition demo_mapped (f : Startup.MapFunc) (cc : CloudscaleCluster) : list (string * string) :=
  match f with
  | Startup.cloudscaleClusterToCloudscaleMachines =>
      cloudscaleClusterToCloudscaleMachines (Some cc) (λ _, Ok (Some demo_owner_up)) sim_list_machines
  | _ => []
  end.
Definition demo_reconciler : Startup.Reconciler := Startup.mkReconciler "" Startup.instrumentedTransport "dev" 1.

Lemma waiting_machine_is_woken_witness :
  result (MachineCtl.Reconcile ("cp-0", "default")) early_start = Ok emptyResult ∧
  ("cp-0", "default") ∈
    event_requests (λ _ _, true) demo_mapped (Startup.machineController demo_reconciler) demo_cc ∧
  ("cp-0", "default") ∉
    event_requests (λ p _, match p with Startup.ResourceNotPaused => false | _ => true end) demo_mapped
      (Startup.machineController demo_reconciler) demo_cc.
Proof.
  destruct (waiting_machine_is_woken (P:=sim_platform) demo_reconciler
    ("cp-0", "default") early_start demo_m demo_capi_machine demo_owner_up (world early_start))
    as (H1 & _ & H2).
  - exists (world early_start), (world early_start). split; [vm_compute; reflexivity|].
    split; [reflexivity|]. split; [reflexivity|]. vm_compute. reflexivity.
  - vm_compute. reflexivity.
  - split; [reflexivity|]. split; [reflexivity|]. split; [reflexivity|]. vm_compute. reflexivity.
  - assert (∀ passes, ("cp-0", "default") ∈
      event_requests passes demo_mapped (Startup.machineController demo_reconciler) demo_cc ↔
      passes Startup.ResourceNotPaused demo_cc = true ∧
      passes (Startup.ResourceHasFilterLabel "") demo_cc = true ∧
      passes Startup.ResourceIsNotExternallyManaged demo_cc = true) as H3.
    { intros passes. apply (H2 passes _ demo_cc (λ _, Ok (Some demo_owner_up)) sim_list_machines [demo_capi_machine]).
      - intros cc. reflexivity.
      - intros ns sel. eexists. split; [reflexivity|]. intros x. rewrite list_elem_of_filter. unfold selected. tauto.
      - by left.
      - vm_compute. reflexivity.
      - reflexivity. }
    split; [exact H1|]. split; [by apply H3|]. by intros [[=] _]%H3.
Defined.
