(* ===== verification/UnitTests.v ===== *)
(** * The repository's unit tests (src/internal/controller/*_test.go)

    The tests of the controllers, run on the model: the same mocks and scopes, the
    same functions, the same expectations. They show that the definitions the
    theorems are about behave as the authors of the code expect theirs to. What a
    test captures in a mock is read from the call log here; a mock that must not be
    called is one whose calls the log must not hold. *)

From S2P Require Export TestUtils ClusterCtl MachineCtl.
From S2P Require Import Sim.

#[local] Open Scope Z_scope.

(** ** The platform of the tests *)

(** The fake client's objects, and how often a mock that counts was called. *)
Record TestWorld := mkTestWorld { tw_fake : FakeClient; tw_calls : nat }.

Definition count (w : TestWorld) : TestWorld := mkTestWorld (tw_fake w) (S (tw_calls w)).

#[export] Instance test_platform : Platform := {|
  World := TestWorld;
  RouterActive := "active";
  NewClient _ := emptyClient;
  kube_GetCloudscaleCluster k w := (sim_find (key_of ∘ CloudscaleCluster_Meta) k (fake_clusters (tw_fake w)), w);
  kube_GetCloudscaleMachine k w := (sim_find (key_of ∘ CloudscaleMachine_Meta) k (fake_machines (tw_fake w)), w);
  kube_GetSecret k w := (res_map snd (sim_find fst k (fake_secrets (tw_fake w))), w);
  kube_ListCloudscaleMachines ns labels w :=
    (Ok (filter (λ m, ObjectMeta_Namespace (CloudscaleMachine_Meta m) = ns ∧
                      labels ⊆ ObjectMeta_Labels (CloudscaleMachine_Meta m)) (fake_machines (tw_fake w))), w);
  util_GetOwnerCluster _ w := (Ok None, w);
  util_GetOwnerMachine _ w := (Ok None, w);
  util_GetClusterFromMetadata _ w := (Err kubeNotFound, w);
  annotations_IsPaused _ _ := false;
  patch_NewClusterHelper _ := Ok ();
  patch_NewMachineHelper _ := Ok ();
  patch_Cluster _ _ _ w := (Ok (), w);
  patch_Machine _ _ _ w := (Ok (), w) |}.

Abbreviation TW := TestWorld.

(** *** Answers of mocks *)

Definition returns {A} (a : A) : TW → Res A * TW := λ w, (Ok a, w).
Definition fails {A} (msg : string) : TW → Res A * TW := λ w, (Err (errorString msg), w).
Definition responds {A} (code : Z) : TW → Res A * TW := λ w, (Err (ErrorResponse code ""), w).
Definition timesOut {A} (op : string) : TW → Res A * TW := λ w, (Err (urlError true op ErrDeadlineExceeded), w).

(** *** Runs *)

Definition fakeWorld (objs : list FakeObject) : TW := mkTestWorld (NewFakeClient objs) 0.

Definition runOn {A} (m : ClusterScope → CM A) (objs : list FakeObject) (cf : ClusterFixture) : Res A * CState :=
  m (mkClusterScope _ (cf_Cluster cf) (cf_Client cf)) (mkSt (cf_CloudscaleCluster cf) (fakeWorld objs) []).
Definition run {A} (m : ClusterScope → CM A) (cf : ClusterFixture) : Res A * CState := runOn m [] cf.

Definition succeeded {A O} (r : Res A * St TW Event O) : bool := match fst r with Ok _ => true | Err _ => false end.
Definition errorHas {A O} (sub : string) (r : Res A * St TW Event O) : bool :=
  match fst r with Ok _ => false | Err e => Contains (Error e) sub end.
Definition after {A O} (r : Res A * St TW Event O) : O := obj (snd r).
Definition events {A O} (r : Res A * St TW Event O) : list Event := log (snd r).
Definition created {A O} (r : Res A * St TW Event O) : list CreateRequest :=
  omap (λ e, match e with ECreate req _ => Some req | _ => None end) (events r).
Definition deletedOk {A O} (r : Res A * St TW Event O) : list string :=
  omap (λ e, match e with EDelete _ id (Ok _) => Some id | _ => None end) (events r).
Definition deleteCalls {A O} (r : Res A * St TW Event O) : list string :=
  omap (λ e, match e with EDelete _ id _ => Some id | _ => None end) (events r).
Definition networkStatus {A} (name : string) (r : Res A * CState) : option NetworkStatus :=
  GetNetworkStatus (status (after r)) name.

Definition withNetworks (l : list NetworkStatus) : ClusterScopeOption :=
  upd_cluster (upd_status (set_CloudscaleClusterStatus_Networks l)).
Definition withNetworkSpecs (l : list NetworkSpec) : ClusterScopeOption :=
  upd_cluster (upd_spec (set_CloudscaleClusterSpec_Networks l)).

(** ** Networks (cloudscalecluster_network_test.go) *)

Definition aNetwork (id : string) : Network := mkNetwork id "" 0 [].
Definition managedNetwork (name net subnet : string) : NetworkStatus := mkNetworkStatus name net subnet "" 0 true "".
Definition netUUID : string := "net-uuid-123".

Definition networks := WithNetworkService (P:=test_platform).
Definition subnets := WithSubnetService (P:=test_platform).

Definition freshNetworks : MockNetworkService :=
  mkMockService (Some (λ _, returns (aNetwork netUUID))) None (Some (λ _, returns [])) None.
Definition freshSubnets : MockSubnetService :=
  mkMockService (Some (λ _, returns (mkSubnet "subnet-uuid-123"))) None (Some (λ _, returns [])) None.

Definition reconcileFresh (net : NetworkSpec) :=
  run reconcileNetwork (NewClusterScopeOpts
    [networks (MockNetworks freshNetworks); subnets (MockSubnets freshSubnets); withNetworkSpecs [net]]).

Example TestReconcileNetwork_CreatesResources :
  let r := reconcileFresh (mkNetworkSpec "test" "" "10.0.0.0/24" 0 "") in
  succeeded r = true ∧
  (λ ns, (NetworkStatus_NetworkID ns, NetworkStatus_SubnetID ns)) <$> networkStatus "test" r =
    Some (netUUID, "subnet-uuid-123") ∧
  match created r with
  | [CNetwork n; CSubnet s] =>
      NetworkCreateRequest_Name n = "test" ∧ NetworkCreateRequest_Zone n = "rma1" ∧
      NetworkCreateRequest_AutoCreateIPV4Subnet n = false ∧
      SubnetCreateRequest_Network s = netUUID ∧ SubnetCreateRequest_CIDR s = "10.0.0.0/24" ∧
      SubnetCreateRequest_GatewayAddress s = ""
  | _ => False
  end.
Proof. by vm_compute. Qed.

Example TestReconcileNetwork_CreatesResources_custom_CIDR :
  match created (reconcileFresh (mkNetworkSpec "test" "" "192.168.0.0/16" 0 "")) with
  | [_; CSubnet s] => SubnetCreateRequest_CIDR s = "192.168.0.0/16"
  | _ => False
  end.
Proof. by vm_compute. Qed.

Example TestReconcileNetwork_CreatesResources_explicit_gateway :
  match created (reconcileFresh (mkNetworkSpec "test" "" "10.0.0.0/24" 0 "10.0.0.254")) with
  | [_; CSubnet s] => SubnetCreateRequest_GatewayAddress s = "10.0.0.254"
  | _ => False
  end.
Proof. by vm_compute. Qed.

Example TestReconcileNetwork_CreatesResources_explicit_mtu :
  match created (reconcileFresh (mkNetworkSpec "test" "" "10.0.0.0/24" 1500 "")) with
  | [CNetwork n; _] => NetworkCreateRequest_MTU n = 1500
  | _ => False
  end.
Proof. by vm_compute. Qed.

Example TestReconcileNetwork_SkipsIfBothExist :
  let r := run reconcileNetwork (NewClusterScopeOpts
    [networks (MockNetworks (mkMockService None (Some (λ id, returns (aNetwork id))) None None));
     subnets (MockSubnets (mkMockService None (Some (λ id, returns (mkSubnet id))) None None));
     withNetworks [managedNetwork "test" "existing-net" "existing-subnet"]]) in
  succeeded r = true ∧ created r = [] ∧
  (λ ns, (NetworkStatus_NetworkID ns, NetworkStatus_SubnetID ns)) <$> networkStatus "test" r =
    Some ("existing-net", "existing-subnet").
Proof. by vm_compute. Qed.

Example TestReconcileNetwork_NetworkErrorStopsSubnet :
  let r := run reconcileNetwork (NewClusterScopeOpts
    [networks (MockNetworks (mkMockService None None (Some (λ _, fails "api error")) None));
     subnets (MockSubnets noMock)]) in
  errorHas "api error" r = true ∧ created r = [] ∧ networkStatus "test" r = None.
Proof. by vm_compute. Qed.

Example TestReconcileNetwork_SubnetErrorSurfaced :
  errorHas "subnet api error" (run reconcileNetwork (NewClusterScopeOpts
    [networks (MockNetworks (mkMockService (Some (λ _, returns (aNetwork "net-uuid"))) None (Some (λ _, returns [])) None));
     subnets (MockSubnets (mkMockService None None (Some (λ _, fails "subnet api error")) None))])) = true.
Proof. by vm_compute. Qed.

Example TestReconcileNetwork_FindsByTag :
  let r := run reconcileNetwork (NewClusterScopeOpts
    [networks (MockNetworks (mkMockService None None (Some (λ _, returns [aNetwork "found-net-uuid"])) None));
     subnets (MockSubnets (mkMockService None None (Some (λ _, returns [mkSubnet "found-subnet-uuid"])) None))]) in
  succeeded r = true ∧ created r = [] ∧
  (λ ns, (NetworkStatus_NetworkID ns, NetworkStatus_SubnetID ns)) <$> networkStatus "test" r =
    Some ("found-net-uuid", "found-subnet-uuid").
Proof. by vm_compute. Qed.

Example TestReconcileNetwork_MultipleResourcesError :
  errorHas "found 2 network/tests matching tag filter" (run reconcileNetwork (NewClusterScopeOpts
    [networks (MockNetworks (mkMockService None None (Some (λ _, returns [aNetwork "net-uuid-1"; aNetwork "net-uuid-2"])) None));
     subnets (MockSubnets noMock)])) = true ∧
  errorHas "found 2 subnet/tests matching tag filter" (run reconcileNetwork (NewClusterScopeOpts
    [networks (MockNetworks (mkMockService None (Some (λ id, returns (aNetwork id))) None None));
     subnets (MockSubnets (mkMockService None None
       (Some (λ _, returns [mkSubnet "subnet-uuid-1"; mkSubnet "subnet-uuid-2"])) None));
     withNetworks [managedNetwork "test" netUUID ""]])) = true.
Proof. by vm_compute. Qed.

Example TestReconcileNetwork_RecreatesIfDeleted_network :
  let r := run reconcileNetwork (NewClusterScopeOpts
    [networks (MockNetworks (mkMockService (Some (λ _, returns (aNetwork "new-net-uuid"))) (Some (λ _, responds 404))
       (Some (λ _, returns [])) None));
     subnets (MockSubnets (mkMockService (Some (λ _, returns (mkSubnet "new-subnet-uuid"))) None (Some (λ _, returns [])) None));
     withNetworks [managedNetwork "test" "deleted-net-uuid" ""]]) in
  succeeded r = true ∧
  (λ ns, (NetworkStatus_NetworkID ns, NetworkStatus_SubnetID ns)) <$> networkStatus "test" r =
    Some ("new-net-uuid", "new-subnet-uuid").
Proof. by vm_compute. Qed.

Example TestReconcileNetwork_RecreatesIfDeleted_subnet :
  let r := run reconcileNetwork (NewClusterScopeOpts
    [networks (MockNetworks (mkMockService None (Some (λ id, returns (aNetwork id))) None None));
     subnets (MockSubnets (mkMockService (Some (λ _, returns (mkSubnet "new-subnet-uuid"))) (Some (λ _, responds 404))
       (Some (λ _, returns [])) None));
     withNetworks [managedNetwork "test" netUUID "deleted-subnet-uuid"]]) in
  succeeded r = true ∧
  (λ ns, (NetworkStatus_NetworkID ns, NetworkStatus_SubnetID ns)) <$> networkStatus "test" r =
    Some (netUUID, "new-subnet-uuid").
Proof. by vm_compute. Qed.

Example TestReconcileNetwork_SubnetFindsByTag :
  let r := run reconcileNetwork (NewClusterScopeOpts
    [networks (MockNetworks (mkMockService (Some (λ _, returns (aNetwork netUUID))) (Some (λ id, returns (aNetwork id))) None None));
     subnets (MockSubnets (mkMockService None None (Some (λ _, returns [mkSubnet "found-subnet-uuid"])) None));
     withNetworks [managedNetwork "test" netUUID ""]]) in
  succeeded r = true ∧ created r = [] ∧ NetworkStatus_SubnetID <$> networkStatus "test" r = Some "found-subnet-uuid".
Proof. by vm_compute. Qed.

Definition runDeleteNetwork (answer : string → TW → Res unit * TW) (l : list NetworkStatus) :=
  run deleteNetwork (NewClusterScopeOpts
    [networks (MockNetworks (mkMockService None None None (Some answer))); withNetworks l]).
Definition remaining {A} (r : Res A * CState) : list NetworkStatus := CloudscaleClusterStatus_Networks (status (after r)).

Example TestDeleteNetwork_BasicScenarios :
  let r := runDeleteNetwork (λ _, returns ()) [managedNetwork "test" "net-to-delete" "subnet-to-cascade"] in
  (succeeded r = true ∧ deletedOk r = ["net-to-delete"] ∧ remaining r = []) ∧
  let r := runDeleteNetwork (λ _, returns ()) [] in
  (succeeded r = true ∧ deleteCalls r = [] ∧ remaining r = []) ∧
  let r := runDeleteNetwork (λ _, responds 404) [managedNetwork "test" "already-deleted-net" "already-deleted-subnet"] in
  (succeeded r = true ∧ remaining r = []).
Proof. by vm_compute. Qed.

Example TestDeleteNetwork_SkipsPreExistingNetwork :
  let r := runDeleteNetwork (λ _, returns ())
    [mkNetworkStatus "pre-existing" "pre-existing-net" "pre-existing-subnet" "" 0 false ""] in
  succeeded r = true ∧ deleteCalls r = [] ∧
  (λ ns, (NetworkStatus_Name ns, NetworkStatus_Managed ns)) <$> remaining r = [("pre-existing", false)].
Proof. by vm_compute. Qed.

Definition failingFor (bad msg : string) : string → TW → Res unit * TW := λ id, if id == bad then fails msg else returns ().

Example TestDeleteNetwork_PartialFailure :
  let r := runDeleteNetwork (failingFor "net-2" "api timeout")
    [managedNetwork "net-a" "net-1" ""; managedNetwork "net-b" "net-2" ""; managedNetwork "net-c" "net-3" ""] in
  (errorHas "deleting network net-b" r = true ∧ deletedOk r = ["net-1"; "net-3"] ∧
   NetworkStatus_Name <$> remaining r = ["net-b"]) ∧
  let r := runDeleteNetwork (failingFor "managed-net-2" "api timeout")
    [managedNetwork "managed-a" "managed-net-1" ""; managedNetwork "managed-b" "managed-net-2" "";
     mkNetworkStatus "pre-existing-net" "pre-existing-net-uuid" "pre-existing-subnet-uuid" "" 0 false ""] in
  (errorHas "deleting network managed-b" r = true ∧ deletedOk r = ["managed-net-1"] ∧
   (λ ns, (NetworkStatus_Name ns, NetworkStatus_Managed ns)) <$> remaining r =
     [("managed-b", true); ("pre-existing-net", false)]).
Proof. by vm_compute. Qed.

Definition reconcilePreExisting (get : option (string → TW → Res Network * TW)) (l : list NetworkStatus) :=
  run reconcileNetwork (NewClusterScopeOpts
    [networks (MockNetworks (mkMockService None get None None));
     withNetworkSpecs [mkNetworkSpec "pre-existing-net" "pre-existing-uuid" "" 0 ""]; withNetworks l]).
Definition preExistingNetwork (zone : string) (l : list SubnetStub) : Network := mkNetwork "pre-existing-uuid" zone 0 l.

Example TestReconcileNetwork_PreExistingCachedShortCircuits :
  let r := reconcilePreExisting None
    [mkNetworkStatus "pre-existing-net" "pre-existing-uuid" "pre-existing-subnet-uuid" "10.0.0.0/24" 0 false ""] in
  succeeded r = true ∧
  (λ ns, (NetworkStatus_NetworkID ns, NetworkStatus_SubnetID ns)) <$> networkStatus "pre-existing-net" r =
    Some ("pre-existing-uuid", "pre-existing-subnet-uuid").
Proof. by vm_compute. Qed.

Example TestReconcileNetwork_PreExistingFetchesData :
  let found r := (λ ns, (NetworkStatus_NetworkID ns, NetworkStatus_SubnetID ns, NetworkStatus_CIDR ns, NetworkStatus_Managed ns))
                   <$> networkStatus (A:=Result) "pre-existing-net" r in
  found (reconcilePreExisting
    (Some (λ _, returns (preExistingNetwork "rma1" [mkSubnetStub "pre-existing-subnet-uuid" "192.168.0.0/24"])))
    [mkNetworkStatus "pre-existing-net" "pre-existing-uuid" "pre-existing-subnet-uuid" "" 0 false ""]) =
    Some ("pre-existing-uuid", "pre-existing-subnet-uuid", "192.168.0.0/24", false) ∧
  found (reconcilePreExisting
    (Some (λ _, returns (preExistingNetwork "rma1" [mkSubnetStub "discovered-subnet-uuid" ""]))) []) =
    Some ("pre-existing-uuid", "discovered-subnet-uuid", "", false).
Proof. by vm_compute. Qed.

Example TestReconcileNetwork_PreExistingGetError :
  errorHas "network not found" (reconcilePreExisting (Some (λ _, fails "network not found")) []) = true.
Proof. by vm_compute. Qed.

Example TestReconcileNetwork_PreExistingZoneMismatchErrors :
  let r := reconcilePreExisting
    (Some (λ _, returns (preExistingNetwork "lpg1" [mkSubnetStub "discovered-subnet-uuid" ""]))) [] in
  errorHas "lpg1" r = true ∧ errorHas "rma1" r = true ∧ networkStatus "pre-existing-net" r = None.
Proof. by vm_compute. Qed.

Example TestReconcileNetwork_PreExistingNoSubnetsErrors :
  errorHas "has no subnets" (reconcilePreExisting (Some (λ _, returns (preExistingNetwork "rma1" []))) []) = true.
Proof. by vm_compute. Qed.

Example TestReconcileNetwork_CreateTimeoutRequeues :
  let listed {A} := Some (λ _ : TagMap, returns ([] : list A)) in
  let r := run reconcileNetwork (NewClusterScopeOpts
    [networks (MockNetworks (mkMockService (Some (λ _, timesOut "Post")) None listed None)); subnets (MockSubnets noMock)]) in
  (fst r = Ok createNetworkTimeoutRequeueAfter) ∧
  let r := run reconcileNetwork (NewClusterScopeOpts
    [networks (MockNetworks (mkMockService (Some (λ _, returns (aNetwork "new-net-uuid"))) None listed None));
     subnets (MockSubnets (mkMockService (Some (λ _, timesOut "Post")) None listed None))]) in
  (fst r = Ok createNetworkTimeoutRequeueAfter ∧ kind_of <$> created r = [KNetwork; KSubnet]).
Proof. by vm_compute. Qed.

Example TestDeleteNetwork_RequeuesOnLBPoolMembersError :
  errorHas "network has pending dependencies"
    (runDeleteNetwork (λ _, fails "There are still one or more load balancer pool members in this network.")
       [managedNetwork "test" "net-with-pool-members" "subnet-uuid"]) = true.
Proof. by vm_compute. Qed.

(** ** Routers (cloudscalecluster_router_test.go) *)

Definition routerUUID : string := "router-uuid-123".
Definition ifaceUUID : string := "iface-uuid-123".
Definition routerAddress : string := "10.0.0.1".
Definition subnetUUID : string := "subnet-uuid-123".

Definition activeRouter (uuid : string) (interfaces : list RouterInterface) : Router :=
  mkRouter uuid "active" "rma1" interfaces.
Definition routerInterface (uuid address : string) : RouterInterface :=
  mkRouterInterface uuid netUUID [mkInterfaceAddress subnetUUID address].
Definition routerSpec : RouterSpec :=
  mkRouterSpec "test-router" "" true [mkRouterInterfaceSpec "test" "" routerAddress].
Definition managedInterfaces : list RouterInterfaceStatus := [mkRouterInterfaceStatus "test" ifaceUUID true].

Definition recordedEvents {A O} (r : Res A * St TW Event O) : list string :=
  omap (λ e, match e with
             | ERecorder etype reason _ note => Some (etype +:+ " " +:+ reason +:+ " " +:+ note)
             | _ => None
             end) (events r).
Definition attached {A O} (r : Res A * St TW Event O) : list (string * CreateInterfaceRequest) :=
  omap (λ e, match e with EInterfaceCreate router req _ => Some (router, req) | _ => None end) (events r).
Definition detached {A O} (r : Res A * St TW Event O) : list (string * string) :=
  omap (λ e, match e with EInterfaceDelete router iface (Ok _) => Some (router, iface) | _ => None end) (events r).
Definition routerStatus {A} (name : string) (r : Res A * CState) : option RouterStatus :=
  GetRouterStatus (status (after r)) name.
Definition condition {A} (t : string) (r : Res A * CState) : option (ConditionStatus * string) :=
  (λ c, (Condition_Status c, Condition_Reason c)) <$> conditionOf (after r) t.
Definition conditionMessage {A} (t : string) (r : Res A * CState) : string :=
  default "" (Condition_Message <$> conditionOf (after r) t).

Definition routers := WithRouterService (P:=test_platform).
Definition theNetwork := WithPreExistingNetwork (P:=test_platform) "test" netUUID subnetUUID "10.0.0.0/24".

Example TestReconcileRouters_CreatesRouterAndInterface :
  let r := run reconcileRouters (NewClusterScopeOpts
    [routers (MockRouters (mkMockRouterService
       (mkMockService (Some (λ _, returns (activeRouter routerUUID []))) None (Some (λ _, returns [])) None)
       (Some (λ _ _, returns (mkRouterInterface ifaceUUID "" []))) None));
     subnets (MockSubnets noMock); theNetwork; WithRouter routerSpec]) in
  succeeded r = true ∧
  match created r with
  | [CRouter req] =>
      RouterCreateRequest_Name req = "test-router" ∧ RouterCreateRequest_InternetGateway req = true ∧
      RouterCreateRequest_Zone req = "rma1" ∧
      map_to_list (RouterCreateRequest_Tags req) = [(NameCloudscaleProviderOwned +:+ "test-cluster", "test-router")]
  | _ => False
  end ∧
  attached r = [(routerUUID, mkCreateInterfaceRequest netUUID [mkInterfaceAddress subnetUUID "10.0.0.1"])] ∧
  routerStatus "test-router" r = Some (mkRouterStatus "test-router" routerUUID managedInterfaces true) ∧
  recordedEvents r =
    ["Normal RouterCreated Created router test-router (router-uuid-123) in zone rma1";
     "Normal RouterInterfaceCreated Attached router test-router to network test with address 10.0.0.1"].
Proof. by vm_compute. Qed.

(** One adopted router: what it is attached to, the interface the specification
    adopts, and the entries recorded before. *)
Definition adoptedScope (live : list RouterInterface) (adopt : string) (st : option (list RouterInterfaceStatus)) :=
  NewClusterScopeOpts
    ([routers (MockRouters (mkMockRouterService
       (mkMockService None (Some (λ id, returns (activeRouter id live))) None None)
       (Some (λ _ _, returns (mkRouterInterface ifaceUUID "" []))) None));
      subnets (MockSubnets noMock); WithAdoptedNetwork (P:=test_platform) "test" netUUID subnetUUID "10.0.0.0/24";
      WithRouter (mkRouterSpec "test-router" routerUUID false
        [if adopt == "" then mkRouterInterfaceSpec "test" "" routerAddress else mkRouterInterfaceSpec "test" adopt ""])] ++
     match st with Some ifs => [WithRouterStatus "test-router" routerUUID false ifs] | None => [] end).

(** Reconciling twice must give the same answer and the same entries. *)
Definition twice (cf : ClusterFixture) : (Res Result * CState) * (Res Result * CState) :=
  let r := run reconcileRouters cf in
  (r, run reconcileRouters (mkClusterFixture (cf_Cluster cf) (after r) (cf_Client cf))).

Definition ownershipTest (live : list RouterInterface) (adopt : string) (st : option (list RouterInterfaceStatus))
    (wantErr : string) (wantInterfaces : list RouterInterfaceStatus) (wantCreate : bool) (wantEvents : list string) : Prop :=
  let '(r, again) := twice (adoptedScope live adopt st) in
  (if wantErr == "" then succeeded r = true ∧ succeeded again = true
   else errorHas wantErr r = true ∧ errorHas wantErr again = true) ∧
  map fst (attached r) = (if wantCreate then [routerUUID] else []) ∧
  (λ rs, (RouterStatus_Managed rs, RouterStatus_Interfaces rs)) <$> routerStatus "test-router" r = Some (false, wantInterfaces) ∧
  recordedEvents r = wantEvents ∧
  RouterStatus_Interfaces <$> routerStatus "test-router" again = Some wantInterfaces.

Definition foreignInterface : RouterInterface := mkRouterInterface "foreign-iface-uuid" "foreign-net-uuid" [].
Definition preAttachedUUID : string := "pre-attached-iface-uuid".

Example TestReconcileRouters_AdoptedInterfaceOwnership :
  ownershipTest [foreignInterface] "" None "" managedInterfaces true
    ["Normal RouterInterfaceCreated Attached router test-router to network test with address 10.0.0.1"] ∧
  ownershipTest [routerInterface preAttachedUUID routerAddress] "" None
    "set spec.routers[].interfaces[].uuid to adopt that interface" [] false [] ∧
  ownershipTest [routerInterface preAttachedUUID "10.0.0.42"] "" None
    "set spec.routers[].interfaces[].uuid to adopt that interface" [] false [] ∧
  ownershipTest [routerInterface preAttachedUUID "10.0.0.42"] preAttachedUUID None ""
    [mkRouterInterfaceStatus "test" preAttachedUUID false] false [] ∧
  ownershipTest [foreignInterface] preAttachedUUID None
    ("has no interface " +:+ preAttachedUUID +:+ " to adopt") [] false [] ∧
  ownershipTest [foreignInterface] "foreign-iface-uuid" None
    ("is attached to network foreign-net-uuid, not to network " +:+ dquote +:+ "test" +:+ dquote) [] false [] ∧
  ownershipTest [routerInterface ifaceUUID routerAddress] "" (Some [mkRouterInterfaceStatus "test" "" true]) ""
    managedInterfaces false [] ∧
  ownershipTest [routerInterface "replacement-iface-uuid" "10.0.0.42"] "" (Some managedInterfaces) ""
    [mkRouterInterfaceStatus "test" "replacement-iface-uuid" true] false
    ["Warning RouterInterfaceAddressMismatch Router test-router is attached to network test at " +:+ quote "10.0.0.42"
       +:+ ", not at the requested " +:+ quote "10.0.0.1" +:+ ", which therefore has no effect"].
Proof. by vm_compute. Qed.

Example TestReconcileRouters_PreExistingZoneMismatchErrors :
  let r := run reconcileRouters (NewClusterScopeOpts
    [routers (MockRouters (mkMockRouterService
       (mkMockService None (Some (λ id, returns (mkRouter id "active" "lpg1" []))) None None) None None));
     theNetwork; WithRouter (mkRouterSpec "test-router" routerUUID false [mkRouterInterfaceSpec "test" "" routerAddress])]) in
  errorHas "expected zone" r = true ∧
  condition RouterReadyCondition r = Some (ConditionFalse, RouterErrorReason) ∧
  Contains (conditionMessage RouterReadyCondition r) "expected zone" = true.
Proof. by vm_compute. Qed.

Example TestReconcileRouters_AttachesMultipleInterfaces :
  let r := run reconcileRouters (NewClusterScopeOpts
    [routers (MockRouters (mkMockRouterService
       (mkMockService (Some (λ _, returns (activeRouter routerUUID []))) None (Some (λ _, returns [])) None)
       (Some (λ _ req, returns (mkRouterInterface ("iface-" +:+ CreateInterfaceRequest_Network req) "" []))) None));
     subnets (MockSubnets noMock); theNetwork;
     WithPreExistingNetwork (P:=test_platform) "transit" "transit-net-uuid" "transit-subnet-uuid" "10.9.0.0/24";
     WithRouter (mkRouterSpec "test-router" "" true
       [mkRouterInterfaceSpec "test" "" routerAddress; mkRouterInterfaceSpec "transit" "" "10.9.0.2"])]) in
  succeeded r = true ∧
  map snd (attached r) =
    [mkCreateInterfaceRequest netUUID [mkInterfaceAddress subnetUUID routerAddress];
     mkCreateInterfaceRequest "transit-net-uuid" [mkInterfaceAddress "transit-subnet-uuid" "10.9.0.2"]] ∧
  RouterStatus_Interfaces <$> routerStatus "test-router" r =
    Some [mkRouterInterfaceStatus "test" ("iface-" +:+ netUUID) true;
          mkRouterInterfaceStatus "transit" "iface-transit-net-uuid" true].
Proof. by vm_compute. Qed.

Example TestReconcileRouters_UnprovisionedNetworkErrors :
  let r := run reconcileRouters (NewClusterScopeOpts
    [routers (MockRouters (mkMockRouterService
       (mkMockService None (Some (λ id, returns (activeRouter id []))) None None) None None));
     theNetwork;
     WithRouter (mkRouterSpec "test-router" routerUUID false
       [mkRouterInterfaceSpec "not-provisioned-yet" "" routerAddress])]) in
  errorHas ("network " +:+ quote "not-provisioned-yet" +:+ " not found in status") r = true ∧ attached r = [].
Proof. by vm_compute. Qed.

Definition routerScope (svc : MockRouterService TW) (opts : list ClusterScopeOption) :=
  NewClusterScopeOpts ([routers (MockRouters svc); subnets (MockSubnets noMock); theNetwork] ++ opts).
Definition routerGet (f : string → TW → Res Router * TW) : MockRouterService TW :=
  mkMockRouterService (mkMockService None (Some f) None None) None None.

Example TestReconcileRouters_ConditionReflectsProgress :
  let r := run reconcileRouters (routerScope (mkMockRouterService noMock None None) []) in
  (fst r = Ok emptyResult ∧ condition RouterReadyCondition r = Some (ConditionTrue, RouterDisabledReason)) ∧
  let r := run reconcileRouters (routerScope (routerGet (λ id, returns (mkRouter id "unknown" "rma1" [])))
             [WithRouter routerSpec; WithRouterStatus "test-router" routerUUID true []]) in
  (match fst r with Ok res => 0 < RequeueAfter res | Err _ => False end ∧ attached r = [] ∧
   condition RouterReadyCondition r = Some (ConditionFalse, RouterNotReadyReason)) ∧
  let r := run reconcileRouters (routerScope (routerGet (λ id, returns (activeRouter id [routerInterface ifaceUUID routerAddress])))
             [WithRouter routerSpec; WithRouterStatus "test-router" routerUUID true managedInterfaces]) in
  (fst r = Ok emptyResult ∧ condition RouterReadyCondition r = Some (ConditionTrue, RouterProvisionedReason)).
Proof. by vm_compute. Qed.

Example TestReconcileRouters_TimeoutsRequeue :
  let r := run reconcileRouters (routerScope
    (mkMockRouterService (mkMockService (Some (λ _, timesOut "Post")) None (Some (λ _, returns [])) None) None None)
    [WithRouter routerSpec]) in
  (fst r = Ok routerRequeueAfter ∧ condition RouterReadyCondition r = Some (ConditionFalse, RouterNotReadyReason)) ∧
  let r := run reconcileRouters (routerScope
    (mkMockRouterService (mkMockService None (Some (λ id, returns (activeRouter id []))) None None)
       (Some (λ _ _, timesOut "Post")) None)
    [WithRouter routerSpec; WithRouterStatus "test-router" routerUUID true []]) in
  (fst r = Ok routerRequeueAfter ∧ condition RouterReadyCondition r = Some (ConditionFalse, RouterNotReadyReason) ∧
   RouterStatus_Interfaces <$> routerStatus "test-router" r = Some [mkRouterInterfaceStatus "test" "" true] ∧
   isInfrastructureProvisioned (after r) = false) ∧
  let r := run reconcileRouters (routerScope
    (routerGet (λ id, returns (activeRouter id [routerInterface ifaceUUID routerAddress])))
    [WithRouter routerSpec; WithRouterStatus "test-router" routerUUID true []; WithControlPlaneEndpoint]) in
  (fst r = Ok emptyResult ∧ condition RouterReadyCondition r = Some (ConditionTrue, RouterProvisionedReason) ∧
   RouterStatus_Interfaces <$> routerStatus "test-router" r = Some managedInterfaces ∧
   isInfrastructureProvisioned (after r) = true).
Proof. by vm_compute. Qed.

(** *** Deletion of routers *)

Definition withRouters (l : list RouterStatus) : ClusterScopeOption :=
  upd_cluster (upd_status (set_CloudscaleClusterStatus_Routers l)).
Definition remainingRouters {A} (r : Res A * CState) : list RouterStatus := CloudscaleClusterStatus_Routers (status (after r)).

(** A router service whose deletions succeed unless told otherwise. *)
Definition deletingRouters (get : option (string → TW → Res Router * TW)) (del : string → TW → Res unit * TW)
    (detach : option (string → string → TW → Res unit * TW)) : MockRouterService TW :=
  mkMockRouterService (mkMockService None get None (Some del)) None detach.
Definition attachedTo (interfaces : list RouterInterface) : option (string → TW → Res Router * TW) :=
  Some (λ id, returns (activeRouter id interfaces)).

Example TestDeleteRouters_DeletesManagedRouterAndInterfaces :
  let r := run deleteRouters (NewClusterScopeOpts
    [routers (MockRouters (deletingRouters (attachedTo [routerInterface ifaceUUID routerAddress]) (λ _, returns ())
       (Some (λ _ _, returns ()))));
     theNetwork; WithRouterStatus "test-router" routerUUID true managedInterfaces]) in
  succeeded r = true ∧ detached r = [(routerUUID, ifaceUUID)] ∧ deletedOk r = [routerUUID] ∧ remainingRouters r = [].
Proof. by vm_compute. Qed.

Example TestDeleteRouters_PreservesForeignInterfacesOnAdoptedRouter :
  let preAttached := mkRouterInterfaceStatus "shared" "pre-attached-iface-uuid" false in
  let r := run deleteRouters (NewClusterScopeOpts
    [routers (MockRouters (deletingRouters
       (attachedTo [routerInterface ifaceUUID routerAddress; mkRouterInterface "pre-attached-iface-uuid" "shared-net-uuid" []])
       (λ _, returns ()) (Some (λ _ _, returns ()))));
     WithAdoptedNetwork "shared" "shared-net-uuid" "shared-subnet-uuid" "10.1.0.0/24"; theNetwork;
     WithRouterStatus "shared-router" routerUUID false (managedInterfaces ++ [preAttached])]) in
  succeeded r = true ∧ map snd (detached r) = [ifaceUUID] ∧ deleteCalls r = [] ∧
  (λ rs, (RouterStatus_Name rs, RouterStatus_Managed rs, RouterStatus_Interfaces rs)) <$> remainingRouters r =
    [("shared-router", false, [preAttached])].
Proof. by vm_compute. Qed.

Definition resolves (get : string → TW → Res Router * TW) (interfaces : list RouterInterfaceStatus)
    (wantDetached : list string) : Prop :=
  let r := run deleteRouters (NewClusterScopeOpts
    [routers (MockRouters (deletingRouters (Some get) (λ _, returns ()) (Some (λ _ _, returns ()))));
     theNetwork; WithRouterStatus "test-router" routerUUID true interfaces]) in
  succeeded r = true ∧ map snd (detached r) = wantDetached ∧ remainingRouters r = [].

Example TestDeleteRouters_ResolvesInterfacesAgainstLiveRouter :
  resolves (λ id, returns (activeRouter id [routerInterface ifaceUUID routerAddress]))
    [mkRouterInterfaceStatus "test" "" true] [ifaceUUID] ∧
  resolves (λ id, returns (activeRouter id [])) [mkRouterInterfaceStatus "test" "" true] [] ∧
  resolves (λ id, returns (activeRouter id [])) managedInterfaces [] ∧
  resolves (λ _, responds 404) managedInterfaces [].
Proof. by vm_compute. Qed.

Definition deleteScenario (svc : MockRouterService TW) (l : list RouterStatus) : Res unit * CState :=
  run deleteRouters (NewClusterScopeOpts [routers (MockRouters svc); withRouters l]).
Definition deleteEnds (r : Res unit * CState) (wantErr : bool) (wantStatusLen : nat) : Prop :=
  succeeded r = negb wantErr ∧ length (remainingRouters r) = wantStatusLen ∧
  condition RouterReadyCondition r = Some (ConditionFalse, if wantErr then RouterErrorReason else RouterDeletingReason).

Example TestDeleteRouters_BasicScenarios :
  let r := deleteScenario (deletingRouters None (λ _, returns ()) None) [mkRouterStatus "test-router" "" [] true] in
  (deleteEnds r false 0 ∧ events r = []) ∧
  deleteEnds (deleteScenario (deletingRouters None (λ _, responds 404) None) [mkRouterStatus "test-router" routerUUID [] true])
    false 0 ∧
  deleteEnds (deleteScenario (deletingRouters None (λ _, fails "boom") None) [mkRouterStatus "test-router" routerUUID [] true])
    true 1 ∧
  let r := deleteScenario (deletingRouters (attachedTo [routerInterface ifaceUUID routerAddress]) (λ _, returns ())
             (Some (λ _ _, fails "boom"))) [mkRouterStatus "test-router" routerUUID managedInterfaces true] in
  (deleteEnds r true 1 ∧ deleteCalls r = []).
Proof. by vm_compute. Qed.

(** ** Load balancers (cloudscalecluster_loadbalancer_test.go) *)

Definition testLBUUID : string := "lb-uuid".
Definition testPoolUUID : string := "pool-uuid".
Definition testListenerUUID : string := "listener-uuid".
Definition testHMUUID : string := "hm-uuid".

Definition getting {Req T} (f : string → TW → Res T * TW) : MockService TW Req T := mkMockService None (Some f) None None.
(** Nothing is found, and a creation gives [x]. *)
Definition creating {Req T} (x : T) : MockService TW Req T :=
  mkMockService (Some (λ _, returns x)) None (Some (λ _, returns [])) None.

Definition lbs := WithLBService (P:=test_platform).
Definition pools := WithPoolService (P:=test_platform).
Definition listeners := WithListenerService (P:=test_platform).
Definition monitors := WithHMService (P:=test_platform).
Definition members := WithMemberService (P:=test_platform).

Definition memberMock (list_ : string → TW → Res (list LoadBalancerPoolMember) * TW) : MockLoadBalancerPoolMemberService TW :=
  mkMockLoadBalancerPoolMemberService None (Some list_) None None.

Definition newLBClusterScope (opts : list ClusterScopeOption) : ClusterFixture :=
  NewClusterScopeOpts
    ([WithLBEnabled true;
      lbs (MockLoadBalancers (getting (λ _, returns (mkLoadBalancer "lb-1" LoadBalancerRunningStatus []))));
      pools (MockLoadBalancerPools (getting (λ _, returns (mkLoadBalancerPool "pool-1"))));
      listeners (MockLoadBalancerListeners (getting (λ _, returns (mkLoadBalancerListener "listener-1"))));
      monitors (MockLoadBalancerHealthMonitors (getting (λ _, returns (mkLoadBalancerHealthMonitor "hm-1"))));
      members (MockLoadBalancerPoolMembers (memberMock (λ _, returns [])));
      WithPreExistingNetwork "test" "net-uuid" "subnet-uuid" "10.0.0.0/24"] ++ opts).

Definition upd_st (f : CloudscaleClusterStatus → CloudscaleClusterStatus) : ClusterScopeOption := upd_cluster (upd_status f).
Definition withLBID : ClusterScopeOption := upd_st (set_CloudscaleClusterStatus_LoadBalancerID testLBUUID).
Definition withPoolID : ClusterScopeOption := upd_st (set_CloudscaleClusterStatus_LoadBalancerPoolID testPoolUUID).
Definition withAllIDs : list ClusterScopeOption :=
  [withLBID; withPoolID; upd_st (set_CloudscaleClusterStatus_LoadBalancerListenerID testListenerUUID);
   upd_st (set_CloudscaleClusterStatus_LoadBalancerHealthMonitorID testHMUUID)].
Definition withMemberIDs (l : list string) : ClusterScopeOption := upd_st (set_CloudscaleClusterStatus_LoadBalancerMemberIDs l).
Definition lbServiceWithStatus (st : string) : ClusterScopeOption :=
  lbs (MockLoadBalancers (getting (λ _, returns (mkLoadBalancer "lb-uuid" st [])))).

Definition lbTest (flavor : string) : Prop :=
  let r := run reconcileLB (newLBClusterScope
    [lbs (MockLoadBalancers (creating (mkLoadBalancer "lb-uuid-123" LoadBalancerChangingStatus []))); WithFlavor flavor]) in
  succeeded r = true ∧ CloudscaleClusterStatus_LoadBalancerID (status (after r)) = "lb-uuid-123" ∧
  match created r with
  | [CLoadBalancer req] => LoadBalancerRequest_Name req = "test-cluster-cp-lb" ∧ LoadBalancerRequest_Zone req = "rma1" ∧
                           LoadBalancerRequest_Flavor req = flavor
  | _ => False
  end.
Example TestReconcileLB : lbTest "lb-standard" ∧ lbTest "lb-flex-2".
Proof. by vm_compute. Qed.

Definition poolTest (algorithm : string) : Prop :=
  let r := run reconcileLBPool (newLBClusterScope
    [pools (MockLoadBalancerPools (creating (mkLoadBalancerPool "pool-uuid-123"))); WithAlgorithm algorithm; withLBID]) in
  succeeded r = true ∧ CloudscaleClusterStatus_LoadBalancerPoolID (status (after r)) = "pool-uuid-123" ∧
  match created r with
  | [CPool req] => LoadBalancerPoolRequest_Name req = "test-cluster-cp-pool" ∧
                   LoadBalancerPoolRequest_LoadBalancer req = testLBUUID ∧
                   LoadBalancerPoolRequest_Algorithm req = algorithm ∧ LoadBalancerPoolRequest_Protocol req = "tcp"
  | _ => False
  end.
Example TestReconcileLBPool : poolTest "round_robin" ∧ poolTest "least_connections".
Proof. by vm_compute. Qed.

Definition listenerTest (port : Z) : Prop :=
  let r := run reconcileLBListener (newLBClusterScope
    [listeners (MockLoadBalancerListeners (creating (mkLoadBalancerListener "listener-uuid-123"))); WithAPIServerPort port;
     withPoolID]) in
  succeeded r = true ∧ CloudscaleClusterStatus_LoadBalancerListenerID (status (after r)) = "listener-uuid-123" ∧
  match created r with
  | [CListener req] => LoadBalancerListenerRequest_Name req = "test-cluster-cp-listener" ∧
                       LoadBalancerListenerRequest_Pool req = testPoolUUID ∧
                       LoadBalancerListenerRequest_Protocol req = "tcp" ∧ LoadBalancerListenerRequest_ProtocolPort req = port
  | _ => False
  end.
Example TestReconcileLBListener : listenerTest 6443 ∧ listenerTest 8443.
Proof. by vm_compute. Qed.

Definition monitorTest (delayS timeoutS upThreshold downThreshold : Z) : Prop :=
  let r := run reconcileLBHealthMonitor (newLBClusterScope
    [monitors (MockLoadBalancerHealthMonitors (creating (mkLoadBalancerHealthMonitor "hm-uuid-123")));
     WithHealthMonitorParams delayS timeoutS upThreshold downThreshold; withPoolID]) in
  succeeded r = true ∧ CloudscaleClusterStatus_LoadBalancerHealthMonitorID (status (after r)) = "hm-uuid-123" ∧
  match created r with
  | [CHealthMonitor req] =>
      LoadBalancerHealthMonitorRequest_Pool req = testPoolUUID ∧ LoadBalancerHealthMonitorRequest_Type req = "tcp" ∧
      LoadBalancerHealthMonitorRequest_DelayS req = delayS ∧ LoadBalancerHealthMonitorRequest_TimeoutS req = timeoutS ∧
      LoadBalancerHealthMonitorRequest_UpThreshold req = upThreshold ∧
      LoadBalancerHealthMonitorRequest_DownThreshold req = downThreshold
  | _ => False
  end.
Example TestReconcileLBHealthMonitor : monitorTest 5 3 2 3 ∧ monitorTest 10 5 3 5.
Proof. by vm_compute. Qed.

(** The answer of [reconcileLoadBalancer]: its requeue in nanoseconds and readiness. *)
Definition lbAnswer (r : Res (lbStatus * Result) * CState) : option (Z * bool) :=
  match fst r with Ok (st, res) => Some (RequeueAfter res, lb_ready st) | Err _ => None end.

Example TestReconcileLoadBalancer_SkipsWhenDisabled :
  let r := run reconcileLoadBalancer (newLBClusterScope [WithLBEnabled false; lbs (MockLoadBalancers noMock)]) in
  lbAnswer r = Some (0, true) ∧ events r = [].
Proof. by vm_compute. Qed.

Example TestReconcileLoadBalancer_ChangingStatusBlocksAndRequeues :
  lbAnswer (run reconcileLoadBalancer (newLBClusterScope [lbServiceWithStatus LoadBalancerChangingStatus; withLBID])) =
    Some (10 * Second, false).
Proof. by vm_compute. Qed.

Example TestReconcileLoadBalancer_ErrorStatusProceedsWithMemberReconciliation :
  let r := run reconcileLoadBalancer (newLBClusterScope (lbServiceWithStatus "error" :: withAllIDs)) in
  lbAnswer r = Some (0, false) ∧
  condition LoadBalancerReadyCondition r = Some (ConditionFalse, LoadBalancerNotReadyReason).
Proof. by vm_compute. Qed.

Example TestReconcileLoadBalancer_DegradedStatusProceedsWithMemberReconciliation :
  let r := run reconcileLoadBalancer (newLBClusterScope
    ([lbServiceWithStatus "degraded";
      members (MockLoadBalancerPoolMembers (mkMockLoadBalancerPoolMemberService None
        (Some (λ _, returns [mkLoadBalancerPoolMember "stale-uuid" "stale-cp-0" "10.0.0.10" 0 ""]))
        (Some (λ _ _, returns ())) None))] ++ withAllIDs)) in
  lbAnswer r = Some (0, false) ∧
  omap (λ e, match e with EMemberDelete _ m _ => Some m | _ => None end) (events r) = ["stale-uuid"] ∧
  condition LoadBalancerReadyCondition r = Some (ConditionFalse, LoadBalancerNotReadyReason).
Proof. by vm_compute. Qed.

Example TestReconcileLoadBalancer_ErrorStatusMessageNamesDownMembers :
  let r := run reconcileLoadBalancer (newLBClusterScope
    ([lbServiceWithStatus "error";
      members (MockLoadBalancerPoolMembers (memberMock
        (λ _, returns [mkLoadBalancerPoolMember "cp-uuid" "cp-0" "10.0.0.110" 6443 "down"])))] ++ withAllIDs)) in
  succeeded r = true ∧
  condition LoadBalancerReadyCondition r = Some (ConditionFalse, LoadBalancerNotReadyReason) ∧
  Contains (conditionMessage LoadBalancerReadyCondition r) "error" = true ∧
  Contains (conditionMessage LoadBalancerReadyCondition r) "cp-0@10.0.0.110:6443" = true.
Proof. by vm_compute. Qed.

Example TestReconcileLoadBalancer_ObservesVIPAndRunning :
  let r := run reconcileLoadBalancer (newLBClusterScope
    (lbs (MockLoadBalancers (getting (λ id, returns (mkLoadBalancer id LoadBalancerRunningStatus ["203.0.113.10"])))) :: withAllIDs)) in
  fst r = Ok (mkLbStatus "203.0.113.10" true, emptyResult) ∧
  APIEndpoint_Host (CloudscaleClusterSpec_ControlPlaneEndpoint (spec (after r))) = "".
Proof. by vm_compute. Qed.

Definition deleteLBTest (enabled : bool) (answer : TW → Res unit * TW) : Res unit * CState :=
  run deleteLoadBalancer (newLBClusterScope
    ([WithLBEnabled enabled; lbs (MockLoadBalancers (mkMockService None None None (Some (λ _, answer))));
      pools (MockLoadBalancerPools noMock); listeners (MockLoadBalancerListeners noMock);
      monitors (MockLoadBalancerHealthMonitors noMock); withMemberIDs ["member-1"; "member-2"]] ++ withAllIDs)).
Definition lbCleared (r : Res unit * CState) : Prop :=
  succeeded r = true ∧ deleteCalls r = [testLBUUID] ∧
  let st := status (after r) in
  CloudscaleClusterStatus_LoadBalancerID st = "" ∧ CloudscaleClusterStatus_LoadBalancerPoolID st = "" ∧
  CloudscaleClusterStatus_LoadBalancerListenerID st = "" ∧ CloudscaleClusterStatus_LoadBalancerHealthMonitorID st = "" ∧
  CloudscaleClusterStatus_LoadBalancerMemberIDs st = [].
Example TestDeleteLoadBalancer :
  (let r := deleteLBTest false (returns ()) in
   succeeded r = true ∧ events r = [] ∧ CloudscaleClusterStatus_LoadBalancerID (status (after r)) = testLBUUID) ∧
  lbCleared (deleteLBTest true (returns ())) ∧ lbCleared (deleteLBTest true (responds 404)).
Proof. by vm_compute. Qed.

(** *** Members *)

Definition cpMachine (name : string) (addresses : list MachineAddress) : CloudscaleMachine :=
  mkCloudscaleMachine (CloudscaleMachine_Meta (NewControlPlaneMachine name ""))
    (CloudscaleMachine_Spec (NewControlPlaneMachine name "")) (mkCloudscaleMachineStatus None "" addresses "" []).
Definition internal (ip : string) : MachineAddress := mkMachineAddress MachineInternalIP ip.

(** The members that the mock lists, and calls of the other functions succeed. *)
Definition pool_ (current : list LoadBalancerPoolMember) : ClusterScopeOption :=
  members (MockLoadBalancerPoolMembers (mkMockLoadBalancerPoolMemberService
    (Some (λ _ req, returns (mkLoadBalancerPoolMember "new-member-uuid" (LoadBalancerPoolMemberRequest_Name req)
                               (LoadBalancerPoolMemberRequest_Address req) 0 "")))
    (Some (λ _, returns current)) (Some (λ _ _, returns ())) (Some (λ _ _ _, returns ())))).
Definition memberOf (uuid name ip : string) : LoadBalancerPoolMember := mkLoadBalancerPoolMember uuid name ip 0 "".

Definition membersTest (current : list LoadBalancerPoolMember) (ids : list string) (ms : list CloudscaleMachine) :=
  runOn reconcileLBMembers (map FakeMachine ms) (newLBClusterScope [pool_ current; withPoolID; withMemberIDs ids]).
Definition memberIDs {A} (r : Res A * CState) : list string := CloudscaleClusterStatus_LoadBalancerMemberIDs (status (after r)).

(** What the calls that change members were given: name and address, or the identifier. *)
Definition memberCalls {A} (r : Res A * CState) : list (string * string) :=
  omap (λ e, match e with
    | EMemberCreate _ req _ => Some (LoadBalancerPoolMemberRequest_Name req, LoadBalancerPoolMemberRequest_Address req)
    | EMemberUpdate _ m req _ => Some (m, LoadBalancerPoolMemberRequest_Address req)
    | EMemberDelete _ m _ => Some (m, "")
    | _ => None
    end) (events r).

Example TestReconcileLBMembers_AddsMissingMember :
  let r := membersTest [] [] [cpMachine "cp-machine-1" [internal "10.0.0.1"]] in
  succeeded r = true ∧ memberCalls r = [("cp-machine-1", "10.0.0.1")] ∧ memberIDs r = ["new-member-uuid"].
Proof. by vm_compute. Qed.

Example TestReconcileLBMembers_RemovesStaleMember :
  let r := membersTest [memberOf "stale-member-uuid" "removed-machine" "10.0.0.99"] ["stale-member-uuid"] [] in
  succeeded r = true ∧ memberCalls r = [("stale-member-uuid", "")] ∧ memberIDs r = [].
Proof. by vm_compute. Qed.

Example TestReconcileLBMembers_UpdatesChangedAddress :
  let r := membersTest [memberOf "member-uuid-1" "cp-machine-1" "10.0.0.1"] ["member-uuid-1"]
             [cpMachine "cp-machine-1" [internal "10.0.0.2"]] in
  succeeded r = true ∧ memberCalls r = [("member-uuid-1", "10.0.0.2")].
Proof. by vm_compute. Qed.

Example TestReconcileLBMembers_NoopWhenInSync :
  let r := membersTest [memberOf "member-uuid-1" "cp-machine-1" "10.0.0.1"] ["member-uuid-1"]
             [cpMachine "cp-machine-1" [internal "10.0.0.1"]] in
  succeeded r = true ∧ memberCalls r = [].
Proof. by vm_compute. Qed.

(** Names and addresses of the desired members *)
Definition desired (ms : list CloudscaleMachine) (opts : list ClusterScopeOption) : option (list (string * string)) :=
  match fst (runOn getDesiredLoadBalancerMembers (map FakeMachine ms) (newLBClusterScope opts)) with
  | Ok l => Some (map (λ m, (LoadBalancerPoolMemberRequest_Name m, LoadBalancerPoolMemberRequest_Address m)) l)
  | Err _ => None
  end.

Example TestGetDesiredLoadBalancerMembers_SkipsMachinesWithoutIP :
  desired [cpMachine "cp-machine-1" [internal "10.0.0.1"]; cpMachine "cp-machine-2" []] [] =
    Some [("cp-machine-1", "10.0.0.1")].
Proof. by vm_compute. Qed.

Example TestGetDesiredLoadBalancerMembers_NoMachines : desired [] [] = Some [].
Proof. by vm_compute. Qed.

Example TestGetDesiredLoadBalancerMembers_PicksAddressInMemberSubnet :
  desired [cpMachine "cp-machine-1" [internal "192.168.1.5"; internal "10.0.0.15";
             mkMachineAddress MachineExternalIP "185.1.2.3"]]
    [withNetworkSpecs [mkNetworkSpec "main" "" "10.0.0.0/24" 0 ""];
     withNetworks [mkNetworkStatus "main" "net-uuid" "subnet-uuid" "10.0.0.0/24" 0 true ""]] =
    Some [("cp-machine-1", "10.0.0.15")].
Proof. by vm_compute. Qed.

Example TestCreateLoadBalancerMember_AppendsToStatus :
  let r := run (λ sc, createLoadBalancerMember sc (mkLoadBalancerPoolMemberRequest "cp-machine-1" "" 0 "10.0.0.1" None))
             (newLBClusterScope [pool_ []; withPoolID; withMemberIDs ["existing-uuid"]]) in
  succeeded r = true ∧ memberIDs r = ["existing-uuid"; "new-member-uuid"].
Proof. by vm_compute. Qed.

Example TestDeleteLoadBalancerMember_RemovesFromStatus :
  let r := run (λ sc, deleteLoadBalancerMember sc (memberOf "remove-uuid" "cp-machine-old" ""))
             (newLBClusterScope [pool_ []; withPoolID; withMemberIDs ["keep-uuid"; "remove-uuid"]]) in
  succeeded r = true ∧ memberIDs r = ["keep-uuid"].
Proof. by vm_compute. Qed.

Definition poolMemberSubnet (network poolMemberNetwork : string) : Res string :=
  getPoolMemberSubnetID (cf_CloudscaleCluster (newLBClusterScope
    [withNetworkSpecs [mkNetworkSpec "vip" "" "10.0.0.0/24" 0 ""; mkNetworkSpec "nodes" "" "10.1.0.0/24" 0 ""];
     withNetworks [mkNetworkStatus "vip" "net-vip" "subnet-vip" "10.0.0.0/24" 0 true "";
                   mkNetworkStatus "nodes" "net-nodes" "subnet-nodes" "10.1.0.0/24" 0 true ""];
     upd_lbspec (λ lb, mkLoadBalancerSpec (LoadBalancerSpec_Enabled lb) (LoadBalancerSpec_Algorithm lb)
       (LoadBalancerSpec_Flavor lb) (LoadBalancerSpec_APIServerPort lb) network poolMemberNetwork
       (LoadBalancerSpec_HealthMonitor lb))])).
Example TestGetPoolMemberSubnetID :
  poolMemberSubnet "vip" "nodes" = Ok "subnet-nodes" ∧ poolMemberSubnet "" "nodes" = Ok "subnet-nodes" ∧
  poolMemberSubnet "vip" "" = Ok "subnet-vip" ∧ poolMemberSubnet "" "" = Ok "subnet-vip" ∧
  match poolMemberSubnet "" "missing" with Err e => Contains (Error e) "not yet provisioned" = true | Ok _ => False end.
Proof. by vm_compute. Qed.
