(* ===== verification/FloatingIPTests.v ===== *)
(** * The unit tests of the floating IP and of the cluster's server groups

    cloudscalecluster_floatingip_test.go and cloudscalecluster_servergroup_test.go, run
    on the model with the platform of the file UnitTests. *)

From S2P Require Export UnitTests.

#[local] Open Scope Z_scope.

(** ** Floating IPs *)

Definition fips := WithFloatingIPService (P:=test_platform).
Definition newFIPTestClusterScope (svc : MockFloatingIPService TW) (opts : list ClusterScopeOption) : ClusterFixture :=
  NewClusterScopeOpts ([WithLBEnabled true; fips (MockFloatingIPs svc)] ++ opts).

Definition noFIPMock : MockFloatingIPService TW := mkMockFloatingIPService noMock None.
(** Reads and updates of the address answer so. *)
Definition fipMock (get_ : TW → Res FloatingIP * TW) (update : TW → Res unit * TW) : MockFloatingIPService TW :=
  mkMockFloatingIPService (getting (λ _, get_)) (Some (λ _ _, update)).
(** Nothing is found, and a creation answers so. *)
Definition fipCreating (answer : TW → Res FloatingIP * TW) : MockFloatingIPService TW :=
  mkMockFloatingIPService (mkMockService (Some (λ _, answer)) None (Some (λ _, returns [])) None) None.

Definition fipAt (ip : string) (region lb server : option string) : FloatingIP := mkFloatingIP ip region lb server.
Definition withFIPSpec (sp : option FloatingIPSpec) : ClusterScopeOption :=
  upd_cluster (upd_spec (set_CloudscaleClusterSpec_FloatingIP sp)).
Definition withFIP (ip : string) : ClusterScopeOption := upd_st (set_CloudscaleClusterStatus_FloatingIP ip).
Definition withLB (id : string) : ClusterScopeOption := upd_st (set_CloudscaleClusterStatus_LoadBalancerID id).
Definition preExisting (ip : string) : ClusterScopeOption := withFIPSpec (Some (mkFloatingIPSpec None ip)).
Definition fipOf_ {A} (r : Res A * CState) : string := CloudscaleClusterStatus_FloatingIP (status (after r)).
Definition fipUpdates {A} (r : Res A * CState) : list (string * FloatingIPUpdateRequest) :=
  omap (λ e, match e with EFloatingIPUpdate ip req _ => Some (ip, req) | _ => None end) (events r).

Example TestReconcileFloatingIP_Disabled :
  let r := run reconcileFloatingIP (newFIPTestClusterScope noFIPMock []) in
  succeeded r = true ∧ condition FloatingIPReadyCondition r = Some (ConditionTrue, FloatingIPDisabledReason).
Proof. by vm_compute. Qed.

Example TestReconcileFloatingIP_PreExisting :
  let r := run reconcileFloatingIP (newFIPTestClusterScope
    (fipMock (returns (fipAt "1.2.3.4" None None None)) (returns ())) [preExisting "1.2.3.4"]) in
  succeeded r = true ∧ fipOf_ r = "1.2.3.4" ∧
  condition FloatingIPReadyCondition r = Some (ConditionTrue, FloatingIPProvisionedReason).
Proof. by vm_compute. Qed.

Example TestReconcileFloatingIP_ErrorSetsConditionFalse :
  let r := run reconcileFloatingIP (newFIPTestClusterScope
    (fipMock (fails "api error") (returns ())) [preExisting "1.2.3.4"]) in
  succeeded r = false ∧ condition FloatingIPReadyCondition r = Some (ConditionFalse, FloatingIPErrorReason).
Proof. by vm_compute. Qed.

(** *** An address that is there already *)

Definition preExistingTest (opts : list ClusterScopeOption) (objs : list FakeObject) (get_ : TW → Res FloatingIP * TW) :=
  runOn (λ sc, reconcilePreExistingFloatingIP sc "7.7.7.7") objs (newFIPTestClusterScope (fipMock get_ (returns ())) opts).
Definition cpServer (name server : string) : FakeObject := FakeMachine (NewControlPlaneMachine name server).

Example TestReconcilePreExistingFloatingIP :
  (let r := preExistingTest [withFIP "1.2.3.4"; withLB "lb-uuid"] []
              (returns (fipAt "1.2.3.4" None (Some "lb-uuid") None)) in
   succeeded r = true ∧ fipUpdates r = [] ∧ events r = [EGet KFloatingIP "7.7.7.7" (Ok ())]) ∧
  (let r := preExistingTest [withLB "lb-x"] [] (returns (fipAt "5.6.7.8" None None None)) in
   succeeded r = true ∧ fipOf_ r = "5.6.7.8" ∧ fipUpdates r = [("5.6.7.8", mkFloatingIPUpdateRequest "lb-x" "")]) ∧
  errorHas "getting pre-existing floating IP" (preExistingTest [] [] (fails "not found")) = true ∧
  (let r := preExistingTest [withLB "lb-rma"] [] (returns (fipAt "1.2.3.4" (Some "rma") None None)) in
   succeeded r = true ∧ fipOf_ r = "1.2.3.4" ∧ fipUpdates r = [("1.2.3.4", mkFloatingIPUpdateRequest "lb-rma" "")]) ∧
  (let r := preExistingTest [WithLBEnabled false] [cpServer "cp-machine-0" "srv-x"]
              (returns (fipAt "1.2.3.4" None None None)) in
   succeeded r = true ∧ fipUpdates r = [("1.2.3.4", mkFloatingIPUpdateRequest "" "srv-x")]) ∧
  (let r := preExistingTest [] [] (returns (fipAt "9.9.9.9" None None None)) in
   succeeded r = true ∧ fipOf_ r = "9.9.9.9").
Proof. by vm_compute. Qed.

Example TestReconcileFloatingIP_RegionMismatchErrors :
  let r := run reconcileFloatingIP (newFIPTestClusterScope
    (fipMock (returns (fipAt "1.2.3.4" (Some "lpg") None None)) (returns ())) [preExisting "1.2.3.4"]) in
  errorHas "lpg" r = true ∧ errorHas "rma" r = true ∧ fipOf_ r = "" ∧
  condition FloatingIPReadyCondition r = Some (ConditionFalse, FloatingIPErrorReason).
Proof. by vm_compute. Qed.

Example TestReconcileFloatingIP_NoPublicInterfaceSetsConditionAndEvent :
  let r := runOn reconcileFloatingIP [cpServer "cp-0" "server-uuid"] (newFIPTestClusterScope
    (fipMock (returns (fipAt "1.2.3.4" (Some "rma") None None))
       (λ w, (Err (ErrorResponse 400 "This server does not have a public interface with an IPv4 address."), w)))
    [WithLBEnabled false; preExisting "1.2.3.4"; withFIP "1.2.3.4"]) in
  errorHas "public interface" r = true ∧ errorHas "control-plane machine template" r = true ∧
  condition FloatingIPReadyCondition r = Some (ConditionFalse, FloatingIPErrorReason).
Proof. by vm_compute. Qed.

(** *** An address that the controller creates *)

Definition managed (family : option string) (svc : MockFloatingIPService TW) (opts : list ClusterScopeOption) :=
  run (λ sc, reconcileManagedFloatingIP sc (mkFloatingIPSpec family "")) (newFIPTestClusterScope svc opts).

Example TestReconcileManagedFloatingIP_ExistingFIPEnsuresAssignment :
  let r := managed None (mkMockFloatingIPService (getting (λ _, returns (fipAt "10.0.0.1" None (Some "lb-uuid") None))) None)
             [withFIP "10.0.0.1"; withLB "lb-uuid"] in
  succeeded r = true ∧ fipOf_ r = "10.0.0.1".
Proof. by vm_compute. Qed.

Definition fipRequest {A} (r : Res A * CState) : option (Z * string * string * string) :=
  match created r with
  | [CFloatingIP q] => Some (FloatingIPCreateRequest_IPVersion q, FloatingIPCreateRequest_Region q,
                             FloatingIPCreateRequest_LoadBalancer q, FloatingIPCreateRequest_Server q)
  | _ => None
  end.

Example TestReconcileManagedFloatingIP_CreatesIPv4 :
  let r := managed None (fipCreating (returns (fipAt "1.2.3.4" None None None))) [withLB "lb-uuid"] in
  succeeded r = true ∧ fipRequest r = Some (4, "rma", "lb-uuid", "") ∧ fipOf_ r = "1.2.3.4".
Proof. by vm_compute. Qed.

Example TestReconcileManagedFloatingIP_CreatesIPv6 :
  let r := managed (Some IPFamilyIPv6) (fipCreating (returns (fipAt "2001:db8::1" None None None))) [withLB "lb-uuid"] in
  succeeded r = true ∧ fipRequest r = Some (6, "rma", "lb-uuid", "").
Proof. by vm_compute. Qed.

Example TestReconcileManagedFloatingIP_CreateError :
  errorHas "creating floating IP" (managed None (fipCreating (fails "quota exceeded")) [withLB "lb-uuid"]) = true.
Proof. by vm_compute. Qed.

Example TestReconcileManagedFloatingIP_AssignsToLBTarget :
  fipRequest (managed None (fipCreating (returns (fipAt "1.2.3.4" None None None))) [withLB "target-lb-uuid"]) =
    Some (4, "rma", "target-lb-uuid", "").
Proof. by vm_compute. Qed.

Example TestReconcileManagedFloatingIP_CreateTimeoutRequeues :
  fst (managed None (fipCreating (timesOut "Post")) [withLB "lb-uuid"]) = Ok (requeue 5).
Proof. by vm_compute. Qed.

(** *** Targets and assignments *)

Definition target (objs : list FakeObject) (opts : list ClusterScopeOption) :=
  runOn getFloatingIPTarget objs (newFIPTestClusterScope noFIPMock opts).

Example TestGetFloatingIPTarget_LBEnabled : fst (target [] [withLB "lb-uuid"]) = Ok (mkFloatingIPTarget "lb-uuid" "").
Proof. by vm_compute. Qed.
Example TestGetFloatingIPTarget_LBNotProvisioned : errorHas "waiting for load balancer" (target [] []) = true.
Proof. by vm_compute. Qed.
Example TestGetFloatingIPTarget_LBDisabled_FindsCPServer :
  fst (target [cpServer "cp-machine-0" "cp-server-uuid"] [WithLBEnabled false]) = Ok (mkFloatingIPTarget "" "cp-server-uuid").
Proof. by vm_compute. Qed.
Example TestGetFloatingIPTarget_LBDisabled_NoCPServer :
  errorHas "waiting for a control plane server to be provisioned" (target [] [WithLBEnabled false]) = true.
Proof. by vm_compute. Qed.

Definition assignment (opts : list ClusterScopeOption) (objs : list FakeObject) (fip : FloatingIP)
    (update : TW → Res unit * TW) :=
  runOn (λ sc, ensureFloatingIPAssignment sc fip) objs
    (newFIPTestClusterScope (mkMockFloatingIPService noMock (Some (λ _ _, update))) opts).

Example TestEnsureFloatingIPAssignment :
  (let r := assignment [] [] (fipAt "1.2.3.4" None None None) (returns ()) in
   succeeded r = true ∧ fipUpdates r = []) ∧
  (let r := assignment [withLB "lb-uuid"] [] (fipAt "1.2.3.4" None (Some "lb-uuid") None) (returns ()) in
   succeeded r = true ∧ fipUpdates r = []) ∧
  (let r := assignment [withLB "new-lb-uuid"; withFIP "1.2.3.4"] [] (fipAt "1.2.3.4" None (Some "old-lb-uuid") None)
              (returns ()) in
   succeeded r = true ∧ fipUpdates r = [("1.2.3.4", mkFloatingIPUpdateRequest "new-lb-uuid" "")]) ∧
  (let r := assignment [WithLBEnabled false; withFIP "1.2.3.4"] [cpServer "cp-machine-0" "srv-new"]
              (fipAt "1.2.3.4" None None (Some "srv-old")) (returns ()) in
   succeeded r = true ∧ fipUpdates r = [("1.2.3.4", mkFloatingIPUpdateRequest "" "srv-new")]) ∧
  errorHas "updating floating IP assignment"
    (assignment [withLB "lb-uuid"; withFIP "1.2.3.4"] [] (fipAt "1.2.3.4" None None None) (fails "update failed")) = true.
Proof. by vm_compute. Qed.

(** *** Deletion *)

Definition deleteFIPTest (sp : option FloatingIPSpec) (ip : string) (answer : TW → Res unit * TW) :=
  run deleteFloatingIP (newFIPTestClusterScope
    (mkMockFloatingIPService (mkMockService None None None (Some (λ _, answer))) None) [withFIPSpec sp; withFIP ip]).
Definition managedSpec : option FloatingIPSpec := Some (mkFloatingIPSpec None "").

Example TestDeleteFloatingIP :
  (let r := deleteFIPTest None "" (returns ()) in succeeded r = true ∧ events r = []) ∧
  (let r := deleteFIPTest (Some (mkFloatingIPSpec None "9.9.9.9")) "" (returns ()) in
   succeeded r = true ∧ events r = [] ∧ condition FloatingIPReadyCondition r = None) ∧
  (let r := deleteFIPTest managedSpec "1.2.3.4" (returns ()) in
   succeeded r = true ∧ deleteCalls r = ["1.2.3.4"] ∧ fipOf_ r = "") ∧
  (let r := deleteFIPTest managedSpec "" (returns ()) in succeeded r = true ∧ deleteCalls r = []) ∧
  (let r := deleteFIPTest managedSpec "1.2.3.4" (responds 404) in
   succeeded r = true ∧ deleteCalls r = ["1.2.3.4"] ∧ fipOf_ r = "") ∧
  (let r := deleteFIPTest managedSpec "1.2.3.4" (fails "api error") in
   errorHas "deleting floating IP" r = true ∧ deleteCalls r = ["1.2.3.4"] ∧
   condition FloatingIPReadyCondition r = Some (ConditionFalse, FloatingIPErrorReason)).
Proof. by vm_compute. Qed.

(** ** Server groups of the cluster *)

Definition groups (listed : TW → Res (list ServerGroup) * TW) (deletion : TW → Res unit * TW) : ClusterScopeOption :=
  WithServerGroupService (P:=test_platform)
    (MockServerGroups (mkMockService None None (Some (λ _, listed)) (Some (λ _, deletion)))).
Definition aGroup (id name : string) (servers : list string) : ServerGroup := mkServerGroup id name "" servers.
Definition deleteGroups (objs : list FakeObject) (listed : TW → Res (list ServerGroup) * TW)
    (deletion : TW → Res unit * TW) :=
  runOn deleteServerGroups objs (NewClusterScopeOpts [groups listed deletion]).

(** A machine of the cluster with a server, without the control plane's label. *)
Definition workerServer (name server : string) : FakeObject :=
  FakeMachine (mkCloudscaleMachine (mkObjectMeta name "default" {[ ClusterNameLabel := "test-cluster" ]} [] None)
    (CloudscaleMachine_Spec (NewControlPlaneMachine name server)) (CloudscaleMachine_Status (NewControlPlaneMachine name server))).

Example TestDeleteServerGroups_DeletesAll :
  let r := deleteGroups [] (returns [aGroup "sg-1" "group-1" []; aGroup "sg-2" "group-2" []]) (returns ()) in
  succeeded r = true ∧ deletedOk r = ["sg-1"; "sg-2"].
Proof. by vm_compute. Qed.
Example TestDeleteServerGroups_NoGroups_Noop :
  let r := deleteGroups [] (returns []) (returns ()) in succeeded r = true ∧ deleteCalls r = [].
Proof. by vm_compute. Qed.
Example TestDeleteServerGroups_ListError_PropagatesError :
  errorHas "listing server groups" (deleteGroups [] (fails "api error") (returns ())) = true.
Proof. by vm_compute. Qed.
Example TestDeleteServerGroups_DeleteError_PropagatesError :
  errorHas "deleting server group" (deleteGroups [] (returns [aGroup "sg-1" "group-1" []]) (fails "delete failed")) = true.
Proof. by vm_compute. Qed.
Example TestDeleteServerGroups_Ignores404 :
  succeeded (deleteGroups [] (returns [aGroup "sg-already-deleted" "group-1" []]) (responds 404)) = true.
Proof. by vm_compute. Qed.
Example TestDeleteServerGroups_OwnedServerPresent_SkipsDeletion :
  let r := deleteGroups [workerServer "machine-1" "server-123"] (returns [aGroup "sg-1" "group-1" ["server-123"]]) (returns ()) in
  errorHas "server group still contains owned servers" r = true ∧ deleteCalls r = [].
Proof. by vm_compute. Qed.
Example TestDeleteServerGroups_ForeignServers_Skips :
  let r := deleteGroups [workerServer "machine-1" "server-123"] (returns [aGroup "sg-foreign" "foreign-group" ["server-999"]])
             (returns ()) in
  succeeded r = true ∧ deleteCalls r = [].
Proof. by vm_compute. Qed.
Example TestDeleteServerGroups_EmptyGroupName_DoesNotSkip :
  let r := deleteGroups [] (returns [aGroup "sg-empty" "empty-group" []]) (returns ()) in
  succeeded r = true ∧ deletedOk r = ["sg-empty"].
Proof. by vm_compute. Qed.
