(* ===== verification/MachineTests.v ===== *)
(** * The unit tests of the machine's server and server group

    cloudscalemachine_server_test.go and cloudscalemachine_servergroup_test.go, run on
    the model with the platform of the file UnitTests. *)

From S2P Require Export UnitTests.

#[local] Open Scope Z_scope.

Definition runMachine {A} (m : MachineScope → MM A) (mf : MachineFixture) : Res A * MState :=
  m (mf_scope mf) (mkSt (mf_CloudscaleMachine mf) (mkTestWorld (mf_FakeClient mf) 0) []).

Definition machineCondition {A} (t : string) (r : Res A * MState) : option (ConditionStatus * string) :=
  (λ c, (Condition_Status c, Condition_Reason c)) <$> mconditionOf (after r) t.

Definition upd_mst (f : CloudscaleMachineStatus → CloudscaleMachineStatus) : MachineScopeOption (P:=test_platform) :=
  upd_machine (upd_mstatus f).
Definition withServer (id : string) : MachineScopeOption := upd_mst (set_CloudscaleMachineStatus_ServerID id).
Definition withGroupID (id : string) : MachineScopeOption := upd_mst (set_CloudscaleMachineStatus_ServerGroupID id).
Definition withInterfaces (l : list InterfaceSpec) : MachineScopeOption (P:=test_platform) :=
  upd_machine (upd_mspec (λ sp, mkCloudscaleMachineSpec (CloudscaleMachineSpec_ProviderID sp)
    (CloudscaleMachineSpec_Flavor sp) (CloudscaleMachineSpec_Image sp) (CloudscaleMachineSpec_RootVolumeSize sp)
    (CloudscaleMachineSpec_TagsOrNil sp) (CloudscaleMachineSpec_ServerGroup sp) (Some l))).

(** ** The server (cloudscalemachine_server_test.go) *)

Definition aServer (id st : string) (interfaces : list ServerInterface) : Server := mkServer id st interfaces.

(** [ListFn] finds these servers, and a creation gives [server]. *)
Definition serverMock (listed : list Server) (server : Server) : MockService TW ServerRequest Server :=
  mkMockService (Some (λ _, returns server)) None (Some (λ _, returns listed)) None.

Definition serverTest (svc : MockService TW ServerRequest Server) (opts : list MachineScopeOption) : Res Result * MState :=
  runMachine reconcileServer (NewTestMachineScope (MockServers svc) opts).

Definition serverRequests {A} (r : Res A * MState) : list ServerRequest :=
  omap (λ q, match q with CServer q => Some q | _ => None end) (created r).

Example TestReconcileServer_CreatesServer :
  let r := serverTest (serverMock [] (aServer "server-uuid-123" "running" [mkServerInterface "private" ["10.0.0.5"]])) [] in
  fst r = Ok emptyResult ∧ serverID (after r) = "server-uuid-123" ∧
  match serverRequests r with
  | [q] => ServerRequest_Flavor q = "flex-8-4" ∧ ServerRequest_Image q = "ubuntu-24.04" ∧ ServerRequest_Zone q = "rma1"
  | _ => False
  end ∧
  machineCondition ServerReadyCondition r = Some (ConditionTrue, ServerRunningReason).
Proof. by vm_compute. Qed.

Example TestReconcileServer_SetsProviderID :
  let r := serverTest (serverMock [] (aServer "server-uuid-456" "running" [])) [] in
  fst r = Ok emptyResult ∧
  CloudscaleMachineSpec_ProviderID (mspec (after r)) = Some "cloudscale://server-uuid-456".
Proof. by vm_compute. Qed.

Example TestReconcileServer_SetsAddresses :
  let r := serverTest (serverMock [] (aServer "server-uuid-789" "running"
             [mkServerInterface "public" ["185.98.123.45"]; mkServerInterface "private" ["10.0.0.10"]])) [] in
  fst r = Ok emptyResult ∧
  CloudscaleMachineStatus_Addresses (mstatus (after r)) =
    [mkMachineAddress MachineExternalIP "185.98.123.45"; mkMachineAddress MachineInternalIP "10.0.0.10"].
Proof. by vm_compute. Qed.

Example TestReconcileServer_FindsExistingByTag :
  let r := serverTest (serverMock [aServer "found-server-uuid" "running" []] (aServer "" "" [])) [] in
  fst r = Ok emptyResult ∧ created r = [] ∧ serverID (after r) = "found-server-uuid".
Proof. by vm_compute. Qed.

Example TestReconcileServer_ErrorsOnMultipleByTag :
  let r := serverTest (serverMock [aServer "server-uuid-1" "running" []; aServer "server-uuid-2" "running" []]
             (aServer "" "" [])) [] in
  errorHas "found 2 servers matching tag filter" r = true ∧ serverID (after r) = "" ∧
  machineCondition ServerReadyCondition r = Some (ConditionFalse, ServerErrorReason).
Proof. by vm_compute. Qed.

Definition deleteServerTest (id : string) (answer : TW → Res unit * TW) :=
  runMachine deleteServer (NewTestMachineScope
    (MockServers (mkMockService None None None (Some (λ _, answer)))) [withServer id]).
Example TestDeleteServer_BasicScenarios :
  (let r := deleteServerTest "server-to-delete" (returns ()) in
   succeeded r = true ∧ serverID (after r) = "" ∧ deleteCalls r = ["server-to-delete"]) ∧
  (let r := deleteServerTest "" (returns ()) in succeeded r = true ∧ deleteCalls r = []) ∧
  (let r := deleteServerTest "already-deleted-server" (responds 404) in
   succeeded r = true ∧ serverID (after r) = "" ∧ deleteCalls r = ["already-deleted-server"]).
Proof. by vm_compute. Qed.

(** A server that is there, in the state [st]. *)
Definition existingServer (st : string) (opts : list MachineScopeOption) : Res Result * MState :=
  serverTest (getting (λ id, returns (aServer id st []))) (withServer "existing-server-uuid" :: opts).
Definition statusTest (row : string * ConditionStatus * string * Result) : Prop :=
  let '(st, cond, reason, res) := row in
  let r := existingServer st [] in
  fst r = Ok res ∧ machineCondition ServerReadyCondition r = Some (cond, reason).
Example TestReconcileServer_SetsServerStatusCondition :
  Forall statusTest
    [("running", ConditionTrue, ServerRunningReason, emptyResult);
     ("changing", ConditionFalse, ServerStartingReason, ServerStatusPollInterval);
     ("stopped", ConditionFalse, ServerStoppedReason, emptyResult);
     ("paused", ConditionFalse, ServerInternalErrorReason, emptyResult);
     ("rescue_running", ConditionFalse, ServerInRescueModeReason, emptyResult);
     ("rescue_stopped", ConditionFalse, ServerInRescueModeReason, emptyResult);
     ("error", ConditionFalse, ServerInternalErrorReason, emptyResult);
     ("unknown", ConditionFalse, ServerInternalErrorReason, emptyResult)].
Proof. by repeat (apply Forall_cons; split); [vm_compute..|]. Qed.

Example TestReconcileServer_ProvisionedNotModified :
  let r := existingServer "changing" [upd_mst (set_CloudscaleMachineStatus_Initialization (Some (mkMachineInitializationStatus (Some true))))] in
  fst r = Ok ServerStatusPollInterval ∧
  machineCondition ServerReadyCondition r = Some (ConditionFalse, ServerChangingReason) ∧
  provisioned (after r) = true.
Proof. by vm_compute. Qed.

Definition requestOf (opts : list MachineScopeOption) : option ServerRequest :=
  head (serverRequests (serverTest (serverMock [] (aServer "server-uuid-sg" "running" [])) opts)).
Example TestReconcileServer_SetsServerGroupInRequest :
  ServerRequest_ServerGroups <$> requestOf [withGroupID "server-group-uuid-123"] = Some ["server-group-uuid-123"].
Proof. by vm_compute. Qed.
Example TestReconcileServer_NoServerGroupWhenStatusEmpty : ServerRequest_ServerGroups <$> requestOf [] = Some [].
Proof. by vm_compute. Qed.

(** *** The requests of interfaces *)

Definition interfacesOf (nets : option (list NetworkStatus)) (ifaces : list InterfaceSpec) : Res (list string * option string) :=
  buildInterfaceRequests
    (let ms := mf_scope (NewTestMachineScope (MockServers noMock) []) in
     match nets with
     | None => ms
     | Some l => mkMachineScope (mscope_Cluster ms) (mscope_Machine ms)
                   (upd_status (set_CloudscaleClusterStatus_Networks l) (mscope_CloudscaleCluster ms)) (mscope_Client ms)
     end)
    (mf_CloudscaleMachine (withInterfaces ifaces (NewTestMachineScope (MockServers noMock) []))).
Definition failsWith {A} (sub : string) (r : Res A) : Prop :=
  match r with Err e => Contains (Error e) sub = true | Ok _ => False end.
Definition onNetwork (name : string) : InterfaceSpec := mkInterfaceSpec "" name None.
Definition public (family : option string) : InterfaceSpec := mkInterfaceSpec "public" "" family.

Example TestBuildInterfaceRequests_DefaultsToPublicPlusFirstNetwork :
  interfacesOf None [] = Ok ([InterfaceTypePublic; "net-uuid-123"], None).
Proof. by vm_compute. Qed.
Example TestBuildInterfaceRequests_NoClusterNetworksErrors : failsWith "no networks provisioned" (interfacesOf (Some []) []).
Proof. by vm_compute. Qed.
Example TestBuildInterfaceRequests_PublicInterface : interfacesOf None [public None] = Ok ([InterfaceTypePublic], None).
Proof. by vm_compute. Qed.
Example TestBuildInterfaceRequests_NamedNetworkFound : interfacesOf None [onNetwork "test"] = Ok (["net-uuid-123"], None).
Proof. by vm_compute. Qed.
Example TestBuildInterfaceRequests_NamedNetworkNotFound :
  failsWith "not found in cluster status" (interfacesOf None [onNetwork "nonexistent"]).
Proof. by vm_compute. Qed.
Example TestBuildInterfaceRequests_NamedNetworkNotProvisioned :
  failsWith "not yet provisioned"
    (interfacesOf (Some [mkNetworkStatus "test" "" "subnet-uuid-123" "" 0 true ""]) [onNetwork "test"]).
Proof. by vm_compute. Qed.
Example TestBuildInterfaceRequests_MixedPublicAndNetwork :
  interfacesOf None [onNetwork "test"; public None] = Ok (["net-uuid-123"; InterfaceTypePublic], None).
Proof. by vm_compute. Qed.
Example TestBuildInterfaceRequests_InvalidInterfaceErrors :
  failsWith "must have either type or network" (interfacesOf None [mkInterfaceSpec "" "" None]).
Proof. by vm_compute. Qed.
Example TestBuildInterfaceRequests_ReturnsIPFamilyFromPublicInterface :
  res_map snd (interfacesOf None [onNetwork "test"; public (Some IPFamilyDualStack)]) = Ok (Some IPFamilyDualStack).
Proof. by vm_compute. Qed.
Example TestBuildInterfaceRequests_NilIPFamilyWhenNoPublicInterface :
  res_map snd (interfacesOf None [onNetwork "test"]) = Ok None.
Proof. by vm_compute. Qed.

Example TestIPFamilyToUseIPV6 :
  ipFamilyToUseIPV6 (Some IPFamilyDualStack) = Some true ∧ ipFamilyToUseIPV6 (Some IPFamilyIPv4) = Some false ∧
  ipFamilyToUseIPV6 None = None.
Proof. by vm_compute. Qed.

Example TestReconcileServer_SetsUseIPV6 :
  ServerRequest_UseIPV6 <$> requestOf [withInterfaces [onNetwork "test"; public (Some IPFamilyDualStack)]] = Some (Some true) ∧
  ServerRequest_UseIPV6 <$> requestOf [withInterfaces [onNetwork "test"; public (Some IPFamilyIPv4)]] = Some (Some false).
Proof. by vm_compute. Qed.

(** ** The server group (cloudscalemachine_servergroup_test.go) *)

Definition sgMock (listed : TW → Res (list ServerGroup) * TW) (creation : TW → Res ServerGroup * TW)
    : MachineScopeOption :=
  WithMachineServerGroupService (P:=test_platform)
    (MockServerGroups (mkMockService (Some (λ _, creation)) None (Some (λ _, listed)) None)).
Definition groupTest (listed : TW → Res (list ServerGroup) * TW) (creation : TW → Res ServerGroup * TW)
    (sg : option ServerGroupSpec) : Res Result * MState :=
  runMachine MachineCtl.reconcileServerGroup
    (NewTestMachineScope nilService [sgMock listed creation; WithServerGroup (P:=test_platform) sg]).
Definition testGroup : option ServerGroupSpec := Some (mkServerGroupSpec "test-group").
Definition newGroup : TW → Res ServerGroup * TW := returns (mkServerGroup "new-group-uuid" "test-group" "rma1" []).
Definition groupReady {A} (r : Res A * MState) : Prop :=
  fst <$> machineCondition ServerGroupReadyCondition r = Some ConditionTrue.

Example TestReconcileServerGroup_NoServerGroup_Noop :
  let r := groupTest (fails "not called") (fails "not called") None in
  succeeded r = true ∧ events r = [] ∧ groupReady r.
Proof. by vm_compute. Qed.
Example TestReconcileServerGroup_FindsExisting_SetsStatusID :
  let r := groupTest (returns [mkServerGroup "existing-group-uuid" "test-group" "rma1" []]) newGroup testGroup in
  succeeded r = true ∧ created r = [] ∧ groupID (after r) = "existing-group-uuid" ∧ groupReady r.
Proof. by vm_compute. Qed.
Example TestReconcileServerGroup_SkipsNonMatchingName :
  let r := groupTest (returns [mkServerGroup "other-group-uuid" "different-group" "rma1" []]) newGroup testGroup in
  succeeded r = true ∧ length (created r) = 1%nat ∧ groupID (after r) = "new-group-uuid".
Proof. by vm_compute. Qed.
Example TestReconcileServerGroup_SkipsNonMatchingZone :
  let r := groupTest (returns [mkServerGroup "other-zone-group-uuid" "test-group" "lpg1" []]) newGroup testGroup in
  succeeded r = true ∧ length (created r) = 1%nat ∧ groupID (after r) = "new-group-uuid".
Proof. by vm_compute. Qed.
Example TestReconcileServerGroup_CreatesNew_SetsStatusID :
  let r := groupTest (returns []) newGroup testGroup in
  succeeded r = true ∧ groupID (after r) = "new-group-uuid" ∧ groupReady r ∧
  created r = [CServerGroup (mkServerGroupRequest "test-group" "anti-affinity" "rma1"
                 {[ ClusterTagKey testMachineCluster := ResourceLifecycleOwned ]})].
Proof. by vm_compute. Qed.
Example TestReconcileServerGroup_ListError_PropagatesError :
  let r := groupTest (fails "api error") newGroup testGroup in
  errorHas "listing server groups" r = true ∧
  machineCondition ServerGroupReadyCondition r = Some (ConditionFalse, ServerGroupErrorReason).
Proof. by vm_compute. Qed.
Example TestReconcileServerGroup_CreateError_PropagatesError :
  let r := groupTest (returns []) (fails "create failed") testGroup in
  errorHas "creating server group" r = true ∧
  machineCondition ServerGroupReadyCondition r = Some (ConditionFalse, ServerGroupErrorReason).
Proof. by vm_compute. Qed.
Example TestDeleteServerGroup_ClearsStatusID :
  groupID (MachineCtl.deleteServerGroup
    (mf_CloudscaleMachine (NewTestMachineScope nilService
       [WithServerGroup (P:=test_platform) testGroup; withGroupID "group-to-clear"]))) = "".
Proof. by vm_compute. Qed.
