(* ===== verification/ReconcileTests.v ===== *)
(** * The unit tests of the two reconciles

    cloudscalecluster_controller_test.go, cloudscalecluster_reconcile_test.go and
    cloudscalemachine_reconcile_test.go, run on the model with the platform of the
    file UnitTests. *)

From S2P Require Export FloatingIPTests MachineTests.

#[local] Open Scope Z_scope.

(** ** The cluster's controller *)

Example TestCloudscaleClusterReconciler_Reconcile_ResourceNotFound :
  fst (ClusterCtl.Reconcile ("nonexistent", "default") (mkSt () (fakeWorld []) [])) = Ok emptyResult.
Proof. by vm_compute. Qed.
Example TestCloudscaleClusterReconciler_Reconcile_NoOwnerCluster :
  fst (ClusterCtl.Reconcile ("test-cluster", "default")
         (mkSt () (fakeWorld [FakeCluster (cf_CloudscaleCluster (NewClusterScopeOpts (P:=test_platform) []))]) [])) =
    Ok emptyResult.
Proof. by vm_compute. Qed.

Definition endpointTest (opts : list ClusterScopeOption) (vip : string) : APIEndpoint :=
  CloudscaleClusterSpec_ControlPlaneEndpoint
    (spec (after (run (λ _, reconcileControlPlaneEndpoint vip) (newLBClusterScope opts)))).
Definition withEndpoint (host : string) (port : Z) : ClusterScopeOption :=
  upd_cluster (upd_spec (set_CloudscaleClusterSpec_ControlPlaneEndpoint (mkAPIEndpoint host port))).

Example TestReconcileControlPlaneEndpoint_FromLBVIP :
  endpointTest [] "203.0.113.10" = mkAPIEndpoint "203.0.113.10" 6443.
Proof. by vm_compute. Qed.
Example TestReconcileControlPlaneEndpoint_FloatingIPTakesPrecedenceOverVIP :
  endpointTest [withFIPSpec managedSpec; withFIP "10.20.30.40"] "203.0.113.10" = mkAPIEndpoint "10.20.30.40" 6443.
Proof. by vm_compute. Qed.
Example TestReconcileControlPlaneEndpoint_SkipsIfAlreadySet :
  endpointTest [withEndpoint "existing-host" 9999] "203.0.113.10" = mkAPIEndpoint "existing-host" 9999.
Proof. by vm_compute. Qed.
Example TestReconcileControlPlaneEndpoint_WaitsWhenVIPMissing : APIEndpoint_Host (endpointTest [] "") = "".
Proof. by vm_compute. Qed.
Example TestReconcileControlPlaneEndpoint_WaitsWhenFloatingIPNotProvisioned :
  APIEndpoint_Host (endpointTest [withFIPSpec managedSpec] "203.0.113.10") = "".
Proof. by vm_compute. Qed.
Example TestReconcileControlPlaneEndpoint_ExternalControlPlaneNoSource :
  APIEndpoint_Host (endpointTest [WithLBEnabled false] "") = "".
Proof. by vm_compute. Qed.

(** *** Is everything there? *)

Definition provisionedTest (opts : list ClusterScopeOption) : bool :=
  isInfrastructureProvisioned (cf_CloudscaleCluster (NewClusterScopeOpts (P:=test_platform)
    (withNetworks [mkNetworkStatus "test" "network-123" "subnet-123" "" 0 true ""] :: opts))).
Definition withLBResources : list ClusterScopeOption :=
  [withLB "lb-123"; upd_st (set_CloudscaleClusterStatus_LoadBalancerPoolID "pool-123");
   upd_st (set_CloudscaleClusterStatus_LoadBalancerListenerID "listener-123")].
Definition router_r : ClusterScopeOption (P:=test_platform) := WithRouter (mkRouterSpec "r" "" false [mkRouterInterfaceSpec "test" "" ""]).

Example TestIsInfrastructureProvisioned :
  provisionedTest ([WithLBEnabled true; withEndpoint "1.2.3.4" 6443] ++ withLBResources) = true ∧
  provisionedTest [WithLBEnabled true; withEndpoint "1.2.3.4" 6443] = false ∧
  provisionedTest [WithLBEnabled false; withEndpoint "external-controlplane.example.com" 6443] = true ∧
  provisionedTest [WithLBEnabled false] = false ∧
  provisionedTest [WithLBEnabled false; withEndpoint "1.2.3.4" 6443; router_r] = false ∧
  provisionedTest [WithLBEnabled false; withEndpoint "1.2.3.4" 6443; router_r; WithRouterStatus "r" "router-123" true []] = false ∧
  provisionedTest [WithLBEnabled false; withEndpoint "1.2.3.4" 6443; router_r;
    WithRouterStatus "r" "router-123" true [mkRouterInterfaceStatus "test" "iface-123" true]] = true ∧
  provisionedTest [WithLBEnabled false; withEndpoint "1.2.3.4" 6443; preExisting "203.0.113.10"] = false ∧
  provisionedTest [WithLBEnabled false; withEndpoint "1.2.3.4" 6443; preExisting "185.0.0.0"; withFIP "185.0.0.0"] = true.
Proof. by vm_compute. Qed.

(** *** Ready *)

Definition readyTest (subs : list Condition) : option Condition :=
  conditionOf (ClusterCtl.setReadyCondition (SetConditions subs (cf_CloudscaleCluster (NewClusterScopeOpts (P:=test_platform) []))))
    ReadyCondition.
Definition good (t : string) : Condition := mkCondition t ConditionTrue "Provisioned" "".
Definition bad (t reason message : string) : Condition := mkCondition t ConditionFalse reason message.
Definition notReady (c : option Condition) (reason message : string) : Prop :=
  match c with
  | Some c => Condition_Status c = ConditionFalse ∧ Condition_Reason c = reason ∧
              Contains (Condition_Message c) message = true
  | None => False
  end.

Example TestSetReadyCondition :
  (λ c, (Condition_Status c, Condition_Reason c)) <$>
    readyTest (map good [NetworkReadyCondition; RouterReadyCondition; LoadBalancerReadyCondition; FloatingIPReadyCondition]) =
      Some (ConditionTrue, ReadyReason) ∧
  notReady (readyTest [bad NetworkReadyCondition "Provisioning" "Network is being provisioned"; good LoadBalancerReadyCondition])
    "Provisioning" "Network is being provisioned" ∧
  notReady (readyTest [good NetworkReadyCondition; good RouterReadyCondition;
                       bad LoadBalancerReadyCondition LoadBalancerNotReadyReason "Load balancer is not running"])
    LoadBalancerNotReadyReason "Load balancer is not running" ∧
  notReady (readyTest [good NetworkReadyCondition;
                       bad RouterReadyCondition RouterNotReadyReason "Waiting for routers to become available"])
    RouterNotReadyReason "Waiting for routers to become available" ∧
  notReady (readyTest []) NotReadyReason "Waiting for".
Proof. by vm_compute. Qed.

(** *** The normal and the deletion path *)

(** Everything is there and runs. *)
Definition present {Req T} (f : string → T) : MockService TW Req T := getting (λ id, returns (f id)).
Definition presentDeletable {Req T} (f : string → T) : MockService TW Req T :=
  mkMockService None (Some (λ id, returns (f id))) None (Some (λ _, returns ())).
Definition defaultProvisionedScope (opts : list ClusterScopeOption) : ClusterFixture :=
  NewClusterScopeOpts
    ([WithLBEnabled true; groups (returns []) (fails "mock(Delete) not configured");
      networks (MockNetworks (presentDeletable aNetwork)); subnets (MockSubnets (present mkSubnet));
      lbs (MockLoadBalancers (presentDeletable (λ id, mkLoadBalancer id LoadBalancerRunningStatus ["1.2.3.4"])));
      pools (MockLoadBalancerPools (present mkLoadBalancerPool));
      listeners (MockLoadBalancerListeners (present mkLoadBalancerListener));
      monitors (MockLoadBalancerHealthMonitors (present mkLoadBalancerHealthMonitor));
      members (MockLoadBalancerPoolMembers (memberMock (λ _, returns [])));
      withNetworks [managedNetwork "test" "net-123" "subnet-123"]] ++ withLBResources ++ opts).
Definition withHM : ClusterScopeOption := upd_st (set_CloudscaleClusterStatus_LoadBalancerHealthMonitorID "hm-123").
Definition controlPlaneInitialized : ClusterScopeOption := λ cs,
  mkClusterFixture (mkCluster "test-cluster" "default" "" (Some true)) (cf_CloudscaleCluster cs) (cf_Client cs).
Definition clusterProvisioned_ {A} (r : Res A * CState) : bool := clusterProvisioned (after r).

Example TestReconcileNormal_FullyProvisionedCluster :
  let r := run ClusterCtl.reconcileNormal
    (defaultProvisionedScope [withHM; withEndpoint "1.2.3.4" 6443; controlPlaneInitialized]) in
  fst r = Ok emptyResult ∧ clusterProvisioned_ r = true ∧ fst <$> condition ReadyCondition r = Some ConditionTrue.
Proof. by vm_compute. Qed.

Example TestReconcileNormal_PollsUntilControlPlaneInitialized :
  let r := run ClusterCtl.reconcileNormal (defaultProvisionedScope [withHM]) in
  fst r = Ok (requeue 10) ∧ clusterProvisioned_ r = true ∧
  APIEndpoint_Host (CloudscaleClusterSpec_ControlPlaneEndpoint (spec (after r))) = "1.2.3.4".
Proof. by vm_compute. Qed.

Example TestReconcileDelete_SuccessfulDeletion :
  let r := run ClusterCtl.reconcileDelete (defaultProvisionedScope [upd_cluster addFinalizer]) in
  let st := status (after r) in
  fst r = Ok emptyResult ∧
  CloudscaleClusterStatus_LoadBalancerID st = "" ∧ CloudscaleClusterStatus_LoadBalancerPoolID st = "" ∧
  CloudscaleClusterStatus_LoadBalancerListenerID st = "" ∧ CloudscaleClusterStatus_Networks st = [] ∧
  ObjectMeta_Finalizers (CloudscaleCluster_Meta (after r)) = [] ∧
  fst <$> condition ReadyCondition r = Some ConditionFalse ∧
  fst <$> condition DeletingCondition r = Some ConditionTrue.
Proof. by vm_compute. Qed.

(** ** The machine's controller *)

Example TestMachineReconcileNormal_ServerRunning_SetsProvisioned :
  let r := runMachine reconcileNormal (NewTestMachineScope
    (MockServers (present (λ id, mkServer id "running" [mkServerInterface "private" ["10.0.0.5"]]))) [withServer "server-123"]) in
  fst r = Ok emptyResult ∧ provisioned (after r) = true ∧ fst <$> machineCondition ReadyCondition r = Some ConditionTrue.
Proof. by vm_compute. Qed.

(** [Machine.Spec.Bootstrap.DataSecretName] is nil. *)
Definition noBootstrapData : MachineScopeOption (P:=test_platform) := λ mf,
  let ms := mf_scope mf in
  mkMachineFixture (mkMachineScope (mscope_Cluster ms) (mkMachine "test-machine" "default" ∅ None "" "")
                      (mscope_CloudscaleCluster ms) (mscope_Client ms))
    (mf_CloudscaleMachine mf) (mf_FakeClient mf).

Example TestMachineReconcileNormal_BootstrapDataNotReady :
  let r := runMachine reconcileNormal (NewTestMachineScope (MockServers noMock) [noBootstrapData]) in
  fst r = Ok emptyResult ∧ events r = [] ∧ CloudscaleMachineStatus_Initialization (mstatus (after r)) = None ∧
  machineCondition ServerReadyCondition r = Some (ConditionFalse, WaitingForBootstrapDataReason).
Proof. by vm_compute. Qed.

Example TestMachineReconcileNormal_ServerError_PropagatesError :
  let r := runMachine reconcileNormal (NewTestMachineScope
    (MockServers (mkMockService None None (Some (λ _, fails "server api error")) None)) []) in
  errorHas "server api error" r = true ∧ fst <$> machineCondition ReadyCondition r = Some ConditionFalse.
Proof. by vm_compute. Qed.

Definition machineDelete (answer : TW → Res unit * TW) : Res Result * MState :=
  runMachine reconcileDelete (NewTestMachineScope (MockServers (mkMockService None None None (Some (λ _, answer))))
    [withServer "server-to-delete"; upd_machine (upd_mfinalizers (λ _, [MachineFinalizer]))]).

Example TestMachineReconcileDelete_Success :
  let r := machineDelete (returns ()) in
  fst r = Ok emptyResult ∧ deleteCalls r = ["server-to-delete"] ∧
  ObjectMeta_Finalizers (CloudscaleMachine_Meta (after r)) = [] ∧
  fst <$> machineCondition DeletingCondition r = Some ConditionTrue ∧
  machineCondition ReadyCondition r = Some (ConditionFalse, DeletingReason).
Proof. by vm_compute. Qed.

Example TestMachineReconcileDelete_ServerError_PreservesFinalizer :
  let r := machineDelete (fails "server delete failed") in
  errorHas "server delete failed" r = true ∧
  ObjectMeta_Finalizers (CloudscaleMachine_Meta (after r)) = [MachineFinalizer].
Proof. by vm_compute. Qed.

Definition machineReadyTest (c : option Condition) : option Condition :=
  mconditionOf (setReadyCondition (set_mconditions (from_option (λ c, [c]) [] c) testMachine)) ReadyCondition.
Example TestMachineSetReadyCondition :
  (λ c, (Condition_Status c, Condition_Reason c)) <$>
    machineReadyTest (Some (mkCondition ServerReadyCondition ConditionTrue ServerRunningReason "")) =
      Some (ConditionTrue, ReadyReason) ∧
  notReady (machineReadyTest (Some (bad ServerReadyCondition ServerStartingReason "Server is starting")))
    ServerStartingReason "Server is starting" ∧
  notReady (machineReadyTest None) NotReadyReason "Waiting for".
Proof. by vm_compute. Qed.

Example TestMachineReconcile_ResourceNotFound :
  fst (Reconcile ("nonexistent", "default") (mkSt () (fakeWorld []) [])) = Ok emptyResult.
Proof. by vm_compute. Qed.
Example TestMachineReconcile_NoOwnerMachine :
  fst (Reconcile ("test-machine", "default") (mkSt () (fakeWorld [FakeMachine testMachine]) [])) = Ok emptyResult.
Proof. by vm_compute. Qed.
