(* ===== verification/WebhookTests.v ===== *)
(** * The unit tests of the webhooks and the catalogues

    cloudscalecluster_webhook_test.go and cloudscalemachine_webhook_test.go of
    src/internal/webhook/v1beta2, regions_test.go and flavors_test.go of
    src/internal/cloudscale, run on the model: what is defaulted, what is refused, and
    with which texts. *)

From S2P Require Export MachineWebhook TestUtils.

#[local] Open Scope Z_scope.

(** ** The text of an error *)

Fixpoint pathText (p : Path) : string :=
  match p with
  | [] => ""
  | Child name :: p => "." +:+ name +:+ pathText p
  | Index i :: p => "[" +:+ itoa (Z.of_nat i) +:+ "]" +:+ pathText p
  | Key k :: p => "[" +:+ k +:+ "]" +:+ pathText p
  end.
(** The path of a field and what is wrong with it, as [field.Error] words it. *)
Definition errorText (e : FieldError) : string :=
  let at_ (p : Path) (what : string) := pathText p +:+ ": " +:+ what in
  match e with
  | Invalid p v d => at_ p ("Invalid value: " +:+ quote v +:+ ": " +:+ d)
  | Forbidden p d => at_ p ("Forbidden: " +:+ d)
  | NotFound p v => at_ p ("Not found: " +:+ quote v)
  | Duplicate p v => at_ p ("Duplicate value: " +:+ quote v)
  | Required p d => at_ p ("Required value: " +:+ d)
  | TooMany p n m => at_ p ("Too many: " +:+ itoa (Z.of_nat n))
  end.
Definition errorsText (errs : ErrorList) : string := String.concat ", " (map errorText errs).

(** Accepted, or refused with all of these in the text. *)
Definition accepted (r : list string * option StatusInvalid) : bool := match snd r with None => true | Some _ => false end.
Definition refusedFor (subs : list string) (r : list string * option StatusInvalid) : bool :=
  match snd r with
  | None => false
  | Some st => forallb (Contains (errorsText (StatusInvalid_Errors st))) subs
  end.

(** ** Objects *)

Definition noLB : LoadBalancerSpec := mkLoadBalancerSpec None "" "" 0 "" "" (mkHealthMonitorSpec 0 0 0 0).
(** [new(CloudscaleClusterSpec)] with some fields set. *)
Definition specOf (region zone : string) (nets : list NetworkSpec) (routers : list RouterSpec) (lb : LoadBalancerSpec)
    (fip : option FloatingIPSpec) : CloudscaleClusterSpec :=
  mkCloudscaleClusterSpec region zone (mkCloudscaleCredentialsReference "" "") (mkAPIEndpoint "" 0) nets routers lb fip.
Definition objectOf (sp : CloudscaleClusterSpec) : CloudscaleCluster :=
  mkCloudscaleCluster (mkObjectMeta "" "" ∅ [] None) sp (mkCloudscaleClusterStatus None [] [] "" "" "" "" "" [] []).

Definition cidrNet (name cidr : string) : NetworkSpec := mkNetworkSpec name "" cidr 0 "".
Definition uuidNet (name uuid : string) : NetworkSpec := mkNetworkSpec name uuid "" 0 "".
Definition gatewayNet (name uuid cidr gateway : string) : NetworkSpec := mkNetworkSpec name uuid cidr 0 gateway.
Definition routerNetworks (cidr : string) : list NetworkSpec := [cidrNet "main" cidr].
Definition routerWith (ifaces : list RouterInterfaceSpec) : list RouterSpec := [mkRouterSpec "r" "" true ifaces].
Definition routerIface (address : string) : RouterInterfaceSpec := mkRouterInterfaceSpec "main" "" address.
Definition adoptedRouterWith (ifaces : list RouterInterfaceSpec) : list RouterSpec := [mkRouterSpec "r" "router-uuid" false ifaces].
Definition routerIfaceAdopted : RouterInterfaceSpec := mkRouterInterfaceSpec "main" "iface-uuid" "".

(** ** Defaulting *)

Definition defaulted (name : string) (sp : CloudscaleClusterSpec) : CloudscaleClusterSpec := Default NewTestRegionInfo name sp.
Definition lbOf (sp : CloudscaleClusterSpec) : LoadBalancerSpec := CloudscaleClusterSpec_ControlPlaneLoadBalancer sp.
Definition emptySpec : CloudscaleClusterSpec := specOf "" "" [] [] noLB None.
Definition defaultLB : LoadBalancerSpec :=
  mkLoadBalancerSpec (Some true) "round_robin" "lb-standard" 6443 "" "" (mkHealthMonitorSpec 5 3 2 3).
Definition addresses (sp : CloudscaleClusterSpec) : list (list string) :=
  map (λ r, map RouterInterfaceSpec_Address (RouterSpec_Interfaces r)) (CloudscaleClusterSpec_Routers sp).

Example TestClusterDefaulting :
  CloudscaleClusterSpec_Zone (defaulted "" (specOf "rma" "" [] [] noLB None)) = "rma1" ∧
  CloudscaleClusterSpec_Zone (defaulted "" (specOf "rma" "rma1" [] [] noLB None)) = "rma1" ∧
  CloudscaleClusterSpec_Networks (defaulted "my-cluster" (specOf "rma" "" [] [] noLB None)) =
    [cidrNet "my-cluster" defaultSubnetCIDR] ∧
  CloudscaleClusterSpec_Networks (defaulted "" (specOf "rma" "" [cidrNet "custom" "10.1.0.0/16"] [] noLB None)) =
    [cidrNet "custom" "10.1.0.0/16"] ∧
  lbOf (defaulted "" emptySpec) = defaultLB ∧
  LoadBalancerSpec_Enabled (lbOf (defaulted "" (specOf "" "" [] []
    (mkLoadBalancerSpec (Some false) "" "" 0 "" "" (mkHealthMonitorSpec 0 0 0 0)) None))) = Some false ∧
  LoadBalancerSpec_HealthMonitor (lbOf (defaulted "" (specOf "" "" [] []
    (mkLoadBalancerSpec None "" "" 0 "" "" (mkHealthMonitorSpec 10 7 5 8)) None))) = mkHealthMonitorSpec 10 7 5 8 ∧
  CloudscaleClusterSpec_FloatingIP (defaulted "" (specOf "" "" [] [] noLB (Some (mkFloatingIPSpec None "")))) =
    Some (mkFloatingIPSpec (Some IPFamilyIPv4) "") ∧
  CloudscaleClusterSpec_FloatingIP (defaulted "" (specOf "" "" [] [] noLB (Some (mkFloatingIPSpec None "1.2.3.4")))) =
    Some (mkFloatingIPSpec None "1.2.3.4") ∧
  addresses (defaulted "" (specOf "rma" "" (routerNetworks "10.0.0.0/24") (routerWith [routerIface "10.0.0.5"]) noLB None)) =
    [["10.0.0.5"]] ∧
  addresses (defaulted "" (specOf "rma" "" [uuidNet "main" "net-uuid"] (routerWith [routerIface ""]) noLB None)) = [[""]].
Proof. by vm_compute. Qed.

Example TestClusterDefaulting_AllDefaultsApplied :
  defaulted "test-cluster" (specOf "rma" "" [] [] noLB None) =
    specOf "rma" "rma1" [cidrNet "test-cluster" defaultSubnetCIDR] [] defaultLB None.
Proof. by vm_compute. Qed.

(** ** Creation *)

(** The texts of [netip]'s errors are not looked at. *)
Definition someError (_ : string) : string := "unable to parse".
Definition onCreate (sp : CloudscaleClusterSpec) : list string * option StatusInvalid :=
  ValidateCreate someError someError NewTestRegionInfo (objectOf sp).
Definition inRma (nets : list NetworkSpec) (routers : list RouterSpec) (lb : LoadBalancerSpec) (fip : option FloatingIPSpec)
    : list string * option StatusInvalid := onCreate (specOf "rma" "rma1" nets routers lb fip).
Definition lbOn (network poolMemberNetwork : string) : LoadBalancerSpec :=
  mkLoadBalancerSpec None "" "" 0 network poolMemberNetwork (mkHealthMonitorSpec 0 0 0 0).
Definition lbOff : LoadBalancerSpec := mkLoadBalancerSpec (Some false) "" "" 0 "" "" (mkHealthMonitorSpec 0 0 0 0).
Definition withRouters (nets : list NetworkSpec) (routers : list RouterSpec) := inRma nets routers noLB None.
Definition withNets (nets : list NetworkSpec) := inRma nets [] noLB None.
Definition managedFIP : option FloatingIPSpec := Some (mkFloatingIPSpec (Some IPFamilyIPv4) "").
Definition fipAddress (ip : string) : option FloatingIPSpec := Some (mkFloatingIPSpec None ip).
Definition mainNet : list NetworkSpec := [cidrNet "main" defaultSubnetCIDR].
Definition twoNets : list NetworkSpec := [cidrNet "main" defaultSubnetCIDR; cidrNet "aux" "10.1.0.0/24"].

Example TestClusterValidateCreate_accepted :
  forallb accepted
    [withNets mainNet; onCreate (specOf "rma" "" [] [] noLB None);
     withNets [gatewayNet "main" "" defaultSubnetCIDR "172.18.0.1"];
     inRma mainNet [] (lbOn "main" "") None; inRma twoNets [] (lbOn "" "aux") None;
     inRma [] [] noLB managedFIP; inRma [] [] lbOff (fipAddress "1.2.3.4");
     withRouters (routerNetworks "10.0.0.0/24") (routerWith [routerIface "10.0.0.1"]);
     withRouters [gatewayNet "main" "" "10.0.0.0/24" "10.0.0.5"] (routerWith [routerIface "10.0.0.5"]);
     withRouters [uuidNet "main" "net-uuid"] (adoptedRouterWith [routerIfaceAdopted]);
     withRouters [gatewayNet "main" "" "10.0.0.0/24" "10.0.0.5"] (adoptedRouterWith [routerIfaceAdopted]);
     withRouters [uuidNet "main" "net-uuid"] (routerWith [routerIface "192.168.77.1"])] = true.
Proof. by vm_compute. Qed.

Example TestClusterValidateCreate_refused :
  forallb (λ row, refusedFor (fst row) (snd row))
    [(["spec.zone"], onCreate (specOf "rma" "lpg1" [] [] noLB None));
     (["spec.zone"], onCreate (specOf "rma" "xyz1" [] [] noLB None));
     (["exactly one of uuid or cidr"], withNets [gatewayNet "bad" "" "" ""]);
     (["exactly one of uuid or cidr"], withNets [gatewayNet "bad" "some-uuid" "10.0.0.0/24" ""]);
     (["Duplicate"], withNets [cidrNet "dup" "10.0.0.0/24"; cidrNet "dup" "10.1.0.0/24"]);
     (["gatewayAddress"], withNets [gatewayNet "main" "" defaultSubnetCIDR "192.168.1.1"]);
     (["gatewayAddress"], withNets [gatewayNet "main" "" defaultSubnetCIDR "notanip"]);
     (["gatewayAddress"], withNets [gatewayNet "pre-existing" "some-uuid" "" "10.0.0.1"]);
     (["controlPlaneLoadBalancer.network"; "controlPlaneLoadBalancer.poolMemberNetwork"], inRma twoNets [] noLB None);
     (["controlPlaneLoadBalancer.poolMemberNetwork"], inRma mainNet [] (lbOn "" "nope") None);
     (["controlPlaneLoadBalancer.network"], inRma mainNet [] (lbOn "nonexistent" "") None);
     (["floatingIP"; "private"], inRma mainNet [] (lbOn "main" "") managedFIP);
     (["spec.floatingIP"; "exactly one of ipFamily or ip must be specified"],
        inRma [] [] noLB (Some (mkFloatingIPSpec (Some IPFamilyIPv4) "1.2.3.4")));
     (["floatingIP.ip"], inRma [] [] noLB (fipAddress "not-an-ip"));
     (["floatingIP"], inRma [] [] noLB (fipAddress ""));
     (["managed floating IP"], inRma [] [] lbOff managedFIP);
     (["must be within CIDR"], withRouters (routerNetworks "10.0.0.0/24") (routerWith [routerIface "192.168.1.1"]));
     (["routers[0].interfaces[0].network"],
        withRouters (routerNetworks "10.0.0.0/24") (routerWith [mkRouterInterfaceSpec "nope" "" "10.0.0.1"]));
     (["uuid and internetGateway are mutually exclusive"],
        withRouters (routerNetworks "10.0.0.0/24") [mkRouterSpec "r" "router-uuid" true [routerIface "10.0.0.1"]]);
     (["routers[0].interfaces[0].address"; "cannot be requested"],
        withRouters (routerNetworks "10.0.0.0/24") (adoptedRouterWith [mkRouterInterfaceSpec "main" "iface-uuid" "10.0.0.1"]));
     (["routers[0].interfaces[0].uuid"; "referenced by uuid"],
        withRouters (routerNetworks "10.0.0.0/24") (routerWith [routerIfaceAdopted]));
     (["must be set explicitly"], withRouters (routerNetworks "10.0.0.0/24") (routerWith [routerIface ""]))] = true.
Proof. by vm_compute. Qed.

(** ** Updates *)

Definition updateOf (old new : CloudscaleClusterSpec) : list string * option StatusInvalid :=
  ValidateUpdate someError someError (objectOf old) (objectOf new).
Definition setUp (region zone : string) (nets : list NetworkSpec) (routers : list RouterSpec) (network : string)
    (enabled : bool) (fip : option FloatingIPSpec) : CloudscaleClusterSpec :=
  specOf region zone nets routers
    (mkLoadBalancerSpec (Some enabled) "" "" 0 network "" (mkHealthMonitorSpec 0 0 0 0)) fip.
Definition base : CloudscaleClusterSpec := setUp "rma" "rma1" mainNet [] "" true None.
Definition endpoint (host : string) (port : Z) : CloudscaleClusterSpec :=
  set_CloudscaleClusterSpec_ControlPlaneEndpoint (mkAPIEndpoint host port) base.
Definition otherNets : list NetworkSpec := [cidrNet "main" defaultSubnetCIDR; cidrNet "other" "10.1.0.0/24"].
Definition seedIface : RouterInterfaceSpec := routerIface "172.18.0.1".
Definition seeded (routers : list RouterSpec) : CloudscaleClusterSpec := setUp "rma" "rma1" mainNet routers "" true None.
Definition routerUpdate (routers : list RouterSpec) := updateOf (seeded (routerWith [seedIface])) (seeded routers).

Example TestClusterValidateUpdate_accepted :
  forallb accepted
    [updateOf base base;
     updateOf (setUp "rma" "rma1" mainNet [] "main" true None)
       (setUp "rma" "rma1" [cidrNet "main" defaultSubnetCIDR; cidrNet "extra" "10.1.0.0/24"] [] "main" true None);
     updateOf base (endpoint "1.2.3.4" 6443); routerUpdate (routerWith [seedIface])] = true.
Proof. by vm_compute. Qed.

Example TestClusterValidateUpdate_refused :
  forallb (λ row, refusedFor (fst row) (snd row))
    [(["spec.region"], updateOf base (setUp "lpg" "rma1" mainNet [] "" true None));
     (["spec.zone"], updateOf base (setUp "rma" "rma2" mainNet [] "" true None));
     (["cidr"], updateOf base (setUp "rma" "rma1" [cidrNet "main" "10.1.0.0/24"] [] "" true None));
     (["removing network"], updateOf base (setUp "rma" "rma1" [] [] "" true None));
     (["spec.controlPlaneLoadBalancer.enabled"], updateOf base (setUp "rma" "rma1" mainNet [] "" false None));
     (["controlPlaneLoadBalancer.network"; "immutable"],
        updateOf (setUp "rma" "rma1" mainNet [] "main" true None) (setUp "rma" "rma1" otherNets [] "other" true None));
     (["controlPlaneLoadBalancer.network"; "immutable"], updateOf base (setUp "rma" "rma1" otherNets [] "other" true None));
     (["spec.controlPlaneEndpoint.host"], updateOf (endpoint "1.2.3.4" 6443) (endpoint "5.6.7.8" 6443));
     (["spec.controlPlaneEndpoint.port"], updateOf (endpoint "1.2.3.4" 6443) (endpoint "1.2.3.4" 8443));
     (["floatingIP"], updateOf base (setUp "rma" "rma1" mainNet [] "" true managedFIP));
     (["floatingIP"], updateOf (setUp "rma" "rma1" mainNet [] "" true managedFIP) base);
     (["spec.region"; "spec.zone"; "cidr"], updateOf base (setUp "lpg" "lpg1" [cidrNet "main" "10.1.0.0/24"] [] "" true None));
     (["routers[0].uuid"; "immutable"], routerUpdate [mkRouterSpec "r" "other-uuid" false [seedIface]]);
     (["routers[0].internetGateway"; "immutable"], routerUpdate [mkRouterSpec "r" "" false [seedIface]]);
     (["address for network"; "immutable"], routerUpdate (routerWith [routerIface "172.18.0.9"]));
     (["uuid for network"; "immutable"], routerUpdate (routerWith [mkRouterInterfaceSpec "main" "iface-uuid" "172.18.0.1"]));
     (["removing interface for network"], routerUpdate (routerWith []));
     (["removing router"], routerUpdate []);
     (["routers[1].interfaces[0].address"; "must be within CIDR"],
        routerUpdate (routerWith [seedIface] ++ [mkRouterSpec "second" "" false [routerIface "192.168.1.1"]]))] = true.
Proof. by vm_compute. Qed.

Example TestClusterValidateUpdate_NetworkReorderedCIDRChangedReportsNewIndex :
  refusedFor ["spec.networks[1].cidr"]
    (updateOf (setUp "rma" "rma1" [cidrNet "net-a" "10.1.0.0/24"; cidrNet "net-b" "10.2.0.0/24"] [] "" true None)
       (setUp "rma" "rma1" [cidrNet "net-b" "10.2.0.0/24"; cidrNet "net-a" "10.9.0.0/24"] [] "" true None)) = true.
Proof. by vm_compute. Qed.

(** The load balancer before the update, with changed fields. *)
Definition lbSpecOf (alg flavor : string) (port : Z) (pool : string) (hm : HealthMonitorSpec) : LoadBalancerSpec :=
  mkLoadBalancerSpec (Some true) alg flavor port "" pool hm.
Definition lbUpdate (lb : LoadBalancerSpec) : list string * option StatusInvalid :=
  updateOf (specOf "rma" "rma1" mainNet [] (lbSpecOf "round_robin" "lb-standard" 6443 "" (mkHealthMonitorSpec 5 3 2 3)) None)
    (specOf "rma" "rma1" mainNet [] lb None).

Example TestClusterValidateUpdate_LBFieldsImmutable :
  forallb (λ row, refusedFor ["controlPlaneLoadBalancer." +:+ fst row] (lbUpdate (snd row)))
    [("algorithm", lbSpecOf "least_connections" "lb-standard" 6443 "" (mkHealthMonitorSpec 5 3 2 3));
     ("flavor", lbSpecOf "round_robin" "lb-premium" 6443 "" (mkHealthMonitorSpec 5 3 2 3));
     ("apiServerPort", lbSpecOf "round_robin" "lb-standard" 8443 "" (mkHealthMonitorSpec 5 3 2 3));
     ("poolMemberNetwork", lbSpecOf "round_robin" "lb-standard" 6443 "aux" (mkHealthMonitorSpec 5 3 2 3));
     ("healthMonitor.delayS", lbSpecOf "round_robin" "lb-standard" 6443 "" (mkHealthMonitorSpec 10 3 2 3));
     ("healthMonitor.timeoutS", lbSpecOf "round_robin" "lb-standard" 6443 "" (mkHealthMonitorSpec 5 10 2 3));
     ("healthMonitor.upThreshold", lbSpecOf "round_robin" "lb-standard" 6443 "" (mkHealthMonitorSpec 5 3 9 3));
     ("healthMonitor.downThreshold", lbSpecOf "round_robin" "lb-standard" 6443 "" (mkHealthMonitorSpec 5 3 2 9))] = true.
Proof. by vm_compute. Qed.

Example TestClusterValidateUpdate_PoolMemberNetworkStrictlyImmutable :
  refusedFor ["controlPlaneLoadBalancer.poolMemberNetwork"]
    (updateOf base (specOf "rma" "rma1" mainNet [] (mkLoadBalancerSpec (Some true) "" "" 0 "" "main" (mkHealthMonitorSpec 0 0 0 0)) None)) = true.
Proof. by vm_compute. Qed.

Example TestClusterValidateDelete_AlwaysSucceeds : accepted (ValidateDelete (objectOf emptySpec)) = true.
Proof. by vm_compute. Qed.

(** ** Addresses in networks *)

Definition gatewayErrors (cidr gateway : string) : ErrorList :=
  validateAddressInCIDR someError cidr gateway [Child "spec"; Child "networks"; Child "gatewayAddress"].
Example TestValidateAddressInCIDR :
  gatewayErrors defaultSubnetCIDR "172.18.0.1" = [] ∧ length (gatewayErrors defaultSubnetCIDR "192.168.1.1") = 1%nat ∧
  length (gatewayErrors defaultSubnetCIDR "invalid") = 1%nat ∧
  Contains (errorsText (gatewayErrors defaultSubnetCIDR "invalid")) "invalid IP" = true ∧
  gatewayErrors "notacidr" "10.0.0.1" = [].
Proof. by vm_compute. Qed.

(** ** Machines (cloudscalemachine_webhook_test.go) *)

Definition specMachine (provider : option string) (flavor image : string) (size : Z) (tags : option (gmap string string))
    (sg : option ServerGroupSpec) (ifaces : option (list InterfaceSpec)) : CloudscaleMachine :=
  mkCloudscaleMachine (mkObjectMeta "" "" ∅ [] None) (mkCloudscaleMachineSpec provider flavor image size tags sg ifaces)
    (mkCloudscaleMachineStatus None "" [] "" []).
Definition plain : CloudscaleMachine := specMachine None "flex-8-4" "ubuntu-24.04" 50 None None None.
Definition withTags (tags : gmap string string) : CloudscaleMachine := specMachine None "flex-8-4" "ubuntu-24.04" 50 (Some tags) None None.
Definition withIfaces (l : list InterfaceSpec) : CloudscaleMachine := specMachine None "flex-8-4" "ubuntu-24.04" 50 None None (Some l).
Definition withProvider (id : option string) : CloudscaleMachine := specMachine id "flex-8-4" "ubuntu-24.04" 50 None None None.
Definition inGroup (name : string) : CloudscaleMachine :=
  specMachine None "flex-8-4" "ubuntu-24.04" 50 None (Some (mkServerGroupSpec name)) None.
Definition onPublic (family : option string) : InterfaceSpec := mkInterfaceSpec "public" "" family.
Definition onNet (family : option string) : InterfaceSpec := mkInterfaceSpec "" "my-network" family.

Definition createMachine : CloudscaleMachine → list string * option StatusInvalid := MachineValidateCreate (Some NewTestFlavorInfo).

Example TestMachineDefaulting_NoModification : MachineDefault (mspec plain) = mspec plain.
Proof. by vm_compute. Qed.

Example TestMachineValidateCreate_accepted :
  forallb (λ m, accepted (createMachine m))
    [plain; withTags {[ "env" := "production"; "team" := "platform" ]}; withIfaces [onPublic None]; withIfaces [onNet None];
     withIfaces [onNet None; onPublic (Some IPFamilyDualStack)]] = true.
Proof. by vm_compute. Qed.

Example TestMachineValidateCreate_refused :
  forallb (λ row, refusedFor (fst row) (createMachine (snd row)))
    [(["spec.flavor"; "unknown flavor"], specMachine None "flex-8-4-typo" "ubuntu-24.04" 50 None None None);
     (["capcs-"], withTags {[ "capcs-cluster-test" := "owned" ]});
     (["exactly one of type or network"], withIfaces [mkInterfaceSpec "public" "my-network" None]);
     (["exactly one of type or network"], withIfaces [mkInterfaceSpec "" "" None]);
     (["ipFamily can only be set on public interfaces"], withIfaces [onNet (Some IPFamilyDualStack)]);
     (["Too many"], withIfaces [onPublic None; onPublic None])] = true.
Proof. by vm_compute. Qed.

Example TestMachineValidateUpdate_accepted :
  forallb accepted [MachineValidateUpdate plain plain; MachineValidateUpdate plain (withTags {[ "env" := "staging" ]});
                    MachineValidateUpdate plain (withProvider (Some "cloudscale://aaa"))] = true.
Proof. by vm_compute. Qed.

Example TestMachineValidateUpdate_refused :
  forallb (λ row, refusedFor (fst row) (snd row))
    [(["spec.flavor"], MachineValidateUpdate plain (specMachine None "flex-16-8" "ubuntu-24.04" 50 None None None));
     (["spec.image"], MachineValidateUpdate plain (specMachine None "flex-8-4" "ubuntu-22.04" 50 None None None));
     (["spec.rootVolumeSize"], MachineValidateUpdate plain (specMachine None "flex-8-4" "ubuntu-24.04" 100 None None None));
     (["spec.providerID"], MachineValidateUpdate (withProvider (Some "cloudscale://aaa")) (withProvider (Some "cloudscale://bbb")));
     (["capcs-"], MachineValidateUpdate plain (withTags {[ "capcs-machine" := "test" ]}));
     (["spec.image"; "spec.rootVolumeSize"],
        MachineValidateUpdate plain (specMachine None "flex-8-4" "ubuntu-22.04" 100 None None None));
     (["spec.interfaces"], MachineValidateUpdate (withIfaces [onPublic None]) (withIfaces [onNet None]));
     (["spec.serverGroup"], MachineValidateUpdate (inGroup "group-a") (inGroup "group-b"))] = true.
Proof. by vm_compute. Qed.

Example TestMachineValidateDelete_AlwaysSucceeds : accepted (MachineValidateDelete plain) = true.
Proof. by vm_compute. Qed.

Example TestDefaultInterfaceIPFamily :
  defaultInterfaceIPFamily [onPublic None] = [onPublic (Some IPFamilyDualStack)] ∧
  defaultInterfaceIPFamily [onPublic (Some IPFamilyIPv4)] = [onPublic (Some IPFamilyIPv4)] ∧
  defaultInterfaceIPFamily [onNet None] = [onNet None] ∧ defaultInterfaceIPFamily [] = [] ∧
  defaultInterfaceIPFamily [onNet None; onPublic None] = [onNet None; onPublic (Some IPFamilyDualStack)].
Proof. by vm_compute. Qed.

(** ** Catalogues (regions_test.go, flavors_test.go) *)

Example TestRegionInfo :
  map (λ zr, Regions.ZoneBelongsToRegion NewTestRegionInfo (fst zr) (snd zr))
    [("rma1", "rma"); ("lpg1", "lpg"); ("rma1", "lpg"); ("lpg1", "rma"); ("xyz1", "rma"); ("rma1", "xyz")] =
    [true; true; false; false; false; false] ∧
  map (Regions.GetDefaultZoneForRegion NewTestRegionInfo) ["rma"; "lpg"; "xyz"] = ["rma1"; "lpg1"; ""] ∧
  map (Regions.IsValidZone NewTestRegionInfo) ["rma1"; "lpg1"; "xyz1"; ""] = [true; true; false; false] ∧
  bool_decide (Regions.GetAllRegions NewTestRegionInfo ≡ₚ ["rma"; "lpg"]) = true.
Proof. by vm_compute. Qed.

Definition smallAndGPU : Flavors.FlavorInfo :=
  Flavors.NewFlavorInfo [mkFlavor "small" 2 4 None; mkFlavor "gpu-large" 8 32 (Some (mkGPU 1))].
Example TestFlavorInfo :
  map (Flavors.IsValidFlavor smallAndGPU) ["small"; "gpu-large"; "non-existent"] = [true; true; false] ∧
  Flavor_Slug <$> Flavors.GetFlavor smallAndGPU "small" = Some "small" ∧ Flavors.GetFlavor smallAndGPU "non-existent" = None ∧
  Flavors.GetCapacity id smallAndGPU "small" = Ok {[ Flavors.ResourceCPU := "2"; Flavors.ResourceMemory := "4Gi" ]} ∧
  Flavors.GetCapacity id smallAndGPU "gpu-large" =
    Ok {[ Flavors.ResourceCPU := "8"; Flavors.ResourceMemory := "32Gi"; Flavors.ResourceNvidiaGPU := "1" ]} ∧
  Flavors.GetCapacity id smallAndGPU "unknown" = Err (errorString "unknown flavor: unknown") ∧
  bool_decide (Flavors.GetAllFlavors smallAndGPU ≡ₚ ["small"; "gpu-large"]) = true.
Proof. by vm_compute. Qed.
